(* ===== verification/_CoqProject ===== *)
-Q . S2P
Prelude.v
PyFloat.v
Contracts.v
Uuid.v
PyNumber.v
Idempotency.v
Llm.v
LlmConfig.v
ObsConfig.v
LlmTools.v
Prompts.v
Redaction.v
A2A.v
RiskModels.v
RiskStore.v
RiskScoring.v
RiskService.v
RiskScoringFacts.v
RiskServiceFacts.v
BillingModels.v
BillingRules.v
BillingStore.v
BillingService.v
BillingFacts.v
CaseModels.v
Drafter.v
Classifier.v
DecisionEngine.v
DecisionFacts.v
StateStore.v
Envelope.v
Telemetry.v
Async.v
LlmRuntime.v
Consumer.v
Normalize.v
Handlers.v
ProgLogic.v
DecisionBudget.v
DecisionSafety.v
Costs.v
Execution.v
LlmFacts.v
Providers.v
LangGraph.v
LlmDrafter.v
Transport.v
ConsumerFacts.v
ResolutionApp.v
Runtime.v
RuntimeFacts.v
Peers.v
PeerFacts.v
Executors.v
Choreography.v
EndToEnd.v
Scenarios.v
Intake.v
Workflow.v
Trace.v
TraceFacts.v
PollCache.v
Views.v
ViewFacts.v
Pages.v
DemoScenarios.v
Topics.v
Cli.v
CliFacts.v
Client.v
StoreFacts.v
Reaper.v
Service.v
Provenance.v
Startup.v
DevScripts.v
Witnesses.v
PlatformWitnesses.v
ServiceWitnesses.v
DemoWitnesses.v
