(* ===== verification/Prelude.v ===== *)
(** * Verification of the decentralised refund-operations agents

    Three agents settle customer tickets by events on a broker, with no
    orchestrator.  The Customer-Resolution agent owns the case: it reads a ticket,
    asks the Billing-Entitlement and the Risk-Fraud agents for an analysis each,
    and rules on their two domain results.  Everything the agents do goes through
    a shared foundation: envelopes and a payload registry, a consumer, an agent
    runtime that serves task requests, an LLM runtime for assistive text, audit
    records.  The development models the three agents and the foundation, and
    proves what the agents promise each other and their operators.  Paths below
    are relative to [src/]; the foundation is [src/src/agent_foundation].

    ** How the program is modelled

    - An exception is the [Err] of the type [result] below; a handler that catches
      one matches on it.  A method that mutates an object takes the object and
      returns it; the resolution agent's cases, which several coroutines share,
      live in a store and are referred to by their slot ([StateStore]).
    - A coroutine is a tree of atomic actions and awaits ([Async.prog]).  What is
      awaited (the broker, the discovery of peers, the LLM, a sleeping clock) is
      answered by an environment: a theorem that quantifies over the answers holds
      for every failure, one that asks for [acks] holds when the broker writes
      every record.  The broker may also refuse the start, the seek and the stop of a
      client ([Wire]).  [run] executes one coroutine alone; [step] interleaves
      the coroutines of one event loop at their awaits.
    - A [float] is an IEEE binary64 number ([PyFloat]); an [int] is a [Z]; a UUID
      is its 128-bit integer; an aware [datetime] is microseconds since the epoch;
      a [str] is its bytes, of which the code maps ASCII letters only.
    - A draw of [uuid4()] is the image of a counter under an injective function
      where distinct ids matter; a clock reading is the world's, and may advance
      between actions.

    ** The files

    Foundations.
    - [Prelude]: exceptions, Python strings, lists, ordered dicts, sorting; the
      tactics and the hint database.  [PyFloat]: floats, decimals and their texts.
      [Uuid] and [PyNumber]: UUIDs and numbers read from text.
    - [Contracts] ([packages/contracts/]): the domain payloads with their
      validators, the topics.  [A2A] ([a2a.py], [payloads/task.py]): messages, task
      requests and results.  [Envelope] ([envelope.py], [payloads/],
      [runtime/agent_card.py], [transport/topics.py], the envelope of
      [transport/publisher.py]): envelopes and the registry.
    - [Async]: coroutines and the event loop.  [Execution]: equations for [run].
    - [ObsConfig], [Telemetry] ([observability/]): the settings, the
      spans and generations around the code, the trace context of an envelope.

    The agents.
    - [RiskModels], [RiskStore], [RiskScoring], [RiskService]
      ([apps/agents/risk_fraud/]): signals, policy, the seeded data, the scoring
      engine, the service and its HTTP shells; facts in [RiskScoringFacts] and
      [RiskServiceFacts].
    - [BillingModels], [BillingStore], [BillingRules], [BillingService]
      ([apps/agents/billing_entitlement/]): the same parts of the billing agent;
      facts in [BillingFacts].
    - [CaseModels], [StateStore], [Classifier], [DecisionEngine], [Drafter],
      [Normalize], [Handlers] ([apps/agents/customer_resolution/]): the case, its
      store, classification, the truth table, the drafts, the normalisation of
      peers' results, every event handler and the reaper.  Facts in
      [DecisionFacts], [StoreFacts], [DecisionBudget] and [DecisionSafety].
      [Reaper] (the loop of [reaper.py]), [LlmDrafter] ([draft_with_llm]) and
      [ResolutionApp] ([agentcore_app.py]) hold their definitions and theorems.
    - [Peers] (their [main.py] and [identity.py]): what the two peers register on
      their runtimes; facts in [PeerFacts].  [Executors] ([app/*/main.py]): the three
      agents as A2A executors.
    - [Startup] (their [config.py], [apps/agents/common.py], the settings of the demo):
      what a process reads from its environment when it starts, and the cards of the A2A
      servers.
    - [Service] ([agent.py]): the resolution agent's process, its consumers, endpoint,
      reaper and background tasks on one event loop; [Costs]: the budget of decisions of
      its coroutines.
    - [ProgLogic]: the interface of a logic over coroutines, against which what the agents
      share (audits, discovery, the LLM runtime, the consumer, the endpoint) is shown to
      be harmless once; [DecisionBudget] and [Provenance] implement it.

    The platform.
    - [Idempotency] ([idempotency.py]): the tracker of processed events, and the
      interface [Dedup] the consumer and the runtime are proved against.
    - [Consumer] ([transport/consumer.py]) with [ConsumerFacts]; [Transport]: what
      one send can do under any broker.
    - [Runtime] ([runtime/runtime.py], the heartbeat) with [RuntimeFacts]; [Client]
      ([runtime/client.py]).
    - [Llm], [LlmRuntime] ([llm/]) with [LlmFacts]; [LlmConfig] ([llm/config.py]);
      [LlmTools] (the metadata filter and the answers of [llm/client.py],
      [llm/pricing.py], the registry of [llm/prompts.py]); [Prompts]: the text of a
      prompt; [Providers] ([llm/providers/],
      [llm/factory.py], the calls of [llm/client.py]); [LangGraph] ([llm/langgraph.py]);
      [Redaction] ([llm/redaction.py], [observability/redaction.py]).
    - [Trace], [Views] (the agent's [trace.py], [audit/store.py] and the readers of
      [apps/demo_ui]) with [TraceFacts] and [ViewFacts]; [PollCache] (the cache of
      [apps/demo_ui/config.py]), [Pages] ([app.py], [views/], [reasoning_summary.py]).
    - [Topics] ([transport/topics.py], the reading of the card topic), [Cli] ([cli.py],
      [apps/api/trace_case.py]) with [CliFacts]; [DevScripts]: the developer's scripts
      ([apps/agents/discover.py], [apps/api/], the two [dev_a2a_client.py]).

    The composition.
    - [Choreography]: the two analyses of a case and the decision they lead to.
      [EndToEnd]: the peers' recommendations carried to that decision.  [Intake]:
      the delegation.  [Workflow]: one ticket through the three agents on one log.
      [Scenarios]: schedules that show the limits.  [DemoScenarios]: what becomes of
      the tickets the demo's trigger page offers.  [Witnesses], [PlatformWitnesses],
      [ServiceWitnesses] and [DemoWitnesses]: the theorems at concrete inputs.

    ** The theorems

    - The workflow: a ticket about a purchase, delegated with all records written,
      is answered by both peers and decided once ([Workflow], [Choreography],
      [Intake], [Execution]); under any interleaving and any lost record, a case
      whose intake is over gets at most one decision, and none once it is closed
      ([DecisionSafety]); a sweep of
      the reaper decides every timed-out case ([Reaper]); an approval rests on the
      facts the peers own ([EndToEnd]).
    - The engines: each of the truth table, the billing rules and the scoring
      engine refines a decision list of its own ([DecisionFacts], [BillingFacts],
      [RiskScoringFacts]); approvals are characterised exactly.  The last two
      depart from the policies the repository documents, in one confidence of the
      refund policy and four weights of the fraud policy, and the theorems say on
      which inputs.
    - The store: its invariant, the lifecycle's order, the exclusive claim, the
      attachment of results, optimistic concurrency ([StoreFacts]).
    - The platform: an event is handled and a task performed at most once; every
      message is audited as the code audits it; which message stops an endpoint;
      a restarted tracker forgets nothing it could hold ([ConsumerFacts],
      [RuntimeFacts], [Idempotency]).
    - The LLM: its value is the provider's, the cache's or the fallback's; the
      calls are bounded; the failures that do not fall back; the audits that
      cannot be written ([LlmFacts]); what a draft of the LLM may say
      ([LlmDrafter]); which configuration layer wins ([LlmConfig]); the bounded
      metadata and the prompts that never decide ([LlmTools]); the numbers no
      redacted text value holds, and the keys that stay raw ([Redaction]).  The AgentCore entry point gives no verdict
      without both findings ([ResolutionApp]).
    - The default provider answers the schema it finds in the prompt; the settings
      the cloud providers ignore; one node of a graph returns the state it was given and
      its own keys ([Prompts], [Providers], [LangGraph]).
    - The process: how many decisions the composed service can publish, and what can
      take it down: the endpoint on one kind of message, or a consumer whose own start,
      seek or stop the broker refuses ([Service]).  An agent answers the same through Kafka,
      HTTP and A2A ([Executors]).  Telemetry never changes a result ([Telemetry]);
      what discovery keeps and loses when its topic is compacted, and the audit trail
      that never is ([Topics]); what the commands print
      ([CliFacts]); which settings stop a process or freeze it ([Startup]); the labels of
      the developer's clients hold against the agents' endpoints ([DevScripts]).
    - The views: the trace terminates and is in causal order; the timeline, stream
      and roster show what they are meant to ([TraceFacts], [ViewFacts]); a stale or a
      fresh read, one refresh per key ([PollCache]); filters, deep links and blank
      summaries of the pages ([Pages]); the scenarios of the demo, of which none is
      decided without a human ([DemoScenarios]).
    - Where the code does not do what it means to, the theorem states what it does.

    ** Fuel and bounds

    Recursion is structural wherever the data is.  The breadth-first search of
    [trace_case] has fuel 2n for n events, and [trace_terminates] shows it never
    runs out.  The repair loop of the LLM runtime recurses on its attempts
    counter.  The consumer's, the runtime's and the client's loops recurse on the
    list of what the broker yields: a finite run of the program.  The periodic loops
    (heartbeat, cards, reaper) recurse on the number of turns they are given, and the
    pauses between two turns on theirs; the theorems hold for every number.  The LRU
    holds 10000 ids, as the code's default.  Integers of the code are unbounded, as
    Python's.

    ** What is assumed

    Third-party code is a parameter: pydantic's validation of raw JSON
    ([parse_envelope] and the [validate] arguments, the class [Fields]), the JSON
    codec and the hash (the classes of [Llm]), the YAML reader, the printing of a
    UUID where its text is only copied; boto3's client, the Langfuse and OpenTelemetry
    SDKs, the a2a-sdk's task updater and Streamlit's widgets, as records of operations,
    events or values.
    The iteration order of a frozenset is an argument.  The broker, discovery and
    the LLM answer as the environment says.

    ** What is not modelled

    - Broker I/O: connections, offsets, consumer groups; the AgentCore memory and the
      servers' sockets.
    - The set-up of structlog and of the OpenTelemetry exporter; log lines.
    - The spans are not written into the handlers' definitions: [Telemetry] shows, once
      for every program, that they do not change what it does.
    - Python's case mappings beyond ASCII, and the Unicode classes of the regular
      expressions outside [Redaction], which has them (from Unicode 15.0).
    - The parsing of command lines, signal handlers and the event loop's start-up, which
      only call the modelled operations; Streamlit's reruns and layout. *)

From Stdlib Require Import ZArith Lia List String Ascii Bool DecimalString Sorted.
From stdpp Require Import base list strings gmap option.

#[export] Set Default Proof Using "Type".

(** ** Exceptions and fallible computations *)

(** The exceptions the modelled code raises or lets through.  The message is
    kept because handlers copy it into audit records and task errors. *)
Inductive exn : Type :=
| ValueError (msg : string)
| KeyError (msg : string)
| ValidationError (msg : string)
| JSONDecodeError (msg : string)
| UnknownEventType (event_type : string)
| PeerUnavailable (msg : string)
| AttributeError (msg : string)
| CaseSaveConflict (msg : string)
| IOError (msg : string).

Inductive result (A : Type) : Type :=
| Ok (a : A)
| Err (e : exn).
Arguments Ok {A} a.
Arguments Err {A} e.

#[export] Instance result_ret : MRet result := fun A a => Ok a.
#[export] Instance result_bind : MBind result :=
  fun A B f m => match m with Ok a => f a | Err e => Err e end.
#[export] Instance result_fmap : FMap result :=
  fun A B f m => match m with Ok a => Ok (f a) | Err e => Err e end.

(** [is_ok r] holds when [r] is a value, not a raised exception. *)
Definition is_ok {A} (r : result A) : Prop := exists a, r = Ok a.

(** ** Python strings

    A Python [str] is its UTF-8 encoding, a [String.string].  Case mapping acts
    on ASCII letters only, as the vocabularies the code compares with are ASCII. *)

Definition lower_ascii (c : ascii) : ascii :=
  let n := N_of_ascii c in
  if (N.leb 65 n && N.leb n 90)%bool then ascii_of_N (n + 32) else c.

Fixpoint py_lower (s : string) : string :=
  match s with
  | EmptyString => EmptyString
  | String c s' => String (lower_ascii c) (py_lower s')
  end.

(** [sub in s] *)
Fixpoint py_contains (sub s : string) : bool :=
  String.prefix sub s ||
  match s with
  | EmptyString => false
  | String _ s' => py_contains sub s'
  end.

Definition is_space (c : ascii) : bool :=
  let n := N_of_ascii c in
  (N.eqb n 32 || (N.leb 9 n && N.leb n 13) || (N.leb 28 n && N.leb n 31))%bool.

Fixpoint py_lstrip (s : string) : string :=
  match s with
  | EmptyString => EmptyString
  | String c s' => if is_space c then py_lstrip s' else s
  end.

Fixpoint py_rstrip (s : string) : string :=
  match s with
  | EmptyString => EmptyString
  | String c s' =>
      match py_rstrip s' with
      | EmptyString => if is_space c then EmptyString else String c EmptyString
      | r => String c r
      end
  end.

Definition py_strip (s : string) : string := py_rstrip (py_lstrip s).

(** [len(s)]: code points, that is the bytes that do not continue a sequence. *)
Definition is_continuation (c : ascii) : bool :=
  let n := N_of_ascii c in (N.leb 128 n && N.ltb n 192)%bool.

Fixpoint py_len (s : string) : nat :=
  match s with
  | EmptyString => 0
  | String c s' => (if is_continuation c then 0 else 1) + py_len s'
  end.

(** [s[:n]] for a non-negative [n]: the first [n] code points. *)
Fixpoint py_take (n : nat) (s : string) : string :=
  match s with
  | EmptyString => EmptyString
  | String c s' =>
      if is_continuation c then String c (py_take n s')
      else match n with
           | O => EmptyString
           | S n' => String c (py_take n' s')
           end
  end.

(** The characters of a string: a byte and the continuation bytes that follow it. *)
Definition starts_inside (s : string) : bool :=
  match s with String c _ => is_continuation c | EmptyString => false end.

Fixpoint py_chars (s : string) : list string :=
  match s with
  | EmptyString => []
  | String c s' =>
      match py_chars s' with
      | x :: l => if starts_inside s' then String c x :: l else String c EmptyString :: x :: l
      | [] => [String c EmptyString]
      end
  end.

(** The text of some characters. *)
Definition text_of (l : list string) : string := fold_right String.append EmptyString l.

Fixpoint all_continue (s : string) : bool :=
  match s with String c s' => (is_continuation c && all_continue s')%bool | EmptyString => true end.

(** One character: a byte, and bytes that continue it; [fresh] when the byte itself does not
    continue the character before. *)
Definition one_char (fresh : bool) (x : string) : bool :=
  match x with
  | String c s' => (negb (fresh && is_continuation c) && all_continue s')%bool
  | EmptyString => false
  end.

Definition char_list (l : list string) : Prop :=
  match l with
  | [] => True
  | x :: l' => one_char false x = true ∧ Forall (λ y, one_char true y = true) l'
  end.

(** [sep.join(l)] *)
Definition py_join (sep : string) (l : list string) : string := String.concat sep l.

(** [s.replace(old, new)] for a text [old] that is not empty. *)
Fixpoint replace_from (old new : string) (skip : nat) (s : string) : string :=
  match s with
  | EmptyString => EmptyString
  | String c s' =>
      match skip with
      | S k => replace_from old new k s'
      | O => if String.prefix old s then new +:+ replace_from old new (Nat.pred (String.length old)) s'
             else String c (replace_from old new 0 s')
      end
  end.

Definition py_replace (old new s : string) : string := replace_from old new 0 s.

(** ["\n"] *)
Definition newline : string := String "010" EmptyString.

(** [str(z)] for an [int]. *)
Definition str_of_Z (z : Z) : string := NilZero.string_of_int (Z.to_int z).

Definition py_str_bool (b : bool) : string := if b then "True" else "False".

Definition single_quote : ascii := "'"%char.
Definition double_quote : ascii := "034"%char.

Definition hex_digit (n : N) : ascii :=
  if N.ltb n 10 then ascii_of_N (48 + n) else ascii_of_N (87 + n).

Fixpoint repr_body (q : ascii) (s : string) : string :=
  match s with
  | EmptyString => EmptyString
  | String c s' =>
      let n := N_of_ascii c in
      let rest := repr_body q s' in
      if Ascii.eqb c "\"%char then String "\"%char (String "\"%char rest)
      else if Ascii.eqb c q then String "\"%char (String q rest)
      else if N.eqb n 10 then String "\"%char (String "n"%char rest)
      else if N.eqb n 13 then String "\"%char (String "r"%char rest)
      else if N.eqb n 9 then String "\"%char (String "t"%char rest)
      else if (N.ltb n 32 || N.eqb n 127)%bool then
        String "\"%char (String "x"%char
          (String (hex_digit (N.div n 16)) (String (hex_digit (N.modulo n 16)) rest)))
      else String c rest
  end.

(** [repr(s)]: single quotes unless the text has a single and no double quote. *)
Definition py_repr_str (s : string) : string :=
  let has c := py_contains (String c EmptyString) s in
  let q := if (has single_quote && negb (has double_quote))%bool
           then double_quote else single_quote in
  String q (repr_body q s +:+ String q EmptyString).

(** [str(exc)]; a [KeyError], of which [UnknownEventType] is a subclass, prints
    the [repr] of its message. *)
Definition exn_str (e : exn) : string :=
  match e with
  | ValueError m | ValidationError m | JSONDecodeError m | AttributeError m
  | PeerUnavailable m | CaseSaveConflict m | IOError m => m
  | KeyError m => py_repr_str m
  | UnknownEventType event_type =>
      py_repr_str ("No payload model registered for event_type=" +:+ py_repr_str event_type)
  end.

(** Truthiness of a [str] and the [a or b] idiom on strings. *)
Definition str_truthy (s : string) : bool :=
  match s with EmptyString => false | _ => true end.

Definition str_or (a b : string) : string := if str_truthy a then a else b.

Definition str_in (s : string) (l : list string) : bool :=
  existsb (String.eqb s) l.

(** [list(dict.fromkeys(l))]: the first occurrences, in order. *)
Fixpoint dedup_from (seen l : list string) : list string :=
  match l with
  | [] => []
  | x :: l' => if str_in x seen then dedup_from seen l'
               else x :: dedup_from (x :: seen) l'
  end.

Definition dict_fromkeys (l : list string) : list string := dedup_from [] l.

Definition bool_of_option {A} (o : option A) : bool :=
  match o with Some _ => true | None => false end.

(** A decision list: the value of the first row whose condition holds. *)
Definition first_match {A} (rows : list (bool * A)) (otherwise : A) : A :=
  match List.find fst rows with Some (_, a) => a | None => otherwise end.

(** ** Lemmas on the prelude's functions *)

Lemma prefix_app a b : String.prefix a (a +:+ b) = true.
Proof.
  induction a as [|c a IH]; [by destruct b|].
  change (String c a +:+ b) with (String c (a +:+ b)). cbn. by destruct (ascii_dec c c).
Qed.

(** [c] does not occur in [s]. *)
Fixpoint free_of (c : ascii) (s : string) : Prop :=
  match s with EmptyString => True | String d s' => c ≠ d ∧ free_of c s' end.

Lemma prefix_break sub a c b :
  free_of c sub → String.prefix sub (a +:+ String c b) = true → String.prefix sub a = true.
Proof.
  revert a. induction sub as [|d sub IH]; intros a; [by destruct a|].
  cbn. intros [Hd Hsub].
  destruct a as [|e a].
  - change ("" +:+ String c b) with (String c b). cbn. destruct (ascii_dec d c); congruence.
  - change (String e a +:+ String c b) with (String e (a +:+ String c b)). cbn.
    destruct (ascii_dec d e); [by apply IH|done].
Qed.

Lemma py_contains_break sub a c b :
  free_of c sub → py_contains sub (a +:+ String c b) = true →
  py_contains sub a = true ∨ py_contains sub b = true.
Proof.
  intros Hsub. induction a as [|d a IH].
  - change (py_contains sub ("" +:+ String c b))
      with (String.prefix sub ("" +:+ String c b) || py_contains sub b).
    rewrite orb_true_iff. intros [Hp|Hp]; [|by right].
    left. apply prefix_break in Hp; [|done]. change (py_contains sub "") with (String.prefix sub "" || false).
    by rewrite Hp.
  - change (py_contains sub (String d a +:+ String c b))
      with (String.prefix sub (String d a +:+ String c b) || py_contains sub (a +:+ String c b)).
    change (py_contains sub (String d a)) with (String.prefix sub (String d a) || py_contains sub a).
    rewrite !orb_true_iff. intros [Hp|Hp].
    + left. left. by eapply prefix_break.
    + destruct (IH Hp); auto.
Qed.

Lemma str_in_spec s l : str_in s l = true ↔ s ∈ l.
Proof.
  unfold str_in. rewrite existsb_exists. split.
  - intros (x & Hx & ->%String.eqb_eq). by apply list_elem_of_In.
  - intros H. exists s. split; [by apply list_elem_of_In|apply String.eqb_refl].
Qed.

Lemma elem_of_dedup_from x seen l : x ∈ dedup_from seen l ↔ x ∈ l ∧ x ∉ seen.
Proof.
  revert seen. induction l as [|y l IH]; intros seen; cbn; [set_solver|].
  destruct (str_in y seen) eqn:E.
  - apply str_in_spec in E. rewrite IH. set_solver.
  - assert (y ∉ seen) as Hy by (rewrite <- str_in_spec; congruence).
    rewrite !elem_of_cons, IH. destruct (decide (x = y)); set_solver.
Qed.

Lemma NoDup_dedup_from seen l : NoDup (dedup_from seen l).
Proof.
  revert seen. induction l as [|y l IH]; intros seen; cbn; [constructor|].
  destruct (str_in y seen); [apply IH|].
  constructor; [|apply IH]. rewrite elem_of_dedup_from. set_solver.
Qed.

Lemma NoDup_dict_fromkeys l : NoDup (dict_fromkeys l).
Proof. apply NoDup_dedup_from. Qed.

Lemma elem_of_dict_fromkeys x l : x ∈ dict_fromkeys l ↔ x ∈ l.
Proof. unfold dict_fromkeys. rewrite elem_of_dedup_from. set_solver. Qed.

(** *** The characters of a text *)

Lemma text_of_chars s : text_of (py_chars s) = s.
Proof.
  induction s as [|c s IH]; [done|]. cbn [py_chars]. destruct (py_chars s) as [|x l].
  { by rewrite <- IH. }
  rewrite <- IH at 2. by destruct (starts_inside s).
Qed.

Lemma fresh_chars l :
  Forall (λ y, one_char true y = true) l → starts_inside (text_of l) = false.
Proof.
  intros Hl. destruct l as [|x l]; [reflexivity|]. apply list.Forall_cons in Hl as [Hx _].
  destruct x as [|c x]; [discriminate Hx|]. change (is_continuation c = false).
  cbn -[is_continuation] in Hx. by destruct (is_continuation c).
Qed.

(** A list of characters is read back from its text. *)
Lemma chars_cons c t l :
  all_continue t = true → Forall (λ y, one_char true y = true) l → py_chars (text_of l) = l →
  py_chars (text_of (String c t :: l)) = String c t :: l.
Proof.
  revert c. induction t as [|d t IH]; intros c Ht Hl Hr.
  - change (text_of (String c EmptyString :: l)) with (String c (text_of l)).
    cbn [py_chars]. rewrite Hr, (fresh_chars l Hl). by destruct l.
  - apply andb_prop in Ht as [Hd Ht].
    change (text_of (String c (String d t) :: l)) with (String c (text_of (String d t :: l))).
    cbn [py_chars]. rewrite (IH d Ht Hl Hr).
    change (starts_inside (text_of (String d t :: l))) with (is_continuation d). by rewrite Hd.
Qed.

Lemma chars_text_of l : char_list l → py_chars (text_of l) = l.
Proof.
  assert (Hl : ∀ l, Forall (λ y, one_char true y = true) l → py_chars (text_of l) = l).
  { intros l'. induction l' as [|x l' IH]; [done|]. intros [Hx Hl]%list.Forall_cons.
    destruct x as [|c t]; [discriminate Hx|]. apply andb_prop in Hx as [_ Hx].
    apply chars_cons; [done..|by apply IH]. }
  destruct l as [|x l']; [done|]. intros [Hx Hf]. destruct x as [|c t]; [discriminate Hx|].
  apply chars_cons; [exact Hx|done|by apply Hl].
Qed.

Lemma chars_wf s : char_list (py_chars s).
Proof.
  induction s as [|c s IH]; [exact I|]. cbn [py_chars]. pose proof (text_of_chars s) as Ht.
  destruct (py_chars s) as [|x l].
  { split; [reflexivity|by apply list.Forall_nil]. }
  destruct IH as [Hx Hl]. destruct x as [|d t]; [discriminate Hx|].
  assert (Hs : starts_inside s = is_continuation d) by (by rewrite <- Ht).
  rewrite Hs. change (all_continue t = true) in Hx. destruct (is_continuation d) eqn:Ed.
  - split; [|done]. change (is_continuation d && all_continue t = true)%bool. by rewrite Ed.
  - split; [done|]. apply list.Forall_cons. split; [|done].
    change (negb (is_continuation d) && all_continue t = true)%bool. by rewrite Ed.
Qed.

(** ** Lists *)

Lemma elem_of_filter_bool {A} (f : A → bool) x l :
  x ∈ List.filter f l ↔ x ∈ l ∧ f x = true.
Proof. by rewrite !list_elem_of_In, filter_In. Qed.

Lemma filter_all {A} (f : A → bool) l : (∀ x, x ∈ l → f x = true) → List.filter f l = l.
Proof.
  induction l as [|x l IH]; intros H; cbn; [done|].
  rewrite H by (by left). f_equal. apply IH. intros y Hy. apply H. by right.
Qed.

Lemma filter_none {A} (f : A → bool) l : (∀ x, x ∈ l → f x = false) → List.filter f l = [].
Proof.
  induction l as [|x l IH]; intros H; cbn; [done|].
  rewrite H by (by left). apply IH. intros y Hy. apply H. by right.
Qed.

Lemma filter_length_le {A} (f : A → bool) l : length (List.filter f l) ≤ length l.
Proof. induction l as [|x l IH]; cbn; [done|]. destruct (f x); cbn; lia. Qed.

Lemma NoDup_filter_bool {A} (f : A → bool) l : NoDup l → NoDup (List.filter f l).
Proof.
  induction 1 as [|x l Hx Hl IH]; cbn; [constructor|]. destruct (f x); [|done].
  constructor; [|done]. rewrite elem_of_filter_bool. tauto.
Qed.

Lemma nodup_map_inj {A B} (f : A → B) l x y :
  NoDup (map f l) → x ∈ l → y ∈ l → f x = f y → x = y.
Proof.
  induction l as [|z l IH]; cbn; [set_solver|]. intros [Hz Hl]%list.NoDup_cons Hx Hy Hxy.
  apply elem_of_cons in Hx as [->|Hx], Hy as [->|Hy]; [done| | |by apply IH].
  - exfalso. apply Hz. rewrite Hxy. by apply (list_elem_of_fmap_2 f).
  - exfalso. apply Hz. rewrite <- Hxy. by apply (list_elem_of_fmap_2 f).
Qed.

(** ** Log compaction: a record may be gone when a later one has its key *)

Inductive compacts {A K} (key : A → K) : list A → list A → Prop :=
| compact_nil : compacts key [] []
| compact_keep r l l' : compacts key l l' → compacts key (r :: l) (r :: l')
| compact_drop r r' l l' :
    r' ∈ l → key r' = key r → compacts key l l' → compacts key (r :: l) l'.

Lemma compacts_incl {A K} (key : A → K) l l' r : compacts key l l' → r ∈ l' → r ∈ l.
Proof. induction 1; set_solver. Qed.

(** Of a log whose keys are all different, compaction removes nothing. *)
Lemma compacts_distinct {A K} (key : A → K) l l' : NoDup (map key l) → compacts key l l' → l' = l.
Proof.
  intros Hnd Hc. induction Hc as [|r l l' Hc IH|r r' l l' Hin Hk Hc IH]; [done| |];
    cbn in Hnd; apply list.NoDup_cons in Hnd as [Hnot Hnd].
  - by rewrite IH.
  - exfalso. apply Hnot. rewrite <- Hk. by apply list_elem_of_fmap_2.
Qed.

(** ** [list.sort(key=...)]: stable *)

Section Sorting.
Context {A : Type} (key : A → Z).

Fixpoint insert_by (x : A) (l : list A) : list A :=
  match l with
  | [] => [x]
  | y :: l' => if Z.leb (key x) (key y) then x :: l else y :: insert_by x l'
  end.

Definition sort_by (l : list A) : list A := foldr insert_by [] l.

(** [min(l, key=...)]: the first of the least elements. *)
Definition min_by (x : A) (l : list A) : A :=
  fold_left (λ m y, if Z.ltb (key y) (key m) then y else m) l x.

Lemma insert_by_perm x l : insert_by x l ≡ₚ x :: l.
Proof.
  induction l as [|y l IH]; cbn; [done|]. destruct (Z.leb _ _); [done|].
  rewrite IH. apply Permutation_swap.
Qed.

Lemma sort_by_perm l : sort_by l ≡ₚ l.
Proof.
  induction l as [|x l IH]; cbn; [done|]. rewrite insert_by_perm. by rewrite IH.
Qed.

Lemma insert_by_sorted x l :
  StronglySorted (λ a b, (key a <= key b)%Z) l →
  StronglySorted (λ a b, (key a <= key b)%Z) (insert_by x l).
Proof.
  induction 1 as [|y l Hs IH Hall]; cbn; [repeat constructor|].
  destruct (Z.leb_spec (key x) (key y)) as [Hle|Hlt].
  - constructor; [by constructor|]. constructor; [done|].
    revert Hall. apply List.Forall_impl. lia.
  - constructor; [done|]. rewrite insert_by_perm. constructor; [lia|done].
Qed.

Lemma sort_by_sorted l : StronglySorted (λ a b, (key a <= key b)%Z) (sort_by l).
Proof. induction l as [|x l IH]; cbn; [constructor|]. by apply insert_by_sorted. Qed.

Lemma min_by_in x l : min_by x l ∈ x :: l.
Proof.
  revert x. induction l as [|y l IH]; intros x; cbn; [set_solver|].
  destruct (Z.ltb _ _); [specialize (IH y)|specialize (IH x)]; unfold min_by in IH; set_solver.
Qed.
End Sorting.

(** ** [d[k] = v] on the items of a dict: in place when the key is there *)

Section Items.
Context {K V : Type} `{EqDecision K}.

Fixpoint items_put (k : K) (v : V) (d : list (K * V)) : list (K * V) :=
  match d with
  | [] => [(k, v)]
  | (k', v') :: d' => if decide (k' = k) then (k, v) :: d' else (k', v') :: items_put k v d'
  end.

(** [d.get(k)] *)
Definition items_get (k : K) (d : list (K * V)) : option V :=
  snd <$> List.find (λ kv, bool_decide (kv.1 = k)) d.

Lemma items_get_put k v d k' :
  items_get k' (items_put k v d) = if decide (k = k') then Some v else items_get k' d.
Proof.
  unfold items_get. induction d as [|[k0 v0] d IH]; cbn.
  - case_bool_decide; by case_decide.
  - destruct (decide (k0 = k)) as [->|Hne]; cbn; [by case_bool_decide; case_decide|].
    destruct (decide (k = k')) as [->|Hne'].
    + rewrite bool_decide_eq_false_2 by done. exact IH.
    + by case_bool_decide.
Qed.

Lemma items_keys_put k v d :
  (items_put k v d).*1 = if decide (k ∈ d.*1) then d.*1 else d.*1 ++ [k].
Proof.
  induction d as [|[k0 v0] d IH]; cbn; [by rewrite decide_False by set_solver|].
  destruct (decide (k0 = k)) as [->|Hne]; cbn.
  - by rewrite decide_True by set_solver.
  - rewrite IH. destruct (decide (k ∈ d.*1)); [rewrite decide_True by set_solver|
      rewrite decide_False by set_solver]; done.
Qed.

Lemma items_put_nodup k v d : NoDup d.*1 → NoDup (items_put k v d).*1.
Proof.
  intros Hd. rewrite items_keys_put. case_decide; [done|].
  apply list.NoDup_app. split; [done|]. split; [set_solver|]. apply NoDup_singleton.
Qed.

Lemma items_get_elem k v d : NoDup d.*1 → items_get k d = Some v ↔ (k, v) ∈ d.
Proof.
  unfold items_get. induction d as [|[k0 v0] d IH]; cbn; [set_solver|].
  intros [Hnot Hd]%list.NoDup_cons. case_bool_decide as Hk; cbn in Hk.
  - subst k0. cbn. split; [intros [= ->]; by left|].
    intros [[= ->]|Hin]%elem_of_cons; [done|]. exfalso. apply Hnot.
    by apply (list_elem_of_fmap_2 fst _ (k, v)).
  - rewrite IH by done. split; [by right|]. by intros [[= -> ->]|?]%elem_of_cons.
Qed.
End Items.

Create HintDb py.
#[export] Hint Resolve NoDup_dict_fromkeys : py.

(** Case analysis on the innermost test or match of the goal. *)
Ltac split_ifs := repeat (case_match; simplify_eq/=; try done).

(** Inversion of a computation known to return a value. *)
Ltac ok_inv :=
  repeat match goal with
  | H : Ok _ = Ok _ |- _ => injection H as H; try subst
  | H : Err _ = Ok _ |- _ => discriminate H
  | H : Ok _ = Err _ |- _ => discriminate H
  | H : Err _ = Err _ |- _ => injection H as H; try subst
  end.
