(* ===== verification/PyFloat.v ===== *)
(** * Python floats

    A Python [float] is an IEEE 754 binary64 number: the standard library's
    executable [spec_float] at precision 53 and maximal exponent 1024, with
    round-to-nearest-even.  The comparison operators, [min], [max], [round],
    [repr] and the fixed-point format are those the agents use. *)

From Stdlib Require Import ZArith Lia Bool Ascii String List.
From Stdlib.Floats Require Import SpecFloat.
From stdpp Require Import base list strings.
From S2P Require Import Prelude.

Open Scope Z_scope.

Definition prec : Z := 53.
Definition emax : Z := 1024.

Abbreviation float := spec_float.

Declare Scope pyfloat_scope.
Delimit Scope pyfloat_scope with pf.
Bind Scope pyfloat_scope with spec_float.

Definition fadd : float -> float -> float := SFadd prec emax.
Definition fsub : float -> float -> float := SFsub prec emax.
Definition fmul : float -> float -> float := SFmul prec emax.
Definition fdiv : float -> float -> float := SFdiv prec emax.
Definition fabs : float -> float := SFabs.
Definition flt : float -> float -> bool := SFltb.
Definition fle : float -> float -> bool := SFleb.
Definition feq : float -> float -> bool := SFeqb.

Infix "+" := fadd : pyfloat_scope.
Infix "-" := fsub : pyfloat_scope.
Infix "*" := fmul : pyfloat_scope.
Infix "/" := fdiv : pyfloat_scope.
Infix "<?" := flt : pyfloat_scope.
Infix "<=?" := fle : pyfloat_scope.
Infix "=?" := feq : pyfloat_scope.
Notation "x >? y" := (flt y x) (only parsing) : pyfloat_scope.
Notation "x >=? y" := (fle y x) (at level 70, no associativity, only parsing) : pyfloat_scope.

(** [min(a, b)] and [max(a, b)]: the second argument replaces the first only
    when it is strictly smaller (larger). *)
Definition fmin (a b : float) : float := if (b <? a)%pf then b else a.
Definition fmax (a b : float) : float := if (b >? a)%pf then b else a.

(** [min(l)] of a non-empty list, the first element given apart. *)
Definition fmin_list (x : float) (l : list float) : float := fold_left fmin l x.

Definition is_nan (x : float) : bool :=
  match x with S754_nan => true | _ => false end.

Definition is_finite (x : float) : bool :=
  match x with S754_zero _ | S754_finite _ _ _ => true | _ => false end.

(** Truthiness of a float: every value but the two zeros. *)
Definition float_truthy (x : float) : bool :=
  match x with S754_zero _ => false | _ => true end.

(** ** Conversions *)

(** The float nearest to [num / den] (ties to even), with the sign [s]. *)
Definition lit_signed (s : bool) (num : Z) (den : positive) : float :=
  match num with
  | Zpos _ =>
      let '(m, e, l) := SFdiv_core_binary prec emax num 0 (Zpos den) 0 in
      binary_round_aux prec emax s m e l
  | _ => S754_zero s
  end.

Definition lit (num : Z) (den : positive) : float :=
  lit_signed (Z.ltb num 0) (Z.abs num) den.

(** [float(z)] for an [int]. *)
Definition float_of_Z (z : Z) : float := lit z 1.

(** ** Decimal digits of a float *)

(** [round_div n d]: the integer nearest to [n / d] for [0 <= n], [0 < d],
    ties to even. *)
Definition round_div (n d : Z) : Z :=
  let q := n / d in
  let r := n mod d in
  match Z.compare (2 * r) d with
  | Lt => q
  | Gt => q + 1
  | Eq => if Z.even q then q else q + 1
  end.

(** The magnitude [m * 2^e] as a fraction. *)
Definition mag_num (m : positive) (e : Z) : Z := Zpos m * 2 ^ Z.max e 0.
Definition mag_den (e : Z) : Z := 2 ^ Z.max (- e) 0.

(** [m * 2^e * 10^k] rounded to an integer, ties to even. *)
Definition scaled (m : positive) (e k : Z) : Z :=
  round_div (mag_num m e * 10 ^ Z.max k 0) (mag_den e * 10 ^ Z.max (- k) 0).

(** The float nearest to the decimal [d * 10^k]. *)
Definition lit_dec (s : bool) (d k : Z) : float :=
  lit_signed s (d * 10 ^ Z.max k 0) (Z.to_pos (10 ^ Z.max (- k) 0)).

(** [round(x, n)] for a non-negative [n]: the correctly rounded decimal with
    [n] fractional digits, read back as a float. *)
Definition py_round (x : float) (n : Z) : float :=
  match x with
  | S754_finite s m e => lit_dec s (scaled m e n) (- n)
  | _ => x
  end.

(** Left-pad the decimal digits of [z] with zeros to at least [n] places. *)
Fixpoint zeros (n : nat) : string :=
  match n with O => EmptyString | S n' => String "0"%char (zeros n') end.

Definition pad_digits (n : nat) (z : Z) : string :=
  let s := str_of_Z z in zeros (n - String.length s) +:+ s.

(** [f"{x:.nf}"] *)
Definition fmt_fixed (n : nat) (x : float) : string :=
  let body (s : bool) (q : Z) : string :=
    let p : Z := (10 ^ Z.of_nat n)%Z in
    (if s then "-" else "") +:+ str_of_Z (q / p) +:+
    match n with O => "" | _ => "." +:+ pad_digits n (q mod p) end in
  match x with
  | S754_zero s => body s 0
  | S754_infinity s => if s then "-inf" else "inf"
  | S754_nan => "nan"
  | S754_finite s m e => body s (scaled m e (Z.of_nat n))
  end.

(** [m * 2^e < 10^k] *)
Definition below_pow10 (m : positive) (e k : Z) : bool :=
  mag_num m e * 10 ^ Z.max (- k) 0 <? mag_den e * 10 ^ Z.max k 0.

(** The decimal exponent [k] with [10^(k-1) <= m*2^e < 10^k], by search down
    from an upper bound; 750 steps cover the binary64 range. *)
Fixpoint dec_exp (fuel : nat) (m : positive) (e k : Z) : Z :=
  match fuel with
  | O => k
  | S f => if below_pow10 m e (k - 1) then dec_exp f m e (k - 1) else k
  end.

(** The smallest [k] with [m * 2^e < 10^k]: the estimate from the binary
    length is above it by at most two. *)
Definition decimal_exponent (m : positive) (e : Z) : Z :=
  let bits := Z.log2 (Zpos m) + 1 + e in
  dec_exp 4 m e ((bits * 30103) / 100000 + 2).

(** Drop the trailing zeros of [d * 10^k]. *)
Fixpoint strip_zeros (fuel : nat) (d k : Z) : Z * Z :=
  match fuel with
  | O => (d, k)
  | S f => if (Z.eqb (d mod 10) 0 && negb (Z.eqb d 0))%bool
           then strip_zeros f (d / 10) (k + 1) else (d, k)
  end.

(** The shortest decimal [d * 10^k] that reads back as [m * 2^e]: 17
    significant digits always suffice. *)
Fixpoint shortest_from (fuel : nat) (n : Z) (m : positive) (e : Z) : Z * Z :=
  let k := n - decimal_exponent m e in
  let d := scaled m e k in
  match fuel with
  | O => strip_zeros 20 d (- k)
  | S f => if feq (lit_dec false d (- k)) (S754_finite false m e)
           then strip_zeros 20 d (- k)
           else shortest_from f (n + 1) m e
  end.

Definition shortest (m : positive) (e : Z) : Z * Z := shortest_from 16 1 m e.

(** [repr(x)], which is also [str(x)]: positional notation when the decimal
    exponent is in [[-4, 16)], scientific notation otherwise. *)
Definition py_repr_float (x : float) : string :=
  match x with
  | S754_zero s => if s then "-0.0" else "0.0"
  | S754_infinity s => if s then "-inf" else "inf"
  | S754_nan => "nan"
  | S754_finite s m e =>
      let '(d, k) := shortest m e in
      let digits := str_of_Z d in
      let nd := Z.of_nat (String.length digits) in
      let point := nd + k in
      (if s then "-" else "") +:+
      (if (Z.ltb (-4) point && Z.leb point 16)%bool then
         if Z.leb 0 k then digits +:+ zeros (Z.to_nat k) +:+ ".0"
         else if Z.ltb 0 point then
           String.substring 0 (Z.to_nat point) digits +:+ "." +:+
           String.substring (Z.to_nat point) (Z.to_nat (nd - point)) digits
         else "0." +:+ zeros (Z.to_nat (- point)) +:+ digits
       else
         let ex := point - 1 in
         String.substring 0 1 digits +:+
         (if Z.ltb 1 nd then "." +:+ String.substring 1 (Z.to_nat (nd - 1)) digits else "") +:+
         "e" +:+ (if Z.ltb ex 0 then "-" else "+") +:+ pad_digits 2 (Z.abs ex))
  end.

(** ** decimal.Decimal *)

(** A finite [Decimal]: [(-1)^dec_sign * dec_coef * 10^dec_exponent]. *)
Record Decimal := {
  dec_sign : bool;
  dec_coef : Z;
  dec_exponent : Z;
}.

(** [Decimal("0.00")] *)
Definition dec_zero : Decimal := {| dec_sign := false; dec_coef := 0; dec_exponent := -2 |}.

(** [Decimal(str(x))], on a finite float: [str] writes one fractional digit
    for an integral value below 10^16. *)
Definition decimal_of_float (x : float) : option Decimal :=
  match x with
  | S754_zero s => Some {| dec_sign := s; dec_coef := 0; dec_exponent := -1 |}
  | S754_finite s m e =>
      let '(d, k) := shortest m e in
      let point := Z.of_nat (String.length (str_of_Z d)) + k in
      if (Z.leb 0 k && Z.leb point 16)%bool
      then Some {| dec_sign := s; dec_coef := d * 10 ^ (k + 1); dec_exponent := -1 |}
      else Some {| dec_sign := s; dec_coef := d; dec_exponent := k |}
  | _ => None
  end.

(** [float(d)] *)
Definition float_of_decimal (d : Decimal) : float :=
  lit_dec (dec_sign d) (dec_coef d) (dec_exponent d).

(** [str(d)] of a finite [Decimal]. *)
Definition dec_str (d : Decimal) : string :=
  let digits := str_of_Z (dec_coef d) in
  let len := Z.of_nat (String.length digits) in
  let leftdigits := dec_exponent d + len in
  let dotplace := if (Z.leb (dec_exponent d) 0 && Z.ltb (-6) leftdigits)%bool then leftdigits else 1 in
  let body :=
    if Z.leb dotplace 0 then "0." +:+ zeros (Z.to_nat (- dotplace)) +:+ digits
    else if Z.leb len dotplace then digits +:+ zeros (Z.to_nat (dotplace - len))
    else String.substring 0 (Z.to_nat dotplace) digits +:+ "." +:+
         String.substring (Z.to_nat dotplace) (String.length digits) digits in
  let e := leftdigits - dotplace in
  (if dec_sign d then "-" else "") +:+ body +:+
  (if Z.eqb e 0 then "" else "E" +:+ (if Z.ltb 0 e then "+" else "") +:+ str_of_Z e).

Example dec_str_examples :
  map dec_str [ {| dec_sign := false; dec_coef := 4999; dec_exponent := -2 |};
                {| dec_sign := true; dec_coef := 5; dec_exponent := -3 |};
                {| dec_sign := false; dec_coef := 12; dec_exponent := 3 |} ] =
  ["49.99"; "-0.005"; "1.2E+4"].
Proof. vm_compute. reflexivity. Qed.

(** ** Order *)

Lemma SFcompare_swap (x y : float) :
  SFcompare y x = option_map CompOpp (SFcompare x y).
Proof.
  destruct x as [[]|[]| |[] m1 e1], y as [[]|[]| |[] m2 e2]; try reflexivity; cbn.
  all: rewrite (Z.compare_antisym e1 e2); destruct (Z.compare e1 e2); cbn; try reflexivity.
  all: fold (Pos.compare m1 m2); fold (Pos.compare m2 m1).
  all: rewrite (Pos.compare_antisym m1 m2); destruct (Pos.compare m1 m2); reflexivity.
Qed.

Lemma SFcompare_some (x y : float) :
  is_nan x = false → is_nan y = false → is_Some (SFcompare x y).
Proof.
  destruct x as [[]|[]| |[] m1 e1], y as [[]|[]| |[] m2 e2]; try discriminate; cbn;
    try (destruct (Z.compare e1 e2)); intros; eexists; reflexivity.
Qed.

(** The comparisons in terms of the three-way result. *)
Lemma flt_compare x y : flt x y = true ↔ SFcompare x y = Some Lt.
Proof. unfold flt, SFltb. destruct (SFcompare x y) as [[]|]; split; congruence. Qed.

Lemma fle_compare x y : fle x y = true ↔ SFcompare x y = Some Lt ∨ SFcompare x y = Some Eq.
Proof. unfold fle, SFleb. destruct (SFcompare x y) as [[]|]; naive_solver. Qed.

Lemma flt_fle x y : flt x y = true → fle x y = true.
Proof. rewrite flt_compare, fle_compare. auto. Qed.

Lemma flt_asym x y : flt x y = true → fle y x = false.
Proof.
  intros H%flt_compare. unfold fle, SFleb. rewrite SFcompare_swap, H. reflexivity.
Qed.

Lemma not_flt_fle x y :
  is_nan x = false → is_nan y = false → flt x y = false → fle y x = true.
Proof.
  intros Hx Hy H. destruct (SFcompare_some x y Hx Hy) as [c Hc].
  apply fle_compare. rewrite SFcompare_swap. unfold flt, SFltb in H.
  rewrite Hc in *. destruct c; cbn; auto; discriminate.
Qed.

Lemma not_fle_flt x y :
  is_nan x = false → is_nan y = false → fle x y = false → flt y x = true.
Proof.
  intros Hx Hy H. destruct (SFcompare_some x y Hx Hy) as [c Hc].
  apply flt_compare. rewrite SFcompare_swap. unfold fle, SFleb in H.
  rewrite Hc in *. destruct c; cbn; auto; discriminate.
Qed.

Lemma fle_refl x : is_nan x = false → fle x x = true.
Proof.
  intros H. apply fle_compare. right.
  destruct x as [[]|[]| |[] m e]; try discriminate; cbn; auto;
    rewrite Z.compare_refl; change (Pos.compare_cont Eq m m) with (Pos.compare m m);
    rewrite Pos.compare_refl; reflexivity.
Qed.

(** A non-NaN float as a lexicographic triple, which makes [fle] a comparison
    of integers. *)
Definition frank (x : float) : Z * Z * Z :=
  match x with
  | S754_zero _ => (0, 0, 0)
  | S754_infinity s => (if s then -2 else 2, 0, 0)
  | S754_nan => (3, 0, 0)
  | S754_finite false m e => (1, e, Zpos m)
  | S754_finite true m e => (-1, - e, Zneg m)
  end.

Definition rank_le (a b : Z * Z * Z) : Prop :=
  let '(a1, a2, a3) := a in let '(b1, b2, b3) := b in
  a1 < b1 ∨ a1 = b1 ∧ (a2 < b2 ∨ a2 = b2 ∧ a3 <= b3).

Lemma fle_rank x y :
  fle x y = true ↔ is_nan x = false ∧ is_nan y = false ∧ rank_le (frank x) (frank y).
Proof.
  unfold fle, SFleb.
  destruct x as [[]|[]| |[] m1 e1], y as [[]|[]| |[] m2 e2]; cbn;
    try (split; [intros|intros (?&?&?)]; try discriminate; repeat split; lia).
  all: destruct (Z.compare_spec e1 e2); cbn;
    change (Pos.compare_cont Eq m1 m2) with (Pos.compare m1 m2);
    try destruct (Pos.compare_spec m1 m2); cbn;
    (split; [intros|intros (?&?&?)]); try discriminate; repeat split; try reflexivity; lia.
Qed.

Lemma fle_trans x y z : fle x y = true → fle y z = true → fle x z = true.
Proof.
  rewrite !fle_rank. intros (Hx & Hy & H1) (_ & Hz & H2). repeat split; auto.
  destruct (frank x) as [[a1 a2] a3], (frank y) as [[b1 b2] b3], (frank z) as [[c1 c2] c3].
  cbn in *. lia.
Qed.

Lemma fle_not_nan x y : fle x y = true → is_nan x = false ∧ is_nan y = false.
Proof. rewrite fle_rank. tauto. Qed.

(** [max(0.0, min(1.0, x))] *)
Definition clamp01 (x : float) : float := fmax (lit 0 1) (fmin (lit 1 1) x).

Definition in_unit (x : float) : bool := (lit 0 1 <=? x)%pf && (x <=? lit 1 1)%pf.

Lemma clamp01_in_unit x : in_unit (clamp01 x) = true.
Proof.
  unfold in_unit, clamp01, fmax, fmin.
  destruct (flt x (lit 1 1)) eqn:H1.
  - destruct (flt (lit 0 1) x) eqn:H0; [|reflexivity].
    apply andb_true_iff. split; apply flt_fle; assumption.
  - reflexivity.
Qed.

Lemma clamp01_id x : in_unit x = true → flt (lit 0 1) x = true → flt x (lit 1 1) = true → clamp01 x = x.
Proof. intros _ H0 H1. unfold clamp01, fmax, fmin. rewrite H1, H0. reflexivity. Qed.

Lemma in_unit_not_nan x : in_unit x = true → is_nan x = false.
Proof. intros [H _]%andb_true_iff. apply fle_not_nan in H. tauto. Qed.

(** The running minimum is below every element. *)
Lemma fmin_le_l a b : is_nan a = false → is_nan b = false → fle (fmin a b) a = true.
Proof.
  intros Ha Hb. unfold fmin. destruct (flt b a) eqn:H; [by apply flt_fle|by apply fle_refl].
Qed.

Lemma fmin_le_r a b : is_nan a = false → is_nan b = false → fle (fmin a b) b = true.
Proof.
  intros Ha Hb. unfold fmin. destruct (flt b a) eqn:H; [by apply fle_refl|].
  by apply not_flt_fle.
Qed.

Lemma fmin_cases a b : fmin a b = a ∨ fmin a b = b.
Proof. unfold fmin. destruct (flt b a); auto. Qed.

(** A running minimum that starts at a number stays a number below it, whatever
    NaNs follow: [min] keeps its current value when a comparison is false. *)
Lemma fmin_list_head x l :
  is_nan x = false → is_nan (fmin_list x l) = false ∧ fle (fmin_list x l) x = true.
Proof.
  unfold fmin_list. revert x. induction l as [|b l IH]; intros x Hx; cbn.
  - split; [done|by apply fle_refl].
  - destruct (flt b x) eqn:E; (replace (fmin x b) with (if flt b x then b else x) by done);
      rewrite E.
    + pose proof (flt_fle _ _ E) as Hle. destruct (fle_not_nan _ _ Hle) as [Hb _].
      destruct (IH b Hb) as [H1 H2]. split; [done|]. exact (fle_trans _ _ _ H2 Hle).
    + by apply IH.
Qed.

Lemma clamp01_nan_free x : is_nan (clamp01 x) = false.
Proof. apply in_unit_not_nan, clamp01_in_unit. Qed.

Lemma clamp01_le x y :
  is_nan x = false → fle (lit 0 1) y = true → fle x y = true → fle (clamp01 x) y = true.
Proof.
  intros Hx H0 Hxy. unfold clamp01, fmax, fmin.
  destruct (flt x (lit 1 1)) eqn:E1.
  - destruct (flt (lit 0 1) x); done.
  - change (flt (lit 0 1) (lit 1 1)) with true. cbv iota.
    eapply fle_trans; [|exact Hxy]. by apply not_flt_fle.
Qed.

Lemma fmin_list_le x l :
  Forall (λ y, is_nan y = false) (x :: l) → Forall (λ y, fle (fmin_list x l) y = true) (x :: l).
Proof.
  revert x. induction l as [|b l IH]; intros x Hall; cbn.
  - inversion Hall; subst. repeat constructor. by apply fle_refl.
  - inversion Hall as [|? ? Hx Hbl]; subst. inversion Hbl as [|? ? Hb Hl]; subst.
    assert (is_nan (fmin x b) = false) as Hm by (destruct (fmin_cases x b) as [->| ->]; auto).
    specialize (IH (fmin x b) (Forall_cons_2 _ _ _ Hm Hl)).
    inversion IH as [|? ? Hle Hrest]; subst.
    repeat constructor; auto.
    + eapply fle_trans; [exact Hle|]. by apply fmin_le_l.
    + eapply fle_trans; [exact Hle|]. by apply fmin_le_r.
Qed.

Create HintDb pyfloat.
#[export] Hint Resolve clamp01_in_unit fle_refl flt_fle fmin_le_l fmin_le_r : pyfloat.

(** ** The printed forms on concrete values *)

Example repr_examples :
  map py_repr_float
    [lit 4999 100; lit 8 10; float_of_Z 50; float_of_Z (10 ^ 16); lit 1 100000;
     (lit 1 10 + lit 2 10)%pf; lit (-15) 10; lit 12345 100000000000; lit 5 (10 ^ 324)] =
  ["49.99"; "0.8"; "50.0"; "1e+16"; "1e-05"; "0.30000000000000004"; "-1.5"; "1.2345e-07";
   "5e-324"]%string.
Proof. vm_compute. reflexivity. Qed.

Example fixed_examples :
  (fmt_fixed 2 (lit 125 1000), fmt_fixed 2 (lit 2675 1000), fmt_fixed 3 (lit 95 100),
   py_round (lit 2675 1000) 2) =
  ("0.12"%string, "2.67"%string, "0.950"%string, lit 267 100).
Proof. vm_compute. reflexivity. Qed.
