(* ===== verification/Contracts.v ===== *)
(** * Event contracts

    [packages/contracts/events/payloads.py] and [packages/contracts/topics.py]:
    the payload models with their validators, and the topic names.  A model
    whose constructor validates is built by a [mk_*] function that returns the
    validation error the constructor raises.

    UUIDs are integers ([UUID.int]); an aware [datetime] is the number of
    microseconds since the epoch, in UTC. *)

From Stdlib Require Import ZArith Bool Ascii String List.
From stdpp Require Import base list strings.
From S2P Require Import Prelude.
From S2P Require Import PyFloat.

Abbreviation UUID := Z.
Abbreviation datetime := Z.

(** [str(u)]: 32 hexadecimal digits in groups of 8, 4, 4, 4 and 12. *)
Fixpoint hex_digits (n : nat) (z : Z) : string :=
  match n with
  | O => EmptyString
  | S n' => (hex_digits n' (z / 16) +:+ String (hex_digit (Z.to_N (z mod 16))) EmptyString)%string
  end.

Definition uuid_str (u : UUID) : string :=
  let h := hex_digits 32 u in
  py_join "-" [String.substring 0 8 h; String.substring 8 4 h; String.substring 12 4 h;
               String.substring 16 4 h; String.substring 20 12 h].

(** ** Python values carried by evidence and A2A data parts *)

Inductive pyval : Type :=
| VNone
| VBool (b : bool)
| VInt (z : Z)
| VFloat (f : float)
| VDecimal (d : Decimal)
| VStr (s : string)
| VList (l : list pyval)
| VDict (d : list (string * pyval)).

Definition vopt {A} (f : A → pyval) (o : option A) : pyval :=
  match o with Some a => f a | None => VNone end.

(** [d.get(k)] on the items of a dict with distinct keys. *)
Definition dict_get (k : string) (d : list (string * pyval)) : option pyval :=
  snd <$> List.find (λ kv, String.eqb (fst kv) k) d.

(** [type(v).__name__] *)
Definition py_type_name (v : pyval) : string :=
  match v with
  | VNone => "NoneType" | VBool _ => "bool" | VInt _ => "int" | VFloat _ => "float"
  | VDecimal _ => "Decimal" | VStr _ => "str" | VList _ => "list" | VDict _ => "dict"
  end.

(** [bool(v)] *)
Definition py_truthy (v : pyval) : bool :=
  match v with
  | VNone => false
  | VBool b => b
  | VInt z => negb (Z.eqb z 0)
  | VFloat f => float_truthy f
  | VDecimal d => negb (Z.eqb (dec_coef d) 0)
  | VStr s => str_truthy s
  | VList l => match l with [] => false | _ => true end
  | VDict d => match d with [] => false | _ => true end
  end.

(** [repr(v)] and [str(v)] *)
Fixpoint py_repr (v : pyval) : string :=
  match v with
  | VNone => "None"
  | VBool b => py_str_bool b
  | VInt z => str_of_Z z
  | VFloat f => py_repr_float f
  | VDecimal d => "Decimal('" +:+ dec_str d +:+ "')"
  | VStr s => py_repr_str s
  | VList l => "[" +:+ py_join ", " (map py_repr l) +:+ "]"
  | VDict d =>
      "{" +:+ py_join ", " (map (λ kv, py_repr_str (fst kv) +:+ ": " +:+ py_repr (snd kv)) d) +:+ "}"
  end.

Definition py_str (v : pyval) : string :=
  match v with VStr s => s | VDecimal d => dec_str d | _ => py_repr v end.

(** ** datetime *)

Definition microseconds_per_day : Z := 86400000000.

(** [timedelta(days=n)] for a whole number of days. *)
Definition days (n : Z) : Z := n * microseconds_per_day.

(** [td.days]: the floor of the difference in days. *)
Definition timedelta_days (td : Z) : Z := td / microseconds_per_day.

Definition civil_from_days (z0 : Z) : Z * Z * Z :=
  let z := (z0 + 719468)%Z in
  let era := (z / 146097)%Z in
  let doe := (z mod 146097)%Z in
  let yoe := ((doe - doe / 1460 + doe / 36524 - doe / 146096) / 365)%Z in
  let doy := (doe - (365 * yoe + yoe / 4 - yoe / 100))%Z in
  let mp := ((5 * doy + 2) / 153)%Z in
  let d := (doy - (153 * mp + 2) / 5 + 1)%Z in
  let m := (if Z.ltb mp 10 then mp + 3 else mp - 9)%Z in
  ((yoe + era * 400 + (if Z.leb m 2 then 1 else 0))%Z, m, d).

(** The date and time of an aware UTC datetime, as [isoformat] writes them. *)
Definition wall_clock (t : datetime) : string :=
  let '(y, m, d) := civil_from_days (timedelta_days t) in
  let us := (t mod microseconds_per_day)%Z in
  let s := (us / 1000000)%Z in
  let frac := (us mod 1000000)%Z in
  pad_digits 4 y +:+ "-" +:+ pad_digits 2 m +:+ "-" +:+ pad_digits 2 d +:+ "T" +:+
  pad_digits 2 (s / 3600) +:+ ":" +:+ pad_digits 2 (s / 60 mod 60) +:+ ":" +:+
  pad_digits 2 (s mod 60) +:+
  (if Z.eqb frac 0 then "" else "." +:+ pad_digits 6 frac).

(** [t.isoformat()], and the JSON form pydantic gives [t]. *)
Definition isoformat (t : datetime) : string := wall_clock t +:+ "+00:00".
Definition json_datetime (t : datetime) : string := wall_clock t +:+ "Z".

(** ** Payload models *)

Record EvidenceItem := {
  ev_source : string;
  ev_description : string;
  ev_value : pyval;
}.

Record SupportTicketCreatedPayload := {
  stc_ticket_id : string;
  stc_customer_id : string;
  stc_amount : float;
  stc_currency : string;
  stc_reason : string;
  stc_created_at : datetime;
}.

Inductive ResolutionOutcome :=
| APPROVE_REFUND
| DENY_REFUND
| ESCALATE_HUMAN
| DIRECT_RESPONSE
| OFFER_PARTIAL_CREDIT
| REQUEST_MORE_INFORMATION.

#[export] Instance ResolutionOutcome_eq_dec : EqDecision ResolutionOutcome.
Proof. solve_decision. Defined.

Definition ResolutionOutcome_value (o : ResolutionOutcome) : string :=
  match o with
  | APPROVE_REFUND => "approve_refund"
  | DENY_REFUND => "deny_refund"
  | ESCALATE_HUMAN => "escalate_human"
  | DIRECT_RESPONSE => "direct_response"
  | OFFER_PARTIAL_CREDIT => "offer_partial_credit"
  | REQUEST_MORE_INFORMATION => "request_more_information"
  end.

Record CustomerResponseDecisionPayload := {
  crd_case_id : UUID;
  crd_ticket_id : string;
  crd_customer_id : string;
  crd_outcome : ResolutionOutcome;
  crd_customer_response : string;
  crd_escalation_reason : option string;
  crd_billing_summary : option string;
  crd_risk_summary : option string;
  crd_rationale : string;
}.

(** [validate_escalation_reason] *)
Definition validate_escalation_reason (p : CustomerResponseDecisionPayload) : bool :=
  negb (bool_decide (crd_outcome p = ESCALATE_HUMAN) &&
        negb (match crd_escalation_reason p with Some r => str_truthy r | None => false end)).

Definition mk_decision (p : CustomerResponseDecisionPayload) :
    result CustomerResponseDecisionPayload :=
  if validate_escalation_reason p then Ok p
  else Err (ValidationError "escalation_reason is required when outcome is escalate_human").

Record CustomerIssueClassifiedPayload := {
  cic_case_id : UUID;
  cic_ticket_id : string;
  cic_customer_id : string;
  cic_issue_type : string;
  cic_confidence : float;
  cic_requires_billing_review : bool;
  cic_requires_risk_review : bool;
  cic_requires_human_review : bool;
  cic_reasoning_summary : string;
}.

Definition mk_classified (p : CustomerIssueClassifiedPayload) :
    result CustomerIssueClassifiedPayload :=
  if in_unit (cic_confidence p) then Ok p
  else Err (ValidationError "confidence must be in [0.0, 1.0]").

Inductive Review := billing_review | risk_review.

#[export] Instance Review_eq_dec : EqDecision Review.
Proof. solve_decision. Defined.

Record RefundReviewRequestedPayload := {
  rrr_case_id : UUID;
  rrr_ticket_id : string;
  rrr_customer_id : string;
  rrr_requested_reviews : list Review;
  rrr_billing_task_id : UUID;
  rrr_risk_task_id : UUID;
  rrr_timeout_seconds : option Z;
  rrr_requested_by_agent_id : string;
  rrr_requested_at : datetime;
}.

(** [validate_reviews]: non-empty and without duplicates. *)
Definition validate_reviews (p : RefundReviewRequestedPayload) : bool :=
  match rrr_requested_reviews p with
  | [] => false
  | l => bool_decide (NoDup l)
  end.

Definition mk_review_requested (p : RefundReviewRequestedPayload) :
    result RefundReviewRequestedPayload :=
  if validate_reviews p then Ok p
  else Err (ValidationError "requested_reviews must be non-empty and without duplicates").

Record CustomerResponseDraftedPayload := {
  drf_case_id : UUID;
  drf_ticket_id : string;
  drf_customer_id : string;
  drf_decision_event_id : UUID;
  drf_outcome : ResolutionOutcome;
  drf_draft_response : string;
  drf_requires_human_approval : bool;
  drf_drafted_by_agent_id : string;
  drf_drafted_at : datetime;
}.

(** [validate_draft_payload] *)
Definition validate_draft_payload (p : CustomerResponseDraftedPayload) : bool :=
  str_truthy (py_strip (drf_draft_response p)) &&
  negb (bool_decide (drf_outcome p = ESCALATE_HUMAN) && negb (drf_requires_human_approval p)).

Definition mk_drafted (p : CustomerResponseDraftedPayload) :
    result CustomerResponseDraftedPayload :=
  if validate_draft_payload p then Ok p
  else Err (ValidationError "invalid customer-response draft").

Record BillingRefundAnalysisCompletedPayload := {
  bra_ticket_id : string;
  bra_recommendation : string;
  bra_confidence : float;
  bra_evidence : list EvidenceItem;
  bra_reasoning_summary : string;
  bra_requires_human_review : bool;
  bra_case_id : UUID;
  bra_customer_id : string;
  bra_billing_account_id : option string;
  bra_subscription_status : string;
  bra_invoice_status : string;
  bra_payment_status : string;
  bra_entitlement_status : string;
  bra_usage_level : string;
  bra_refund_window_status : string;
  bra_eligible_refund_amount : Decimal;
  bra_enriched_reasoning_summary : option string;
  bra_evidence_explanation : option string;
}.

Definition mk_billing_result (p : BillingRefundAnalysisCompletedPayload) :
    result BillingRefundAnalysisCompletedPayload :=
  if in_unit (bra_confidence p) then Ok p
  else Err (ValidationError "confidence must be in [0.0, 1.0]").

Record RiskReviewCompletedPayload := {
  rrc_ticket_id : string;
  rrc_recommendation : string;
  rrc_confidence : float;
  rrc_evidence : list EvidenceItem;
  rrc_reasoning_summary : string;
  rrc_requires_human_review : bool;
  rrc_enriched_reasoning_summary : option string;
  rrc_evidence_explanation : option string;
}.

Definition mk_risk_result (p : RiskReviewCompletedPayload) :
    result RiskReviewCompletedPayload :=
  if in_unit (rrc_confidence p) then Ok p
  else Err (ValidationError "confidence must be in [0.0, 1.0]").

(** The announcements of a task's progress; no component publishes them. *)
Record AgentTaskAcceptedPayload := {
  tap_task_id : UUID;
  tap_accepted_by_agent_id : string;
  tap_accepted_at : datetime;
}.

Record AgentTaskCompletedPayload := {
  tcp_task_id : UUID;
  tcp_recommendation : string;
  tcp_confidence : float;
  tcp_evidence : list EvidenceItem;
  tcp_reasoning_summary : string;
  tcp_requires_human_review : bool;
}.

Definition mk_task_completed (p : AgentTaskCompletedPayload) : result AgentTaskCompletedPayload :=
  if in_unit (tcp_confidence p) then Ok p
  else Err (ValidationError "confidence must be in [0.0, 1.0]").

Record AgentTaskFailedPayload := {
  tfp_task_id : UUID;
  tfp_error_message : string;
  tfp_error_code : option string;
  tfp_failed_at : datetime;
}.

(** ** Topics *)

Definition resolve_topic (environment domain entity action version : string) : string :=
  environment +:+ "." +:+ domain +:+ "." +:+ entity +:+ "." +:+ action +:+ ".v" +:+ version.

(** [AGENT_ENVIRONMENT] with its default value. *)
Definition AGENT_ENVIRONMENT : string := "local".

Definition topic_for (domain entity action : string) : string :=
  resolve_topic AGENT_ENVIRONMENT domain entity action "1".

Definition processed_id_topic (consumer_name : string) : string :=
  AGENT_ENVIRONMENT +:+ ".system.processed-id." +:+ consumer_name +:+ ".recorded.v1".

Definition TOPIC_AUDIT : string := topic_for "audit" "envelope" "recorded".
Definition TOPIC_AGENT_CARD : string := topic_for "agent" "agent-card" "published".
Definition TOPIC_TASK_RESULT : string := topic_for "agent" "task" "result".
Definition TOPIC_RESOLUTION_DECIDED : string := topic_for "customer" "resolution" "decided".
Definition TOPIC_ISSUE_CLASSIFIED : string :=
  topic_for "resolution" "customer-issue" "classified".
Definition TOPIC_REFUND_REVIEW_REQUESTED : string :=
  topic_for "resolution" "refund-review" "requested".
Definition TOPIC_BILLING_RESULT : string := topic_for "billing" "refund-analysis" "completed".
Definition TOPIC_RISK_RESULT : string := topic_for "risk" "review" "completed".
Definition TOPIC_RESPONSE_DRAFTED : string :=
  topic_for "resolution" "customer-response" "drafted".

Definition endpoint_topic (agent_id : string) : string :=
  topic_for "agent" agent_id "task.requested".

(** ** Lemmas on the validators *)

Lemma mk_decision_ok p :
  (crd_outcome p = ESCALATE_HUMAN →
   ∃ r, crd_escalation_reason p = Some r ∧ str_truthy r = true) →
  mk_decision p = Ok p.
Proof.
  intros H. unfold mk_decision, validate_escalation_reason.
  destruct (bool_decide_reflect (crd_outcome p = ESCALATE_HUMAN)) as [He|He]; [|done].
  destruct (H He) as (r & -> & Hr). cbn. by rewrite Hr.
Qed.

Lemma mk_decision_inv p q : mk_decision p = Ok q → q = p.
Proof. unfold mk_decision. destruct (validate_escalation_reason p); congruence. Qed.

Example isoformat_example :
  isoformat (days 20513 + 45296000007)%Z = "2026-03-01T12:34:56.000007+00:00"%string.
Proof. vm_compute. reflexivity. Qed.

Example uuid_str_example :
  uuid_str 24197857161011715171284516950293123311%Z = "12345678-1234-5678-90ab-1234567890ef"%string.
Proof. vm_compute. reflexivity. Qed.
