(* ===== verification/Uuid.v ===== *)
(** * UUIDs read back from text

    [uuid.UUID(hex)] of the standard library, as [idempotency.py], the task
    runtime and [trace.py] call it on data read from the broker: the urn and
    [uuid:] prefixes and the dashes are removed, braces are stripped, 32 characters
    must be left and [int(hex, 16)] must be below 2{^128}.  [int] skips spaces and
    accepts a sign, a [0x] prefix and single underscores between digits; its
    non-ASCII digits are not accepted here. *)

From Stdlib Require Import ZArith Bool Ascii String List Lia.
From stdpp Require Import base list strings option.
From S2P Require Import Prelude.
From S2P Require Import PyFloat.
From S2P Require Import Contracts.

Open Scope string_scope.
Open Scope Z_scope.

(** ** Text *)

Fixpoint forall_chars (p : ascii → bool) (s : string) : bool :=
  match s with
  | EmptyString => true
  | String c s' => p c && forall_chars p s'
  end.

(** [s.replace(sub, "")], from the left, [skip] characters into an occurrence. *)
Fixpoint remove_from (sub : string) (skip : nat) (s : string) : string :=
  match s with
  | EmptyString => EmptyString
  | String c s' =>
      match skip with
      | S k => remove_from sub k s'
      | O => if String.prefix sub s then remove_from sub (Nat.pred (String.length sub)) s'
             else String c (remove_from sub 0 s')
      end
  end.

Definition py_remove (sub s : string) : string := remove_from sub 0 s.

(** [s.lstrip(chars)], [s.rstrip(chars)] and [s.strip(chars)] for a class of
    characters. *)
Fixpoint lstrip_class (p : ascii → bool) (s : string) : string :=
  match s with
  | EmptyString => EmptyString
  | String c s' => if p c then lstrip_class p s' else s
  end.

Fixpoint rstrip_class (p : ascii → bool) (s : string) : string :=
  match s with
  | EmptyString => EmptyString
  | String c s' =>
      match rstrip_class p s' with
      | EmptyString => if p c then EmptyString else String c EmptyString
      | r => String c r
      end
  end.

Definition strip_class (p : ascii → bool) (s : string) : string :=
  rstrip_class p (lstrip_class p s).

(** ** [int(s, 16)] *)

Definition between (lo hi : N) (c : ascii) : bool :=
  N.leb lo (N_of_ascii c) && N.leb (N_of_ascii c) hi.

Definition hex_val (c : ascii) : option Z :=
  let n := Z.of_N (N_of_ascii c) in
  if between 48 57 c then Some (n - 48)
  else if between 97 102 c then Some (n - 87)
  else if between 65 70 c then Some (n - 55)
  else None.

(** The digits, with single underscores between them; [digit] tells that the
    character before is a digit. *)
Fixpoint hex_acc (digit : bool) (acc : Z) (s : string) : option Z :=
  match s with
  | EmptyString => if digit then Some acc else None
  | String c s' =>
      if Ascii.eqb c "_" then (if digit then hex_acc false acc s' else None)
      else match hex_val c with
           | Some d => hex_acc true (acc * 16 + d) s'
           | None => None
           end
  end.

Definition int_space (c : ascii) : bool := N.eqb (N_of_ascii c) 32 || between 9 13 c.

Definition int_sign (s : string) : Z * string :=
  match s with
  | String c s' => if Ascii.eqb c "+" then (1, s') else if Ascii.eqb c "-" then (-1, s') else (1, s)
  | EmptyString => (1, s)
  end.

Definition int_prefix (s : string) : string :=
  match s with
  | String c1 (String c2 s') =>
      if Ascii.eqb c1 "0" && (Ascii.eqb c2 "x" || Ascii.eqb c2 "X") then
        match s' with
        | String c3 s'' => if Ascii.eqb c3 "_" then s'' else s'
        | EmptyString => s'
        end
      else s
  | _ => s
  end.

Definition int_16 (s : string) : option Z :=
  let '(sign, digits) := int_sign (strip_class int_space s) in
  (λ v, sign * v) <$> hex_acc false 0 (int_prefix digits).

(** ** [UUID(hex)] *)

Definition is_brace (c : ascii) : bool := Ascii.eqb c "{" || Ascii.eqb c "}".

Definition parse_uuid (hex : string) : result UUID :=
  let hex := py_remove "uuid:" (py_remove "urn:" hex) in
  let hex := py_remove "-" (strip_class is_brace hex) in
  if negb (Nat.eqb (py_len hex) 32)
  then Err (ValueError "badly formed hexadecimal UUID string")
  else
    match int_16 hex with
    | None => Err (ValueError "invalid literal for int() with base 16")
    | Some v =>
        if (0 <=? v) && (v <? 2 ^ 128) then Ok v
        else Err (ValueError "int is out of range (need a 128-bit value)")
    end.

(** [UUID(str(v))]: of the values JSON has, only a text and an integer can print
    as a UUID ([str] of a list or a dict has brackets or quotes). *)
Definition uuid_of_value (v : pyval) : result UUID :=
  match v with
  | VStr s => parse_uuid s
  | VInt z => parse_uuid (str_of_Z z)
  | _ => Err (ValueError "badly formed hexadecimal UUID string")
  end.

(** ** Lemmas on text *)

Lemma append_cons c s t : String c s +:+ t = String c (s +:+ t).
Proof. done. Qed.

Lemma append_nil s : s +:+ "" = s.
Proof. induction s as [|c s IH]; [done|]. by rewrite append_cons, IH. Qed.

Lemma append_assoc (a b c : string) : (a +:+ b) +:+ c = a +:+ (b +:+ c).
Proof. induction a as [|x a IH]; [done|]. by rewrite !append_cons, IH. Qed.

Lemma length_append (a b : string) :
  String.length (a +:+ b) = (String.length a + String.length b)%nat.
Proof. induction a as [|x a IH]; [done|]. rewrite append_cons. cbn. by rewrite IH. Qed.

Lemma forall_chars_app p s t : forall_chars p (s +:+ t) = forall_chars p s && forall_chars p t.
Proof.
  induction s as [|c s IH]; [done|]. rewrite append_cons. cbn. by rewrite IH, andb_assoc.
Qed.

Lemma forall_chars_impl p q s :
  (∀ c, p c = true → q c = true) → forall_chars p s = true → forall_chars q s = true.
Proof.
  intros Hpq. induction s as [|c s IH]; cbn; [done|].
  intros [Hc Hs]%andb_true_iff. by rewrite (Hpq c Hc), IH.
Qed.

Lemma remove_absent sub c p s :
  forall_chars p (String c sub) = false → forall_chars p s = true → py_remove (String c sub) s = s.
Proof.
  intros Hsub. unfold py_remove. induction s as [|d s IH]; intros Hs; [done|].
  assert (String.prefix (String c sub) (String d s) = false) as E.
  { apply not_true_is_false. intros Hpre.
    assert (∀ a b, String.prefix a b = true → forall_chars p b = true →
                   forall_chars p a = true) as Hprefix.
    { clear. induction a as [|x a IHa]; intros b; [done|]. destruct b as [|y b]; [done|].
      cbn [String.prefix forall_chars]. destruct (ascii_dec x y) as [->|]; [|done]. intros Hab [Hy Hb]%andb_true_iff.
      by rewrite Hy, (IHa b). }
    rewrite (Hprefix _ _ Hpre Hs) in Hsub. done. }
  cbn [remove_from]. rewrite E. f_equal. apply IH. cbn in Hs.
  by apply andb_true_iff in Hs as [_ Hs].
Qed.

Lemma remove_dash_app p s t :
  p "-"%char = false → forall_chars p s = true → py_remove "-" (s +:+ t) = s +:+ py_remove "-" t.
Proof.
  intros Hdash. unfold py_remove. induction s as [|c s IH]; intros Hs; [done|]. cbn in Hs.
  apply andb_true_iff in Hs as [Hc Hs].
  rewrite append_cons. cbn [remove_from]. destruct (String.prefix "-" (String c (s +:+ t))) eqn:E.
  - exfalso. cbn [String.prefix] in E. destruct (ascii_dec "-" c) as [<-|]; [congruence|done].
  - by rewrite IH, append_cons.
Qed.

Lemma lstrip_none p s : forall_chars (λ c, negb (p c)) s = true → lstrip_class p s = s.
Proof. destruct s as [|c s]; cbn; [done|]. by destruct (p c). Qed.

Lemma rstrip_none p s : forall_chars (λ c, negb (p c)) s = true → rstrip_class p s = s.
Proof.
  induction s as [|c s IH]; cbn; [done|]. intros [Hc Hs]%andb_true_iff. rewrite (IH Hs).
  destruct (p c); [done|]. by destruct s.
Qed.

Lemma strip_none p s : forall_chars (λ c, negb (p c)) s = true → strip_class p s = s.
Proof. intros H. unfold strip_class. by rewrite lstrip_none, rstrip_none. Qed.

Lemma substring_split h : ∀ n m k,
  String.substring n m h +:+ String.substring (n + m) k h = String.substring n (m + k) h.
Proof.
  induction h as [|c h IH]; intros n m k.
  - by destruct n, m, k.
  - destruct n as [|n]; [|apply IH]. destruct m as [|m]; [by destruct k|].
    cbn [String.substring Nat.add]. rewrite append_cons. f_equal. apply (IH 0%nat).
Qed.

Lemma substring_all h : String.substring 0 (String.length h) h = h.
Proof. induction h as [|c h IH]; cbn; [done|]. by f_equal. Qed.

Lemma forall_chars_substring p n m s :
  forall_chars p s = true → forall_chars p (String.substring n m s) = true.
Proof.
  revert n m. induction s as [|c s IH]; intros n m; [by destruct n, m|]. cbn.
  intros [Hc Hs]%andb_true_iff. destruct n; [destruct m|]; cbn; auto.
  by rewrite Hc, IH.
Qed.

(** ** The round trip *)

Definition lower_hex (c : ascii) : bool := between 48 57 c || between 97 102 c.

Lemma hex_digit_lower n : (n < 16)%N → lower_hex (hex_digit n) = true.
Proof.
  intros H. assert (n ∈ [0;1;2;3;4;5;6;7;8;9;10;11;12;13;14;15]%N) as Hn.
  { rewrite list_elem_of_In. cbn. lia. }
  repeat (apply elem_of_cons in Hn as [->|Hn]; [reflexivity|]). by apply elem_of_nil in Hn.
Qed.

Lemma hex_digit_val n : (n < 16)%N → hex_val (hex_digit n) = Some (Z.of_N n).
Proof.
  intros H. assert (n ∈ [0;1;2;3;4;5;6;7;8;9;10;11;12;13;14;15]%N) as Hn.
  { rewrite list_elem_of_In. cbn. lia. }
  repeat (apply elem_of_cons in Hn as [->|Hn]; [reflexivity|]). by apply elem_of_nil in Hn.
Qed.

Lemma digit_below z : (Z.to_N (z mod 16) < 16)%N.
Proof. pose proof (Z.mod_pos_bound z 16 ltac:(lia)). lia. Qed.

Lemma hex_digits_lower n z : forall_chars lower_hex (hex_digits n z) = true.
Proof.
  revert z. induction n as [|n IH]; intros z; [done|]. cbn [hex_digits].
  rewrite forall_chars_app, IH. cbn [forall_chars]. by rewrite hex_digit_lower by apply digit_below.
Qed.

Lemma length_hex_digits n z : String.length (hex_digits n z) = n.
Proof.
  revert z. induction n as [|n IH]; intros z; [done|]. cbn [hex_digits].
  rewrite length_append, IH. cbn. lia.
Qed.

Lemma lower_hex_len s : forall_chars lower_hex s = true → py_len s = String.length s.
Proof.
  induction s as [|c s IH]; cbn; [done|]. intros [Hc Hs]%andb_true_iff. rewrite (IH Hs).
  replace (is_continuation c) with false; [done|].
  clear -Hc. by destruct c as [[] [] [] [] [] [] [] []].
Qed.

(** A run of hexadecimal digits is read from the left. *)
Lemma hex_acc_app s t d acc :
  forall_chars lower_hex s = true →
  hex_acc d acc (s +:+ t) =
  match hex_acc true acc s with Some v => hex_acc (d || str_truthy s) v t | None => None end.
Proof.
  revert d acc. induction s as [|c s IH]; intros d acc Hs.
  - cbn. by rewrite orb_false_r.
  - cbn in Hs. apply andb_true_iff in Hs as [Hc Hs]. rewrite append_cons. cbn [hex_acc].
    destruct (Ascii.eqb_spec c "_") as [->|_]; [discriminate Hc|].
    destruct (hex_val c) as [v|]; [|done]. rewrite IH by exact Hs.
    destruct (hex_acc true (acc * 16 + v) s); [|done].
    cbn [str_truthy]. by rewrite orb_true_r.
Qed.

Lemma hex_acc_digits n z acc :
  hex_acc true acc (hex_digits n z) = Some (acc * 16 ^ Z.of_nat n + z mod 16 ^ Z.of_nat n).
Proof.
  revert z acc. induction n as [|n IH]; intros z acc.
  - cbn. f_equal. rewrite Z.mod_1_r. lia.
  - cbn [hex_digits]. rewrite hex_acc_app by apply hex_digits_lower. rewrite IH.
    cbn [hex_acc orb]. rewrite hex_digit_val by apply digit_below.
    destruct (Ascii.eqb_spec (hex_digit (Z.to_N (z mod 16))) "_") as [E|_].
    { exfalso. pose proof (hex_digit_lower _ (digit_below z)) as H. by rewrite E in H. }
    f_equal. pose proof (Z.mod_pos_bound z 16 ltac:(lia)).
    rewrite Z2N.id by lia. rewrite Nat2Z.inj_succ, Z.pow_succ_r by lia.
    rewrite (Z.rem_mul_r z 16 (16 ^ Z.of_nat n)) by lia. lia.
Qed.

Lemma uuid_text_chars p u :
  (∀ c, lower_hex c = true → p c = true) → p "-"%char = true →
  forall_chars p (uuid_str u) = true.
Proof.
  intros Hhex Hdash. unfold uuid_str, py_join. cbn [String.concat].
  rewrite !forall_chars_app. cbn [forall_chars]. rewrite Hdash.
  repeat (rewrite (forall_chars_impl lower_hex p) by
            (auto; apply forall_chars_substring, hex_digits_lower)).
  done.
Qed.

Lemma uuid_text_digits u : py_remove "-" (uuid_str u) = hex_digits 32 u.
Proof.
  unfold uuid_str, py_join. cbn [String.concat].
  set (h := hex_digits 32 u).
  assert (∀ n m t, py_remove "-" (String.substring n m h +:+ ("-" +:+ t)) =
                   String.substring n m h +:+ py_remove "-" t) as Hcut.
  { intros n m t. rewrite (remove_dash_app lower_hex) by
      (try done; apply forall_chars_substring, hex_digits_lower). by destruct t. }
  rewrite !Hcut. rewrite (remove_absent "" "-"%char lower_hex) by
    (try done; apply forall_chars_substring, hex_digits_lower).
  pose proof (substring_split h) as Hsplit.
  rewrite (Hsplit 16 4 12 : _ +:+ substring 20 12 h = substring 16 16 h)%nat,
    (Hsplit 12 4 16 : _ +:+ substring 16 16 h = substring 12 20 h)%nat,
    (Hsplit 8 4 20 : _ +:+ substring 12 20 h = substring 8 24 h)%nat,
    (Hsplit 0 8 24 : _ +:+ substring 8 24 h = substring 0 32 h)%nat.
  rewrite <- (length_hex_digits 32 u). apply substring_all.
Qed.

Lemma hex_unsigned s : forall_chars lower_hex s = true → int_sign s = (1, s).
Proof.
  destruct s as [|c s]; [done|]. cbn. intros [Hc _]%andb_true_iff.
  destruct (Ascii.eqb_spec c "+") as [->|_]; [done|].
  destruct (Ascii.eqb_spec c "-") as [->|_]; done.
Qed.

Lemma hex_unprefixed s : forall_chars lower_hex s = true → int_prefix s = s.
Proof.
  destruct s as [|c [|d s]]; [done..|]. cbn. intros [_ [Hd _]%andb_true_iff]%andb_true_iff.
  destruct (Ascii.eqb_spec d "x") as [->|_]; [done|].
  destruct (Ascii.eqb_spec d "X") as [->|_]; [done|]. by rewrite andb_false_r.
Qed.

(** Remark (roundtrip): the text of a UUID reads back as that UUID. *)
Theorem parse_uuid_str u : 0 <= u < 2 ^ 128 → parse_uuid (uuid_str u) = Ok u.
Proof.
  intros Hu. unfold parse_uuid.
  rewrite (remove_absent "rn:" "u"%char (λ c, negb (Ascii.eqb c ":"))),
    (remove_absent "uid:" "u"%char (λ c, negb (Ascii.eqb c ":"))),
    strip_none; try reflexivity.
  2-4: apply uuid_text_chars; [|done]; intros [[] [] [] [] [] [] [] []]; done.
  rewrite uuid_text_digits, lower_hex_len by apply hex_digits_lower.
  rewrite length_hex_digits. cbn [Nat.eqb negb].
  unfold int_16. rewrite strip_none.
  2: { eapply forall_chars_impl; [|apply hex_digits_lower].
       intros [[] [] [] [] [] [] [] []]; done. }
  rewrite hex_unsigned, hex_unprefixed by apply hex_digits_lower.
  pose proof (hex_acc_app (hex_digits 32 u) "" false 0 (hex_digits_lower 32 u)) as E.
  rewrite hex_acc_digits in E. cbn [hex_acc orb] in E.
  assert (str_truthy (hex_digits 32 u) = true) as Ht.
  { pose proof (length_hex_digits 32 u). by destruct (hex_digits 32 u). }
  rewrite Ht, append_nil in E. rewrite E. cbn [fmap option_fmap option_map].
  rewrite Z.mul_1_l, Z.mul_0_l, Z.add_0_l.
  change (16 ^ Z.of_nat 32) with (2 ^ 128). rewrite Z.mod_small by done.
  replace ((0 <=? u) && (u <? 2 ^ 128)) with true by (symmetry; apply andb_true_iff; lia). done.
Qed.

Lemma parse_uuid_str_witness : parse_uuid (uuid_str 42) = Ok 42.
Proof. apply parse_uuid_str. done. Defined.

(** A text that reads as a UUID reads as one of 128 bits. *)
Lemma parse_uuid_range s u : parse_uuid s = Ok u → 0 <= u < 2 ^ 128.
Proof.
  unfold parse_uuid. destruct (negb _); [done|]. destruct (int_16 _) as [v|]; [|done].
  destruct ((0 <=? v) && (v <? 2 ^ 128)) eqn:E; [|done].
  intros [= <-]. apply andb_true_iff in E. lia.
Qed.

Example parse_uuid_urn :
  parse_uuid "{urn:uuid:12345678-1234-5678-90AB-1234567890ef}" =
  Ok 24197857161011715171284516950293123311.
Proof. vm_compute. reflexivity. Qed.

Example parse_uuid_short : is_ok (parse_uuid "not-a-uuid") → False.
Proof. vm_compute. intros [u [=]]. Qed.
