(* ===== verification/PyNumber.v ===== *)
(** * Numbers read from text

    [int(s)] and [float(s)] of the standard library, as the configuration reads them
    from environment variables: surrounding white space and a sign are allowed, and
    single underscores between digits; [float] also reads a point, an exponent, and
    the names of the infinities and of not-a-number. *)

From Stdlib Require Import ZArith SpecFloat Bool Ascii String List Lia.
From stdpp Require Import base list strings.
From S2P Require Import Prelude.
From S2P Require Import PyFloat.
From S2P Require Import Uuid.

Open Scope string_scope.
Open Scope Z_scope.

Definition dec_val (c : ascii) : option Z :=
  if between 48 57 c then Some (Z.of_N (N_of_ascii c) - 48) else None.

(** A run of digits with single underscores between them: its value, the number of
    its digits and the rest of the text; [None] for a misplaced underscore.
    [digit] tells that the character before is a digit. *)
Fixpoint read_digits (digit : bool) (acc n : Z) (s : string) : option (Z * Z * string) :=
  match s with
  | EmptyString => Some (acc, n, s)
  | String c s' =>
      match dec_val c with
      | Some d => read_digits true (acc * 10 + d) (n + 1) s'
      | None =>
          if Ascii.eqb c "_" then
            match s' with
            | String c' _ =>
                if digit && bool_of_option (dec_val c') then read_digits false acc n s' else None
            | EmptyString => None
            end
          else Some (acc, n, s)
      end
  end.

(** [int(s)] *)
Definition py_int_of_str (s : string) : option Z :=
  let '(sign, digits) := int_sign (strip_class int_space s) in
  match read_digits false 0 0 digits with
  | Some (v, n, EmptyString) => if Z.eqb n 0 then None else Some (sign * v)
  | _ => None
  end.

(** The exponent after the mantissa, and the end of the text. *)
Definition read_exponent (s : string) : option Z :=
  match s with
  | EmptyString => Some 0
  | String c s' =>
      if Ascii.eqb c "e" || Ascii.eqb c "E" then
        let '(sign, digits) := int_sign s' in
        match read_digits false 0 0 digits with
        | Some (v, n, EmptyString) => if Z.eqb n 0 then None else Some (sign * v)
        | _ => None
        end
      else None
  end.

(** The fraction: the digits of [acc] continued after a point. *)
Definition read_fraction (acc : Z) (s : string) : option (Z * Z * string) :=
  match s with
  | String c s' => if Ascii.eqb c "." then read_digits false acc 0 s' else Some (acc, 0, s)
  | EmptyString => Some (acc, 0, s)
  end.

(** [float(s)] *)
Definition py_float_of_str (s : string) : option float :=
  let '(sign, body) := int_sign (strip_class int_space s) in
  let negative := Z.ltb sign 0 in
  let word := py_lower body in
  if String.eqb word "inf" || String.eqb word "infinity" then Some (S754_infinity negative)
  else if String.eqb word "nan" then Some S754_nan
  else
    ip ← read_digits false 0 0 body;
    let '(int_part, n, rest) := ip in
    fp ← read_fraction int_part rest;
    let '(coef, f, rest) := fp in
    if Z.eqb (n + f) 0 then None
    else e ← read_exponent rest; Some (lit_dec negative coef (e - f)).

Example ints_read :
  map py_int_of_str ["42"; " -7 "; "1_000"; "1__0"; "_1"; "1_"; ""; "3.0"; "+5"] =
  [Some 42; Some (-7); Some 1000; None; None; None; None; None; Some 5].
Proof. vm_compute. reflexivity. Qed.

Example floats_read :
  map py_float_of_str ["8.0"; "8"; ".5"; "5."; "1e3"; "-2.5E-1"; "."; "abc"; ""; "1_0.2_5"] =
  [Some (lit 8 1); Some (lit 8 1); Some (lit 5 10); Some (lit 5 1); Some (lit 1000 1);
   Some (lit (-25) 100); None; None; None; Some (lit 1025 100)].
Proof. vm_compute. reflexivity. Qed.
