(* ===== verification/Idempotency.v ===== *)
(** * The idempotency tracker

    [src/agent_foundation/idempotency.py]: an LRU of processed event ids over a
    compacted topic.  The [OrderedDict] is its list of keys, oldest first (its
    values are all [True]); the topic is the list of its records, whose value is
    what [json.loads] makes of the bytes.  The broker's answers are arguments. *)

From Stdlib Require Import ZArith Bool Ascii String List Lia.
From stdpp Require Import base list strings option sets.
From S2P Require Import Prelude.
From S2P Require Import PyFloat.
From S2P Require Import Contracts.
From S2P Require Import Uuid.

Open Scope string_scope.
Open Scope list_scope.
Open Scope nat_scope.

(** ** [_LRUCache] *)

Record _LRUCache := mk_lru {
  lru_cache : list UUID;
  lru_maxsize : nat;
}.

Definition LRU_MAXSIZE : nat := N.to_nat 10000.

Definition new_lru (maxsize : nat) : _LRUCache := mk_lru [] maxsize.

(** [self._cache.move_to_end(key)] of a key that may have been added just before. *)
Definition move_to_end (key : UUID) (cache : list UUID) : list UUID :=
  filter (λ k, k ≠ key) cache ++ [key].

(** [key in self]: a hit refreshes the key. *)
Definition lru_contains (key : UUID) (c : _LRUCache) : bool * _LRUCache :=
  if bool_decide (key ∈ lru_cache c)
  then (true, mk_lru (move_to_end key (lru_cache c)) (lru_maxsize c))
  else (false, c).

(** [add]: [popitem(last=False)] drops the oldest key. *)
Definition lru_add (key : UUID) (c : _LRUCache) : _LRUCache :=
  let cache := move_to_end key (lru_cache c) in
  mk_lru (if lru_maxsize c <? length cache then tail cache else cache) (lru_maxsize c).

(** ** The tracker *)

(** A record of the compacted topic: its key, and its decoded value when the
    bytes are JSON. *)
Record ProcessedRecord := {
  pr_key : string;
  pr_value : option pyval;
}.

(** [UUID(data["event_id"])], [None] when any step raises. *)
Definition record_id (r : ProcessedRecord) : option UUID :=
  match pr_value r with
  | Some (VDict data) =>
      match dict_get "event_id" data with
      | Some (VStr s) => match parse_uuid s with Ok u => Some u | Err _ => None end
      | _ => None
      end
  | _ => None
  end.

(** The record [_persist] sends. *)
Definition processed_record (event_id : UUID) : ProcessedRecord := {|
  pr_key := uuid_str event_id;
  pr_value := Some (VDict [("event_id", VStr (uuid_str event_id))]) |}.

Record IdempotencyTracker := mk_tracker {
  it_consumer_name : string;
  it_lru : _LRUCache;
  it_initialized : bool;
  (** the records of the tracker's own topic, which only it writes *)
  it_topic : list ProcessedRecord;
}.

Definition new_tracker (consumer_name : string) (topic : list ProcessedRecord) :
    IdempotencyTracker :=
  mk_tracker consumer_name (new_lru LRU_MAXSIZE) false topic.

(** [_rebuild_from_topic] over the records read before the topic is drained or a
    poll fails; a record that cannot be parsed is skipped. *)
Definition _rebuild_from_topic (records : list ProcessedRecord) (c : _LRUCache) : _LRUCache :=
  fold_left (λ c r, match record_id r with Some u => lru_add u c | None => c end) records c.

(** [initialize]; [read] is an error when the topic cannot be created or opened. *)
Definition initialize (read : result (list ProcessedRecord)) (t : IdempotencyTracker) :
    IdempotencyTracker :=
  mk_tracker (it_consumer_name t)
    (match read with Ok records => _rebuild_from_topic records (it_lru t) | Err _ => it_lru t end)
    true (it_topic t).

(** [is_duplicate] of an initialised tracker. *)
Definition is_duplicate (event_id : UUID) (t : IdempotencyTracker) : bool * IdempotencyTracker :=
  let '(found, c) := lru_contains event_id (it_lru t) in
  (found, mk_tracker (it_consumer_name t) c (it_initialized t) (it_topic t)).

(** [mark_processed]: the LRU first, then [_persist], which may fail to write.  Its
    [finally: await producer.stop()] may raise; both callers suppress that. *)
Definition mark_processed (event_id : UUID) (written : bool) (t : IdempotencyTracker) :
    IdempotencyTracker :=
  mk_tracker (it_consumer_name t) (lru_add event_id (it_lru t)) (it_initialized t)
    (if written then it_topic t ++ [processed_record event_id] else it_topic t).

(** ** The cache against its reference: the most recent keys *)

Definition lastn {A} (n : nat) (l : list A) : list A := drop (length l - n) l.

(** Operations on the cache, as the tracker issues them. *)
Inductive lru_op := Seen (key : UUID) | Done (key : UUID).

Definition op_key (o : lru_op) : UUID := match o with Seen k | Done k => k end.

Definition lru_apply (c : _LRUCache) (o : lru_op) : _LRUCache :=
  match o with Seen k => snd (lru_contains k c) | Done k => lru_add k c end.

(** The reference: every key ever added, in order of last use; only the last [n]
    count as known. *)
Definition ref_apply (n : nat) (l : list UUID) (o : lru_op) : list UUID :=
  match o with
  | Done k => move_to_end k l
  | Seen k => if bool_decide (k ∈ lastn n l) then move_to_end k l else l
  end.

Lemma length_lastn {A} n (l : list A) : length (lastn n l) = Nat.min n (length l).
Proof. unfold lastn. rewrite length_drop. lia. Qed.

Lemma lastn_all {A} n (l : list A) : length l ≤ n → lastn n l = l.
Proof. intros H. unfold lastn. by replace (length l - n) with 0 by lia. Qed.

Lemma lastn_app_r {A} n (x y : list A) : n ≤ length y → lastn n (x ++ y) = lastn n y.
Proof.
  intros H. unfold lastn. rewrite length_app, drop_app_ge by lia. f_equal. lia.
Qed.

Lemma lastn_pop {A} n (y : list A) :
  length y ≤ S n → (if n <? length y then tail y else y) = lastn n y.
Proof.
  intros H. destruct (Nat.ltb_spec n (length y)) as [Hn|Hn]; [|by rewrite lastn_all].
  unfold lastn. replace (length y - n) with 1 by lia. by destruct y.
Qed.

Lemma NoDup_move k l : NoDup l → NoDup (move_to_end k l).
Proof.
  intros Hl. unfold move_to_end. apply NoDup_app. split; [by apply NoDup_filter|].
  split; [|apply NoDup_singleton]. intros x Hx ->%list_elem_of_singleton.
  by apply list_elem_of_filter in Hx as [].
Qed.

Lemma elem_of_move x k l : x ∈ move_to_end k l ↔ x = k ∨ x ∈ l.
Proof.
  unfold move_to_end. rewrite elem_of_app, list_elem_of_filter, list_elem_of_singleton.
  destruct (decide (x = k)); naive_solver.
Qed.

Lemma filter_absent (k : UUID) (l : list UUID) : k ∉ l → filter (λ x, x ≠ k) l = l.
Proof.
  induction l as [|x l IH]; intros Hk; [done|]. apply not_elem_of_cons in Hk as [Hx Hk].
  rewrite filter_cons_True by done. by rewrite IH.
Qed.

Lemma length_filter_ne (k : UUID) (l : list UUID) :
  NoDup l → length l ≤ S (length (filter (λ x, x ≠ k) l)).
Proof.
  induction 1 as [|x l Hx Hl IH]; [cbn; lia|]. destruct (decide (x = k)) as [->|Hk].
  - rewrite filter_cons_False by (intros H; by apply H). by rewrite filter_absent.
  - rewrite filter_cons_True by done. cbn [length]. lia.
Qed.

Lemma length_move k l : NoDup l → length l ≤ length (move_to_end k l) ≤ S (length l).
Proof.
  intros Hl. unfold move_to_end. rewrite length_app. cbn [length].
  pose proof (length_filter_ne k l Hl). pose proof (length_filter (λ x, x ≠ k) l). lia.
Qed.

(** Moving a key to the end of the reference list moves it in the window. *)
Lemma lastn_move n k l :
  NoDup l → lastn n (move_to_end k l) =
            (let c := move_to_end k (lastn n l) in if n <? length c then tail c else c).
Proof.
  intros Hl. set (a := take (length l - n) l).
  assert (El : l = a ++ lastn n l) by (symmetry; apply take_drop).
  assert (Hw : NoDup (lastn n l)).
  { rewrite El in Hl. by apply NoDup_app in Hl as (_ & _ & ?). }
  pose proof (length_move k _ Hw) as Hlen. rewrite length_lastn in Hlen. cbv zeta.
  rewrite lastn_pop by lia. rewrite El at 1. unfold move_to_end at 1. rewrite filter_app, <- app_assoc.
  fold (move_to_end k (lastn n l)). destruct (decide (n ≤ length l)) as [Hn|Hn].
  - apply lastn_app_r. lia.
  - replace a with (@nil UUID); [done|]. unfold a. by replace (length l - n) with 0 by lia.
Qed.

(** The invariant: distinct keys, at most [maxsize] of them. *)
Record lru_ok (c : _LRUCache) : Prop := {
  lru_nodup : NoDup (lru_cache c);
  lru_bounded : length (lru_cache c) ≤ lru_maxsize c;
}.

(** Simulation: the cache is the window of the reference list. *)
Record simulates (c : _LRUCache) (l : list UUID) : Prop := {
  sim_nodup : NoDup l;
  sim_window : lru_cache c = lastn (lru_maxsize c) l;
}.

Lemma NoDup_lastn {A} n (l : list A) : NoDup l → NoDup (lastn n l).
Proof.
  intros Hl. rewrite <- (take_drop (length l - n) l) in Hl. by apply NoDup_app in Hl as (_ & _ & ?).
Qed.

Lemma simulates_ok c l : simulates c l → lru_ok c.
Proof.
  intros [Hl Hw]. constructor; rewrite Hw.
  - by apply NoDup_lastn.
  - rewrite length_lastn. lia.
Qed.

Lemma simulates_self c : lru_ok c → simulates c (lru_cache c).
Proof. intros [H1 H2]. constructor; [done|]. by rewrite lastn_all. Qed.

Lemma apply_maxsize c o : lru_maxsize (lru_apply c o) = lru_maxsize c.
Proof. destruct o; cbn; unfold lru_contains; by repeat case_match. Qed.

Lemma add_simulates c l k : simulates c l → simulates (lru_add k c) (move_to_end k l).
Proof.
  intros [Hl Hw]. constructor; [by apply NoDup_move|]. cbn. by rewrite lastn_move, Hw.
Qed.

Lemma apply_simulates c l o :
  simulates c l → simulates (lru_apply c o) (ref_apply (lru_maxsize c) l o).
Proof.
  destruct o as [k|k]; [|apply add_simulates]. intros [Hl Hw]. cbn. unfold lru_contains.
  rewrite Hw. case_bool_decide as Hk; [|done]. constructor; cbn; [by apply NoDup_move|].
  rewrite lastn_move by done. cbv zeta.
  pose proof (length_filter_lt (λ x, x ≠ k) _ k Hk (λ H, H eq_refl)) as Hlt.
  rewrite length_lastn in Hlt.
  destruct (Nat.ltb_spec (lru_maxsize c) (length (move_to_end k (lastn (lru_maxsize c) l))))
    as [H|H]; [|done].
  unfold move_to_end in H. rewrite length_app in H. cbn in H. lia.
Qed.

Lemma run_simulates c l ops :
  simulates c l →
  simulates (fold_left lru_apply ops c) (fold_left (ref_apply (lru_maxsize c)) ops l).
Proof.
  revert c l. induction ops as [|o ops IH]; intros c l Hs; [done|]. cbn [fold_left].
  rewrite <- (apply_maxsize c o). apply IH. rewrite apply_maxsize. by apply apply_simulates.
Qed.

(** ** What the cache remembers *)

(** The keys after [k] in the reference list are among those used since. *)
Definition trailing (k : UUID) (used : list UUID) (l : list UUID) : Prop :=
  ∃ before after, l = before ++ k :: after ∧ after ⊆ used.

Lemma trailing_move k used l j :
  NoDup l → trailing k used l → trailing k (j :: used) (move_to_end j l).
Proof.
  intros Hl (before & after & -> & Hsub). unfold move_to_end. destruct (decide (j = k)) as [->|Hj].
  - eexists _, []. split; [reflexivity|]. set_solver.
  - rewrite filter_app, filter_cons_True by done. rewrite <- app_assoc, <- app_comm_cons.
    eexists _, _. split; [reflexivity|]. intros x. rewrite elem_of_app, list_elem_of_filter. set_solver.
Qed.

Lemma trailing_known n k used l :
  NoDup l → trailing k used l → length (remove_dups used) < n → k ∈ lastn n l.
Proof.
  intros Hl (before & after & -> & Hsub) Hn.
  assert (length after ≤ length (remove_dups used)) as Ha.
  { apply NoDup_app in Hl as (_ & _ & Hl). apply NoDup_cons in Hl as [_ Hl].
    apply submseteq_length, NoDup_submseteq; [done|]. intros x Hx. apply elem_of_remove_dups. auto. }
  unfold lastn. rewrite length_app, drop_app_le; cbn [length]; [|lia].
  apply elem_of_app. right. by left.
Qed.

Lemma trailing_run n k ops : ∀ used l,
  NoDup l → trailing k used l →
  NoDup (fold_left (ref_apply n) ops l) ∧
  trailing k (map op_key ops ++ used) (fold_left (ref_apply n) ops l).
Proof.
  induction ops as [|o ops IH]; intros used l Hl Ht; [done|]. cbn [fold_left map].
  assert (Hmore : ∀ l', NoDup l' → trailing k (op_key o :: used) l' →
    NoDup (fold_left (ref_apply n) ops l') ∧
    trailing k ((op_key o :: map op_key ops) ++ used) (fold_left (ref_apply n) ops l')).
  { intros l' Hl' Ht'. destruct (IH _ _ Hl' Ht') as [H1 (b & a & E & Hs)]. split; [done|].
    exists b, a. split; [done|]. set_solver. }
  apply Hmore.
  - destruct o as [j|j]; cbn; [case_bool_decide|]; auto using NoDup_move.
  - destruct o as [j|j]; cbn; [case_bool_decide|]; [by apply trailing_move| |by apply trailing_move].
    destruct Ht as (b & a & E & Hs). exists b, a. split; [done|]. set_solver.
Qed.

(** Remark (bounds): once an id is marked processed, the tracker recognises it until
    [maxsize] (10,000) other ids have been looked up or marked, whatever the
    order of the operations in between. *)
Theorem recognised_within_window c k ops :
  lru_ok c →
  length (remove_dups (map op_key ops)) < lru_maxsize c →
  fst (lru_contains k (fold_left lru_apply ops (lru_add k c))) = true.
Proof.
  intros Hc Hn. set (l := move_to_end k (lru_cache c)).
  pose proof (add_simulates _ _ k (simulates_self _ Hc)) as Hs. fold l in Hs.
  pose proof (run_simulates _ _ ops Hs) as [_ Hw]. cbn [lru_maxsize lru_add] in Hw.
  assert (Ht : trailing k [] l) by (eexists _, []; split; [reflexivity|set_solver]).
  destruct (trailing_run (lru_maxsize c) k ops [] l (sim_nodup _ _ Hs) Ht) as [H1 H2].
  rewrite app_nil_r in H2.
  unfold lru_contains. rewrite bool_decide_eq_true_2; [done|]. rewrite Hw.
  assert (lru_maxsize (fold_left lru_apply ops (lru_add k c)) = lru_maxsize c) as ->.
  { clear. change (lru_maxsize c) with (lru_maxsize (lru_add k c)). generalize (lru_add k c).
    induction ops as [|o ops IH]; intros c'; [done|]. cbn [fold_left]. by rewrite IH, apply_maxsize. }
  by apply (trailing_known _ _ (map op_key ops)).
Qed.

Lemma recognised_within_window_witness :
  fst (lru_contains 7%Z (fold_left lru_apply [Done 8%Z; Seen 9%Z; Done 8%Z]
                           (lru_add 7%Z (new_lru 3)))) = true.
Proof.
  apply recognised_within_window; [|vm_compute; lia]. constructor; cbn; [constructor|lia].
Defined.

(** The bound is tight: the key after which a full cache of three forgets. *)
Example forgotten_after_window :
  fst (lru_contains 7%Z (fold_left lru_apply [Done 8%Z; Done 9%Z; Done 10%Z]
                           (lru_add 7%Z (new_lru 3)))) = false.
Proof. vm_compute. reflexivity. Qed.

(** ** Restart: the topic gives the cache back *)

Lemma remove_dups_in (x : UUID) l : x ∈ l → remove_dups (x :: l) = remove_dups l.
Proof. intros H. cbn [remove_dups]. by destruct (decide_rel (∈) x l). Qed.

Lemma remove_dups_new (x : UUID) l : x ∉ l → remove_dups (x :: l) = x :: remove_dups l.
Proof. intros H. cbn [remove_dups]. by destruct (decide_rel (∈) x l). Qed.

Lemma remove_dups_snoc (ids : list UUID) k :
  remove_dups (ids ++ [k]) = move_to_end k (remove_dups ids).
Proof.
  induction ids as [|x ids IH]; [done|]. rewrite <- app_comm_cons.
  destruct (decide (x = k)) as [->|Hx].
  - rewrite remove_dups_in by set_solver. rewrite IH. unfold move_to_end.
    destruct (decide (k ∈ ids)); [by rewrite remove_dups_in|].
    rewrite remove_dups_new by done. by rewrite filter_cons_False by (intros H; by apply H).
  - destruct (decide (x ∈ ids)) as [Hin|Hin].
    + rewrite !remove_dups_in by set_solver. done.
    + rewrite !remove_dups_new by set_solver. rewrite IH. unfold move_to_end.
      by rewrite filter_cons_True.
Qed.

Lemma adds_simulate n ids :
  simulates (fold_left (λ c u, lru_add u c) ids (new_lru n)) (remove_dups ids) ∧
  lru_maxsize (fold_left (λ c u, lru_add u c) ids (new_lru n)) = n.
Proof.
  induction ids as [|k ids IH] using rev_ind; [by repeat split; constructor|].
  rewrite fold_left_app, remove_dups_snoc. cbn [fold_left]. destruct IH as [H1 H2].
  split; [by apply add_simulates|done].
Qed.

Definition uuid_range (u : UUID) : Prop := (0 <= u < 2 ^ 128)%Z.

Lemma processed_record_id u : uuid_range u → record_id (processed_record u) = Some u.
Proof.
  intros Hu. change (record_id (processed_record u))
    with (match parse_uuid (uuid_str u) with Ok v => Some v | Err _ => None end).
  by rewrite parse_uuid_str.
Qed.

Lemma processed_key_inj u v :
  uuid_range u → uuid_range v → pr_key (processed_record u) = pr_key (processed_record v) → u = v.
Proof.
  intros Hu Hv E. cbn [pr_key processed_record] in E. pose proof (parse_uuid_str u Hu) as H.
  rewrite E, parse_uuid_str in H by done. congruence.
Qed.

Lemma rebuild_cons r records c u :
  record_id r = Some u →
  _rebuild_from_topic (r :: records) c = _rebuild_from_topic records (lru_add u c).
Proof. intros E. unfold _rebuild_from_topic. cbn [fold_left]. by rewrite E. Qed.

Lemma rebuild_processed ids c :
  Forall uuid_range ids →
  _rebuild_from_topic (map processed_record ids) c = fold_left (λ c u, lru_add u c) ids c.
Proof.
  intros Hids. revert c. induction Hids as [|u ids Hu _ IH]; intros c; [done|].
  cbn [map fold_left]. rewrite (rebuild_cons _ _ _ u) by (by apply processed_record_id). apply IH.
Qed.

(** The log compaction of the tracker's topic. *)
Abbreviation compaction := (compacts pr_key).

Lemma compaction_ids ids records :
  Forall uuid_range ids → compaction (map processed_record ids) records →
  ∃ ids', records = map processed_record ids' ∧ Forall uuid_range ids' ∧
          remove_dups ids' = remove_dups ids ∧ ∀ u, u ∈ ids' ↔ u ∈ ids.
Proof.
  intros Hids. revert records. induction Hids as [|u ids Hu Hids IH]; intros records Hc.
  - inversion Hc. by exists [].
  - inversion Hc as [|r l l' Hc'|r r' l l' Hin Hkey Hc']; subst.
    + destruct (IH _ Hc') as (ids' & -> & H1 & H2 & H3). exists (u :: ids').
      split; [done|]. split; [by constructor|].
      split; [|intros v; by rewrite !elem_of_cons, H3].
      destruct (decide (u ∈ ids)).
      * rewrite !remove_dups_in by set_solver. done.
      * rewrite !remove_dups_new by set_solver. by rewrite H2.
    + destruct (IH _ Hc') as (ids' & -> & H1 & H2 & H3). exists ids'.
      assert (u ∈ ids) as Hd.
      { apply list_elem_of_fmap in Hin as (v & -> & Hv).
        rewrite Forall_forall in Hids.
        by rewrite (processed_key_inj u v Hu (Hids v Hv) (eq_sym Hkey)). }
      split; [done|]. split; [done|]. split; [by rewrite H2, remove_dups_in|].
      intros v. rewrite H3, elem_of_cons. split; [by right|intros [->|Hv]; done].
Qed.

(** C20 (roundtrip): a restarted tracker recovers what the previous process marked.
    When the record of every mark was persisted, whatever records compaction has removed from the topic, rebuilding from it
    gives the last 10,000 distinct ids marked, in order of their last marking. *)
Theorem restart_recovers name ids records :
  Forall uuid_range ids →
  compaction (map processed_record ids) records →
  it_lru (initialize (Ok records) (new_tracker name records)) =
  mk_lru (lastn LRU_MAXSIZE (remove_dups ids)) LRU_MAXSIZE.
Proof.
  intros Hids Hc. destruct (compaction_ids _ _ Hids Hc) as (ids' & -> & H1 & H2 & _).
  cbn [initialize it_lru new_tracker]. rewrite rebuild_processed by done.
  destruct (adds_simulate LRU_MAXSIZE ids') as [[_ Hw] Hn]. rewrite Hn, H2 in Hw.
  destruct (fold_left _ _ _) as [cache n]. cbn in Hw, Hn. by subst.
Qed.

Lemma restart_recovers_witness :
  it_lru (initialize (Ok (map processed_record [7; 8]%Z))
            (new_tracker "risk" (map processed_record [7; 8]%Z))) =
  mk_lru (lastn LRU_MAXSIZE [7; 8]%Z) LRU_MAXSIZE.
Proof.
  apply (restart_recovers "risk" [8; 7; 8]%Z).
  - unfold uuid_range. repeat constructor; lia.
  - apply (compact_drop pr_key _ (processed_record 8)); [right; left|reflexivity|].
    repeat constructor.
Defined.

(** ** The interface of the clients *)

(** What a consumer relies on.  [dd_recent] is the set of ids a tracker
    recognises; it loses none as long as all the ids at stake fit its capacity. *)
Class Dedup (T : Type) := {
  dd_topic : T → string;
  dd_initialize : result (list ProcessedRecord) → T → T;
  dd_is_duplicate : UUID → T → bool * T;
  dd_mark_processed : UUID → bool → T → T;
  dd_ok : T → Prop;
  dd_recent : T → UUID → Prop;
  dd_capacity : nat;
  dd_is_duplicate_spec k t : dd_ok t →
    (fst (dd_is_duplicate k t) = true ↔ dd_recent t k) ∧
    dd_ok (snd (dd_is_duplicate k t)) ∧
    ∀ u, dd_recent (snd (dd_is_duplicate k t)) u ↔ dd_recent t u;
  dd_mark_ok k written t : dd_ok t → dd_ok (dd_mark_processed k written t);
  dd_mark_sound k written t u : dd_ok t →
    dd_recent (dd_mark_processed k written t) u → u = k ∨ dd_recent t u;
  dd_mark_complete k written t (ids : list UUID) u : dd_ok t →
    (∀ v, dd_recent t v → v ∈ ids) → k ∈ ids → length ids ≤ dd_capacity →
    u = k ∨ dd_recent t u → dd_recent (dd_mark_processed k written t) u;
}.

(** The tracker's window when it is created by [IdempotencyTracker.__init__]. *)
Definition tracker_ok (t : IdempotencyTracker) : Prop :=
  lru_ok (it_lru t) ∧ lru_maxsize (it_lru t) = LRU_MAXSIZE.

Lemma add_ok k c : lru_ok c → lru_ok (lru_add k c).
Proof. intros Hc. eapply simulates_ok, add_simulates, simulates_self, Hc. Qed.

Lemma contains_spec k c :
  lru_ok c →
  (fst (lru_contains k c) = true ↔ k ∈ lru_cache c) ∧
  lru_ok (snd (lru_contains k c)) ∧
  (∀ u, u ∈ lru_cache (snd (lru_contains k c)) ↔ u ∈ lru_cache c) ∧
  lru_maxsize (snd (lru_contains k c)) = lru_maxsize c.
Proof.
  intros Hc. pose proof (apply_simulates _ _ (Seen k) (simulates_self _ Hc)) as Hs.
  apply simulates_ok in Hs. cbn in Hs. unfold lru_contains in *. case_bool_decide as Hk.
  - split; [done|]. split; [done|]. split; [|done]. intros u. cbn. rewrite elem_of_move.
    set_solver.
  - done.
Qed.

Lemma elem_of_tail {A} (x : A) l : x ∈ tail l → x ∈ l.
Proof. destruct l; cbn; [done|]. by right. Qed.

#[export] Program Instance tracker_dedup : Dedup IdempotencyTracker := {|
  dd_topic t := processed_id_topic (it_consumer_name t);
  dd_initialize := initialize;
  dd_is_duplicate := is_duplicate;
  dd_mark_processed := mark_processed;
  dd_ok := tracker_ok;
  dd_recent t u := u ∈ lru_cache (it_lru t);
  dd_capacity := LRU_MAXSIZE;
|}.
Next Obligation.
  intros k t [Hok Hn]. destruct (contains_spec k _ Hok) as (H1 & H2 & H3 & H4).
  unfold is_duplicate, tracker_ok. destruct (lru_contains k (it_lru t)) as [b c]. cbn in *.
  split; [done|]. split; [split; congruence|done].
Qed.
Next Obligation. intros k w t [Hok Hn]. split; [by apply add_ok|done]. Qed.
Next Obligation.
  intros k w t u _. cbn. intros Hu. apply elem_of_move. case_match; [by apply elem_of_tail|done].
Qed.
Next Obligation.
  intros k w t ids u [Hok Hn] Hsub Hk Hlen Hu.
  change (u ∈ lru_cache (lru_add k (it_lru t))). unfold lru_add. cbn [lru_cache].
  assert (Hfit : length (move_to_end k (lru_cache (it_lru t))) ≤ lru_maxsize (it_lru t)).
  { rewrite Hn. etrans; [|exact Hlen]. apply submseteq_length, NoDup_submseteq.
    - by apply NoDup_move, lru_nodup.
    - intros x [->|Hx]%elem_of_move; auto. }
  destruct (Nat.ltb_spec (lru_maxsize (it_lru t))
              (length (move_to_end k (lru_cache (it_lru t))))); [lia|].
  by apply elem_of_move.
Qed.
