(* ===== verification/Llm.v ===== *)
(** * The LLM runtime's data: requests, answers, parsing, grounding, cache

    [src/agent_foundation/llm/]: [request.py], [result.py], [errors.py],
    [providers/base.py], [store.py] and the pure parts of [structured.py].  The
    JSON codec, the hash and what pydantic makes of a schema are classes: they are not
    code of the repository. *)

From Stdlib Require Import ZArith Bool Ascii String List Lia.
From stdpp Require Import base list strings option.
From S2P Require Import Prelude.
From S2P Require Import PyFloat.
From S2P Require Import Contracts.
From S2P Require Import Uuid.
From S2P Require Import Idempotency.

Open Scope string_scope.
Open Scope list_scope.
Open Scope nat_scope.

(** ** Outside code *)

(** [json.loads] (an error is a [JSONDecodeError], or a [ValueError] for an integer of too
    many digits), [json.dumps(v, default=str)],
    the same with sorted keys and with [indent=2], and [hashlib.sha256(...).hexdigest()]. *)
Class Json := {
  json_loads : string → result pyval;
  json_dumps : pyval → string;
  json_dumps_sorted : pyval → string;
  json_dumps_indent : pyval → string;
  sha256_hex : string → string;
}.

(** A pydantic model used as an output schema. *)
Class Schema (V : Type) := {
  model_json_schema : list (string * pyval);
  model_validate : pyval → result V;
  model_dump : V → list (string * pyval);
}.

(** ** Requests *)

Inductive TaskKind := kind_classify | kind_extract_intent | kind_draft_response
                    | kind_summarize_reasoning.

Definition TaskKind_str (k : TaskKind) : string :=
  match k with
  | kind_classify => "classify"
  | kind_extract_intent => "extract_intent"
  | kind_draft_response => "draft_response"
  | kind_summarize_reasoning => "summarize_reasoning"
  end.

Record AssistiveRequest (V : Type) := {
  ar_task_kind : TaskKind;
  ar_agent_id : string;
  ar_correlation_id : UUID;
  ar_causation_id : UUID;
  ar_instructions : string;
  ar_grounding_inputs : list (string * pyval);
  ar_examples : option (list pyval);
  ar_idempotency_key : string;
  ar_fallback : result V;
}.
Arguments Build_AssistiveRequest {V}.
Arguments ar_task_kind {V} _.
Arguments ar_agent_id {V} _.
Arguments ar_correlation_id {V} _.
Arguments ar_causation_id {V} _.
Arguments ar_instructions {V} _.
Arguments ar_grounding_inputs {V} _.
Arguments ar_examples {V} _.
Arguments ar_idempotency_key {V} _.
Arguments ar_fallback {V} _.

(** [_derive_idempotency_key] for an empty key. *)
Definition derived_key `{Json} (correlation_id : UUID) (kind : TaskKind)
    (grounding : list (string * pyval)) : string :=
  uuid_str correlation_id +:+ ":" +:+ TaskKind_str kind +:+ ":" +:+
  py_take 16 (sha256_hex (json_dumps_sorted (VDict grounding))).

(** The validators of [AssistiveRequest]. *)
Definition mk_request {V} `{Json} (r : AssistiveRequest V) : result (AssistiveRequest V) :=
  if negb (str_truthy (py_strip (ar_instructions r)))
  then Err (ValidationError "instructions must be non-empty")
  else Ok {|
    ar_task_kind := ar_task_kind r; ar_agent_id := ar_agent_id r;
    ar_correlation_id := ar_correlation_id r; ar_causation_id := ar_causation_id r;
    ar_instructions := ar_instructions r; ar_grounding_inputs := ar_grounding_inputs r;
    ar_examples := ar_examples r;
    ar_idempotency_key :=
      if str_truthy (ar_idempotency_key r) then ar_idempotency_key r
      else derived_key (ar_correlation_id r) (ar_task_kind r) (ar_grounding_inputs r);
    ar_fallback := ar_fallback r |}.

(** ** Answers *)

Inductive FailureReason := model_unavailable | timeout | invalid_output | missing_inputs
                         | context_limit_exceeded | unable_to_produce.

#[export] Instance FailureReason_eq_dec : EqDecision FailureReason.
Proof. solve_decision. Defined.

Inductive ReasoningPath := path_model | path_cache | path_fallback.

#[export] Instance ReasoningPath_eq_dec : EqDecision ReasoningPath.
Proof. solve_decision. Defined.

Record TokenUsage := {
  tu_input_tokens : Z;
  tu_output_tokens : Z;
  tu_cache_read_tokens : Z;
  tu_cache_write_tokens : Z;
}.

Record RawCompletion := {
  raw_text : string;
  raw_token_usage : TokenUsage;
  raw_cache_hit : bool;
  raw_model_id : string;
}.

(** What [provider.invoke] does: it completes, it exceeds the timeout, or it
    raises a [ProviderError], an [LLMRuntimeError] or anything else. *)
Inductive InvokeOutcome :=
| Completed (raw : RawCompletion)
| TimedOut
| ProviderError (msg : string)
| LLMRuntimeError (reason : FailureReason) (msg : string)
| OtherError (msg : string).

(** [AssistiveResult.value] is [Any]: an instance of the schema, or plain data. *)
Inductive AnyValue (V : Type) := Instance_ (v : V) | Plain (d : pyval).
Arguments Instance_ {V} v.
Arguments Plain {V} d.

Record AssistiveResult (V : Type) := {
  res_value : AnyValue V;
  res_reasoning_path : ReasoningPath;
  res_token_usage : option TokenUsage;
  res_cache_hit : bool;
  res_failure_reason : option FailureReason;
  res_model_id : option string;
  res_latency_ms : Z;
  res_prompt_ref : option string;
}.
Arguments Build_AssistiveResult {V}.
Arguments res_value {V} _.
Arguments res_reasoning_path {V} _.
Arguments res_token_usage {V} _.
Arguments res_cache_hit {V} _.
Arguments res_failure_reason {V} _.
Arguments res_model_id {V} _.
Arguments res_latency_ms {V} _.
Arguments res_prompt_ref {V} _.

(** ** Parsing the model's text *)

Fixpoint str_drop (n : nat) (s : string) : string :=
  match n, s with
  | O, _ => s
  | S n', String _ s' => str_drop n' s'
  | S _, EmptyString => EmptyString
  end.

Definition fence : string := "```".

Definition ends_with (suffix s : string) : bool :=
  String.eqb (str_drop (String.length s - String.length suffix) s) suffix &&
  (String.length suffix <=? String.length s).

(** The code fences around the JSON, as [_parse_json] and [_validate_output]
    remove them. *)
Definition strip_fences (text : string) : string :=
  let text := py_strip text in
  let text := if String.prefix "```json" text then str_drop 7 text else text in
  let text := if String.prefix fence text then str_drop 3 text else text in
  let text := if ends_with fence text
              then String.substring 0 (String.length text - 3) text else text in
  py_strip text.

Definition _parse_json `{Json} (text : string) : result pyval := json_loads (strip_fences text).

(** [_validate_output]: [None] when the text does not parse or validate. *)
Definition _validate_output `{Json} {V} `{!Schema V} (text : string) : option V :=
  match _parse_json text with
  | Ok parsed => match model_validate parsed with Ok v => Some v | Err _ => None end
  | Err _ => None
  end.

(** ** Grounding *)

(** [s.split()]; [cur] is the token being read, reversed. *)
Fixpoint split_words (cur : string) (s : string) : list string :=
  match s with
  | EmptyString => if str_truthy cur then [cur] else []
  | String c s' =>
      if is_space c then (if str_truthy cur then [cur] else []) ++ split_words "" s'
      else split_words (cur +:+ String c EmptyString) s'
  end.

Definition py_split (s : string) : list string := split_words "" s.

(** [c.isdigit()], for ASCII. *)
Definition ascii_digit (c : ascii) : bool := between 48 57 c.

Definition has_digit (s : string) : bool := negb (forall_chars (λ c, negb (ascii_digit c)) s).

(** The numeric claims of one text field. *)
Definition numeric_claims (field_value : string) : list string :=
  List.filter (λ t, has_digit t && (3 <? py_len t)) (py_split (py_lower field_value)).

Definition claim_grounded (grounding_str claim : string) : bool :=
  py_contains claim grounding_str ||
  py_contains (py_remove "," (py_remove "$" claim)) grounding_str.

Definition field_grounded (grounding_str : string) (v : pyval) : bool :=
  match v with
  | VStr s => if py_len s <? 20 then true
              else forallb (claim_grounded grounding_str) (numeric_claims s)
  | _ => true
  end.

Definition _grounding_check `{Json} {V} `{!Schema V} (value : V)
    (grounding_inputs : list (string * pyval)) : bool :=
  let grounding_str := py_lower (json_dumps (VDict grounding_inputs)) in
  forallb (λ kv, field_grounded grounding_str (snd kv)) (model_dump value).

(** ** The result cache *)

(** [_LRUResultCache]: an [OrderedDict] from keys to dumped results, oldest first. *)
Record _LRUResultCache (D : Type) := mk_results {
  rs_cache : list (string * D);
  rs_maxsize : nat;
}.
Arguments mk_results {D}.
Arguments rs_cache {D} _.
Arguments rs_maxsize {D} _.

Definition cached {D} (key : string) (l : list (string * D)) : option D :=
  snd <$> List.find (λ kv, String.eqb (fst kv) key) l.

Definition put_last {D} (key : string) (d : D) (l : list (string * D)) : list (string * D) :=
  List.filter (λ kv, negb (String.eqb (fst kv) key)) l ++ [(key, d)].

Definition results_get {D} (key : string) (c : _LRUResultCache D) :
    option D * _LRUResultCache D :=
  match cached key (rs_cache c) with
  | Some d => (Some d, mk_results (put_last key d (rs_cache c)) (rs_maxsize c))
  | None => (None, c)
  end.

Definition results_put {D} (key : string) (d : D) (c : _LRUResultCache D) : _LRUResultCache D :=
  let l := put_last key d (rs_cache c) in
  mk_results (if rs_maxsize c <? length l then tail l else l) (rs_maxsize c).

(** [result.model_dump(mode="json")]: the value is dumped to plain data, and
    [AssistiveResult.model_validate] leaves it so. *)
Definition dump_value {V} `{!Schema V} (v : AnyValue V) : AnyValue V :=
  match v with
  | Instance_ v => Plain (VDict (model_dump v))
  | Plain d => Plain d
  end.

Definition dump_result {V} `{!Schema V} (r : AssistiveResult V) : AssistiveResult V := {|
  res_value := dump_value (res_value r);
  res_reasoning_path := res_reasoning_path r;
  res_token_usage := res_token_usage r;
  res_cache_hit := res_cache_hit r;
  res_failure_reason := res_failure_reason r;
  res_model_id := res_model_id r;
  res_latency_ms := res_latency_ms r;
  res_prompt_ref := res_prompt_ref r |}.

(** [AssistiveResultStore]: its cache ([_persist] swallows every error, and
    nothing reads its topic back). *)
Abbreviation AssistiveResultStore V := (_LRUResultCache (AssistiveResult V)).

Definition new_store {V} : AssistiveResultStore V := mk_results [] LRU_MAXSIZE.

(** ** Examples *)

Example fences_removed :
  strip_fences ("```json" +:+ String "010" "{}" +:+ String "010" "```") = "{}".
Proof. vm_compute. reflexivity. Qed.

Example claims_read :
  numeric_claims "The refund of $49.99 is 30 days old" = ["$49.99"].
Proof. vm_compute. reflexivity. Qed.
