(* ===== verification/LlmConfig.v ===== *)
(** * The LLM configuration

    [src/agent_foundation/llm/config.py]: the runtime's settings read from the
    environment, the profile of an agent's task, and the layered model
    configuration.  [environ] is [os.environ.get]; a YAML file is what
    [yaml.safe_load] makes of it, of the documented shape, or [None] when the file
    or the library is missing.  Pydantic's conversions of a
    model's fields are a class.  The module keeps the profiles of the first read; the
    file is read at each call here, as it does not change. *)

From Stdlib Require Import ZArith Bool Ascii String List Lia.
From stdpp Require Import base list strings gmap.
From S2P Require Import Prelude.
From S2P Require Import PyFloat.
From S2P Require Import Contracts.
From S2P Require Import PyNumber.
From S2P Require Import Llm.

Open Scope string_scope.
Open Scope list_scope.
Open Scope Z_scope.

#[local] Set Default Proof Using "Type".

Inductive LLMProvider := provider_stub | provider_bedrock | provider_agentcore.

#[export] Instance LLMProvider_eq_dec : EqDecision LLMProvider.
Proof. solve_decision. Defined.

Definition LLMProvider_of (s : string) : option LLMProvider :=
  if String.eqb s "stub" then Some provider_stub
  else if String.eqb s "bedrock" then Some provider_bedrock
  else if String.eqb s "agentcore" then Some provider_agentcore
  else None.

(** A dict with string keys. *)
Abbreviation items := (list (string * pyval)).

(** ** [RuntimeConfig] *)

Definition DEFAULT_MODEL_ID : string := "anthropic.claude-3-5-sonnet-20241022-v2:0".

Record RuntimeConfig := {
  cfg_mode : LLMProvider;
  cfg_model_id : string;
  cfg_region : option string;
  cfg_timeout_seconds : float;
  cfg_max_repairs : Z;
  cfg_bootstrap_servers : string;
  cfg_log_raw_prompts : bool;
  cfg_log_raw_outputs : bool;
  cfg_redact_pii : bool;
}.

Definition _parse_bool (value : string) : bool :=
  str_in (py_strip (py_lower value)) ["true"; "1"; "yes"].

Definition float_of_env (value : string) : result float :=
  match py_float_of_str value with
  | Some f => Ok f
  | None => Err (ValueError ("could not convert string to float: " +:+ py_repr_str value))
  end.

Definition int_of_env (value : string) : result Z :=
  match py_int_of_str value with
  | Some z => Ok z
  | None => Err (ValueError ("invalid literal for int() with base 10: " +:+ py_repr_str value))
  end.

Section Environ.
Variable environ : string → option string.

Definition env_or (name value : string) : string := default value (environ name).

(** [RuntimeConfig.from_env] *)
Definition from_env : result RuntimeConfig :=
  timeout ← float_of_env (env_or "AGENT_LLM_TIMEOUT_SECONDS" "8.0");
  repairs ← int_of_env (env_or "AGENT_LLM_MAX_REPAIRS" "2");
  match LLMProvider_of (env_or "AGENT_LLM_MODE" "stub") with
  | None => Err (ValidationError "Input should be 'stub', 'bedrock' or 'agentcore'")
  | Some mode => Ok {|
      cfg_mode := mode;
      cfg_model_id := env_or "AGENT_LLM_MODEL" (env_or "BEDROCK_MODEL_ID" DEFAULT_MODEL_ID);
      cfg_region :=
        match environ "AGENT_LLM_REGION" with Some r => Some r | None => environ "AWS_REGION" end;
      cfg_timeout_seconds := timeout;
      cfg_max_repairs := repairs;
      cfg_bootstrap_servers := env_or "AGENT_LLM_BOOTSTRAP_SERVERS" "localhost:9092";
      cfg_log_raw_prompts := _parse_bool (env_or "LOG_RAW_LLM_PROMPTS" "false");
      cfg_log_raw_outputs := _parse_bool (env_or "LOG_RAW_LLM_OUTPUTS" "false");
      cfg_redact_pii := _parse_bool (env_or "REDACT_PII" "true") |}
  end.

(** [if os.environ.get(name)] *)
Definition env_set (name : string) : bool :=
  match environ name with Some v => str_truthy v | None => false end.
End Environ.

(** ** [ModelProfile] *)

Record ModelProfile := {
  mp_mode : LLMProvider;
  mp_model_id : string;
  mp_region : option string;
  mp_temperature : float;
  mp_max_tokens : Z;
  mp_top_p : option float;
  mp_timeout_seconds : float;
  mp_max_repairs : Z;
}.

Definition _DEFAULT_PROFILE : ModelProfile := {|
  mp_mode := provider_stub; mp_model_id := DEFAULT_MODEL_ID; mp_region := None;
  mp_temperature := lit 0 1; mp_max_tokens := 1024; mp_top_p := None;
  mp_timeout_seconds := lit 8 1; mp_max_repairs := 2 |}.

Definition with_max_tokens (n : Z) (p : ModelProfile) : ModelProfile := {|
  mp_mode := mp_mode p; mp_model_id := mp_model_id p; mp_region := mp_region p;
  mp_temperature := mp_temperature p; mp_max_tokens := n; mp_top_p := mp_top_p p;
  mp_timeout_seconds := mp_timeout_seconds p; mp_max_repairs := mp_max_repairs p |}.

#[export] Instance TaskKind_eq_dec : EqDecision TaskKind.
Proof. solve_decision. Defined.

Definition _PROFILE_REGISTRY : list ((string * TaskKind) * ModelProfile) :=
  [ (("customer-resolution-agent", kind_classify), with_max_tokens 256 _DEFAULT_PROFILE);
    (("customer-resolution-agent", kind_draft_response), with_max_tokens 512 _DEFAULT_PROFILE);
    (("billing-entitlement-agent", kind_summarize_reasoning), with_max_tokens 200 _DEFAULT_PROFILE);
    (("risk-fraud-agent", kind_summarize_reasoning), with_max_tokens 200 _DEFAULT_PROFILE) ].

(** The profiles file: its [default] and [agents] sections, empty when absent. *)
Record ProfilesFile := {
  pf_default : items;
  pf_agents : list (string * items);
}.

(** [{**a, **b}] *)
Definition dict_union (a b : items) : items :=
  fold_left (λ acc kv, items_put kv.1 kv.2 acc) b a.

(** The YAML keys of a profile and the fields they set. *)
Definition field_map : list (string * string) :=
  [ ("provider", "mode"); ("model_id", "model_id"); ("region", "region");
    ("temperature", "temperature"); ("max_tokens", "max_tokens"); ("top_p", "top_p");
    ("timeout_seconds", "timeout_seconds"); ("max_repairs", "max_repairs") ].

Definition profile_kwargs (data : items) : items :=
  omap (λ kf, (λ v, (snd kf, v)) <$> items_get (fst kf) data) field_map.

Section Profiles.
(** [ModelProfile( **kwargs )] *)
Variable validate_profile : items → result ModelProfile.

Definition _build_profile (data : items) : result ModelProfile :=
  validate_profile (profile_kwargs data).

(** The loop over the agents' sections. *)
Fixpoint agent_profiles (default_data : items) (agents : list (string * items))
    (profiles : list (string * ModelProfile)) : result (list (string * ModelProfile)) :=
  match agents with
  | [] => Ok profiles
  | (aid, agent_data) :: rest =>
      p ← _build_profile (dict_union default_data agent_data);
      agent_profiles default_data rest (items_put aid p profiles)
  end.

Definition _load_yaml_profiles (file : option ProfilesFile) :
    result (list (string * ModelProfile)) :=
  match file with
  | None => Ok []
  | Some f =>
      profiles ←
        match pf_default f with
        | [] => Ok []
        | d => p ← _build_profile d; Ok [("default", p)]
        end;
      agent_profiles (pf_default f) (pf_agents f) profiles
  end.

(** The profile before the environment's overrides. *)
Definition base_profile (yaml_profiles : list (string * ModelProfile)) (agent_id : string)
    (task_kind : TaskKind) : ModelProfile :=
  let yaml_key := agent_id +:+ "." +:+ TaskKind_str task_kind in
  match items_get yaml_key yaml_profiles with
  | Some p => p
  | None =>
  match items_get agent_id yaml_profiles with
  | Some p => p
  | None =>
  match items_get (agent_id, task_kind) _PROFILE_REGISTRY with
  | Some p => p
  | None =>
  match items_get "default" yaml_profiles with
  | Some p => p
  | None => _DEFAULT_PROFILE
  end end end end.

(** [resolve_profile]; [config] is the runtime's, else read from the environment. *)
Definition resolve_profile (environ : string → option string) (file : option ProfilesFile)
    (agent_id : string) (task_kind : TaskKind) (config : option RuntimeConfig) :
    result ModelProfile :=
  cfg ← match config with Some c => Ok c | None => from_env environ end;
  yaml_profiles ← _load_yaml_profiles file;
  let base := base_profile yaml_profiles agent_id task_kind in
  Ok {|
    mp_mode := if decide (cfg_mode cfg = provider_stub) then mp_mode base else cfg_mode cfg;
    mp_model_id := if env_set environ "AGENT_LLM_MODEL" then cfg_model_id cfg else mp_model_id base;
    mp_region :=
      match cfg_region cfg with
      | Some r => if env_set environ "AGENT_LLM_REGION" then Some r else mp_region base
      | None => mp_region base
      end;
    mp_temperature := mp_temperature base;
    mp_max_tokens := mp_max_tokens base;
    mp_top_p := mp_top_p base;
    mp_timeout_seconds :=
      if env_set environ "AGENT_LLM_TIMEOUT_SECONDS" then cfg_timeout_seconds cfg
      else mp_timeout_seconds base;
    mp_max_repairs :=
      if env_set environ "AGENT_LLM_MAX_REPAIRS" then cfg_max_repairs cfg
      else mp_max_repairs base |}.
End Profiles.

(** Without settings and files, the profile of the classifier is the registry's. *)
Example registry_profile validate :
  resolve_profile validate (λ _, None) None "customer-resolution-agent" kind_classify None =
  Ok (with_max_tokens 256 _DEFAULT_PROFILE).
Proof. vm_compute. reflexivity. Qed.

(** ** [load_model_config] *)

(** [ModelConfigError] is a [ValueError]. *)
Definition ModelConfigError (msg : string) : exn := ValueError msg.

(** [_merge_layers]: later layers win; a [None] sets nothing. *)
Definition merge_layer (merged layer : items) : items :=
  fold_left (λ acc kv, match kv.2 with VNone => acc | v => items_put kv.1 v acc end) layer merged.

Definition _merge_layers (layers : list items) : items := fold_left merge_layer layers [].

Definition env_map : list (string * string) :=
  [ ("AGENT_LLM_MODE", "provider"); ("AGENT_LLM_MODEL", "model_id");
    ("BEDROCK_MODEL_ID", "model_id"); ("AGENT_LLM_REGION", "region"); ("AWS_REGION", "region");
    ("AWS_DEFAULT_REGION", "region"); ("AGENT_LLM_TIMEOUT_SECONDS", "timeout_seconds");
    ("BEDROCK_TIMEOUT_SECONDS", "timeout_seconds"); ("BEDROCK_TEMPERATURE", "temperature");
    ("BEDROCK_MAX_TOKENS", "max_tokens") ].

(** The value of one variable for its field. *)
Definition env_value (env_var field val : string) : result pyval :=
  let non_numeric :=
    ModelConfigError ("Non-numeric value for " +:+ env_var +:+ ": " +:+ py_repr_str val) in
  if str_in field ["timeout_seconds"; "temperature"]
  then match py_float_of_str val with Some f => Ok (VFloat f) | None => Err non_numeric end
  else if str_in field ["max_tokens"]
  then match py_int_of_str val with Some z => Ok (VInt z) | None => Err non_numeric end
  else Ok (VStr val).

(** The loop over [env_map]: the first variable that is set gives its field. *)
Fixpoint env_layer_from (environ : string → option string) (entries : list (string * string))
    (result : items) : Prelude.result items :=
  match entries with
  | [] => Ok result
  | (env_var, field) :: rest =>
      match environ env_var, items_get field result with
      | Some val, None =>
          v ← env_value env_var field val;
          env_layer_from environ rest (items_put field v result)
      | _, _ => env_layer_from environ rest result
      end
  end.

Definition _load_env_layer (environ : string → option string) : result items :=
  env_layer_from environ env_map [].

(** The configuration file: its [defaults] and [agents] sections. *)
Record ConfigFile := {
  cf_defaults : items;
  cf_agents : list (string * items);
}.

(** [_load_yaml_layer]; the file is missing, or unreadable with an error, or there. *)
Inductive FileRead := FileMissing | FileBroken (msg : string) | FileRead_ (f : ConfigFile).

Definition _load_yaml_layer (path : string) (file : FileRead) (agent_id : string) : result items :=
  match file with
  | FileMissing => Ok []
  | FileBroken msg => Err (ModelConfigError ("Failed to parse YAML config " +:+ path +:+ ": " +:+ msg))
  | FileRead_ f =>
      Ok (dict_union (cf_defaults f) (default [] (items_get agent_id (cf_agents f))))
  end.

(** [_runtime_overrides], with [register_runtime_override] and [clear_runtime_overrides]. *)
Definition Overrides : Type := list (string * items).
Definition register_runtime_override (agent_id : string) (fields : items) (o : Overrides) : Overrides :=
  items_put agent_id fields o.
Definition clear_runtime_overrides (_ : Overrides) : Overrides := [].

Record BedrockModelConfig := {
  bc_provider : string;
  bc_region : string;
  bc_model_id : string;
  bc_temperature : float;
  bc_max_tokens : Z;
  bc_timeout_seconds : Z;
  bc_retry_max_attempts : Z;
}.

(** Pydantic's conversion of a value to a field of the given type, with the error it
    reports. *)
Class Fields := {
  str_value : pyval → result string;
  float_value : pyval → result float;
  int_value : pyval → result Z;
}.

Section Load.
Context `{Fields}.

(** [BedrockModelConfig( **fields )], on the fields the model declares. *)
Definition mk_bedrock (fields : items) : result BedrockModelConfig :=
  let field {A} (conv : pyval → result A) (name : string) (dflt : A) : result A :=
    match items_get name fields with Some v => conv v | None => Ok dflt end in
  provider ← field str_value "provider" "bedrock";
  region ← field str_value "region" "us-east-1";
  model_id ← field str_value "model_id" DEFAULT_MODEL_ID;
  temperature ← field float_value "temperature" (lit 0 1);
  max_tokens ← field int_value "max_tokens" 1024;
  timeout_seconds ← field int_value "timeout_seconds" 30;
  retry_max_attempts ← field int_value "retry_max_attempts" 3;
  Ok {| bc_provider := provider; bc_region := region; bc_model_id := model_id;
        bc_temperature := temperature; bc_max_tokens := max_tokens;
        bc_timeout_seconds := timeout_seconds; bc_retry_max_attempts := retry_max_attempts |}.

Definition config_defaults : items :=
  [ ("provider", VStr "stub"); ("region", VStr "us-east-1"); ("model_id", VStr DEFAULT_MODEL_ID);
    ("temperature", VFloat (lit 0 1)); ("max_tokens", VInt 1024); ("timeout_seconds", VInt 30);
    ("retry_max_attempts", VInt 3) ].

(** [mode in ("bedrock", "agentcore")] *)
Definition needs_model (mode : pyval) : bool :=
  match mode with VStr s => str_in s ["bedrock"; "agentcore"] | _ => false end.

Definition config_error (agent_id : string) (mode : pyval) (tail : string) : exn :=
  ModelConfigError ("agent_id=" +:+ py_repr_str agent_id +:+ " mode=" +:+ py_repr mode +:+ ": " +:+ tail).

Definition load_model_config (environ : string → option string) (file : FileRead)
    (overrides : Overrides) (agent_id : string) : result BedrockModelConfig :=
  let path := env_or environ "AGENT_LLM_CONFIG_FILE" "config/agent_llm.yaml" in
  yaml_layer ← _load_yaml_layer path file agent_id;
  env_layer ← _load_env_layer environ;
  let override_layer := default [] (items_get agent_id overrides) in
  let merged := _merge_layers [config_defaults; yaml_layer; env_layer; override_layer] in
  let mode := default (VStr "stub") (items_get "provider" merged) in
  if needs_model mode && negb (py_truthy (default VNone (items_get "model_id" merged)))
  then Err (config_error agent_id mode
              ("model_id is required for " +:+ py_str mode +:+ " mode"))
  else
    match mk_bedrock merged with
    | Ok c => Ok c
    | Err exc => Err (config_error agent_id mode ("invalid config: " +:+ exn_str exc))
    end.
End Load.

(** ** Which layer sets a field *)

(** The value a layer sets: not [None]. *)
Definition set_by (name : string) (layer : items) : option pyval :=
  match items_get name layer with Some VNone | None => None | Some v => Some v end.

(** The first of the layers that sets the field. *)
Fixpoint layered (name : string) (layers : list items) : option pyval :=
  match layers with
  | [] => None
  | l :: rest => match set_by name l with Some v => Some v | None => layered name rest end
  end.

(** The first variable of [entries] that is set for the field. *)
Fixpoint env_pick (environ : string → option string) (entries : list (string * string))
    (field : string) : option (string * string) :=
  match entries with
  | [] => None
  | (env_var, f) :: rest =>
      match (if String.eqb f field then environ env_var else None) with
      | Some val => Some (env_var, val)
      | None => env_pick environ rest field
      end
  end.

Lemma items_get_nil k : items_get k ([] : items) = None.
Proof. done. Qed.

Lemma items_get_cons k kv (l : items) :
  items_get k (kv :: l) = if decide (kv.1 = k) then Some kv.2 else items_get k l.
Proof. unfold items_get. cbn [List.find]. by case_bool_decide; case_decide. Qed.

Lemma items_get_notin k (l : items) : k ∉ l.*1 → items_get k l = None.
Proof.
  induction l as [|kv l IH]; [done|]. rewrite items_get_cons. cbn. intros H.
  rewrite decide_False by set_solver. apply IH. set_solver.
Qed.

Lemma merge_layer_get k merged layer :
  NoDup layer.*1 →
  items_get k (merge_layer merged layer) =
  match set_by k layer with Some v => Some v | None => items_get k merged end.
Proof.
  unfold merge_layer. revert merged. induction layer as [|[k' v] l IH]; intros merged; [done|].
  cbn [fold_left fmap list_fmap fst snd]. rewrite list.NoDup_cons. intros [Hnot Hl].
  rewrite IH by done. unfold set_by at 2. rewrite items_get_cons. cbn [fst snd].
  destruct (decide (k' = k)) as [->|Hne].
  - unfold set_by. rewrite (items_get_notin k l Hnot).
    destruct v; rewrite ?items_get_put, ?decide_True by done; done.
  - unfold set_by. destruct (items_get k l) as [[]|]; try done;
      destruct v; by rewrite ?items_get_put, ?decide_False by done.
Qed.

Lemma merge_layers_get k layers merged :
  Forall (λ l : items, NoDup l.*1) layers →
  items_get k (fold_left merge_layer layers merged) =
  match layered k (rev layers) with Some v => Some v | None => items_get k merged end.
Proof.
  revert merged. induction layers as [|l layers IH]; intros merged; [done|].
  intros [Hl Hls]%Forall_cons. cbn [fold_left rev]. rewrite IH, merge_layer_get by done.
  assert (Happ : ∀ ls l, layered k (ls ++ [l]) =
                         match layered k ls with Some v => Some v | None => set_by k l end).
  { induction ls as [|x ls IHls]; intros y; cbn; [by destruct (set_by k y)|].
    destruct (set_by k x); [done|apply IHls]. }
  rewrite Happ. by destruct (layered k (rev layers)).
Qed.

Lemma dict_union_nodup (a b : items) : NoDup a.*1 → NoDup (dict_union a b).*1.
Proof.
  unfold dict_union. revert a. induction b as [|kv b IH]; intros a Ha; [done|].
  cbn [fold_left]. by apply IH, items_put_nodup.
Qed.

Lemma env_layer_spec environ entries acc layer :
  env_layer_from environ entries acc = Ok layer → NoDup acc.*1 →
  NoDup layer.*1 ∧
  ∀ field, match items_get field acc with
           | Some v => items_get field layer = Some v
           | None => match env_pick environ entries field with
                     | Some (env_var, val) => ∃ v, env_value env_var field val = Ok v ∧
                                                  items_get field layer = Some v
                     | None => items_get field layer = None
                     end
           end.
Proof.
  revert acc. induction entries as [|[var f] rest IH]; intros acc.
  - intros [= <-] Hacc. split; [done|]. intros field. cbn. by destruct (items_get field acc).
  - cbn [env_layer_from env_pick]. intros Hrun Hacc.
    destruct (environ var) as [val|] eqn:Ev.
    2: { destruct (IH acc Hrun Hacc) as [Hn Hget]. split; [done|]. intros field.
         specialize (Hget field). by destruct (String.eqb f field). }
    destruct (items_get f acc) as [old|] eqn:Ef.
    { destruct (IH acc Hrun Hacc) as [Hn Hget]. split; [done|]. intros field.
      specialize (Hget field). destruct (items_get field acc) eqn:Ea; [done|].
      destruct (String.eqb_spec f field) as [->|]; [congruence|done]. }
    destruct (env_value var f val) as [v|] eqn:Eval; [|done]. cbn [mbind result_bind] in Hrun.
    destruct (IH _ Hrun (items_put_nodup f v acc Hacc)) as [Hn Hget]. split; [done|].
    intros field. specialize (Hget field). rewrite items_get_put in Hget.
    destruct (decide (f = field)) as [->|Hne].
    + rewrite Ef, String.eqb_refl. by exists v.
    + by rewrite (proj2 (String.eqb_neq f field) Hne).
Qed.

Section Precedence.
Context `{Fields}.

(** The file's sections are dicts: their keys are distinct. *)
Definition file_dict (file : FileRead) : Prop :=
  match file with FileRead_ f => NoDup (cf_defaults f).*1 | _ => True end.

Lemma yaml_layer_nodup path file agent_id layer :
  file_dict file → _load_yaml_layer path file agent_id = Ok layer → NoDup layer.*1.
Proof.
  destruct file; cbn; [intros _ [= <-]; constructor|done|].
  intros Hf [= <-]. by apply dict_union_nodup.
Qed.

Lemma defaults_nodup : NoDup config_defaults.*1.
Proof. apply (bool_decide_unpack _). by vm_compute. Qed.

Lemma bind_ok {A B} (m : result A) (f : A → result B) b :
  m ≫= f = Ok b → ∃ a, m = Ok a ∧ f a = Ok b.
Proof. destruct m as [a|]; [by exists a|done]. Qed.

Lemma config_layers environ file overrides agent_id c :
  file_dict file → NoDup (default [] (items_get agent_id overrides)).*1 →
  load_model_config environ file overrides agent_id = Ok c →
  ∃ yaml_layer env_layer,
    let pick name := default VNone (layered name
      [default [] (items_get agent_id overrides); env_layer; yaml_layer; config_defaults]) in
    _load_yaml_layer (env_or environ "AGENT_LLM_CONFIG_FILE" "config/agent_llm.yaml") file agent_id
      = Ok yaml_layer ∧
    str_value (pick "provider") = Ok (bc_provider c) ∧
    str_value (pick "region") = Ok (bc_region c) ∧
    str_value (pick "model_id") = Ok (bc_model_id c) ∧
    float_value (pick "temperature") = Ok (bc_temperature c) ∧
    int_value (pick "max_tokens") = Ok (bc_max_tokens c) ∧
    int_value (pick "timeout_seconds") = Ok (bc_timeout_seconds c) ∧
    int_value (pick "retry_max_attempts") = Ok (bc_retry_max_attempts c) ∧
    (needs_model (pick "provider") = true → py_truthy (pick "model_id") = true) ∧
    ∀ field, match env_pick environ env_map field with
             | Some (env_var, val) => ∃ v, env_value env_var field val = Ok v ∧
                                           items_get field env_layer = Some v
             | None => items_get field env_layer = None
             end.
Proof.
  intros Hfile Hover. unfold load_model_config. set (override_layer := default [] _) in *.
  intros (yaml_layer & Hyaml & Hload)%bind_ok. apply bind_ok in Hload as (env_layer & Henv & Hload).
  exists yaml_layer, env_layer. cbv zeta in *. unfold _load_env_layer in Henv.
  destruct (env_layer_spec environ env_map [] env_layer Henv) as [Hnodup Hspec]; [constructor|].
  set (layers := [override_layer; env_layer; yaml_layer; config_defaults]).
  assert (Hget : ∀ k, items_get k (_merge_layers [config_defaults; yaml_layer; env_layer; override_layer])
                      = layered k layers).
  { intros k. unfold _merge_layers. rewrite merge_layers_get.
    - cbn [rev app]. fold layers. by destruct (layered k layers).
    - rewrite !Forall_cons, Forall_nil. split_and!; try done; [apply defaults_nodup|].
      by eapply yaml_layer_nodup. }
  set (merged := _merge_layers _) in *.
  assert (Hpick : ∀ k, is_Some (set_by k config_defaults) →
                       items_get k merged = Some (default VNone (layered k layers))).
  { intros k [v Hv]. rewrite Hget. unfold layers. cbn [layered]. rewrite Hv.
    by destruct (set_by k override_layer), (set_by k env_layer), (set_by k yaml_layer). }
  rewrite !Hpick in Hload by (by eexists). cbn [default from_option id] in Hload.
  split; [done|]. destruct (needs_model _ && _) eqn:Hneed; [done|].
  destruct (mk_bedrock merged) as [c'|] eqn:Hmk; [|done]. injection Hload as ->.
  unfold mk_bedrock in Hmk. rewrite !Hpick in Hmk by (by eexists).
  repeat (apply bind_ok in Hmk as (? & ? & Hmk)). injection Hmk as <-. split_and!; try done.
  - intros Hm. rewrite Hm in Hneed. by apply negb_false_iff.
Qed.

(** Remark (functional): which layer wins.  When the layered configuration of an agent is
    built, each field is the conversion of what the first layer that sets it says, in
    the order runtime override, environment, configuration file, defaults; a [None]
    sets nothing.  In the environment a field is what the first set variable of its
    list holds, empty or not; and a model-backed mode has a non-empty model id. *)
Theorem config_precedence environ file overrides agent_id c :
  file_dict file → NoDup (default [] (items_get agent_id overrides)).*1 →
  load_model_config environ file overrides agent_id = Ok c →
  ∃ yaml_layer env_layer,
    let pick name := default VNone (layered name
      [default [] (items_get agent_id overrides); env_layer; yaml_layer; config_defaults]) in
    _load_yaml_layer (env_or environ "AGENT_LLM_CONFIG_FILE" "config/agent_llm.yaml") file agent_id
      = Ok yaml_layer ∧
    str_value (pick "provider") = Ok (bc_provider c) ∧
    str_value (pick "region") = Ok (bc_region c) ∧
    str_value (pick "model_id") = Ok (bc_model_id c) ∧
    float_value (pick "temperature") = Ok (bc_temperature c) ∧
    int_value (pick "max_tokens") = Ok (bc_max_tokens c) ∧
    int_value (pick "timeout_seconds") = Ok (bc_timeout_seconds c) ∧
    int_value (pick "retry_max_attempts") = Ok (bc_retry_max_attempts c) ∧
    (needs_model (pick "provider") = true → py_truthy (pick "model_id") = true) ∧
    ∀ field, match env_pick environ env_map field with
             | Some (env_var, val) => ∃ v, env_value env_var field val = Ok v ∧
                                           items_get field env_layer = Some v
             | None => items_get field env_layer = None
             end.
Proof. apply config_layers. Qed.

(** Remark (error): a fractional timeout is one setting's value and the other's error.
    [AGENT_LLM_TIMEOUT_SECONDS] is a float for the runtime's configuration, which takes
    it, and for the environment layer of the model configuration, whose field is an
    [int]: pydantic refuses a float with a fraction, so with such a setting no agent's
    model configuration can be loaded. *)
Theorem fractional_timeout_fails environ file overrides agent_id val f e :
  file_dict file → NoDup (default [] (items_get agent_id overrides)).*1 →
  environ "AGENT_LLM_TIMEOUT_SECONDS" = Some val → py_float_of_str val = Some f →
  int_value (VFloat f) = Err e →
  set_by "timeout_seconds" (default [] (items_get agent_id overrides)) = None →
  (∀ c, load_model_config environ file overrides agent_id ≠ Ok c) ∧
  (environ "AGENT_LLM_MAX_REPAIRS" = None → environ "AGENT_LLM_MODE" = None →
   ∃ cfg, from_env environ = Ok cfg ∧ cfg_timeout_seconds cfg = f).
Proof.
  intros Hfile Hover Hval Hf Hint Hset. split.
  - intros c Hload. destruct (config_layers environ file overrides agent_id c Hfile Hover Hload)
      as (yaml & envl & _ & _ & _ & _ & _ & _ & Ht & _ & _ & Henv).
    specialize (Henv "timeout_seconds"). cbn in Henv. rewrite Hval in Henv.
    destruct Henv as (v & Hv & Hget). unfold env_value in Hv. cbn in Hv. rewrite Hf in Hv.
    injection Hv as <-. cbn [layered] in Ht. rewrite Hset in Ht. unfold set_by at 1 in Ht.
    rewrite Hget in Ht. cbn in Ht. congruence.
  - intros Hrep Hmode. unfold from_env, env_or. rewrite Hval, Hrep, Hmode. cbn [default from_option id].
    unfold float_of_env. rewrite Hf. by eexists.
Qed.
End Precedence.
