(* ===== verification/ObsConfig.v ===== *)
(** * The observability settings

    [ObservabilityConfig] of [src/agent_foundation/observability/config.py]: the
    snapshot read from the environment at start-up, its clamped sampling rate, and
    when telemetry is active.  [environ] is [os.environ.get]; whether [langfuse] can be
    imported is an argument. *)

From Stdlib Require Import ZArith Bool Ascii String List Lia.
From Stdlib.Floats Require Import SpecFloat.
From stdpp Require Import base list strings.
From S2P Require Import Prelude.
From S2P Require Import PyFloat.
From S2P Require Import PyNumber.
From S2P Require Import LlmConfig.

Open Scope string_scope.
Open Scope list_scope.
Open Scope Z_scope.

Record ObservabilityConfig := {
  oc_enabled : bool;
  oc_public_key : option string;
  oc_secret_key : option string;
  oc_host : option string;
  oc_sample_rate : float;
  oc_environment : string;
  oc_service_name : string;
  oc_heartbeat_interval_s : float;
  oc_exporter : string;
  oc_redact_pii : bool;
  oc_log_raw_prompts : bool;
  oc_log_raw_outputs : bool;
  oc_disabled_spans : list string;
}.

(** [max(0.0, min(1.0, sample_rate))], in [__init__] *)
Definition clamp_rate (sample_rate : float) : float := fmax (lit 0 1) (fmin (lit 1 1) sample_rate).

(** [ObservabilityConfig(enabled=False)], the other arguments by default. *)
Definition disabled_config : ObservabilityConfig := {|
  oc_enabled := false; oc_public_key := None; oc_secret_key := None; oc_host := None;
  oc_sample_rate := clamp_rate (lit 1 1); oc_environment := "local";
  oc_service_name := "agent"; oc_heartbeat_interval_s := lit 10 1; oc_exporter := "langfuse";
  oc_redact_pii := true; oc_log_raw_prompts := false; oc_log_raw_outputs := false;
  oc_disabled_spans := [] |}.

(** [s.split(sep)] for a separator of one character: never empty. *)
Fixpoint split_char (sep : ascii) (s : string) : list string :=
  match s with
  | EmptyString => [EmptyString]
  | String c s' =>
      if Ascii.eqb c sep then EmptyString :: split_char sep s'
      else match split_char sep s' with
           | piece :: rest => String c piece :: rest
           | [] => [String c EmptyString]
           end
  end.

(** [frozenset(s.strip() for s in value.split(",") if s.strip())] *)
Definition span_names (value : string) : list string :=
  remove_dups (List.filter str_truthy (map py_strip (split_char ","%char value))).

Section Environ.
Variable environ : string → option string.

(** [os.environ.get(name) or None] *)
Definition env_opt (name : string) : option string :=
  match environ name with Some v => if str_truthy v then Some v else None | None => None end.

(** [os.environ.get(name, d).lower() not in ("false", "0", "no")], and [in ("true", "1", "yes")]. *)
Definition not_off (name dflt : string) : bool :=
  negb (str_in (py_lower (env_or environ name dflt)) ["false"; "0"; "no"]).
Definition raw_on (name : string) : bool :=
  str_in (py_lower (env_or environ name "false")) ["true"; "1"; "yes"].

(** [try: float(os.environ.get(name, text)) except ValueError: dflt] *)
Definition float_or (name text : string) (dflt : float) : float :=
  default dflt (py_float_of_str (env_or environ name text)).

Definition from_env (agent_id : string) : ObservabilityConfig := {|
  oc_enabled := not_off "AGENT_OBSERVABILITY_ENABLED" "true";
  oc_public_key := env_opt "LANGFUSE_PUBLIC_KEY";
  oc_secret_key := env_opt "LANGFUSE_SECRET_KEY";
  oc_host := env_opt "LANGFUSE_HOST";
  oc_sample_rate := clamp_rate (float_or "AGENT_OBSERVABILITY_SAMPLE_RATE" "1.0" (lit 1 1));
  oc_environment := env_or environ "AGENT_OBSERVABILITY_ENV" "local";
  oc_service_name := agent_id;
  oc_heartbeat_interval_s := float_or "AGENT_HEARTBEAT_INTERVAL_S" "10" (lit 10 1);
  oc_exporter := env_or environ "AGENT_OBSERVABILITY_EXPORTER" "langfuse";
  oc_redact_pii := not_off "REDACT_PII" "true";
  oc_log_raw_prompts := raw_on "LOG_RAW_LLM_PROMPTS";
  oc_log_raw_outputs := raw_on "LOG_RAW_LLM_OUTPUTS";
  oc_disabled_spans := span_names (env_or environ "AGENT_OBSERVABILITY_DISABLED_SPANS" "") |}.
End Environ.

(** [if self.public_key and self.secret_key] *)
Definition opt_truthy (o : option string) : bool :=
  match o with Some s => str_truthy s | None => false end.

Definition is_active (langfuse_importable : bool) (c : ObservabilityConfig) : bool :=
  if negb (oc_enabled c) then false
  else if negb (opt_truthy (oc_public_key c) && opt_truthy (oc_secret_key c)) then false
  else langfuse_importable.

(** ** The sampling rate is a probability *)

Lemma clamp_rate_bounds r :
  (lit 0 1 <=? clamp_rate r)%pf = true ∧ (clamp_rate r <=? lit 1 1)%pf = true.
Proof.
  unfold clamp_rate, fmax, fmin.
  destruct (r <? lit 1 1)%pf eqn:E1; [|split; vm_compute; reflexivity].
  destruct (lit 0 1 <? r)%pf eqn:E2; [|split; vm_compute; reflexivity].
  split; by apply flt_fle.
Qed.

(** Remark (bounds): whatever the environment holds (a number out of range, an infinity,
    not-a-number, text), the sampling rate read from it is a number between 0 and 1; in
    particular it is not NaN. *)
Theorem sample_rate_is_probability environ agent_id :
  let r := oc_sample_rate (from_env environ agent_id) in
  (lit 0 1 <=? r)%pf = true ∧ (r <=? lit 1 1)%pf = true ∧ is_nan r = false.
Proof.
  cbn [oc_sample_rate from_env]. set (x := float_or _ _ _ _).
  destruct (clamp_rate_bounds x) as [H1 H2]. split; [done|]. split; [done|].
  destruct (clamp_rate x); done.
Qed.

(** Remark (functional): telemetry runs exactly when it is not switched off, both keys are
    set to non-empty texts, and the SDK is there. *)
Theorem active_iff environ agent_id importable :
  is_active importable (from_env environ agent_id) = true ↔
  importable = true ∧
  str_in (py_lower (env_or environ "AGENT_OBSERVABILITY_ENABLED" "true")) ["false"; "0"; "no"] = false ∧
  (∃ p, environ "LANGFUSE_PUBLIC_KEY" = Some p ∧ p ≠ "") ∧
  (∃ s, environ "LANGFUSE_SECRET_KEY" = Some s ∧ s ≠ "").
Proof.
  assert (Hkey : ∀ name, opt_truthy (env_opt environ name) = true ↔ ∃ v, environ name = Some v ∧ v ≠ "").
  { intros name. unfold env_opt. destruct (environ name) as [[|ch v]|]; cbn; split; try done.
    - by intros (v & [= <-] & ?).
    - intros _. eexists. split; [reflexivity|done].
    - by intros (v & ? & _). }
  unfold is_active. cbn [oc_enabled oc_public_key oc_secret_key from_env]. 
  rewrite <- (Hkey "LANGFUSE_PUBLIC_KEY"), <- (Hkey "LANGFUSE_SECRET_KEY").
  unfold not_off. generalize (str_in (py_lower (env_or environ "AGENT_OBSERVABILITY_ENABLED" "true"))
    ["false"; "0"; "no"]) (opt_truthy (env_opt environ "LANGFUSE_PUBLIC_KEY"))
    (opt_truthy (env_opt environ "LANGFUSE_SECRET_KEY")).
  intros [] [] [] ; destruct importable; cbn; split; intros; destruct_and?; done.
Qed.

(** A span name switched off stays off: no name of [span_names] has blanks around it, and
    none is empty. *)
Example disabled_spans_read :
  span_names " kafka.publish, ,a2a.task.send,kafka.publish " = ["a2a.task.send"; "kafka.publish"].
Proof. vm_compute. reflexivity. Qed.
