(* ===== verification/LlmTools.v ===== *)
(** * Around the LLM: metadata, usage and prompts

    The metadata filter and the answers of [src/agent_foundation/llm/client.py], the
    token usage and cost of [llm/pricing.py], and the prompt registry of [llm/prompts.py]. *)

From Stdlib Require Import ZArith Bool Ascii String List Lia.
From Stdlib.Floats Require Import SpecFloat.
From stdpp Require Import base list strings gmap.
From S2P Require Import Prelude.
From S2P Require Import PyFloat.
From S2P Require Import Contracts.
From S2P Require Import PyNumber.
From S2P Require Import Llm.
From S2P Require Import LlmConfig.

Open Scope string_scope.
Open Scope list_scope.
Open Scope Z_scope.

#[local] Set Default Proof Using "Type".

(** ** [_safe_metadata] *)

Definition _SECRET_KEYS : list string :=
  ["token"; "secret"; "password"; "key"; "credential"; "auth"; "api_key"; "apikey"].
Definition _MAX_VALUE_LEN : nat := 2000.
Definition _MAX_TOTAL_SIZE : nat := Z.to_nat 10000.

Definition secret_key (k : string) : bool :=
  existsb (λ s, py_contains s (py_lower k)) _SECRET_KEYS.

(** [sv]: a value that is no scalar is its text; a long text is cut. *)
Definition safe_value (v : pyval) : pyval :=
  match match v with VDecimal _ | VList _ | VDict _ => VStr (py_str v) | _ => v end with
  | VStr s => if (_MAX_VALUE_LEN <? py_len s)%nat
              then VStr (py_take _MAX_VALUE_LEN s +:+ "...") else VStr s
  | v => v
  end.

(** The loop, [total] characters kept so far. *)
Fixpoint safe_items (total : nat) (metadata : items) : items :=
  match metadata with
  | [] => []
  | (k, v) :: rest =>
      if secret_key k then safe_items total rest
      else
        let sv := safe_value v in
        let total := (total + py_len (py_str sv))%nat in
        if (_MAX_TOTAL_SIZE <? total)%nat then [] else (k, sv) :: safe_items total rest
  end.

(** The final [json.dumps(result, default=str)] cannot fail on scalars. *)
Definition _safe_metadata (metadata : option items) : items :=
  match metadata with None => [] | Some m => safe_items 0 m end.

Lemma py_len_app a b : py_len (a +:+ b) = (py_len a + py_len b)%nat.
Proof.
  induction a as [|c a IH]; [done|]. change (String c a +:+ b) with (String c (a +:+ b)).
  cbn [py_len]. rewrite IH. lia.
Qed.

Lemma py_len_take n s : (py_len (py_take n s) <= n)%nat.
Proof.
  revert n. induction s as [|c s IH]; intros n; cbn; [lia|].
  destruct (is_continuation c) eqn:E; cbn; [rewrite E; apply IH|].
  destruct n as [|n]; cbn; [lia|]. rewrite E. specialize (IH n). lia.
Qed.

Lemma safe_value_short v s : safe_value v = VStr s → (py_len s <= _MAX_VALUE_LEN + 3)%nat.
Proof.
  unfold safe_value. set (u := match v with VDecimal _ | VList _ | VDict _ => VStr (py_str v) | _ => v end).
  destruct u as [| | | | |t| |]; try done.
  destruct (Nat.ltb_spec _MAX_VALUE_LEN (py_len t)) as [_|Hle]; intros [= <-]; [|lia].
  rewrite py_len_app. pose proof (py_len_take _MAX_VALUE_LEN t) as H. change (py_len "...") with 3%nat. lia.
Qed.

(** The characters of the kept values. *)
Definition kept_size (l : items) : nat := sum_list_with (λ kv, py_len (py_str kv.2)) l.

Lemma safe_items_spec total metadata :
  (total <= _MAX_TOTAL_SIZE)%nat →
  (total + kept_size (safe_items total metadata) <= _MAX_TOTAL_SIZE)%nat ∧
  (safe_items total metadata).*1 `sublist_of` metadata.*1 ∧
  Forall (λ kv, secret_key kv.1 = false ∧ (∃ v, (kv.1, v) ∈ metadata ∧ kv.2 = safe_value v))
    (safe_items total metadata).
Proof.
  revert total. induction metadata as [|[k v] rest IH]; intros total Htotal;
    cbn [safe_items fmap list_fmap fst snd].
  { unfold kept_size. cbn [sum_list_with]. split; [lia|]. split; constructor. }
  assert (Hweak : ∀ l, Forall (λ kv : string * pyval, secret_key kv.1 = false ∧
                         ∃ v, (kv.1, v) ∈ rest ∧ kv.2 = safe_value v) l →
                       Forall (λ kv : string * pyval, secret_key kv.1 = false ∧
                         ∃ u, (kv.1, u) ∈ (k, v) :: rest ∧ kv.2 = safe_value u) l).
  { intros l. rewrite !list.Forall_forall. intros Hl kv Hin. destruct (Hl kv Hin) as (H1 & u & H2 & H3).
    split; [done|]. exists u. split; [by right|done]. }
  destruct (secret_key k) eqn:Ek.
  { destruct (IH total Htotal) as (H1 & H2 & H3). split; [done|]. split; [by apply sublist_cons|by apply Hweak]. }
  destruct (Nat.ltb_spec _MAX_TOTAL_SIZE (total + py_len (py_str (safe_value v)))) as [_|Hle].
  { unfold kept_size. cbn [sum_list_with]. split; [lia|]. split; [apply sublist_nil_l|constructor]. }
  destruct (IH _ Hle) as (H1 & H2 & H3). unfold kept_size in *. cbn [sum_list_with fmap list_fmap fst snd].
  split; [lia|]. split; [by apply sublist_skip|]. constructor; [|by apply Hweak].
  split; [done|]. exists v. split; [by left|done].
Qed.

(** Remark (bounds): the metadata that leaves with a call is bounded and carries no field that
    is named like a secret.  The kept fields are some of the given ones, in their
    order, none with a secret word in its name in any case; each kept value is the
    given scalar or its text, cut to 2000 characters and an ellipsis; and all values
    together have at most 10000 characters. *)
Theorem metadata_safe metadata :
  let kept := _safe_metadata (Some metadata) in
  (kept_size kept <= _MAX_TOTAL_SIZE)%nat ∧
  kept.*1 `sublist_of` metadata.*1 ∧
  (∀ k v, (k, v) ∈ kept → secret_key k = false ∧ (∃ u, (k, u) ∈ metadata ∧ v = safe_value u) ∧
     ∀ s, v = VStr s → (py_len s <= _MAX_VALUE_LEN + 3)%nat).
Proof.
  cbn. destruct (safe_items_spec 0 metadata) as (H1 & H2 & H3); [lia|].
  split; [done|]. split; [done|]. intros k v Hin. rewrite list.Forall_forall in H3.
  destruct (H3 _ Hin) as (Hk & u & Hu & Hv). cbn in Hk, Hu, Hv. split; [done|]. split; [by exists u|].
  intros s ->. by apply (safe_value_short u).
Qed.

(** ** The Bedrock client's answers *)

Record LLMResponse := {
  lr_text : string;
  lr_model_id : option string;
  lr_latency_ms : Z;
  lr_token_usage : option TokenUsage;
  lr_cache_hit : bool;
  lr_stop_reason : option string;
  lr_metadata : items;
}.

(** [StructuredLLMResponse]: the response with the value or the parse error. *)
Record StructuredLLMResponse (V : Type) := mk_structured {
  slr_response : LLMResponse;
  slr_value : option V;
  slr_raw_json : option items;
  slr_parse_error : option string;
}.
Arguments mk_structured {V}.
Arguments slr_response {V} _.
Arguments slr_value {V} _.
Arguments slr_raw_json {V} _.
Arguments slr_parse_error {V} _.

(** [LLMClientError] and [TypeError] are kept as their texts. *)
Definition LLMClientError (msg : string) : exn := IOError msg.

(** [v.get(key, dflt)]; what is no dict has no [get]. *)
Definition py_get (v : pyval) (key : string) (dflt : pyval) : result pyval :=
  match v with
  | VDict d => Ok (default dflt (items_get key d))
  | _ => Err (AttributeError ("'" +:+ py_type_name v +:+ "' object has no attribute 'get'"))
  end.

(** The elements a [for] loop visits. *)
Definition py_iter (v : pyval) : result (list pyval) :=
  match v with
  | VList l => Ok l
  | VDict d => Ok (map (λ kv, VStr (fst kv)) d)
  | VStr s => Ok (map (λ c, VStr (String c "")) (list_ascii_of_string s))
  | _ => Err (AttributeError ("'" +:+ py_type_name v +:+ "' object is not iterable"))
  end.

(** What [client.invoke_model] and reading its body give. *)
Inductive BedrockOutcome :=
| InvocationRaised (msg : string)
| BodyBroken (msg : string)
| Body (body : pyval).

Section Client.
Context `{Fields}.

(** [str | None] *)
Definition opt_str_value (v : pyval) : result (option string) :=
  match v with VNone => Ok None | _ => s ← str_value v; Ok (Some s) end.

(** The text parts of the content blocks. *)
Fixpoint text_parts (blocks : list pyval) : result (list pyval) :=
  match blocks with
  | [] => Ok []
  | block :: rest =>
      kind ← py_get block "type" VNone;
      part ← (if match kind with VStr s => String.eqb s "text" | _ => false end
              then t ← py_get block "text" (VStr ""); Ok [t] else Ok []);
      parts ← text_parts rest;
      Ok (part ++ parts)
  end.

(** ["".join(parts)]; [i] parts are joined already. *)
Fixpoint join_parts (i : Z) (parts : list pyval) : result string :=
  match parts with
  | [] => Ok ""
  | VStr s :: rest => t ← join_parts (i + 1) rest; Ok (s +:+ t)
  | v :: _ => Err (ValueError ("sequence item " +:+ str_of_Z i +:+ ": expected str instance, " +:+
                               py_type_name v +:+ " found"))
  end.

Definition _parse_response (body : pyval) (latency_ms : Z) (metadata : items) : result LLMResponse :=
  content ← py_get body "content" (VList []);
  blocks ← py_iter content;
  parts ← text_parts blocks;
  usage ← py_get body "usage" (VDict []);
  let count key := (v ← py_get usage key (VInt 0); int_value v) in
  input ← count "input_tokens";
  output ← count "output_tokens";
  read ← count "cache_read_input_tokens";
  written ← count "cache_creation_input_tokens";
  text ← join_parts 0 parts;
  model ← py_get body "model" VNone;
  model_id ← opt_str_value model;
  stop ← py_get body "stop_reason" VNone;
  stop_reason ← opt_str_value stop;
  Ok {| lr_text := text; lr_model_id := model_id; lr_latency_ms := latency_ms;
        lr_token_usage := Some {| tu_input_tokens := input; tu_output_tokens := output;
                                  tu_cache_read_tokens := read; tu_cache_write_tokens := written |};
        lr_cache_hit := Z.ltb 0 read; lr_stop_reason := stop_reason; lr_metadata := metadata |}.

(** [AgentLLM.invoke], for the outcome of its call. *)
Definition client_invoke (metadata : option items) (outcome : BedrockOutcome) (latency_ms : Z) :
    result LLMResponse :=
  let safe_meta := _safe_metadata metadata in
  match outcome with
  | InvocationRaised msg => Err (LLMClientError ("Bedrock invocation failed: " +:+ msg))
  | BodyBroken msg => Err (LLMClientError ("Failed to parse Bedrock response: " +:+ msg))
  | Body body => _parse_response body latency_ms safe_meta
  end.

(** [AgentLLM.invoke_structured]; [raw_json] must be a dict. *)
Definition client_invoke_structured `{Json} {V} `{!Schema V} (metadata : option items)
    (outcome : BedrockOutcome) (latency_ms : Z) : result (StructuredLLMResponse V) :=
  resp ← client_invoke metadata outcome latency_ms;
  Ok match (raw ← json_loads (lr_text resp);
            value ← model_validate raw;
            match raw with
            | VDict d => Ok (value, d)
            | _ => Err (ValidationError "Input should be a valid dictionary")
            end) with
     | Ok (value, raw) => mk_structured resp (Some value) (Some raw) None
     | Err exc => mk_structured resp None None (Some (exn_str exc))
     end.

(** Remark (error): a structured call that reaches the model answers.  A completion that is
    no JSON, no dict or no instance of the schema raises nothing: the answer holds either
    a value the schema accepted from the text, or the error and no value; and its
    metadata is the filtered one. *)
Theorem structured_call_answers `{Json} {V} `{!Schema V} metadata outcome latency_ms resp :
  client_invoke metadata outcome latency_ms = Ok resp →
  ∃ a, client_invoke_structured (V:=V) metadata outcome latency_ms = Ok a ∧ slr_response a = resp ∧
    lr_metadata resp = _safe_metadata metadata ∧
    match slr_value a with
    | Some v => slr_parse_error a = None ∧ ∃ d, slr_raw_json a = Some d ∧
        json_loads (lr_text resp) = Ok (VDict d) ∧ model_validate (VDict d) = Ok v
    | None => is_Some (slr_parse_error a)
    end.
Proof.
  intros Hr. unfold client_invoke_structured. rewrite Hr. cbn [mbind result_bind].
  eexists. split; [reflexivity|]. split; [|split].
  - destruct (json_loads _) as [raw|]; [|done]. cbn. destruct (model_validate raw); [|done]. by destruct raw.
  - destruct outcome; cbn [client_invoke] in Hr; try done. revert Hr. unfold _parse_response.
    unfold mbind, result_bind. repeat case_match; intros [=]; by subst.
  - destruct (json_loads _) as [raw|] eqn:Ej; [|by eexists]. cbn.
    destruct (model_validate raw) as [v|] eqn:Ev; [|by eexists].
    destruct raw; cbn; try (by eexists). split; [done|]. by eexists.
Qed.
End Client.

(** ** Usage and cost

    [Decimal] arithmetic in the default context: 28 digits, half even. *)

Definition dec_digits (z : Z) : Z := Z.of_nat (String.length (str_of_Z z)).

(** Rounding to the context's precision. *)
Definition dec_fix (d : Decimal) : Decimal :=
  let excess := dec_digits (dec_coef d) - 28 in
  if Z.leb excess 0 then d
  else let c := round_div (dec_coef d) (10 ^ excess) in
       let e := dec_exponent d + excess in
       if Z.ltb 28 (dec_digits c)
       then {| dec_sign := dec_sign d; dec_coef := c / 10; dec_exponent := e + 1 |}
       else {| dec_sign := dec_sign d; dec_coef := c; dec_exponent := e |}.

(** [Decimal(z)] *)
Definition dec_of_Z (z : Z) : Decimal :=
  {| dec_sign := Z.ltb z 0; dec_coef := Z.abs z; dec_exponent := 0 |}.

Definition dec_mul (a b : Decimal) : Decimal :=
  dec_fix {| dec_sign := xorb (dec_sign a) (dec_sign b); dec_coef := dec_coef a * dec_coef b;
             dec_exponent := dec_exponent a + dec_exponent b |}.

Definition dec_signed (e : Z) (d : Decimal) : Z :=
  (if dec_sign d then -1 else 1) * (dec_coef d * 10 ^ (dec_exponent d - e)).

Definition dec_add (a b : Decimal) : Decimal :=
  let e := Z.min (dec_exponent a) (dec_exponent b) in
  let z := dec_signed e a + dec_signed e b in
  dec_fix {| dec_sign := if Z.eqb z 0 then dec_sign a && dec_sign b else Z.ltb z 0;
             dec_coef := Z.abs z; dec_exponent := e |}.

(** Trailing zeros are dropped while the exponent is below [ideal]. *)
Fixpoint towards_ideal (fuel : nat) (ideal c e : Z) : Z * Z :=
  match fuel with
  | O => (c, e)
  | S fuel => if Z.ltb e ideal && Z.eqb (c mod 10) 0 then towards_ideal fuel ideal (c / 10) (e + 1)
              else (c, e)
  end.

(** [a / b] for [b] not zero. *)
Definition dec_div (a b : Decimal) : Decimal :=
  let sign := xorb (dec_sign a) (dec_sign b) in
  let ideal := dec_exponent a - dec_exponent b in
  if Z.eqb (dec_coef a) 0 then {| dec_sign := sign; dec_coef := 0; dec_exponent := ideal |}
  else
    let shift := dec_digits (dec_coef b) - dec_digits (dec_coef a) + 29 in
    let num := dec_coef a * 10 ^ Z.max shift 0 in
    let den := dec_coef b * 10 ^ Z.max (- shift) 0 in
    let q := num / den in
    let e := ideal - shift in
    if Z.eqb (num mod den) 0
    then let '(c, e) := towards_ideal (Z.to_nat (ideal - e)) ideal q e in
         dec_fix {| dec_sign := sign; dec_coef := c; dec_exponent := e |}
    else dec_fix {| dec_sign := sign; dec_exponent := e;
                    dec_coef := if Z.eqb (q mod 5) 0 then q + 1 else q |}.

(** A table entry, as [Decimal("0.003")]: the coefficient and its fractional digits. *)
Definition rate (coef digits : Z) : Decimal :=
  {| dec_sign := false; dec_coef := coef; dec_exponent := - digits |}.

Definition _PRICING_TABLE : list (string * (Decimal * Decimal)) :=
  [ ("anthropic.claude-3-5-sonnet-20241022-v2:0", (rate 3 3, rate 15 3));
    ("anthropic.claude-3-haiku-20240307-v1:0", (rate 25 5, rate 125 5));
    ("anthropic.claude-3-opus-20240229-v1:0", (rate 15 3, rate 75 3));
    ("stub", (rate 0 0, rate 0 0)) ].

Record LLMUsage := {
  us_input_tokens : option Z;
  us_output_tokens : option Z;
  us_total_tokens : option Z;
  us_estimated_cost_usd : option Decimal;
  us_model_id : string;
  us_agent_id : string;
  us_prompt_id : option string;
}.

Definition estimate_cost (model_id : string) (input_tokens output_tokens : option Z) :
    option Decimal :=
  i ← input_tokens;
  o ← output_tokens;
  rates ← items_get model_id _PRICING_TABLE;
  let '(input_rate, output_rate) := rates in
  Some (dec_div (dec_add (dec_mul (dec_of_Z i) input_rate) (dec_mul (dec_of_Z o) output_rate))
          (dec_of_Z 1000)).

(** [x if x else None] *)
Definition non_zero (n : Z) : option Z := if Z.eqb n 0 then None else Some n.

Definition build_llm_usage (token_usage : option TokenUsage) (model_id agent_id : string)
    (prompt_id : option string) : LLMUsage :=
  match token_usage with
  | None => {| us_input_tokens := None; us_output_tokens := None; us_total_tokens := None;
               us_estimated_cost_usd := None; us_model_id := model_id; us_agent_id := agent_id;
               us_prompt_id := prompt_id |}
  | Some u =>
      let input_t := non_zero (tu_input_tokens u) in
      let output_t := non_zero (tu_output_tokens u) in
      {| us_input_tokens := input_t; us_output_tokens := output_t;
         us_total_tokens := (i ← input_t; o ← output_t; Some (i + o));
         us_estimated_cost_usd := estimate_cost model_id input_t output_t;
         us_model_id := model_id; us_agent_id := agent_id; us_prompt_id := prompt_id |}
  end.

Example costs :
  let cost m i o := dec_str <$> estimate_cost m (Some i) (Some o) in
  [ cost "anthropic.claude-3-5-sonnet-20241022-v2:0" 1000 500;
    cost "anthropic.claude-3-haiku-20240307-v1:0" 7 3;
    cost "anthropic.claude-3-haiku-20240307-v1:0" 123457 98765;
    cost "anthropic.claude-3-opus-20240229-v1:0" 1 1; cost "stub" 10 10; cost "other" 1 1 ] =
  [Some "0.0105"; Some "0.0000055"; Some "0.1543205"; Some "0.00009"; Some "0"; None].
Proof. vm_compute. reflexivity. Qed.

(** ** Prompts *)

Record PromptTemplate := {
  pt_prompt_id : string;
  pt_version : Z;
  pt_task_kind : string;
  pt_agent_id : string;
  pt_allows_final_recommendation : bool;
  pt_body : string;
}.

(** [_templates] and [_loaded]. *)
Record PromptRegistry := mk_registry {
  pr_templates : list ((string * string) * PromptTemplate);
  pr_loaded : bool;
}.

Definition new_registry : PromptRegistry := mk_registry [] false.

(** The text before and after the first occurrence of [sep]. *)
Fixpoint split_once (sep s : string) : option (string * string) :=
  if String.prefix sep s then Some ("", str_drop (String.length sep) s)
  else match s with
       | EmptyString => None
       | String c s' => (λ ab, (String c (fst ab), snd ab)) <$> split_once sep s'
       end.

(** [_split_frontmatter]: [text.split("---", 2)] of a text that starts with the mark. *)
Definition _split_frontmatter (text : string) : string * string :=
  if negb (String.prefix "---" text) then ("", text)
  else match split_once "---" (str_drop 3 text) with
       | Some (frontmatter, body) => (frontmatter, body)
       | None => ("", text)
       end.

(** [int(v)]; a [TypeError] or [OverflowError] is kept as its text. *)
Definition py_int (v : pyval) : result Z :=
  match v with
  | VInt z => Ok z
  | VBool b => Ok (Z.b2z b)
  | VFloat (S754_zero _) => Ok 0
  | VFloat (S754_finite s m e) =>
      let q := Z.shiftl (Zpos m) e in Ok (if s then - q else q)
  | VFloat S754_nan => Err (ValueError "cannot convert float NaN to integer")
  | VFloat _ => Err (ValueError "cannot convert float infinity to integer")
  | VDecimal d =>
      let q := dec_coef d * 10 ^ Z.max (dec_exponent d) 0 / 10 ^ Z.max (- dec_exponent d) 0 in
      Ok (if dec_sign d then - q else q)
  | VStr s => match py_int_of_str s with
              | Some z => Ok z
              | None => Err (ValueError ("invalid literal for int() with base 10: " +:+ py_repr v))
              end
  | VNone | VList _ | VDict _ => 
      Err (ValueError ("int() argument must be a string, a bytes-like object or a real number, not '" +:+
                       py_type_name v +:+ "'"))
  end.

(** A prompt file: its name, its stem and what reading it gives. *)
Record PromptFile := {
  pf_name : string;
  pf_stem : string;
  pf_text : result string;
}.

Section Prompts.
Context `{Fields}.
(** [yaml.safe_load] of a text whose document is a mapping or empty. *)
Variable yaml_load : string → result items.

(** [_parse_template] *)
Definition _parse_template (file : PromptFile) : result (option PromptTemplate) :=
  match pf_text file with
  | Err _ => Ok None
  | Ok text =>
      let '(frontmatter, body) := _split_frontmatter text in
      if negb (str_truthy frontmatter) then Ok None
      else
        match yaml_load frontmatter with
        | Err _ => Ok None
        | Ok meta =>
            let field k v := default v (items_get k meta) in
            version ← py_int (field "version" (VInt 1));
            prompt_id ← str_value (field "prompt_id" (VStr (pf_stem file)));
            task_kind ← str_value (field "task_kind" (VStr ""));
            agent_id ← str_value (field "agent_id" (VStr ""));
            Ok (Some {| pt_prompt_id := prompt_id; pt_version := version;
                        pt_task_kind := task_kind; pt_agent_id := agent_id;
                        pt_allows_final_recommendation :=
                          py_truthy (field "allows_final_recommendation" (VBool false));
                        pt_body := py_strip body |})
        end
  end.

(** [_register] *)
Definition _register (template : PromptTemplate) (r : PromptRegistry) : result PromptRegistry :=
  if String.eqb (pt_task_kind template) "summarize_reasoning" && pt_allows_final_recommendation template
  then Err (ValueError ("Template " +:+ py_repr_str (pt_prompt_id template) +:+
              " has task_kind=summarize_reasoning but allows_final_recommendation=true " +:+
              "— this is forbidden"))
  else Ok (mk_registry (items_put (pt_task_kind template, pt_agent_id template) template
                          (pr_templates r)) (pr_loaded r)).

(** The loop of [load] over the sorted files: the registry as the loop leaves it, and
    the exception that stopped it. *)
Fixpoint load_files (files : list PromptFile) (r : PromptRegistry) : PromptRegistry * option exn :=
  match files with
  | [] => (mk_registry (pr_templates r) true, None)
  | f :: rest =>
      if String.eqb (pf_name f) "README.md" then load_files rest r
      else
        match _parse_template f with
        | Err e => (r, Some e)
        | Ok None => load_files rest r
        | Ok (Some template) =>
            match _register template r with
            | Err e => (r, Some e)
            | Ok r' => load_files rest r'
            end
        end
  end.

(** [load]; no directory, no files. *)
Definition load (dir : option (list PromptFile)) (r : PromptRegistry) : PromptRegistry * option exn :=
  match dir with
  | None => (mk_registry (pr_templates r) true, None)
  | Some files => load_files files r
  end.

Definition key_repr (k : string * string) : string :=
  "(" +:+ py_repr_str (fst k) +:+ ", " +:+ py_repr_str (snd k) +:+ ")".

(** [resolve], with the registry it leaves. *)
Definition resolve (dir : option (list PromptFile)) (task_kind agent_id : string)
    (r : PromptRegistry) : PromptRegistry * result PromptTemplate :=
  let '(r, failed) := if pr_loaded r then (r, None) else load dir r in
  match failed with
  | Some e => (r, Err e)
  | None =>
      match items_get (task_kind, agent_id) (pr_templates r) with
      | Some t => (r, Ok t)
      | None =>
          (r, Err (KeyError ("No prompt template for task_kind=" +:+ py_repr_str task_kind +:+
                     ", agent_id=" +:+ py_repr_str agent_id +:+ ". Available: [" +:+
                     py_join ", " (map key_repr (pr_templates r).*1) +:+ "]")))
      end
  end.

(** *** The registry's invariant *)

Definition registry_ok (r : PromptRegistry) : Prop :=
  NoDup (pr_templates r).*1 ∧
  ∀ kind agent t, items_get (kind, agent) (pr_templates r) = Some t →
    pt_task_kind t = kind ∧ pt_agent_id t = agent ∧
    (kind = "summarize_reasoning" → pt_allows_final_recommendation t = false).

Lemma new_registry_ok : registry_ok new_registry.
Proof. split; [constructor|done]. Qed.

Lemma register_ok t r r' : registry_ok r → _register t r = Ok r' → registry_ok r'.
Proof.
  intros [Hn Hr]. unfold _register. destruct (String.eqb _ _ && _) eqn:Hbad; [done|].
  intros [= <-]. split; cbn [pr_templates]; [by apply items_put_nodup|].
  intros kind agent u. rewrite items_get_put. case_decide as Hk; [|apply Hr].
  intros [= <-]. injection Hk as Hkind Hagent. split_and!; [done..|].
  intros Hs. rewrite Hkind, Hs, String.eqb_refl in Hbad. by destruct (pt_allows_final_recommendation t).
Qed.

Lemma load_ok dir r : registry_ok r → registry_ok (fst (load dir r)).
Proof.
  destruct dir as [files|]; cbn [load]; [|done]. revert r. induction files as [|f files IH];
    intros r Hr; cbn [load_files]; [done|].
  destruct (String.eqb _ _); [by apply IH|]. destruct (_parse_template f) as [[t|]|]; [|by apply IH|done].
  destruct (_register t r) as [r'|] eqn:Ht; [|done]. apply IH. by eapply register_ok.
Qed.

(** Remark (invariant): no summary prompt decides.  However often a registry is loaded and
    asked, and whatever the prompt files hold, a template it returns is the one
    registered under the requested task and agent, and a template for summaries never
    allows a final recommendation; the registry keeps that invariant through every
    load and resolution, failed ones included. *)
Theorem prompts_never_decide dir kind agent r :
  registry_ok r →
  let '(r', answer) := resolve dir kind agent r in
  registry_ok r' ∧
  ∀ t, answer = Ok t → pt_task_kind t = kind ∧ pt_agent_id t = agent ∧
    (kind = "summarize_reasoning" → pt_allows_final_recommendation t = false).
Proof.
  intros Hr. unfold resolve.
  destruct (if pr_loaded r then (r, None) else load dir r) as [r1 failed] eqn:Hl.
  assert (Hr1 : registry_ok r1).
  { destruct (pr_loaded r); [by injection Hl as <- _|]. pose proof (load_ok dir r Hr) as H1.
    by rewrite Hl in H1. }
  destruct failed; [by split|]. destruct (items_get _ _) as [t|] eqn:Ht; split; try done.
  intros u [= <-]. by apply (proj2 Hr1).
Qed.
End Prompts.

(** A registry loaded from a good prompt and a forbidden one. *)
#[local] Instance plain_fields : Fields := {|
  str_value v := match v with VStr s => Ok s | _ => Err (ValidationError "string") end;
  float_value v := match v with VFloat f => Ok f | _ => Err (ValidationError "float") end;
  int_value v := match v with VInt z => Ok z | _ => Err (ValidationError "int") end |}.

Definition demo_yaml (text : string) : result items :=
  if py_contains "summary" text
  then Ok [("task_kind", VStr "summarize_reasoning"); ("agent_id", VStr "risk-fraud-agent");
           ("allows_final_recommendation", VBool (py_contains "final" text))]
  else Err (ValueError "yaml").

Definition demo_prompts : list PromptFile :=
  [ {| pf_name := "README.md"; pf_stem := "README"; pf_text := Ok "--- final summary --- x" |};
    {| pf_name := "risk.md"; pf_stem := "risk"; pf_text := Ok "--- summary --- Explain." |};
    {| pf_name := "z.md"; pf_stem := "z"; pf_text := Ok "--- final summary --- Decide." |} ].

Lemma prompts_never_decide_witness :
  let '(r', answer) := resolve demo_yaml (Some (take 2 demo_prompts)) "summarize_reasoning"
                         "risk-fraud-agent" new_registry in
  registry_ok r' ∧ ∃ t, answer = Ok t ∧ pt_body t = "Explain." ∧
    pt_allows_final_recommendation t = false.
Proof.
  pose proof (prompts_never_decide demo_yaml (Some (take 2 demo_prompts)) "summarize_reasoning"
                "risk-fraud-agent" new_registry new_registry_ok) as H.
  destruct (resolve demo_yaml _ _ _ new_registry) as [r' answer] eqn:Hr.
  destruct H as [Hok Ha]. split; [exact Hok|].
  assert (Hans : ∃ t, answer = Ok t ∧ pt_body t = "Explain.").
  { apply (f_equal snd) in Hr. cbn [snd] in Hr. subst answer. vm_compute. by eexists. }
  destruct Hans as (t & -> & Hb). exists t. split; [reflexivity|]. split; [exact Hb|].
  destruct (Ha t eq_refl) as (_ & _ & Hs). exact (Hs eq_refl).
Defined.
