(* ===== verification/Prompts.v ===== *)
(** * The prompts

    The rendering of a prompt: [PromptTemplate.render] of
    [src/agent_foundation/llm/prompts.py], [_render_prompt] and [_compute_prompt_ref] of
    [llm/runtime.py], and the prompt of a repair in [llm/structured.py].  A call looks its
    template up in a registry of its own, read from the prompts directory; when that
    fails, or there is none for the task and the agent, the prompt is built from the
    request's instructions. *)

From Stdlib Require Import ZArith Bool Ascii String List Lia.
From stdpp Require Import base list strings.
From S2P Require Import Prelude.
From S2P Require Import PyFloat.
From S2P Require Import Contracts.
From S2P Require Import Llm.
From S2P Require Import LlmConfig.
From S2P Require Import LlmTools.

Open Scope string_scope.
Open Scope list_scope.
Open Scope Z_scope.

#[local] Set Default Proof Using "Type".

(** What an LLM call takes from outside the code: the codec, pydantic's conversions of the
    fields of a template, the prompts directory ([None] when there is none) and
    [yaml.safe_load]. *)
Class Prompting := {
  prompting_json :: Json;
  prompting_fields :: Fields;
  prompts_dir : option (list PromptFile);
  prompts_yaml : string → result items;
}.

(** The part of a prompt that says what the answer must look like. *)
Definition schema_part (schema_json : string) : string :=
  newline +:+ "OUTPUT_SCHEMA: " +:+ schema_json +:+ newline +:+ "END_SCHEMA".

Definition grounding_part (grounding_json : string) : string :=
  newline +:+ newline +:+ "GROUNDING_INPUTS:" +:+ newline +:+ grounding_json.

Section Render.
Context `{Json}.

(** The examples, when there are any; they hold JSON values. *)
Definition examples_part (examples : option (list pyval)) : list string :=
  match examples with
  | None | Some [] => []
  | Some l => [newline +:+ "EXAMPLES:" +:+ newline +:+ json_dumps_indent (VList l)]
  end.

(** [PromptTemplate.render] *)
Definition render (t : PromptTemplate) (grounding_inputs : items) (schema : option items)
    (examples : option (list pyval)) : string * string :=
  let parts := pt_body t ::
    match schema with Some s => [schema_part (json_dumps (VDict s))] | None => [] end ++
    examples_part examples in
  let prefix := py_join newline parts in
  let suffix := grounding_part (json_dumps_indent (VDict grounding_inputs)) in
  (prefix +:+ suffix, pt_prompt_id t +:+ "@v" +:+ str_of_Z (pt_version t)).

(** [PromptTemplate.content_hash] *)
Definition content_hash (t : PromptTemplate) : string := py_take 16 (sha256_hex (pt_body t)).

(** The prompt [_render_prompt] builds without a template. *)
Definition plain_prompt (instructions : string) (schema : items) (examples : option (list pyval))
    (grounding_inputs : items) : string :=
  py_join newline
    (instructions :: schema_part (json_dumps_indent (VDict schema)) :: examples_part examples ++
     [grounding_part (json_dumps_indent (VDict grounding_inputs))]).

(** The prompt of a repair: the original one with the error of the attempt before. *)
Definition repair_prompt (messages : string) (schema : items) (errors : list string) : string :=
  match last errors with
  | Some e =>
      messages +:+ newline +:+ newline +:+ "Previous output was invalid: " +:+ e +:+ newline +:+
      "Please fix the JSON output to match this schema:" +:+ newline +:+
      json_dumps_indent (VDict schema)
  | None => messages
  end.

(** [_compute_prompt_ref] *)
Definition _compute_prompt_ref (kind : TaskKind) (prompt : string) : string :=
  TaskKind_str kind +:+ ":" +:+ py_take 16 (sha256_hex prompt).
End Render.

Section Runtime.
Context `{Prompting} {V : Type} `{!Schema V}.

(** [PromptRegistry().resolve(task_kind, agent_id)] *)
Definition template_of (kind : TaskKind) (agent_id : string) : result PromptTemplate :=
  snd (resolve prompts_yaml prompts_dir (TaskKind_str kind) agent_id new_registry).

(** [_render_prompt] *)
Definition _render_prompt (request : AssistiveRequest V) : string :=
  let schema := model_json_schema (V:=V) in
  match template_of (ar_task_kind request) (ar_agent_id request) with
  | Ok template =>
      fst (render template (ar_grounding_inputs request) (Some schema) (ar_examples request))
  | Err _ =>
      plain_prompt (ar_instructions request) schema (ar_examples request) (ar_grounding_inputs request)
  end.

(** Remark (functional): a template replaces the instructions.  When the prompts directory
    has a template for the task and the agent, two requests that differ only in their
    instructions have the same prompt; otherwise the prompt starts with them. *)
Theorem template_replaces_instructions (request : AssistiveRequest V) :
  match template_of (ar_task_kind request) (ar_agent_id request) with
  | Ok _ => ∀ other, ar_task_kind other = ar_task_kind request → ar_agent_id other = ar_agent_id request →
      ar_grounding_inputs other = ar_grounding_inputs request → ar_examples other = ar_examples request →
      _render_prompt other = _render_prompt request
  | Err _ => String.prefix (ar_instructions request) (_render_prompt request) = true
  end.
Proof.
  unfold _render_prompt. destruct (template_of _ _) as [t|e] eqn:Et.
  - intros other -> -> -> ->. by rewrite Et.
  - apply prefix_app.
Qed.
End Runtime.
