(* ===== verification/Redaction.v ===== *)
(** * Redaction of personal data

    [src/agent_foundation/llm/redaction.py]: the five patterns with the part of
    Python's [re] they use, their substitution one after the other, and the
    redaction of nested values.  A pattern is matched against the characters of a text
    ([py_chars]: each with its UTF-8 bytes), and its classes are those of a [str] pattern:
    the tables list the decimal digits and the other alphanumeric characters of
    Unicode 15.0, the version of Python 3.12. *)

From Stdlib Require Import ZArith Bool Ascii String List Lia.
From stdpp Require Import base list strings.
From S2P Require Import Prelude.
From S2P Require Import PyFloat.
From S2P Require Import Contracts.
From S2P Require Import Uuid.

Open Scope string_scope.
Open Scope list_scope.

#[local] Set Default Proof Using "Type".

(** ** Regular expressions *)

(** A character is the text of one code point. *)
Abbreviation char := string (only parsing).

Definition code_point (x : char) : N :=
  let low c := N.modulo (N_of_ascii c) 64 in
  match x with
  | String a EmptyString => if N.ltb (N_of_ascii a) 128 then N_of_ascii a else 65533
  | String a (String b EmptyString) => N.modulo (N_of_ascii a) 32 * 64 + low b
  | String a (String b (String c EmptyString)) =>
      N.modulo (N_of_ascii a) 16 * 4096 + low b * 64 + low c
  | String a (String b (String c (String d EmptyString))) =>
      N.modulo (N_of_ascii a) 8 * 262144 + low b * 4096 + low c * 64 + low d
  | _ => 65533
  end%N.

(** The decimal digits (category Nd), by their first and last code points. *)
Definition decimal_digits : list (N * N) :=
  [ (48, 57); (1632, 1641); (1776, 1785); (1984, 1993); (2406, 2415); (2534, 2543); (2662, 2671);
    (2790, 2799); (2918, 2927); (3046, 3055); (3174, 3183); (3302, 3311); (3430, 3439);
    (3558, 3567); (3664, 3673); (3792, 3801); (3872, 3881); (4160, 4169); (4240, 4249);
    (6112, 6121); (6160, 6169); (6470, 6479); (6608, 6617); (6784, 6793); (6800, 6809);
    (6992, 7001); (7088, 7097); (7232, 7241); (7248, 7257); (42528, 42537); (43216, 43225);
    (43264, 43273); (43472, 43481); (43504, 43513); (43600, 43609); (44016, 44025);
    (65296, 65305); (66720, 66729); (68912, 68921); (69734, 69743); (69872, 69881);
    (69942, 69951); (70096, 70105); (70384, 70393); (70736, 70745); (70864, 70873);
    (71248, 71257); (71360, 71369); (71472, 71481); (71904, 71913); (72016, 72025);
    (72784, 72793); (73040, 73049); (73120, 73129); (73552, 73561); (92768, 92777);
    (92864, 92873); (93008, 93017); (120782, 120831); (123200, 123209); (123632, 123641);
    (124144, 124153); (125264, 125273); (130032, 130041) ]%N.

(** What else [str.isalnum] accepts. *)
Definition other_alphanumerics : list (N * N) :=
  [ (65, 90); (97, 122); (170, 170); (178, 179); (181, 181); (185, 186); (188, 190); (192, 214);
    (216, 246); (248, 705); (710, 721); (736, 740); (748, 748); (750, 750); (880, 884);
    (886, 887); (890, 893); (895, 895); (902, 902); (904, 906); (908, 908); (910, 929);
    (931, 1013); (1015, 1153); (1162, 1327); (1329, 1366); (1369, 1369); (1376, 1416);
    (1488, 1514); (1519, 1522); (1568, 1610); (1646, 1647); (1649, 1747); (1749, 1749);
    (1765, 1766); (1774, 1775); (1786, 1788); (1791, 1791); (1808, 1808); (1810, 1839);
    (1869, 1957); (1969, 1969); (1994, 2026); (2036, 2037); (2042, 2042); (2048, 2069);
    (2074, 2074); (2084, 2084); (2088, 2088); (2112, 2136); (2144, 2154); (2160, 2183);
    (2185, 2190); (2208, 2249); (2308, 2361); (2365, 2365); (2384, 2384); (2392, 2401);
    (2417, 2432); (2437, 2444); (2447, 2448); (2451, 2472); (2474, 2480); (2482, 2482);
    (2486, 2489); (2493, 2493); (2510, 2510); (2524, 2525); (2527, 2529); (2544, 2545);
    (2548, 2553); (2556, 2556); (2565, 2570); (2575, 2576); (2579, 2600); (2602, 2608);
    (2610, 2611); (2613, 2614); (2616, 2617); (2649, 2652); (2654, 2654); (2674, 2676);
    (2693, 2701); (2703, 2705); (2707, 2728); (2730, 2736); (2738, 2739); (2741, 2745);
    (2749, 2749); (2768, 2768); (2784, 2785); (2809, 2809); (2821, 2828); (2831, 2832);
    (2835, 2856); (2858, 2864); (2866, 2867); (2869, 2873); (2877, 2877); (2908, 2909);
    (2911, 2913); (2929, 2935); (2947, 2947); (2949, 2954); (2958, 2960); (2962, 2965);
    (2969, 2970); (2972, 2972); (2974, 2975); (2979, 2980); (2984, 2986); (2990, 3001);
    (3024, 3024); (3056, 3058); (3077, 3084); (3086, 3088); (3090, 3112); (3114, 3129);
    (3133, 3133); (3160, 3162); (3165, 3165); (3168, 3169); (3192, 3198); (3200, 3200);
    (3205, 3212); (3214, 3216); (3218, 3240); (3242, 3251); (3253, 3257); (3261, 3261);
    (3293, 3294); (3296, 3297); (3313, 3314); (3332, 3340); (3342, 3344); (3346, 3386);
    (3389, 3389); (3406, 3406); (3412, 3414); (3416, 3425); (3440, 3448); (3450, 3455);
    (3461, 3478); (3482, 3505); (3507, 3515); (3517, 3517); (3520, 3526); (3585, 3632);
    (3634, 3635); (3648, 3654); (3713, 3714); (3716, 3716); (3718, 3722); (3724, 3747);
    (3749, 3749); (3751, 3760); (3762, 3763); (3773, 3773); (3776, 3780); (3782, 3782);
    (3804, 3807); (3840, 3840); (3882, 3891); (3904, 3911); (3913, 3948); (3976, 3980);
    (4096, 4138); (4159, 4159); (4176, 4181); (4186, 4189); (4193, 4193); (4197, 4198);
    (4206, 4208); (4213, 4225); (4238, 4238); (4256, 4293); (4295, 4295); (4301, 4301);
    (4304, 4346); (4348, 4680); (4682, 4685); (4688, 4694); (4696, 4696); (4698, 4701);
    (4704, 4744); (4746, 4749); (4752, 4784); (4786, 4789); (4792, 4798); (4800, 4800);
    (4802, 4805); (4808, 4822); (4824, 4880); (4882, 4885); (4888, 4954); (4969, 4988);
    (4992, 5007); (5024, 5109); (5112, 5117); (5121, 5740); (5743, 5759); (5761, 5786);
    (5792, 5866); (5870, 5880); (5888, 5905); (5919, 5937); (5952, 5969); (5984, 5996);
    (5998, 6000); (6016, 6067); (6103, 6103); (6108, 6108); (6128, 6137); (6176, 6264);
    (6272, 6276); (6279, 6312); (6314, 6314); (6320, 6389); (6400, 6430); (6480, 6509);
    (6512, 6516); (6528, 6571); (6576, 6601); (6618, 6618); (6656, 6678); (6688, 6740);
    (6823, 6823); (6917, 6963); (6981, 6988); (7043, 7072); (7086, 7087); (7098, 7141);
    (7168, 7203); (7245, 7247); (7258, 7293); (7296, 7304); (7312, 7354); (7357, 7359);
    (7401, 7404); (7406, 7411); (7413, 7414); (7418, 7418); (7424, 7615); (7680, 7957);
    (7960, 7965); (7968, 8005); (8008, 8013); (8016, 8023); (8025, 8025); (8027, 8027);
    (8029, 8029); (8031, 8061); (8064, 8116); (8118, 8124); (8126, 8126); (8130, 8132);
    (8134, 8140); (8144, 8147); (8150, 8155); (8160, 8172); (8178, 8180); (8182, 8188);
    (8304, 8305); (8308, 8313); (8319, 8329); (8336, 8348); (8450, 8450); (8455, 8455);
    (8458, 8467); (8469, 8469); (8473, 8477); (8484, 8484); (8486, 8486); (8488, 8488);
    (8490, 8493); (8495, 8505); (8508, 8511); (8517, 8521); (8526, 8526); (8528, 8585);
    (9312, 9371); (9450, 9471); (10102, 10131); (11264, 11492); (11499, 11502); (11506, 11507);
    (11517, 11517); (11520, 11557); (11559, 11559); (11565, 11565); (11568, 11623);
    (11631, 11631); (11648, 11670); (11680, 11686); (11688, 11694); (11696, 11702);
    (11704, 11710); (11712, 11718); (11720, 11726); (11728, 11734); (11736, 11742);
    (11823, 11823); (12293, 12295); (12321, 12329); (12337, 12341); (12344, 12348);
    (12353, 12438); (12445, 12447); (12449, 12538); (12540, 12543); (12549, 12591);
    (12593, 12686); (12690, 12693); (12704, 12735); (12784, 12799); (12832, 12841);
    (12872, 12879); (12881, 12895); (12928, 12937); (12977, 12991); (13312, 19903);
    (19968, 42124); (42192, 42237); (42240, 42508); (42512, 42527); (42538, 42539);
    (42560, 42606); (42623, 42653); (42656, 42735); (42775, 42783); (42786, 42888);
    (42891, 42954); (42960, 42961); (42963, 42963); (42965, 42969); (42994, 43009);
    (43011, 43013); (43015, 43018); (43020, 43042); (43056, 43061); (43072, 43123);
    (43138, 43187); (43250, 43255); (43259, 43259); (43261, 43262); (43274, 43301);
    (43312, 43334); (43360, 43388); (43396, 43442); (43471, 43471); (43488, 43492);
    (43494, 43503); (43514, 43518); (43520, 43560); (43584, 43586); (43588, 43595);
    (43616, 43638); (43642, 43642); (43646, 43695); (43697, 43697); (43701, 43702);
    (43705, 43709); (43712, 43712); (43714, 43714); (43739, 43741); (43744, 43754);
    (43762, 43764); (43777, 43782); (43785, 43790); (43793, 43798); (43808, 43814);
    (43816, 43822); (43824, 43866); (43868, 43881); (43888, 44002); (44032, 55203);
    (55216, 55238); (55243, 55291); (63744, 64109); (64112, 64217); (64256, 64262);
    (64275, 64279); (64285, 64285); (64287, 64296); (64298, 64310); (64312, 64316);
    (64318, 64318); (64320, 64321); (64323, 64324); (64326, 64433); (64467, 64829);
    (64848, 64911); (64914, 64967); (65008, 65019); (65136, 65140); (65142, 65276);
    (65313, 65338); (65345, 65370); (65382, 65470); (65474, 65479); (65482, 65487);
    (65490, 65495); (65498, 65500); (65536, 65547); (65549, 65574); (65576, 65594);
    (65596, 65597); (65599, 65613); (65616, 65629); (65664, 65786); (65799, 65843);
    (65856, 65912); (65930, 65931); (66176, 66204); (66208, 66256); (66273, 66299);
    (66304, 66339); (66349, 66378); (66384, 66421); (66432, 66461); (66464, 66499);
    (66504, 66511); (66513, 66517); (66560, 66717); (66736, 66771); (66776, 66811);
    (66816, 66855); (66864, 66915); (66928, 66938); (66940, 66954); (66956, 66962);
    (66964, 66965); (66967, 66977); (66979, 66993); (66995, 67001); (67003, 67004);
    (67072, 67382); (67392, 67413); (67424, 67431); (67456, 67461); (67463, 67504);
    (67506, 67514); (67584, 67589); (67592, 67592); (67594, 67637); (67639, 67640);
    (67644, 67644); (67647, 67669); (67672, 67702); (67705, 67742); (67751, 67759);
    (67808, 67826); (67828, 67829); (67835, 67867); (67872, 67897); (67968, 68023);
    (68028, 68047); (68050, 68096); (68112, 68115); (68117, 68119); (68121, 68149);
    (68160, 68168); (68192, 68222); (68224, 68255); (68288, 68295); (68297, 68324);
    (68331, 68335); (68352, 68405); (68416, 68437); (68440, 68466); (68472, 68497);
    (68521, 68527); (68608, 68680); (68736, 68786); (68800, 68850); (68858, 68899);
    (69216, 69246); (69248, 69289); (69296, 69297); (69376, 69415); (69424, 69445);
    (69457, 69460); (69488, 69505); (69552, 69579); (69600, 69622); (69635, 69687);
    (69714, 69733); (69745, 69746); (69749, 69749); (69763, 69807); (69840, 69864);
    (69891, 69926); (69956, 69956); (69959, 69959); (69968, 70002); (70006, 70006);
    (70019, 70066); (70081, 70084); (70106, 70106); (70108, 70108); (70113, 70132);
    (70144, 70161); (70163, 70187); (70208, 70208); (70272, 70278); (70280, 70280);
    (70282, 70285); (70287, 70301); (70303, 70312); (70320, 70366); (70405, 70412);
    (70415, 70416); (70419, 70440); (70442, 70448); (70450, 70451); (70453, 70457);
    (70461, 70461); (70480, 70480); (70493, 70497); (70656, 70708); (70727, 70730);
    (70751, 70753); (70784, 70831); (70852, 70853); (70855, 70855); (71040, 71086);
    (71128, 71131); (71168, 71215); (71236, 71236); (71296, 71338); (71352, 71352);
    (71424, 71450); (71482, 71483); (71488, 71494); (71680, 71723); (71840, 71903);
    (71914, 71922); (71935, 71942); (71945, 71945); (71948, 71955); (71957, 71958);
    (71960, 71983); (71999, 71999); (72001, 72001); (72096, 72103); (72106, 72144);
    (72161, 72161); (72163, 72163); (72192, 72192); (72203, 72242); (72250, 72250);
    (72272, 72272); (72284, 72329); (72349, 72349); (72368, 72440); (72704, 72712);
    (72714, 72750); (72768, 72768); (72794, 72812); (72818, 72847); (72960, 72966);
    (72968, 72969); (72971, 73008); (73030, 73030); (73056, 73061); (73063, 73064);
    (73066, 73097); (73112, 73112); (73440, 73458); (73474, 73474); (73476, 73488);
    (73490, 73523); (73648, 73648); (73664, 73684); (73728, 74649); (74752, 74862);
    (74880, 75075); (77712, 77808); (77824, 78894); (78913, 78918); (82944, 83526);
    (92160, 92728); (92736, 92766); (92784, 92862); (92880, 92909); (92928, 92975);
    (92992, 92995); (93019, 93025); (93027, 93047); (93053, 93071); (93760, 93846);
    (93952, 94026); (94032, 94032); (94099, 94111); (94176, 94177); (94179, 94179);
    (94208, 100343); (100352, 101589); (101632, 101640); (110576, 110579); (110581, 110587);
    (110589, 110590); (110592, 110882); (110898, 110898); (110928, 110930); (110933, 110933);
    (110948, 110951); (110960, 111355); (113664, 113770); (113776, 113788); (113792, 113800);
    (113808, 113817); (119488, 119507); (119520, 119539); (119648, 119672); (119808, 119892);
    (119894, 119964); (119966, 119967); (119970, 119970); (119973, 119974); (119977, 119980);
    (119982, 119993); (119995, 119995); (119997, 120003); (120005, 120069); (120071, 120074);
    (120077, 120084); (120086, 120092); (120094, 120121); (120123, 120126); (120128, 120132);
    (120134, 120134); (120138, 120144); (120146, 120485); (120488, 120512); (120514, 120538);
    (120540, 120570); (120572, 120596); (120598, 120628); (120630, 120654); (120656, 120686);
    (120688, 120712); (120714, 120744); (120746, 120770); (120772, 120779); (122624, 122654);
    (122661, 122666); (122928, 122989); (123136, 123180); (123191, 123197); (123214, 123214);
    (123536, 123565); (123584, 123627); (124112, 124139); (124896, 124902); (124904, 124907);
    (124909, 124910); (124912, 124926); (124928, 125124); (125127, 125135); (125184, 125251);
    (125259, 125259); (126065, 126123); (126125, 126127); (126129, 126132); (126209, 126253);
    (126255, 126269); (126464, 126467); (126469, 126495); (126497, 126498); (126500, 126500);
    (126503, 126503); (126505, 126514); (126516, 126519); (126521, 126521); (126523, 126523);
    (126530, 126530); (126535, 126535); (126537, 126537); (126539, 126539); (126541, 126543);
    (126545, 126546); (126548, 126548); (126551, 126551); (126553, 126553); (126555, 126555);
    (126557, 126557); (126559, 126559); (126561, 126562); (126564, 126564); (126567, 126570);
    (126572, 126578); (126580, 126583); (126585, 126588); (126590, 126590); (126592, 126601);
    (126603, 126619); (126625, 126627); (126629, 126633); (126635, 126651); (127232, 127244);
    (131072, 173791); (173824, 177976); (177984, 178205); (178208, 183969); (183984, 191456);
    (194560, 195101); (196608, 201546); (201552, 205743) ]%N.

(** What [str.isspace] accepts. *)
Definition whitespace : list (N * N) :=
  [ (9, 13); (28, 32); (133, 133); (160, 160); (5760, 5760); (8192, 8202); (8232, 8233);
    (8239, 8239); (8287, 8287); (12288, 12288) ]%N.

Definition in_ranges (t : list (N * N)) (n : N) : bool :=
  existsb (λ r, N.leb (fst r) n && N.leb n (snd r)) t.

(** [\d], [\w] and [\s] of a [str] pattern. *)
Definition digit (x : char) : bool := in_ranges decimal_digits (code_point x).
Definition word_char (x : char) : bool :=
  digit x || in_ranges other_alphanumerics (code_point x) || N.eqb (code_point x) 95.
Definition space (x : char) : bool := in_ranges whitespace (code_point x).

(** Classes, [\b], sequence, [?] and the greedy [*] of a class. *)
Inductive regex :=
| RClass (p : char → bool)
| RBoundary
| RSeq (a b : regex)
| ROpt (a : regex)
| RMany (p : char → bool).

(** [\b] between the character before and the rest. *)
Definition at_boundary (prev : option char) (s : list char) : bool :=
  xorb (match prev with Some c => word_char c | None => false end)
       (match s with c :: _ => word_char c | [] => false end).

(** Backtracking: the first way to match [r] after [prev], in the order of preference,
    after which [k] succeeds. *)
Fixpoint match_re {A} (r : regex) (prev : option char) (s : list char)
    (k : option char → list char → option A) : option A :=
  match r with
  | RClass p => match s with
                | c :: s' => if p c then k (Some c) s' else None
                | [] => None
                end
  | RBoundary => if at_boundary prev s then k prev s else None
  | RSeq a b => match_re a prev s (λ prev s, match_re b prev s k)
  | ROpt a => match match_re a prev s k with Some x => Some x | None => k prev s end
  | RMany p =>
      (fix many (prev : option char) (s : list char) : option A :=
         match s with
         | c :: s' =>
             if p c then match many (Some c) s' with Some x => Some x | None => k prev s end
             else k prev s
         | [] => k prev s
         end) prev s
  end.

(** [pattern.match]: the rest of the text after the match. *)
Definition match_at (r : regex) (prev : option char) (s : list char) : option (list char) :=
  match_re r prev s (λ _ rest, Some rest).

(** [pattern.sub(placeholder, s)] for a pattern that does not match the empty text; [skip]
    characters of a match are still to be dropped. *)
Fixpoint sub_from (r : regex) (placeholder : list char) (skip : nat) (prev : option char)
    (s : list char) : list char :=
  match s with
  | [] => []
  | c :: s' =>
      match skip with
      | S n => sub_from r placeholder n (Some c) s'
      | O =>
          match match_at r prev s with
          | Some rest =>
              placeholder ++ sub_from r placeholder (length s' - length rest) (Some c) s'
          | None => c :: sub_from r placeholder 0 (Some c) s'
          end
      end
  end.

Definition re_sub (r : regex) (placeholder s : string) : string :=
  text_of (sub_from r (py_chars placeholder) 0 None (py_chars s)).

(** An ASCII character, and a class of them. *)
Definition ascii_class (p : ascii → bool) (x : char) : bool :=
  match x with String c EmptyString => p c | _ => false end.
Definition one (c : ascii) : regex := RClass (ascii_class (Ascii.eqb c)).
Definition RPlus (p : char → bool) : regex := RSeq (RClass p) (RMany p).

(** [r{n}], followed by [rest]. *)
Fixpoint times (n : nat) (r rest : regex) : regex :=
  match n with O => rest | S n => RSeq r (times n r rest) end.

(** ** The patterns *)

Definition char_in (s : list ascii) : char → bool := ascii_class (λ c, existsb (Ascii.eqb c) s).

(** [a-zA-Z0-9] *)
Definition ascii_alnum : char → bool :=
  ascii_class (λ c, between 65 90 c || between 97 122 c || between 48 57 c).

(** [[a-zA-Z0-9_.+-]+@[a-zA-Z0-9-]+\.[a-zA-Z0-9-.]+] *)
Definition _EMAIL_RE : regex :=
  RSeq (RPlus (λ c, ascii_alnum c || char_in ["_"; "."; "+"; "-"]%char c))
  (RSeq (one "@")
  (RSeq (RPlus (λ c, ascii_alnum c || char_in ["-"]%char c))
  (RSeq (one ".")
        (RPlus (λ c, ascii_alnum c || char_in ["-"; "."]%char c))))).

Definition dash_dot_space (c : char) : bool := char_in ["-"; "."]%char c || space c.
Definition dash_space (c : char) : bool := char_in ["-"]%char c || space c.

(** [\b(?:\+?1[-.\s]?)?(?:\(?\d{3}\)?[-.\s]?)?\d{3}[-.\s]?\d{4}\b] *)
Definition _PHONE_RE : regex :=
  RSeq RBoundary
  (RSeq (ROpt (RSeq (ROpt (one "+")) (RSeq (one "1") (ROpt (RClass dash_dot_space)))))
  (RSeq (ROpt (RSeq (ROpt (one "("))
                    (times 3 (RClass digit) (RSeq (ROpt (one ")")) (ROpt (RClass dash_dot_space))))))
  (times 3 (RClass digit)
  (RSeq (ROpt (RClass dash_dot_space)) (times 4 (RClass digit) RBoundary))))).

(** [\b(?:\d{4}[-\s]?){3}\d{4}\b] *)
Definition _PAN_RE : regex :=
  RSeq RBoundary
  (times 3 (times 4 (RClass digit) (ROpt (RClass dash_space))) (times 4 (RClass digit) RBoundary)).

(** [\b\d{3}-\d{2}-\d{4}\b] *)
Definition _SSN_RE : regex :=
  RSeq RBoundary
  (times 3 (RClass digit) (RSeq (one "-") (times 2 (RClass digit) (RSeq (one "-")
  (times 4 (RClass digit) RBoundary))))).

(** [\b\d{8,}\b] *)
Definition _LONG_DIGITS_RE : regex :=
  RSeq RBoundary (times 8 (RClass digit) (RSeq (RMany digit) RBoundary)).

Definition _PATTERNS : list (regex * string) :=
  [ (_EMAIL_RE, "[REDACTED_EMAIL]"); (_PAN_RE, "[REDACTED_CARD]"); (_SSN_RE, "[REDACTED_SSN]");
    (_PHONE_RE, "[REDACTED_PHONE]"); (_LONG_DIGITS_RE, "[REDACTED_NUMBER]") ].

Definition redact_text (text : string) : string :=
  fold_left (λ text pattern, re_sub (fst pattern) (snd pattern) text) _PATTERNS text.

(** ** Values *)

(** [_redact_value] and [redact_mapping]: the keys are kept. *)
Fixpoint _redact_value (v : pyval) : pyval :=
  match v with
  | VStr s => VStr (redact_text s)
  | VDict d => VDict (map (λ kv, (fst kv, _redact_value (snd kv))) d)
  | VList l => VList (map _redact_value l)
  | _ => v
  end.

Definition redact_mapping (data : list (string * pyval)) : list (string * pyval) :=
  map (λ kv, (fst kv, _redact_value (snd kv))) data.

(** [Redactor.scrub] *)
Fixpoint scrub (enabled : bool) (value : pyval) : pyval :=
  if negb enabled then value
  else match value with
       | VStr s => VStr (redact_text s)
       | VDict d => VDict (redact_mapping d)
       | VList l => VList (map (scrub enabled) l)
       | _ => value
       end.

(** What a configuration says about capture. *)
Record CapturePolicy := {
  cap_log_raw_prompts : bool;
  cap_log_raw_outputs : bool;
  cap_redact_pii : bool;
}.

(** [redact_for_export] of [observability/redaction.py]; [str] of a redacted text is the
    text. *)
Definition redact_for_export (value : option string) (field : string) (config : CapturePolicy) :
    option string :=
  match value with
  | None => None
  | Some value =>
      let log_raw :=
        if String.eqb field "prompt" then cap_log_raw_prompts config
        else if String.eqb field "completion" then cap_log_raw_outputs config
        else false in
      if log_raw then Some value
      else if negb (cap_redact_pii config) then None
      else Some (redact_text value)
  end.

Example texts_redacted :
  map redact_text
    ["mail bob.smith+x@mail.example.com. now"; "card 4111-1111 11111111 ok"; "ssn 123-45-6789!";
     "call +1 (555) 123-4567 or 555.123.4567"; "order 12345678 a123456789 123456789012";
     "x@y a@b.c@d.e"; "1234567"; "(555)1234567"; "9 123 4567 8"; "15551234567"; "1-555-123-4567x"] =
  ["mail [REDACTED_EMAIL] now"; "card [REDACTED_CARD] ok"; "ssn [REDACTED_SSN]!";
   "call +[REDACTED_PHONE] or [REDACTED_PHONE]"; "order [REDACTED_PHONE] a123456789 [REDACTED_NUMBER]";
   "x@y [REDACTED_EMAIL]@d.e"; "[REDACTED_PHONE]"; "([REDACTED_PHONE]"; "9 [REDACTED_PHONE] 8";
   "[REDACTED_PHONE]"; "1-555-123-4567x"].
Proof. vm_compute. reflexivity. Qed.

(** U+00A0, a white space of [\s]. *)
Definition nbsp : string := String "194"%char (String "160"%char EmptyString).

(** Outside ASCII: a number is one only with no word character next to it. *)
Example texts_redacted_unicode :
  map redact_text
    ["账号12345678"; "账号 12345678。"; "１２３４５６７８９!"; "é12345678"; "٤١١١-1111 11111111"; "–12345678–";
     "b 555" +:+ nbsp +:+ "123-4567"] =
  ["账号12345678"; "账号 [REDACTED_PHONE]。"; "[REDACTED_NUMBER]!"; "é12345678"; "[REDACTED_CARD]";
   "–[REDACTED_PHONE]–"; "b [REDACTED_PHONE]"].
Proof. vm_compute. reflexivity. Qed.

(** ** No number of eight digits or more is left standing alone *)

Fixpoint digits_len (s : list char) : nat :=
  match s with c :: s' => if digit c then S (digits_len s') else 0 | [] => 0 end.

Fixpoint skip_digits (s : list char) : list char :=
  match s with c :: s' => if digit c then skip_digits s' else s | [] => s end.

Definition starts_word (s : list char) : bool :=
  match s with c :: _ => word_char c | [] => false end.

(** A number of at least eight digits starts here, with nothing of a word around it. *)
Definition number_at (prev : option char) (s : list char) : bool :=
  at_boundary prev s && (8 <=? digits_len s)%nat && negb (starts_word (skip_digits s)).

(** No such number starts anywhere in these characters, or in the text. *)
Fixpoint number_free (prev : option char) (s : list char) : Prop :=
  number_at prev s = false ∧
  match s with c :: s' => number_free (Some c) s' | [] => True end.

Definition no_long_number (text : string) : Prop := number_free None (py_chars text).

#[local] Arguments word_char : simpl never.
#[local] Arguments digit : simpl never.

Lemma digit_word c : digit c = true → word_char c = true.
Proof. unfold word_char. by intros ->. Qed.

Lemma many_digits c0 s :
  word_char c0 = true →
  match_re (RMany digit) (Some c0) s (λ prev s, if at_boundary prev s then Some s else None) =
  if starts_word (skip_digits s) then None else Some (skip_digits s).
Proof.
  revert c0. induction s as [|c s IH]; intros c0 Hc0; cbn.
  { unfold at_boundary. by rewrite Hc0. }
  assert (Hb : at_boundary (Some c0) (c :: s) = negb (word_char c))
    by (unfold at_boundary; by rewrite Hc0; destruct (word_char c)).
  rewrite Hb. destruct (digit c) eqn:Ec; [|by cbn; destruct (word_char c)].
  cbn in IH. rewrite (IH c) by (by apply digit_word).
  destruct (starts_word (skip_digits s)); [|done]. by rewrite (digit_word c Ec).
Qed.

Lemma match_long prev s :
  match_at _LONG_DIGITS_RE prev s = if number_at prev s then Some (skip_digits s) else None.
Proof.
  unfold match_at, _LONG_DIGITS_RE, number_at. cbn [match_re times].
  destruct (at_boundary prev s); [cbn [andb]|done].
  do 8 (destruct s as [|? s]; [done|]; cbn [digits_len skip_digits];
        match goal with |- context [digit ?c] => destruct (digit c) eqn:? end; [|done]).
  match goal with H : digit ?c = true |- context [Some ?c] =>
    pose proof (many_digits c s (digit_word c H)) as Hmany end.
  cbn [match_re] in Hmany. rewrite Hmany.
  cbn. by destruct (starts_word (skip_digits s)).
Qed.

(** *** Scanning *)

Abbreviation scan := (sub_from _LONG_DIGITS_RE (py_chars "[REDACTED_NUMBER]")).

Lemma scan_copy prev c s :
  number_at prev (c :: s) = false → scan 0 prev (c :: s) = c :: scan 0 (Some c) s.
Proof. intros Hn. cbn [sub_from]. by rewrite match_long, Hn. Qed.

Lemma number_at_word c s : word_char c = true → starts_word s = true → number_at (Some c) s = false.
Proof.
  intros Hc Hs. unfold number_at, at_boundary. rewrite Hc. destruct s as [|d s]; [done|].
  cbn in Hs. by rewrite Hs.
Qed.

Lemma number_at_no_digit prev s : digits_len s = 0%nat → number_at prev s = false.
Proof. unfold number_at. intros ->. by rewrite andb_false_r. Qed.

(** Inside a word, nothing is replaced up to its end. *)
Lemma scan_word c s :
  word_char c = true →
  digits_len (scan 0 (Some c) s) = digits_len s ∧
  starts_word (skip_digits (scan 0 (Some c) s)) = starts_word (skip_digits s).
Proof.
  revert c. induction s as [|d s IH]; intros c Hc; [done|].
  destruct (digit d) eqn:Ed.
  - rewrite scan_copy by (apply number_at_word; [done|by apply digit_word]).
    cbn [digits_len skip_digits]. rewrite Ed. destruct (IH d (digit_word d Ed)) as [-> ->]. done.
  - rewrite scan_copy by (apply number_at_no_digit; cbn [digits_len]; by rewrite Ed).
    cbn [digits_len skip_digits]. by rewrite Ed.
Qed.

Lemma skip_digits_length s : (length (skip_digits s) <= length s)%nat.
Proof. induction s as [|c s IH]; cbn; [lia|]. destruct (digit c); cbn; lia. Qed.

(** Dropping the rest of a run of digits. *)
Lemma scan_drop c s :
  digit c = true →
  ∃ d, digit d = true ∧
    scan (length s - length (skip_digits s)) (Some c) s = scan 0 (Some d) (skip_digits s).
Proof.
  revert c. induction s as [|e s IH]; intros c Hc; [by exists c|].
  cbn [skip_digits length]. destruct (digit e) eqn:Ee.
  2: { exists c. split; [done|]. cbn [length]. by rewrite Nat.sub_diag. }
  destruct (IH e Ee) as (d & Hd & Hs). exists d. split; [done|].
  rewrite Nat.sub_succ_l by apply skip_digits_length. exact Hs.
Qed.

Lemma skip_digits_len s : digits_len (skip_digits s) = 0%nat.
Proof.
  induction s as [|c s IH]; [done|]. cbn [skip_digits]. destruct (digit c) eqn:E; [done|].
  cbn [digits_len]. by rewrite E.
Qed.

Lemma number_free_app p prev t :
  forallb (λ c, negb (digit c)) p = true → number_free (fold_left (λ _ c, Some c) p prev) t →
  number_free prev (p ++ t).
Proof.
  revert prev. induction p as [|c p IH]; intros prev Hp Ht; [exact Ht|].
  cbn [forallb] in Hp. apply andb_prop in Hp as [Hc Hp]. split; [|by apply IH].
  apply number_at_no_digit. cbn [app digits_len]. by destruct (digit c).
Qed.

Lemma placeholder_free prev t :
  number_free (Some "]") t → number_free prev (py_chars "[REDACTED_NUMBER]" ++ t).
Proof. intros Ht. apply number_free_app; [vm_compute; reflexivity|exact Ht]. Qed.

Lemma scan_number_free n prev s :
  (length s <= n)%nat → number_free prev (scan 0 prev s).
Proof.
  revert prev s. induction n as [|n IH]; intros prev [|c s] Hn; cbn [length] in Hn; try lia;
    try (split; [by apply number_at_no_digit|done]).
  destruct (number_at prev (c :: s)) eqn:Hat.
  - cbn [sub_from]. rewrite match_long, Hat. apply placeholder_free.
    assert (Hc : digit c = true).
    { unfold number_at in Hat. cbn [digits_len] in Hat. by destruct (digit c); [|rewrite andb_false_r in Hat]. }
    cbn [skip_digits]. rewrite Hc. destruct (scan_drop c s Hc) as (d & Hd & ->).
    pose proof (skip_digits_len s) as H0. pose proof (skip_digits_length s) as Hlen.
    destruct (skip_digits s) as [|x rest]; [by split; [apply number_at_no_digit|]|].
    rewrite scan_copy by (by apply number_at_no_digit). cbn [digits_len length] in H0, Hlen.
    split; [apply number_at_no_digit; cbn [digits_len]; by destruct (digit x)|]. apply IH. lia.
  - rewrite scan_copy by done. split; [|apply IH; lia].
    destruct (digit c) eqn:Hc; [|by apply number_at_no_digit; cbn [digits_len]; rewrite Hc].
    destruct (scan_word c s (digit_word c Hc)) as [H1 H2]. revert Hat. unfold number_at.
    cbn [digits_len skip_digits]. rewrite Hc, H1, H2. done.
Qed.

(** *** The substitution yields characters *)

Lemma fresh_sub r p n prev s :
  Forall (λ y, one_char true y = true) p → Forall (λ y, one_char true y = true) s →
  Forall (λ y, one_char true y = true) (sub_from r p n prev s).
Proof.
  intros Hp Hs. revert n prev.
  induction Hs as [|c s Hc Hs IH]; intros n prev; [by apply list.Forall_nil|]. cbn [sub_from].
  destruct n as [|n]; [|apply IH]. destruct (match_at r prev _) as [rest|].
  - apply list.Forall_app. split; [exact Hp|apply IH].
  - apply list.Forall_cons. split; [exact Hc|apply IH].
Qed.

Lemma sub_char_list r p s :
  Forall (λ y, one_char true y = true) p → char_list s → char_list (sub_from r p 0 None s).
Proof.
  destruct s as [|c s]; [done|]. intros Hp [Hc Hs]. cbn [sub_from].
  destruct (match_at r None _) as [rest|]; [|split; [exact Hc|by apply fresh_sub]].
  pose proof (fresh_sub r p (length s - length rest) (Some c) s Hp Hs) as H1.
  destruct p as [|x p]; cbn [app].
  - destruct (sub_from r _ _ _ _) as [|y l]; [done|]. apply list.Forall_cons in H1 as [Hy Hl].
    split; [|done]. destruct y as [|b y]; [discriminate Hy|]. by apply andb_prop in Hy as [_ Hy].
  - apply list.Forall_cons in Hp as [Hx Hp]. split; [|apply list.Forall_app; by split].
    destruct x as [|b x]; [discriminate Hx|]. by apply andb_prop in Hx as [_ Hx].
Qed.

(** ** What redaction guarantees *)

(** Every text inside a value satisfies [P]; the keys of the dicts are not asked. *)
Fixpoint text_values (P : string → Prop) (v : pyval) : Prop :=
  match v with
  | VStr s => P s
  | VList l => foldr (λ v, and (text_values P v)) True l
  | VDict d => foldr (λ kv, and (text_values P (snd kv))) True d
  | _ => True
  end.

(** Induction on values, with the hypothesis for the members of lists and dicts. *)
Lemma value_ind (P : pyval → Prop) :
  (∀ v, match v with VList l => Forall P l | VDict d => Forall (λ kv, P (snd kv)) d | _ => True end →
        P v) →
  ∀ v, P v.
Proof.
  intros Hstep. fix IH 1. intros v. apply Hstep. destruct v; try exact I.
  - induction l as [|v l IHl]; constructor; [apply IH|exact IHl].
  - induction d as [|[k v] d IHd]; constructor; [apply IH|exact IHd].
Qed.

Lemma redact_text_free s : no_long_number (redact_text s).
Proof.
  unfold redact_text, _PATTERNS, no_long_number. cbn [fold_left fst snd]. unfold re_sub at 1.
  rewrite chars_text_of; [by eapply scan_number_free|]. apply sub_char_list; [|apply chars_wf].
  apply list.Forall_forall. intros c Hc.
  assert (Hall : forallb (one_char true) (py_chars "[REDACTED_NUMBER]") = true)
    by (vm_compute; reflexivity).
  rewrite forallb_forall in Hall. apply Hall. by apply list_elem_of_In.
Qed.

Lemma redacted_free v : text_values no_long_number (_redact_value v).
Proof.
  induction v as [v IH] using value_ind. destruct v; cbn; try done; [apply redact_text_free|..];
    induction IH; cbn; auto.
Qed.

Lemma scrub_redacts v : scrub true v = _redact_value v.
Proof.
  induction v as [v IH] using value_ind. destruct v; cbn; try done.
  f_equal. induction IH as [|v l Hv _ IHl]; cbn; [done|]. by rewrite Hv, IHl.
Qed.

(** C30 (safety): no long number leaves unredacted.  In what an enabled redactor makes of a
    value, no text value - however deeply nested in lists and dicts; the keys of the dicts are
    not redacted, see the remark below - holds a free-standing number of eight digits or more
    (account, card and phone numbers written together), in any script's digits, whatever the
    substitutions of the other patterns left behind or put next to it; free-standing means
    with no letter, digit or underscore next to it, as Python's [\b] has it.  And a text is
    exported raw only when the configuration logs that field raw. *)
Theorem no_long_number_survives v text field config :
  text_values no_long_number (scrub true v) ∧
  match redact_for_export text field config with
  | Some exported =>
      no_long_number exported ∨
      (text = Some exported ∧ ((field = "prompt" ∧ cap_log_raw_prompts config = true) ∨
                               (field = "completion" ∧ cap_log_raw_outputs config = true)))
  | None => True
  end.
Proof.
  split; [rewrite scrub_redacts; apply redacted_free|].
  unfold redact_for_export. destruct text as [t|]; [|done].
  destruct (String.eqb_spec field "prompt") as [->|];
    [destruct (cap_log_raw_prompts config) eqn:E; [right; eauto|]|
     destruct (String.eqb_spec field "completion") as [->|];
       [destruct (cap_log_raw_outputs config) eqn:E; [right; eauto|]|]];
    destruct (negb (cap_redact_pii config)); try done; left; apply redact_text_free.
Qed.

(** Remark (safety): a key is not redacted.  Whatever its values, the keys of a dict leave an
    enabled redactor as they are, so that a card number used as a key is logged. *)
Theorem keys_stay_raw d :
  scrub true (VDict d) = VDict (redact_mapping d) ∧ map fst (redact_mapping d) = map fst d ∧
  ¬ no_long_number "4111111111111111" ∧
  scrub true (VDict [("4111111111111111", VInt 1)]) = VDict [("4111111111111111", VInt 1)].
Proof.
  split_and!; [done| | |done].
  { unfold redact_mapping. rewrite map_map. by apply map_ext. }
  intros [H _]. vm_compute in H. discriminate H.
Qed.
