(* ===== verification/A2A.v ===== *)
(** * The A2A contract: messages, task requests and task results

    [src/agent_foundation/a2a.py] and [src/agent_foundation/payloads/task.py],
    with the conditional-field validators of the models. *)

From Stdlib Require Import ZArith Bool String List.
From stdpp Require Import base list strings.
From S2P Require Import Prelude.
From S2P Require Import PyFloat.
From S2P Require Import Contracts.

Inductive PartType := part_text | part_data | part_file.

#[export] Instance PartType_eq_dec : EqDecision PartType.
Proof. solve_decision. Defined.

Record A2APart := {
  part_type : PartType;
  part_text_ : option string;
  part_data_ : option (list (string * pyval));
  part_file_uri : option string;
}.

(** [A2APart.validate_conditional_fields] *)
Definition mk_part (p : A2APart) : result A2APart :=
  match part_type p with
  | part_text =>
      if bool_of_option (part_text_ p) then Ok p
      else Err (ValidationError "text is required when type is 'text'")
  | part_data =>
      if bool_of_option (part_data_ p) then Ok p
      else Err (ValidationError "data is required when type is 'data'")
  | part_file =>
      if bool_of_option (part_file_uri p) then Ok p
      else Err (ValidationError "file_uri is required when type is 'file'")
  end.

(** [A2APart(type="data", data=d)] *)
Definition data_part (d : list (string * pyval)) : A2APart :=
  {| part_type := part_data; part_text_ := None; part_data_ := Some d; part_file_uri := None |}.

Inductive Role := role_user | role_agent.

Record A2AMessage := {
  msg_role : Role;
  msg_parts : list A2APart;
  msg_task_id : option UUID;
}.

(** [A2AMessage.validate_parts_nonempty] *)
Definition mk_message (m : A2AMessage) : result A2AMessage :=
  match msg_parts m with
  | [] => Err (ValidationError "parts must be non-empty")
  | _ => Ok m
  end.

(** [A2AMessage(role=role, parts=[A2APart(type="data", data=d)])] *)
Definition data_message (role : Role) (d : list (string * pyval)) : result A2AMessage :=
  p ← mk_part (data_part d);
  mk_message {| msg_role := role; msg_parts := [p]; msg_task_id := None |}.

Inductive TaskStatus := completed | failed | rejected.

#[export] Instance TaskStatus_eq_dec : EqDecision TaskStatus.
Proof. solve_decision. Defined.

Definition TaskStatus_str (s : TaskStatus) : string :=
  match s with completed => "completed" | failed => "failed" | rejected => "rejected" end.

Inductive ErrorCategory :=
| cat_validation
| cat_unsupported_capability
| cat_handler_error
| cat_duplicate
| cat_internal.

#[export] Instance ErrorCategory_eq_dec : EqDecision ErrorCategory.
Proof. solve_decision. Defined.

Record TaskError := {
  te_category : ErrorCategory;
  te_message : string;
}.

Record TaskRequest := {
  tr_task_id : UUID;
  tr_capability : string;
  tr_requester_agent_id : string;
  tr_target_agent_id : string;
  tr_input : A2AMessage;
}.

Record TaskResult := {
  tres_task_id : UUID;
  tres_status : TaskStatus;
  tres_performer_agent_id : string;
  tres_output : option A2AMessage;
  tres_error : option TaskError;
}.

(** [TaskResult.validate_status_fields]: a completed result has an output and
    no error; a failed or rejected one has an error of a matching category and
    no output. *)
Definition validate_status_fields (r : TaskResult) : result TaskResult :=
  match tres_status r with
  | completed =>
      match tres_output r, tres_error r with
      | None, _ => Err (ValidationError "output must be set when status is 'completed'")
      | _, Some _ => Err (ValidationError "error must be null when status is 'completed'")
      | Some _, None => Ok r
      end
  | failed =>
      match tres_error r, tres_output r with
      | None, _ => Err (ValidationError "error must be set when status is 'failed'")
      | _, Some _ => Err (ValidationError "output must be null when status is 'failed'")
      | Some e, None =>
          match te_category e with
          | cat_handler_error | cat_internal => Ok r
          | _ => Err (ValidationError
                        "error.category must be handler_error or internal for failed")
          end
      end
  | rejected =>
      match tres_error r, tres_output r with
      | None, _ => Err (ValidationError "error must be set when status is 'rejected'")
      | _, Some _ => Err (ValidationError "output must be null when status is 'rejected'")
      | Some e, None =>
          match te_category e with
          | cat_validation | cat_unsupported_capability | cat_duplicate => Ok r
          | _ => Err (ValidationError
                        ("error.category must be validation/unsupported_capability/duplicate "
                         +:+ "for rejected"))
          end
      end
  end.

(** The data part a consumer reads: the first part of type [data] whose data is
    truthy ([getattr(part, "type", None) == "data" and part.data]). *)
Fixpoint first_data (parts : list A2APart) : option (list (string * pyval)) :=
  match parts with
  | [] => None
  | p :: rest =>
      match part_type p, part_data_ p with
      | part_data, Some (kv :: d) => Some (kv :: d)
      | _, _ => first_data rest
      end
  end.

(** [EvidenceItem.model_dump()] *)
Definition dump_evidence (e : EvidenceItem) : pyval :=
  VDict [("source", VStr (ev_source e)); ("description", VStr (ev_description e));
         ("value", ev_value e)].

Definition Role_str (r : Role) : string :=
  match r with role_user => "user" | role_agent => "agent" end.

Definition PartType_str (t : PartType) : string :=
  match t with part_text => "text" | part_data => "data" | part_file => "file" end.

(** [A2AMessage.model_dump(mode="json")]; [uuid_str] renders a UUID. *)
Definition dump_message (uuid_str : UUID → string) (m : A2AMessage) : pyval :=
  VDict [("role", VStr (Role_str (msg_role m)));
         ("parts",
          VList (map (λ p, VDict [("type", VStr (PartType_str (part_type p)));
                                  ("text", vopt VStr (part_text_ p));
                                  ("data", vopt VDict (part_data_ p));
                                  ("file_uri", vopt VStr (part_file_uri p))])
                   (msg_parts m)));
         ("task_id", vopt (λ u, VStr (uuid_str u)) (msg_task_id m))].

(** ** HTTP responses of the deployment entry points *)

Record JSONResponse := {
  resp_status_code : Z;
  resp_content : list (string * pyval);
}.

Definition failed_content (agent_id : string) (task_id : pyval) (category message : string) :
    list (string * pyval) :=
  [("task_id", task_id); ("status", VStr "failed"); ("performer_agent_id", VStr agent_id);
   ("error", VDict [("category", VStr category); ("message", VStr message)])].

Definition completed_content (agent_id : string) (task_id output : pyval) :
    list (string * pyval) :=
  [("task_id", task_id); ("status", VStr "completed"); ("performer_agent_id", VStr agent_id);
   ("output", output)].

(** [body.get(k, default)]; a JSON body that is not an object has no [get]. *)
Definition body_get (body : pyval) (k : string) (default : pyval) : result pyval :=
  match body with
  | VDict d => Ok (match dict_get k d with Some v => v | None => default end)
  | _ => Err (AttributeError "object has no attribute 'get'")
  end.

Lemma data_message_ok role d :
  data_message role d =
  Ok {| msg_role := role; msg_parts := [data_part d]; msg_task_id := None |}.
Proof. reflexivity. Qed.
