(* ===== verification/RiskModels.v ===== *)
(** * Risk-Fraud agent: owned signals, assessment model and fraud policy

    [apps/agents/risk_fraud/models.py] and [policy.py]. *)

From Stdlib Require Import ZArith Bool String List.
From stdpp Require Import base list strings.
From S2P Require Import Prelude.
From S2P Require Import PyFloat.
From S2P Require Import Contracts.

Open Scope Z_scope.

(** ** Signals *)

Inductive RiskLevel := LOW | ELEVATED | HIGH.

#[export] Instance RiskLevel_eq_dec : EqDecision RiskLevel.
Proof. solve_decision. Defined.

Definition RiskLevel_str (l : RiskLevel) : string :=
  match l with LOW => "low" | ELEVATED => "elevated" | HIGH => "high" end.

Inductive RecommendedAction :=
| APPROVE_RISK_CLEARANCE
| ALLOW_WITH_CAUTION
| DENY_OR_ESCALATE
| REQUEST_MORE_INFORMATION_
| MANUAL_REVIEW.

#[export] Instance RecommendedAction_eq_dec : EqDecision RecommendedAction.
Proof. solve_decision. Defined.

Definition RecommendedAction_str (a : RecommendedAction) : string :=
  match a with
  | APPROVE_RISK_CLEARANCE => "approve_risk_clearance"
  | ALLOW_WITH_CAUTION => "allow_with_caution"
  | DENY_OR_ESCALATE => "deny_or_escalate"
  | REQUEST_MORE_INFORMATION_ => "request_more_information"
  | MANUAL_REVIEW => "manual_review"
  end.

Inductive StandingStatus := good | watch | restricted.

#[export] Instance StandingStatus_eq_dec : EqDecision StandingStatus.
Proof. solve_decision. Defined.

Definition StandingStatus_str (s : StandingStatus) : string :=
  match s with good => "good" | watch => "watch" | restricted => "restricted" end.

Inductive Segment := standard | vip | enterprise.

#[export] Instance Segment_eq_dec : EqDecision Segment.
Proof. solve_decision. Defined.

Definition Segment_str (s : Segment) : string :=
  match s with standard => "standard" | vip => "vip" | enterprise => "enterprise" end.

Record AccountStanding := {
  as_customer_id : string;
  as_status : StandingStatus;
  as_tenure_days : Z;
  as_support_abuse_flags : Z;
  as_known_good_customer : bool;
  as_segment : Segment;
}.

Record RefundDisputeHistory := {
  rh_customer_id : string;
  rh_prior_refunds : Z;
  rh_prior_refund_total_amount : float;
  rh_chargebacks : Z;
  rh_velocity_window_days : Z;
}.

Record PaymentInstrumentSignal := {
  pi_customer_id : string;
  pi_billing_details_match : bool;
  pi_card_testing_pattern : bool;
  pi_recent_failed_payments : Z;
}.

Record BehavioralSignal := {
  beh_customer_id : string;
  beh_refund_requests_in_window : Z;
  beh_anomaly_score : float;
  beh_device_mismatch : bool;
  beh_ip_location_mismatch : bool;
  beh_ip_country_mismatch : bool;
  beh_device_change_count : Z;
  beh_typical_refund_amount : option float;
}.

Record KnownFraudIndicator := {
  kfi_customer_id : string;
  kfi_on_blocklist : bool;
}.

Record RiskSignals := {
  rs_customer_id : string;
  rs_account_standing : option AccountStanding;
  rs_refund_history : option RefundDisputeHistory;
  rs_payment_instrument : option PaymentInstrumentSignal;
  rs_behavioral : option BehavioralSignal;
  rs_known_fraud : option KnownFraudIndicator;
}.

Record RiskAssessment := {
  ra_risk_level : RiskLevel;
  ra_recommended_action : RecommendedAction;
  ra_confidence : float;
  ra_evidence : list EvidenceItem;
  ra_policy_references : list string;
  ra_reasoning_summary : string;
  ra_requires_human_review : bool;
}.

(** [confidence: Annotated[float, Field(ge=0.0, le=1.0)]] *)
Definition mk_assessment (a : RiskAssessment) : result RiskAssessment :=
  if in_unit (ra_confidence a) then Ok a
  else Err (ValidationError "confidence must be in [0.0, 1.0]").

Record RiskAssessmentRequest := {
  rar_case_id : UUID;
  rar_ticket_id : string;
  rar_customer_id : string;
  rar_requested_refund_amount : option Decimal;
  rar_customer_message_summary : option string;
  rar_account_age_days : option Z;
}.

(** ** Fraud policy *)

Definition ELEVATED_THRESHOLD : float := lit 5 10.
Definition HIGH_THRESHOLD : float := lit 8 10.
Definition CHARGEBACK_ELEVATED : Z := 1.
Definition CHARGEBACK_HIGH : Z := 2.
Definition VELOCITY_ELEVATED : Z := 3.
Definition VELOCITY_HIGH : Z := 5.
Definition ANOMALY_ELEVATED : float := lit 7 10.
Definition NEW_ACCOUNT_DAYS : Z := 30.
Definition UNUSUAL_AMOUNT_RATIO : float := lit 3 1.

Record PolicyRule := { rule_id : string; rule_name : string }.

Record FraudPolicy := {
  fp_policy_name : string;
  fp_policy_version : string;
  fp_rules : list PolicyRule;
}.

Definition FRAUD_POLICY : FraudPolicy := {|
  fp_policy_name := "poc-fraud-policy";
  fp_policy_version := "1.0.0";
  fp_rules := [
    {| rule_id := "FP-001"; rule_name := "known-fraud-indicator" |};
    {| rule_id := "FP-002"; rule_name := "chargeback-history" |};
    {| rule_id := "FP-003"; rule_name := "refund-velocity" |};
    {| rule_id := "FP-004"; rule_name := "instrument-mismatch" |};
    {| rule_id := "FP-005"; rule_name := "account-standing" |};
    {| rule_id := "FP-006"; rule_name := "behavioral-anomaly" |};
    {| rule_id := "FP-007"; rule_name := "device-mismatch" |};
    {| rule_id := "FP-008"; rule_name := "ip-location-mismatch" |};
    {| rule_id := "FP-009"; rule_name := "unusual-refund-amount" |} ];
|}.
