(* ===== verification/RiskStore.v ===== *)
(** * Risk-Fraud agent: the signal store and its seeded dataset

    [apps/agents/risk_fraud/store.py] and [mock_data.py].  The store Protocol is
    a type class; the in-memory store is a finite map. *)

From Stdlib Require Import ZArith Bool Ascii String List.
From stdpp Require Import base list strings gmap.
From S2P Require Import Prelude.
From S2P Require Import PyFloat.
From S2P Require Import Contracts.
From S2P Require Import RiskModels.

Open Scope string_scope.
Open Scope list_scope.
Open Scope Z_scope.

(** [RiskSignalStore]: what the service relies on. *)
Class RiskSignalStore (S : Type) := {
  store_load_signals : S → string → option RiskSignals;
}.

(** [InMemoryRiskSignalStore] *)
Record InMemoryRiskSignalStore := { ims_records : gmap string RiskSignals }.

#[export] Instance InMemoryRiskSignalStore_store : RiskSignalStore InMemoryRiskSignalStore := {|
  store_load_signals := λ st customer_id, ims_records st !! customer_id;
|}.

(** ** [_clean_signals] *)

(** The five field buckets, as the models they are passed to. *)
Record SignalFields := {
  sf_standing : AccountStanding;
  sf_history : RefundDisputeHistory;
  sf_instrument : PaymentInstrumentSignal;
  sf_behavioral : BehavioralSignal;
  sf_fraud : KnownFraudIndicator;
}.

Definition clean_fields (customer_id : string) : SignalFields := {|
  sf_standing := {| as_customer_id := customer_id; as_status := good; as_tenure_days := 365;
                    as_support_abuse_flags := 0; as_known_good_customer := true;
                    as_segment := standard |};
  sf_history := {| rh_customer_id := customer_id; rh_prior_refunds := 1;
                   rh_prior_refund_total_amount := lit 25 1; rh_chargebacks := 0;
                   rh_velocity_window_days := 30 |};
  sf_instrument := {| pi_customer_id := customer_id; pi_billing_details_match := true;
                      pi_card_testing_pattern := false; pi_recent_failed_payments := 0 |};
  sf_behavioral := {| beh_customer_id := customer_id; beh_refund_requests_in_window := 0;
                      beh_anomaly_score := lit 0 1; beh_device_mismatch := false;
                      beh_ip_location_mismatch := false; beh_ip_country_mismatch := false;
                      beh_device_change_count := 0;
                      beh_typical_refund_amount := Some (lit 25 1) |};
  sf_fraud := {| kfi_customer_id := customer_id; kfi_on_blocklist := false |};
|}.

Definition bad_field {A} (key : string) : result A :=
  Err (ValidationError ("invalid value for field " +:+ key)).

(** Field conversions of the frozen models, for the value types the dataset
    uses. *)
Definition field_bool (key : string) (v : pyval) : result bool :=
  match v with VBool b => Ok b | _ => bad_field key end.

Definition field_int (key : string) (v : pyval) : result Z :=
  match v with VInt z => Ok z | _ => bad_field key end.

Definition field_nonneg_int (key : string) (v : pyval) : result Z :=
  match v with VInt z => if 0 <=? z then Ok z else bad_field key | _ => bad_field key end.

Definition field_nonneg_float (key : string) (v : pyval) : result float :=
  match v with
  | VFloat f => if (f >=? lit 0 1)%pf then Ok f else bad_field key
  | _ => bad_field key
  end.

Definition field_unit_float (key : string) (v : pyval) : result float :=
  match v with VFloat f => if in_unit f then Ok f else bad_field key | _ => bad_field key end.

Definition field_status (key : string) (v : pyval) : result StandingStatus :=
  match v with
  | VStr s => if String.eqb s "good" then Ok good else if String.eqb s "watch" then Ok watch
              else if String.eqb s "restricted" then Ok restricted else bad_field key
  | _ => bad_field key
  end.

Definition field_segment (key : string) (v : pyval) : result Segment :=
  match v with
  | VStr s => if String.eqb s "standard" then Ok standard else if String.eqb s "vip" then Ok vip
              else if String.eqb s "enterprise" then Ok enterprise else bad_field key
  | _ => bad_field key
  end.

Definition override_standing (key : string) (v : pyval) (a : AccountStanding) :
    option (result AccountStanding) :=
  let upd st td fl kg sg :=
    {| as_customer_id := as_customer_id a; as_status := st; as_tenure_days := td;
       as_support_abuse_flags := fl; as_known_good_customer := kg; as_segment := sg |} in
  let '(st, td, fl, kg, sg) :=
    (as_status a, as_tenure_days a, as_support_abuse_flags a, as_known_good_customer a,
     as_segment a) in
  if String.eqb key "status" then Some (x ← field_status key v; Ok (upd x td fl kg sg))
  else if String.eqb key "tenure_days" then Some (x ← field_int key v; Ok (upd st x fl kg sg))
  else if String.eqb key "support_abuse_flags"
  then Some (x ← field_nonneg_int key v; Ok (upd st td x kg sg))
  else if String.eqb key "known_good_customer"
  then Some (x ← field_bool key v; Ok (upd st td fl x sg))
  else if String.eqb key "segment" then Some (x ← field_segment key v; Ok (upd st td fl kg x))
  else None.

Definition override_history (key : string) (v : pyval) (h : RefundDisputeHistory) :
    option (result RefundDisputeHistory) :=
  let upd pr tot cb w :=
    {| rh_customer_id := rh_customer_id h; rh_prior_refunds := pr;
       rh_prior_refund_total_amount := tot; rh_chargebacks := cb;
       rh_velocity_window_days := w |} in
  let '(pr, tot, cb, w) :=
    (rh_prior_refunds h, rh_prior_refund_total_amount h, rh_chargebacks h,
     rh_velocity_window_days h) in
  if String.eqb key "prior_refunds" then Some (x ← field_int key v; Ok (upd x tot cb w))
  else if String.eqb key "prior_refund_total_amount"
  then Some (x ← field_nonneg_float key v; Ok (upd pr x cb w))
  else if String.eqb key "chargebacks" then Some (x ← field_int key v; Ok (upd pr tot x w))
  else if String.eqb key "velocity_window_days"
  then Some (x ← field_int key v; Ok (upd pr tot cb x))
  else None.

Definition override_instrument (key : string) (v : pyval) (p : PaymentInstrumentSignal) :
    option (result PaymentInstrumentSignal) :=
  let upd m c f :=
    {| pi_customer_id := pi_customer_id p; pi_billing_details_match := m;
       pi_card_testing_pattern := c; pi_recent_failed_payments := f |} in
  let '(m, c, f) :=
    (pi_billing_details_match p, pi_card_testing_pattern p, pi_recent_failed_payments p) in
  if String.eqb key "billing_details_match" then Some (x ← field_bool key v; Ok (upd x c f))
  else if String.eqb key "card_testing_pattern" then Some (x ← field_bool key v; Ok (upd m x f))
  else if String.eqb key "recent_failed_payments"
  then Some (x ← field_nonneg_int key v; Ok (upd m c x))
  else None.

Definition override_behavioral (key : string) (v : pyval) (b : BehavioralSignal) :
    option (result BehavioralSignal) :=
  let upd w an dm il ic dc ty :=
    {| beh_customer_id := beh_customer_id b; beh_refund_requests_in_window := w;
       beh_anomaly_score := an; beh_device_mismatch := dm; beh_ip_location_mismatch := il;
       beh_ip_country_mismatch := ic; beh_device_change_count := dc;
       beh_typical_refund_amount := ty |} in
  let '(w, an, dm, il, ic, dc, ty) :=
    (beh_refund_requests_in_window b, beh_anomaly_score b, beh_device_mismatch b,
     beh_ip_location_mismatch b, beh_ip_country_mismatch b, beh_device_change_count b,
     beh_typical_refund_amount b) in
  if String.eqb key "refund_requests_in_window"
  then Some (x ← field_int key v; Ok (upd x an dm il ic dc ty))
  else if String.eqb key "anomaly_score"
  then Some (x ← field_unit_float key v; Ok (upd w x dm il ic dc ty))
  else if String.eqb key "device_mismatch"
  then Some (x ← field_bool key v; Ok (upd w an x il ic dc ty))
  else if String.eqb key "ip_location_mismatch"
  then Some (x ← field_bool key v; Ok (upd w an dm x ic dc ty))
  else if String.eqb key "ip_country_mismatch"
  then Some (x ← field_bool key v; Ok (upd w an dm il x dc ty))
  else if String.eqb key "device_change_count"
  then Some (x ← field_nonneg_int key v; Ok (upd w an dm il ic x ty))
  else if String.eqb key "typical_refund_amount"
  then Some (match v with
             | VNone => Ok (upd w an dm il ic dc None)
             | _ => x ← field_nonneg_float key v; Ok (upd w an dm il ic dc (Some x))
             end)
  else None.

Definition override_fraud (key : string) (v : pyval) (k : KnownFraudIndicator) :
    option (result KnownFraudIndicator) :=
  if String.eqb key "on_blocklist"
  then Some (x ← field_bool key v;
             Ok {| kfi_customer_id := kfi_customer_id k; kfi_on_blocklist := x |})
  else None.

(** The value of one override lands in the first bucket that has the key. *)
Definition apply_override (kv : string * pyval) (f : SignalFields) : result SignalFields :=
  let '(key, v) := kv in
  let '{| sf_standing := a; sf_history := h; sf_instrument := p; sf_behavioral := b;
          sf_fraud := k |} := f in
  match override_standing key v a with
  | Some ra => a' ← ra; Ok (Build_SignalFields a' h p b k)
  | None =>
  match override_history key v h with
  | Some rh => h' ← rh; Ok (Build_SignalFields a h' p b k)
  | None =>
  match override_instrument key v p with
  | Some rp => p' ← rp; Ok (Build_SignalFields a h p' b k)
  | None =>
  match override_behavioral key v b with
  | Some rb => b' ← rb; Ok (Build_SignalFields a h p b' k)
  | None =>
  match override_fraud key v k with
  | Some rk => k' ← rk; Ok (Build_SignalFields a h p b k')
  | None => bad_field key
  end end end end end.

(** The keys of the five buckets. *)
Definition override_keys : list string :=
  [ "status"; "tenure_days"; "support_abuse_flags"; "known_good_customer"; "segment";
    "prior_refunds"; "prior_refund_total_amount"; "chargebacks"; "velocity_window_days";
    "billing_details_match"; "card_testing_pattern"; "recent_failed_payments";
    "refund_requests_in_window"; "anomaly_score"; "device_mismatch"; "ip_location_mismatch";
    "ip_country_mismatch"; "device_change_count"; "typical_refund_amount";
    "on_blocklist" ].

Definition apply_overrides (overrides : list (string * pyval)) (f : result SignalFields) :
    result SignalFields :=
  fold_left (λ acc kv, f ← acc; apply_override kv f) overrides f.

(** The override loop raises on an unknown key; the models validate afterwards. *)
Definition _clean_signals (customer_id : string) (overrides : list (string * pyval)) :
    result RiskSignals :=
  match List.find (λ kv, negb (str_in (fst kv) override_keys)) overrides with
  | Some (key, _) =>
      Err (ValueError ("_clean_signals: unknown override key " +:+ py_repr_str key +:+
                       ". Must be a field on one of the five owned-signal models."))
  | None =>
      f ← apply_overrides overrides (Ok (clean_fields customer_id));
      Ok {| rs_customer_id := customer_id;
            rs_account_standing := Some (sf_standing f);
            rs_refund_history := Some (sf_history f);
            rs_payment_instrument := Some (sf_instrument f);
            rs_behavioral := Some (sf_behavioral f);
            rs_known_fraud := Some (sf_fraud f) |}
  end.

(** ** The seeded dataset *)

(** The one record built without [_clean_signals]. *)
Definition missing_history_signals : RiskSignals := {|
  rs_customer_id := "CUS-MISSING-HISTORY";
  rs_account_standing :=
    Some {| as_customer_id := "CUS-MISSING-HISTORY"; as_status := good; as_tenure_days := 180;
            as_support_abuse_flags := 0; as_known_good_customer := false;
            as_segment := standard |};
  rs_refund_history := None;
  rs_payment_instrument :=
    Some {| pi_customer_id := "CUS-MISSING-HISTORY"; pi_billing_details_match := true;
            pi_card_testing_pattern := false; pi_recent_failed_payments := 0 |};
  rs_behavioral :=
    Some {| beh_customer_id := "CUS-MISSING-HISTORY"; beh_refund_requests_in_window := 0;
            beh_anomaly_score := lit 0 1; beh_device_mismatch := false;
            beh_ip_location_mismatch := false; beh_ip_country_mismatch := false;
            beh_device_change_count := 0; beh_typical_refund_amount := Some (lit 30 1) |};
  rs_known_fraud :=
    Some {| kfi_customer_id := "CUS-MISSING-HISTORY"; kfi_on_blocklist := false |};
|}.

Definition seed (customer_id : string) (overrides : list (string * pyval)) :
    string * result RiskSignals :=
  (customer_id, _clean_signals customer_id overrides).

Definition dataset_rows : list (string * result RiskSignals) :=
  [ seed "CUS-CLEAN" [];
    seed "CUS-CHARGEBACKS" [("chargebacks", VInt 2)];
    seed "CUS-ONE-CHARGEBACK" [("chargebacks", VInt 1)];
    seed "CUS-VELOCITY" [("refund_requests_in_window", VInt 5)];
    seed "CUS-INSTRUMENT" [("billing_details_match", VBool false)];
    seed "CUS-CARD-TESTING" [("card_testing_pattern", VBool true)];
    seed "CUS-NEW-ACCOUNT"
      [("tenure_days", VInt 5); ("status", VStr "watch"); ("known_good_customer", VBool false)];
    seed "CUS-ANOMALY" [("anomaly_score", VFloat (lit 85 100))];
    seed "CUS-BLOCKLIST" [("on_blocklist", VBool true)];
    seed "CUS-CONTRADICTION"
      [("refund_requests_in_window", VInt 5); ("billing_details_match", VBool false)];
    seed "CUS-BORDERLINE" [("chargebacks", VInt 1)];
    seed "CUS-NEW-HIGH-REFUND"
      [("tenure_days", VInt 5); ("status", VStr "good"); ("known_good_customer", VBool false);
       ("prior_refunds", VInt 3); ("prior_refund_total_amount", VFloat (lit 850 1));
       ("typical_refund_amount", VFloat (lit 50 1))];
    seed "CUS-IP-DEVICE" [("ip_country_mismatch", VBool true); ("device_change_count", VInt 3)];
    seed "CUS-VIP-ENTERPRISE" [("segment", VStr "enterprise")];
    seed "CUS-DEVICE" [("device_mismatch", VBool true)];
    seed "CUS-GEO" [("ip_location_mismatch", VBool true)];
    seed "CUS-UNUSUAL-AMOUNT" [("typical_refund_amount", VFloat (lit 20 1))];
    ("CUS-MISSING-HISTORY", Ok missing_history_signals) ].

(** A dict display whose values may raise. *)
Fixpoint dict_display {A} (rows : list (string * result A)) : result (gmap string A) :=
  match rows with
  | [] => Ok ∅
  | (k, rv) :: rest =>
      v ← rv; m ← dict_display rest;
      Ok (match m !! k with Some _ => m | None => <[k := v]> m end)
  end.

Definition _DATASET : result (gmap string RiskSignals) := dict_display dataset_rows.

(** [default_store()]; importing the module raises if the dataset does. *)
Definition default_store : InMemoryRiskSignalStore :=
  {| ims_records := match _DATASET with Ok m => m | Err _ => ∅ end |}.

Definition load_signals (customer_id : string) : option RiskSignals :=
  store_load_signals default_store customer_id.

(** The module loads: no override of the dataset raises. *)
Lemma dataset_loads :
  match _DATASET with Ok m => size m = 18%nat | Err _ => False end.
Proof. vm_compute. reflexivity. Qed.

Example unknown_override_raises :
  _clean_signals "CUS-X" [("colour", VInt 1)] =
  Err (ValueError ("_clean_signals: unknown override key 'colour'. " +:+
                   "Must be a field on one of the five owned-signal models.")).
Proof. vm_compute. reflexivity. Qed.
