(* ===== verification/RiskScoring.v ===== *)
(** * Risk-Fraud agent: the scoring engine

    [apps/agents/risk_fraud/scoring.py]: [assess_signals] and its helpers.
    [assess_signals] is written as the source is, gate after gate; the rules
    FP-002 to FP-009 of its main path are one definition each. *)

From Stdlib Require Import ZArith Bool Ascii String List Lia.
From stdpp Require Import base list strings.
From S2P Require Import Prelude.
From S2P Require Import PyFloat.
From S2P Require Import Contracts.
From S2P Require Import RiskModels.


Open Scope string_scope.
Open Scope list_scope.
Open Scope Z_scope.

(** ** Helpers *)

Definition _score_to_level (score : float) : RiskLevel :=
  if (score >=? HIGH_THRESHOLD)%pf then HIGH
  else if (score >=? ELEVATED_THRESHOLD)%pf then ELEVATED
  else LOW.

Definition opt_b {A} (f : A → bool) (o : option A) : bool :=
  match o with Some a => f a | None => false end.

(** The FP-009 condition, shared by [assess_signals] and [_compute_score]. *)
Definition unusual_amount (signals : RiskSignals) (request : RiskAssessmentRequest) : bool :=
  match rs_behavioral signals with
  | Some beh =>
      match beh_typical_refund_amount beh, rar_requested_refund_amount request with
      | Some typical, Some requested =>
          (typical >? lit 0 1)%pf &&
          (float_of_decimal requested >=? typical * UNUSUAL_AMOUNT_RATIO)%pf
      | _, _ => false
      end
  | None => false
  end.

(** [_compute_score]: the additive score without evidence, one step per [if]
    block of the function. *)
Definition add_chargebacks (signals : RiskSignals) (score : float) : float :=
  match rs_refund_history signals with
  | Some rh =>
      if CHARGEBACK_HIGH <=? rh_chargebacks rh then (score + lit 8 10)%pf
      else if CHARGEBACK_ELEVATED <=? rh_chargebacks rh then (score + lit 5 10)%pf
      else score
  | None => score
  end.

Definition add_velocity (signals : RiskSignals) (score : float) : float :=
  match rs_behavioral signals with
  | Some beh =>
      if VELOCITY_HIGH <=? beh_refund_requests_in_window beh then (score + lit 8 10)%pf
      else if VELOCITY_ELEVATED <=? beh_refund_requests_in_window beh
      then (score + lit 5 10)%pf
      else score
  | None => score
  end.

Definition add_instrument (signals : RiskSignals) (score : float) : float :=
  match rs_payment_instrument signals with
  | Some pi =>
      if pi_card_testing_pattern pi then (score + lit 6 10)%pf
      else if negb (pi_billing_details_match pi) then (score + lit 5 10)%pf
      else score
  | None => score
  end.

Definition add_standing (signals : RiskSignals) (score : float) : float :=
  match rs_account_standing signals with
  | Some as_ =>
      let score :=
        match as_status as_ with
        | restricted => (score + lit 6 10)%pf
        | watch => (score + lit 3 10)%pf
        | good => score
        end in
      if (as_tenure_days as_ <? NEW_ACCOUNT_DAYS) &&
         negb (bool_decide (as_status as_ = restricted))
      then (score + lit 3 10)%pf else score
  | None => score
  end.

Definition add_if (b : bool) (contribution score : float) : float :=
  if b then (score + contribution)%pf else score.

Definition _compute_score (signals : RiskSignals) (request : RiskAssessmentRequest) : float :=
  let score := lit 0 1 in
  let score := add_chargebacks signals score in
  let score := add_velocity signals score in
  let score := add_instrument signals score in
  let score := add_standing signals score in
  let score :=
    add_if (opt_b (λ beh, (beh_anomaly_score beh >=? ANOMALY_ELEVATED)%pf)
              (rs_behavioral signals)) (lit 5 10) score in
  let score := add_if (opt_b beh_device_mismatch (rs_behavioral signals)) (lit 4 10) score in
  let score :=
    add_if (opt_b (λ beh, beh_ip_location_mismatch beh || beh_ip_country_mismatch beh)
              (rs_behavioral signals)) (lit 4 10) score in
  let score := add_if (unusual_amount signals request) (lit 3 10) score in
  fmin score (lit 1 1).

Definition _is_contradiction (signals : RiskSignals) : bool :=
  let clean_low :=
    match rs_account_standing signals with
    | Some as_ =>
        bool_decide (as_status as_ = good) &&
        (NEW_ACCOUNT_DAYS <=? as_tenure_days as_) &&
        match rs_refund_history signals with
        | None => true
        | Some rh => rh_chargebacks rh =? 0
        end
    | None => false
    end in
  let strong_high :=
    match rs_behavioral signals, rs_payment_instrument signals with
    | Some beh, Some pi =>
        (VELOCITY_HIGH <=? beh_refund_requests_in_window beh) &&
        negb (pi_billing_details_match pi)
    | _, _ => false
    end in
  clean_low && strong_high.

(** [_derive_recommended_action]; its [requires_human_review] argument is not
    read by the code. *)
Definition _derive_recommended_action (level : RiskLevel) (has_chargeback : bool) :
    RecommendedAction :=
  match level with
  | HIGH => DENY_OR_ESCALATE
  | ELEVATED => if has_chargeback then MANUAL_REVIEW else ALLOW_WITH_CAUTION
  | LOW => APPROVE_RISK_CLEARANCE
  end.

Definition _rule_description (rule_id : string) (signals : RiskSignals) : string :=
  if String.eqb rule_id "FP-002" then
    "Chargeback history: " +:+
    str_of_Z (match rs_refund_history signals with Some rh => rh_chargebacks rh | None => 0 end)
    +:+ " prior chargebacks"
  else if String.eqb rule_id "FP-003" then
    "Refund velocity: " +:+
    str_of_Z (match rs_behavioral signals with
              | Some beh => beh_refund_requests_in_window beh | None => 0 end)
    +:+ " requests in window"
  else if String.eqb rule_id "FP-004" then
    if opt_b pi_card_testing_pattern (rs_payment_instrument signals)
    then "Card testing pattern detected" else "Billing details mismatch"
  else if String.eqb rule_id "FP-005" then
    let parts :=
      match rs_account_standing signals with
      | Some as_ =>
          (if bool_decide (as_status as_ = good) then []
           else ["status=" +:+ StandingStatus_str (as_status as_)]) ++
          (if as_tenure_days as_ <? NEW_ACCOUNT_DAYS
           then ["tenure_days=" +:+ str_of_Z (as_tenure_days as_)] else [])
      | None => []
      end in
    match parts with
    | [] => "Account standing"
    | _ => "Account standing: " +:+ py_join ", " parts
    end
  else if String.eqb rule_id "FP-006" then
    "Behavioral anomaly: score=" +:+
    fmt_fixed 2 (match rs_behavioral signals with
                 | Some beh => beh_anomaly_score beh | None => lit 0 1 end)
  else if String.eqb rule_id "FP-007" then "Device mismatch detected"
  else if String.eqb rule_id "FP-008" then "IP/location mismatch detected"
  else if String.eqb rule_id "FP-009" then "Unusual refund amount relative to typical history"
  else rule_id.

(** ** The rules FP-002 to FP-009 of the main path *)

(** A fired rule: identifier, signal domain and contribution. *)
Abbreviation FiredRule := (string * string * float)%type.

Definition fp_002 (signals : RiskSignals) : list FiredRule :=
  match rs_refund_history signals with
  | Some rh =>
      if CHARGEBACK_HIGH <=? rh_chargebacks rh then [("FP-002", "refund_history", lit 8 10)]
      else if CHARGEBACK_ELEVATED <=? rh_chargebacks rh
      then [("FP-002", "refund_history", lit 5 10)]
      else []
  | None => []
  end.

Definition fp_003 (signals : RiskSignals) : list FiredRule :=
  match rs_behavioral signals with
  | Some beh =>
      if VELOCITY_HIGH <=? beh_refund_requests_in_window beh
      then [("FP-003", "behavioral", lit 8 10)]
      else if VELOCITY_ELEVATED <=? beh_refund_requests_in_window beh
      then [("FP-003", "behavioral", lit 5 10)]
      else []
  | None => []
  end.

Definition fp_004 (signals : RiskSignals) : list FiredRule :=
  match rs_payment_instrument signals with
  | Some pi =>
      if pi_card_testing_pattern pi then [("FP-004", "payment_instrument", lit 6 10)]
      else if negb (pi_billing_details_match pi)
      then [("FP-004", "payment_instrument", lit 5 10)]
      else []
  | None => []
  end.

Definition fp_005 (signals : RiskSignals) : list FiredRule :=
  match rs_account_standing signals with
  | Some as_ =>
      let fp5_contribution :=
        match as_status as_ with
        | restricted => lit 6 10
        | watch => lit 3 10
        | good => lit 0 1
        end in
      let fp5_contribution :=
        if (as_tenure_days as_ <? NEW_ACCOUNT_DAYS) &&
           negb (bool_decide (as_status as_ = restricted))
        then (fp5_contribution + lit 3 10)%pf else fp5_contribution in
      if (fp5_contribution >? lit 0 1)%pf
      then [("FP-005", "account_standing", fp5_contribution)] else []
  | None => []
  end.

Definition fp_006 (signals : RiskSignals) : list FiredRule :=
  if opt_b (λ beh, (beh_anomaly_score beh >=? ANOMALY_ELEVATED)%pf) (rs_behavioral signals)
  then [("FP-006", "behavioral", lit 5 10)] else [].

Definition fp_007_008 (signals : RiskSignals) : list FiredRule :=
  match rs_behavioral signals with
  | Some beh =>
      (if beh_device_mismatch beh then [("FP-007", "behavioral", lit 4 10)] else []) ++
      (if beh_ip_location_mismatch beh || beh_ip_country_mismatch beh
       then [("FP-008", "behavioral", lit 4 10)] else [])
  | None => []
  end.

Definition fp_009 (signals : RiskSignals) (request : RiskAssessmentRequest) : list FiredRule :=
  if unusual_amount signals request then [("FP-009", "behavioral", lit 3 10)] else [].

Definition fired_rules (signals : RiskSignals) (request : RiskAssessmentRequest) :
    list FiredRule :=
  fp_002 signals ++ fp_003 signals ++ fp_004 signals ++ fp_005 signals ++ fp_006 signals ++
  fp_007_008 signals ++ fp_009 signals request.

(** The contributions added in order, then capped at 1.0. *)
Definition sum_contributions (rules : list FiredRule) : float :=
  fold_left (λ score r, (score + snd r)%pf) rules (lit 0 1).

Definition fired_score (rules : list FiredRule) : float :=
  fmin (sum_contributions rules) (lit 1 1).

(** The two evidence items of a fired rule. *)
Definition rule_evidence (policy : FraudPolicy) (signals : RiskSignals) (r : FiredRule) :
    list EvidenceItem :=
  let '(rule, domain, contribution) := r in
  [ {| ev_source := domain;
       ev_description := rule +:+ ": " +:+ _rule_description rule signals;
       ev_value := VDict [("rule", VStr rule); ("contribution", VFloat contribution)] |};
    {| ev_source := "fraud_policy";
       ev_description := rule +:+ ": policy rule fired";
       ev_value := VDict [("rule", VStr rule); ("contribution", VFloat contribution);
                          ("policy", VStr (fp_policy_name policy))] |} ].

Definition is_borderline (score : float) : bool :=
  (fabs (score - ELEVATED_THRESHOLD) <? lit 1 1000000000)%pf ||
  (fabs (score - HIGH_THRESHOLD) <? lit 1 1000000000)%pf.

(** ** Gates *)

(** Gate 2: the known-fraud blocklist (FP-001). *)
Definition blocklist_assessment (policy : FraudPolicy) (signals : RiskSignals) : RiskAssessment :=
  {| ra_risk_level := HIGH;
     ra_recommended_action := DENY_OR_ESCALATE;
     ra_confidence := lit 95 100;
     ra_evidence :=
       [ {| ev_source := "known_fraud";
            ev_description := "Customer is on the known-fraud blocklist";
            ev_value := VDict [("on_blocklist", VBool true);
                               ("customer_id", VStr (rs_customer_id signals))] |};
         {| ev_source := "fraud_policy";
            ev_description := "FP-001: known-fraud-indicator — hard floor → high";
            ev_value := VDict [("rule", VStr "FP-001");
                               ("policy", VStr (fp_policy_name policy))] |} ];
     ra_policy_references := ["FP-001"];
     ra_reasoning_summary :=
       "Customer is on the known-fraud blocklist (FP-001 hard floor — high risk).";
     ra_requires_human_review := false |}.

(** Gate 3: VIP and enterprise accounts. *)
Definition vip_assessment (signals : RiskSignals) (request : RiskAssessmentRequest)
    (segment : Segment) : RiskAssessment :=
  {| ra_risk_level := _score_to_level (_compute_score signals request);
     ra_recommended_action := MANUAL_REVIEW;
     ra_confidence := lit 7 10;
     ra_evidence :=
       [ {| ev_source := "account_standing";
            ev_description := "High-value account segment: " +:+ Segment_str segment;
            ev_value := VDict [("segment", VStr (Segment_str segment));
                               ("customer_id", VStr (rs_customer_id signals))] |};
         {| ev_source := "fraud_policy";
            ev_description :=
              "FP-005: VIP/enterprise account standing — manual review required";
            ev_value := VDict [("rule", VStr "FP-005");
                               ("segment", VStr (Segment_str segment))] |} ];
     ra_policy_references := ["FP-005"];
     ra_reasoning_summary :=
       "Account segment is " +:+ py_repr_str (Segment_str segment) +:+
       "; all assessments for VIP/enterprise accounts require manual review " +:+
       "(FP-005 standing tier).";
     ra_requires_human_review := true |}.

(** Gate 4: contradictory signals. *)
Definition contradiction_assessment (signals : RiskSignals) : RiskAssessment :=
  let velocity :=
    match rs_behavioral signals with
    | Some beh => beh_refund_requests_in_window beh | None => 0 end in
  {| ra_risk_level := ELEVATED;
     ra_recommended_action := MANUAL_REVIEW;
     ra_confidence := lit 3 10;
     ra_evidence :=
       [ {| ev_source := "account_standing";
            ev_description := "Account has long tenure and good standing (low-risk baseline)";
            ev_value :=
              VDict [("tenure_days",
                      vopt (λ a, VInt (as_tenure_days a)) (rs_account_standing signals));
                     ("status",
                      vopt (λ a, VStr (StandingStatus_str (as_status a)))
                        (rs_account_standing signals))] |};
         {| ev_source := "refund_history";
            ev_description := "Zero prior chargebacks (low-risk signal)";
            ev_value :=
              VDict [("chargebacks",
                      VInt (match rs_refund_history signals with
                            | Some rh => rh_chargebacks rh | None => 0 end))] |};
         {| ev_source := "behavioral";
            ev_description :=
              "Refund velocity " +:+ str_of_Z velocity +:+ " >= VELOCITY_HIGH=" +:+
              str_of_Z VELOCITY_HIGH +:+ " in window (high-risk signal)";
            ev_value := VDict [("refund_requests_in_window", VInt velocity)] |};
         {| ev_source := "payment_instrument";
            ev_description := "Billing details mismatch (high-risk signal)";
            ev_value :=
              VDict [("billing_details_match",
                      VBool (match rs_payment_instrument signals with
                             | Some pi => pi_billing_details_match pi | None => true end))] |};
         {| ev_source := "fraud_policy";
            ev_description := "Contradiction gate: clean baseline + strong fraud signals";
            ev_value :=
              VDict [("rule", VStr "contradiction-gate");
                     ("clean_signals", VStr "long-tenure+good+0-chargebacks");
                     ("fraud_signals", VStr "velocity>=VELOCITY_HIGH+mismatch")] |} ];
     ra_policy_references := ["contradiction-gate"];
     ra_reasoning_summary :=
       "Contradictory signals detected: long tenure + good standing + zero chargebacks " +:+
       "(clean baseline) coexist with high refund velocity on a mismatched instrument " +:+
       "(strong fraud indicators). Human review required.";
     ra_requires_human_review := true |}.

(** ** The engine *)

(** No rule fired, and the refund history is there. *)
Definition silent_assessment (policy : FraudPolicy) (signals : RiskSignals)
    (evidence : list EvidenceItem) (policy_references : list string) : RiskAssessment :=
  {| ra_risk_level := LOW;
     ra_recommended_action := APPROVE_RISK_CLEARANCE;
     ra_confidence := lit 9 10;
     ra_evidence :=
       evidence ++
       [ {| ev_source := "fraud_policy";
            ev_description :=
              "All fraud rules (FP-001..FP-006) silent: no risk signal fired. " +:+
              "Customer is assessed as low risk.";
            ev_value := VDict [("rule", VStr "no-rule-fired");
                               ("score", VFloat (lit 0 1));
                               ("policy", VStr (fp_policy_name policy))] |} ];
     ra_policy_references := dict_fromkeys policy_references;
     ra_reasoning_summary :=
       "All fraud policy rules evaluated; no risk signal fired. Low risk." +:+
       (if opt_b as_known_good_customer (rs_account_standing signals)
        then " Known-good customer with clean long-tenure baseline (FP-005: 0.0 offset)."
        else "");
     ra_requires_human_review := false |}.

(** No rule fired, but the refund history is missing. *)
Definition unrecorded_assessment (evidence : list EvidenceItem) (policy_references : list string) :
    RiskAssessment :=
  {| ra_risk_level := LOW;
     ra_recommended_action := APPROVE_RISK_CLEARANCE;
     ra_confidence := lit 6 10;
     ra_evidence :=
       evidence ++
       [ {| ev_source := "fraud_policy";
            ev_description := "No fraud rules fired; missing history reduces confidence.";
            ev_value := VDict [("rule", VStr "no-rule-fired");
                               ("note", VStr "missing-history")] |} ];
     ra_policy_references := dict_fromkeys policy_references;
     ra_reasoning_summary := "No fraud rules fired; missing refund history lowers confidence to 0.6.";
     ra_requires_human_review := false |}.

(** Some rule fired. *)
Definition fired_assessment (score : float) (level : RiskLevel) (recommended_action : RecommendedAction)
    (confidence : float) (borderline missing_history has_chargeback : bool)
    (evidence : list EvidenceItem) (policy_references : list string) : RiskAssessment :=
  let rule_ids := dict_fromkeys policy_references in
  let reasoning_parts :=
    [ "Score: " +:+ fmt_fixed 2 score +:+ ". Rules fired: " +:+ py_join ", " rule_ids +:+ "." ]
    ++ (if borderline
        then [ "Score " +:+ fmt_fixed 1 score +:+
               " exactly on threshold → upper band (borderline rule, conf 0.6)." ]
        else [])
    ++ (if missing_history then [ "Refund history absent; confidence lowered." ] else [])
    ++ (if has_chargeback && negb (bool_decide (level = LOW))
        then [ "Prior chargeback(s) present → manual review recommended." ] else []) in
  let requires_human_review := has_chargeback && bool_decide (level = ELEVATED) in
  {| ra_risk_level := level;
     ra_recommended_action :=
       if requires_human_review then MANUAL_REVIEW else recommended_action;
     ra_confidence := confidence;
     ra_evidence := evidence;
     ra_policy_references := dict_fromkeys policy_references;
     ra_reasoning_summary := py_join " " (List.filter str_truthy reasoning_parts);
     ra_requires_human_review := requires_human_review |}.

(** The assessment of the main path (steps 5 to 9), once no gate fired. *)
Definition scored_assessment (policy : FraudPolicy) (signals : RiskSignals)
    (request : RiskAssessmentRequest) : RiskAssessment :=
  let missing_history :=
    negb (bool_of_option (rs_refund_history signals)) &&
    (bool_of_option (rs_account_standing signals) ||
     bool_of_option (rs_payment_instrument signals) ||
     bool_of_option (rs_behavioral signals)) in
  let fired := fired_rules signals request in
  let score := fired_score fired in
  let evidence := concat (map (rule_evidence policy signals) fired) in
  let policy_references := map (λ r, fst (fst r)) fired in
  let borderline := is_borderline score in
  let level := _score_to_level score in
  let confidence := if borderline then lit 6 10 else lit 9 10 in
  let confidence := if missing_history then fmin confidence (lit 6 10) else confidence in
  let evidence :=
    if missing_history then
      evidence ++
      [ {| ev_source := "refund_history";
           ev_description := "Missing refund history: confidence lowered";
           ev_value := VDict [("refund_history", VNone);
                              ("note", VStr "partial signal set")] |} ]
    else evidence in
  let has_chargeback :=
    opt_b (λ rh, CHARGEBACK_ELEVATED <=? rh_chargebacks rh) (rs_refund_history signals) in
  let recommended_action := _derive_recommended_action level has_chargeback in
  match fired with
  | [] =>
      if negb missing_history then silent_assessment policy signals evidence policy_references
      else unrecorded_assessment evidence policy_references
  | _ =>
      fired_assessment score level recommended_action confidence borderline missing_history
        has_chargeback evidence policy_references
  end.

(** [assess_signals] *)
Definition assess_signals (signals : RiskSignals) (request : RiskAssessmentRequest)
    (policy : FraudPolicy) : result RiskAssessment :=
  if opt_b kfi_on_blocklist (rs_known_fraud signals)
  then mk_assessment (blocklist_assessment policy signals)
  else
    match rs_account_standing signals with
    | Some {| as_segment := (vip | enterprise) as segment |} =>
        mk_assessment (vip_assessment signals request segment)
    | _ =>
        if _is_contradiction signals then mk_assessment (contradiction_assessment signals)
        else mk_assessment (scored_assessment policy signals request)
    end.
