(* ===== verification/RiskService.v ===== *)
(** * Risk-Fraud agent: the service pipeline and its HTTP shells

    [apps/agents/risk_fraud/service.py], [llm_summary.py], [http_app.py] and
    [agentcore_app.py].  Pydantic's [model_validate] on a raw dict, the JSON
    parser and the UUID printer are third-party code: parameters of the
    section. *)

From Stdlib Require Import ZArith Bool Ascii String List.
From stdpp Require Import base list strings gmap.
From S2P Require Import Prelude.
From S2P Require Import PyFloat.
From S2P Require Import Contracts.
From S2P Require Import A2A.
From S2P Require Import RiskModels.
From S2P Require Import RiskStore.
From S2P Require Import RiskScoring.

Open Scope string_scope.
Open Scope list_scope.
Open Scope Z_scope.

Definition AGENT_ID : string := "risk-fraud-agent".

(** ** Optional narrative *)

Record RiskNarrative := {
  rn_polished_summary : string;
  rn_evidence_explanation : string;
}.

(** [_make_fallback(assessment)()] *)
Definition _make_fallback (assessment : RiskAssessment) : RiskNarrative := {|
  rn_polished_summary := ra_reasoning_summary assessment;
  rn_evidence_explanation :=
    str_or (py_join "; " (map ev_description (firstn 5 (ra_evidence assessment))))
      "No evidence details available.";
|}.

(** ** Outputs *)

Definition _missing_data_assessment (customer_id : string) : RiskAssessment := {|
  ra_risk_level := LOW;
  ra_recommended_action := REQUEST_MORE_INFORMATION_;
  ra_confidence := lit 2 10;
  ra_evidence :=
    [ {| ev_source := "fraud_policy";
         ev_description := "Data-completeness gate: no risk signal record found";
         ev_value :=
           VDict [("reason",
                   VStr ("no risk signals for customer_id=" +:+ py_repr_str customer_id));
                  ("rule", VStr "data-completeness-gate")] |} ];
  ra_policy_references := [];
  ra_reasoning_summary :=
    "No risk signal record found for customer_id=" +:+ py_repr_str customer_id +:+ ". " +:+
    "Unable to assess risk without owned signal data (FR-010). " +:+
    "Manual review required.";
  ra_requires_human_review := true;
|}.

(** [to_result_payload(assessment, request, narrative=...)] *)
Definition to_result_payload (assessment : RiskAssessment) (request : RiskAssessmentRequest)
    (narrative : option RiskNarrative) : result RiskReviewCompletedPayload :=
  mk_risk_result {|
    rrc_ticket_id := rar_ticket_id request;
    rrc_recommendation := RiskLevel_str (ra_risk_level assessment);
    rrc_confidence := ra_confidence assessment;
    rrc_evidence := ra_evidence assessment;
    rrc_reasoning_summary := ra_reasoning_summary assessment;
    rrc_requires_human_review := ra_requires_human_review assessment;
    rrc_enriched_reasoning_summary := rn_polished_summary <$> narrative;
    rrc_evidence_explanation := rn_evidence_explanation <$> narrative;
  |}.

(** The data part of [build_a2a_output]. *)
Definition a2a_data (assessment : RiskAssessment) (narrative : option RiskNarrative) :
    list (string * pyval) :=
  [ ("recommendation", VStr (RiskLevel_str (ra_risk_level assessment)));
    ("score", VFloat (ra_confidence assessment));
    ("confidence", VFloat (ra_confidence assessment));
    ("evidence", VList (map dump_evidence (ra_evidence assessment)));
    ("reasoning_summary", VStr (ra_reasoning_summary assessment));
    ("requires_human_review", VBool (ra_requires_human_review assessment));
    ("policy_references", VList (map VStr (ra_policy_references assessment))) ] ++
  match narrative with
  | Some n => [ ("enriched_reasoning_summary", VStr (rn_polished_summary n));
                ("evidence_explanation", VStr (rn_evidence_explanation n)) ]
  | None => []
  end.

Definition build_a2a_output (assessment : RiskAssessment) (narrative : option RiskNarrative) :
    result A2AMessage :=
  data_message role_agent (a2a_data assessment narrative).

Section Service.
(** [RiskAssessmentRequest.model_validate] *)
Variable model_validate : list (string * pyval) → result RiskAssessmentRequest.

Definition validate_input (parts : list A2APart) : result RiskAssessmentRequest :=
  match first_data parts with
  | Some data => model_validate data
  | None => Err (ValueError "No valid data part found in input parts (FR-011)")
  end.

(** [assess(parts)], over any signal store. *)
Definition assess {St : Type} `{!RiskSignalStore St} (store : St) (parts : list A2APart) :
    result (RiskAssessment * RiskAssessmentRequest) :=
  request ← validate_input parts;
  match store_load_signals store (rar_customer_id request) with
  | None => Ok (_missing_data_assessment (rar_customer_id request), request)
  | Some signals =>
      assessment ← assess_signals signals request FRAUD_POLICY;
      Ok (assessment, request)
  end.

(** [agent_foundation.a2a.A2APart.model_validate] on the raw parts. *)
Variable parts_validate : pyval → result (list A2APart).
Variable uuid_str : UUID → string.

(** [POST /a2a/tasks]: [body] is [None] when the request is not JSON, and
    [fresh] is the [uuid4()] drawn for a missing task id. *)
Definition handle_task {St : Type} `{!RiskSignalStore St} (store : St) (body : option pyval) (fresh : UUID) :
    result JSONResponse :=
  match body with
  | None =>
      Ok {| resp_status_code := 400;
            resp_content :=
              failed_content AGENT_ID (VStr (uuid_str fresh)) "validation"
                "Request body is not valid JSON" |}
  | Some body =>
      task_id ← body_get body "task_id" (VStr (uuid_str fresh));
      let attempt :=
        input ← body_get body "input" (VDict []);
        raw ← body_get input "parts" (VList []);
        parts ← parts_validate raw;
        '(assessment, _) ← assess store parts;
        build_a2a_output assessment None in
      match attempt with
      | Ok output =>
          Ok {| resp_status_code := 200;
                resp_content :=
                  completed_content AGENT_ID task_id (dump_message uuid_str output) |}
      | Err exc =>
          Ok {| resp_status_code := 200;
                resp_content :=
                  failed_content AGENT_ID task_id "handler_error" (exn_str exc) |}
      end
  end.

(** [agentcore_app._invoke]: the payload is a dict or a JSON string. *)
Variable json_loads : string → result pyval.
Variable validate_value : pyval → result RiskAssessmentRequest.

Definition _invoke {St : Type} `{!RiskSignalStore St} (store : St) (payload : pyval) :
    result (list (string * pyval)) :=
  let parsed := match payload with VStr s => json_loads s | _ => Ok payload end in
  match parsed with
  | Err exc =>
      Ok [("status", VStr "failed");
          ("error", VStr ("Invalid JSON payload: " +:+ exn_str exc))]
  | Ok payload =>
      match validate_value payload with
      | Err exc =>
          Ok [("status", VStr "failed"); ("error", VStr (exn_str exc));
           ("reason", VStr "Input validation failed (FR-011). No verdict fabricated.")]
      | Ok request =>
          match store_load_signals store (rar_customer_id request) with
          | None =>
              Ok
              [("status", VStr "completed"); ("recommendation", VStr "unknown");
               ("confidence", VFloat (lit 2 10));
               ("evidence",
                VList [VDict [("source", VStr "fraud_policy");
                              ("description",
                               VStr "Data-completeness gate: no risk record found");
                              ("value",
                               VDict [("customer_id", VStr (rar_customer_id request))])]]);
               ("reasoning_summary",
                VStr ("No risk signals found for customer_id=" +:+
                      py_repr_str (rar_customer_id request) +:+ "."));
               ("requires_human_review", VBool true); ("policy_references", VList [])]
          | Some signals =>
              a ← assess_signals signals request FRAUD_POLICY;
              Ok [("status", VStr "completed");
                  ("recommendation", VStr (RiskLevel_str (ra_risk_level a)));
                  ("confidence", VFloat (ra_confidence a));
                  ("evidence", VList (map dump_evidence (ra_evidence a)));
                  ("reasoning_summary", VStr (ra_reasoning_summary a));
                  ("requires_human_review", VBool (ra_requires_human_review a));
                  ("policy_references", VList (map VStr (ra_policy_references a)))]
          end
      end
  end.
End Service.
