(* ===== verification/RiskScoringFacts.v ===== *)
(** * Risk-Fraud agent: properties of the scoring engine

    The engine's rules stated over exact tenths ([engine_verdict]), the proof that
    the float computations of [assess_signals] and [_compute_score] implement
    them, how their weights differ from the ones the fraud policy publishes
    ([published_tenths], [drift]), and what follows for the assessments. *)

From Stdlib Require Import ZArith Bool Ascii String List Lia.
From stdpp Require Import base list strings.
From S2P Require Import Prelude.
From S2P Require Import PyFloat.
From S2P Require Import Contracts.
From S2P Require Import RiskModels.
From S2P Require Import RiskScoring.

Open Scope string_scope.
Open Scope list_scope.
Open Scope Z_scope.

(** ** Reference definitions

    The score in exact tenths, which the float sums approximate. *)

Definition tenths_002 (s : RiskSignals) : Z :=
  match rs_refund_history s with
  | Some rh => if CHARGEBACK_HIGH <=? rh_chargebacks rh then 8
               else if CHARGEBACK_ELEVATED <=? rh_chargebacks rh then 5 else 0
  | None => 0
  end.

Definition tenths_003 (s : RiskSignals) : Z :=
  match rs_behavioral s with
  | Some beh => if VELOCITY_HIGH <=? beh_refund_requests_in_window beh then 8
                else if VELOCITY_ELEVATED <=? beh_refund_requests_in_window beh then 5 else 0
  | None => 0
  end.

Definition tenths_004 (s : RiskSignals) : Z :=
  match rs_payment_instrument s with
  | Some pi => if pi_card_testing_pattern pi then 6
               else if pi_billing_details_match pi then 0 else 5
  | None => 0
  end.

Definition tenths_005 (s : RiskSignals) : Z :=
  match rs_account_standing s with
  | Some a =>
      match as_status a with
      | restricted => 6
      | watch => if as_tenure_days a <? NEW_ACCOUNT_DAYS then 6 else 3
      | good => if as_tenure_days a <? NEW_ACCOUNT_DAYS then 3 else 0
      end
  | None => 0
  end.

Definition tenths_if (b : bool) (n : Z) : Z := if b then n else 0.

Definition exact_tenths (s : RiskSignals) (r : RiskAssessmentRequest) : Z :=
  tenths_002 s + tenths_003 s + tenths_004 s + tenths_005 s +
  tenths_if (opt_b (λ b, (beh_anomaly_score b >=? ANOMALY_ELEVATED)%pf) (rs_behavioral s)) 5 +
  tenths_if (opt_b beh_device_mismatch (rs_behavioral s)) 4 +
  tenths_if (opt_b (λ b, beh_ip_location_mismatch b || beh_ip_country_mismatch b)
               (rs_behavioral s)) 4 +
  tenths_if (unusual_amount s r) 3.

Definition tenths_level (t : Z) : RiskLevel :=
  if 8 <=? t then HIGH else if 5 <=? t then ELEVATED else LOW.

(** Which gate decides an assessment. *)
Inductive Gate := Blocklisted | HighValue | Contradictory | Scored.

#[export] Instance Gate_eq_dec : EqDecision Gate.
Proof. solve_decision. Defined.

Definition gate_of (s : RiskSignals) : Gate :=
  if opt_b kfi_on_blocklist (rs_known_fraud s) then Blocklisted
  else if opt_b (λ a, negb (bool_decide (as_segment a = standard))) (rs_account_standing s)
  then HighValue
  else if _is_contradiction s then Contradictory
  else Scored.

Definition has_chargeback (s : RiskSignals) : bool :=
  opt_b (λ rh, 1 <=? rh_chargebacks rh) (rs_refund_history s).

Definition history_missing (s : RiskSignals) : bool :=
  negb (bool_of_option (rs_refund_history s)) &&
  (bool_of_option (rs_account_standing s) || bool_of_option (rs_payment_instrument s) ||
   bool_of_option (rs_behavioral s)).

(** The binding fields of an assessment at a score of [t] tenths: level, action,
    confidence in hundredths and the human-review flag. *)
Definition verdict_at (t : Z) (s : RiskSignals) : RiskLevel * RecommendedAction * Z * bool :=
  match gate_of s with
  | Blocklisted => (HIGH, DENY_OR_ESCALATE, 95, false)
  | HighValue => (tenths_level t, MANUAL_REVIEW, 70, true)
  | Contradictory => (ELEVATED, MANUAL_REVIEW, 30, true)
  | Scored =>
      let review := has_chargeback s && bool_decide (tenths_level t = ELEVATED) in
      let on_threshold := (t =? 5) || (t =? 8) in
      (tenths_level t,
       match tenths_level t with
       | HIGH => DENY_OR_ESCALATE
       | ELEVATED => if has_chargeback s then MANUAL_REVIEW else ALLOW_WITH_CAUTION
       | LOW => APPROVE_RISK_CLEARANCE
       end,
       (if on_threshold || history_missing s then 60 else 90),
       review)
  end.

(** The verdict of the engine's rules, at the weights scoring.py gives them. *)
Definition engine_verdict (s : RiskSignals) (r : RiskAssessmentRequest) :
    RiskLevel * RecommendedAction * Z * bool := verdict_at (exact_tenths s r) s.

(** *** The published weights

    The descriptions of FP-002 to FP-009 in policy.py, in tenths.  Four rules weigh
    other than the engine's do. *)

Definition published_003 (s : RiskSignals) : Z :=
  match rs_behavioral s with
  | Some beh => if VELOCITY_HIGH <=? beh_refund_requests_in_window beh then 7
                else if VELOCITY_ELEVATED <=? beh_refund_requests_in_window beh then 4 else 0
  | None => 0
  end.

Definition published_004 (s : RiskSignals) : Z :=
  tenths_if (opt_b pi_card_testing_pattern (rs_payment_instrument s)) 6 +
  tenths_if (opt_b (λ pi, negb (pi_billing_details_match pi)) (rs_payment_instrument s)) 4.

Definition published_005 (s : RiskSignals) : Z :=
  match rs_account_standing s with
  | Some a =>
      match as_status a with
      | restricted => 6
      | watch => 3
      | good => if as_tenure_days a <? NEW_ACCOUNT_DAYS then 3 else 0
      end
  | None => 0
  end.

Definition anomalous (s : RiskSignals) : bool :=
  opt_b (λ b, (beh_anomaly_score b >=? ANOMALY_ELEVATED)%pf) (rs_behavioral s).

Definition published_tenths (s : RiskSignals) (r : RiskAssessmentRequest) : Z :=
  tenths_002 s + published_003 s + published_004 s + published_005 s +
  tenths_if (anomalous s) 4 +
  tenths_if (opt_b beh_device_mismatch (rs_behavioral s)) 4 +
  tenths_if (opt_b (λ b, beh_ip_location_mismatch b || beh_ip_country_mismatch b)
               (rs_behavioral s)) 4 +
  tenths_if (unusual_amount s r) 3.

Definition published_verdict (s : RiskSignals) (r : RiskAssessmentRequest) :
    RiskLevel * RecommendedAction * Z * bool := verdict_at (published_tenths s r) s.

(** What the engine's score has over the published one: a tenth for a fired FP-003, a
    tenth for a billing mismatch alone, less four for one beside card testing (an
    [elif]), three for a new account on watch, a tenth for an anomaly. *)
Definition drift (s : RiskSignals) : Z :=
  tenths_if (opt_b (λ b, VELOCITY_ELEVATED <=? beh_refund_requests_in_window b) (rs_behavioral s)) 1 +
  match rs_payment_instrument s with
  | Some pi => if pi_billing_details_match pi then 0
               else if pi_card_testing_pattern pi then -4 else 1
  | None => 0
  end +
  tenths_if (opt_b (λ a, bool_decide (as_status a = watch) && (as_tenure_days a <? NEW_ACCOUNT_DAYS))
               (rs_account_standing s)) 3 +
  tenths_if (anomalous s) 1.

Lemma drift_003 s :
  tenths_003 s = published_003 s + tenths_if (opt_b (λ b,
    VELOCITY_ELEVATED <=? beh_refund_requests_in_window b) (rs_behavioral s)) 1.
Proof.
  unfold tenths_003, published_003, tenths_if, opt_b, VELOCITY_HIGH, VELOCITY_ELEVATED.
  destruct (rs_behavioral s); [|done]. repeat case_match; lia.
Qed.

Lemma drift_004 s :
  tenths_004 s = published_004 s +
    match rs_payment_instrument s with
    | Some pi => if pi_billing_details_match pi then 0
                 else if pi_card_testing_pattern pi then -4 else 1
    | None => 0
    end.
Proof.
  unfold tenths_004, published_004. destruct (rs_payment_instrument s) as [pi|]; [|done]. cbn.
  by destruct (pi_card_testing_pattern pi), (pi_billing_details_match pi).
Qed.

Lemma drift_005 s :
  tenths_005 s = published_005 s + tenths_if (opt_b (λ a,
    bool_decide (as_status a = watch) && (as_tenure_days a <? NEW_ACCOUNT_DAYS))
    (rs_account_standing s)) 3.
Proof.
  unfold tenths_005, published_005. destruct (rs_account_standing s) as [a|]; [|done]. cbn.
  by destruct (as_status a), (as_tenure_days a <? NEW_ACCOUNT_DAYS).
Qed.

Lemma drift_006 s : tenths_if (anomalous s) 5 = tenths_if (anomalous s) 4 + tenths_if (anomalous s) 1.
Proof. by destruct (anomalous s). Qed.

Lemma tenths_drift s r : exact_tenths s r = published_tenths s r + drift s.
Proof.
  unfold exact_tenths, published_tenths, drift. fold (anomalous s).
  rewrite drift_003, drift_004, drift_005, drift_006. lia.
Qed.

(** ** The finite space of contributions *)

#[export] Instance float_eq_dec : EqDecision float.
Proof. solve_decision. Defined.

(** Contributions of a rule in the two computations, with the exact tenths:
    [(as fired, as added by _compute_score, tenths)]. *)
Abbreviation Contribution := (list float * list float * Z)%type.

Definition alt_tier (hi lo : Z) : list Contribution :=
  [ ([], [], 0); ([lit hi 10], [lit hi 10], hi); ([lit lo 10], [lit lo 10], lo) ].

Definition alt_005 : list Contribution :=
  [ ([], [], 0); ([lit 6 10], [lit 6 10], 6); ([lit 3 10], [lit 3 10], 3);
    ([(lit 0 1 + lit 3 10)%pf], [lit 3 10], 3);
    ([(lit 3 10 + lit 3 10)%pf], [lit 3 10; lit 3 10], 6) ].

Definition alt_flag (n : Z) : list Contribution :=
  [ ([], [], 0); ([lit n 10], [lit n 10], n) ].

Definition all_alternatives : list (list Contribution) :=
  [ alt_tier 8 5; alt_tier 8 5; alt_tier 6 5; alt_005; alt_flag 5; alt_flag 4; alt_flag 4;
    alt_flag 3 ].

Fixpoint forall_choices (alts : list (list Contribution)) (P : Contribution → bool)
    (acc : Contribution) : bool :=
  match alts with
  | [] => P acc
  | alt :: rest =>
      forallb (λ c, let '(x, y, n) := c in let '(xs, ys, t) := acc in
                    forall_choices rest P (xs ++ x, ys ++ y, t + n)) alt
  end.

Definition add_all (l : list float) : float := fold_left fadd l (lit 0 1).

(** Both sums agree once capped, and give the level and the borderline flag of
    the exact score. *)
Definition contribution_ok (c : Contribution) : bool :=
  let '(xs, ys, t) := c in
  let score := fmin (add_all xs) (lit 1 1) in
  bool_decide (score = fmin (add_all ys) (lit 1 1)) &&
  bool_decide (_score_to_level score = tenths_level t) &&
  Bool.eqb (is_borderline score) ((t =? 5) || (t =? 8)) &&
  match xs with [] => t =? 0 | _ => 0 <? t end.

Lemma all_choices_ok : forall_choices all_alternatives contribution_ok ([], [], 0) = true.
Proof. vm_compute. reflexivity. Qed.

Lemma forall_choices_spec alts P acc :
  forall_choices alts P acc = true →
  ∀ cs, Forall2 (λ alt c, c ∈ alt) alts cs →
  P (fold_left (λ a c, (fst (fst a) ++ fst (fst c), snd (fst a) ++ snd (fst c), snd a + snd c))
       cs acc) = true.
Proof.
  revert acc. induction alts as [|alt rest IH]; intros acc H cs Hcs;
    inversion Hcs as [|? c ? cs' Hc Hrest]; subst; cbn in *; [done|].
  destruct acc as [[xs ys] t], c as [[x y] n].
  rewrite forallb_forall in H. apply list_elem_of_In in Hc.
  specialize (H _ Hc). cbn in H. apply (IH _ H _ Hrest).
Qed.

(** ** The contributions of a request *)

Definition adds_005 (s : RiskSignals) : list float :=
  match rs_account_standing s with
  | Some a =>
      (match as_status a with restricted => [lit 6 10] | watch => [lit 3 10] | good => [] end) ++
      (if (as_tenure_days a <? NEW_ACCOUNT_DAYS) && negb (bool_decide (as_status a = restricted))
       then [lit 3 10] else [])
  | None => []
  end.

Definition flag_choice (b : bool) (n : Z) : Contribution :=
  if b then ([lit n 10], [lit n 10], n) else ([], [], 0).

Definition choices (s : RiskSignals) (r : RiskAssessmentRequest) : list Contribution :=
  [ (map snd (fp_002 s), map snd (fp_002 s), tenths_002 s);
    (map snd (fp_003 s), map snd (fp_003 s), tenths_003 s);
    (map snd (fp_004 s), map snd (fp_004 s), tenths_004 s);
    (map snd (fp_005 s), adds_005 s, tenths_005 s);
    flag_choice (opt_b (λ b, (beh_anomaly_score b >=? ANOMALY_ELEVATED)%pf)
                   (rs_behavioral s)) 5;
    flag_choice (opt_b beh_device_mismatch (rs_behavioral s)) 4;
    flag_choice (opt_b (λ b, beh_ip_location_mismatch b || beh_ip_country_mismatch b)
                   (rs_behavioral s)) 4;
    flag_choice (unusual_amount s r) 3 ].

Ltac in_list := repeat first [apply list_elem_of_here | apply list_elem_of_further].

(** Case analysis on the tests of a rule: what remains is membership in the
    list of alternatives. *)
Ltac rule_cases :=
  repeat case_match; simplify_eq; try (exfalso; lia); cbn; in_list.

Lemma choices_alternatives s r : Forall2 (λ alt c, c ∈ alt) all_alternatives (choices s r).
Proof.
  unfold all_alternatives, choices.
  repeat apply Forall2_cons_2; try apply Forall2_nil_2.
  - unfold fp_002, tenths_002, alt_tier. rule_cases.
  - unfold fp_003, tenths_003, alt_tier. rule_cases.
  - unfold fp_004, tenths_004, alt_tier.
    destruct (rs_payment_instrument s) as [[? [] []]|]; cbn; in_list.
  - unfold fp_005, adds_005, tenths_005, alt_005.
    destruct (rs_account_standing s) as [a|]; [|in_list].
    destruct (as_status a), (as_tenure_days a <? NEW_ACCOUNT_DAYS);
      vm_compute; in_list.
  - unfold flag_choice, alt_flag. rule_cases.
  - unfold flag_choice, alt_flag. rule_cases.
  - unfold flag_choice, alt_flag. rule_cases.
  - unfold flag_choice, alt_flag. rule_cases.
Qed.

(** The choices add up to the fired rules, the score of [_compute_score] and
    the exact tenths. *)
Definition total (cs : list Contribution) : Contribution :=
  fold_left (λ a c, (fst (fst a) ++ fst (fst c), snd (fst a) ++ snd (fst c), snd a + snd c))
    cs ([], [], 0).

Lemma add_chargebacks_fold s x : add_chargebacks s x = fold_left fadd (map snd (fp_002 s)) x.
Proof. unfold add_chargebacks, fp_002. by repeat case_match. Qed.

Lemma add_velocity_fold s x : add_velocity s x = fold_left fadd (map snd (fp_003 s)) x.
Proof. unfold add_velocity, fp_003. by repeat case_match. Qed.

Lemma add_instrument_fold s x : add_instrument s x = fold_left fadd (map snd (fp_004 s)) x.
Proof. unfold add_instrument, fp_004. by repeat case_match. Qed.

Lemma add_standing_fold s x : add_standing s x = fold_left fadd (adds_005 s) x.
Proof.
  unfold add_standing, adds_005. destruct (rs_account_standing s) as [a|]; [|done].
  by destruct (as_status a), (as_tenure_days a <? NEW_ACCOUNT_DAYS).
Qed.

Lemma add_if_fold b n x :
  add_if b (lit n 10) x = fold_left fadd (fst (fst (flag_choice b n))) x.
Proof. by destruct b. Qed.

Lemma flag_choice_same b n : snd (fst (flag_choice b n)) = fst (fst (flag_choice b n)).
Proof. by destruct b. Qed.

Lemma flag_choice_tenths b n : snd (flag_choice b n) = tenths_if b n.
Proof. by destruct b. Qed.

Lemma fold_fadd_app l1 l2 x :
  fold_left fadd (l1 ++ l2) x = fold_left fadd l2 (fold_left fadd l1 x).
Proof. apply fold_left_app. Qed.

Lemma map_snd_006 s :
  map snd (fp_006 s) =
  fst (fst (flag_choice (opt_b (λ b, (beh_anomaly_score b >=? ANOMALY_ELEVATED)%pf)
                           (rs_behavioral s)) 5)).
Proof. unfold fp_006. by case_match. Qed.

Lemma map_snd_007_008 s :
  map snd (fp_007_008 s) =
  fst (fst (flag_choice (opt_b beh_device_mismatch (rs_behavioral s)) 4)) ++
  fst (fst (flag_choice (opt_b (λ b, beh_ip_location_mismatch b || beh_ip_country_mismatch b)
                           (rs_behavioral s)) 4)).
Proof.
  unfold fp_007_008. destruct (rs_behavioral s) as [b|]; [|done]. cbn.
  by destruct (beh_device_mismatch b), (beh_ip_location_mismatch b || beh_ip_country_mismatch b).
Qed.

Lemma map_snd_009 s r :
  map snd (fp_009 s r) = fst (fst (flag_choice (unusual_amount s r) 3)).
Proof. unfold fp_009. by case_match. Qed.

Lemma total_fired s r : fst (fst (total (choices s r))) = map snd (fired_rules s r).
Proof.
  unfold fired_rules. rewrite !map_app, map_snd_006, map_snd_007_008, map_snd_009.
  unfold total, choices. cbn. by rewrite <- !app_assoc.
Qed.

Lemma total_adds s r :
  _compute_score s r = fmin (add_all (snd (fst (total (choices s r))))) (lit 1 1).
Proof.
  unfold _compute_score, total, choices, add_all. cbn -[fold_left lit flag_choice app].
  rewrite add_chargebacks_fold, add_velocity_fold, add_instrument_fold, add_standing_fold,
    !add_if_fold.
  cbn [fold_left fst snd]. rewrite !flag_choice_same, !fold_fadd_app. reflexivity.
Qed.

Lemma total_tenths s r : snd (total (choices s r)) = exact_tenths s r.
Proof.
  unfold total, choices, exact_tenths. cbn [fold_left snd fst].
  rewrite !flag_choice_tenths. lia.
Qed.

Lemma sum_contributions_add_all rules : sum_contributions rules = add_all (map snd rules).
Proof.
  unfold sum_contributions, add_all. generalize (lit 0 1).
  induction rules as [|r rules IH]; intros x; cbn; [done|apply IH].
Qed.

(** What [contribution_ok] says of a request. *)
Lemma request_ok s r :
  fired_score (fired_rules s r) = _compute_score s r ∧
  _score_to_level (fired_score (fired_rules s r)) = tenths_level (exact_tenths s r) ∧
  is_borderline (fired_score (fired_rules s r)) =
    ((exact_tenths s r =? 5) || (exact_tenths s r =? 8)) ∧
  match fired_rules s r with [] => exact_tenths s r = 0 | _ => 0 < exact_tenths s r end.
Proof.
  pose proof (forall_choices_spec _ _ _ all_choices_ok _ (choices_alternatives s r)) as H.
  fold (total (choices s r)) in H.
  destruct (total (choices s r)) as [[xs ys] t] eqn:E.
  pose proof (total_fired s r) as Hx. pose proof (total_adds s r) as Hy.
  pose proof (total_tenths s r) as Ht. rewrite E in Hx, Hy, Ht. cbn in Hx, Hy, Ht. subst xs t.
  unfold contribution_ok in H. rewrite !andb_true_iff in H.
  destruct H as [[[H1 H2] H3] H4].
  apply bool_decide_eq_true in H1, H2. apply Bool.eqb_prop in H3.
  unfold fired_score. rewrite sum_contributions_add_all, Hy. repeat split; auto.
  destruct (fired_rules s r); cbn in H4; lia.
Qed.

(** ** Properties of the engine *)

(** The binding fields of an assessment. *)
Definition verdict (a : RiskAssessment) : RiskLevel * RecommendedAction * float * bool :=
  (ra_risk_level a, ra_recommended_action a, ra_confidence a, ra_requires_human_review a).

Definition as_verdict (v : RiskLevel * RecommendedAction * Z * bool) :
    RiskLevel * RecommendedAction * float * bool :=
  let '(l, a, c, h) := v in (l, a, lit c 100, h).

Lemma scored_assessment_verdict p s r :
  gate_of s = Scored → verdict (scored_assessment p s r) = as_verdict (engine_verdict s r).
Proof.
  intros Hg. destruct (request_ok s r) as (_ & Hl & Hb & Hf).
  unfold scored_assessment, engine_verdict, verdict_at. rewrite Hg, Hl, Hb.
  unfold verdict. fold (history_missing s). fold (has_chargeback s).
  change (opt_b (λ rh, CHARGEBACK_ELEVATED <=? rh_chargebacks rh) (rs_refund_history s))
    with (has_chargeback s).
  destruct (fired_rules s r) as [|f fs] eqn:E.
  - rewrite Hf. cbn [tenths_level Z.leb Z.compare Z.eqb orb].
    destruct (history_missing s); cbn; by rewrite andb_false_r.
  - cbn -[lit fmin]. unfold _derive_recommended_action.
    destruct (tenths_level (exact_tenths s r)) eqn:El; cbn -[lit fmin];
      destruct ((exact_tenths s r =? 5) || (exact_tenths s r =? 8)), (history_missing s),
        (has_chargeback s); reflexivity.
Qed.

Lemma assess_signals_gate s r p :
  assess_signals s r p =
  match gate_of s with
  | Blocklisted => mk_assessment (blocklist_assessment p s)
  | HighValue =>
      mk_assessment (vip_assessment s r
        (match rs_account_standing s with Some a => as_segment a | None => standard end))
  | Contradictory => mk_assessment (contradiction_assessment s)
  | Scored => mk_assessment (scored_assessment p s r)
  end.
Proof.
  unfold assess_signals, gate_of.
  destruct (opt_b kfi_on_blocklist (rs_known_fraud s)); [done|].
  destruct (rs_account_standing s) as [[? ? ? ? ? []]|]; cbn; try done;
    by destruct (_is_contradiction s).
Qed.

Lemma assess_signals_refines s r p :
  ∃ a, assess_signals s r p = Ok a ∧ verdict a = as_verdict (engine_verdict s r).
Proof.
  rewrite assess_signals_gate. destruct (gate_of s) eqn:Hg.
  - exists (blocklist_assessment p s). unfold engine_verdict, verdict_at. by rewrite Hg.
  - eexists. split; [reflexivity|]. unfold engine_verdict, verdict_at. rewrite Hg.
    destruct (request_ok s r) as (Hc & Hl & _). cbn. by rewrite <- Hl, Hc.
  - exists (contradiction_assessment s). unfold engine_verdict, verdict_at. by rewrite Hg.
  - exists (scored_assessment p s r). pose proof (scored_assessment_verdict p s r Hg) as Hv.
    split; [|done]. unfold mk_assessment.
    replace (in_unit _) with true; [done|].
    apply (f_equal (λ v, snd (fst v))) in Hv. unfold verdict in Hv. cbn [fst snd] in Hv.
    rewrite Hv. unfold engine_verdict, verdict_at. rewrite Hg. cbn [as_verdict fst snd].
    by case_match.
Qed.

(** C8 (refinement): the scoring engine implements its rules exactly.  It never raises,
    and for every set of signals and every request the level, action, confidence and
    human-review flag it returns are those of the blocklist, then the VIP/enterprise, then
    the contradiction gate, then the additive rules over the exact score at scoring.py's
    weights: the float sums never fall on another side of a threshold.  These weights
    are not the ones policy.py publishes for FP-003 to FP-006: the engine's exact
    score is the published one plus [drift], which the signals determine, so
    that the verdict is the published weights' verdict whenever the drift is zero. *)
Theorem assess_signals_refines_policy s r p :
  (∃ a, assess_signals s r p = Ok a ∧ verdict a = as_verdict (engine_verdict s r)) ∧
  exact_tenths s r = published_tenths s r + drift s ∧
  (drift s = 0 → engine_verdict s r = published_verdict s r).
Proof.
  split; [apply assess_signals_refines|]. split; [apply tenths_drift|].
  intros Hd. unfold engine_verdict, published_verdict. by rewrite tenths_drift, Hd, Z.add_0_r.
Qed.

(** Remark (equivalence): [_compute_score], used by the VIP gate, and the score of
    the main path are the same float, although they add the FP-005
    contributions in a different order. *)
Theorem compute_score_agrees s r : _compute_score s r = fired_score (fired_rules s r).
Proof. symmetry. apply request_ok. Qed.

(** ** Citations *)

(** Evidence item [e] cites rule [id] of the policy. *)
Definition cites (id : string) (e : EvidenceItem) : Prop :=
  ev_source e = "fraud_policy" ∧
  ∃ d, ev_value e = VDict d ∧ dict_get "rule" d = Some (VStr id).

Definition known_rule (id : string) : Prop :=
  id = "contradiction-gate" ∨ id ∈ map rule_id (fp_rules FRAUD_POLICY).

Lemma known_rule_in id : str_in id (map rule_id (fp_rules FRAUD_POLICY)) = true → known_rule id.
Proof. intros H. right. by apply str_in_spec. Qed.

Lemma known_singleton id dom c :
  str_in id (map rule_id (fp_rules FRAUD_POLICY)) = true →
  Forall (λ f : FiredRule, known_rule (fst (fst f))) [(id, dom, c)].
Proof. intros H. constructor; [by apply known_rule_in|constructor]. Qed.

Lemma fired_rules_known s r :
  Forall (λ f, known_rule (fst (fst f))) (fired_rules s r).
Proof.
  unfold fired_rules, fp_002, fp_003, fp_004, fp_005, fp_006, fp_007_008, fp_009.
  repeat (apply Forall_app; split);
    repeat case_match; try apply Forall_nil_2; try (apply known_singleton; reflexivity).
  all: apply Forall_app; split; try apply Forall_nil_2; apply known_singleton; reflexivity.
Qed.

Lemma rule_evidence_cites p s f :
  Exists (cites (fst (fst f))) (rule_evidence p s f).
Proof.
  destruct f as [[id dom] c]. apply Exists_cons_tl, Exists_cons_hd.
  split; [done|]. eexists. split; reflexivity.
Qed.

Lemma scored_assessment_shape p s r :
  ra_policy_references (scored_assessment p s r) =
    dict_fromkeys (map (λ f, fst (fst f)) (fired_rules s r)) ∧
  (∃ extra, ra_evidence (scored_assessment p s r) =
     concat (map (rule_evidence p s) (fired_rules s r)) ++ extra ∧
     (fired_rules s r = [] → extra ≠ [])).
Proof.
  unfold scored_assessment. fold (history_missing s).
  destruct (fired_rules s r) as [|f fs]; destruct (history_missing s); cbn [negb];
    (split; [reflexivity|]); cbn [ra_evidence];
    try rewrite <- !app_assoc; eexists;
    (split; [first [reflexivity | symmetry; apply app_nil_r]|done]).
Qed.

Definition well_cited (a : RiskAssessment) : Prop :=
  NoDup (ra_policy_references a) ∧
  Forall known_rule (ra_policy_references a) ∧
  Forall (λ id, Exists (cites id) (ra_evidence a)) (ra_policy_references a) ∧
  ra_evidence a ≠ [].

Lemma single_citation a id :
  ra_policy_references a = [id] → known_rule id → Exists (cites id) (ra_evidence a) →
  well_cited a.
Proof.
  intros Hr Hk Hc. unfold well_cited. rewrite Hr. repeat split; auto using NoDup_singleton.
  intros E. rewrite E in Hc. by apply Exists_nil in Hc.
Qed.

Ltac cited := split; [reflexivity|]; eexists; split; reflexivity.

Lemma gate_assessments_cited s r p :
  well_cited (blocklist_assessment p s) ∧
  (∀ seg, well_cited (vip_assessment s r seg)) ∧
  well_cited (contradiction_assessment s).
Proof.
  split; [|split].
  - eapply single_citation; [reflexivity| |].
    + by apply known_rule_in.
    + apply Exists_cons_tl, Exists_cons_hd. cited.
  - intros seg. eapply single_citation; [reflexivity| |].
    + by apply known_rule_in.
    + apply Exists_cons_tl, Exists_cons_hd. cited.
  - eapply single_citation; [reflexivity|by left|].
    do 4 apply Exists_cons_tl. apply Exists_cons_hd. cited.
Qed.

Lemma scored_assessment_cited s r p : well_cited (scored_assessment p s r).
Proof.
  destruct (scored_assessment_shape p s r) as (Hr & extra & He & Hx).
  unfold well_cited. rewrite Hr, He. repeat split; [auto with py| | |].
  - apply Forall_forall. intros id Hid. rewrite elem_of_dict_fromkeys in Hid.
    apply list_elem_of_fmap in Hid as (f & -> & Hf).
    pose proof (fired_rules_known s r) as Hk. rewrite Forall_forall in Hk. by apply Hk.
  - apply Forall_forall. intros id Hid. rewrite elem_of_dict_fromkeys in Hid.
    apply list_elem_of_fmap in Hid as (f & -> & Hf).
    apply Exists_app. left. apply Exists_concat, Exists_exists.
    exists (rule_evidence p s f). split; [|apply rule_evidence_cites].
    apply list_elem_of_fmap. eauto.
  - destruct (fired_rules s r) as [|[[? ?] ?] ?]; [|done]. intros E. by apply Hx.
Qed.

Lemma mk_assessment_inv b a : mk_assessment b = Ok a → a = b.
Proof. unfold mk_assessment. case_match; congruence. Qed.

(** Remark (functional): an assessment cites each policy rule at most once, cites
    only rules of the published policy (or the contradiction gate), backs every
    cited rule with an evidence item of source [fraud_policy], and is never
    without evidence; on the scored path the cited rules are exactly the fired
    ones. *)
Theorem assessment_citations s r p a :
  assess_signals s r p = Ok a →
  well_cited a ∧
  (gate_of s = Scored →
   ∀ id, id ∈ ra_policy_references a ↔ ∃ dom c, (id, dom, c) ∈ fired_rules s r).
Proof.
  rewrite assess_signals_gate. intros H.
  destruct (gate_assessments_cited s r p) as (Hb & Hv & Hc).
  destruct (gate_of s) eqn:Hg; apply mk_assessment_inv in H; subst a.
  1-3: split; [done|discriminate].
  split; [apply scored_assessment_cited|]. intros _ id. rewrite (proj1 (scored_assessment_shape p s r)), elem_of_dict_fromkeys.
  rewrite list_elem_of_fmap. split.
  - intros ([[i d] c] & -> & Hf). eauto.
  - intros (d & c & Hf). by exists (id, d, c).
Qed.

(** ** Monotonicity *)

Definition chargebacks_of (s : RiskSignals) : Z :=
  match rs_refund_history s with Some rh => rh_chargebacks rh | None => 0 end.

Definition velocity_of (s : RiskSignals) : Z :=
  match rs_behavioral s with Some b => beh_refund_requests_in_window b | None => 0 end.

(** [s'] shows every risk signal that [s] shows, at least as strongly. *)
Record riskier (s s' : RiskSignals) (r : RiskAssessmentRequest) : Prop := {
  rk_chargebacks : chargebacks_of s <= chargebacks_of s';
  rk_velocity : velocity_of s <= velocity_of s';
  rk_instrument : tenths_004 s <= tenths_004 s';
  rk_standing : tenths_005 s <= tenths_005 s';
  rk_anomaly : implb (anomalous s) (anomalous s') = true;
  rk_device :
    implb (opt_b beh_device_mismatch (rs_behavioral s))
          (opt_b beh_device_mismatch (rs_behavioral s')) = true;
  rk_ip :
    implb (opt_b (λ b, beh_ip_location_mismatch b || beh_ip_country_mismatch b)
             (rs_behavioral s))
          (opt_b (λ b, beh_ip_location_mismatch b || beh_ip_country_mismatch b)
             (rs_behavioral s')) = true;
  rk_amount : implb (unusual_amount s r) (unusual_amount s' r) = true;
}.

Definition level_rank (l : RiskLevel) : Z :=
  match l with LOW => 0 | ELEVATED => 1 | HIGH => 2 end.

Lemma tenths_002_eq s :
  tenths_002 s = if 2 <=? chargebacks_of s then 8 else if 1 <=? chargebacks_of s then 5 else 0.
Proof. unfold tenths_002, chargebacks_of. by destruct (rs_refund_history s). Qed.

Lemma tenths_003_eq s :
  tenths_003 s = if 5 <=? velocity_of s then 8 else if 3 <=? velocity_of s then 5 else 0.
Proof. unfold tenths_003, velocity_of. by destruct (rs_behavioral s). Qed.

Lemma tenths_if_mono b b' n : 0 <= n → implb b b' = true → tenths_if b n <= tenths_if b' n.
Proof. destruct b, b'; cbn; intros; try discriminate; lia. Qed.

Lemma tier_mono x y a b :
  0 < a <= b → x <= y →
  (if b <=? x then 8 else if a <=? x then 5 else 0) <=
  (if b <=? y then 8 else if a <=? y then 5 else 0).
Proof.
  intros H Hxy. destruct (Z.leb_spec b x), (Z.leb_spec b y), (Z.leb_spec a x), (Z.leb_spec a y);
    lia.
Qed.

Lemma exact_tenths_mono s s' r : riskier s s' r → exact_tenths s r <= exact_tenths s' r.
Proof.
  intros [H1 H2 H3 H4 H5 H6 H7 H8]. unfold exact_tenths.
  rewrite !tenths_002_eq, !tenths_003_eq.
  pose proof (tier_mono _ _ 1 2 ltac:(lia) H1). pose proof (tier_mono _ _ 3 5 ltac:(lia) H2).
  pose proof (tenths_if_mono _ _ 5 ltac:(lia) H5).
  pose proof (tenths_if_mono _ _ 4 ltac:(lia) H6).
  pose proof (tenths_if_mono _ _ 4 ltac:(lia) H7).
  pose proof (tenths_if_mono _ _ 3 ltac:(lia) H8).
  unfold anomalous in *. lia.
Qed.

Lemma tenths_level_mono t t' : t <= t' → level_rank (tenths_level t) <= level_rank (tenths_level t').
Proof.
  intros H. unfold tenths_level.
  destruct (Z.leb_spec 8 t), (Z.leb_spec 8 t'), (Z.leb_spec 5 t), (Z.leb_spec 5 t'); cbn; lia.
Qed.

Lemma scored_level s r p a :
  gate_of s = Scored → assess_signals s r p = Ok a →
  ra_risk_level a = tenths_level (exact_tenths s r).
Proof.
  intros Hg Ha. destruct (assess_signals_refines s r p) as (a' & Ha' & Hv).
  rewrite Ha in Ha'. ok_inv. unfold engine_verdict, verdict_at in Hv. rewrite Hg in Hv.
  by apply (f_equal (λ v, fst (fst (fst v)))) in Hv.
Qed.

(** Remark (functional): among customers no gate applies to, stronger signals never
    lower the risk level. *)
Theorem scored_level_monotone s s' r p a a' :
  gate_of s = Scored → gate_of s' = Scored → riskier s s' r →
  assess_signals s r p = Ok a → assess_signals s' r p = Ok a' →
  level_rank (ra_risk_level a) <= level_rank (ra_risk_level a').
Proof.
  intros Hg Hg' Hr Ha Ha'.
  rewrite (scored_level s r p a), (scored_level s' r p a') by done.
  by apply tenths_level_mono, exact_tenths_mono.
Qed.
