(* ===== verification/RiskServiceFacts.v ===== *)
(** * Risk-Fraud agent: properties of the service and of the seeded dataset

    The pipeline theorem (dual-path delivery carries one verdict), the error
    paths, the verdicts of the seeded customers, and the closed witnesses of the
    engine's theorems. *)

From Stdlib Require Import ZArith Bool Ascii String List Lia.
From stdpp Require Import base list strings gmap.
From S2P Require Import Prelude.
From S2P Require Import PyFloat.
From S2P Require Import Contracts.
From S2P Require Import A2A.
From S2P Require Import RiskModels.
From S2P Require Import RiskStore.
From S2P Require Import RiskScoring.
From S2P Require Import RiskService.
From S2P Require Import RiskScoringFacts.

Open Scope string_scope.
Open Scope list_scope.
Open Scope Z_scope.

(** ** The pipeline *)

(** The binding fields on the wire: recommendation, confidence, human review. *)
Definition payload_wire (p : RiskReviewCompletedPayload) : string * float * bool :=
  (rrc_recommendation p, rrc_confidence p, rrc_requires_human_review p).

Definition data_wire (d : list (string * pyval)) : option (string * float * bool) :=
  match dict_get "recommendation" d, dict_get "confidence" d,
        dict_get "requires_human_review" d with
  | Some (VStr r), Some (VFloat c), Some (VBool h) => Some (r, c, h)
  | _, _, _ => None
  end.

(** What the policy promises for a request, given the owned signals. *)
Definition expected_wire (signals : option RiskSignals) (r : RiskAssessmentRequest) :
    string * float * bool :=
  match signals with
  | None => ("low", lit 2 10, true)
  | Some s =>
      let '(l, _, c, h) := engine_verdict s r in (RiskLevel_str l, lit c 100, h)
  end.

Lemma policy_confidence_in_unit s r :
  in_unit (snd (fst (as_verdict (engine_verdict s r)))) = true.
Proof. unfold engine_verdict, verdict_at. destruct (gate_of s); cbn -[in_unit lit]; by repeat case_match. Qed.

Lemma payload_delivered a req narrative :
  in_unit (ra_confidence a) = true →
  ∃ p, to_result_payload a req narrative = Ok p ∧
    payload_wire p =
      (RiskLevel_str (ra_risk_level a), ra_confidence a, ra_requires_human_review a).
Proof.
  intros Hc. eexists. split; [|shelve]. unfold to_result_payload, mk_risk_result.
  change (rrc_confidence _) with (ra_confidence a). rewrite Hc. reflexivity.
  Unshelve. reflexivity.
Qed.

Section Pipeline.
Context (model_validate : list (string * pyval) → result RiskAssessmentRequest).
Context {St : Type} `{!RiskSignalStore St} (store : St).

Lemma assess_valid parts d req :
  first_data parts = Some d → model_validate d = Ok req →
  ∃ a, assess model_validate store parts = Ok (a, req) ∧
    in_unit (ra_confidence a) = true ∧
    (RiskLevel_str (ra_risk_level a), ra_confidence a, ra_requires_human_review a) =
      expected_wire (store_load_signals store (rar_customer_id req)) req.
Proof.
  intros Hd Hv. unfold assess, validate_input. rewrite Hd, Hv. cbn.
  destruct (store_load_signals store (rar_customer_id req)) as [s|];
    [|eexists; split; [reflexivity|split; reflexivity]].
  destruct (assess_signals_refines s req FRAUD_POLICY) as (a & Ha & Hw).
  exists a. rewrite Ha. split; [done|].
  pose proof (policy_confidence_in_unit s req) as Hc. rewrite <- Hw in Hc.
  split; [exact Hc|]. unfold expected_wire, verdict in *.
  destruct (engine_verdict s req) as [[[l act] c] h].
  unfold as_verdict in Hw. injection Hw as -> _ -> ->. reflexivity.
Qed.

(** Remark (functional): for every request that validates, over any signal store,
    the pipeline raises nothing: the domain event and the A2A result are both
    built, whatever the narrative, and both carry the recommendation,
    confidence and human-review flag of the policy. *)
Theorem pipeline_delivers parts d req narrative :
  first_data parts = Some d → model_validate d = Ok req →
  ∃ a payload out data,
    assess model_validate store parts = Ok (a, req) ∧
    to_result_payload a req narrative = Ok payload ∧
    build_a2a_output a narrative = Ok out ∧
    first_data (msg_parts out) = Some data ∧
    payload_wire payload = expected_wire (store_load_signals store (rar_customer_id req)) req ∧
    data_wire data = Some (payload_wire payload).
Proof.
  intros Hd Hv. destruct (assess_valid parts d req Hd Hv) as (a & Ha & Hc & Hw).
  destruct (payload_delivered a req narrative Hc) as (p & Hp & Hpw).
  exists a, p. eexists _, _. split; [done|]. split; [done|]. split; [reflexivity|].
  split; [reflexivity|]. rewrite Hpw. split; [exact Hw|reflexivity].
Qed.

(** Remark (error): the service fabricates no verdict: it fails exactly when the
    message has no data part or the data does not validate, and then with the
    validation error. *)
Theorem assess_fails_iff_invalid parts e :
  assess model_validate store parts = Err e ↔
  match first_data parts with
  | None => e = ValueError "No valid data part found in input parts (FR-011)"
  | Some d => model_validate d = Err e
  end.
Proof.
  unfold assess, validate_input. destruct (first_data parts) as [d|] eqn:Hd.
  - destruct (model_validate d) as [req|e'] eqn:Hv; cbn; [|split; congruence].
    destruct (assess_valid parts d req Hd Hv) as (a & Ha & _).
    unfold assess, validate_input in Ha. rewrite Hd, Hv in Ha. cbn in Ha.
    rewrite Ha. split; discriminate.
  - cbn. split; congruence.
Qed.
End Pipeline.

(** ** The seeded customers *)

Definition sample_request (customer_id : string) (amount : option Decimal) :
    RiskAssessmentRequest := {|
  rar_case_id := 1; rar_ticket_id := "T-1"; rar_customer_id := customer_id;
  rar_requested_refund_amount := amount; rar_customer_message_summary := None;
  rar_account_age_days := None;
|}.

Definition dollars (n : Z) : option Decimal :=
  Some {| dec_sign := false; dec_coef := n; dec_exponent := 0 |}.

(** Level, action, confidence in hundredths and human review of a seeded
    customer. *)
Definition seeded_verdict (customer_id : string) (amount : option Decimal) :
    option (RiskLevel * RecommendedAction * float * bool) :=
  match load_signals customer_id with
  | Some s =>
      match assess_signals s (sample_request customer_id amount) FRAUD_POLICY with
      | Ok a => Some (verdict a)
      | Err _ => None
      end
  | None => None
  end.

(** Remark (functional): the verdicts of the seeded customers for a request without
    an amount.  Single device, geography and unusual-amount signals stay below
    the elevated threshold: the customers CUS-DEVICE, CUS-GEO and CUS-IP-DEVICE
    are low risk, although the dataset announces elevated verdicts. *)
Theorem seeded_verdicts :
  map (λ c, seeded_verdict c None)
    [ "CUS-CLEAN"; "CUS-CHARGEBACKS"; "CUS-ONE-CHARGEBACK"; "CUS-VELOCITY"; "CUS-INSTRUMENT";
      "CUS-CARD-TESTING"; "CUS-NEW-ACCOUNT"; "CUS-ANOMALY"; "CUS-BLOCKLIST";
      "CUS-CONTRADICTION"; "CUS-NEW-HIGH-REFUND"; "CUS-IP-DEVICE"; "CUS-VIP-ENTERPRISE";
      "CUS-DEVICE"; "CUS-GEO"; "CUS-UNUSUAL-AMOUNT"; "CUS-MISSING-HISTORY"; "CUS-UNKNOWN" ] =
  [ Some (LOW, APPROVE_RISK_CLEARANCE, lit 90 100, false);
    Some (HIGH, DENY_OR_ESCALATE, lit 60 100, false);
    Some (ELEVATED, MANUAL_REVIEW, lit 60 100, true);
    Some (HIGH, DENY_OR_ESCALATE, lit 60 100, false);
    Some (ELEVATED, ALLOW_WITH_CAUTION, lit 60 100, false);
    Some (ELEVATED, ALLOW_WITH_CAUTION, lit 90 100, false);
    Some (ELEVATED, ALLOW_WITH_CAUTION, lit 90 100, false);
    Some (ELEVATED, ALLOW_WITH_CAUTION, lit 60 100, false);
    Some (HIGH, DENY_OR_ESCALATE, lit 95 100, false);
    Some (ELEVATED, MANUAL_REVIEW, lit 30 100, true);
    Some (LOW, APPROVE_RISK_CLEARANCE, lit 90 100, false);
    Some (LOW, APPROVE_RISK_CLEARANCE, lit 90 100, false);
    Some (LOW, MANUAL_REVIEW, lit 70 100, true);
    Some (LOW, APPROVE_RISK_CLEARANCE, lit 90 100, false);
    Some (LOW, APPROVE_RISK_CLEARANCE, lit 90 100, false);
    Some (LOW, APPROVE_RISK_CLEARANCE, lit 90 100, false);
    Some (LOW, APPROVE_RISK_CLEARANCE, lit 60 100, false);
    None ].
Proof. vm_compute. reflexivity. Qed.

(** Remark (functional): the contradiction gate makes the level non-monotone in the
    refund velocity: with mismatched billing details on a clean long-tenured
    account, four requests in the window are high risk (deny or escalate) and
    five are elevated (manual review). *)
Theorem velocity_not_monotone :
  ∃ s4 s5 a4 a5,
    _clean_signals "C" [("refund_requests_in_window", VInt 4);
                        ("billing_details_match", VBool false)] = Ok s4 ∧
    _clean_signals "C" [("refund_requests_in_window", VInt 5);
                        ("billing_details_match", VBool false)] = Ok s5 ∧
    assess_signals s4 (sample_request "C" None) FRAUD_POLICY = Ok a4 ∧
    assess_signals s5 (sample_request "C" None) FRAUD_POLICY = Ok a5 ∧
    (ra_risk_level a4, ra_recommended_action a4) = (HIGH, DENY_OR_ESCALATE) ∧
    (ra_risk_level a5, ra_recommended_action a5) = (ELEVATED, MANUAL_REVIEW).
Proof.
  eexists _, _, _, _. split; [vm_compute; reflexivity|]. split; [vm_compute; reflexivity|].
  split; [vm_compute; reflexivity|]. split; [vm_compute; reflexivity|].
  split; vm_compute; reflexivity.
Qed.

(** ** Witnesses *)

(** A seeded customer's signals. *)
Definition signals_of (customer_id : string) : RiskSignals :=
  match load_signals customer_id with Some s => s | None => missing_history_signals end.

Definition assessment_of (customer_id : string) : RiskAssessment :=
  match assess_signals (signals_of customer_id) (sample_request customer_id None) FRAUD_POLICY with
  | Ok a => a
  | Err _ => _missing_data_assessment customer_id
  end.

(** The level of a seeded customer at the engine's weights and at the published ones. *)
Definition both_levels (customer_id : string) : RiskLevel * RiskLevel :=
  let s := signals_of customer_id in let r := sample_request customer_id None in
  ((engine_verdict s r).1.1.1, (published_verdict s r).1.1.1).

(** Remark (functional): the weights decide seeded cases.  At the weights policy.py
    publishes, the customer of refund velocity five would be elevated, and those of the
    billing mismatch and of the anomaly would be low; the engine makes them high, elevated
    and elevated. *)
Theorem weights_decide_cases :
  both_levels "CUS-VELOCITY" = (HIGH, ELEVATED) ∧
  both_levels "CUS-INSTRUMENT" = (ELEVATED, LOW) ∧
  both_levels "CUS-ANOMALY" = (ELEVATED, LOW).
Proof. vm_compute. auto. Qed.

Lemma assessment_citations_witness :
  well_cited (assessment_of "CUS-CHARGEBACKS") ∧
  (gate_of (signals_of "CUS-CHARGEBACKS") = Scored →
   ∀ id, id ∈ ra_policy_references (assessment_of "CUS-CHARGEBACKS") ↔
     ∃ dom c, (id, dom, c) ∈
       fired_rules (signals_of "CUS-CHARGEBACKS") (sample_request "CUS-CHARGEBACKS" None)).
Proof.
  apply (assessment_citations (signals_of "CUS-CHARGEBACKS")
           (sample_request "CUS-CHARGEBACKS" None) FRAUD_POLICY).
  vm_compute. reflexivity.
Defined.

Lemma scored_level_monotone_witness :
  level_rank (ra_risk_level (assessment_of "CUS-ONE-CHARGEBACK")) <=
  level_rank (ra_risk_level (assessment_of "CUS-CHARGEBACKS")).
Proof.
  apply (scored_level_monotone (signals_of "CUS-ONE-CHARGEBACK") (signals_of "CUS-CHARGEBACKS")
           (sample_request "C" None) FRAUD_POLICY).
  - vm_compute. reflexivity.
  - vm_compute. reflexivity.
  - constructor; vm_compute; congruence.
  - vm_compute. reflexivity.
  - vm_compute. reflexivity.
Defined.

(** A validator for the witness: the request is fixed, as pydantic would parse
    it from the data part. *)
Definition validate_sample (d : list (string * pyval)) : result RiskAssessmentRequest :=
  match dict_get "customer_id" d with
  | Some (VStr c) => Ok (sample_request c None)
  | _ => Err (ValidationError "customer_id")
  end.

Lemma pipeline_delivers_witness :
  ∃ a payload out data,
    assess validate_sample default_store [data_part [("customer_id", VStr "CUS-BLOCKLIST")]] =
      Ok (a, sample_request "CUS-BLOCKLIST" None) ∧
    to_result_payload a (sample_request "CUS-BLOCKLIST" None) None = Ok payload ∧
    build_a2a_output a None = Ok out ∧
    first_data (msg_parts out) = Some data ∧
    payload_wire payload =
      expected_wire (store_load_signals default_store "CUS-BLOCKLIST")
        (sample_request "CUS-BLOCKLIST" None) ∧
    data_wire data = Some (payload_wire payload).
Proof.
  apply (pipeline_delivers validate_sample default_store _
           [("customer_id", VStr "CUS-BLOCKLIST")]); reflexivity.
Defined.
