(* ===== verification/BillingModels.v ===== *)
(** * Billing-Entitlement agent: owned facts, recommendation model and policy

    [apps/agents/billing_entitlement/models.py] and [policy.py]. *)

From Stdlib Require Import ZArith Bool String List.
From stdpp Require Import base list strings.
From S2P Require Import Prelude.
From S2P Require Import PyFloat.
From S2P Require Import Contracts.

Open Scope Z_scope.

Inductive Recommendation :=
| APPROVE_FULL_REFUND
| APPROVE_PARTIAL_REFUND
| DENY_REFUND_
| REQUEST_MORE_INFO
| MANUAL_REVIEW_.

#[export] Instance Recommendation_eq_dec : EqDecision Recommendation.
Proof. solve_decision. Defined.

Definition Recommendation_str (r : Recommendation) : string :=
  match r with
  | APPROVE_FULL_REFUND => "approve_full_refund"
  | APPROVE_PARTIAL_REFUND => "approve_partial_refund"
  | DENY_REFUND_ => "deny_refund"
  | REQUEST_MORE_INFO => "request_more_information"
  | MANUAL_REVIEW_ => "manual_review"
  end.

Record RefundEligibilityRequest := {
  rer_case_id : UUID;
  rer_ticket_id : string;
  rer_customer_id : string;
  rer_requested_refund_amount : float;
  rer_purchase_reference : string;
  rer_customer_message_summary : option string;
  rer_policy_context : option string;
}.

Inductive SubscriptionStatus := sub_active | sub_cancelled | sub_lapsed.

#[export] Instance SubscriptionStatus_eq_dec : EqDecision SubscriptionStatus.
Proof. solve_decision. Defined.

Definition SubscriptionStatus_str (s : SubscriptionStatus) : string :=
  match s with
  | sub_active => "active" | sub_cancelled => "cancelled" | sub_lapsed => "lapsed"
  end.

Inductive Term := monthly | annual.

Definition Term_str (t : Term) : string :=
  match t with monthly => "monthly" | annual => "annual" end.

Record Subscription := {
  sub_subscription_id : string;
  sub_status : SubscriptionStatus;
  sub_term : Term;
  sub_started_at : datetime;
  sub_renewed_at : option datetime;
}.

Record Invoice := {
  inv_invoice_id : string;
  inv_purchase_reference : string;
  inv_amount : float;
  inv_currency : string;
  inv_issued_at : datetime;
  inv_paid : bool;
}.

Record Payment := {
  pay_payment_id : string;
  pay_invoice_id : string;
  pay_captured : bool;
  pay_amount : float;
  pay_reversed_amount : float;
}.

Inductive EntitlementStatus := ent_active | ent_revoked.

#[export] Instance EntitlementStatus_eq_dec : EqDecision EntitlementStatus.
Proof. solve_decision. Defined.

Definition EntitlementStatus_str (s : EntitlementStatus) : string :=
  match s with ent_active => "active" | ent_revoked => "revoked" end.

Record Entitlement := {
  ent_entitlement_id : string;
  ent_subscription_id : string;
  ent_status : EntitlementStatus;
  ent_delivered : bool;
  ent_access_granted : bool;
  ent_access_used : bool;
  ent_feature_enabled : bool;
  ent_account_active : bool;
}.

Record ProductUsage := {
  use_usage_units : float;
  use_allotment_units : float;
}.

Record BillingFacts := {
  bf_subscription : option Subscription;
  bf_invoice : option Invoice;
  bf_payment : option Payment;
  bf_entitlement : option Entitlement;
  bf_usage : option ProductUsage;
}.

Record EligibilityRecommendation := {
  er_recommendation : Recommendation;
  er_confidence : float;
  er_evidence : list EvidenceItem;
  er_policy_references : list string;
  er_reasoning_summary : string;
  er_requires_human_review : bool;
  er_eligible_refund_amount : Decimal;
  er_subscription_status : string;
  er_invoice_status : string;
  er_payment_status : string;
  er_entitlement_status : string;
  er_usage_level : string;
  er_refund_window_status : string;
}.

Definition mk_recommendation (r : EligibilityRecommendation) :
    result EligibilityRecommendation :=
  if in_unit (er_confidence r) then Ok r
  else Err (ValidationError "confidence must be in [0.0, 1.0]").

(** ** Refund policy *)

Definition REFUND_WINDOW_DAYS : Z := 30.
Definition USAGE_HEAVY_THRESHOLD : float := lit 8 10.

Record RefundPolicyRule := { rp_id : string; rp_name : string }.

Record RefundPolicy := {
  rp_policy_name : string;
  rp_policy_version : string;
  rp_rules : list RefundPolicyRule;
}.

Definition REFUND_POLICY : RefundPolicy := {|
  rp_policy_name := "poc-refund-policy";
  rp_policy_version := "1.0.0";
  rp_rules := [
    {| rp_id := "RP-001"; rp_name := "refund-window" |};
    {| rp_id := "RP-002"; rp_name := "paid-invoice" |};
    {| rp_id := "RP-003"; rp_name := "entitlement-delivered" |};
    {| rp_id := "RP-004"; rp_name := "usage-threshold" |};
    {| rp_id := "RP-005"; rp_name := "subscription-status" |} ];
|}.
