(* ===== verification/BillingRules.v ===== *)
(** * Billing-Entitlement agent: entitlement checker and rules engine

    [apps/agents/billing_entitlement/entitlement_checker.py] and
    [rules_engine.py].  [evaluate] takes the clock reading as an argument and
    follows the source gate by gate; each gate's recommendation is a definition
    of its own. *)

From Stdlib Require Import ZArith Bool Ascii String List Lia.
From stdpp Require Import base list strings.
From S2P Require Import Prelude.
From S2P Require Import PyFloat.
From S2P Require Import Contracts.
From S2P Require Import BillingModels.

Open Scope string_scope.
Open Scope list_scope.
Open Scope Z_scope.

(** ** Entitlement checker *)

Record EntitlementCheck := {
  ec_granted : bool;
  ec_used : bool;
  ec_feature_enabled : bool;
  ec_has_access : bool;
  ec_mismatch : bool;
  ec_summary : string;
}.

(** The mismatch conditions, in order. *)
Definition entitlement_conflicts (e : Entitlement) (subscription : option Subscription) :
    list string :=
  (if negb (ent_access_granted e) && ent_access_used e
   then ["access_granted=False but access_used=True"] else []) ++
  match subscription with
  | Some sub =>
      if ent_account_active e && bool_decide (sub_status sub = sub_cancelled)
      then ["account_active=True but subscription.status='" +:+
            SubscriptionStatus_str (sub_status sub) +:+ "'"]
      else []
  | None => []
  end ++
  (if bool_decide (ent_status e = ent_revoked) && ent_feature_enabled e
   then ["entitlement.status='revoked' but feature_enabled=True"] else []).

Definition check_entitlement (facts : BillingFacts) : EntitlementCheck :=
  match bf_entitlement facts with
  | None =>
      {| ec_granted := false; ec_used := false; ec_feature_enabled := false;
         ec_has_access := false; ec_mismatch := false;
         ec_summary := "No entitlement record found" |}
  | Some e =>
      let granted := ent_access_granted e in
      let used := ent_access_used e in
      let conflicts := entitlement_conflicts e (bf_subscription facts) in
      let mismatch := match conflicts with [] => false | _ => true end in
      {| ec_granted := granted;
         ec_used := used;
         ec_feature_enabled := ent_feature_enabled e;
         ec_has_access := ent_account_active e;
         ec_mismatch := mismatch;
         ec_summary :=
           if mismatch then "Entitlement mismatch: " +:+ py_join "; " conflicts
           else if used && granted then "Access granted and used (value delivered)"
           else if granted && negb used then "Access granted but not used (value not consumed)"
           else if negb granted && negb used
           then "Access not granted and not used (not delivered)"
           else "Entitlement state normal" |}
  end.

Definition build_entitlement_evidence (check : EntitlementCheck) : EvidenceItem := {|
  ev_source := "entitlement";
  ev_description := ec_summary check;
  ev_value :=
    VDict [("granted", VBool (ec_granted check)); ("used", VBool (ec_used check));
           ("feature_enabled", VBool (ec_feature_enabled check));
           ("has_access", VBool (ec_has_access check));
           ("mismatch", VBool (ec_mismatch check))];
|}.

(** ** Derived values *)

Definition _usage_level (usage_ratio : float) : string :=
  if (usage_ratio >? USAGE_HEAVY_THRESHOLD)%pf then "heavy"
  else if (usage_ratio >=? lit 5 10)%pf then "moderate"
  else "light".

Definition usage_ratio_of (usage : option ProductUsage) : float :=
  match usage with
  | Some u =>
      if (use_allotment_units u >? lit 0 1)%pf
      then (use_usage_units u / use_allotment_units u)%pf else lit 0 1
  | None => lit 0 1
  end.

Definition is_heavy_usage (ratio : float) : bool := (ratio >? USAGE_HEAVY_THRESHOLD)%pf.

Definition borderline_usage (usage : option ProductUsage) : bool :=
  match usage with
  | Some _ =>
      (fabs (usage_ratio_of usage - USAGE_HEAVY_THRESHOLD) <? lit 1 1000000000)%pf
  | None => false
  end.

Definition days_since_invoice (now : datetime) (invoice : Invoice) : Z :=
  timedelta_days (now - inv_issued_at invoice).

Definition within_window (now : datetime) (invoice : Invoice) : bool :=
  days_since_invoice now invoice <=? REFUND_WINDOW_DAYS.

Definition borderline_window (now : datetime) (invoice : Invoice) : bool :=
  days_since_invoice now invoice =? REFUND_WINDOW_DAYS.

Definition subscription_str (s : option Subscription) : string :=
  match s with Some s => SubscriptionStatus_str (sub_status s) | None => "unknown" end.

Definition entitlement_str (e : option Entitlement) : string :=
  match e with Some e => EntitlementStatus_str (ent_status e) | None => "unknown" end.

Definition refund_policy_item (description : string) (value : list (string * pyval)) :
    EvidenceItem :=
  {| ev_source := "refund_policy"; ev_description := description; ev_value := VDict value |}.

(** ** Step 1: data completeness *)

Definition missing_facts (facts : BillingFacts) : list string :=
  (if bool_of_option (bf_invoice facts) then [] else ["invoice"]) ++
  (if bool_of_option (bf_payment facts) then [] else ["payment"]).

Definition incomplete_recommendation (facts : BillingFacts) : EligibilityRecommendation :=
  let missing := missing_facts facts in
  {| er_recommendation := REQUEST_MORE_INFO;
     er_confidence := lit 2 10;
     er_evidence :=
       [ refund_policy_item "Data-completeness gate: missing required billing facts"
           [("missing", VList (map VStr missing))] ];
     er_policy_references := [];
     er_reasoning_summary :=
       "Missing required billing facts: " +:+ py_join ", " missing +:+ ".";
     er_requires_human_review := true;
     er_eligible_refund_amount := dec_zero;
     er_subscription_status := subscription_str (bf_subscription facts);
     er_invoice_status := "unknown";
     er_payment_status := "unknown";
     er_entitlement_status := entitlement_str (bf_entitlement facts);
     er_usage_level := "unknown";
     er_refund_window_status := "unknown" |}.

(** ** Step 2: contradictions *)

(** [ent_check]: computed only when there is an entitlement record. *)
Definition ent_check (facts : BillingFacts) : option EntitlementCheck :=
  match bf_entitlement facts with
  | Some _ => Some (check_entitlement facts)
  | None => None
  end.

Definition partially_reversed (invoice : Invoice) (payment : Payment) : bool :=
  (pay_reversed_amount payment >? lit 0 1)%pf && inv_paid invoice &&
  (pay_reversed_amount payment <? pay_amount payment)%pf.

Definition contradictions (facts : BillingFacts) (invoice : Invoice) (payment : Payment) :
    list string :=
  (if partially_reversed invoice payment
   then ["payment.reversed_amount=" +:+ py_repr_float (pay_reversed_amount payment) +:+
         " > 0 on a paid invoice (partial reversal already applied)"]
   else []) ++
  match ent_check facts with
  | Some c => if ec_mismatch c then [ec_summary c] else []
  | None => []
  end.

Definition entitlement_evidence (facts : BillingFacts) : list EvidenceItem :=
  match ent_check facts with Some c => [build_entitlement_evidence c] | None => [] end.

Definition contradiction_recommendation (now : datetime) (facts : BillingFacts)
    (invoice : Invoice) (payment : Payment) : EligibilityRecommendation :=
  let conflicts := contradictions facts invoice payment in
  {| er_recommendation := MANUAL_REVIEW_;
     er_confidence := lit 3 10;
     er_evidence :=
       entitlement_evidence facts ++
       map (λ c, refund_policy_item "Contradiction gate" [("conflict", VStr c)]) conflicts;
     er_policy_references := ["contradiction-gate"];
     er_reasoning_summary :=
       "Contradictory billing signals detected: " +:+ py_join "; " conflicts +:+ ".";
     er_requires_human_review := true;
     er_eligible_refund_amount := dec_zero;
     er_subscription_status := subscription_str (bf_subscription facts);
     er_invoice_status := if inv_paid invoice then "paid" else "unpaid";
     er_payment_status := if pay_captured payment then "captured" else "uncaptured";
     er_entitlement_status := entitlement_str (bf_entitlement facts);
     er_usage_level := _usage_level (usage_ratio_of (bf_usage facts));
     er_refund_window_status := if within_window now invoice then "within" else "expired" |}.

(** Evidence from the owned facts, for every later step. *)
Definition base_evidence (now : datetime) (facts : BillingFacts) (invoice : Invoice)
    (payment : Payment) : list EvidenceItem :=
  let days := days_since_invoice now invoice in
  let ratio := usage_ratio_of (bf_usage facts) in
  entitlement_evidence facts ++
  [ {| ev_source := "invoice";
       ev_description := "Invoice issued " +:+ str_of_Z days +:+ " days ago";
       ev_value :=
         VDict [("invoice_id", VStr (inv_invoice_id invoice));
                ("issued_at", VStr (isoformat (inv_issued_at invoice)));
                ("paid", VBool (inv_paid invoice)); ("days_since_issued", VInt days);
                ("window_days", VInt REFUND_WINDOW_DAYS)] |};
    {| ev_source := "payment";
       ev_description := "Payment capture and reversal status";
       ev_value :=
         VDict [("payment_id", VStr (pay_payment_id payment));
                ("captured", VBool (pay_captured payment));
                ("amount", VFloat (pay_amount payment));
                ("reversed_amount", VFloat (pay_reversed_amount payment))] |} ] ++
  match bf_subscription facts with
  | Some sub =>
      [ {| ev_source := "subscription";
           ev_description := "Subscription status";
           ev_value :=
             VDict [("subscription_id", VStr (sub_subscription_id sub));
                    ("status", VStr (SubscriptionStatus_str (sub_status sub)));
                    ("term", VStr (Term_str (sub_term sub)))] |} ]
  | None => []
  end ++
  match bf_usage facts with
  | Some u =>
      [ {| ev_source := "product_usage";
           ev_description :=
             "Usage ratio: " +:+ fmt_fixed 3 ratio +:+ " (threshold=" +:+
             py_repr_float USAGE_HEAVY_THRESHOLD +:+ ")";
           ev_value :=
             VDict [("usage_units", VFloat (use_usage_units u));
                    ("allotment_units", VFloat (use_allotment_units u));
                    ("usage_ratio", VFloat (py_round ratio 6));
                    ("heavy_threshold", VFloat USAGE_HEAVY_THRESHOLD)] |} ]
  | None => []
  end.

(** ** Steps 3 and 4: denials *)

(** The fields all denials share. *)
Definition denial (facts : BillingFacts) (confidence : float) (evidence : list EvidenceItem)
    (references : list string) (summary invoice_status payment_status usage_level window : string) :
    EligibilityRecommendation :=
  {| er_recommendation := DENY_REFUND_;
     er_confidence := confidence;
     er_evidence := evidence;
     er_policy_references := references;
     er_reasoning_summary := summary;
     er_requires_human_review := false;
     er_eligible_refund_amount := dec_zero;
     er_subscription_status := subscription_str (bf_subscription facts);
     er_invoice_status := invoice_status;
     er_payment_status := payment_status;
     er_entitlement_status := entitlement_str (bf_entitlement facts);
     er_usage_level := usage_level;
     er_refund_window_status := window |}.

(** RP-001: outside the refund window. *)
Definition window_denial (now : datetime) (facts : BillingFacts) (invoice : Invoice)
    (payment : Payment) : EligibilityRecommendation :=
  let days := days_since_invoice now invoice in
  denial facts (lit 9 10)
    (base_evidence now facts invoice payment ++
     [ refund_policy_item "RP-001: outside refund window"
         [("days_since_invoice", VInt days); ("window_days", VInt REFUND_WINDOW_DAYS)] ])
    ["RP-001"]
    ("Refund window expired: " +:+ str_of_Z days +:+ " days since invoice (limit: " +:+
     str_of_Z REFUND_WINDOW_DAYS +:+ " days — RP-001).")
    (if inv_paid invoice then "paid" else "unpaid")
    (if pay_captured payment then "captured" else "uncaptured")
    (_usage_level (usage_ratio_of (bf_usage facts))) "expired".

(** RP-002: invoice not paid. *)
Definition unpaid_denial (now : datetime) (facts : BillingFacts) (invoice : Invoice)
    (payment : Payment) : EligibilityRecommendation :=
  denial facts (lit 9 10)
    (base_evidence now facts invoice payment ++
     [ refund_policy_item "RP-002: invoice not paid"
         [("invoice_id", VStr (inv_invoice_id invoice)); ("paid", VBool (inv_paid invoice))] ])
    ["RP-002"] "Invoice is unpaid; no refundable payment exists (RP-002)."
    "unpaid" "uncaptured" (_usage_level (usage_ratio_of (bf_usage facts))) "within".

(** RP-002: payment not captured. *)
Definition uncaptured_denial (now : datetime) (facts : BillingFacts) (invoice : Invoice)
    (payment : Payment) : EligibilityRecommendation :=
  denial facts (lit 9 10)
    (base_evidence now facts invoice payment ++
     [ refund_policy_item "RP-002: payment not captured"
         [("payment_id", VStr (pay_payment_id payment));
          ("captured", VBool (pay_captured payment))] ])
    ["RP-002"] "Payment not captured; no refundable charge exists (RP-002)."
    "paid" "uncaptured" (_usage_level (usage_ratio_of (bf_usage facts))) "within".

Definition fully_reversed (payment : Payment) : bool :=
  (pay_reversed_amount payment >=? pay_amount payment)%pf &&
  (pay_amount payment >? lit 0 1)%pf.

(** RP-002: payment already fully reversed. *)
Definition reversed_denial (now : datetime) (facts : BillingFacts) (invoice : Invoice)
    (payment : Payment) : EligibilityRecommendation :=
  denial facts (lit 9 10)
    (base_evidence now facts invoice payment ++
     [ refund_policy_item "RP-002: payment already fully reversed"
         [("reversed_amount", VFloat (pay_reversed_amount payment));
          ("amount", VFloat (pay_amount payment))] ])
    ["RP-002"] "Payment already fully reversed; refund already applied (RP-002)."
    "paid" "reversed" (_usage_level (usage_ratio_of (bf_usage facts))) "within".

(** RP-004: heavy usage, with RP-005 on an active subscription. *)
Definition usage_denial (now : datetime) (facts : BillingFacts) (invoice : Invoice)
    (payment : Payment) : EligibilityRecommendation :=
  let ratio := usage_ratio_of (bf_usage facts) in
  let heavy_item :=
    refund_policy_item "RP-004: heavy usage — materially weakens refund claim"
      [("usage_ratio", VFloat (py_round ratio 6));
       ("threshold", VFloat USAGE_HEAVY_THRESHOLD)] in
  let '(refs, items) :=
    match bf_subscription facts with
    | Some sub =>
        if bool_decide (sub_status sub = sub_active)
        then (["RP-004"; "RP-005"],
              [heavy_item;
               refund_policy_item "RP-005: active subscription with heavy usage"
                 [("status", VStr (SubscriptionStatus_str (sub_status sub)))]])
        else (["RP-004"], [heavy_item])
    | None => (["RP-004"], [heavy_item])
    end in
  denial facts (if borderline_usage (bf_usage facts) then lit 6 10 else lit 9 10)
    (base_evidence now facts invoice payment ++ items) refs
    ("Heavy usage (" +:+ fmt_fixed 3 ratio +:+ " > " +:+ py_repr_float USAGE_HEAVY_THRESHOLD +:+
     ") materially weakens the refund claim (RP-004).")
    "paid" "captured" "heavy" "within".

(** ** Steps 5 and 6 *)

Definition is_delivered (facts : BillingFacts) : bool :=
  match bf_entitlement facts with Some e => ent_delivered e | None => false end.

Definition delivery_evidence (facts : BillingFacts) : list EvidenceItem :=
  match bf_entitlement facts with
  | Some _ =>
      [ refund_policy_item
          ("RP-003: entitlement delivered=" +:+ py_str_bool (is_delivered facts))
          [("delivered", VBool (is_delivered facts));
           ("approve_supporting", VBool (negb (is_delivered facts)))] ]
  | None => []
  end.

Definition delivery_references (facts : BillingFacts) : list string :=
  match bf_entitlement facts with Some _ => ["RP-003"] | None => [] end.

Definition approval_references (facts : BillingFacts) : list string :=
  let policy_references := delivery_references facts in
  let refs :=
    ["RP-001"; "RP-002"] ++
    (if bool_of_option (bf_entitlement facts) then ["RP-003"] else []) ++
    (if bool_of_option (bf_usage facts) then ["RP-004"] else []) ++
    (if bool_of_option (bf_subscription facts) then ["RP-005"] else []) in
  dict_fromkeys
    (policy_references ++ List.filter (λ r, negb (str_in r policy_references)) refs).

Definition approval_summary (now : datetime) (facts : BillingFacts) (invoice : Invoice) :
    string :=
  let parts :=
    [ "Within refund window (" +:+ str_of_Z (days_since_invoice now invoice) +:+ "d ≤ " +:+
      str_of_Z REFUND_WINDOW_DAYS +:+ "d — RP-001)";
      "Invoice paid and payment captured (RP-002)";
      if bool_of_option (bf_entitlement facts)
      then "Product not delivered (approve-supporting — RP-003)"
      else "No entitlement record (approve-supporting — RP-003)" ] ++
    (if bool_of_option (bf_usage facts)
     then [ "Light usage (" +:+ fmt_fixed 3 (usage_ratio_of (bf_usage facts)) +:+
            " — RP-004 does not fire)" ]
     else []) ++
    (if borderline_window now invoice
     then [ "Borderline: exactly " +:+ str_of_Z REFUND_WINDOW_DAYS +:+ " days since invoice " +:+
            "(inclusive boundary — confidence lowered to 0.6)" ]
     else []) in
  py_join ". " parts +:+ ".".

(** [Decimal(str(round(payment.amount - payment.reversed_amount, 2)))]; a
    non-finite Decimal is refused by the model. *)
Definition refundable (payment : Payment) : result Decimal :=
  match decimal_of_float (py_round (pay_amount payment - pay_reversed_amount payment)%pf 2) with
  | Some d => Ok d
  | None => Err (ValidationError "eligible_refund_amount must be a finite number")
  end.

Definition approval (now : datetime) (facts : BillingFacts) (invoice : Invoice)
    (payment : Payment) (amount : Decimal) : EligibilityRecommendation :=
  {| er_recommendation := APPROVE_FULL_REFUND;
     er_confidence :=
       if borderline_window now invoice || borderline_usage (bf_usage facts)
       then lit 6 10 else lit 9 10;
     er_evidence := base_evidence now facts invoice payment ++ delivery_evidence facts;
     er_policy_references := approval_references facts;
     er_reasoning_summary := approval_summary now facts invoice;
     er_requires_human_review := false;
     er_eligible_refund_amount := amount;
     er_subscription_status := subscription_str (bf_subscription facts);
     er_invoice_status := "paid";
     er_payment_status := "captured";
     er_entitlement_status := entitlement_str (bf_entitlement facts);
     er_usage_level := _usage_level (usage_ratio_of (bf_usage facts));
     er_refund_window_status :=
       if borderline_window now invoice then "within-borderline" else "within" |}.

Definition no_rule_recommendation (now : datetime) (facts : BillingFacts) (invoice : Invoice)
    (payment : Payment) : EligibilityRecommendation :=
  {| er_recommendation := MANUAL_REVIEW_;
     er_confidence := lit 2 10;
     er_evidence :=
       base_evidence now facts invoice payment ++ delivery_evidence facts ++
       [ refund_policy_item
           "No applicable policy rule resolved this case to a confident verdict"
           [("entitlement_delivered", VBool (is_delivered facts));
            ("usage_ratio", VFloat (py_round (usage_ratio_of (bf_usage facts)) 6));
            ("within_window", VBool (within_window now invoice));
            ("invoice_paid", VBool (inv_paid invoice))] ];
     er_policy_references := dict_fromkeys (delivery_references facts);
     er_reasoning_summary :=
       "No applicable policy rule resolved the case to a confident verdict.";
     er_requires_human_review := true;
     er_eligible_refund_amount := dec_zero;
     er_subscription_status := subscription_str (bf_subscription facts);
     er_invoice_status := "paid";
     er_payment_status := "captured";
     er_entitlement_status := entitlement_str (bf_entitlement facts);
     er_usage_level := _usage_level (usage_ratio_of (bf_usage facts));
     er_refund_window_status := "within" |}.

(** ** The engine *)

(** [evaluate(facts, request, policy)] at clock reading [now]; like the source,
    it reads neither the request nor the policy object. *)
Definition evaluate (now : datetime) (facts : BillingFacts)
    (request : RefundEligibilityRequest) (policy : RefundPolicy) :
    result EligibilityRecommendation :=
  match bf_invoice facts, bf_payment facts with
  | Some invoice, Some payment =>
      match contradictions facts invoice payment with
      | _ :: _ => mk_recommendation (contradiction_recommendation now facts invoice payment)
      | [] =>
          if negb (within_window now invoice)
          then mk_recommendation (window_denial now facts invoice payment)
          else if negb (inv_paid invoice)
          then mk_recommendation (unpaid_denial now facts invoice payment)
          else if negb (pay_captured payment)
          then mk_recommendation (uncaptured_denial now facts invoice payment)
          else if fully_reversed payment
          then mk_recommendation (reversed_denial now facts invoice payment)
          else if is_heavy_usage (usage_ratio_of (bf_usage facts))
          then mk_recommendation (usage_denial now facts invoice payment)
          else if negb (is_delivered facts)
          then amount ← refundable payment;
               mk_recommendation (approval now facts invoice payment amount)
          else mk_recommendation (no_rule_recommendation now facts invoice payment)
      end
  | _, _ => mk_recommendation (incomplete_recommendation facts)
  end.
