(* ===== verification/BillingStore.v ===== *)
(** * Billing-Entitlement agent: the seeded facts

    [apps/agents/billing_entitlement/mock_data.py].  The dataset is built from
    the clock reading [_NOW] taken when the module is imported. *)

From Stdlib Require Import ZArith Bool Ascii String List.
From stdpp Require Import base list strings gmap.
From S2P Require Import Prelude.
From S2P Require Import PyFloat.
From S2P Require Import Contracts.
From S2P Require Import BillingModels.

Open Scope string_scope.
Open Scope list_scope.
Open Scope Z_scope.

(** What the service relies on to find facts. *)
Class BillingFactStore (S : Type) := {
  store_load_facts : S → string → string → option BillingFacts;
}.

Section Seed.
(** [_NOW] *)
Variable NOW : datetime.

Definition _invoice (ref : string) (days_ago : Z) (paid : bool) : Invoice := {|
  inv_invoice_id := "INV-" +:+ ref;
  inv_purchase_reference := ref;
  inv_amount := lit 4999 100;
  inv_currency := "USD";
  inv_issued_at := NOW - days days_ago;
  inv_paid := paid;
|}.

Definition _payment (ref : string) (captured : bool) (reversed_amount : float) : Payment := {|
  pay_payment_id := "PAY-" +:+ ref;
  pay_invoice_id := "INV-" +:+ ref;
  pay_captured := captured;
  pay_amount := lit 4999 100;
  pay_reversed_amount := reversed_amount;
|}.

Definition _subscription (ref : string) (status : SubscriptionStatus) : Subscription := {|
  sub_subscription_id := "SUB-" +:+ ref;
  sub_status := status;
  sub_term := monthly;
  sub_started_at := NOW - days 90;
  sub_renewed_at := None;
|}.

Definition _entitlement (ref : string) (status : EntitlementStatus)
    (delivered access_granted access_used feature_enabled account_active : bool) :
    Entitlement := {|
  ent_entitlement_id := "ENT-" +:+ ref;
  ent_subscription_id := "SUB-" +:+ ref;
  ent_status := status;
  ent_delivered := delivered;
  ent_access_granted := access_granted;
  ent_access_used := access_used;
  ent_feature_enabled := feature_enabled;
  ent_account_active := account_active;
|}.

(** The defaults of [_entitlement]. *)
Definition default_entitlement (ref : string) : Entitlement :=
  _entitlement ref ent_active false true false true true.

Definition _usage (usage_units : float) : ProductUsage :=
  {| use_usage_units := usage_units; use_allotment_units := lit 5 1 |}.

Definition facts_row (s : Subscription) (i : Invoice) (p : Payment) (e : Entitlement)
    (u : ProductUsage) : BillingFacts :=
  {| bf_subscription := Some s; bf_invoice := Some i; bf_payment := Some p;
     bf_entitlement := Some e; bf_usage := Some u |}.

Definition facts_dataset : gmap string BillingFacts :=
  list_to_map [
    ("PR-APPROVE",
     facts_row (_subscription "PR-APPROVE" sub_active) (_invoice "PR-APPROVE" 5 true)
       (_payment "PR-APPROVE" true (lit 0 1)) (default_entitlement "PR-APPROVE")
       (_usage (lit 5 10)));
    ("PR-WINDOW-EXPIRED",
     facts_row (_subscription "PR-WINDOW-EXPIRED" sub_active)
       (_invoice "PR-WINDOW-EXPIRED" 45 true) (_payment "PR-WINDOW-EXPIRED" true (lit 0 1))
       (default_entitlement "PR-WINDOW-EXPIRED") (_usage (lit 5 10)));
    ("PR-UNPAID",
     facts_row (_subscription "PR-UNPAID" sub_active) (_invoice "PR-UNPAID" 5 false)
       (_payment "PR-UNPAID" false (lit 0 1))
       (_entitlement "PR-UNPAID" ent_active false false false false true)
       (_usage (lit 5 10)));
    ("PR-ALREADY-REFUNDED",
     facts_row (_subscription "PR-ALREADY-REFUNDED" sub_cancelled)
       (_invoice "PR-ALREADY-REFUNDED" 5 true)
       (_payment "PR-ALREADY-REFUNDED" true (lit 4999 100))
       (_entitlement "PR-ALREADY-REFUNDED" ent_active false false false false false)
       (_usage (lit 5 10)));
    ("PR-HEAVY-USAGE",
     facts_row (_subscription "PR-HEAVY-USAGE" sub_active) (_invoice "PR-HEAVY-USAGE" 5 true)
       (_payment "PR-HEAVY-USAGE" true (lit 0 1))
       (_entitlement "PR-HEAVY-USAGE" ent_active true true true true true)
       (_usage (lit 475 100)));
    ("PR-CONTRADICTION",
     facts_row (_subscription "PR-CONTRADICTION" sub_cancelled)
       (_invoice "PR-CONTRADICTION" 5 true) (_payment "PR-CONTRADICTION" true (lit 10 1))
       (_entitlement "PR-CONTRADICTION" ent_active true true true true true)
       (_usage (lit 5 10)));
    ("PR-BORDERLINE",
     facts_row (_subscription "PR-BORDERLINE" sub_active)
       (_invoice "PR-BORDERLINE" REFUND_WINDOW_DAYS true)
       (_payment "PR-BORDERLINE" true (lit 0 1)) (default_entitlement "PR-BORDERLINE")
       (_usage (lit 4 1))) ].

Definition _CUSTOMER_INDEX : gmap string string :=
  list_to_map [("CUS-APPROVE", "PR-APPROVE"); ("CUS-BORDERLINE", "PR-BORDERLINE")].

(** [load_facts]: by purchase reference, else by the customer index. *)
Definition load_facts (purchase_reference customer_id : string) : option BillingFacts :=
  match facts_dataset !! purchase_reference with
  | Some f => Some f
  | None =>
      match _CUSTOMER_INDEX !! customer_id with
      | Some ref => facts_dataset !! ref
      | None => None
      end
  end.
End Seed.

(** The seeded module, identified by its import time. *)
Record SeededFacts := { seeded_at : datetime }.

#[export] Instance SeededFacts_store : BillingFactStore SeededFacts := {|
  store_load_facts := λ st purchase_reference customer_id,
    load_facts (seeded_at st) purchase_reference customer_id;
|}.
