(* ===== verification/BillingService.v ===== *)
(** * Billing-Entitlement agent: the service pipeline and its HTTP shell

    [apps/agents/billing_entitlement/service.py], [llm_summary.py] and
    [http_app.py]; pydantic, JSON and UUID printing are parameters. *)

From Stdlib Require Import ZArith Bool Ascii String List.
From stdpp Require Import base list strings gmap.
From S2P Require Import Prelude.
From S2P Require Import PyFloat.
From S2P Require Import Contracts.
From S2P Require Import A2A.
From S2P Require Import BillingModels.
From S2P Require Import BillingStore.
From S2P Require Import BillingRules.

Open Scope string_scope.
Open Scope list_scope.
Open Scope Z_scope.

Definition AGENT_ID : string := "billing-entitlement-agent".

Record BillingNarrative := {
  bn_polished_summary : string;
  bn_evidence_explanation : string;
}.

(** [_make_fallback(rec)()] *)
Definition billing_make_fallback (rec : EligibilityRecommendation) : BillingNarrative := {|
  bn_polished_summary := er_reasoning_summary rec;
  bn_evidence_explanation :=
    str_or (py_join "; " (map ev_description (firstn 5 (er_evidence rec))))
      "No evidence details available.";
|}.

Definition _missing_data_recommendation (purchase_reference : string) :
    EligibilityRecommendation := {|
  er_recommendation := REQUEST_MORE_INFO;
  er_confidence := lit 2 10;
  er_evidence :=
    [ refund_policy_item "Data-completeness gate: no billing record found"
        [("reason",
          VStr ("no billing record for purchase_reference=" +:+
                py_repr_str purchase_reference))] ];
  er_policy_references := [];
  er_reasoning_summary :=
    "No billing record found for purchase_reference=" +:+ py_repr_str purchase_reference +:+
    ". " +:+ "Manual review required (FR-010).";
  er_requires_human_review := true;
  er_eligible_refund_amount := dec_zero;
  er_subscription_status := "unknown";
  er_invoice_status := "unknown";
  er_payment_status := "unknown";
  er_entitlement_status := "unknown";
  er_usage_level := "unknown";
  er_refund_window_status := "unknown";
|}.

(** [build_result_payload(request, rec, facts, narrative=...)] *)
Definition build_result_payload (request : RefundEligibilityRequest)
    (rec : EligibilityRecommendation) (facts : option BillingFacts)
    (narrative : option BillingNarrative) : result BillingRefundAnalysisCompletedPayload :=
  mk_billing_result {|
    bra_ticket_id := rer_ticket_id request;
    bra_recommendation := Recommendation_str (er_recommendation rec);
    bra_confidence := er_confidence rec;
    bra_evidence := er_evidence rec;
    bra_reasoning_summary := er_reasoning_summary rec;
    bra_requires_human_review := er_requires_human_review rec;
    bra_case_id := rer_case_id request;
    bra_customer_id := rer_customer_id request;
    bra_billing_account_id :=
      (f ← facts; s ← bf_subscription f; Some (sub_subscription_id s));
    bra_subscription_status := er_subscription_status rec;
    bra_invoice_status := er_invoice_status rec;
    bra_payment_status := er_payment_status rec;
    bra_entitlement_status := er_entitlement_status rec;
    bra_usage_level := er_usage_level rec;
    bra_refund_window_status := er_refund_window_status rec;
    bra_eligible_refund_amount := er_eligible_refund_amount rec;
    bra_enriched_reasoning_summary := bn_polished_summary <$> narrative;
    bra_evidence_explanation := bn_evidence_explanation <$> narrative;
  |}.

(** The data part of [build_a2a_output]. *)
Definition billing_a2a_data (rec : EligibilityRecommendation)
    (narrative : option BillingNarrative) : list (string * pyval) :=
  [ ("recommendation", VStr (Recommendation_str (er_recommendation rec)));
    ("confidence", VFloat (er_confidence rec));
    ("evidence", VList (map dump_evidence (er_evidence rec)));
    ("reasoning_summary", VStr (er_reasoning_summary rec));
    ("requires_human_review", VBool (er_requires_human_review rec)) ] ++
  match narrative with
  | Some n => [ ("enriched_reasoning_summary", VStr (bn_polished_summary n));
                ("evidence_explanation", VStr (bn_evidence_explanation n)) ]
  | None => []
  end.

Definition build_billing_output (rec : EligibilityRecommendation)
    (narrative : option BillingNarrative) : result A2AMessage :=
  data_message role_agent (billing_a2a_data rec narrative).

Section Service.
(** [RefundEligibilityRequest.model_validate] *)
Variable model_validate : list (string * pyval) → result RefundEligibilityRequest.

Definition validate_billing_input (parts : list A2APart) : result RefundEligibilityRequest :=
  match first_data parts with
  | Some data => model_validate data
  | None => Err (ValueError "No valid data part found in input parts (FR-011)")
  end.

(** [analyze(parts)], over any fact store, at clock reading [now]. *)
Definition analyze {St : Type} `{!BillingFactStore St} (store : St) (now : datetime)
    (parts : list A2APart) :
    result (RefundEligibilityRequest * EligibilityRecommendation * option BillingFacts) :=
  request ← validate_billing_input parts;
  match store_load_facts store (rer_purchase_reference request) (rer_customer_id request) with
  | None =>
      Ok (request, _missing_data_recommendation (rer_purchase_reference request), None)
  | Some facts =>
      rec ← evaluate now facts request REFUND_POLICY;
      Ok (request, rec, Some facts)
  end.

Variable parts_validate : pyval → result (list A2APart).
Variable uuid_str : UUID → string.

(** [POST /a2a/tasks] of [http_app.py]. *)
Definition handle_billing_task {St : Type} `{!BillingFactStore St} (store : St)
    (now : datetime) (body : option pyval) (fresh : UUID) : result JSONResponse :=
  match body with
  | None =>
      Ok {| resp_status_code := 400;
            resp_content :=
              failed_content AGENT_ID (VStr (uuid_str fresh)) "validation"
                "Request body is not valid JSON" |}
  | Some body =>
      task_id ← body_get body "task_id" (VStr (uuid_str fresh));
      let attempt :=
        input ← body_get body "input" (VDict []);
        raw ← body_get input "parts" (VList []);
        parts ← parts_validate raw;
        '(_, rec, _) ← analyze store now parts;
        build_billing_output rec None in
      match attempt with
      | Ok output =>
          Ok {| resp_status_code := 200;
                resp_content :=
                  completed_content AGENT_ID task_id (dump_message uuid_str output) |}
      | Err exc =>
          Ok {| resp_status_code := 200;
                resp_content :=
                  failed_content AGENT_ID task_id "handler_error" (exn_str exc) |}
      end
  end.
End Service.
