(* ===== verification/BillingFacts.v ===== *)
(** * Billing-Entitlement agent: properties of the rules engine and the service

    [billing_policy] is the engine's rules as a decision list over the facts, with
    conditions, confidences and citations of its own; [evaluate] refines it, and the
    other theorems follow from the list.  It departs from the policy document in one
    confidence ([documented_confidence]) and in what counts as a contradiction
    ([active_on_cancelled_refunded]). *)

From Stdlib Require Import ZArith Bool Ascii String List Lia.
From stdpp Require Import base list strings gmap.
From S2P Require Import Prelude.
From S2P Require Import PyFloat.
From S2P Require Import Contracts.
From S2P Require Import A2A.
From S2P Require Import BillingModels.
From S2P Require Import BillingRules.
From S2P Require Import BillingStore.
From S2P Require Import BillingService.

Open Scope string_scope.
Open Scope list_scope.
Open Scope Z_scope.

(** ** The rules as a decision list *)

Inductive BillingGate :=
| Incomplete | Contradictory | WindowExpired | Unpaid | Uncaptured | Reversed | HeavyUsage
| NotDelivered | NoRule.

#[export] Instance BillingGate_eq_dec : EqDecision BillingGate.
Proof. solve_decision. Defined.

(** An entitlement record that contradicts itself or the subscription. *)
Definition conflicting (e : Entitlement) (s : option Subscription) : bool :=
  (negb (ent_access_granted e) && ent_access_used e) ||
  (ent_account_active e && bool_decide (sub_status <$> s = Some sub_cancelled)) ||
  (bool_decide (ent_status e = ent_revoked) && ent_feature_enabled e).

(** The reversed part of a payment, against its amount. *)
Definition reversed_in_part (p : Payment) : bool :=
  (lit 0 1 <? pay_reversed_amount p)%pf && (pay_reversed_amount p <? pay_amount p)%pf.
Definition reversed_in_full (p : Payment) : bool :=
  (lit 0 1 <? pay_amount p)%pf && (pay_amount p <=? pay_reversed_amount p)%pf.

(** The used share of the allotment, and its comparison with 80 percent. *)
Definition used_share (u : option ProductUsage) : float :=
  match u with
  | Some u => if (lit 0 1 <? use_allotment_units u)%pf
              then (use_usage_units u / use_allotment_units u)%pf else lit 0 1
  | None => lit 0 1
  end.
Definition used_heavily (u : option ProductUsage) : bool := (lit 8 10 <? used_share u)%pf.
Definition used_on_the_edge (u : option ProductUsage) : bool :=
  bool_of_option u && (fabs (used_share u - lit 8 10) <? lit 1 1000000000)%pf.

Definition delivered (e : option Entitlement) : bool :=
  match e with Some e => ent_delivered e | None => false end.

Definition billing_rows (now : datetime) (facts : BillingFacts) (i : Invoice) (p : Payment) :
    list (bool * BillingGate) :=
  [ ((inv_paid i && reversed_in_part p) ||
     match bf_entitlement facts with
     | Some e => conflicting e (bf_subscription facts) | None => false end, Contradictory);
    (30 <? timedelta_days (now - inv_issued_at i), WindowExpired);
    (negb (inv_paid i), Unpaid);
    (negb (pay_captured p), Uncaptured);
    (reversed_in_full p, Reversed);
    (used_heavily (bf_usage facts), HeavyUsage);
    (negb (delivered (bf_entitlement facts)), NotDelivered) ].

Definition billing_gate (now : datetime) (facts : BillingFacts) : BillingGate :=
  match bf_invoice facts, bf_payment facts with
  | Some i, Some p => first_match (billing_rows now facts i p) NoRule
  | _, _ => Incomplete
  end.

(** A rule is cited when the record it reads exists. *)
Definition cite {A} (rule : string) (record : option A) : list string :=
  if record then [rule] else [].

(** The binding fields: recommendation, confidence, rule citations, review. *)
Definition billing_verdict : Type := Recommendation * float * list string * bool.

(** The last day of the refund window. *)
Definition on_the_last_day (now : datetime) (facts : BillingFacts) : bool :=
  bool_decide (timedelta_days <$> ((λ i, now - inv_issued_at i) <$> bf_invoice facts) = Some 30).

Definition gate_verdict (now : datetime) (facts : BillingFacts) (g : BillingGate) :
    billing_verdict :=
  match g with
  | Incomplete => (REQUEST_MORE_INFO, lit 2 10, [], true)
  | Contradictory => (MANUAL_REVIEW_, lit 3 10, ["contradiction-gate"], true)
  | WindowExpired => (DENY_REFUND_, lit 9 10, ["RP-001"], false)
  | Unpaid | Uncaptured | Reversed => (DENY_REFUND_, lit 9 10, ["RP-002"], false)
  | HeavyUsage =>
      (DENY_REFUND_, if used_on_the_edge (bf_usage facts) then lit 6 10 else lit 9 10,
       if bool_decide (sub_status <$> bf_subscription facts = Some sub_active)
       then ["RP-004"; "RP-005"] else ["RP-004"], false)
  | NotDelivered =>
      (APPROVE_FULL_REFUND,
       if on_the_last_day now facts || used_on_the_edge (bf_usage facts)
       then lit 6 10 else lit 9 10,
       cite "RP-003" (bf_entitlement facts) ++ ["RP-001"; "RP-002"] ++
       cite "RP-004" (bf_usage facts) ++ cite "RP-005" (bf_subscription facts), false)
  | NoRule => (MANUAL_REVIEW_, lit 2 10, cite "RP-003" (bf_entitlement facts), true)
  end.

(** The refund amount: only an approval carries one. *)
Definition gate_amount (facts : BillingFacts) (g : BillingGate) : result Decimal :=
  match g, bf_payment facts with
  | NotDelivered, Some p => refundable p
  | _, _ => Ok dec_zero
  end.

Definition billing_policy (now : datetime) (facts : BillingFacts) :
    result (billing_verdict * Decimal) :=
  let g := billing_gate now facts in
  amount ← gate_amount facts g; Ok (gate_verdict now facts g, amount).

Definition verdict_of (r : EligibilityRecommendation) : billing_verdict :=
  (er_recommendation r, er_confidence r, er_policy_references r, er_requires_human_review r).

Definition binding_of (r : EligibilityRecommendation) : billing_verdict * Decimal :=
  (verdict_of r, er_eligible_refund_amount r).

(** ** Reading the engine *)

Lemma engine_mismatch facts :
  match ent_check facts with Some c => ec_mismatch c | None => false end =
  match bf_entitlement facts with
  | Some e => conflicting e (bf_subscription facts) | None => false end.
Proof.
  unfold ent_check, check_entitlement, conflicting, entitlement_conflicts.
  destruct (bf_entitlement facts) as [[? ? st ? [] [] [] []]|]; [..|done];
    destruct (bf_subscription facts) as [[? ss ? ? ?]|]; by destruct st; try destruct ss.
Qed.

Lemma engine_partial i p : partially_reversed i p = inv_paid i && reversed_in_part p.
Proof.
  unfold partially_reversed, reversed_in_part.
  by destruct (inv_paid i); rewrite ?andb_true_r, ?andb_false_r.
Qed.

Lemma engine_full p : fully_reversed p = reversed_in_full p.
Proof. unfold fully_reversed, reversed_in_full. apply andb_comm. Qed.

Lemma engine_ratio u : usage_ratio_of u = used_share u.
Proof. reflexivity. Qed.

Lemma engine_heavy u : is_heavy_usage (usage_ratio_of u) = used_heavily u.
Proof. reflexivity. Qed.

Lemma engine_edge u : borderline_usage u = used_on_the_edge u.
Proof. by destruct u. Qed.

Lemma engine_delivered facts : is_delivered facts = delivered (bf_entitlement facts).
Proof. reflexivity. Qed.

Lemma contradictions_nil facts i p :
  contradictions facts i p = [] ↔
  (inv_paid i && reversed_in_part p) ||
  match bf_entitlement facts with
  | Some e => conflicting e (bf_subscription facts) | None => false end = false.
Proof.
  rewrite <- engine_partial, <- engine_mismatch.
  unfold contradictions. destruct (partially_reversed i p); [done|].
  destruct (ent_check facts) as [c|]; [|done]. by destruct (ec_mismatch c).
Qed.

Lemma contradictions_cons facts i p c l :
  contradictions facts i p = c :: l →
  (inv_paid i && reversed_in_part p) ||
  match bf_entitlement facts with
  | Some e => conflicting e (bf_subscription facts) | None => false end = true.
Proof.
  intros H. apply not_false_iff_true. intros E. apply contradictions_nil in E. congruence.
Qed.

Lemma mk_recommendation_ok r :
  in_unit (er_confidence r) = true → mk_recommendation r = Ok r.
Proof. unfold mk_recommendation. by intros ->. Qed.

Lemma within_window_spec now i :
  negb (within_window now i) = (30 <? timedelta_days (now - inv_issued_at i)).
Proof.
  unfold within_window, days_since_invoice, REFUND_WINDOW_DAYS.
  by rewrite Z.leb_antisym, negb_involutive.
Qed.

Lemma delivery_cited facts : delivery_references facts = cite "RP-003" (bf_entitlement facts).
Proof. by unfold delivery_references; destruct (bf_entitlement facts). Qed.

Lemma approval_cited facts :
  approval_references facts =
  cite "RP-003" (bf_entitlement facts) ++ ["RP-001"; "RP-002"] ++
  cite "RP-004" (bf_usage facts) ++ cite "RP-005" (bf_subscription facts).
Proof.
  unfold approval_references, delivery_references.
  by destruct (bf_entitlement facts), (bf_usage facts), (bf_subscription facts).
Qed.

Lemma NoDup_delivery_references facts :
  dict_fromkeys (delivery_references facts) = delivery_references facts.
Proof. unfold delivery_references. by destruct (bf_entitlement facts). Qed.

Lemma usage_denial_verdict now facts i p :
  binding_of (usage_denial now facts i p) = (gate_verdict now facts HeavyUsage, dec_zero).
Proof.
  unfold usage_denial, gate_verdict, binding_of, verdict_of. rewrite <- engine_edge.
  destruct (bf_subscription facts) as [[? [] ? ? ?]|]; cbn; done.
Qed.

Lemma usage_denial_unit now facts i p :
  in_unit (er_confidence (usage_denial now facts i p)) = true.
Proof.
  pose proof (usage_denial_verdict now facts i p) as H. injection H as _ -> _ _ _.
  cbn -[in_unit]. by destruct (used_on_the_edge _).
Qed.

Lemma approval_verdict now facts i p amount :
  bf_invoice facts = Some i →
  binding_of (approval now facts i p amount) = (gate_verdict now facts NotDelivered, amount).
Proof.
  intros Hi. unfold approval, gate_verdict, binding_of, verdict_of.
  unfold on_the_last_day. cbn -[borderline_usage approval_references used_on_the_edge].
  rewrite Hi, engine_edge.
  rewrite approval_cited.
  cbn -[used_on_the_edge cite].
  replace (borderline_window now i)
    with (bool_decide (Some (timedelta_days (now - inv_issued_at i)) = Some 30)); [done|].
  unfold borderline_window, days_since_invoice, REFUND_WINDOW_DAYS.
  destruct (Z.eqb_spec (timedelta_days (now - inv_issued_at i)) 30) as [->|Hn]; [done|].
  apply bool_decide_eq_false. congruence.
Qed.

Lemma approval_unit now facts i p amount :
  in_unit (er_confidence (approval now facts i p amount)) = true.
Proof. cbn -[in_unit]. by destruct (_ || _). Qed.

Lemma evaluate_policy now facts request policy :
  binding_of <$> evaluate now facts request policy = billing_policy now facts.
Proof.
  unfold evaluate, billing_policy, billing_gate, first_match, gate_amount.
  destruct (bf_invoice facts) as [i|] eqn:Hi; [|done].
  destruct (bf_payment facts) as [p|] eqn:Hp; [|done].
  unfold billing_rows. destruct (contradictions facts i p) as [|c l] eqn:Hc.
  2: { apply contradictions_cons in Hc. cbn [List.find fst]. rewrite Hc. done. }
  apply contradictions_nil in Hc. cbn [List.find fst]. rewrite Hc, <- within_window_spec.
  destruct (negb (within_window now i)); [done|].
  destruct (negb (inv_paid i)); [done|]. destruct (negb (pay_captured p)); [done|].
  rewrite engine_full, engine_heavy, engine_delivered.
  destruct (reversed_in_full p); [done|]. destruct (used_heavily _).
  { rewrite mk_recommendation_ok by apply usage_denial_unit.
    change (Ok (binding_of (usage_denial now facts i p)) =
            Ok (gate_verdict now facts HeavyUsage, dec_zero)).
    by rewrite usage_denial_verdict. }
  destruct (negb (delivered _)).
  - destruct (refundable p) as [amount|e]; cbn [mbind result_bind]; [|done].
    rewrite mk_recommendation_ok by apply approval_unit.
    change (Ok (binding_of (approval now facts i p amount)) =
            Ok (gate_verdict now facts NotDelivered, amount)).
    by rewrite (approval_verdict _ _ _ _ _ Hi).
  - unfold no_rule_recommendation. rewrite NoDup_delivery_references, delivery_cited. done.
Qed.

Lemma evaluate_ok now facts request policy r :
  evaluate now facts request policy = Ok r →
  verdict_of r = gate_verdict now facts (billing_gate now facts) ∧
  gate_amount facts (billing_gate now facts) = Ok (er_eligible_refund_amount r).
Proof.
  intros Hr. pose proof (evaluate_policy now facts request policy) as H.
  rewrite Hr in H. unfold billing_policy in H.
  destruct (gate_amount facts _) as [a|e]; [|discriminate].
  change (Ok (verdict_of r, er_eligible_refund_amount r) =
          Ok (gate_verdict now facts (billing_gate now facts), a)) in H.
  split; congruence.
Qed.

(** The confidence that refund-policy.md gives a row: its summary table, with 0.6 on the
    boundary of the policy that its step names - for a heavy-usage denial the last day
    of the window, for an approval either boundary. *)
Definition documented_confidence (now : datetime) (facts : BillingFacts) (g : BillingGate) : float :=
  match g with
  | Incomplete | NoRule => lit 2 10
  | Contradictory => lit 3 10
  | WindowExpired | Unpaid | Uncaptured | Reversed => lit 9 10
  | HeavyUsage => if on_the_last_day now facts then lit 6 10 else lit 9 10
  | NotDelivered =>
      if on_the_last_day now facts || used_on_the_edge (bf_usage facts) then lit 6 10 else lit 9 10
  end.

Lemma undocumented_confidence now facts g :
  (gate_verdict now facts g).1.1.2 ≠ documented_confidence now facts g ↔
  g = HeavyUsage ∧ on_the_last_day now facts ≠ used_on_the_edge (bf_usage facts).
Proof.
  assert (Hne : lit 6 10 ≠ lit 9 10) by (vm_compute; discriminate).
  destruct g; cbn -[lit]; try (split; [done|by intros [? _]]).
  destruct (on_the_last_day now facts), (used_on_the_edge _); naive_solver.
Qed.

(** C7 (refinement): the billing engine implements its decision list: on every input the
    recommendation, confidence, citations, review flag and refund amount are
    those of the first row that fires, and it fails exactly when the refund amount of
    that row does.  The confidence is the one that refund-policy.md documents for the row, with
    one exception, determined exactly: a heavy-usage denial of which one and only one
    holds, that it falls on the last day of the window (where the document has 0.6) or
    that the usage is on the edge of its threshold (where the engine has). *)
Theorem evaluate_refines_policy now facts request policy :
  binding_of <$> evaluate now facts request policy = billing_policy now facts ∧
  ∀ r, evaluate now facts request policy = Ok r →
    let g := billing_gate now facts in
    er_confidence r ≠ documented_confidence now facts g ↔
    g = HeavyUsage ∧ on_the_last_day now facts ≠ used_on_the_edge (bf_usage facts).
Proof.
  split; [apply evaluate_policy|]. intros r Hr. cbn zeta. rewrite <- undocumented_confidence.
  destruct (evaluate_ok _ _ _ _ _ Hr) as [<- _]. done.
Qed.

(** ** When a refund is approved *)

(** An entitlement record fit for approval: consistent, and nothing delivered. *)
Record clean_entitlement (e : Entitlement) (s : option Subscription) : Prop := {
  cen_used : ent_access_used e = true → ent_access_granted e = true;
  cen_cancelled : sub_status <$> s = Some sub_cancelled → ent_account_active e = false;
  cen_revoked : ent_status e = ent_revoked → ent_feature_enabled e = false;
  cen_delivered : ent_delivered e = false;
}.

(** The approval conditions, in no particular order, on the facts themselves. *)
Record approvable (now : datetime) (facts : BillingFacts) (i : Invoice) (p : Payment) : Prop := {
  apv_window : now < inv_issued_at i + days 31;
  apv_paid : inv_paid i = true;
  apv_captured : pay_captured p = true;
  apv_partial : reversed_in_part p = false;
  apv_reversed : reversed_in_full p = false;
  apv_entitlement : ∀ e, bf_entitlement facts = Some e → clean_entitlement e (bf_subscription facts);
  apv_usage : used_heavily (bf_usage facts) = false;
}.

Lemma clean_spec e s : clean_entitlement e s ↔ conflicting e s || ent_delivered e = false.
Proof.
  unfold conflicting. split.
  - intros [U C R D]. rewrite D, orb_false_r, !orb_false_iff, !andb_false_iff, negb_false_iff,
      !bool_decide_eq_false.
    destruct (ent_access_used e), (ent_account_active e), (ent_feature_enabled e); naive_solver.
  - rewrite !orb_false_iff, !andb_false_iff, negb_false_iff, !bool_decide_eq_false.
    intros [[[H1 H2] H3] H4]. split; [..|done]; naive_solver congruence.
Qed.

Lemma window_bound now i :
  (30 <? timedelta_days (now - inv_issued_at i)) = false ↔ now < inv_issued_at i + days 31.
Proof.
  unfold timedelta_days, days, microseconds_per_day. rewrite Z.ltb_ge.
  pose proof (Z.div_mod (now - inv_issued_at i) 86400000000).
  pose proof (Z.mod_pos_bound (now - inv_issued_at i) 86400000000).
  lia.
Qed.

Lemma gate_not_delivered now facts i p :
  bf_invoice facts = Some i → bf_payment facts = Some p →
  billing_gate now facts = NotDelivered ↔ approvable now facts i p.
Proof.
  intros Hi Hp. unfold billing_gate, first_match, billing_rows. rewrite Hi, Hp.
  cbn [List.find fst]. split.
  - destruct ((inv_paid i && reversed_in_part p) || _) eqn:E1; [done|].
    apply orb_false_iff in E1 as [E1 E2].
    destruct (30 <? timedelta_days (now - inv_issued_at i)) eqn:E3; [done|].
    destruct (inv_paid i) eqn:E4; [|done]. destruct (pay_captured p) eqn:E5; [|done].
    destruct (reversed_in_full p) eqn:E6; [done|]. destruct (used_heavily _) eqn:E7; [done|].
    destruct (delivered (bf_entitlement facts)) eqn:E8; [done|]. intros _. constructor; try done.
    + by apply window_bound.
    + intros e He. rewrite He in E2, E8. apply clean_spec. by rewrite E2.
  - intros [W P C R F E U]. apply window_bound in W. rewrite R, W, P, C, F, U. cbn [andb orb negb].
    destruct (bf_entitlement facts) as [e|]; [|done]. specialize (E e eq_refl).
    apply clean_spec, orb_false_iff in E as [-> E]. cbn [delivered orb]. by rewrite E.
Qed.

Lemma gate_known now facts g :
  billing_gate now facts = g → g ≠ Incomplete →
  ∃ i p, bf_invoice facts = Some i ∧ bf_payment facts = Some p.
Proof.
  unfold billing_gate. destruct (bf_invoice facts), (bf_payment facts); eauto; by intros <-.
Qed.

Lemma approved_gate now facts request policy r :
  evaluate now facts request policy = Ok r →
  er_recommendation r = APPROVE_FULL_REFUND → billing_gate now facts = NotDelivered.
Proof.
  intros Hr Ha. destruct (evaluate_ok _ _ _ _ _ Hr) as [Hv _].
  unfold verdict_of in Hv. rewrite Ha in Hv. by destruct (billing_gate now facts).
Qed.

(** Remark (functional): a full refund is approved exactly when the invoice is within
    31 days, paid, captured, not reversed, with a consistent entitlement record,
    without heavy usage, undelivered, and with a finite refundable amount; the
    recommendation then carries that amount. *)
Theorem approve_iff now facts request policy amount :
  (∃ r, evaluate now facts request policy = Ok r ∧
        er_recommendation r = APPROVE_FULL_REFUND ∧ er_eligible_refund_amount r = amount) ↔
  (∃ i p, bf_invoice facts = Some i ∧ bf_payment facts = Some p ∧
          approvable now facts i p ∧ refundable p = Ok amount).
Proof.
  split.
  - intros (r & Hr & Ha & <-). pose proof (approved_gate _ _ _ _ _ Hr Ha) as Hg.
    destruct (gate_known _ _ _ Hg) as (i & p & Hi & Hp); [done|].
    destruct (evaluate_ok _ _ _ _ _ Hr) as [_ Hm]. rewrite Hg in Hm. cbn in Hm. rewrite Hp in Hm.
    exists i, p. split_and!; try done. by apply gate_not_delivered.
  - intros (i & p & Hi & Hp & Hv & Hm). apply (gate_not_delivered _ _ _ _ Hi Hp) in Hv.
    pose proof (evaluate_policy now facts request policy) as H. unfold billing_policy in H.
    rewrite Hv in H. cbn [gate_amount] in H. rewrite Hp, Hm in H.
    destruct (evaluate now facts request policy) as [r|e]; [|discriminate].
    exists r. split; [done|]. unfold binding_of, verdict_of in H. cbn in H. split; congruence.
Qed.

(** C27 (safety): no double refund.  When a refund is approved on a payment with a
    positive amount and a reversed amount that is a number, nothing has been
    reversed yet. *)
Theorem no_double_refund now facts request policy r :
  evaluate now facts request policy = Ok r →
  er_recommendation r = APPROVE_FULL_REFUND →
  ∃ p, bf_payment facts = Some p ∧
    ((pay_amount p >? lit 0 1)%pf = true → is_nan (pay_reversed_amount p) = false →
     (pay_reversed_amount p <=? lit 0 1)%pf = true).
Proof.
  intros Hr Ha. pose proof (approved_gate _ _ _ _ _ Hr Ha) as Hg.
  destruct (gate_known _ _ _ Hg) as (i & p & Hi & Hp); [done|].
  apply (gate_not_delivered _ _ _ _ Hi Hp) in Hg. destruct Hg as [_ Hpaid _ Hpart Hfull _ _].
  exists p. split; [done|]. intros Hpos Hnan. unfold reversed_in_part, reversed_in_full in *.
  rewrite Hpos in Hfull. apply not_fle_flt in Hfull; [|..].
  - rewrite Hfull, !andb_true_r in Hpart. by apply not_flt_fle.
  - apply flt_fle, fle_not_nan in Hpos. tauto.
  - done.
Qed.

(** ** The clock *)

Lemma gate_later now now' facts :
  now <= now' →
  billing_gate now' facts = billing_gate now facts ∨
  billing_gate now' facts = WindowExpired ∧
  ∃ i, bf_invoice facts = Some i ∧ inv_issued_at i + days 31 <= now'.
Proof.
  intros Hle. unfold billing_gate. destruct (bf_invoice facts) as [i|]; [|by left].
  destruct (bf_payment facts) as [p|]; [|by left]. unfold first_match, billing_rows.
  cbn [List.find fst]. destruct ((inv_paid i && reversed_in_part p) || _); [by left|].
  destruct (30 <? timedelta_days (now' - inv_issued_at i)) eqn:E'.
  - right. split; [done|]. exists i. split; [done|].
    apply Z.nlt_ge. intros H%window_bound. congruence.
  - apply window_bound in E'. left.
    replace (30 <? timedelta_days (now - inv_issued_at i)) with false; [done|].
    symmetry. apply window_bound. lia.
Qed.

(** Remark (safety): time only closes the window.  Reading the same facts later gives
    the same recommendation, citations and amount, or the RP-001 denial once 31
    days have passed since the invoice. *)
Theorem time_only_closes_window now now' facts request policy r r' :
  now <= now' →
  evaluate now facts request policy = Ok r → evaluate now' facts request policy = Ok r' →
  (er_recommendation r' = er_recommendation r ∧ er_policy_references r' = er_policy_references r ∧
   er_eligible_refund_amount r' = er_eligible_refund_amount r) ∨
  (er_recommendation r' = DENY_REFUND_ ∧ er_policy_references r' = ["RP-001"] ∧
   ∃ i, bf_invoice facts = Some i ∧ inv_issued_at i + days 31 <= now').
Proof.
  intros Hle Hr Hr'. destruct (evaluate_ok _ _ _ _ _ Hr) as [Hv Hm].
  destruct (evaluate_ok _ _ _ _ _ Hr') as [Hv' Hm']. unfold verdict_of in *.
  destruct (gate_later _ _ facts Hle) as [Hg|[Hg Hi]].
  - left. rewrite Hg in Hv', Hm'. split_and!; [..|congruence];
      destruct (billing_gate now facts); cbn in Hv, Hv'; congruence.
  - right. rewrite Hg in Hv'. cbn in Hv'. split_and!; [congruence..|done].
Qed.

(** ** Well-formed recommendations *)

Definition rule_ids : list string := map rp_id (rp_rules REFUND_POLICY).

Record well_formed (r : EligibilityRecommendation) : Prop := {
  wf_confidence : in_unit (er_confidence r) = true;
  wf_references : ∀ id, id ∈ er_policy_references r → id ∈ "contradiction-gate" :: rule_ids;
  wf_nodup : NoDup (er_policy_references r);
  wf_review : er_requires_human_review r = true ↔
    er_recommendation r = MANUAL_REVIEW_ ∨ er_recommendation r = REQUEST_MORE_INFO;
  wf_full : er_recommendation r ≠ APPROVE_PARTIAL_REFUND;
  wf_amount : er_recommendation r ≠ APPROVE_FULL_REFUND → er_eligible_refund_amount r = dec_zero;
  wf_cited : er_recommendation r = DENY_REFUND_ → er_policy_references r ≠ [];
}.

(** Membership in concrete lists of rule ids. *)
Ltac solve_ids := unfold rule_ids in *; rewrite ?list_elem_of_In in *; cbn in *; tauto.

Lemma gate_references_known now facts id :
  id ∈ snd (fst (gate_verdict now facts (billing_gate now facts))) →
  id ∈ "contradiction-gate" :: rule_ids.
Proof.
  destruct (billing_gate now facts); cbn -[rule_ids cite]; try solve_ids.
  - destruct (bool_decide _); solve_ids.
  - destruct (bf_entitlement facts), (bf_usage facts), (bf_subscription facts); solve_ids.
  - destruct (bf_entitlement facts); solve_ids.
Qed.

Lemma gate_references_nodup now facts :
  NoDup (snd (fst (gate_verdict now facts (billing_gate now facts)))).
Proof.
  destruct (billing_gate now facts); cbn -[cite]; try (repeat constructor; solve_ids).
  - destruct (bool_decide _); repeat constructor; rewrite ?list_elem_of_In; cbn; intuition congruence.
  - rewrite <- approval_cited. apply NoDup_dict_fromkeys.
  - rewrite <- delivery_cited, <- NoDup_delivery_references. apply NoDup_dict_fromkeys.
Qed.

(** C34 (type): every recommendation the engine returns is well formed: a
    confidence between 0 and 1, distinct citations of rules the policy declares (or the
    contradiction gate), human review exactly for manual review and requests for
    information, no partial refunds, a non-zero amount only with an approval, and
    a cited rule for every denial. *)
Theorem evaluate_well_formed now facts request policy r :
  evaluate now facts request policy = Ok r → well_formed r.
Proof.
  intros Hr. destruct (evaluate_ok _ _ _ _ _ Hr) as [Hv Hm].
  pose proof (gate_references_known now facts) as Hk.
  pose proof (gate_references_nodup now facts) as Hn. rewrite <- Hv in Hk, Hn. cbn in Hk, Hn.
  unfold verdict_of in Hv. destruct (billing_gate now facts); cbn -[cite] in Hv, Hm;
    injection Hv as Hrec Hconf Href Hrev; constructor; try done;
    rewrite ?Hrec, ?Hconf, ?Href, ?Hrev; try (intuition congruence); by repeat case_match.
Qed.

(** ** The seeded purchases *)

Definition sample_billing_request (ref customer_id : string) : RefundEligibilityRequest := {|
  rer_case_id := 1; rer_ticket_id := "T-1"; rer_customer_id := customer_id;
  rer_requested_refund_amount := lit 4999 100; rer_purchase_reference := ref;
  rer_customer_message_summary := None; rer_policy_context := None;
|}.

(** The gate and the binding fields of a seeded purchase, read [later] after the
    dataset was built at [NOW]. *)
Definition seeded_outcome (NOW later : Z) (ref : string) :
    option (BillingGate * result (billing_verdict * Decimal)) :=
  facts ← load_facts NOW ref "";
  Some (billing_gate (NOW + later) facts,
        binding_of <$> evaluate (NOW + later) facts (sample_billing_request ref "") REFUND_POLICY).

Definition full_amount : Decimal := {| dec_sign := false; dec_coef := 4999; dec_exponent := -2 |}.

Definition expected_outcome (later : Z) (ref : string) :
    BillingGate * result (billing_verdict * Decimal) :=
  let approve := ["RP-003"; "RP-001"; "RP-002"; "RP-004"; "RP-005"] in
  if str_in ref ["PR-APPROVE"] then
    (NotDelivered, Ok (APPROVE_FULL_REFUND, lit 9 10, approve, false, full_amount))
  else if str_in ref ["PR-WINDOW-EXPIRED"] then
    (WindowExpired, Ok (DENY_REFUND_, lit 9 10, ["RP-001"], false, dec_zero))
  else if str_in ref ["PR-UNPAID"] then
    (Unpaid, Ok (DENY_REFUND_, lit 9 10, ["RP-002"], false, dec_zero))
  else if str_in ref ["PR-ALREADY-REFUNDED"] then
    (Reversed, Ok (DENY_REFUND_, lit 9 10, ["RP-002"], false, dec_zero))
  else if str_in ref ["PR-HEAVY-USAGE"] then
    (HeavyUsage, Ok (DENY_REFUND_, lit 9 10, ["RP-004"; "RP-005"], false, dec_zero))
  else if str_in ref ["PR-CONTRADICTION"] then
    (Contradictory, Ok (MANUAL_REVIEW_, lit 3 10, ["contradiction-gate"], true, dec_zero))
  else if later <? days 1 then
    (NotDelivered, Ok (APPROVE_FULL_REFUND, lit 6 10, approve, false, full_amount))
  else (WindowExpired, Ok (DENY_REFUND_, lit 9 10, ["RP-001"], false, dec_zero)).

Definition seeded_refs : list string :=
  ["PR-APPROVE"; "PR-WINDOW-EXPIRED"; "PR-UNPAID"; "PR-ALREADY-REFUNDED"; "PR-HEAVY-USAGE";
   "PR-CONTRADICTION"; "PR-BORDERLINE"].

(** A paid purchase whose subscription is cancelled while its entitlement is active, the
    contradiction refund-policy.md names. *)
Definition active_on_cancelled : BillingFacts :=
  facts_row (_subscription 0 "PR-X" sub_cancelled) (_invoice 0 "PR-X" 5 true)
    (_payment "PR-X" true (lit 0 1)) (_entitlement "PR-X" ent_active false false false false false)
    (_usage (lit 5 10)).

(** Remark (functional): an active entitlement on a cancelled subscription is no
    contradiction to the engine, which looks at [account_active] instead; with that flag
    off the purchase is refunded at full confidence. *)
Theorem active_on_cancelled_refunded request :
  verdict_of <$> evaluate (days 1) active_on_cancelled request REFUND_POLICY =
  Ok (APPROVE_FULL_REFUND, lit 9 10, ["RP-003"; "RP-001"; "RP-002"; "RP-004"; "RP-005"], false).
Proof. vm_compute. reflexivity. Qed.

(** Two readings of the same purchase agree when the invoices have the same age
    in days and the facts differ in nothing else the policy reads. *)
Lemma policy_age now now' s s' i i' p e u :
  timedelta_days (now - inv_issued_at i) = timedelta_days (now' - inv_issued_at i') →
  inv_paid i = inv_paid i' → sub_status s = sub_status s' →
  billing_gate now (facts_row s i p e u) = billing_gate now' (facts_row s' i' p e u) ∧
  billing_policy now (facts_row s i p e u) = billing_policy now' (facts_row s' i' p e u).
Proof.
  intros Ha Hp Hs.
  assert (Hg : billing_gate now (facts_row s i p e u) = billing_gate now' (facts_row s' i' p e u)).
  { unfold billing_gate, billing_rows, conflicting.
    cbn [facts_row bf_invoice bf_payment bf_entitlement bf_subscription fmap option_fmap option_map].
    by rewrite Ha, Hp, Hs. }
  split; [done|]. unfold billing_policy. rewrite Hg.
  destruct (billing_gate now' _); try reflexivity; unfold gate_verdict, on_the_last_day;
    cbn [facts_row bf_invoice bf_subscription bf_usage fmap option_fmap option_map].
  - by rewrite Hs.
  - by rewrite Ha.
Qed.

(** The whole days of a duration. *)
Lemma whole_days later : days (timedelta_days later) <= later < days (timedelta_days later + 1).
Proof.
  unfold timedelta_days, days, microseconds_per_day.
  pose proof (Z.div_mod later 86400000000). pose proof (Z.mod_pos_bound later 86400000000). lia.
Qed.

Lemma elapsed_days later n : 0 <= later < days n → timedelta_days later ∈ seqZ 0 n.
Proof.
  intros Hl. apply elem_of_seqZ. pose proof (whole_days later). unfold days, microseconds_per_day in *. lia.
Qed.

Lemma day_reached later n : (days n <=? later) = (n <=? timedelta_days later).
Proof.
  apply eq_bool_prop_intro. rewrite !Is_true_true, !Z.leb_le. pose proof (whole_days later).
  unfold days, microseconds_per_day in *. lia.
Qed.

Lemma age_shift NOW later n :
  timedelta_days (NOW + later - (NOW - days n)) =
  timedelta_days (days (timedelta_days later) - (0 - days n)).
Proof.
  unfold timedelta_days, days, microseconds_per_day.
  replace (NOW + later - (NOW - n * 86400000000)) with (later + n * 86400000000) by lia.
  replace (later / 86400000000 * 86400000000 - (0 - n * 86400000000))
    with ((later / 86400000000 + n) * 86400000000) by lia.
  by rewrite Z.div_add, Z.div_mul by lia.
Qed.

Lemma seeded_shift NOW later ref :
  ref ∈ seeded_refs →
  ∃ f f0, load_facts NOW ref "" = Some f ∧ load_facts 0 ref "" = Some f0 ∧
    billing_gate (NOW + later) f = billing_gate (days (timedelta_days later)) f0 ∧
    billing_policy (NOW + later) f = billing_policy (days (timedelta_days later)) f0.
Proof.
  intros H. apply list_elem_of_In in H. cbn in H.
  repeat destruct H as [<-|H]; try done;
    (eexists _, _; split; [reflexivity|]; split; [reflexivity|]; apply policy_age;
     [apply age_shift|reflexivity|reflexivity]).
Qed.

Definition table_row (d : Z) (ref : string) :
    option (BillingGate * result (billing_verdict * Decimal)) :=
  f ← load_facts 0 ref ""; Some (billing_gate (days d) f, billing_policy (days d) f).

Lemma seeded_table :
  Forall (λ d, Forall (λ ref, table_row d ref = Some (expected_outcome (days d) ref)) seeded_refs)
    (seqZ 0 25).
Proof. repeat (apply Forall_cons_2 || apply Forall_nil_2); vm_compute; reflexivity. Qed.

Lemma expected_outcome_day later ref :
  expected_outcome (days (timedelta_days later)) ref = expected_outcome later ref.
Proof.
  unfold expected_outcome. replace (days (timedelta_days later) <? days 1) with (later <? days 1);
    [done|].
  apply eq_bool_prop_intro. rewrite !Is_true_true, !Z.ltb_lt. pose proof (whole_days later).
  unfold days, microseconds_per_day in *. lia.
Qed.

(** Remark (functional): the gates and verdicts of the seeded purchases, whenever the
    dataset was built and for the 25 days that follow.  PR-BORDERLINE sits on the
    window's boundary: approved with confidence 0.6 on the first day, denied
    (RP-001) from the next on. *)
Theorem seeded_purchases NOW later ref :
  0 <= later < days 25 → ref ∈ seeded_refs →
  seeded_outcome NOW later ref = Some (expected_outcome later ref).
Proof.
  intros Hl Hr. destruct (seeded_shift NOW later ref Hr) as (f & f0 & Hf & Hf0 & Hg & Hp).
  unfold seeded_outcome. rewrite Hf. cbn [mbind option_bind].
  rewrite evaluate_policy, Hg, Hp, <- expected_outcome_day.
  pose proof (elapsed_days later 25 Hl) as Hd.
  pose proof seeded_table as Ht. rewrite Forall_forall in Ht. specialize (Ht _ Hd). cbv beta in Ht.
  rewrite Forall_forall in Ht. specialize (Ht _ Hr). unfold table_row in Ht. rewrite Hf0 in Ht.
  exact Ht.
Qed.

(** ** The pipeline *)

Definition billing_payload_wire (p : BillingRefundAnalysisCompletedPayload) :
    string * float * bool :=
  (bra_recommendation p, bra_confidence p, bra_requires_human_review p).

Definition billing_data_wire (d : list (string * pyval)) : option (string * float * bool) :=
  match dict_get "recommendation" d, dict_get "confidence" d,
        dict_get "requires_human_review" d with
  | Some (VStr r), Some (VFloat c), Some (VBool h) => Some (r, c, h)
  | _, _, _ => None
  end.

Definition recommendation_wire (r : EligibilityRecommendation) : string * float * bool :=
  (Recommendation_str (er_recommendation r), er_confidence r, er_requires_human_review r).

Lemma gate_confidence_unit now facts g :
  in_unit (snd (fst (fst (gate_verdict now facts g)))) = true.
Proof. destruct g; cbn -[in_unit lit]; by repeat case_match. Qed.

Lemma evaluate_unit now facts request policy r :
  evaluate now facts request policy = Ok r → in_unit (er_confidence r) = true.
Proof.
  intros Hr. destruct (evaluate_ok _ _ _ _ _ Hr) as [Hv _].
  pose proof (gate_confidence_unit now facts (billing_gate now facts)) as H.
  by rewrite <- Hv in H.
Qed.

Section Pipeline.
Context (model_validate : list (string * pyval) → result RefundEligibilityRequest).
Context {St : Type} `{!BillingFactStore St} (store : St).

(** Remark (functional): whatever the service recommends is delivered on both paths:
    the domain event and the A2A result are built without error, whatever the
    narrative, and carry the same recommendation, confidence and review flag;
    without a record for the purchase they ask for more information. *)
Theorem analysis_delivers now parts request rec facts narrative :
  analyze model_validate store now parts = Ok (request, rec, facts) →
  ∃ payload out data,
    build_result_payload request rec facts narrative = Ok payload ∧
    build_billing_output rec narrative = Ok out ∧
    first_data (msg_parts out) = Some data ∧
    billing_payload_wire payload = recommendation_wire rec ∧
    billing_data_wire data = Some (recommendation_wire rec) ∧
    bra_case_id payload = rer_case_id request ∧
    (facts = None → recommendation_wire rec = ("request_more_information", lit 2 10, true)).
Proof.
  intros H. assert (Hu : in_unit (er_confidence rec) = true ∧
    (facts = None → recommendation_wire rec = ("request_more_information", lit 2 10, true))).
  { unfold analyze in H. destruct (validate_billing_input model_validate parts) as [req|e];
      cbn in H; [|discriminate].
    destruct (store_load_facts store _ _) as [f|].
    - destruct (evaluate now f req REFUND_POLICY) as [r|e] eqn:He; cbn in H; [|discriminate].
      injection H as -> -> <-. split; [by eapply evaluate_unit|done].
    - injection H as -> <- <-. split; [reflexivity|reflexivity]. }
  destruct Hu as [Hu Hnone]. eexists _, _, _. split; [|split; [reflexivity|]].
  { unfold build_result_payload, mk_billing_result.
    change (bra_confidence _) with (er_confidence rec). rewrite Hu. reflexivity. }
  repeat split; done.
Qed.

(** Remark (error): the service fails exactly when the message has no data part, the
    data does not validate, or an approvable purchase has a non-finite
    refundable amount; no other input raises. *)
Theorem analyze_fails_iff now parts e :
  analyze model_validate store now parts = Err e ↔
  match first_data parts with
  | None => e = ValueError "No valid data part found in input parts (FR-011)"
  | Some d =>
      model_validate d = Err e ∨
      ∃ request facts i p,
        model_validate d = Ok request ∧
        store_load_facts store (rer_purchase_reference request) (rer_customer_id request) =
          Some facts ∧
        bf_invoice facts = Some i ∧ bf_payment facts = Some p ∧ approvable now facts i p ∧
        refundable p = Err e
  end.
Proof.
  unfold analyze, validate_billing_input. destruct (first_data parts) as [d|];
    [|cbn; split; congruence].
  destruct (model_validate d) as [req|e'] eqn:Hv; cbn.
  2: { split; [intros [= ->]; by left|]. intros [H|(? & ? & ? & ? & H & _)]; congruence. }
  destruct (store_load_facts store _ _) as [f|] eqn:Hf.
  2: { split; [discriminate|]. intros [H|(? & ? & ? & ? & [= <-] & H & _)]; congruence. }
  pose proof (evaluate_policy now f req REFUND_POLICY) as He. unfold billing_policy in He.
  split.
  - destruct (evaluate now f req REFUND_POLICY) as [r|e']; cbn; [discriminate|].
    intros [= ->]. right. unfold gate_amount in He.
    destruct (billing_gate now f) eqn:Hg; try (by destruct (bf_payment f)).
    destruct (gate_known _ _ _ Hg) as (i & p & Hi & Hp); [done|].
    exists req, f, i, p. rewrite Hp in He. split_and!; try done.
    + by apply gate_not_delivered.
    + destruct (refundable p); cbn in He; congruence.
  - intros [H|(req' & f' & i & p & [= <-] & Hf' & Hi & Hp & Ha & Hm)]; [discriminate|].
    assert (f' = f) as -> by congruence.
    apply (gate_not_delivered _ _ _ _ Hi Hp) in Ha. rewrite Ha in He.
    cbn [gate_amount] in He. rewrite Hp, Hm in He.
    destruct (evaluate now f req REFUND_POLICY); cbn in *; congruence.
Qed.
End Pipeline.

(** ** Witnesses *)

Definition facts_of (ref : string) : BillingFacts :=
  match load_facts 0 ref "" with
  | Some f => f
  | None => {| bf_subscription := None; bf_invoice := None; bf_payment := None;
               bf_entitlement := None; bf_usage := None |}
  end.

Definition recommendation_at (now : datetime) (ref : string) : EligibilityRecommendation :=
  match evaluate now (facts_of ref) (sample_billing_request ref "") REFUND_POLICY with
  | Ok r => r
  | Err _ => _missing_data_recommendation ref
  end.

Lemma no_double_refund_witness :
  ∃ p, bf_payment (facts_of "PR-APPROVE") = Some p ∧
    ((pay_amount p >? lit 0 1)%pf = true → is_nan (pay_reversed_amount p) = false →
     (pay_reversed_amount p <=? lit 0 1)%pf = true).
Proof.
  apply (no_double_refund 0 (facts_of "PR-APPROVE") (sample_billing_request "PR-APPROVE" "")
           REFUND_POLICY (recommendation_at 0 "PR-APPROVE")).
  - vm_compute. reflexivity.
  - vm_compute. reflexivity.
Defined.

Lemma time_only_closes_window_witness :
  let r := recommendation_at 0 "PR-BORDERLINE" in
  let r' := recommendation_at (days 1) "PR-BORDERLINE" in
  (er_recommendation r' = er_recommendation r ∧ er_policy_references r' = er_policy_references r ∧
   er_eligible_refund_amount r' = er_eligible_refund_amount r) ∨
  (er_recommendation r' = DENY_REFUND_ ∧ er_policy_references r' = ["RP-001"] ∧
   ∃ i, bf_invoice (facts_of "PR-BORDERLINE") = Some i ∧ inv_issued_at i + days 31 <= days 1).
Proof.
  apply (time_only_closes_window 0 (days 1) (facts_of "PR-BORDERLINE")
           (sample_billing_request "PR-BORDERLINE" "") REFUND_POLICY).
  - unfold days, microseconds_per_day. lia.
  - vm_compute. reflexivity.
  - vm_compute. reflexivity.
Defined.

Lemma evaluate_well_formed_witness : well_formed (recommendation_at 0 "PR-HEAVY-USAGE").
Proof.
  apply (evaluate_well_formed 0 (facts_of "PR-HEAVY-USAGE")
           (sample_billing_request "PR-HEAVY-USAGE" "") REFUND_POLICY).
  vm_compute. reflexivity.
Defined.

Lemma seeded_purchases_witness :
  seeded_outcome 1700000000000000 (days 1) "PR-BORDERLINE" =
  Some (WindowExpired, Ok (DENY_REFUND_, lit 9 10, ["RP-001"], false, dec_zero)).
Proof.
  apply (seeded_purchases 1700000000000000 (days 1) "PR-BORDERLINE").
  - unfold days, microseconds_per_day. lia.
  - apply str_in_spec. reflexivity.
Defined.

(** The request is fixed, as pydantic would parse it from the data part. *)
Definition validate_sample_billing (d : list (string * pyval)) :
    result RefundEligibilityRequest :=
  match dict_get "purchase_reference" d with
  | Some (VStr ref) => Ok (sample_billing_request ref "")
  | _ => Err (ValidationError "purchase_reference")
  end.

Lemma analysis_delivers_witness :
  ∃ payload out data,
    build_result_payload (sample_billing_request "PR-UNPAID" "")
      (recommendation_at 0 "PR-UNPAID") (Some (facts_of "PR-UNPAID")) None = Ok payload ∧
    build_billing_output (recommendation_at 0 "PR-UNPAID") None = Ok out ∧
    first_data (msg_parts out) = Some data ∧
    billing_payload_wire payload = recommendation_wire (recommendation_at 0 "PR-UNPAID") ∧
    billing_data_wire data = Some (recommendation_wire (recommendation_at 0 "PR-UNPAID")) ∧
    bra_case_id payload = 1 ∧
    (Some (facts_of "PR-UNPAID") = None →
     recommendation_wire (recommendation_at 0 "PR-UNPAID") =
       ("request_more_information", lit 2 10, true)).
Proof.
  apply (analysis_delivers validate_sample_billing {| seeded_at := 0 |} 0
           [data_part [("purchase_reference", VStr "PR-UNPAID")]]).
  vm_compute. reflexivity.
Defined.
