(* ===== verification/CaseModels.v ===== *)
(** * Customer-Resolution agent: the case model

    [apps/agents/customer_resolution/models.py] and the constants of [config.py]:
    the case lifecycle, the findings, the case record and its pure builders.  The
    case is a mutable object in the source; each attribute assignment is a
    [set_*] function here, and the store threads the object through
    [StateStore]. *)

From Stdlib Require Import ZArith Bool Ascii String List Lia.
From stdpp Require Import base list strings gmap.
From S2P Require Import Prelude.
From S2P Require Import PyFloat.
From S2P Require Import Contracts.

Open Scope string_scope.
Open Scope list_scope.
Open Scope Z_scope.

(** ** Configuration *)

Definition AGENT_ID : string := "customer-resolution-agent".
Definition AGENT_TENANT_ID : string := "poc".
Definition BILLING_CAPABILITY_ID : string := "analyze_refund_eligibility".
Definition BILLING_PEER_AGENT_ID : string := "billing-entitlement-agent".
Definition RISK_CAPABILITY_ID : string := "assess_fraud_risk".
Definition RISK_PEER_AGENT_ID : string := "risk-fraud-agent".

Definition CONFIDENCE_THRESHOLD : float := lit 6 10.
Definition DELEGATION_TIMEOUT_SECONDS : Z := 30.

(** [AGENT_CASE_DEADLINE_SECONDS] with its default value. *)
Definition CASE_DEADLINE_SECONDS : Z := 15.

Definition HUMAN_APPROVAL_OUTCOMES : list ResolutionOutcome := [ESCALATE_HUMAN; APPROVE_REFUND].

Definition INTERNAL_ONLY_DRAFT_FIELDS : list string :=
  ["rationale"; "escalation_reason"; "billing_summary"; "risk_summary"].

Definition FRAUD_SCORING_FIELDS : list string :=
  ["score"; "confidence"; "risk_level"; "evidence"; "reasoning_summary"].

Definition MAX_SUMMARY_LENGTH : nat := 200.

(** ** The case lifecycle *)

Inductive CaseStatus :=
| RECEIVED
| CLASSIFIED
| WAITING_FOR_PEER_REVIEWS
| READY_FOR_DECISION
| DECIDED
| RESPONSE_DRAFTED
| CLOSED
| ESCALATED
| FAILED.

#[export] Instance CaseStatus_eq_dec : EqDecision CaseStatus.
Proof. solve_decision. Defined.

Definition CaseStatus_value (s : CaseStatus) : string :=
  match s with
  | RECEIVED => "received"
  | CLASSIFIED => "classified"
  | WAITING_FOR_PEER_REVIEWS => "waiting_for_peer_reviews"
  | READY_FOR_DECISION => "ready_for_decision"
  | DECIDED => "decided"
  | RESPONSE_DRAFTED => "response_drafted"
  | CLOSED => "closed"
  | ESCALATED => "escalated"
  | FAILED => "failed"
  end.

Definition _ALLOWED_TRANSITIONS (s : CaseStatus) : list CaseStatus :=
  match s with
  | RECEIVED => [CLASSIFIED; READY_FOR_DECISION; ESCALATED; FAILED]
  | CLASSIFIED => [WAITING_FOR_PEER_REVIEWS; DECIDED; ESCALATED; FAILED]
  | WAITING_FOR_PEER_REVIEWS => [READY_FOR_DECISION; ESCALATED; FAILED]
  | READY_FOR_DECISION => [DECIDED; ESCALATED; FAILED]
  | DECIDED => [RESPONSE_DRAFTED; ESCALATED; FAILED]
  | RESPONSE_DRAFTED => [CLOSED; ESCALATED]
  | CLOSED | ESCALATED | FAILED => []
  end.

Definition _TERMINAL_STATUSES : list CaseStatus := [CLOSED; ESCALATED; FAILED].

Definition can_transition (from_status to_status : CaseStatus) : bool :=
  bool_decide (to_status ∈ _ALLOWED_TRANSITIONS from_status).

Definition assert_transition (from_status to_status : CaseStatus) : result unit :=
  if can_transition from_status to_status then Ok tt
  else Err (ValueError ("Illegal case transition: " +:+ CaseStatus_value from_status +:+ " → " +:+
                        CaseStatus_value to_status)).

Definition is_terminal (status : CaseStatus) : bool :=
  bool_decide (status ∈ _TERMINAL_STATUSES).

(** ** Findings *)

Record Triage := {
  tri_needs_refund_review : bool;
  tri_ambiguous : bool;
  tri_matched_signals : list string;
  tri_rationale : string;
  tri_issue_type : string;
  tri_confidence : float;
}.

Definition mk_triage (t : Triage) : result Triage :=
  if in_unit (tri_confidence t) then Ok t
  else Err (ValidationError "confidence must be in [0.0, 1.0]").

Inductive Eligibility := eligible | partial_ | ineligible | indeterminate.

#[export] Instance Eligibility_eq_dec : EqDecision Eligibility.
Proof. solve_decision. Defined.

Definition Eligibility_str (e : Eligibility) : string :=
  match e with
  | eligible => "eligible" | partial_ => "partial"
  | ineligible => "ineligible" | indeterminate => "indeterminate"
  end.

Record BillingFinding := {
  bfi_eligibility : Eligibility;
  bfi_requires_human_review : bool;
  bfi_confidence : option float;
  bfi_summary : string;
  bfi_performer_agent_id : string;
  bfi_task_id : option UUID;
}.

(** The properties [eligible] and [failed]. *)
Definition bfi_eligible (b : BillingFinding) : bool :=
  bool_decide (bfi_eligibility b = eligible).
Definition bfi_failed (b : BillingFinding) : bool := false.

Inductive FindingLevel := level_low | level_elevated | level_high.

#[export] Instance FindingLevel_eq_dec : EqDecision FindingLevel.
Proof. solve_decision. Defined.

Definition FindingLevel_str (l : FindingLevel) : string :=
  match l with
  | level_low => "low" | level_elevated => "elevated" | level_high => "high"
  end.

Record RiskFinding := {
  rfi_level : FindingLevel;
  rfi_requires_human_review : bool;
  rfi_score : option float;
  rfi_summary : string;
  rfi_performer_agent_id : string;
  rfi_task_id : option UUID;
}.

Definition rfi_failed (r : RiskFinding) : bool := false.

Record PolicyContext := {
  pc_max_auto_refund_amount : float;
  pc_partial_credit_fraction : float;
}.

Definition default_policy_context : PolicyContext :=
  {| pc_max_auto_refund_amount := lit 1000 1; pc_partial_credit_fraction := lit 5 10 |}.

Record TimeoutStatus := {
  ts_any_missing : bool;
  ts_missing_reviews : list string;
  ts_deadline_exceeded : bool;
}.

Record RiskAnalysisRequestInput := {
  ri_case_id : UUID;
  ri_ticket_id : string;
  ri_customer_id : string;
  ri_requested_refund_amount : float;
  ri_customer_message_summary : string;
}.

Record BillingAnalysisRequestInput := {
  bi_case_id : UUID;
  bi_ticket_id : string;
  bi_customer_id : string;
  bi_requested_refund_amount : float;
  bi_purchase_reference : string;
  bi_customer_message_summary : string;
  bi_policy_context : string;
}.

(** ** The case *)

Record ResolutionCase := mk_case {
  rc_case_id : UUID;
  rc_ticket_id : string;
  rc_customer_id : string;
  rc_correlation_id : UUID;
  rc_ticket_amount : float;
  rc_ticket_currency : string;
  rc_ticket_reason : string;
  rc_triage : option Triage;
  rc_billing_task_id : option UUID;
  rc_risk_task_id : option UUID;
  rc_pending_tasks : gset UUID;
  rc_billing_result : option BillingFinding;
  rc_risk_result : option RiskFinding;
  rc_billing_slot_failed : bool;
  rc_risk_slot_failed : bool;
  rc_billing_failure_reason : option string;
  rc_risk_failure_reason : option string;
  rc_billing_result_event_id : option UUID;
  rc_risk_result_event_id : option UUID;
  rc_status : CaseStatus;
  rc_status_detail : option string;
  rc_decided_event_id : option UUID;
  rc_drafted_event_id : option UUID;
  rc_created_at : datetime;
  rc_updated_at : datetime;
  rc_deadline_at : option datetime;
  rc_version : Z;
}.

(** Attribute assignments. *)

Definition set_triage (v : option Triage) (c : ResolutionCase) : ResolutionCase :=
  mk_case (rc_case_id c) (rc_ticket_id c) (rc_customer_id c) (rc_correlation_id c)
    (rc_ticket_amount c) (rc_ticket_currency c) (rc_ticket_reason c) v
    (rc_billing_task_id c) (rc_risk_task_id c) (rc_pending_tasks c) (rc_billing_result c)
    (rc_risk_result c) (rc_billing_slot_failed c) (rc_risk_slot_failed c)
    (rc_billing_failure_reason c) (rc_risk_failure_reason c) (rc_billing_result_event_id c)
    (rc_risk_result_event_id c) (rc_status c) (rc_status_detail c) (rc_decided_event_id c)
    (rc_drafted_event_id c) (rc_created_at c) (rc_updated_at c) (rc_deadline_at c)
    (rc_version c).

Definition set_billing_task_id (v : option UUID) (c : ResolutionCase) : ResolutionCase :=
  mk_case (rc_case_id c) (rc_ticket_id c) (rc_customer_id c) (rc_correlation_id c)
    (rc_ticket_amount c) (rc_ticket_currency c) (rc_ticket_reason c) (rc_triage c) v
    (rc_risk_task_id c) (rc_pending_tasks c) (rc_billing_result c) (rc_risk_result c)
    (rc_billing_slot_failed c) (rc_risk_slot_failed c) (rc_billing_failure_reason c)
    (rc_risk_failure_reason c) (rc_billing_result_event_id c) (rc_risk_result_event_id c)
    (rc_status c) (rc_status_detail c) (rc_decided_event_id c) (rc_drafted_event_id c)
    (rc_created_at c) (rc_updated_at c) (rc_deadline_at c) (rc_version c).

Definition set_risk_task_id (v : option UUID) (c : ResolutionCase) : ResolutionCase :=
  mk_case (rc_case_id c) (rc_ticket_id c) (rc_customer_id c) (rc_correlation_id c)
    (rc_ticket_amount c) (rc_ticket_currency c) (rc_ticket_reason c) (rc_triage c)
    (rc_billing_task_id c) v (rc_pending_tasks c) (rc_billing_result c) (rc_risk_result c)
    (rc_billing_slot_failed c) (rc_risk_slot_failed c) (rc_billing_failure_reason c)
    (rc_risk_failure_reason c) (rc_billing_result_event_id c) (rc_risk_result_event_id c)
    (rc_status c) (rc_status_detail c) (rc_decided_event_id c) (rc_drafted_event_id c)
    (rc_created_at c) (rc_updated_at c) (rc_deadline_at c) (rc_version c).

Definition set_pending_tasks (v : gset UUID) (c : ResolutionCase) : ResolutionCase :=
  mk_case (rc_case_id c) (rc_ticket_id c) (rc_customer_id c) (rc_correlation_id c)
    (rc_ticket_amount c) (rc_ticket_currency c) (rc_ticket_reason c) (rc_triage c)
    (rc_billing_task_id c) (rc_risk_task_id c) v (rc_billing_result c) (rc_risk_result c)
    (rc_billing_slot_failed c) (rc_risk_slot_failed c) (rc_billing_failure_reason c)
    (rc_risk_failure_reason c) (rc_billing_result_event_id c) (rc_risk_result_event_id c)
    (rc_status c) (rc_status_detail c) (rc_decided_event_id c) (rc_drafted_event_id c)
    (rc_created_at c) (rc_updated_at c) (rc_deadline_at c) (rc_version c).

Definition set_billing_result (v : option BillingFinding) (c : ResolutionCase) : ResolutionCase :=
  mk_case (rc_case_id c) (rc_ticket_id c) (rc_customer_id c) (rc_correlation_id c)
    (rc_ticket_amount c) (rc_ticket_currency c) (rc_ticket_reason c) (rc_triage c)
    (rc_billing_task_id c) (rc_risk_task_id c) (rc_pending_tasks c) v (rc_risk_result c)
    (rc_billing_slot_failed c) (rc_risk_slot_failed c) (rc_billing_failure_reason c)
    (rc_risk_failure_reason c) (rc_billing_result_event_id c) (rc_risk_result_event_id c)
    (rc_status c) (rc_status_detail c) (rc_decided_event_id c) (rc_drafted_event_id c)
    (rc_created_at c) (rc_updated_at c) (rc_deadline_at c) (rc_version c).

Definition set_risk_result (v : option RiskFinding) (c : ResolutionCase) : ResolutionCase :=
  mk_case (rc_case_id c) (rc_ticket_id c) (rc_customer_id c) (rc_correlation_id c)
    (rc_ticket_amount c) (rc_ticket_currency c) (rc_ticket_reason c) (rc_triage c)
    (rc_billing_task_id c) (rc_risk_task_id c) (rc_pending_tasks c) (rc_billing_result c) v
    (rc_billing_slot_failed c) (rc_risk_slot_failed c) (rc_billing_failure_reason c)
    (rc_risk_failure_reason c) (rc_billing_result_event_id c) (rc_risk_result_event_id c)
    (rc_status c) (rc_status_detail c) (rc_decided_event_id c) (rc_drafted_event_id c)
    (rc_created_at c) (rc_updated_at c) (rc_deadline_at c) (rc_version c).

Definition set_billing_slot_failed (v : bool) (c : ResolutionCase) : ResolutionCase :=
  mk_case (rc_case_id c) (rc_ticket_id c) (rc_customer_id c) (rc_correlation_id c)
    (rc_ticket_amount c) (rc_ticket_currency c) (rc_ticket_reason c) (rc_triage c)
    (rc_billing_task_id c) (rc_risk_task_id c) (rc_pending_tasks c) (rc_billing_result c)
    (rc_risk_result c) v (rc_risk_slot_failed c) (rc_billing_failure_reason c)
    (rc_risk_failure_reason c) (rc_billing_result_event_id c) (rc_risk_result_event_id c)
    (rc_status c) (rc_status_detail c) (rc_decided_event_id c) (rc_drafted_event_id c)
    (rc_created_at c) (rc_updated_at c) (rc_deadline_at c) (rc_version c).

Definition set_risk_slot_failed (v : bool) (c : ResolutionCase) : ResolutionCase :=
  mk_case (rc_case_id c) (rc_ticket_id c) (rc_customer_id c) (rc_correlation_id c)
    (rc_ticket_amount c) (rc_ticket_currency c) (rc_ticket_reason c) (rc_triage c)
    (rc_billing_task_id c) (rc_risk_task_id c) (rc_pending_tasks c) (rc_billing_result c)
    (rc_risk_result c) (rc_billing_slot_failed c) v (rc_billing_failure_reason c)
    (rc_risk_failure_reason c) (rc_billing_result_event_id c) (rc_risk_result_event_id c)
    (rc_status c) (rc_status_detail c) (rc_decided_event_id c) (rc_drafted_event_id c)
    (rc_created_at c) (rc_updated_at c) (rc_deadline_at c) (rc_version c).

Definition set_billing_failure_reason (v : option string) (c : ResolutionCase) : ResolutionCase :=
  mk_case (rc_case_id c) (rc_ticket_id c) (rc_customer_id c) (rc_correlation_id c)
    (rc_ticket_amount c) (rc_ticket_currency c) (rc_ticket_reason c) (rc_triage c)
    (rc_billing_task_id c) (rc_risk_task_id c) (rc_pending_tasks c) (rc_billing_result c)
    (rc_risk_result c) (rc_billing_slot_failed c) (rc_risk_slot_failed c) v
    (rc_risk_failure_reason c) (rc_billing_result_event_id c) (rc_risk_result_event_id c)
    (rc_status c) (rc_status_detail c) (rc_decided_event_id c) (rc_drafted_event_id c)
    (rc_created_at c) (rc_updated_at c) (rc_deadline_at c) (rc_version c).

Definition set_risk_failure_reason (v : option string) (c : ResolutionCase) : ResolutionCase :=
  mk_case (rc_case_id c) (rc_ticket_id c) (rc_customer_id c) (rc_correlation_id c)
    (rc_ticket_amount c) (rc_ticket_currency c) (rc_ticket_reason c) (rc_triage c)
    (rc_billing_task_id c) (rc_risk_task_id c) (rc_pending_tasks c) (rc_billing_result c)
    (rc_risk_result c) (rc_billing_slot_failed c) (rc_risk_slot_failed c)
    (rc_billing_failure_reason c) v (rc_billing_result_event_id c)
    (rc_risk_result_event_id c) (rc_status c) (rc_status_detail c) (rc_decided_event_id c)
    (rc_drafted_event_id c) (rc_created_at c) (rc_updated_at c) (rc_deadline_at c)
    (rc_version c).

Definition set_billing_result_event_id (v : option UUID) (c : ResolutionCase) : ResolutionCase :=
  mk_case (rc_case_id c) (rc_ticket_id c) (rc_customer_id c) (rc_correlation_id c)
    (rc_ticket_amount c) (rc_ticket_currency c) (rc_ticket_reason c) (rc_triage c)
    (rc_billing_task_id c) (rc_risk_task_id c) (rc_pending_tasks c) (rc_billing_result c)
    (rc_risk_result c) (rc_billing_slot_failed c) (rc_risk_slot_failed c)
    (rc_billing_failure_reason c) (rc_risk_failure_reason c) v (rc_risk_result_event_id c)
    (rc_status c) (rc_status_detail c) (rc_decided_event_id c) (rc_drafted_event_id c)
    (rc_created_at c) (rc_updated_at c) (rc_deadline_at c) (rc_version c).

Definition set_risk_result_event_id (v : option UUID) (c : ResolutionCase) : ResolutionCase :=
  mk_case (rc_case_id c) (rc_ticket_id c) (rc_customer_id c) (rc_correlation_id c)
    (rc_ticket_amount c) (rc_ticket_currency c) (rc_ticket_reason c) (rc_triage c)
    (rc_billing_task_id c) (rc_risk_task_id c) (rc_pending_tasks c) (rc_billing_result c)
    (rc_risk_result c) (rc_billing_slot_failed c) (rc_risk_slot_failed c)
    (rc_billing_failure_reason c) (rc_risk_failure_reason c) (rc_billing_result_event_id c)
    v (rc_status c) (rc_status_detail c) (rc_decided_event_id c) (rc_drafted_event_id c)
    (rc_created_at c) (rc_updated_at c) (rc_deadline_at c) (rc_version c).

Definition set_status (v : CaseStatus) (c : ResolutionCase) : ResolutionCase :=
  mk_case (rc_case_id c) (rc_ticket_id c) (rc_customer_id c) (rc_correlation_id c)
    (rc_ticket_amount c) (rc_ticket_currency c) (rc_ticket_reason c) (rc_triage c)
    (rc_billing_task_id c) (rc_risk_task_id c) (rc_pending_tasks c) (rc_billing_result c)
    (rc_risk_result c) (rc_billing_slot_failed c) (rc_risk_slot_failed c)
    (rc_billing_failure_reason c) (rc_risk_failure_reason c) (rc_billing_result_event_id c)
    (rc_risk_result_event_id c) v (rc_status_detail c) (rc_decided_event_id c)
    (rc_drafted_event_id c) (rc_created_at c) (rc_updated_at c) (rc_deadline_at c)
    (rc_version c).

Definition set_decided_event_id (v : option UUID) (c : ResolutionCase) : ResolutionCase :=
  mk_case (rc_case_id c) (rc_ticket_id c) (rc_customer_id c) (rc_correlation_id c)
    (rc_ticket_amount c) (rc_ticket_currency c) (rc_ticket_reason c) (rc_triage c)
    (rc_billing_task_id c) (rc_risk_task_id c) (rc_pending_tasks c) (rc_billing_result c)
    (rc_risk_result c) (rc_billing_slot_failed c) (rc_risk_slot_failed c)
    (rc_billing_failure_reason c) (rc_risk_failure_reason c) (rc_billing_result_event_id c)
    (rc_risk_result_event_id c) (rc_status c) (rc_status_detail c) v (rc_drafted_event_id c)
    (rc_created_at c) (rc_updated_at c) (rc_deadline_at c) (rc_version c).

Definition set_drafted_event_id (v : option UUID) (c : ResolutionCase) : ResolutionCase :=
  mk_case (rc_case_id c) (rc_ticket_id c) (rc_customer_id c) (rc_correlation_id c)
    (rc_ticket_amount c) (rc_ticket_currency c) (rc_ticket_reason c) (rc_triage c)
    (rc_billing_task_id c) (rc_risk_task_id c) (rc_pending_tasks c) (rc_billing_result c)
    (rc_risk_result c) (rc_billing_slot_failed c) (rc_risk_slot_failed c)
    (rc_billing_failure_reason c) (rc_risk_failure_reason c) (rc_billing_result_event_id c)
    (rc_risk_result_event_id c) (rc_status c) (rc_status_detail c) (rc_decided_event_id c) v
    (rc_created_at c) (rc_updated_at c) (rc_deadline_at c) (rc_version c).

Definition set_updated_at (v : datetime) (c : ResolutionCase) : ResolutionCase :=
  mk_case (rc_case_id c) (rc_ticket_id c) (rc_customer_id c) (rc_correlation_id c)
    (rc_ticket_amount c) (rc_ticket_currency c) (rc_ticket_reason c) (rc_triage c)
    (rc_billing_task_id c) (rc_risk_task_id c) (rc_pending_tasks c) (rc_billing_result c)
    (rc_risk_result c) (rc_billing_slot_failed c) (rc_risk_slot_failed c)
    (rc_billing_failure_reason c) (rc_risk_failure_reason c) (rc_billing_result_event_id c)
    (rc_risk_result_event_id c) (rc_status c) (rc_status_detail c) (rc_decided_event_id c)
    (rc_drafted_event_id c) (rc_created_at c) v (rc_deadline_at c) (rc_version c).

Definition set_deadline_at (v : option datetime) (c : ResolutionCase) : ResolutionCase :=
  mk_case (rc_case_id c) (rc_ticket_id c) (rc_customer_id c) (rc_correlation_id c)
    (rc_ticket_amount c) (rc_ticket_currency c) (rc_ticket_reason c) (rc_triage c)
    (rc_billing_task_id c) (rc_risk_task_id c) (rc_pending_tasks c) (rc_billing_result c)
    (rc_risk_result c) (rc_billing_slot_failed c) (rc_risk_slot_failed c)
    (rc_billing_failure_reason c) (rc_risk_failure_reason c) (rc_billing_result_event_id c)
    (rc_risk_result_event_id c) (rc_status c) (rc_status_detail c) (rc_decided_event_id c)
    (rc_drafted_event_id c) (rc_created_at c) (rc_updated_at c) v (rc_version c).

Definition set_version (v : Z) (c : ResolutionCase) : ResolutionCase :=
  mk_case (rc_case_id c) (rc_ticket_id c) (rc_customer_id c) (rc_correlation_id c)
    (rc_ticket_amount c) (rc_ticket_currency c) (rc_ticket_reason c) (rc_triage c)
    (rc_billing_task_id c) (rc_risk_task_id c) (rc_pending_tasks c) (rc_billing_result c)
    (rc_risk_result c) (rc_billing_slot_failed c) (rc_risk_slot_failed c)
    (rc_billing_failure_reason c) (rc_risk_failure_reason c) (rc_billing_result_event_id c)
    (rc_risk_result_event_id c) (rc_status c) (rc_status_detail c) (rc_decided_event_id c)
    (rc_drafted_event_id c) (rc_created_at c) (rc_updated_at c) (rc_deadline_at c) v.

(** [is_ready_to_decide] *)
Definition is_ready_to_decide (case : ResolutionCase) : bool :=
  if rc_billing_slot_failed case || rc_risk_slot_failed case then true
  else bool_decide (rc_pending_tasks case = ∅).

Definition needs_refund_review (case : ResolutionCase) : bool :=
  match rc_triage case with Some t => tri_needs_refund_review t | None => false end.

(** The case [get_or_create] builds; the other fields have their defaults. *)
Definition new_case (case_id : UUID) (ticket_id customer_id : string) (correlation_id : UUID)
    (amount : float) (currency reason : string) (created_at : datetime) : ResolutionCase := {|
  rc_case_id := case_id;
  rc_ticket_id := ticket_id;
  rc_customer_id := customer_id;
  rc_correlation_id := correlation_id;
  rc_ticket_amount := amount;
  rc_ticket_currency := currency;
  rc_ticket_reason := reason;
  rc_triage := None;
  rc_billing_task_id := None;
  rc_risk_task_id := None;
  rc_pending_tasks := ∅;
  rc_billing_result := None;
  rc_risk_result := None;
  rc_billing_slot_failed := false;
  rc_risk_slot_failed := false;
  rc_billing_failure_reason := None;
  rc_risk_failure_reason := None;
  rc_billing_result_event_id := None;
  rc_risk_result_event_id := None;
  rc_status := RECEIVED;
  rc_status_detail := None;
  rc_decided_event_id := None;
  rc_drafted_event_id := None;
  rc_created_at := created_at;
  rc_updated_at := created_at;
  rc_deadline_at := None;
  rc_version := 0;
|}.

Definition build_risk_request_input (case : ResolutionCase) : RiskAnalysisRequestInput := {|
  ri_case_id := rc_correlation_id case;
  ri_ticket_id := rc_ticket_id case;
  ri_customer_id := rc_customer_id case;
  ri_requested_refund_amount := rc_ticket_amount case;
  ri_customer_message_summary := rc_ticket_reason case;
|}.

Definition build_billing_request_input (case : ResolutionCase) : BillingAnalysisRequestInput := {|
  bi_case_id := rc_correlation_id case;
  bi_ticket_id := rc_ticket_id case;
  bi_customer_id := rc_customer_id case;
  bi_requested_refund_amount := rc_ticket_amount case;
  bi_purchase_reference := rc_ticket_id case;
  bi_customer_message_summary := rc_ticket_reason case;
  bi_policy_context := "standard";
|}.

(** [t and t in pending_tasks] (a UUID is truthy). *)
Definition task_pending (task : option UUID) (case : ResolutionCase) : bool :=
  match task with Some t => bool_decide (t ∈ rc_pending_tasks case) | None => false end.

Definition build_timeout_status (case : ResolutionCase) (now : datetime) : TimeoutStatus :=
  let missing :=
    (if task_pending (rc_billing_task_id case) case then ["billing"] else []) ++
    (if task_pending (rc_risk_task_id case) case then ["risk"] else []) in
  {| ts_any_missing := 0 <? Z.of_nat (length missing);
     ts_missing_reviews := missing;
     ts_deadline_exceeded :=
       match rc_deadline_at case with Some d => d <? now | None => false end |}.

(** ** Lemmas on the lifecycle *)

Lemma is_terminal_spec s : is_terminal s = true ↔ s = CLOSED ∨ s = ESCALATED ∨ s = FAILED.
Proof. destruct s; cbn; intuition discriminate. Qed.

Lemma terminal_no_transition s t : is_terminal s = true → can_transition s t = false.
Proof. by destruct s, t. Qed.

Lemma ready_spec case :
  is_ready_to_decide case = true ↔
  rc_billing_slot_failed case = true ∨ rc_risk_slot_failed case = true ∨
  rc_pending_tasks case = ∅.
Proof.
  unfold is_ready_to_decide. destruct (rc_billing_slot_failed case), (rc_risk_slot_failed case);
    cbn; rewrite ?bool_decide_eq_true; intuition congruence.
Qed.
