(* ===== verification/Drafter.v ===== *)
(** * Customer-Resolution agent: response drafting

    [apps/agents/customer_resolution/response_drafter.py]: the templates, the
    internal-leak guard and the two builders.  The LLM-assisted drafter is
    in [LlmDrafter]. *)

From Stdlib Require Import ZArith Bool Ascii String List.
From stdpp Require Import base list strings gmap.
From S2P Require Import Prelude.
From S2P Require Import PyFloat.
From S2P Require Import Contracts.
From S2P Require Import CaseModels.

Open Scope string_scope.
Open Scope list_scope.
Open Scope Z_scope.

Definition _OUTCOME_TO_RESPONSE_TYPE (o : ResolutionOutcome) : string :=
  match o with
  | APPROVE_REFUND => "refund_confirmation"
  | DENY_REFUND => "refund_denial"
  | ESCALATE_HUMAN => "escalation_acknowledgement"
  | DIRECT_RESPONSE => "direct_answer"
  | OFFER_PARTIAL_CREDIT => "partial_credit_offer"
  | REQUEST_MORE_INFORMATION => "information_request"
  end.


Record ToneConfig := {
  tone_brand_name : string;
  tone_greeting : string;
  tone_signoff : string;
  tone_formality : string;
  tone_apologetic : bool;
}.

Definition DEFAULT_TONE : ToneConfig := {|
  tone_brand_name := "Support";
  tone_greeting := "Dear Customer,";
  tone_signoff := "Best regards," +:+ newline +:+ "The Support Team";
  tone_formality := "friendly";
  tone_apologetic := true;
|}.

Record AllowedFacts := {
  af_refund_amount : option float;
  af_currency : option string;
  af_order_reference : option string;
  af_billing_outcome_summary : option string;
  af_eligibility : option bool;
}.

Record ResponseDraft := {
  rd_subject : string;
  rd_body : string;
  rd_response_type : string;
  rd_requires_human_approval : bool;
}.

(** [ResponseDraft.validate_draft] *)
Definition mk_draft (d : ResponseDraft) : result ResponseDraft :=
  if negb (str_truthy (py_strip (rd_subject d)))
  then Err (ValidationError "subject must be non-empty")
  else if negb (str_truthy (py_strip (rd_body d)))
  then Err (ValidationError "body must be non-empty")
  else Ok d.

Definition _TEMPLATES (o : ResolutionOutcome) : string :=
  match o with
  | APPROVE_REFUND =>
      "We have reviewed your request and are pleased to approve your refund. " +:+
      "Please allow 3-5 business days for the amount to appear in your account."
  | DENY_REFUND =>
      "We have reviewed your request. Based on our review, we are unable to process " +:+
      "a refund at this time. If you have further questions, please contact our support team."
  | ESCALATE_HUMAN =>
      "Thank you for contacting us. Your case has been forwarded to a specialist " +:+
      "who will review your request and reach out to you shortly."
  | DIRECT_RESPONSE =>
      "Thank you for reaching out. Our team is happy to assist you. " +:+
      "Please let us know if you need any further information."
  | OFFER_PARTIAL_CREDIT =>
      "We have reviewed your request. We are able to offer a partial credit " +:+
      "to your account as a resolution. A specialist will reach out with details."
  | REQUEST_MORE_INFORMATION =>
      "Thank you for contacting us. To better assist you, we need some additional " +:+
      "information. A support specialist will be in touch shortly."
  end.

(** The first field of the list that occurs in the text. *)
Definition leaked_field (fields : list string) (text : string) : option string :=
  List.find (λ field, py_contains field (py_lower text)) fields.

Definition _assert_no_internal_leak (text : string) : result unit :=
  match leaked_field INTERNAL_ONLY_DRAFT_FIELDS text with
  | Some field =>
      Err (ValueError ("Internal field '" +:+ field +:+ "' leaked into customer draft"))
  | None =>
      match leaked_field FRAUD_SCORING_FIELDS text with
      | Some field =>
          Err (ValueError ("Fraud-scoring field '" +:+ field +:+ "' leaked into customer draft"))
      | None => Ok tt
      end
  end.

(** [draft_customer_response(outcome, ...)]; the other arguments are not read. *)
Definition draft_customer_response (outcome : ResolutionOutcome) : result string :=
  let text := _TEMPLATES outcome in
  _ ← _assert_no_internal_leak text;
  Ok text.

Definition DRAFTED_BY_AGENT_ID : string := "customer-resolution-agent".

(** [build_response_drafted_payload]; of the decision envelope it reads the
    correlation id and the event id. *)
Definition build_response_drafted_payload (decision : CustomerResponseDecisionPayload)
    (correlation_id event_id : UUID) (requires_human_approval : bool) (drafted_at : datetime) :
    result CustomerResponseDraftedPayload :=
  mk_drafted {|
    drf_case_id := correlation_id;
    drf_ticket_id := crd_ticket_id decision;
    drf_customer_id := crd_customer_id decision;
    drf_decision_event_id := event_id;
    drf_outcome := crd_outcome decision;
    drf_draft_response := crd_customer_response decision;
    drf_requires_human_approval := requires_human_approval;
    drf_drafted_by_agent_id := DRAFTED_BY_AGENT_ID;
    drf_drafted_at := drafted_at;
  |}.

Definition build_allowed_facts (ticket_amount : float) (ticket_currency ticket_id : string)
    (billing : option BillingFinding) : AllowedFacts := {|
  af_refund_amount := Some ticket_amount;
  af_currency := Some ticket_currency;
  af_order_reference := Some ticket_id;
  af_billing_outcome_summary :=
    match billing with
    | Some b => if str_truthy (bfi_summary b) then Some (bfi_summary b) else None
    | None => None
    end;
  af_eligibility := bfi_eligible <$> billing;
|}.

Definition response_body (outcome : ResolutionOutcome) (facts : AllowedFacts) : string :=
  let body := _TEMPLATES outcome in
  match af_refund_amount facts with
  | Some amount =>
      if float_truthy amount && bool_decide (outcome ∈ [APPROVE_REFUND; OFFER_PARTIAL_CREDIT])
      then py_strip (body +:+ " Amount: " +:+ py_repr_float amount +:+ " " +:+
                     default "" (af_currency facts))
      else body
  | None => body
  end.

Definition draft_structured_response (outcome : ResolutionOutcome) (facts : AllowedFacts)
    (tone_config : option ToneConfig) : result ResponseDraft :=
  let tone := default DEFAULT_TONE tone_config in
  let body := response_body outcome facts in
  _ ← _assert_no_internal_leak body;
  mk_draft {|
    rd_subject := tone_brand_name tone +:+ ": Your support request has been reviewed";
    rd_body :=
      tone_greeting tone +:+ newline +:+ newline +:+ body +:+ newline +:+ newline +:+
      tone_signoff tone;
    rd_response_type := _OUTCOME_TO_RESPONSE_TYPE outcome;
    rd_requires_human_approval := bool_decide (outcome ∈ HUMAN_APPROVAL_OUTCOMES);
  |}.

Definition minimize_summary (text : string) : string :=
  if negb (str_truthy text) then "" else py_take MAX_SUMMARY_LENGTH text.

(** ** Every template passes the guard *)

Lemma draft_customer_response_ok o : draft_customer_response o = Ok (_TEMPLATES o).
Proof. by destruct o; vm_compute. Qed.

Lemma template_nonempty o : str_truthy (py_strip (_TEMPLATES o)) = true.
Proof. by destruct o; vm_compute. Qed.
