(* ===== verification/Classifier.v ===== *)
(** * Customer-Resolution agent: ticket classification

    [apps/agents/customer_resolution/ticket_classifier.py].  The vocabulary is a
    frozenset in the source, whose iteration order Python does not fix: the order
    is an argument, any permutation of [REFUND_INTENT_SIGNALS]. *)

From Stdlib Require Import ZArith Bool Ascii String List Lia.
From stdpp Require Import base list strings gmap.
From S2P Require Import Prelude.
From S2P Require Import PyFloat.
From S2P Require Import Contracts.
From S2P Require Import CaseModels.

Open Scope string_scope.
Open Scope list_scope.
Open Scope Z_scope.

Definition REFUND_INTENT_SIGNALS : list string :=
  [ "refund"; "refunded"; "charged"; "charge"; "overcharge"; "overcharged"; "double charged";
    "double-charged"; "charged twice"; "dispute"; "disputed"; "chargeback"; "money back";
    "reimburse"; "reimbursement"; "billing error"; "wrong amount"; "cancel and refund" ].

(** The LLM's structured output. *)
Record TicketClassification := {
  tc_issue_type : string;
  tc_needs_refund_review : bool;
  tc_confidence : float;
  tc_rationale : string;
  tc_matched_signals : list string;
}.

Definition mk_classification (c : TicketClassification) : result TicketClassification :=
  if in_unit (tc_confidence c) then Ok c
  else Err (ValidationError "confidence must be in [0.0, 1.0]").

Definition to_triage (c : TicketClassification) : result Triage :=
  mk_triage {|
    tri_needs_refund_review := tc_needs_refund_review c;
    tri_ambiguous := (tc_confidence c <? lit 7 10)%pf;
    tri_matched_signals := tc_matched_signals c;
    tri_rationale := tc_rationale c;
    tri_issue_type := tc_issue_type c;
    tri_confidence := tc_confidence c;
  |}.

Definition _looks_ambiguous (reason_lower : string) : bool :=
  Z.of_nat (py_len (py_strip reason_lower)) <? 5.

Section Classify.
(** The iteration order of the vocabulary. *)
Variable signals : list string.

Definition matched_signals (reason_lower : string) : list string :=
  List.filter (λ signal, py_contains signal reason_lower) signals.

Definition classify (ticket : SupportTicketCreatedPayload) : result Triage :=
  let reason_lower := py_lower (stc_reason ticket) in
  match matched_signals reason_lower with
  | (_ :: _) as matched =>
      mk_triage {|
        tri_needs_refund_review := true;
        tri_ambiguous := false;
        tri_matched_signals := matched;
        tri_rationale := "Refund intent detected: " +:+ py_join ", " matched;
        tri_issue_type := "refund_request";
        tri_confidence := lit 1 1;
      |}
  | [] =>
      if negb (str_truthy reason_lower) || _looks_ambiguous reason_lower
      then mk_triage {|
             tri_needs_refund_review := true;
             tri_ambiguous := true;
             tri_matched_signals := [];
             tri_rationale := "Ambiguous intent Ã¢â‚¬â€ defaulted to refund review";
             tri_issue_type := "unknown";
             tri_confidence := lit 5 10;
           |}
      else mk_triage {|
             tri_needs_refund_review := false;
             tri_ambiguous := false;
             tri_matched_signals := [];
             tri_rationale := "No refund intent detected";
             tri_issue_type := "general_inquiry";
             tri_confidence := lit 9 10;
           |}
  end.
End Classify.

Definition build_issue_classified_payload (ticket : SupportTicketCreatedPayload)
    (correlation_id : UUID) (triage : Triage) : result CustomerIssueClassifiedPayload :=
  mk_classified {|
    cic_case_id := correlation_id;
    cic_ticket_id := stc_ticket_id ticket;
    cic_customer_id := stc_customer_id ticket;
    cic_issue_type := tri_issue_type triage;
    cic_confidence := tri_confidence triage;
    cic_requires_billing_review := tri_needs_refund_review triage;
    cic_requires_risk_review := tri_needs_refund_review triage;
    cic_requires_human_review := tri_ambiguous triage;
    cic_reasoning_summary := tri_rationale triage;
  |}.

(** ** Lemmas *)

Lemma mk_triage_inv t u : mk_triage t = Ok u → u = t ∧ in_unit (tri_confidence u) = true.
Proof. unfold mk_triage. destruct (in_unit (tri_confidence t)) eqn:E; intros [= <-]; auto. Qed.

Lemma classify_total signals ticket :
  ∃ t, classify signals ticket = Ok t ∧ in_unit (tri_confidence t) = true.
Proof.
  unfold classify. destruct (matched_signals _ _); [destruct (_ || _)|];
    eexists; (split; [reflexivity|reflexivity]).
Qed.

Lemma classify_cases signals ticket t :
  classify signals ticket = Ok t →
  (tri_needs_refund_review t, tri_ambiguous t, tri_issue_type t, tri_confidence t) =
  match matched_signals signals (py_lower (stc_reason ticket)) with
  | _ :: _ => (true, false, "refund_request", lit 1 1)
  | [] =>
      if negb (str_truthy (py_lower (stc_reason ticket))) ||
         _looks_ambiguous (py_lower (stc_reason ticket))
      then (true, true, "unknown", lit 5 10)
      else (false, false, "general_inquiry", lit 9 10)
  end.
Proof.
  unfold classify. destruct (matched_signals _ _); [destruct (_ || _)|];
    intros [-> _]%mk_triage_inv; reflexivity.
Qed.

Lemma matched_signals_perm s1 s2 reason :
  s1 ≡ₚ s2 → matched_signals s1 reason ≡ₚ matched_signals s2 reason.
Proof.
  unfold matched_signals. induction 1; cbn; repeat case_match; eauto using Permutation.
Qed.
