(* ===== verification/DecisionEngine.v ===== *)
(** * Customer-Resolution agent: the decision engine

    [apps/agents/customer_resolution/decision_engine.py]: the confidence score,
    the evidence builder, the ordered truth table [decide] and the human-approval
    gate. *)

From Stdlib Require Import ZArith Bool Ascii String List Lia.
From stdpp Require Import base list strings gmap.
From S2P Require Import Prelude.
From S2P Require Import PyFloat.
From S2P Require Import Contracts.
From S2P Require Import CaseModels.
From S2P Require Import Drafter.

Open Scope string_scope.
Open Scope list_scope.
Open Scope Z_scope.

(** [scores] of [compute_confidence]. *)
Definition confidence_scores (triage : option Triage) (billing : option BillingFinding)
    (risk : option RiskFinding) : list float :=
  match triage with Some t => [tri_confidence t] | None => [] end ++
  match billing with
  | Some b => match bfi_confidence b with Some c => [c] | None => [] end
  | None => []
  end ++
  match risk with
  | Some r => match rfi_score r with Some s => [(lit 1 1 - s)%pf] | None => [] end
  | None => []
  end.

(** [max(0.0, min(1.0, min(scores)))], or 0.0 without scores. *)
Definition compute_confidence (triage : option Triage) (billing : option BillingFinding)
    (risk : option RiskFinding) : float :=
  match confidence_scores triage billing risk with
  | [] => lit 0 1
  | x :: l => clamp01 (fmin_list x l)
  end.

(** [x or None] on strings. *)
Definition or_none (s : string) : pyval := if str_truthy s then VStr s else VNone.

Definition build_evidence (uuid_str : UUID → string) (triage : option Triage)
    (billing : option BillingFinding) (risk : option RiskFinding) :
    list (list (string * pyval)) :=
  match triage with
  | Some t =>
      [ [("source", VStr "classification"); ("task_id", VNone); ("performer_agent_id", VNone);
         ("summary", VStr (tri_rationale t)); ("confidence", VFloat (tri_confidence t))] ]
  | None => []
  end ++
  match billing with
  | Some b =>
      [ [("source", VStr "billing");
         ("task_id", vopt (λ u, VStr (uuid_str u)) (bfi_task_id b));
         ("performer_agent_id", or_none (bfi_performer_agent_id b));
         ("summary",
          VStr (str_or (bfi_summary b) ("eligibility=" +:+ Eligibility_str (bfi_eligibility b))));
         ("confidence", vopt VFloat (bfi_confidence b))] ]
  | None => []
  end ++
  match risk with
  | Some r =>
      [ [("source", VStr "risk");
         ("task_id", vopt (λ u, VStr (uuid_str u)) (rfi_task_id r));
         ("performer_agent_id", or_none (rfi_performer_agent_id r));
         ("summary", VStr (str_or (rfi_summary r) ("level=" +:+ FindingLevel_str (rfi_level r))));
         ("confidence", VNone)] ]
  | None => []
  end.

(** The identity fields [decide] copies into every payload. *)
Record DecisionIds := {
  di_case_id : UUID;
  di_ticket_id : string;
  di_customer_id : string;
}.

(** One row of the truth table: the payload, with the drafted response. *)
Definition decision_row (ids : DecisionIds) (outcome : ResolutionOutcome)
    (escalation_reason billing_summary risk_summary : option string) (rationale : string) :
    result CustomerResponseDecisionPayload :=
  response ← draft_customer_response outcome;
  mk_decision {|
    crd_case_id := di_case_id ids;
    crd_ticket_id := di_ticket_id ids;
    crd_customer_id := di_customer_id ids;
    crd_outcome := outcome;
    crd_customer_response := response;
    crd_escalation_reason := escalation_reason;
    crd_billing_summary := billing_summary;
    crd_risk_summary := risk_summary;
    crd_rationale := rationale;
  |}.

(** [str(list)] of a list of strings. *)
Definition py_str_list (l : list string) : string :=
  "[" +:+ py_join ", " (map py_repr_str l) +:+ "]".

(** [level in ("elevated", "high")] *)
Definition elevated_or_high (l : FindingLevel) : bool :=
  bool_decide (l ∈ [level_elevated; level_high]).

Definition low_or_elevated (l : FindingLevel) : bool :=
  bool_decide (l ∈ [level_low; level_elevated]).

(** [decide]: the rows in order; the first that matches returns. *)
Definition decide_case (triage : Triage) (billing : option BillingFinding)
    (risk : option RiskFinding) (timeout_status : option TimeoutStatus) (ids : DecisionIds) :
    result CustomerResponseDecisionPayload :=
  if negb (tri_needs_refund_review triage)
  then decision_row ids DIRECT_RESPONSE None None None (tri_rationale triage)
  else
  match timeout_status with
  | Some {| ts_any_missing := true; ts_missing_reviews := missing;
            ts_deadline_exceeded := exceeded |} =>
      decision_row ids ESCALATE_HUMAN
        (Some (if exceeded : bool then "analysis_timeout" else "missing_analysis")) None None
        ("Missing analysis: " +:+ py_str_list missing)
  | _ =>
  match billing, risk with
  | Some b, Some r =>
      let billing_summary :=
        str_or (bfi_summary b) ("eligibility=" +:+ Eligibility_str (bfi_eligibility b)) in
      let risk_summary := str_or (rfi_summary r) ("level=" +:+ FindingLevel_str (rfi_level r)) in
      let row outcome reason rationale :=
        decision_row ids outcome reason (Some billing_summary) (Some risk_summary) rationale in
      if bfi_failed b || rfi_failed r
      then row ESCALATE_HUMAN (Some "peer_failure") "Peer analysis failed"
      else if bfi_requires_human_review b || rfi_requires_human_review r
      then row ESCALATE_HUMAN (Some "peer_requested_review") "Peer requested human review"
      else
      let confidence := compute_confidence (Some triage) billing risk in
      if (confidence <? CONFIDENCE_THRESHOLD)%pf
      then row ESCALATE_HUMAN (Some "low_confidence")
             ("Confidence " +:+ fmt_fixed 2 confidence +:+ " below threshold " +:+
              py_repr_float CONFIDENCE_THRESHOLD)
      else if bool_decide (bfi_eligibility b = eligible) && bool_decide (rfi_level r = level_low)
      then row APPROVE_REFUND None "Eligible for refund; low risk"
      else if bool_decide (bfi_eligibility b = ineligible) && elevated_or_high (rfi_level r)
      then row DENY_REFUND None "Ineligible for refund; elevated/high risk"
      else if bool_decide (bfi_eligibility b = partial_) && low_or_elevated (rfi_level r)
      then row OFFER_PARTIAL_CREDIT None "Partial eligibility; acceptable risk"
      else if bool_decide (bfi_eligibility b = indeterminate)
      then row REQUEST_MORE_INFORMATION None "Billing analysis inconclusive"
      else row ESCALATE_HUMAN (Some "conflicting_analyses")
             ("Conflicting: billing=" +:+ Eligibility_str (bfi_eligibility b) +:+ ", risk=" +:+
              FindingLevel_str (rfi_level r))
  | _, _ =>
      decision_row ids ESCALATE_HUMAN (Some "missing_analysis") None None
        "Required analysis result is missing"
  end
  end.

Definition requires_human_approval (outcome : ResolutionOutcome) : bool :=
  bool_decide (outcome ∈ HUMAN_APPROVAL_OUTCOMES).

(** ** Lemmas *)

(** A row is always a valid payload when its escalations carry a reason. *)
Lemma decision_row_ok ids o reason bs rs rationale :
  (o = ESCALATE_HUMAN → ∃ r, reason = Some r ∧ str_truthy r = true) →
  decision_row ids o reason bs rs rationale =
  Ok {| crd_case_id := di_case_id ids; crd_ticket_id := di_ticket_id ids;
        crd_customer_id := di_customer_id ids; crd_outcome := o;
        crd_customer_response := _TEMPLATES o; crd_escalation_reason := reason;
        crd_billing_summary := bs; crd_risk_summary := rs; crd_rationale := rationale |}.
Proof.
  intros H. unfold decision_row. rewrite draft_customer_response_ok. by apply mk_decision_ok.
Qed.
