(* ===== verification/DecisionFacts.v ===== *)
(** * Customer-Resolution agent: properties of classification, decision, drafting

    [truth_table] is the decision policy as a decision list, read off the policy
    document; [decide_case] refines it, and with it the classifier and the
    drafter meet their contracts. *)

From Stdlib Require Import ZArith Bool Ascii String List Lia.
From stdpp Require Import base list strings gmap.
From S2P Require Import Prelude.
From S2P Require Import PyFloat.
From S2P Require Import Contracts.
From S2P Require Import CaseModels.
From S2P Require Import Drafter.
From S2P Require Import Classifier.
From S2P Require Import DecisionEngine.

Open Scope string_scope.
Open Scope list_scope.
Open Scope Z_scope.

(** ** The truth table *)

(** The binding part of a decision: the outcome and the escalation reason. *)
Definition ruling : Type := ResolutionOutcome * option string.

Definition escalate (reason : string) : ruling := (ESCALATE_HUMAN, Some reason).

(** Rows 2 to 8, for two received analyses. *)
Definition analysis_rows (triage : Triage) (b : BillingFinding) (r : RiskFinding) :
    list (bool * ruling) :=
  let elig e := bool_decide (bfi_eligibility b = e) in
  let level l := bool_decide (rfi_level r = l) in
  [ (bfi_requires_human_review b || rfi_requires_human_review r,
     escalate "peer_requested_review");
    ((compute_confidence (Some triage) (Some b) (Some r) <? lit 6 10)%pf,
     escalate "low_confidence");
    (elig eligible && level level_low, (APPROVE_REFUND, None));
    (elig ineligible && negb (level level_low), (DENY_REFUND, None));
    (elig partial_ && negb (level level_high), (OFFER_PARTIAL_CREDIT, None));
    (elig indeterminate, (REQUEST_MORE_INFORMATION, None)) ].

Definition truth_table (triage : Triage) (billing : option BillingFinding)
    (risk : option RiskFinding) (ts : option TimeoutStatus) : ruling :=
  let missing := match ts with Some t => ts_any_missing t | None => false end in
  let late := match ts with Some t => ts_deadline_exceeded t | None => false end in
  first_match
    [ (negb (tri_needs_refund_review triage), (DIRECT_RESPONSE, None));
      (missing && late, escalate "analysis_timeout");
      (missing, escalate "missing_analysis") ]
    match billing, risk with
    | Some b, Some r => first_match (analysis_rows triage b r) (escalate "conflicting_analyses")
    | _, _ => escalate "missing_analysis"
    end.

Definition ruling_of (p : CustomerResponseDecisionPayload) : ruling :=
  (crd_outcome p, crd_escalation_reason p).

Definition ids_of (p : CustomerResponseDecisionPayload) : DecisionIds :=
  {| di_case_id := crd_case_id p; di_ticket_id := crd_ticket_id p;
     di_customer_id := crd_customer_id p |}.

(** What [decide] owes its caller besides the ruling. *)
Definition decided_as (ids : DecisionIds) (r : ruling) (m : result CustomerResponseDecisionPayload) :
    Prop :=
  ∃ p, m = Ok p ∧ ruling_of p = r ∧ ids_of p = ids ∧ crd_customer_response p = _TEMPLATES (fst r).

Lemma row_decided ids o reason bs rs rationale :
  (o = ESCALATE_HUMAN → ∃ r, reason = Some r ∧ str_truthy r = true) →
  decided_as ids (o, reason) (decision_row ids o reason bs rs rationale).
Proof. intros H. rewrite decision_row_ok by done. eexists. split; [done|]. by destruct ids. Qed.

Lemma analyses_decided triage b r ts ids :
  tri_needs_refund_review triage = true →
  (match ts with Some t => ts_any_missing t | None => false end) = false →
  decided_as ids (first_match (analysis_rows triage b r) (escalate "conflicting_analyses"))
    (decide_case triage (Some b) (Some r) ts ids).
Proof.
  intros Hn Hm. unfold decide_case. rewrite Hn. cbn [negb].
  destruct ts as [[[] ? ?]|]; cbn in Hm; try discriminate.
  all: cbn [bfi_failed rfi_failed orb];
    unfold first_match, analysis_rows; cbn [List.find fst]; unfold CONFIDENCE_THRESHOLD;
    destruct (bfi_requires_human_review b || rfi_requires_human_review r);
    [apply row_decided; eauto|];
    destruct (_ <? _)%pf; [apply row_decided; eauto|];
    destruct (bfi_eligibility b), (rfi_level r); cbn; apply row_decided; eauto; discriminate.
Qed.

Lemma decide_ruling triage billing risk ts ids :
  decided_as ids (truth_table triage billing risk ts) (decide_case triage billing risk ts ids).
Proof.
  unfold truth_table, first_match. cbn [List.find fst].
  destruct (tri_needs_refund_review triage) eqn:Hn; cbn [negb].
  2: { unfold decide_case. rewrite Hn. apply row_decided. discriminate. }
  destruct (match ts with Some t => ts_any_missing t | None => false end) eqn:Hm.
  - destruct ts as [[[] ? []]|]; try discriminate; cbn [andb]; unfold decide_case; rewrite Hn;
      apply row_decided; eauto.
  - cbn [andb]. destruct billing as [b|], risk as [r|]; [by apply analyses_decided|..];
      unfold decide_case; rewrite Hn; destruct ts as [[[] ? ?]|]; try discriminate;
      apply row_decided; eauto.
Qed.


(** ** Approvals *)

(** A timeout status that reports no missing review. *)
Definition nothing_missing (ts : option TimeoutStatus) : Prop :=
  match ts with Some t => ts_any_missing t = false | None => True end.

(** Remark (safety): a refund is approved exactly for a ticket that needs review, with
    both analyses received and none missing, an eligible billing finding, a low
    risk, no peer asking for human review and a confidence that is not below the
    threshold. *)
Theorem approve_refund_iff triage billing risk ts ids :
  (∃ p, decide_case triage billing risk ts ids = Ok p ∧ crd_outcome p = APPROVE_REFUND) ↔
  (∃ b r, billing = Some b ∧ risk = Some r ∧ tri_needs_refund_review triage = true ∧
     nothing_missing ts ∧
     bfi_eligibility b = eligible ∧ rfi_level r = level_low ∧
     bfi_requires_human_review b = false ∧ rfi_requires_human_review r = false ∧
     (compute_confidence (Some triage) billing risk <? lit 6 10)%pf = false).
Proof.
  destruct (decide_ruling triage billing risk ts ids) as (p & Hp & Hr & _).
  transitivity (fst (truth_table triage billing risk ts) = APPROVE_REFUND).
  { rewrite <- Hr. split; [intros (q & Hq & Ho)|intros Ho]; [|by exists p].
    rewrite Hp in Hq. injection Hq as <-. exact Ho. }
  unfold truth_table, first_match, analysis_rows, nothing_missing. cbn [List.find fst]. split.
  - destruct (tri_needs_refund_review triage) eqn:Hn; cbn [negb]; [|discriminate].
    destruct (match ts with Some t => ts_any_missing t | None => false end) eqn:Hm; cbn [andb].
    { by destruct (match ts with Some t => ts_deadline_exceeded t | None => false end). }
    destruct billing as [b|], risk as [r|]; try discriminate.
    destruct (bfi_requires_human_review b || _) eqn:Hh; [discriminate|].
    apply orb_false_iff in Hh as [Hb Hrr]. destruct (_ <? _)%pf eqn:Hc; [discriminate|].
    intros H. exists b, r. split_and!; try done; [by destruct ts|..];
      by destruct (bfi_eligibility b), (rfi_level r).
  - intros (b & r & -> & -> & -> & Hm & -> & -> & -> & -> & ->). destruct ts as [t|]; [|done].
    by rewrite Hm.
Qed.

(** ** Confidence *)

Lemma fmin_list_in x l : fmin_list x l ∈ x :: l.
Proof.
  unfold fmin_list. revert x. induction l as [|b l IH]; intros x; cbn.
  - apply list_elem_of_here.
  - specialize (IH (fmin x b)). rewrite !elem_of_cons in *. destruct IH as [E|E]; [|by auto].
    destruct (fmin_cases x b) as [C|C]; rewrite E, C; auto.
Qed.

Lemma clamp01_below_iff x :
  is_nan x = false → (clamp01 x <? lit 6 10)%pf = (x <? lit 6 10)%pf.
Proof.
  intros Hx. unfold clamp01, fmax, fmin. destruct (flt x (lit 1 1)) eqn:E1.
  - destruct (flt (lit 0 1) x) eqn:E0; [done|]. change (flt (lit 0 1) (lit 6 10)) with true.
    apply not_flt_fle in E0; [|done|done]. destruct (flt x (lit 6 10)) eqn:E; [done|].
    apply not_flt_fle in E; [|done|done]. pose proof (fle_trans _ _ _ E E0). discriminate.
  - change (flt (if flt (lit 0 1) (lit 1 1) then lit 1 1 else lit 0 1) (lit 6 10)) with false.
    apply not_flt_fle in E1; [|done|done]. destruct (flt x (lit 6 10)) eqn:E; [|done].
    apply flt_fle in E. pose proof (fle_trans _ _ _ E1 E). discriminate.
Qed.

(** Remark (bounds): the confidence is always in [0, 1]; and when the scores are
    numbers it reaches the threshold exactly when there is a score and all of
    them do: one unsure input is enough to escalate. *)
Theorem confidence_floor triage billing risk :
  let scores := confidence_scores triage billing risk in
  in_unit (compute_confidence triage billing risk) = true ∧
  (Forall (λ s, is_nan s = false) scores →
   (compute_confidence triage billing risk <? lit 6 10)%pf = false ↔
   scores ≠ [] ∧ Forall (λ s, (lit 6 10 <=? s)%pf = true) scores).
Proof.
  cbv zeta. unfold compute_confidence.
  destruct (confidence_scores triage billing risk) as [|x l]; [split; [done|]|].
  { intros _. split; [discriminate|]. by intros [H _]. }
  split; [apply clamp01_in_unit|]. intros Hn.
  destruct (fmin_list_head x l (Forall_inv Hn)) as [Hm _]. rewrite clamp01_below_iff by done.
  split.
  - intros H. split; [done|]. apply not_flt_fle in H; [|done|done].
    pose proof (fmin_list_le x l Hn) as Hall. rewrite Forall_forall in *.
    intros y Hy. exact (fle_trans _ _ _ H (Hall y Hy)).
  - intros [_ Hall]. rewrite Forall_forall in Hall. specialize (Hall _ (fmin_list_in x l)).
    destruct (flt (fmin_list x l) (lit 6 10)) eqn:E; [|done].
    apply flt_asym in E. congruence.
Qed.

Lemma confidence_below_triage triage billing risk :
  is_nan (tri_confidence triage) = false →
  (tri_confidence triage <? lit 6 10)%pf = true →
  (compute_confidence (Some triage) billing risk <? lit 6 10)%pf = true.
Proof.
  intros Hn Hlt. unfold compute_confidence. cbn -[lit clamp01].
  set (l := _ ++ _). destruct (fmin_list_head (tri_confidence triage) l Hn) as [Hm Hle].
  rewrite clamp01_below_iff by done.
  destruct (flt (fmin_list (tri_confidence triage) l) (lit 6 10)) eqn:E; [done|]. apply not_flt_fle in E; [|done|done].
  pose proof (fle_trans _ _ _ E Hle) as H. apply flt_asym in Hlt. congruence.
Qed.

(** ** Classification *)

Lemma prefix_spec sub s : String.prefix sub s = true ↔ ∃ b, s = sub +:+ b.
Proof.
  revert s. induction sub as [|c sub IH]; intros s.
  - split; [intros _; by exists s|intros _; by destruct s].
  - destruct s as [|c' s]; [split; [done|by intros [b [=]]]|]. cbn.
    destruct (ascii_dec c c') as [->|Hn].
    + rewrite IH. split; intros [b E]; exists b; [by rewrite E|by injection E].
    + split; [done|]. intros [b [= E _]]. congruence.
Qed.

Lemma py_contains_spec sub s : py_contains sub s = true ↔ ∃ a b, s = a +:+ sub +:+ b.
Proof.
  induction s as [|c s IH].
  - change (py_contains sub "") with (String.prefix sub "" || false).
    rewrite orb_true_iff, prefix_spec. split.
    + intros [[b E]|?]; [|done]. by exists "", b.
    + intros (a & b & E). left. exists b. by destruct a.
  - change (py_contains sub (String c s))
      with (String.prefix sub (String c s) || py_contains sub s).
    rewrite orb_true_iff, prefix_spec, IH. split.
    + intros [[b E]|(a & b & E)]; [by exists "", b|]. exists (String c a), b. by rewrite E.
    + intros ([|c' a] & b & E); [left; by exists b|]. right. exists a, b. by injection E.
Qed.

Definition mentions (signal : string) (ticket : SupportTicketCreatedPayload) : Prop :=
  ∃ a b, py_lower (stc_reason ticket) = a +:+ signal +:+ b.

Lemma matched_signals_spec signals ticket s :
  s ∈ matched_signals signals (py_lower (stc_reason ticket)) ↔ s ∈ signals ∧ mentions s ticket.
Proof.
  unfold matched_signals, mentions. rewrite list_elem_of_In, filter_In, py_contains_spec.
  by rewrite list_elem_of_In.
Qed.

(** Remark (functional): no refund intent is lost.  For every iteration order of the
    vocabulary the ticket is classified; its matched signals are exactly the
    vocabulary's phrases that occur in the lower-cased reason; with one of them
    the ticket is an unambiguous refund request, and it is answered directly only
    without any and with a reason that is long enough. *)
Theorem classify_sound signals ticket :
  signals ≡ₚ REFUND_INTENT_SIGNALS →
  ∃ t, classify signals ticket = Ok t ∧
    (∀ s, s ∈ tri_matched_signals t ↔ s ∈ REFUND_INTENT_SIGNALS ∧ mentions s ticket) ∧
    (tri_matched_signals t ≠ [] →
       tri_needs_refund_review t = true ∧ tri_ambiguous t = false ∧
       tri_confidence t = lit 1 1) ∧
    (tri_needs_refund_review t = false ↔
       tri_matched_signals t = [] ∧
       (5 <= py_len (py_strip (py_lower (stc_reason ticket))))%nat).
Proof.
  intros Hperm. destruct (classify_total signals ticket) as (t & Ht & _).
  exists t. split; [done|].
  assert (Hmatch : tri_matched_signals t =
                   matched_signals signals (py_lower (stc_reason ticket))).
  { unfold classify in Ht. destruct (matched_signals _ _); [destruct (_ || _)|];
      apply mk_triage_inv in Ht as [-> _]; reflexivity. }
  split; [|split].
  - intros s. rewrite Hmatch, matched_signals_spec. by rewrite Hperm.
  - intros Hne. rewrite Hmatch in Hne. pose proof (classify_cases _ _ _ Ht) as Hc.
    destruct (matched_signals _ _); [done|]. split_and!; congruence.
  - rewrite Hmatch. pose proof (classify_cases _ _ _ Ht) as Hc.
    destruct (matched_signals _ _).
    2: { split; [congruence|by intros [? _]]. }
    assert (Hl : negb (str_truthy (py_lower (stc_reason ticket))) = true →
                 (py_len (py_strip (py_lower (stc_reason ticket))) < 5)%nat).
    { destruct (py_lower (stc_reason ticket)); cbn; [lia|done]. }
    unfold _looks_ambiguous in Hc.
    destruct (negb _) eqn:E1; cbn [orb] in Hc; [|destruct (Z.ltb_spec
      (Z.of_nat (py_len (py_strip (py_lower (stc_reason ticket))))) 5) as [H|H]].
    + specialize (Hl eq_refl). split; [congruence|]. intros [_ ?]. lia.
    + split; [congruence|]. intros [_ ?]. lia.
    + split; [intros _; split; [done|lia]|congruence].
Qed.

(** Remark (equivalence): the iteration order of the vocabulary, which Python leaves
    open, does not reach the decision: under any two orders the triage differs at
    most in the order of the matched signals and in the rationale, and every
    ruling is the same. *)
Theorem classify_order_irrelevant s1 s2 ticket t1 t2 :
  s1 ≡ₚ s2 → classify s1 ticket = Ok t1 → classify s2 ticket = Ok t2 →
  tri_matched_signals t1 ≡ₚ tri_matched_signals t2 ∧
  ∀ billing risk ts, truth_table t1 billing risk ts = truth_table t2 billing risk ts.
Proof.
  intros Hp H1 H2.
  pose proof (matched_signals_perm _ _ (py_lower (stc_reason ticket)) Hp) as Hm.
  pose proof (classify_cases _ _ _ H1) as C1. pose proof (classify_cases _ _ _ H2) as C2.
  assert (Hb : (tri_needs_refund_review t1, tri_confidence t1) =
               (tri_needs_refund_review t2, tri_confidence t2)).
  { destruct (matched_signals s1 _) as [|x1 l1].
    - apply Permutation_nil_l in Hm. rewrite <- Hm in C2. congruence.
    - destruct (matched_signals s2 _) as [|x2 l2]; [|congruence].
      by apply Permutation_nil_r in Hm. }
  split.
  - unfold classify in H1, H2.
    destruct (matched_signals s1 _) as [|x1 l1], (matched_signals s2 _) as [|x2 l2];
      [|by apply Permutation_nil_l in Hm|by apply Permutation_nil_r in Hm|];
      [destruct (_ || _)|]; apply mk_triage_inv in H1 as [-> _];
      apply mk_triage_inv in H2 as [-> _]; cbn; assumption || reflexivity.
  - intros billing risk ts. unfold truth_table, analysis_rows, compute_confidence,
      confidence_scores. by injection Hb as -> ->.
Qed.

(** Remark (safety): an ambiguous ticket is never settled automatically: with the
    triage of the deterministic classifier, whatever the peers answer the
    decision escalates it to a human, unless the ticket needs no review. *)
Theorem ambiguous_escalates signals ticket triage billing risk ts ids p :
  classify signals ticket = Ok triage → tri_ambiguous triage = true →
  decide_case triage billing risk ts ids = Ok p → crd_outcome p = ESCALATE_HUMAN.
Proof.
  intros Ht Ha Hp. pose proof (classify_cases _ _ _ Ht) as Hc.
  destruct (matched_signals _ _); [|congruence]. destruct (_ || _); [|congruence].
  assert (Hn : tri_needs_refund_review triage = true) by congruence.
  assert (Hl : (compute_confidence (Some triage) billing risk <? lit 6 10)%pf = true).
  { apply confidence_below_triage; replace (tri_confidence triage) with (lit 5 10) by congruence;
      reflexivity. }
  destruct (decide_ruling triage billing risk ts ids) as (q & Hq & Hr & _).
  assert (q = p) as -> by congruence.
  change (fst (ruling_of p) = ESCALATE_HUMAN). rewrite Hr.
  unfold truth_table, first_match, analysis_rows. cbn [List.find fst]. rewrite Hn.
  destruct ts as [[[] ? []]|], billing as [b|], risk as [r|]; try reflexivity;
    cbn [negb andb]; destruct (_ || _); try reflexivity; by rewrite Hl.
Qed.

(** ** Drafting *)

Definition leaks (text : string) : Prop :=
  ∃ field a b, field ∈ INTERNAL_ONLY_DRAFT_FIELDS ++ FRAUD_SCORING_FIELDS ∧
    py_lower text = a +:+ field +:+ b.

Lemma leaked_field_spec fields text :
  leaked_field fields text = None ↔
  ∀ field, field ∈ fields → py_contains field (py_lower text) = false.
Proof.
  unfold leaked_field. split.
  - intros H field Hin. apply list_elem_of_In in Hin. by apply (List.find_none _ _ H field).
  - intros H. destruct (List.find _ fields) as [f|] eqn:E; [|done].
    apply List.find_some in E as [Hin Hc]. apply list_elem_of_In in Hin.
    rewrite H in Hc; done.
Qed.

Lemma leaks_contains text :
  leaks text ↔ ∃ field, field ∈ INTERNAL_ONLY_DRAFT_FIELDS ++ FRAUD_SCORING_FIELDS ∧
                        py_contains field (py_lower text) = true.
Proof. unfold leaks. setoid_rewrite py_contains_spec. naive_solver. Qed.

Lemma leaked_field_some fields text field :
  leaked_field fields text = Some field → field ∈ fields ∧ py_contains field (py_lower text) = true.
Proof. unfold leaked_field. intros [Hin Hc]%List.find_some. by rewrite list_elem_of_In. Qed.

Lemma guard_spec text :
  match _assert_no_internal_leak text with Ok _ => ¬ leaks text | Err _ => leaks text end.
Proof.
  unfold _assert_no_internal_leak.
  destruct (leaked_field INTERNAL_ONLY_DRAFT_FIELDS text) as [f|] eqn:E1;
    [|destruct (leaked_field FRAUD_SCORING_FIELDS text) as [f|] eqn:E2]; rewrite leaks_contains.
  - apply leaked_field_some in E1 as [Hin Hc]. exists f. rewrite elem_of_app. auto.
  - apply leaked_field_some in E2 as [Hin Hc]. exists f. rewrite elem_of_app. auto.
  - rewrite leaked_field_spec in E1, E2. intros (f & [Hin|Hin]%elem_of_app & Hc);
      [rewrite E1 in Hc|rewrite E2 in Hc]; done.
Qed.

Lemma template_safe o : ¬ leaks (_TEMPLATES o).
Proof.
  pose proof (guard_spec (_TEMPLATES o)) as H. pose proof (draft_customer_response_ok o) as E.
  unfold draft_customer_response in E. destruct (_assert_no_internal_leak _); [done|discriminate].
Qed.

Lemma approval_spec o :
  requires_human_approval o = true ↔ o = ESCALATE_HUMAN ∨ o = APPROVE_REFUND.
Proof. destruct o; vm_compute; intuition congruence. Qed.

Lemma rstrip_nonempty c s : is_space c = false → str_truthy (py_rstrip (String c s)) = true.
Proof. intros H. cbn. destruct (py_rstrip s); [by rewrite H|done]. Qed.

Lemma strip_nonempty c s : is_space c = false → str_truthy (py_strip (String c s)) = true.
Proof. intros H. unfold py_strip. cbn [py_lstrip]. rewrite H. by apply rstrip_nonempty. Qed.

(** The draft of an outcome's template passes the payload's validation. *)
Lemma mk_drafted_ok p :
  drf_draft_response p = _TEMPLATES (drf_outcome p) →
  drf_requires_human_approval p = requires_human_approval (drf_outcome p) → mk_drafted p = Ok p.
Proof.
  intros H1 H2. unfold mk_drafted, validate_draft_payload. rewrite H1, H2, template_nonempty.
  by destruct (drf_outcome p).
Qed.

(** Remark (safety): every decision can be drafted and no draft leaks.  The decided
    payload passes the drafted payload's validation with the approval flag the
    agent computes, the flag is set exactly for approvals and escalations, and
    the customer's text names no internal or fraud-scoring field. *)
Theorem decision_draft_valid triage billing risk ts ids p corr event at_ :
  decide_case triage billing risk ts ids = Ok p →
  ∃ d, build_response_drafted_payload p corr event
         (requires_human_approval (crd_outcome p)) at_ = Ok d ∧
    drf_outcome d = crd_outcome p ∧ drf_decision_event_id d = event ∧
    (drf_requires_human_approval d = true ↔
       crd_outcome p = ESCALATE_HUMAN ∨ crd_outcome p = APPROVE_REFUND) ∧
    ¬ leaks (drf_draft_response d).
Proof.
  intros Hp. destruct (decide_ruling triage billing risk ts ids) as (q & Hq & Hr & _ & Ht).
  assert (q = p) as -> by congruence. rewrite <- Hr in Ht. cbn in Ht.
  pose proof (template_safe (crd_outcome p)) as Hg. pose proof (approval_spec (crd_outcome p)) as Hf.
  unfold build_response_drafted_payload. rewrite mk_drafted_ok by done.
  eexists. split; [reflexivity|]. cbn -[requires_human_approval _TEMPLATES]. by rewrite ?Ht.
Qed.

(** Remark (safety): fraud suppression by construction.  The structured response is
    refused exactly when its body (the template with the amount and the ticket's
    currency) names an internal or fraud-scoring field; otherwise it is built with
    a non-empty subject and body and the agent's approval flag.  The peers'
    findings do not reach it. *)
Theorem structured_response_safe outcome amount currency ticket_id b1 b2 :
  let draft b :=
    draft_structured_response outcome (build_allowed_facts amount currency ticket_id b) None in
  let body := response_body outcome (build_allowed_facts amount currency ticket_id b1) in
  draft b1 = draft b2 ∧
  match draft b1 with
  | Ok d =>
      ¬ leaks body ∧ str_truthy (py_strip (rd_body d)) = true ∧
      str_truthy (py_strip (rd_subject d)) = true ∧
      rd_requires_human_approval d = requires_human_approval outcome
  | Err _ => leaks body
  end.
Proof.
  cbv zeta. split; [reflexivity|]. unfold draft_structured_response.
  set (body := response_body _ _). pose proof (guard_spec body) as Hg.
  destruct (_assert_no_internal_leak body) as [[]|e]; [|exact Hg].
  cbn [mbind result_bind]. unfold mk_draft. set (d := {| rd_subject := _ |}).
  assert (Hs : str_truthy (py_strip (rd_subject d)) = true) by reflexivity.
  assert (Hb : str_truthy (py_strip (rd_body d)) = true) by by apply strip_nonempty.
  rewrite Hs, Hb. done.
Qed.

(** ** An observation on the LLM path *)

Definition sample_ids : DecisionIds :=
  {| di_case_id := 1; di_ticket_id := "T-1"; di_customer_id := "C-1" |}.

Definition eligible_finding : BillingFinding := {|
  bfi_eligibility := eligible; bfi_requires_human_review := false;
  bfi_confidence := Some (lit 9 10); bfi_summary := ""; bfi_performer_agent_id := "";
  bfi_task_id := None |}.

Definition low_risk_finding : RiskFinding := {|
  rfi_level := level_low; rfi_requires_human_review := false;
  rfi_score := Some (lit 1 10); rfi_summary := ""; rfi_performer_agent_id := "";
  rfi_task_id := None |}.

(** Remark (functional): the LLM path weakens the ambiguity rule: it marks tickets
    ambiguous below 0.7 while the decision escalates below 0.6, so a ticket the
    LLM classifies with confidence 0.65 is announced as requiring human review
    and then approved automatically. *)
Theorem llm_ambiguous_approved :
  ∃ c triage issued p,
    mk_classification c = Ok c ∧ to_triage c = Ok triage ∧ tri_ambiguous triage = true ∧
    build_issue_classified_payload
      {| stc_ticket_id := "T-1"; stc_customer_id := "C-1"; stc_amount := lit 10 1;
         stc_currency := "USD"; stc_reason := "hm"; stc_created_at := 0 |} 1 triage = Ok issued ∧
    cic_requires_human_review issued = true ∧
    decide_case triage (Some eligible_finding) (Some low_risk_finding) None sample_ids = Ok p ∧
    crd_outcome p = APPROVE_REFUND.
Proof.
  exists {| tc_issue_type := "refund_request"; tc_needs_refund_review := true;
            tc_confidence := lit 65 100; tc_rationale := "unclear"; tc_matched_signals := [] |}.
  eexists _, _, _. split; [reflexivity|]. split; [vm_compute; reflexivity|].
  split; [vm_compute; reflexivity|]. split; [vm_compute; reflexivity|].
  split; [vm_compute; reflexivity|]. split; vm_compute; reflexivity.
Qed.

(** ** Witnesses *)

Definition sample_ticket (reason : string) : SupportTicketCreatedPayload := {|
  stc_ticket_id := "T-1"; stc_customer_id := "C-1"; stc_amount := lit 4999 100;
  stc_currency := "USD"; stc_reason := reason; stc_created_at := 0 |}.

Definition triage_by (signals : list string) (reason : string) : Triage :=
  match classify signals (sample_ticket reason) with
  | Ok t => t
  | Err _ => {| tri_needs_refund_review := true; tri_ambiguous := true;
                tri_matched_signals := []; tri_rationale := ""; tri_issue_type := "unknown";
                tri_confidence := lit 0 1 |}
  end.

Definition triage_of (reason : string) : Triage := triage_by REFUND_INTENT_SIGNALS reason.

Definition decision_of (reason : string) (billing : option BillingFinding)
    (risk : option RiskFinding) : CustomerResponseDecisionPayload :=
  match decide_case (triage_of reason) billing risk None sample_ids with
  | Ok p => p
  | Err _ => {| crd_case_id := 0; crd_ticket_id := ""; crd_customer_id := "";
                crd_outcome := DIRECT_RESPONSE; crd_customer_response := "";
                crd_escalation_reason := None; crd_billing_summary := None;
                crd_risk_summary := None; crd_rationale := "" |}
  end.

Lemma classify_sound_witness :
  ∃ t, classify (rev REFUND_INTENT_SIGNALS) (sample_ticket "Charged TWICE") = Ok t ∧
    (∀ s, s ∈ tri_matched_signals t ↔
       s ∈ REFUND_INTENT_SIGNALS ∧ mentions s (sample_ticket "Charged TWICE")) ∧
    (tri_matched_signals t ≠ [] →
       tri_needs_refund_review t = true ∧ tri_ambiguous t = false ∧
       tri_confidence t = lit 1 1) ∧
    (tri_needs_refund_review t = false ↔
       tri_matched_signals t = [] ∧
       (5 <= py_len (py_strip (py_lower (stc_reason (sample_ticket "Charged TWICE")))))%nat).
Proof.
  apply (classify_sound (rev REFUND_INTENT_SIGNALS) (sample_ticket "Charged TWICE")).
  symmetry. apply Permutation_rev.
Defined.

Lemma classify_order_irrelevant_witness :
  let t1 := triage_by ["charge"; "charged"] "I was charged" in
  let t2 := triage_by ["charged"; "charge"] "I was charged" in
  tri_matched_signals t1 ≡ₚ tri_matched_signals t2 ∧
  ∀ billing risk ts, truth_table t1 billing risk ts = truth_table t2 billing risk ts.
Proof.
  apply (classify_order_irrelevant ["charge"; "charged"] ["charged"; "charge"]
           (sample_ticket "I was charged")).
  - apply perm_swap.
  - vm_compute. reflexivity.
  - vm_compute. reflexivity.
Defined.

Lemma ambiguous_escalates_witness :
  crd_outcome (decision_of "?" (Some eligible_finding) (Some low_risk_finding)) = ESCALATE_HUMAN.
Proof.
  apply (ambiguous_escalates REFUND_INTENT_SIGNALS (sample_ticket "?") (triage_of "?")
           (Some eligible_finding) (Some low_risk_finding) None sample_ids).
  - vm_compute. reflexivity.
  - vm_compute. reflexivity.
  - vm_compute. reflexivity.
Defined.

Lemma decision_draft_valid_witness :
  let p := decision_of "refund me" (Some eligible_finding) (Some low_risk_finding) in
  ∃ d, build_response_drafted_payload p 7 8 (requires_human_approval (crd_outcome p)) 9 = Ok d ∧
    drf_outcome d = crd_outcome p ∧ drf_decision_event_id d = 8 ∧
    (drf_requires_human_approval d = true ↔
       crd_outcome p = ESCALATE_HUMAN ∨ crd_outcome p = APPROVE_REFUND) ∧
    ¬ leaks (drf_draft_response d).
Proof.
  cbv zeta.
  apply (decision_draft_valid (triage_of "refund me") (Some eligible_finding)
           (Some low_risk_finding) None sample_ids).
  vm_compute. reflexivity.
Defined.
