(* ===== verification/StateStore.v ===== *)
(** * Customer-Resolution agent: the case state store

    [InMemoryCaseStateStore] of [apps/agents/customer_resolution/state_store.py].
    A case object lives in exactly one slot of [_cases] from its creation on, and
    every handler that holds the object holds that slot's: a reference is the
    slot's key, and an attribute assignment updates the slot ([update_case]).
    Each method holds the store's lock from start to end, so it is one atomic
    function; [now] is the clock reading it takes. *)

From Stdlib Require Import ZArith Bool Ascii String List Lia.
From stdpp Require Import base list strings gmap.
From S2P Require Import Prelude.
From S2P Require Import PyFloat.
From S2P Require Import Contracts.
From S2P Require Import CaseModels.

Open Scope string_scope.
Open Scope list_scope.
Open Scope Z_scope.

Definition _PARKED_BUFFER_MAX : nat := 200.

Inductive AttachOutcome := ATTACHED | UNKNOWN_CASE | DUPLICATE.

#[export] Instance AttachOutcome_eq_dec : EqDecision AttachOutcome.
Proof. solve_decision. Defined.

(** [cs_order] is the insertion order of the dict [_cases]. *)
Record CaseStore := mk_store {
  cs_cases : gmap UUID ResolutionCase;
  cs_order : list UUID;
  cs_by_correlation : gmap UUID UUID;
  cs_by_task_id : gmap UUID UUID;
  cs_parked_billing : list (UUID * BillingRefundAnalysisCompletedPayload);
  cs_parked_risk : list (UUID * RiskReviewCompletedPayload);
}.

Definition empty_store : CaseStore := mk_store ∅ [] ∅ ∅ [] [].

Definition with_cases (m : gmap UUID ResolutionCase) (st : CaseStore) : CaseStore :=
  mk_store m (cs_order st) (cs_by_correlation st) (cs_by_task_id st) (cs_parked_billing st)
    (cs_parked_risk st).

(** Assignments to the attributes of the case in slot [k]. *)
Definition update_case (k : UUID) (f : ResolutionCase → ResolutionCase) (st : CaseStore) :
    CaseStore :=
  with_cases (alter f k (cs_cases st)) st.

(** [_cases[k] = case]: a new key goes to the end of the dict. *)
Definition put_case (k : UUID) (case : ResolutionCase) (st : CaseStore) : CaseStore :=
  mk_store (<[k := case]> (cs_cases st))
    (if bool_decide (is_Some (cs_cases st !! k)) then cs_order st else cs_order st ++ [k])
    (<[rc_correlation_id case := k]> (cs_by_correlation st)) (cs_by_task_id st)
    (cs_parked_billing st) (cs_parked_risk st).

Definition get (st : CaseStore) (case_id : UUID) : option ResolutionCase :=
  cs_cases st !! case_id.

Definition get_by_correlation_id (st : CaseStore) (correlation_id : UUID) :
    option ResolutionCase :=
  case_id ← cs_by_correlation st !! correlation_id; cs_cases st !! case_id.

Definition get_by_task_id (st : CaseStore) (task_id : UUID) : option ResolutionCase :=
  case_id ← cs_by_task_id st !! task_id; cs_cases st !! case_id.

(** [get_or_create]; returns the case's slot. *)
Definition get_or_create (st : CaseStore) (case_id : UUID) (ticket_id customer_id : string)
    (correlation_id : UUID) (ticket_amount : float) (ticket_currency ticket_reason : string)
    (created_at : datetime) : UUID * CaseStore :=
  let create :=
    if bool_decide (is_Some (cs_cases st !! case_id)) then (case_id, st)
    else (case_id, put_case case_id
            (new_case case_id ticket_id customer_id correlation_id ticket_amount ticket_currency
               ticket_reason created_at) st) in
  match cs_by_correlation st !! correlation_id with
  | Some existing_id =>
      if bool_decide (is_Some (cs_cases st !! existing_id)) then (existing_id, st) else create
  | None => create
  end.

(** The error for a slot that was never filled. *)
Definition case_not_found {A} (case_id : UUID) : result A :=
  Err (KeyError ("Case not found: " +:+ uuid_str case_id)).

(** [save(case, expected_version=...)] of the case in slot [k]. *)
Definition save (st : CaseStore) (k : UUID) (expected_version : option Z) (now : datetime) :
    result CaseStore :=
  match cs_cases st !! k with
  | None => case_not_found k
  | Some case =>
      let existing := cs_cases st !! rc_case_id case in
      match existing, expected_version with
      | Some e, Some v =>
          if negb (rc_version e =? v)
          then Err (CaseSaveConflict ("case " +:+ uuid_str (rc_case_id case) +:+
                 ": expected version " +:+ str_of_Z v +:+ ", found " +:+
                 str_of_Z (rc_version e)))
          else Ok (put_case (rc_case_id case)
                 (set_updated_at now (set_version (rc_version e + 1) case)) st)
      | Some e, None =>
          Ok (put_case (rc_case_id case)
                (set_updated_at now (set_version (rc_version e + 1) case)) st)
      | None, _ => Ok (put_case (rc_case_id case) (set_updated_at now (set_version 0 case)) st)
      end
  end.

(** [case.updated_at = now; case.version += 1] *)
Definition touch (now : datetime) (case : ResolutionCase) : ResolutionCase :=
  set_version (rc_version case + 1) (set_updated_at now case).

Definition transition (st : CaseStore) (case_id : UUID) (to_status : CaseStatus)
    (now : datetime) : result CaseStore :=
  match cs_cases st !! case_id with
  | None => case_not_found case_id
  | Some case =>
      _ ← assert_transition (rc_status case) to_status;
      Ok (update_case case_id (λ c, touch now (set_status to_status c)) st)
  end.

Definition add_pending_task (st : CaseStore) (case_id task_id : UUID) : result CaseStore :=
  match cs_cases st !! case_id with
  | None => case_not_found case_id
  | Some case =>
      let st := update_case case_id
                  (λ c, set_pending_tasks ({[ task_id ]} ∪ rc_pending_tasks c) c) st in
      Ok (mk_store (cs_cases st) (cs_order st) (cs_by_correlation st)
            (<[task_id := case_id]> (cs_by_task_id st)) (cs_parked_billing st)
            (cs_parked_risk st))
  end.

Definition can_transition_to_ready (status : CaseStatus) : bool :=
  bool_decide (status ∈ [RECEIVED; CLASSIFIED; WAITING_FOR_PEER_REVIEWS; READY_FOR_DECISION]).

(** The guard shared by [apply_result], [claim_decision] and the handlers:
    terminal, or already decided. *)
Definition closed_status (s : CaseStatus) : bool := is_terminal s || bool_decide (s = DECIDED).

(** [isinstance(finding, BillingFinding)] *)
Definition set_finding (finding : BillingFinding + RiskFinding) (c : ResolutionCase) :
    ResolutionCase :=
  match finding with
  | inl b => set_billing_result (Some b) c
  | inr r => set_risk_result (Some r) c
  end.

Definition apply_to_case (task_id : UUID) (finding : BillingFinding + RiskFinding)
    (now : datetime) (c : ResolutionCase) : ResolutionCase :=
  let c := set_finding finding c in
  let c := touch now (set_pending_tasks (rc_pending_tasks c ∖ {[ task_id ]}) c) in
  if bool_decide (rc_pending_tasks c = ∅) && can_transition_to_ready (rc_status c)
  then set_status READY_FOR_DECISION c else c.

Definition apply_result (st : CaseStore) (case_id task_id : UUID)
    (finding : BillingFinding + RiskFinding) (now : datetime) : AttachOutcome * CaseStore :=
  match cs_cases st !! case_id with
  | None => (UNKNOWN_CASE, st)
  | Some case =>
      if closed_status (rc_status case) then (DUPLICATE, st)
      else if negb (bool_decide (task_id ∈ rc_pending_tasks case)) then (DUPLICATE, st)
      else (ATTACHED, update_case case_id (apply_to_case task_id finding now) st)
  end.

Definition claim_decision (st : CaseStore) (case_id : UUID) (now : datetime) :
    bool * CaseStore :=
  match cs_cases st !! case_id with
  | None => (false, st)
  | Some case =>
      if closed_status (rc_status case) then (false, st)
      else (true, update_case case_id (λ c, touch now (set_status DECIDED c)) st)
  end.

Definition fail_slot (task_id : UUID) (is_billing : bool) (reason : string) (now : datetime)
    (c : ResolutionCase) : ResolutionCase :=
  let c :=
    if is_billing
    then set_billing_failure_reason (Some reason) (set_billing_slot_failed true c)
    else set_risk_failure_reason (Some reason) (set_risk_slot_failed true c) in
  let c := touch now (set_pending_tasks (rc_pending_tasks c ∖ {[ task_id ]}) c) in
  if can_transition_to_ready (rc_status c) then set_status READY_FOR_DECISION c else c.

Definition mark_slot_failed (st : CaseStore) (case_id task_id : UUID) (is_billing : bool)
    (reason : string) (now : datetime) : CaseStore :=
  match cs_cases st !! case_id with
  | None => st
  | Some case =>
      if is_terminal (rc_status case) then st
      else update_case case_id (fail_slot task_id is_billing reason now) st
  end.

(** [deque(maxlen=200).append(x)] *)
Definition deque_append {A} (l : list A) (x : A) : list A :=
  let l' := l ++ [x] in drop (length l' - _PARKED_BUFFER_MAX) l'.

Definition park_billing_result (st : CaseStore) (correlation_id : UUID)
    (payload : BillingRefundAnalysisCompletedPayload) : CaseStore :=
  mk_store (cs_cases st) (cs_order st) (cs_by_correlation st) (cs_by_task_id st)
    (deque_append (cs_parked_billing st) (correlation_id, payload)) (cs_parked_risk st).

Definition park_risk_result (st : CaseStore) (correlation_id : UUID)
    (payload : RiskReviewCompletedPayload) : CaseStore :=
  mk_store (cs_cases st) (cs_order st) (cs_by_correlation st) (cs_by_task_id st)
    (cs_parked_billing st) (deque_append (cs_parked_risk st) (correlation_id, payload)).

Definition set_deadline (st : CaseStore) (case_id : UUID) (deadline_at : datetime) : CaseStore :=
  update_case case_id (set_deadline_at (Some deadline_at)) st.

Definition timed_out (now : datetime) (case : ResolutionCase) : bool :=
  negb (is_terminal (rc_status case)) && negb (bool_decide (rc_status case = DECIDED)) &&
  match rc_deadline_at case with Some d => d <? now | None => false end &&
  negb (bool_decide (rc_pending_tasks case = ∅)).

(** [list_timed_out_cases]: the slots, in the dict's order. *)
Definition list_timed_out_cases (st : CaseStore) (now : datetime) : list UUID :=
  List.filter
    (λ k, match cs_cases st !! k with Some c => timed_out now c | None => false end)
    (cs_order st).
