(* ===== verification/Envelope.v ===== *)
(** * Event envelopes and the payload registry

    [src/agent_foundation/envelope.py], [payloads/__init__.py],
    [payloads/sample.py], [runtime/agent_card.py] and the topic registry of
    [transport/topics.py]; [Publisher._build_envelope].  The envelope's payload is
    a dict in the source, dumped from a registered model and validated again by
    the consumer; here it is a sum with one constructor per model, and
    [P_Other] for data no model accepts.  The trace context is not modelled. *)

From Stdlib Require Import ZArith Bool Ascii String List Lia.
From stdpp Require Import base list strings gmap.
From S2P Require Import Prelude.
From S2P Require Import PyFloat.
From S2P Require Import Contracts.
From S2P Require Import A2A.

Open Scope string_scope.
Open Scope list_scope.
Open Scope Z_scope.

(** ** The validators' regular expressions

    Each pattern is anchored with [^] and [$]; Python's [$] also matches before
    one trailing newline.  [\d] is the ASCII digits. *)

Definition in_range (lo hi : N) (c : ascii) : bool :=
  N.leb lo (N_of_ascii c) && N.leb (N_of_ascii c) hi.

Definition is_lower (c : ascii) : bool := in_range 97 122 c.
Definition is_digit (c : ascii) : bool := in_range 48 57 c.

(** [[a-z0-9_.-]] and [[a-z0-9_-]] *)
Definition is_id_char (c : ascii) : bool :=
  is_lower c || is_digit c || Ascii.eqb c "_" || Ascii.eqb c "." || Ascii.eqb c "-".
Definition is_name_char (c : ascii) : bool :=
  is_lower c || is_digit c || Ascii.eqb c "_" || Ascii.eqb c "-".

Definition chars (s : string) : list ascii := list_ascii_of_string s.

(** The text without one trailing newline. *)
Definition chop_newline (l : list ascii) : list ascii :=
  match rev l with
  | c :: r => if Ascii.eqb c "010" then rev r else l
  | [] => []
  end.

(** [re.match("^...$", v)] for a pattern given by its full matches. *)
Definition anchored (full : list ascii → bool) (v : string) : bool :=
  full (chars v) || full (chop_newline (chars v)).

(** [[a-z]CLASS{1,62}] *)
Definition ident_1_62 (class : ascii → bool) (l : list ascii) : bool :=
  match l with
  | c :: r =>
      is_lower c && forallb class r &&
      (1 <=? Z.of_nat (length r)) && (Z.of_nat (length r) <=? 62)
  | [] => false
  end.

Definition _AGENT_ID_RE : string → bool := anchored (ident_1_62 is_id_char).
Definition _TENANT_ID_RE : string → bool := anchored (ident_1_62 is_name_char).

(** The maximal dot-free segments, in order. *)
Fixpoint split_dots (l : list ascii) : list (list ascii) :=
  match l with
  | [] => [[]]
  | c :: r =>
      if Ascii.eqb c "." then [] :: split_dots r
      else match split_dots r with
           | seg :: segs => (c :: seg) :: segs
           | [] => [[c]]
           end
  end.

Definition all_digits (l : list ascii) : bool :=
  match l with [] => false | _ => forallb is_digit l end.

Definition is_segment (l : list ascii) : bool :=
  match l with c :: r => is_lower c && forallb is_name_char r | [] => false end.

(** [v\d+] *)
Definition is_version_segment (l : list ascii) : bool :=
  match l with c :: r => Ascii.eqb c "v" && all_digits r | [] => false end.

Definition _EVENT_TYPE_RE : string → bool :=
  anchored (λ l,
    match rev (split_dots l) with
    | v :: (_ :: _ :: _) as rest =>
        is_version_segment v && forallb is_segment rest
    | _ => false
    end).

Definition _SEMVER_RE : string → bool :=
  anchored (λ l,
    match split_dots l with
    | [a; b; c] => all_digits a && all_digits b && all_digits c
    | _ => false
    end).

(** ** Agent cards *)

Record Capability := {
  cap_id : string;
  cap_name : string;
  cap_description : string;
  cap_tags : list string;
}.

Definition mk_capability (c : Capability) : result Capability :=
  if negb (_AGENT_ID_RE (cap_id c)) then Err (ValidationError "Capability.id")
  else if negb ((1 <=? Z.of_nat (py_len (cap_name c))) && (Z.of_nat (py_len (cap_name c)) <=? 80))
  then Err (ValidationError "Capability.name must be 1–80 characters")
  else if negb ((1 <=? Z.of_nat (py_len (cap_description c))) &&
                (Z.of_nat (py_len (cap_description c)) <=? 280))
  then Err (ValidationError "Capability.description must be 1–280 characters")
  else Ok c.

Record AgentCard := {
  card_agent_id : string;
  card_name : string;
  card_description : string;
  card_version : string;
  card_endpoint_topic : string;
  card_capabilities : list Capability;
}.

(** The validators of [AgentCard], for capabilities that are themselves valid. *)
Definition mk_card (c : AgentCard) : result AgentCard :=
  if negb (_AGENT_ID_RE (card_agent_id c)) then Err (ValidationError "AgentCard.agent_id")
  else if negb (_SEMVER_RE (card_version c)) then Err (ValidationError "AgentCard.version")
  else match card_capabilities c with
       | [] => Err (ValidationError "AgentCard.capabilities must be non-empty")
       | caps =>
           if bool_decide (NoDup (map cap_id caps)) then Ok c
           else Err (ValidationError "AgentCard.capabilities must have unique ids")
       end.

(** ** Envelopes *)

Record Envelope (P : Type) := mk_env {
  env_event_id : UUID;
  env_correlation_id : UUID;
  env_causation_id : option UUID;
  env_agent_id : string;
  env_tenant_id : string;
  env_timestamp : datetime;
  env_event_type : string;
  env_schema_version : string;
  env_payload : P;
}.
Arguments mk_env {P}.
Arguments env_event_id {P} _.
Arguments env_correlation_id {P} _.
Arguments env_causation_id {P} _.
Arguments env_agent_id {P} _.
Arguments env_tenant_id {P} _.
Arguments env_timestamp {P} _.
Arguments env_event_type {P} _.
Arguments env_schema_version {P} _.
Arguments env_payload {P} _.

Inductive AuditOutcome := accepted | aud_rejected | duplicate_skipped | aud_completed | aud_failed.

#[export] Instance AuditOutcome_eq_dec : EqDecision AuditOutcome.
Proof. solve_decision. Defined.

Record AuditPayload (P : Type) := {
  aud_original_envelope : Envelope P;
  aud_outcome : AuditOutcome;
  aud_reason : option string;
  aud_recorded_at : datetime;
  aud_task_id : option UUID;
}.
Arguments Build_AuditPayload {P}.
Arguments aud_original_envelope {P} _.
Arguments aud_outcome {P} _.
Arguments aud_reason {P} _.
Arguments aud_recorded_at {P} _.
Arguments aud_task_id {P} _.

Inductive EventPayload :=
| P_Message (m : A2AMessage)
| P_Audit (a : AuditPayload EventPayload)
| P_Sample (message : string)
| P_TaskRequest (r : TaskRequest)
| P_TaskResult (r : TaskResult)
| P_Card (c : AgentCard)
| P_Ticket (t : SupportTicketCreatedPayload)
| P_Decision (d : CustomerResponseDecisionPayload)
| P_Classified (c : CustomerIssueClassifiedPayload)
| P_ReviewRequested (r : RefundReviewRequestedPayload)
| P_Drafted (d : CustomerResponseDraftedPayload)
| P_BillingResult (b : BillingRefundAnalysisCompletedPayload)
| P_RiskResult (r : RiskReviewCompletedPayload)
| P_Other (v : pyval).

Abbreviation EventEnvelope := (Envelope EventPayload).

(** [AuditPayload.validate_reason_required] *)
Definition mk_audit {P} (a : AuditPayload P) : result (AuditPayload P) :=
  if bool_decide (aud_outcome a ∈ [aud_rejected; aud_failed]) &&
     negb (bool_of_option (aud_reason a))
  then Err (ValidationError "reason is required")
  else Ok a.

Definition TICKET_CREATED : string := topic_for "support" "ticket" "created".

Definition ROOT_EVENT_TYPES : list string :=
  [ "agent.sample.v1"; "agent.workflow_start.v1"; "agent.agent_card.v1";
    "system.agent.heartbeat.v1"; AGENT_ENVIRONMENT +:+ ".support.ticket.created.v1" ].

(** The validators of [EventEnvelope]; [MissingCausation] is a [ValueError]. *)
Definition mk_envelope {P} (e : Envelope P) : result (Envelope P) :=
  if negb (_AGENT_ID_RE (env_agent_id e)) then Err (ValidationError "agent_id")
  else if negb (_TENANT_ID_RE (env_tenant_id e)) then Err (ValidationError "tenant_id")
  else if negb (_EVENT_TYPE_RE (env_event_type e)) then Err (ValidationError "event_type")
  else if negb (_SEMVER_RE (env_schema_version e)) then Err (ValidationError "schema_version")
  else if negb (bool_of_option (env_causation_id e)) &&
          negb (str_in (env_event_type e) ROOT_EVENT_TYPES)
  then Err (ValidationError "causation_id is required for non-root event type")
  else Ok e.

(** ** The payload registry *)

Definition TOPIC_LLM_INVOCATION_COMPLETED : string :=
  topic_for "audit" "llm.invocation" "completed".
Definition TOPIC_LLM_INVOCATION_FAILED : string := topic_for "audit" "llm.invocation" "failed".

(** The models of the LLM audit events have no constructor in [EventPayload]: no
    envelope of theirs is valid ([LlmFacts]); their writer's payload is [P_Other]. *)
Inductive PayloadModel :=
| M_Message | M_Audit | M_Sample | M_TaskRequest | M_TaskResult | M_Card | M_Ticket | M_Decision
| M_Classified | M_ReviewRequested | M_BillingResult | M_RiskResult | M_Drafted
| M_LlmCompleted | M_LlmFailed.

#[export] Instance PayloadModel_eq_dec : EqDecision PayloadModel.
Proof. solve_decision. Defined.

Definition PAYLOAD_REGISTRY : list (string * PayloadModel) :=
  [ ("agent.message.v1", M_Message); ("agent.audit.v1", M_Audit); ("agent.sample.v1", M_Sample);
    ("agent.task_request.v1", M_TaskRequest); ("agent.task_result.v1", M_TaskResult);
    ("agent.agent_card.v1", M_Card); (TICKET_CREATED, M_Ticket);
    (TOPIC_RESOLUTION_DECIDED, M_Decision); (TOPIC_ISSUE_CLASSIFIED, M_Classified);
    (TOPIC_REFUND_REVIEW_REQUESTED, M_ReviewRequested); (TOPIC_BILLING_RESULT, M_BillingResult);
    (TOPIC_RISK_RESULT, M_RiskResult); (TOPIC_RESPONSE_DRAFTED, M_Drafted);
    (TOPIC_LLM_INVOCATION_COMPLETED, M_LlmCompleted);
    (TOPIC_LLM_INVOCATION_FAILED, M_LlmFailed) ].

Definition assoc_get {A} (k : string) (l : list (string * A)) : option A :=
  snd <$> List.find (λ kv, String.eqb (fst kv) k) l.

Definition lookup_model (event_type : string) : result PayloadModel :=
  match assoc_get event_type PAYLOAD_REGISTRY with
  | Some m => Ok m
  | None => Err (UnknownEventType event_type)
  end.

(** The class of a payload object; plain data has none. *)
Definition model_of (p : EventPayload) : option PayloadModel :=
  match p with
  | P_Message _ => Some M_Message | P_Audit _ => Some M_Audit | P_Sample _ => Some M_Sample
  | P_TaskRequest _ => Some M_TaskRequest | P_TaskResult _ => Some M_TaskResult
  | P_Card _ => Some M_Card | P_Ticket _ => Some M_Ticket | P_Decision _ => Some M_Decision
  | P_Classified _ => Some M_Classified | P_ReviewRequested _ => Some M_ReviewRequested
  | P_Drafted _ => Some M_Drafted | P_BillingResult _ => Some M_BillingResult
  | P_RiskResult _ => Some M_RiskResult | P_Other _ => None
  end.

Definition TOPIC_MESSAGE : string := topic_for "agent" "message" "sent".
Definition TOPIC_SAMPLE : string := topic_for "system" "sample" "published".

Definition TOPIC_NAMES : list (string * string) :=
  [ ("agent.message.v1", TOPIC_MESSAGE); ("agent.audit.v1", TOPIC_AUDIT);
    ("agent.sample.v1", TOPIC_SAMPLE); (TICKET_CREATED, TICKET_CREATED);
    (TOPIC_RESOLUTION_DECIDED, TOPIC_RESOLUTION_DECIDED);
    (TOPIC_ISSUE_CLASSIFIED, TOPIC_ISSUE_CLASSIFIED);
    (TOPIC_REFUND_REVIEW_REQUESTED, TOPIC_REFUND_REVIEW_REQUESTED);
    (TOPIC_BILLING_RESULT, TOPIC_BILLING_RESULT); (TOPIC_RISK_RESULT, TOPIC_RISK_RESULT);
    (TOPIC_RESPONSE_DRAFTED, TOPIC_RESPONSE_DRAFTED);
    (TOPIC_LLM_INVOCATION_COMPLETED, TOPIC_LLM_INVOCATION_COMPLETED);
    (TOPIC_LLM_INVOCATION_FAILED, TOPIC_LLM_INVOCATION_FAILED) ].

(** [Publisher._resolve_topic] *)
Definition _resolve_topic (event_type : string) : result string :=
  match assoc_get event_type TOPIC_NAMES with
  | Some t => Ok t
  | None => Err (UnknownEventType event_type)
  end.

(** ** The publisher's envelope *)

Record AgentIdentity := {
  id_agent_id : string;
  id_display_name : string;
  id_tenant_id : string;
}.

(** The name of a registered model, and of a payload's own class. *)
Definition model_name (m : PayloadModel) : string :=
  match m with
  | M_Message => "A2AMessage" | M_Audit => "AuditPayload" | M_Sample => "SamplePayload"
  | M_TaskRequest => "TaskRequest" | M_TaskResult => "TaskResult" | M_Card => "AgentCard"
  | M_Ticket => "SupportTicketCreatedPayload"
  | M_Decision => "CustomerResponseDecisionPayload"
  | M_Classified => "CustomerIssueClassifiedPayload"
  | M_ReviewRequested => "RefundReviewRequestedPayload"
  | M_BillingResult => "BillingRefundAnalysisCompletedPayload"
  | M_RiskResult => "RiskReviewCompletedPayload"
  | M_Drafted => "CustomerResponseDraftedPayload"
  | M_LlmCompleted => "LlmInvocationCompletedPayload"
  | M_LlmFailed => "LlmInvocationFailedPayload"
  end.

Definition pyval_type_name (v : pyval) : string :=
  match v with
  | VNone => "NoneType" | VBool _ => "bool" | VInt _ => "int" | VFloat _ => "float"
  | VDecimal _ => "Decimal" | VStr _ => "str" | VList _ => "list" | VDict _ => "dict"
  end.

Definition type_name (p : EventPayload) : string :=
  match model_of p, p with
  | Some m, _ => model_name m
  | None, P_Other v => pyval_type_name v
  | None, _ => "BaseModel"
  end.

(** [PayloadValidationError(event_type, detail)], a [ValueError]. *)
Definition payload_validation_error (event_type detail : string) : exn :=
  ValueError ("Payload validation failed for event_type=" +:+ py_repr_str event_type +:+ ": " +:+
              detail).

(** [_build_envelope]; [event_id] and [now] are the readings it takes (drawn, when
    the payload is rejected, for nothing). *)
Definition _build_envelope (identity : AgentIdentity) (payload : EventPayload)
    (event_type : string) (correlation_id : UUID) (causation_id : option UUID)
    (event_id : UUID) (now : datetime) : result EventEnvelope :=
  model_cls ← lookup_model event_type;
  if negb (bool_decide (model_of payload = Some model_cls))
  then Err (payload_validation_error event_type
              ("expected " +:+ model_name model_cls +:+ ", got " +:+ type_name payload))
  else
    mk_envelope {|
      env_event_id := event_id;
      env_correlation_id := correlation_id;
      env_causation_id := causation_id;
      env_agent_id := id_agent_id identity;
      env_tenant_id := id_tenant_id identity;
      env_timestamp := now;
      env_event_type := event_type;
      env_schema_version := "1.0.0";
      env_payload := payload;
    |}.

(** ** Discovery *)

(** [latest[card.agent_id] = card] in a dict: an existing key keeps its place. *)
Fixpoint card_insert (c : AgentCard) (l : list AgentCard) : list AgentCard :=
  match l with
  | [] => [c]
  | d :: l' => if String.eqb (card_agent_id d) (card_agent_id c) then c :: l'
               else d :: card_insert c l'
  end.

(** A record of the card topic: its key and its bytes. *)
Record CardRecord (Bytes : Type) := {
  rec_key : string;
  rec_value : Bytes;
}.
Arguments rec_key {Bytes}.
Arguments rec_value {Bytes}.

(** What the broker answers one scan of the topic: [start], the polls ([getmany]: the
    batches of the partitions, none at the end of the topic) and [stop]. *)
Record CardScan (Bytes : Type) := {
  scan_start : result unit;
  scan_polls : list (result (list (list (CardRecord Bytes))));
  scan_stop : result unit;
}.
Arguments scan_start {Bytes}.
Arguments scan_polls {Bytes}.
Arguments scan_stop {Bytes}.

(** [AgentCard.model_validate(envelope.payload)] *)
Definition validate_card (p : EventPayload) : result AgentCard :=
  match p with P_Card card => Ok card | _ => Err (ValidationError "AgentCard") end.

Section Discovery.
(** [EventEnvelope.model_validate_json] *)
Context {Bytes : Type} (parse_envelope : Bytes → result EventEnvelope).

Definition card_of (msg : CardRecord Bytes) : result AgentCard :=
  envelope ← parse_envelope (rec_value msg); validate_card (env_payload envelope).

(** One record: what does not parse or validate is passed over. *)
Definition read_record (latest : list AgentCard) (msg : CardRecord Bytes) : list AgentCard :=
  match card_of msg with Ok card => card_insert card latest | Err _ => latest end.

Definition read_records (records : list (CardRecord Bytes)) (latest : list AgentCard) :
    list AgentCard := fold_left read_record records latest.

(** The [while True] loop: a poll without batches ends it, one that raises too. *)
Fixpoint read_polls (polls : list (result (list (list (CardRecord Bytes)))))
    (latest : list AgentCard) : list AgentCard :=
  match polls with
  | Ok (batch :: batches) :: polls => read_polls polls (read_records (concat (batch :: batches)) latest)
  | _ => latest
  end.

(** [start] and [stop] are outside the [except]. *)
Definition discover_agents (scan : CardScan Bytes) : result (list AgentCard) :=
  match scan_start scan with
  | Err e => Err e
  | Ok _ =>
      let latest := read_polls (scan_polls scan) [] in
      match scan_stop scan with Err e => Err e | Ok _ => Ok latest end
  end.

Definition find_capable (capability_id : string) (scan : CardScan Bytes) : result (list AgentCard) :=
  cards ← discover_agents scan;
  Ok (List.filter (λ c, existsb (λ cap, String.eqb (cap_id cap) capability_id)
                          (card_capabilities c)) cards).
End Discovery.

(** ** Event types known to the registry are published under their own name *)

Example event_types_valid :
  forallb (λ et, _EVENT_TYPE_RE (fst et)) PAYLOAD_REGISTRY = true.
Proof. vm_compute. reflexivity. Qed.
