(* ===== verification/Telemetry.v ===== *)
(** * Telemetry

    [src/agent_foundation/observability/]: the client singleton ([client.py]), the
    [span] and [generation] context managers ([tracing.py]), [@traced]
    ([decorators.py]), the attributes ([attributes.py]) and the scores ([scores.py]);
    and what the LLM runtime sends with them ([_enrich_generation] and [_emit_scores] of
    [llm/runtime.py]).  The last part is the trace context of an envelope
    ([propagation.py]): the W3C [traceparent] with its pattern and its dict form, and the
    guarded calls of OpenTelemetry; and the managed prompts ([prompts.py]), fetched from
    LangFuse with a local fallback.

    The LangFuse SDK is a parameter: operations on an observations state of its own, each
    of which may raise an [Exception].  The code under a [with] is a function of the
    application's state (a coroutine is one under an environment, [Async.run]); it may
    return, raise an [Exception], or be cancelled ([CancelledError] is not an [Exception]).

    The component's contract: telemetry can neither fail nor change the code it wraps; and
    with a working backend every observation that is started is ended, in the order of a
    stack. *)

From Stdlib Require Import ZArith Bool Ascii String List Lia.
From stdpp Require Import base list strings.
From S2P Require Import Prelude.
From S2P Require Import PyFloat.
From S2P Require Import Contracts.
From S2P Require Import Uuid.
From S2P Require Import A2A.
From S2P Require Import Envelope.
From S2P Require Import Llm.
From S2P Require Import LlmConfig.
From S2P Require Import ObsConfig.
From S2P Require Import Redaction.

Open Scope string_scope.
Open Scope list_scope.
Open Scope Z_scope.

#[local] Set Default Proof Using "Type".

(** ** The SDK *)

(** The arguments of [update]. *)
Inductive Update :=
| U_Metadata (key value : string)
| U_Latency (latency_ms : Z)
| U_Error (status_message : string) (latency_ms : option Z)
| U_Model (model : string)
| U_Usage (usage : list (string * Z))
| U_Input (input : string)
| U_Output (output : pyval).

(** The keyword arguments of [client.score]. *)
Record Score := {
  sc_trace_id : string;
  sc_name : string;
  sc_value : float;
}.

Record Langfuse (H O : Type) := {
  lf_start_span : string → option string → O → result H * O;
  lf_start_generation : string → option string → option string → option string → O → result H * O;
  lf_has_update : H → bool;
  lf_update : H → Update → O → result unit * O;
  lf_end : H → O → result unit * O;
  lf_trace_id : H → option string;
  lf_score : Score → O → result unit * O;
  lf_flush : O → result unit * O;
}.
Arguments lf_start_span {H O}.
Arguments lf_start_generation {H O}.
Arguments lf_has_update {H O}.
Arguments lf_update {H O}.
Arguments lf_end {H O}.
Arguments lf_trace_id {H O}.
Arguments lf_score {H O}.
Arguments lf_flush {H O}.

(** ** [client.py] *)

(** The module's globals [_client] and [_config]. *)
Record ObsState (H O : Type) := mk_obs {
  os_client : option (Langfuse H O);
  os_config : option ObservabilityConfig;
}.
Arguments mk_obs {H O}.
Arguments os_client {H O}.
Arguments os_config {H O}.

Definition fresh_obs {H O} : ObsState H O := mk_obs None None.

Definition get_config {H O} (s : ObsState H O) : ObservabilityConfig :=
  default disabled_config (os_config s).

(** [configure(config)]; [connect] is the construction of [langfuse.Langfuse], which may raise, on the
    keys and the host. *)
Definition configure {H O} (langfuse_importable : bool)
    (connect : option string → option string → option string → result (Langfuse H O))
    (config : ObservabilityConfig) : ObsState H O :=
  mk_obs
    (if negb (is_active langfuse_importable config) then None
     else match connect (oc_public_key config) (oc_secret_key config)
                  (if opt_truthy (oc_host config) then oc_host config else None) with
          | Ok client => Some client
          | Err _ => None
          end)
    (Some config).

(** ** Outcomes *)

Inductive outcome (A : Type) := Returned (a : A) | Raised (e : exn) | Cancelled.
Arguments Returned {A} a.
Arguments Raised {A} e.
Arguments Cancelled {A}.

Definition outcome_of {A} (r : result A) : outcome A :=
  match r with Ok a => Returned a | Err e => Raised e end.

(** [with suppress(Exception): op()] *)
Definition suppress {A O} (op : O → result A * O) (o : O) : O := snd (op o).

(** ** The context managers *)

Section Tracing.
Context {App O H : Type} (sys : ObsState H O).
(** [time.perf_counter_ns()] *)
Variable perf_counter_ns : O → Z.

(** The code of a [with]: the application's state and the SDK's. *)
Definition code (A : Type) : Type := App * O → outcome A * (App * O).

(** [client is not None and cfg.enabled and name not in cfg.disabled_spans] *)
Definition recording (name : string) : option (Langfuse H O) :=
  match os_client sys with
  | Some client =>
      if oc_enabled (get_config sys) && negb (str_in name (oc_disabled_spans (get_config sys)))
      then Some client else None
  | None => None
  end.

(** The attributes of a [span]: an update that raises drops the handle. *)
Fixpoint span_attrs (client : Langfuse H O) (h : H) (attrs : list (string * string)) (o : O) :
    option H * O :=
  match attrs with
  | [] => (Some h, o)
  | (k, v) :: attrs =>
      if lf_has_update client h then
        match lf_update client h (U_Metadata k v) o with
        | (Ok _, o) => span_attrs client h attrs o
        | (Err _, o) => (None, o)
        end
      else span_attrs client h attrs o
  end.

Definition enter_span (name : string) (attrs : list (string * string)) (trace_id : option string)
    (o : O) : option (Langfuse H O * H) * O :=
  match recording name with
  | None => (None, o)
  | Some client =>
      match lf_start_span client name (if opt_truthy trace_id then trace_id else None) o with
      | (Err _, o) => (None, o)
      | (Ok h, o) => let '(h, o) := span_attrs client h attrs o in (pair client <$> h, o)
      end
  end.

(** [try: lf_span.update(...); lf_span.end() except Exception: pass] *)
Definition update_and_end (client : Langfuse H O) (h : H) (u : Update) (o : O) : O :=
  match lf_update client h u o with
  | (Ok _, o) => suppress (lf_end client h) o
  | (Err _, o) => o
  end.

(** [with span(name, attrs=attrs, trace_id=trace_id): body]; the message of an exception is
    its [str]. *)
Definition span {A} (name : string) (attrs : list (string * string)) (trace_id : option string)
    (body : option (Langfuse H O * H) → code A) : code A := λ s,
  let '(lf_span, o) := enter_span name attrs trace_id (snd s) in
  match body lf_span (fst s, o) with
  | (Returned a, (w, o)) =>
      (Returned a, (w, match lf_span with Some (c, h) => suppress (lf_end c h) o | None => o end))
  | (Raised e, (w, o)) =>
      (Raised e, (w, match lf_span with
                     | Some (c, h) => update_and_end c h (U_Error (exn_str e) None) o
                     | None => o
                     end))
  | (Cancelled, s) => (Cancelled, s)
  end.

(** The attributes of a [generation]: each update is suppressed on its own. *)
Definition generation_attrs (client : Langfuse H O) (h : H) (attrs : list (string * string)) (o : O) : O :=
  fold_left (λ o kv, suppress (lf_update client h (U_Metadata kv.1 kv.2)) o) attrs o.

Definition enter_generation (name : string) (model input : option string)
    (attrs : list (string * string)) (trace_id : option string) (o : O) :
    option (Langfuse H O * H) * O :=
  let opt (x : option string) := if opt_truthy x then x else None in
  match recording name with
  | None => (None, o)
  | Some client =>
      match lf_start_generation client name (opt model) (opt input) (opt trace_id) o with
      | (Err _, o) => (None, o)
      | (Ok h, o) => (Some (client, h), generation_attrs client h attrs o)
      end
  end.

Definition generation {A} (name : string) (model input : option string)
    (attrs : list (string * string)) (trace_id : option string)
    (body : option (Langfuse H O * H) → code A) : code A := λ s,
  let start_ns := perf_counter_ns (snd s) in
  let latency o := (perf_counter_ns o - start_ns) / 1000000 in
  let '(lf_gen, o) := enter_generation name model input attrs trace_id (snd s) in
  match body lf_gen (fst s, o) with
  | (Returned a, (w, o)) =>
      (Returned a, (w, match lf_gen with
                       | Some (c, h) => update_and_end c h (U_Latency (latency o)) o
                       | None => o
                       end))
  | (Raised e, (w, o)) =>
      (Raised e, (w, match lf_gen with
                     | Some (c, h) => update_and_end c h (U_Error (exn_str e) (Some (latency o))) o
                     | None => o
                     end))
  | (Cancelled, s) => (Cancelled, s)
  end.

(** [@traced(span_name)], on a call with its arguments. *)
Definition traced {A} (span_name : string) (fn : code A) : code A :=
  span span_name [] None (λ _, fn).

(** [flush()] *)
Definition flush (o : O) : O :=
  match os_client sys with Some client => suppress (lf_flush client) o | None => o end.
End Tracing.

(** ** [attributes.py] *)

Definition allowed : list string :=
  [ "correlation_id"; "causation_id"; "event_id"; "case_id"; "ticket_id"; "task_id";
    "capability"; "agent_id"; "model_id"; "topic" ].

(** [build_span_attrs], the values already texts. *)
Definition build_span_attrs (kwargs : list (string * option string)) : list (string * string) :=
  omap (λ kv, if str_in kv.1 allowed then pair kv.1 <$> kv.2 else None) kwargs.

Definition attrs_from_envelope (e : EventEnvelope) : list (string * string) :=
  build_span_attrs
    [ ("correlation_id", Some (uuid_str (env_correlation_id e)));
      ("causation_id", uuid_str <$> env_causation_id e);
      ("event_id", Some (uuid_str (env_event_id e)));
      ("agent_id", Some (env_agent_id e));
      ("topic", Some (env_event_type e)) ].

(** ** [scores.py] and the LLM runtime's generation *)

Section Generation.
Context {O H : Type} (sys : ObsState H O).

Definition _write_score (trace_id name : string) (value : float) (o : O) : O :=
  match os_client sys with
  | None => o
  | Some client =>
      suppress (lf_score client {| sc_trace_id := trace_id; sc_name := name; sc_value := value |}) o
  end.

Definition one_or_zero (b : bool) : float := if b then lit 1 1 else lit 0 1.

Context {V : Type} `{!Schema V}.

(** The scores of [_emit_scores], in order. *)
Definition scores_of (r : AssistiveResult V) : list (string * float) :=
  let fallback := bool_decide (res_reasoning_path r = path_fallback) in
  [ ("schema_valid", one_or_zero (negb fallback)); ("used_fallback", one_or_zero fallback);
    ("cache_hit", one_or_zero (res_cache_hit r)); ("latency_ms", float_of_Z (res_latency_ms r)) ].

Definition _emit_scores (lf_gen : option (Langfuse H O * H)) (r : AssistiveResult V) (o : O) : O :=
  match lf_gen with
  | None => o
  | Some (client, h) =>
      match lf_trace_id client h with
      | None => o
      | Some trace_id => fold_left (λ o s, _write_score trace_id s.1 s.2 o) (scores_of r) o
      end
  end.

(** [result.value], a model dumped. *)
Definition raw_output (r : AssistiveResult V) : pyval :=
  match res_value r with Instance_ v => VDict (model_dump v) | Plain d => d end.

Definition usage_of (u : TokenUsage) : list (string * Z) :=
  [("input", tu_input_tokens u); ("output", tu_output_tokens u)] ++
  (if Z.eqb (tu_cache_read_tokens u) 0 then [] else [("cache_read_tokens", tu_cache_read_tokens u)]) ++
  (if Z.eqb (tu_cache_write_tokens u) 0 then [] else [("cache_write_tokens", tu_cache_write_tokens u)]).

(** The updates of [_enrich_generation]; the redactor is enabled as [redact_pii] says. *)
Definition enrich_updates (redact_pii : bool) (r : AssistiveResult V) : list Update :=
  match res_model_id r with
  | Some m => if str_truthy m then [U_Model m] else []
  | None => []
  end ++
  match res_token_usage r with Some u => [U_Usage (usage_of u)] | None => [] end ++
  match raw_output r with
  | VNone => []
  | v => [U_Output (if redact_pii then scrub redact_pii v else v)]
  end.

Definition send_updates (lf_gen : option (Langfuse H O * H)) (us : list Update) (o : O) : O :=
  match lf_gen with
  | None => o
  | Some (client, h) => fold_left (λ o u, suppress (lf_update client h u) o) us o
  end.

Definition _enrich_generation (lf_gen : option (Langfuse H O * H)) (redact_pii : bool)
    (r : AssistiveResult V) : O → O := send_updates lf_gen (enrich_updates redact_pii r).

(** What [reason] puts on its generation: the prompt unless the cache answered, then the
    result. *)
Definition reason_updates (redact_pii : bool) (prompt : option string) (r : AssistiveResult V) :
    list Update :=
  match prompt with
  | Some p => [U_Input (if redact_pii then redact_text p else p)]
  | None => []
  end ++ enrich_updates redact_pii r.

(** The attributes of the generation of [reason]; a request has no [task_id]. *)
Definition reason_attrs (request : AssistiveRequest V) : list (string * string) :=
  build_span_attrs [("agent_id", Some (ar_agent_id request)); ("task_id", None)].
End Generation.

(** ** Instrumented programs *)

(** A program of the application with its telemetry: [Plain] is code that knows nothing of
    it, [Annotate] a suppressed update of the innermost handle. *)
Inductive instr (App : Type) : Type → Type :=
| Plain {A} (f : App → outcome A * App) : instr App A
| Annotate (u : Update) : instr App unit
| Seq {B A} (i : instr App B) (k : B → instr App A) : instr App A
| Try {A} (i : instr App A) (h : exn → instr App A) : instr App A
| Span {A} (name : string) (attrs : list (string * string)) (trace_id : option string)
    (i : instr App A) : instr App A
| Generation {A} (name : string) (model input : option string) (attrs : list (string * string))
    (trace_id : option string) (i : instr App A) : instr App A.
Arguments Plain {App A} f.
Arguments Annotate {App} u.
Arguments Seq {App B A} i k.
Arguments Try {App A} i h.
Arguments Span {App A} name attrs trace_id i.
Arguments Generation {App A} name model input attrs trace_id i.

(** The program without its telemetry. *)
Fixpoint erase {App A} (i : instr App A) (w : App) : outcome A * App :=
  match i in instr _ A return outcome A * App with
  | Plain f => f w
  | Annotate _ => (Returned tt, w)
  | Seq i k =>
      match erase i w with
      | (Returned b, w) => erase (k b) w
      | (Raised e, w) => (Raised e, w)
      | (Cancelled, w) => (Cancelled, w)
      end
  | Try i h =>
      match erase i w with
      | (Raised e, w) => erase (h e) w
      | r => r
      end
  | Span _ _ _ i | Generation _ _ _ _ _ i => erase i w
  end.

Section Exec.
Context {App O H : Type} (sys : ObsState H O) (perf_counter_ns : O → Z).

Fixpoint exec {A} (i : instr App A) (handle : option (Langfuse H O * H)) : code (App := App) (O := O) A :=
  match i in instr _ A return code A with
  | Plain f => λ s, let '(r, w) := f (fst s) in (r, (w, snd s))
  | Annotate u => λ s, (Returned tt, (fst s, send_updates handle [u] (snd s)))
  | Seq i k => λ s,
      match exec i handle s with
      | (Returned b, s) => exec (k b) handle s
      | (Raised e, s) => (Raised e, s)
      | (Cancelled, s) => (Cancelled, s)
      end
  | Try i h => λ s,
      match exec i handle s with
      | (Raised e, s) => exec (h e) handle s
      | r => r
      end
  | Span name attrs trace_id i => span sys name attrs trace_id (λ h, exec i h)
  | Generation name model input attrs trace_id i =>
      generation sys perf_counter_ns name model input attrs trace_id (λ h, exec i h)
  end.

(** [r] is [r'] with some telemetry state. *)
Definition same_app {A} (r : outcome A * (App * O)) (r' : outcome A * App) : Prop :=
  fst r = fst r' ∧ fst (snd r) = snd r'.

Lemma span_same {A} name attrs trace_id (body : _ → code A) w o r :
  (∀ h o, same_app (body h (w, o)) r) →
  same_app (span sys name attrs trace_id body (w, o)) r.
Proof.
  intros Hb. unfold span. cbn [fst snd]. destruct (enter_span _ _ _ _ _) as [h o1].
  specialize (Hb h o1). destruct (body h (w, o1)) as [[a|e|] [w' o']]; exact Hb.
Qed.

Lemma generation_same {A} name model input attrs trace_id (body : _ → code A) w o r :
  (∀ h o, same_app (body h (w, o)) r) →
  same_app (generation sys perf_counter_ns name model input attrs trace_id body (w, o)) r.
Proof.
  intros Hb. unfold generation. cbn [fst snd]. destruct (enter_generation _ _ _ _ _ _ _) as [h o1].
  specialize (Hb h o1). destruct (body h (w, o1)) as [[a|e|] [w' o']]; exact Hb.
Qed.

Lemma exec_erase {A} (i : instr App A) handle w o : same_app (exec i handle (w, o)) (erase i w).
Proof.
  revert handle w o. induction i as [A f|u|B A i IH k IHk|A i IH h IHh|A name attrs t i IH|
    A name model input attrs t i IH]; intros handle w o; cbn [exec erase].
  - cbn. by destruct (f w).
  - done.
  - destruct (IH handle w o) as [H1 H2]. destruct (exec i handle (w, o)) as [r [w1 o1]].
    cbn in H1, H2. destruct (erase i w) as [r' w']. cbn in H1, H2. subst r w1.
    destruct r' as [b|e|]; [apply IHk|done|done].
  - destruct (IH handle w o) as [H1 H2]. destruct (exec i handle (w, o)) as [r [w1 o1]].
    cbn in H1, H2. destruct (erase i w) as [r' w']. cbn in H1, H2. subst r w1.
    destruct r' as [b|e|]; [done|apply IHh|done].
  - apply span_same. intros h o'. apply IH.
  - apply generation_same. intros h o'. apply IH.
Qed.

(** C39 (equivalence): telemetry is transparent.  Whatever program is instrumented with
    spans, generations and annotations, nested as it likes, whatever the configuration, and
    whichever calls of the SDK raise, the program returns, raises or is cancelled exactly
    as it would without telemetry, with the same effect on the application. *)
Theorem telemetry_transparent {A} (i : instr App A) handle w o :
  fst (exec i handle (w, o)) = fst (erase i w) ∧
  fst (snd (exec i handle (w, o))) = snd (erase i w).
Proof. apply exec_erase. Qed.

(** Remark (functional): off is off.  When telemetry is not configured, disabled, or the
    name is switched off, a span makes no call of the SDK: it is its body. *)
Theorem span_off {A} name attrs trace_id (body : _ → code A) (s : App * O) :
  recording sys name = None → span sys name attrs trace_id body s = body None s.
Proof.
  intros Hoff. unfold span, enter_span. rewrite Hoff. cbn [fst snd].
  destruct s as [w o]. cbn [fst snd]. by destruct (body None (w, o)) as [[a|e|] [w' o']].
Qed.
End Exec.

(** Before [configure], nothing records. *)
Lemma unconfigured_records_nothing {H O} name : recording (@fresh_obs H O) name = None.
Proof. reflexivity. Qed.

(** ** Every observation is ended: a backend that records *)

(** What the recording backend sees; a handle is the number of its observation. *)
Inductive Event :=
| Started (id : nat)
| Updated (id : nat)
| Ended (id : nat).

Record Recorder := mk_recorder {
  rec_next : nat;
  rec_log : list Event;
}.

Definition record (e : Event) (o : Recorder) : Recorder := mk_recorder (rec_next o) (rec_log o ++ [e]).

Definition start_recording (o : Recorder) : result nat * Recorder :=
  (Ok (rec_next o), mk_recorder (S (rec_next o)) (rec_log o ++ [Started (rec_next o)])).

(** A backend none of whose calls fail. *)
Definition recorder : Langfuse nat Recorder := {|
  lf_start_span _ _ o := start_recording o;
  lf_start_generation _ _ _ _ o := start_recording o;
  lf_has_update _ := true;
  lf_update h _ o := (Ok tt, record (Updated h) o);
  lf_end h o := (Ok tt, record (Ended h) o);
  lf_trace_id _ := None;
  lf_score _ o := (Ok tt, o);
  lf_flush o := (Ok tt, o) |}.

(** The observations that are open, innermost first, after the events; [None] when an
    observation is ended that is not the innermost open one. *)
Fixpoint open_after (events : list Event) (opened : list nat) : option (list nat) :=
  match events with
  | [] => Some opened
  | Started id :: events => open_after events (id :: opened)
  | Updated _ :: events => open_after events opened
  | Ended id :: events =>
      match opened with
      | top :: opened => if Nat.eqb id top then open_after events opened else None
      | [] => None
      end
  end.

Lemma open_after_app l1 l2 opened :
  open_after (l1 ++ l2) opened = (open_after l1 opened ≫= open_after l2).
Proof.
  revert opened. induction l1 as [|[id|id|id] l1 IH]; intros opened; cbn; [done|auto..|].
  destruct opened as [|top opened]; [done|]. destruct (Nat.eqb id top); [auto|done].
Qed.

(** Between two states of the backend, the open observations are the same. *)
Definition balanced (o o' : Recorder) : Prop :=
  ∃ events, rec_log o' = rec_log o ++ events ∧ ∀ opened, open_after events opened = Some opened.

#[local] Instance balanced_preorder : PreOrder balanced.
Proof.
  split.
  - intros o. exists []. split; [by rewrite app_nil_r|done].
  - intros o1 o2 o3 (l1 & H1 & B1) (l2 & H2 & B2). exists (l1 ++ l2).
    split; [by rewrite H2, H1, app_assoc|]. intros opened. by rewrite open_after_app, B1; cbn.
Qed.

Lemma balanced_update h o : balanced o (record (Updated h) o).
Proof. by exists [Updated h]. Qed.

Lemma balanced_attrs h attrs o : balanced o (generation_attrs recorder h attrs o).
Proof.
  revert o. induction attrs as [|[k v] attrs IH]; intros o; [done|].
  transitivity (record (Updated h) o); [apply balanced_update|]. apply (IH (record (Updated h) o)).
Qed.

Lemma span_attrs_recorded h attrs o :
  ∃ o', span_attrs recorder h attrs o = (Some h, o') ∧ balanced o o'.
Proof.
  revert o. induction attrs as [|[k v] attrs IH]; intros o; [by exists o|].
  destruct (IH (record (Updated h) o)) as (o' & H1 & H2). exists o'. split; [exact H1|].
  transitivity (record (Updated h) o); [apply balanced_update|done].
Qed.

(** A handle the recorder gave out. *)
Definition own (h : option (Langfuse nat Recorder * nat)) : Prop :=
  match h with Some (c, _) => c = recorder | None => True end.

Lemma balanced_sent h us o : own h → balanced o (send_updates h us o).
Proof.
  destruct h as [[c n]|]; [|done]. intros ->. cbn. revert o.
  induction us as [|u us IH]; intros o; [done|].
  transitivity (record (Updated n) o); [apply balanced_update|]. apply (IH (record (Updated n) o)).
Qed.

(** What happens between the start and the end of an observation. *)
Lemma balanced_bracket o o' :
  balanced (snd (start_recording o)) o' → balanced o (record (Ended (rec_next o)) o').
Proof.
  intros (l & Hl & Hb). exists (Started (rec_next o) :: l ++ [Ended (rec_next o)]). split.
  - cbn. rewrite Hl. cbn. by rewrite <- !app_assoc.
  - intros opened. cbn. rewrite open_after_app, Hb. cbn. by rewrite Nat.eqb_refl.
Qed.

Section Balance.
Context {App : Type} (config : option ObservabilityConfig) (perf_counter_ns : Recorder → Z).
#[local] Abbreviation sys := (mk_obs (Some recorder) config).

Lemma recording_recorder name :
  recording sys name = Some recorder ∨ recording sys name = None.
Proof. unfold recording. cbn. destruct (_ && _); auto. Qed.

(** A body that keeps the balance unless it is cancelled. *)
Definition keeps_balance {A} (m : code (App := App) (O := Recorder) A) : Prop :=
  ∀ w o, fst (m (w, o)) ≠ Cancelled → balanced o (snd (snd (m (w, o)))).

Lemma span_balanced {A} name attrs trace_id (body : _ → code A) :
  (∀ h, own h → keeps_balance (body h)) →
  keeps_balance (span sys name attrs trace_id body).
Proof.
  intros Hb w o. unfold span, enter_span. cbn [fst snd].
  destruct (recording_recorder name) as [->| ->].
  - change (lf_start_span recorder name _ o) with (start_recording o). unfold start_recording.
    set (o1 := mk_recorder _ _). destruct (span_attrs_recorded (rec_next o) attrs o1) as (o2 & -> & H2).
    cbn [fst snd fmap option_fmap option_map]. cbv zeta. pose proof (Hb (Some (recorder, rec_next o)) eq_refl w o2) as H3.
    destruct (body _ (w, o2)) as [[a|e|] [w' o']]; cbn [fst snd] in *; [| |done]; intros _;
      apply balanced_bracket; (etransitivity; [exact H2|]).
    + by apply H3.
    + transitivity o'; [by apply H3|apply balanced_update].
  - pose proof (Hb None I w o) as H3. destruct (body None (w, o)) as [[a|e|] [w' o']]; exact H3.
Qed.

Lemma generation_balanced {A} name model input attrs trace_id (body : _ → code A) :
  (∀ h, own h → keeps_balance (body h)) →
  keeps_balance (generation sys perf_counter_ns name model input attrs trace_id body).
Proof.
  intros Hb w o. unfold generation, enter_generation. cbn [fst snd].
  destruct (recording_recorder name) as [->| ->].
  - change (lf_start_generation recorder name _ _ _ o) with (start_recording o). unfold start_recording.
    set (o1 := mk_recorder _ _). pose proof (balanced_attrs (rec_next o) attrs o1) as H2.
    set (o2 := generation_attrs _ _ _ o1) in *.
    pose proof (Hb (Some (recorder, rec_next o)) eq_refl w o2) as H3.
    destruct (body _ (w, o2)) as [[a|e|] [w' o']]; cbn [fst snd] in *; [| |done]; intros _;
      apply balanced_bracket; (etransitivity; [exact H2|]);
      (transitivity o'; [by apply H3|apply balanced_update]).
  - pose proof (Hb None I w o) as H3. destruct (body None (w, o)) as [[a|e|] [w' o']]; exact H3.
Qed.

Lemma exec_balanced {A} (i : instr App A) handle :
  own handle → keeps_balance (exec sys perf_counter_ns i handle).
Proof.
  revert handle. induction i as [A f|u|B A i IH k IHk|A i IH h IHh|A name attrs t i IH|
    A name model input attrs t i IH]; intros handle Hown w o; cbn [exec].
  - cbn. by destruct (f w).
  - intros _. by apply balanced_sent.
  - specialize (IH handle Hown w o). destruct (exec sys perf_counter_ns i handle (w, o)) as [[b|e|] [w1 o1]];
      [|intros _; by apply IH|done]. intros Hc. transitivity o1; [by apply IH|by apply IHk].
  - specialize (IH handle Hown w o). destruct (exec sys perf_counter_ns i handle (w, o)) as [[b|e|] [w1 o1]];
      [exact IH| |exact IH]. intros Hc. transitivity o1; [by apply IH|by apply IHh].
  - by apply span_balanced.
  - by apply generation_balanced.
Qed.

(** Remark (invariant): every observation is ended.  On a working backend an instrumented
    program that is not cancelled, whether it returns or raises, ends every span and
    generation it starts, each before the one around it, and ends none it did not start. *)
Theorem observations_nest {A} (i : instr App A) w o :
  fst (exec sys perf_counter_ns i None (w, o)) ≠ Cancelled →
  ∃ events, rec_log (snd (snd (exec sys perf_counter_ns i None (w, o)))) = rec_log o ++ events ∧
            ∀ opened, open_after events opened = Some opened.
Proof. by apply exec_balanced. Qed.

(** Remark (liveness): the cancelled body is the exception.  [CancelledError] is not an
    [Exception], so a span whose body is cancelled is never ended. *)
Theorem cancelled_span_stays_open name (w : App) o :
  recording sys name = Some recorder →
  ∃ o', exec sys perf_counter_ns (Span name [] None (Plain (λ w : App, (Cancelled (A:=unit), w)))) None (w, o)
        = (Cancelled, (w, o')) ∧
        rec_log o' = rec_log o ++ [Started (rec_next o)] ∧
        ∀ opened, open_after [Started (rec_next o)] opened = Some (rec_next o :: opened).
Proof.
  intros Hr. eexists. cbn [exec]. unfold span, enter_span. rewrite Hr.
  cbn. split; [reflexivity|]. by split.
Qed.
End Balance.

(** ** A failing attribute loses the span *)

(** A backend whose [update] fails. *)
Definition no_updates : Langfuse nat Recorder := {|
  lf_start_span _ _ o := start_recording o;
  lf_start_generation _ _ _ _ o := start_recording o;
  lf_has_update _ := true;
  lf_update h _ o := (Err (ValueError "update"), o);
  lf_end h o := (Ok tt, record (Ended h) o);
  lf_trace_id _ := None;
  lf_score _ o := (Ok tt, o);
  lf_flush o := (Ok tt, o) |}.

Definition obs_on : ObservabilityConfig := {|
  oc_enabled := true; oc_public_key := Some "pk"; oc_secret_key := Some "sk"; oc_host := None;
  oc_sample_rate := lit 1 1; oc_environment := "local"; oc_service_name := "agent";
  oc_heartbeat_interval_s := lit 10 1; oc_exporter := "langfuse"; oc_redact_pii := true;
  oc_log_raw_prompts := false; oc_log_raw_outputs := false; oc_disabled_spans := [] |}.

(** Remark (error): with a backend whose [update] fails, a span that has an attribute is
    started and never ended: the handle is dropped; without attributes it is ended. *)
Theorem attribute_failure_leaks_span :
  let sys := mk_obs (Some no_updates) (Some obs_on) in
  let run attrs := rec_log (snd (snd
    (exec sys (λ _, 0) (Span "event.consume" attrs None (Plain (λ w : unit, (Returned tt, w)))) None
       (tt, mk_recorder 0 [])))) in
  run [("agent_id", "a")] = [Started 0] ∧ run [] = [Started 0; Ended 0].
Proof. vm_compute. by split. Qed.

(** ** What leaves the process *)

(** The texts of an update that [redact_pii] is about. *)
Definition redacted_update (u : Update) : Prop :=
  match u with
  | U_Input s => no_long_number s
  | U_Output v => text_values no_long_number v
  | _ => True
  end.

(** Remark (safety): what a generation exports.  With [redact_pii] on, neither the prompt nor
    the text values of the output that an LLM call puts on its generation hold a free-standing number of eight
    digits or more, from the cache, the model or the fallback; with it off, both leave as
    they are, whatever the flags about logging raw prompts and outputs. *)
Theorem generation_exports `{!Schema V} (prompt : option string) (r : AssistiveResult V) :
  Forall redacted_update (reason_updates true prompt r) ∧
  (∀ p, prompt = Some p → U_Input p ∈ reason_updates false prompt r) ∧
  (raw_output r ≠ VNone → U_Output (raw_output r) ∈ reason_updates false prompt r).
Proof.
  unfold reason_updates, enrich_updates. split; [|split].
  - rewrite !Forall_app. split; [destruct prompt; constructor; [apply redact_text_free|constructor]|].
    split; [destruct (res_model_id r) as [m|]; [destruct (str_truthy m)|]; by repeat constructor|].
    split; [destruct (res_token_usage r); by repeat constructor|].
    assert (Hr : redacted_update (U_Output (scrub true (raw_output r)))) by (cbn; rewrite scrub_redacts; apply redacted_free).
    destruct (raw_output r); by repeat constructor.
  - intros p ->. by left.
  - intros Hv. rewrite !elem_of_app. do 3 right. destruct (raw_output r); [done|left..].
Qed.

(** Remark (functional): the attributes of a span come from a fixed list of names: no text of
    a ticket or a payload is among them. *)
Theorem attrs_whitelisted kwargs k v :
  (k, v) ∈ build_span_attrs kwargs → k ∈ allowed ∧ (k, Some v) ∈ kwargs.
Proof.
  unfold build_span_attrs. rewrite list_elem_of_omap. intros ([k' ov] & Hin & Hk). cbn [fst snd] in Hk.
  destruct (str_in k' allowed) eqn:E; [|done]. destruct ov as [v'|]; [|done]. cbn in Hk.
  simplify_eq. split; [by apply str_in_spec|done].
Qed.

(** ** The trace context and the managed prompts *)

#[local] Open Scope nat_scope.

(** ** [_TRACEPARENT_RE] *)

(** [[0-9a-f]] *)
Definition lower_hex (c : ascii) : bool := between 48 57 c || between 97 102 c.

(** [[0-9a-f]{n}]: the digits and the rest. *)
Fixpoint take_hex (n : nat) (s : string) : option (string * string) :=
  match n, s with
  | O, _ => Some ("", s)
  | S n, String c s =>
      if lower_hex c then '(d, rest) ← take_hex n s; Some (String c d, rest) else None
  | S _, EmptyString => None
  end.

Definition take_dash (s : string) : option string :=
  match s with String "-" s => Some s | _ => None end.

(** [$] matches at the end and before a newline that ends the text. *)
Definition at_end (s : string) : bool := String.eqb s "" || String.eqb s (String "010" "").

(** [_TRACEPARENT_RE.match]: the groups 1 and 2. *)
Definition match_traceparent (s : string) : option (string * string) :=
  '(_, s) ← take_hex 2 s; s ← take_dash s;
  '(trace_id, s) ← take_hex 32 s; s ← take_dash s;
  '(span_id, s) ← take_hex 16 s; s ← take_dash s;
  '(_, s) ← take_hex 2 s;
  if at_end s then Some (trace_id, span_id) else None.

(** ** [TraceContextCarrier] *)

Record TraceContextCarrier := {
  tc_traceparent : string;
  tc_tracestate : option string;
}.

Definition trace_id (c : TraceContextCarrier) : option string :=
  fst <$> match_traceparent (tc_traceparent c).
Definition span_id (c : TraceContextCarrier) : option string :=
  snd <$> match_traceparent (tc_traceparent c).

Definition to_envelope_dict (c : TraceContextCarrier) : list (string * string) :=
  ("traceparent", tc_traceparent c) ::
  match tc_tracestate c with Some t => [("tracestate", t)] | None => [] end.

Definition from_envelope_dict (d : option (list (string * string))) : option TraceContextCarrier :=
  match d with
  | None | Some [] => None
  | Some d =>
      let tp := default "" (items_get "traceparent" d) in
      if negb (str_truthy tp) || negb (bool_of_option (match_traceparent tp)) then None
      else Some {| tc_traceparent := tp; tc_tracestate := items_get "tracestate" d |}
  end.

Section OpenTelemetry.
Context {Ctx : Type}.
(** [opentelemetry.propagate]: what [inject] leaves in an empty carrier, and [extract];
    missing or failing, they raise. *)
Variable otel_inject : result (list (string * string)).
Variable otel_extract : list (string * string) → result Ctx.

Definition inject : option (list (string * string)) :=
  match otel_inject with
  | Ok carrier =>
      match items_get "traceparent" carrier with
      | Some tp => if str_truthy tp then Some carrier else None
      | None => None
      end
  | Err _ => None
  end.

Definition extract (trace_context : option (list (string * string))) : option Ctx :=
  match trace_context with
  | None | Some [] => None
  | Some c => match otel_extract c with Ok ctx => Some ctx | Err _ => None end
  end.

Definition current_trace_context : option (list (string * string)) := inject.

(** *** [start_consumer_span] *)

(** A tracer and the context module: operations on the SDK's state, each of which may raise. *)
Record Tracer (Token Sp O : Type) := {
  otel_attach : Ctx → O → result Token * O;
  otel_start_span : string → O → result Sp * O;
  otel_set_attribute : Sp → string → string → O → result unit * O;
  otel_detach : Token → O → result unit * O;
}.
Arguments otel_attach {Token Sp O}.
Arguments otel_start_span {Token Sp O}.
Arguments otel_set_attribute {Token Sp O}.
Arguments otel_detach {Token Sp O}.

(** What is returned: the tracer's span, or [_NoOpSpan], whose methods do nothing. *)
Inductive ConsumerSpan (Sp : Type) := Live (span : Sp) | _NoOpSpan.
Arguments Live {Sp} span.
Arguments _NoOpSpan {Sp}.

Section ConsumerSpans.
Context {Token Sp O : Type}.

Fixpoint set_attributes (t : Tracer Token Sp O) (span : Sp) (attrs : list (string * string)) (o : O) :
    result unit * O :=
  match attrs with
  | [] => (Ok tt, o)
  | (k, v) :: attrs =>
      match otel_set_attribute t span k v o with
      | (Ok _, o) => set_attributes t span attrs o
      | (Err e, o) => (Err e, o)
      end
  end.

(** Attaching the extracted context, if there is one. *)
Definition attach_context (t : Tracer Token Sp O) (ctx : option Ctx) (o : O) : result (option Token) * O :=
  match ctx with
  | None => (Ok None, o)
  | Some c => match otel_attach t c o with
              | (Ok token, o) => (Ok (Some token), o)
              | (Err e, o) => (Err e, o)
              end
  end.

Definition detach_context (t : Tracer Token Sp O) (token : option Token) (o : O) : result unit * O :=
  match token with None => (Ok tt, o) | Some token => otel_detach t token o end.

Definition start_consumer_span (tracer : option (Tracer Token Sp O)) (span_name : string)
    (trace_context : option (list (string * string))) (attrs : list (string * string)) (o : O) :
    ConsumerSpan Sp * O :=
  match tracer with
  | None => (_NoOpSpan, o)
  | Some t =>
      match attach_context t (extract trace_context) o with
      | (Err _, o) => (_NoOpSpan, o)
      | (Ok token, o) =>
          match otel_start_span t span_name o with
          | (Err _, o) => (_NoOpSpan, o)
          | (Ok span, o) =>
              match set_attributes t span attrs o with
              | (Err _, o) => (_NoOpSpan, o)
              | (Ok _, o) =>
                  match detach_context t token o with
                  | (Err _, o) => (_NoOpSpan, o)
                  | (Ok _, o) => (Live span, o)
                  end
              end
          end
      end
  end.
End ConsumerSpans.
End OpenTelemetry.
Arguments Live {Sp} span.
Arguments _NoOpSpan {Sp}.

(** ** [prompts.py] *)

Record PromptTemplate := {
  pt_name : string;
  pt_template : string;
  pt_version : Z;
}.

(** [render]: [{{key}}] for each key, one after the other. *)
Definition render_managed (t : PromptTemplate) (kwargs : list (string * string)) : string :=
  fold_left (λ result kv, py_replace ("{{" +:+ kv.1 +:+ "}}") kv.2 result) kwargs (pt_template t).

(** [fetch_prompt]; the client's [get_prompt] gives the template's text and version. *)
Definition fetch_prompt (client : option (string → option Z → result (string * Z)))
    (name : string) (fallback : PromptTemplate) (version : option Z) : PromptTemplate * bool :=
  match client with
  | None => (fallback, false)
  | Some get_prompt =>
      match get_prompt name version with
      | Ok (template, v) => ({| pt_name := name; pt_template := template; pt_version := v |}, true)
      | Err _ => (fallback, false)
      end
  end.

(** ** Facts *)

Lemma take_hex_spec n s d rest :
  take_hex n s = Some (d, rest) →
  s = (d +:+ rest)%string ∧ String.length d = n ∧ forall_chars lower_hex d = true.
Proof.
  revert s d rest. induction n as [|n IH]; intros s d rest; cbn.
  { intros [= <- <-]. by destruct s. }
  destruct s as [|c s]; [done|]. destruct (lower_hex c) eqn:Ec; [|done].
  destruct (take_hex n s) as [[d' rest']|] eqn:E; [|done]. cbn. intros [= <- <-].
  destruct (IH _ _ _ E) as (-> & Hl & Hh). cbn. rewrite Hl, Hh, Ec. done.
Qed.

Lemma take_hex_app n d rest :
  String.length d = n → forall_chars lower_hex d = true → take_hex n (d +:+ rest) = Some (d, rest).
Proof.
  revert d. induction n as [|n IH]; intros [|c d]; try discriminate; [done|].
  intros [= Hl]. cbn [forall_chars]. intros [Hc Hh]%andb_true_iff.
  change (String c d +:+ rest) with (String c (d +:+ rest)). cbn [take_hex].
  rewrite Hc, IH by done. reflexivity.
Qed.

Lemma take_dash_spec s rest : take_dash s = Some rest → s = String "-" rest.
Proof.
  destruct s as [|c s]; [done|]. cbn. destruct c as [[] [] [] [] [] [] [] []]; try done.
  by intros [= ->].
Qed.

(** Text of [n] lower-case hexadecimal digits. *)
Definition hex_text (n : nat) (s : string) : Prop :=
  String.length s = n ∧ forall_chars lower_hex s = true.

(** Remark (functional): the pattern accepts exactly a version, a trace id of 32, a span id
    of 16 and flags of 2 lower-case hexadecimal digits, with dashes between them, and
    perhaps one newline at the end. *)
Theorem traceparent_shape s t p :
  match_traceparent s = Some (t, p) ↔
  ∃ v f e, hex_text 2 v ∧ hex_text 32 t ∧ hex_text 16 p ∧ hex_text 2 f ∧ at_end e = true ∧
    s = (v +:+ String "-" (t +:+ String "-" (p +:+ String "-" (f +:+ e))))%string.
Proof.
  unfold match_traceparent. split.
  - destruct (take_hex 2 s) as [[v s1]|] eqn:E1; [|done]. cbn [mbind option_bind].
    destruct (take_dash s1) as [s2|] eqn:D1; [|done]. cbn [mbind option_bind].
    destruct (take_hex 32 s2) as [[t' s3]|] eqn:E2; [|done]. cbn [mbind option_bind].
    destruct (take_dash s3) as [s4|] eqn:D2; [|done]. cbn [mbind option_bind].
    destruct (take_hex 16 s4) as [[p' s5]|] eqn:E3; [|done]. cbn [mbind option_bind].
    destruct (take_dash s5) as [s6|] eqn:D3; [|done]. cbn [mbind option_bind].
    destruct (take_hex 2 s6) as [[f s7]|] eqn:E4; [|done]. cbn [mbind option_bind].
    destruct (at_end s7) eqn:Ee; [|done]. intros [= -> ->].
    apply take_hex_spec in E1 as (-> & ? & ?), E2 as (-> & ? & ?), E3 as (-> & ? & ?),
      E4 as (-> & ? & ?). apply take_dash_spec in D1 as ->, D2 as ->, D3 as ->.
    exists v, f, s7. done.
  - intros (v & f & e & [H1 H2] & [H3 H4] & [H5 H6] & [H7 H8] & He & ->).
    do 3 (rewrite take_hex_app by done; cbn [mbind option_bind take_dash]).
    rewrite take_hex_app by done. cbn [mbind option_bind]. by rewrite He.
Qed.

(** Remark (roundtrip): a trace context survives the envelope.  The dict form of a carrier is
    read back as the carrier when its [traceparent] is well formed, and as no context
    otherwise. *)
Theorem trace_context_roundtrip c :
  from_envelope_dict (Some (to_envelope_dict c)) =
  if match_traceparent (tc_traceparent c) then Some c else None.
Proof.
  destruct c as [tp ts]. unfold from_envelope_dict, to_envelope_dict. cbn [tc_traceparent tc_tracestate].
  assert (Htp : items_get "traceparent" (("traceparent", tp) ::
    match ts with Some t => [("tracestate", t)] | None => [] end) = Some tp) by done.
  assert (Hts : items_get "tracestate" (("traceparent", tp) ::
    match ts with Some t => [("tracestate", t)] | None => [] end) = ts) by (by destruct ts).
  rewrite Htp, Hts. change (default "" (Some tp)) with tp.
  destruct (match_traceparent tp) eqn:E; cbn [bool_of_option negb]; [|by rewrite orb_true_r].
  destruct tp as [|ch tp]; [discriminate E|reflexivity].
Qed.

Example traceparents_read :
  map match_traceparent
    ["00-0123456789abcdef0123456789abcdef-0123456789abcdef-01";
     "00-0123456789abcdef0123456789abcdef-0123456789abcdef-01" +:+ String "010" "";
     "00-0123456789ABCDEF0123456789abcdef-0123456789abcdef-01";
     "00-0123456789abcdef0123456789abcdef-0123456789abcdef-01x"; ""] =
  [Some ("0123456789abcdef0123456789abcdef", "0123456789abcdef");
   Some ("0123456789abcdef0123456789abcdef", "0123456789abcdef"); None; None; None].
Proof. vm_compute. reflexivity. Qed.

(** ** The consumer's span *)

(** A context module that counts the contexts attached, and a tracer whose attributes fail. *)
Definition failing_tracer : Tracer (Ctx := unit) unit unit nat := {|
  otel_attach _ n := (Ok tt, S n);
  otel_start_span _ n := (Ok tt, n);
  otel_set_attribute _ _ _ n := (Err (IOError "set_attribute"), n);
  otel_detach _ n := (Ok tt, Nat.pred n) |}.

(** Remark (error): a failing attribute leaves the context attached.  The consumer's span is a
    no-op then, as it should be, but the context of the message stays current for whatever
    runs next; without a failure it is detached. *)
Theorem failing_attribute_leaks_context k v tp :
  start_consumer_span (λ _, Ok tt) (Some failing_tracer) "consume" (Some [("traceparent", tp)])
    [(k, v)] 0%nat = (_NoOpSpan, 1%nat) ∧
  start_consumer_span (λ _, Ok tt) (Some failing_tracer) "consume" (Some [("traceparent", tp)])
    [] 0%nat = (Live tt, 0%nat).
Proof. by split. Qed.
