(* ===== verification/Async.v ===== *)
(** * Coroutines, the broker and the scheduler

    The handlers are coroutines on one event loop.  A program ([prog]) is a tree
    of atomic actions on the world ([Do]: code between two awaits) and awaits
    ([Await]: code that waits for the broker, discovery or the LLM).  Threads
    switch only at awaits; the answer to an await is the environment's choice.

    The world holds the case store, the clock, the number of UUIDs drawn so far
    and the log of delivered envelopes. *)

From Stdlib Require Import ZArith Bool Ascii String List Lia.
From stdpp Require Import base list strings gmap relations.
From S2P Require Import Prelude.
From S2P Require Import PyFloat.
From S2P Require Import Contracts.
From S2P Require Import Uuid.
From S2P Require Import Idempotency.
From S2P Require Import Llm.
From S2P Require Import A2A.
From S2P Require Import Envelope.
From S2P Require Import CaseModels.
From S2P Require Import Classifier.
From S2P Require Import StateStore.

Open Scope string_scope.
Open Scope list_scope.
Open Scope Z_scope.

(** [uuid.uuid4()] draws from a stream; [uuid.uuid5(namespace, name)] is a
    function of its arguments. *)
Class Uuids := {
  uuid4 : nat → UUID;
  uuid5 : UUID → string → UUID;
}.

Record World := mk_world {
  w_store : CaseStore;
  w_now : datetime;
  w_uuids : nat;
  w_log : list (string * EventEnvelope);
}.

Definition set_store (st : CaseStore) (w : World) : World :=
  mk_world st (w_now w) (w_uuids w) (w_log w).

Definition add_log (entry : string * EventEnvelope) (w : World) : World :=
  mk_world (w_store w) (w_now w) (w_uuids w) (w_log w ++ [entry]).

(** ** Awaits *)

(** What [send_and_wait] can do: the record is written and acknowledged; it is
    written but the call raises; it is not written and the call raises. *)
Inductive SendOutcome := Acked | AckLost | Dropped.

(** The calls of a Kafka client that an agent awaits besides reading and sending. *)
Inductive WireCall :=
| ProducerStart
| ProducerStop
| CreateTopics (extra_topics : list string)
| ConsumerStart
| ConsumerStop
| SeekToBeginning
| SeekTo (offset : Z).

(** [Invoke] is [provider.invoke(prompt, profile)], of the provider and the profile in
    force.  [Sleep] is [asyncio.sleep],
    [WaitStop] is [wait_for(stop_event.wait(), timeout)] (whether the event came
    in time) and [StopSet] reads [stop_event.is_set()], which is the environment's
    to set; the code does not yield there, so the model allows one switch more.
    [Wire] is a call of a client's life cycle, which returns or raises.  [ReadCards] is one
    scan of the card topic: its answer is what the broker gives the scan, a record's value
    as [EventEnvelope.model_validate_json] parses it. *)
Inductive Query : Type → Type :=
| Send (topic key : string) (env : EventEnvelope) : Query SendOutcome
| ReadCards : Query (CardScan (result EventEnvelope))
| Wire (call : WireCall) : Query (result unit)
| Invoke (prompt : string) : Query InvokeOutcome
| ReadProcessed (topic : string) : Query (result (list ProcessedRecord))
| Persist (topic : string) (key : string) : Query SendOutcome
| Sleep (seconds : float) : Query unit
| StopSet : Query bool
| WaitStop (timeout : float) : Query bool.

(** The effect of an answer on the world: a written record is in the log (without its key,
    which only compaction looks at: see [Topics]).  The
    compacted topics that only their writer reads back ([ReadProcessed] and
    [Persist]) are kept with the writer's own state. *)
Definition effect {R} (q : Query R) : R → World → World :=
  match q with
  | Send topic _ env => λ r w,
      match r with Acked | AckLost => add_log (topic, env) w | Dropped => w end
  | _ => λ _ w, w
  end.

(** ** Programs *)

Inductive prog (A : Type) : Type :=
| Ret (a : A)
| Raise (e : exn)
| Do {B : Type} (f : World → B * World) (k : B → prog A)
| Await {R : Type} (q : Query R) (k : R → prog A).
Arguments Ret {A} a.
Arguments Raise {A} e.
Arguments Do {A B} f k.
Arguments Await {A R} q k.

Fixpoint bind {A B} (p : prog A) (g : A → prog B) : prog B :=
  match p with
  | Ret a => g a
  | Raise e => Raise e
  | Do f k => Do f (λ b, bind (k b) g)
  | Await q k => Await q (λ r, bind (k r) g)
  end.

(** [try: p except Exception as exc: h(exc)] *)
Fixpoint catch {A} (p : prog A) (h : exn → prog A) : prog A :=
  match p with
  | Ret a => Ret a
  | Raise e => h e
  | Do f k => Do f (λ b, catch (k b) h)
  | Await q k => Await q (λ r, catch (k r) h)
  end.

Declare Scope prog_scope.
Delimit Scope prog_scope with prog.
Notation "'let!' x := p 'in' k" := (bind p (λ x, k))
  (at level 200, x pattern, p at level 100, k at level 200, right associativity) : prog_scope.
Notation "p ;! k" := (bind p (λ _, k)) (at level 199, right associativity) : prog_scope.
Open Scope prog_scope.

(** A result of pure code, raised when it is an error. *)
Definition lift {A} (r : result A) : prog A :=
  match r with Ok a => Ret a | Err e => Raise e end.

(** [try: p finally: f] *)
Definition try_finally {A} (p : prog A) (f : prog unit) : prog A :=
  let! outcome := catch (let! a := p in Ret (Ok a)) (λ e, Ret (Err e)) in
  f ;! lift outcome.

(** A call of a client. *)
Definition wire (call : WireCall) : prog unit := Await (Wire call) lift.

(** Reading and writing the world. *)
Definition reads {A} (f : World → A) : prog A := Do (λ w, (f w, w)) Ret.
Definition now : prog datetime := reads w_now.

(** A store method that cannot raise, and one that can. *)
Definition store_op {A} (f : CaseStore → datetime → A * CaseStore) : prog A :=
  Do (λ w, let '(a, st) := f (w_store w) (w_now w) in (a, set_store st w)) Ret.

Definition store_update (f : CaseStore → datetime → CaseStore) : prog unit :=
  store_op (λ st t, (tt, f st t)).

Definition store_try (f : CaseStore → datetime → result CaseStore) : prog unit :=
  Do (λ w, match f (w_store w) (w_now w) with
           | Ok st => (Ok tt, set_store st w)
           | Err e => (Err e, w)
           end) lift.

(** Reading the case object in slot [k].  The store never removes a case, so a
    slot a handler holds is filled. *)
Definition deref (k : UUID) : prog ResolutionCase :=
  let! c := reads (λ w, get (w_store w) k) in
  match c with Some c => Ret c | None => lift (case_not_found k) end.

(** [case.attr = value] *)
Definition assign (k : UUID) (f : ResolutionCase → ResolutionCase) : prog unit :=
  store_update (λ st _, update_case k f st).

(** ** The publisher *)

Section Publisher.
Context `{Uuids}.

Definition fresh_uuid : prog UUID :=
  Do (λ w, (uuid4 (w_uuids w),
            mk_world (w_store w) (w_now w) (S (w_uuids w)) (w_log w))) Ret.

(** The key of a record: the caller's, else the envelope's own id. *)
Definition message_key (key : option string) (e : EventEnvelope) : string :=
  default (uuid_str (env_event_id e)) key.

(** [publish(payload, event_type, correlation_id, causation_id, topic=...)] *)
Definition publish (identity : AgentIdentity) (payload : EventPayload) (event_type : string)
    (correlation_id : UUID) (causation_id : option UUID) (topic : option string) :
    prog EventEnvelope :=
  let! event_id := fresh_uuid in
  let! t := now in
  let! envelope :=
    lift (_build_envelope identity payload event_type correlation_id causation_id event_id t) in
  let! resolved := match topic with Some t => Ret t | None => lift (_resolve_topic event_type) end in
  Await (Send resolved (message_key None envelope) envelope) (λ outcome,
    match outcome with
    | Acked => Ret envelope
    | AckLost | Dropped => Raise (IOError "send_and_wait failed")
    end).

(** [write_audit] and [write_task_audit]: the audit payload and envelope are
    validated outside the [try]; a failed send is logged and swallowed. *)
Definition write_task_audit (identity : AgentIdentity) (envelope : EventEnvelope)
    (outcome : AuditOutcome) (task_id : option UUID) (reason : option string) : prog unit :=
  let! recorded_at := now in
  let! payload := lift (mk_audit {|
    aud_original_envelope := envelope; aud_outcome := outcome; aud_reason := reason;
    aud_recorded_at := recorded_at; aud_task_id := task_id |}) in
  let! event_id := fresh_uuid in
  let! audit_envelope := lift (mk_envelope {|
    env_event_id := event_id;
    env_correlation_id := env_correlation_id envelope;
    env_causation_id := Some (env_event_id envelope);
    env_agent_id := id_agent_id identity;
    env_tenant_id := id_tenant_id identity;
    env_timestamp := recorded_at;
    env_event_type := "agent.audit.v1";
    env_schema_version := "1.0.0";
    env_payload := P_Audit payload |}) in
  Await (Send TOPIC_AUDIT (message_key None audit_envelope) audit_envelope) (λ _, Ret tt).

Definition write_audit (identity : AgentIdentity) (envelope : EventEnvelope)
    (outcome : AuditOutcome) (reason : option string) : prog unit :=
  write_task_audit identity envelope outcome None reason.
End Publisher.

(** ** Execution *)

(** Run the code up to the next await (or the end). *)
Fixpoint advance {A} (p : prog A) (w : World) : prog A * World :=
  match p with
  | Do f k => let '(b, w') := f w in advance (k b) w'
  | _ => (p, w)
  end.

(** The pool of threads on the event loop. *)
Record Loop := mk_loop {
  l_threads : list (prog unit);
  l_world : World;
}.

(** One scheduler step: a thread's await is answered and it runs to its next
    await; a consumer or the reaper starts a handler; time passes. *)
Inductive loop_step (handler : prog unit → Prop) : Loop → Loop → Prop :=
| step_resume ts w i R (q : Query R) (k : R → prog unit) (r : R) p' w' :
    ts !! i = Some (Await q k) →
    advance (k r) (effect q r w) = (p', w') →
    loop_step handler (mk_loop ts w) (mk_loop (<[i := p']> ts) w')
| step_start ts w p p' w' :
    handler p →
    advance p w = (p', w') →
    loop_step handler (mk_loop ts w) (mk_loop (ts ++ [p']) w')
| step_time ts w t :
    w_now w <= t →
    loop_step handler (mk_loop ts w)
      (mk_loop ts (mk_world (w_store w) t (w_uuids w) (w_log w))).

(** An executable environment: it answers each await from the world. *)
Definition Environment : Type := ∀ R, Query R → World → R.

Fixpoint run {A} (env : Environment) (p : prog A) (w : World) : result A * World :=
  match p with
  | Ret a => (Ok a, w)
  | Raise e => (Err e, w)
  | Do f k => let '(b, w') := f w in run env (k b) w'
  | Await q k => let r := env _ q w in run env (k r) (effect q r w)
  end.
