(* ===== verification/LlmRuntime.v ===== *)
(** * The LLM runtime

    [src/agent_foundation/llm/runtime.py], [structured.py], [audit.py] and
    [audit_events.py]: [reason] with its cache, prompt, timeout, validation, repair loop
    and fallback, and the audit records and their writers.  The provider's call is an
    await; its answer is the environment's choice (the providers of the code are in
    Providers.v).  The store is passed and returned.  Telemetry is in Telemetry.v, where it
    is shown to leave the call as it is; logging is left out. *)

From Stdlib Require Import ZArith Bool Ascii String List Lia.
From stdpp Require Import base list strings gmap.
From S2P Require Import Prelude.
From S2P Require Import PyFloat.
From S2P Require Import Contracts.
From S2P Require Import A2A.
From S2P Require Import Envelope.
From S2P Require Import Llm.
From S2P Require Import LlmConfig.
From S2P Require Import LlmTools.
From S2P Require Import Prompts.
From S2P Require Import Redaction.
From S2P Require Import Async.

Open Scope string_scope.
Open Scope list_scope.
Open Scope Z_scope.
Open Scope prog_scope.

(** ** [invoke_structured] *)

Inductive StructuredOutcome (V : Type) :=
| StructuredOk (value : V)
| StructuredFailed (attempts : nat) (error_messages : list string).
Arguments StructuredOk {V} value.
Arguments StructuredFailed {V} attempts error_messages.

(** What [provider.invoke] raises when it does not complete. *)
Definition invoke_error (o : InvokeOutcome) : exn :=
  match o with
  | Completed _ => IOError ""
  | TimedOut => IOError "TimeoutError"
  | ProviderError m | LLMRuntimeError _ m | OtherError m => IOError m
  end.

Section Structured.
Context `{Json} {V : Type} `{!Schema V}.

(** One completion: the value, or the error message for the next prompt.  Only a
    [JSONDecodeError] of the parser is caught. *)
Definition judge_completion (grounding : list (string * pyval)) (text : string) :
    result (V + string) :=
  match _parse_json text with
  | Err (JSONDecodeError _ as exc) => Ok (inr ("JSON parse error: " +:+ exn_str exc))
  | Err exc => Err exc
  | Ok parsed =>
      match model_validate parsed with
      | Err exc => Ok (inr ("Schema validation error: " +:+ exn_str exc))
      | Ok value =>
          if negb (bool_decide (grounding = [] :> list _)) && negb (_grounding_check value grounding)
          then Ok (inr "Output asserts facts not present in grounding inputs")
          else Ok (inl value)
      end
  end.

(** The [for attempt in range(1 + max_repairs)] loop, [n] attempts left: the
    provider is called without a timeout and outside any [try]. *)
Fixpoint structured_loop (messages : string) (grounding : list (string * pyval)) (n : nat)
    (attempts : nat) (errors : list string) : prog (StructuredOutcome V) :=
  match n with
  | O => Ret (StructuredFailed attempts errors)
  | S n =>
      Await (Invoke (repair_prompt messages (model_json_schema (V:=V)) errors)) (λ o,
        match o with
        | Completed raw =>
            match judge_completion grounding (raw_text raw) with
            | Ok (inl value) => Ret (StructuredOk value)
            | Ok (inr message) => structured_loop messages grounding n (S attempts) (errors ++ [message])
            | Err exc => Raise exc
            end
        | _ => Raise (invoke_error o)
        end)
  end.

Definition invoke_structured (messages : string) (grounding : list (string * pyval))
    (max_repairs : Z) : prog (StructuredOutcome V) :=
  structured_loop messages grounding (Z.to_nat (1 + max_repairs)) 0 [].
End Structured.

(** ** Audit *)

(** [outcome_map] of [build_audit_record]. *)
Definition reasoning_outcome {V} (r : AssistiveResult V) : string :=
  match res_reasoning_path r with
  | path_model => "produced"
  | path_cache => "served_from_cache"
  | path_fallback => if bool_of_option (res_failure_reason r) then "unable_to_produce"
                     else "fallback"
  end.

(** The outcomes [AuditPayload] accepts. *)
Definition AuditOutcome_of (s : string) : option AuditOutcome :=
  if String.eqb s "accepted" then Some accepted
  else if String.eqb s "rejected" then Some aud_rejected
  else if String.eqb s "duplicate_skipped" then Some duplicate_skipped
  else if String.eqb s "completed" then Some aud_completed
  else if String.eqb s "failed" then Some aud_failed
  else None.

(** [v[:200] + "..."] for a long text, in [_compact_digest]. *)
Definition compact_value (v : pyval) : pyval :=
  match v with
  | VStr s => if (200 <? py_len s)%nat then VStr (py_take 200 s +:+ "...") else v
  | _ => v
  end.

Definition _compact_digest (grounding : items) : items :=
  map (λ kv, (fst kv, compact_value (snd kv))) grounding.

Record ReasoningAuditRecord := {
  lar_agent_id : string;
  lar_correlation_id : UUID;
  lar_causation_id : UUID;
  lar_task_kind : TaskKind;
  lar_model_id : option string;
  lar_model_params : items;
  lar_prompt_ref : string;
  lar_grounding_digest : pyval;
  lar_reasoning_path : ReasoningPath;
  lar_result_summary : pyval;
  lar_token_usage : option TokenUsage;
  lar_cache_hit : bool;
  lar_latency_ms : Z;
  lar_outcome : string;
  lar_failure_reason : option FailureReason;
  lar_recorded_at : datetime;
}.

Definition ReasoningPath_str (p : ReasoningPath) : string :=
  match p with path_model => "model" | path_cache => "cache" | path_fallback => "fallback" end.

Definition FailureReason_str (r : FailureReason) : string :=
  match r with
  | model_unavailable => "model_unavailable"
  | timeout => "timeout"
  | invalid_output => "invalid_output"
  | missing_inputs => "missing_inputs"
  | context_limit_exceeded => "context_limit_exceeded"
  | unable_to_produce => "unable_to_produce"
  end.

Definition dump_usage (u : TokenUsage) : pyval :=
  VDict [ ("input_tokens", VInt (tu_input_tokens u)); ("output_tokens", VInt (tu_output_tokens u));
          ("cache_read_tokens", VInt (tu_cache_read_tokens u));
          ("cache_write_tokens", VInt (tu_cache_write_tokens u)) ].

(** [record.model_dump(mode="json")], of a digest and a summary of JSON values. *)
Definition dump_record (r : ReasoningAuditRecord) : pyval :=
  VDict [ ("agent_id", VStr (lar_agent_id r));
          ("correlation_id", VStr (uuid_str (lar_correlation_id r)));
          ("causation_id", VStr (uuid_str (lar_causation_id r)));
          ("task_kind", VStr (TaskKind_str (lar_task_kind r)));
          ("model_id", vopt VStr (lar_model_id r));
          ("model_params", VDict (lar_model_params r));
          ("prompt_ref", VStr (lar_prompt_ref r));
          ("grounding_digest", lar_grounding_digest r);
          ("reasoning_path", VStr (ReasoningPath_str (lar_reasoning_path r)));
          ("result_summary", lar_result_summary r);
          ("token_usage", vopt dump_usage (lar_token_usage r));
          ("cache_hit", VBool (lar_cache_hit r)); ("latency_ms", VInt (lar_latency_ms r));
          ("outcome", VStr (lar_outcome r));
          ("failure_reason", vopt (λ f, VStr (FailureReason_str f)) (lar_failure_reason r));
          ("recorded_at", VStr (json_datetime (lar_recorded_at r))) ].

(** [LlmAuditEventConfig] *)
Record LlmAuditEventConfig := {
  lae_events_enabled : bool;
  lae_log_raw_prompts : bool;
}.

Definition audit_event_config (environ : string → option string) : LlmAuditEventConfig := {|
  lae_events_enabled := _parse_bool (env_or environ "AGENT_LLM_AUDIT_EVENTS_ENABLED" "false");
  lae_log_raw_prompts := _parse_bool (env_or environ "AGENT_LLM_AUDIT_LOG_RAW_PROMPTS" "false") |}.

Section Reasoning.
Context `{Uuids} `{Prompting} {V : Type} `{!Schema V}.

(** [_compact_result] *)
Definition _compact_result (r : AssistiveResult V) : pyval :=
  match res_value r with
  | Instance_ v => VDict (model_dump v)
  | Plain d => VDict [("value", VStr (py_str d))]
  end.

Definition _hash_prompt (prompt : string) : string := py_take 16 (sha256_hex prompt).

(** [build_audit_record]; [redact] when it is given a redactor, [recorded_at] its clock
    reading. *)
Definition build_audit_record (request : AssistiveRequest V) (result : AssistiveResult V)
    (profile : ModelProfile) (prompt_ref : string) (redact : bool) (recorded_at : datetime) :
    ReasoningAuditRecord := {|
  lar_agent_id := ar_agent_id request;
  lar_correlation_id := ar_correlation_id request;
  lar_causation_id := ar_causation_id request;
  lar_task_kind := ar_task_kind request;
  lar_model_id := res_model_id result;
  lar_model_params := [ ("temperature", VFloat (mp_temperature profile));
                        ("max_tokens", VInt (mp_max_tokens profile)) ];
  lar_prompt_ref := if str_truthy prompt_ref then prompt_ref else _hash_prompt "";
  lar_grounding_digest := scrub redact (VDict (_compact_digest (ar_grounding_inputs request)));
  lar_reasoning_path := res_reasoning_path result;
  lar_result_summary := scrub redact (_compact_result result);
  lar_token_usage := res_token_usage result;
  lar_cache_hit := res_cache_hit result;
  lar_latency_ms := res_latency_ms result;
  lar_outcome := reasoning_outcome result;
  lar_failure_reason := res_failure_reason result;
  lar_recorded_at := recorded_at |}.

(** [write_reasoning_audit]; every error is swallowed. *)
Definition write_reasoning_audit (record : ReasoningAuditRecord) : prog unit :=
  let envelope_of event_id event_type payload := mk_envelope {|
    env_event_id := event_id;
    env_correlation_id := lar_correlation_id record;
    env_causation_id := Some (lar_causation_id record);
    env_agent_id := lar_agent_id record; env_tenant_id := "default";
    env_timestamp := lar_recorded_at record; env_event_type := event_type;
    env_schema_version := "1.0.0"; env_payload := payload |} in
  catch
    (let! inner_id := fresh_uuid in
     let! original := lift (envelope_of inner_id "agent.llm.reasoning.v1"
                              (P_Other (dump_record record))) in
     let! audit_payload := lift (
       match AuditOutcome_of (lar_outcome record) with
       | None => Err (ValidationError "outcome: unexpected value")
       | Some o => mk_audit {| aud_original_envelope := original; aud_outcome := o;
                               aud_reason := None; aud_recorded_at := lar_recorded_at record;
                               aud_task_id := None |}
       end) in
     let! event_id := fresh_uuid in
     let! envelope := lift (envelope_of event_id "agent.audit.v1" (P_Audit audit_payload)) in
     Await (Send TOPIC_AUDIT (message_key None envelope) envelope) (λ o,
       match o with Acked => Ret tt | _ => Raise (IOError "send_and_wait failed") end))
    (λ _, Ret tt).

(** A fallback with a reason is a failure. *)
Definition is_failure (result : AssistiveResult V) : bool :=
  bool_decide (res_reasoning_path result = path_fallback) && bool_of_option (res_failure_reason result).

(** The payload of an invocation event, dumped: [LlmInvocationFailedPayload] of a failure,
    [LlmInvocationCompletedPayload] otherwise. *)
Definition invocation_payload (request : AssistiveRequest V) (result : AssistiveResult V)
    (raw_prompt : option string) (recorded_at : datetime) : pyval :=
  VDict ([ ("agent_id", VStr (ar_agent_id request)); ("model_id", vopt VStr (res_model_id result));
           ("prompt_id", VStr (default "" (res_prompt_ref result)));
           ("task_kind", VStr (TaskKind_str (ar_task_kind request)));
           ("correlation_id", VStr (uuid_str (ar_correlation_id request)));
           ("causation_id", VStr (uuid_str (ar_causation_id request)));
           ("latency_ms", VInt (res_latency_ms result));
           ("token_usage", vopt dump_usage (res_token_usage result));
           ("cache_hit", VBool (res_cache_hit result));
           ("reasoning_path", VStr (ReasoningPath_str (res_reasoning_path result)));
           ("recorded_at", VStr (json_datetime recorded_at)); ("raw_prompt", vopt VStr raw_prompt) ] ++
         if is_failure result
         then [("failure_reason", vopt (λ f, VStr (FailureReason_str f)) (res_failure_reason result))]
         else []).

(** [emit_llm_invocation_event]; every error from building the payload on is swallowed. *)
Definition emit_llm_invocation_event (cfg : LlmAuditEventConfig) (request : AssistiveRequest V)
    (result : AssistiveResult V) (rendered_prompt : string) : prog unit :=
  if negb (lae_events_enabled cfg) then Ret tt
  else
    let raw_prompt := if lae_log_raw_prompts cfg then Some rendered_prompt else None in
    let! recorded_at := now in
    let '(topic, event_type) :=
      if is_failure result then (TOPIC_LLM_INVOCATION_FAILED, "audit.llm.invocation.failed")
      else (TOPIC_LLM_INVOCATION_COMPLETED, "audit.llm.invocation.completed") in
    catch
      (let! event_id := fresh_uuid in
       let! envelope := lift (mk_envelope {|
         env_event_id := event_id;
         env_correlation_id := ar_correlation_id request;
         env_causation_id := Some (ar_causation_id request);
         env_agent_id := ar_agent_id request; env_tenant_id := "default";
         env_timestamp := recorded_at; env_event_type := event_type;
         env_schema_version := "1.0.0";
         env_payload := P_Other (invocation_payload request result raw_prompt recorded_at) |}) in
       Await (Send topic (message_key None envelope) envelope) (λ o,
         match o with Acked => Ret tt | _ => Raise (IOError "send_and_wait failed") end))
      (λ _, Ret tt).

(** ** [reason] *)

(** [LLMRuntime]: with a publisher or without one, its [redact_pii], and the profile that
    [resolve_profile] selects. *)
Variable publishing : bool.
Variable redact_pii : bool.
Variable profile : ModelProfile.

(** [_emit_audit]: building the record raises nothing, and writing it swallows its errors. *)
Definition _emit_audit (request : AssistiveRequest V) (result : AssistiveResult V)
    (prompt_ref : string) : prog unit :=
  let! recorded_at := now in
  let ref := if str_truthy prompt_ref then prompt_ref else default "" (res_prompt_ref result) in
  let record := build_audit_record request result profile ref redact_pii recorded_at in
  if publishing then write_reasoning_audit record else Ret tt.

(** [int((time.perf_counter() - start) * 1000)] *)
Definition latency_since (start t : datetime) : Z := Z.quot (t - start) 1000.

Definition _fallback (request : AssistiveRequest V) (start : datetime) (reason : FailureReason)
    (prompt_ref : string) : prog (AssistiveResult V) :=
  let! fallback_value := lift (ar_fallback request) in
  let! t := now in
  let result := {|
    res_value := Instance_ fallback_value;
    res_reasoning_path := path_fallback;
    res_token_usage := None; res_cache_hit := false;
    res_failure_reason := Some reason; res_model_id := None;
    res_latency_ms := latency_since start t; res_prompt_ref := Some prompt_ref |} in
  _emit_audit request result prompt_ref ;!
  Ret result.

(** The failure reason of an invocation that did not complete. *)
Definition failure_of (o : InvokeOutcome) : FailureReason :=
  match o with
  | TimedOut => timeout
  | LLMRuntimeError reason _ => reason
  | Completed _ | ProviderError _ | OtherError _ => model_unavailable
  end.

(** The end of a call that has its value. *)
Definition finish (request : AssistiveRequest V) (start : datetime) (prompt_ref : string)
    (raw : RawCompletion) (value : V) (store : AssistiveResultStore V) : prog (AssistiveResult V * AssistiveResultStore V) :=
  let! t := now in
  let result := {|
    res_value := Instance_ value;
    res_reasoning_path := path_model;
    res_token_usage := Some (raw_token_usage raw); res_cache_hit := raw_cache_hit raw;
    res_failure_reason := None; res_model_id := Some (raw_model_id raw);
    res_latency_ms := latency_since start t; res_prompt_ref := Some prompt_ref |} in
  let store := results_put (ar_idempotency_key request) (dump_result result) store in
  _emit_audit request result prompt_ref ;!
  Ret (result, store).

(** A completion: its value when the text validates, else the repair loop's. *)
Definition settle_completion (request : AssistiveRequest V) (start : datetime)
    (prompt prompt_ref : string) (raw : RawCompletion) (store : AssistiveResultStore V) :
    prog (AssistiveResult V * AssistiveResultStore V) :=
  match _validate_output (raw_text raw) with
  | Some value => finish request start prompt_ref raw value store
  | None =>
      let! outcome := invoke_structured prompt (ar_grounding_inputs request)
                        (mp_max_repairs profile) in
      match outcome with
      | StructuredOk value => finish request start prompt_ref raw value store
      | StructuredFailed _ _ =>
          let! result := _fallback request start invalid_output prompt_ref in
          Ret (result, store)
      end
  end.

(** [LLMRuntime.reason]: the first invocation is under the profile's timeout. *)
Definition reason (request : AssistiveRequest V)
    (store : AssistiveResultStore V) : prog (AssistiveResult V * AssistiveResultStore V) :=
  let! start := now in
  let '(hit, store) := results_get (ar_idempotency_key request) store in
  match hit with
  | Some data =>
      let! t := now in
      let result := {|
        res_value := res_value data;
        res_reasoning_path := path_cache;
        res_token_usage := res_token_usage data; res_cache_hit := res_cache_hit data;
        res_failure_reason := res_failure_reason data; res_model_id := res_model_id data;
        res_latency_ms := latency_since start t; res_prompt_ref := res_prompt_ref data |} in
      _emit_audit request result "" ;!
      Ret (result, store)
  | None =>
      let prompt := _render_prompt request in
      let prompt_ref := _compute_prompt_ref (ar_task_kind request) prompt in
      Await (Invoke prompt) (λ o,
        match o with
        | Completed raw => settle_completion request start prompt prompt_ref raw store
        | _ => let! result := _fallback request start (failure_of o) prompt_ref in
               Ret (result, store)
        end)
  end.

(** [assist_or_fallback], on a runtime of its own, as [build_runtime] makes one per
    call. *)
Definition assist_or_fallback (request : AssistiveRequest V) : prog (AssistiveResult V) :=
  let! request := lift (mk_request request) in
  let! (result, _) := reason request new_store in
  Ret result.
End Reasoning.
