(* ===== verification/Consumer.v ===== *)
(** * The transport consumer

    [src/agent_foundation/transport/consumer.py]: the consume loop with its
    envelope check, duplicate filter, payload-registry check, handler call and
    audits.  A message is its bytes; [parse_envelope] is
    [EventEnvelope.model_validate_json].  The loop is a coroutine over the messages
    the broker delivers until it ends: the stop event is set, or [getone] raises, which the
    code logs before it breaks.  It returns, for the theorems, the branch each message took.

    The spans around a message are left out: [Telemetry.telemetry_transparent] shows that
    no span changes the result or the effects of its body. *)

From Stdlib Require Import ZArith Bool Ascii String List Lia.
From stdpp Require Import base list strings gmap.
From S2P Require Import Prelude.
From S2P Require Import PyFloat.
From S2P Require Import Contracts.
From S2P Require Import Uuid.
From S2P Require Import Idempotency.
From S2P Require Import A2A.
From S2P Require Import Envelope.
From S2P Require Import Async.

Open Scope string_scope.
Open Scope list_scope.
Open Scope Z_scope.
Open Scope prog_scope.

(** ** The tracker's coroutines *)

Definition written (o : SendOutcome) : bool :=
  match o with Acked | AckLost => true | Dropped => false end.

Section Tracker.
Context {T : Type} `{!Dedup T}.

(** [await tracker.initialize()] *)
Definition tracker_initialize (t : T) : prog T :=
  Await (ReadProcessed (dd_topic t)) (λ read, Ret (dd_initialize read t)).

(** [await tracker.mark_processed(id)] *)
Definition tracker_mark (id : UUID) (t : T) : prog T :=
  Await (Persist (dd_topic t) (uuid_str id)) (λ o, Ret (dd_mark_processed id (written o) t)).
End Tracker.

(** ** Where reading starts *)

(** [seek_to_beginning] and [seek_to_offset]: the last call wins. *)
Record Seek := {
  seek_to_beginning_flag : bool;
  seek_to_offset_val : option Z;
}.

Definition no_seek : Seek :=
  {| seek_to_beginning_flag := false; seek_to_offset_val := None |}.
Definition seek_to_beginning (s : Seek) : Seek :=
  {| seek_to_beginning_flag := true; seek_to_offset_val := None |}.
Definition seek_to_offset (offset : Z) (s : Seek) : Seek :=
  {| seek_to_beginning_flag := false; seek_to_offset_val := Some offset |}.

(** ** One message *)

Inductive Disposition :=
| InvalidEnvelope
| Skipped
| Rejected (reason : string)
| HandlerFailed
| Handled.

#[export] Instance Disposition_eq_dec : EqDecision Disposition.
Proof. solve_decision. Defined.

(** The payload-registry check: the reason of the rejection, if any. *)
Definition payload_rejection (e : EventEnvelope) : option string :=
  match lookup_model (env_event_type e) with
  | Err _ => Some "unknown_schema_version"
  | Ok model_cls =>
      if bool_decide (model_of (env_payload e) = Some model_cls) then None
      else Some "payload_invalid"
  end.

Section Consumer.
Context `{Uuids}.
Context {Bytes : Type} (parse_envelope : Bytes → result EventEnvelope).
Context {T : Type} `{!Dedup T}.
Variable publisher : option AgentIdentity.
Variable handler : EventEnvelope → prog unit.

Definition _make_partial_envelope (raw : Bytes) : option EventEnvelope :=
  match parse_envelope raw with Ok e => Some e | Err _ => None end.

(** [if publisher: await write_audit(publisher, envelope, outcome, reason)] *)
Definition audit (envelope : EventEnvelope) (outcome : AuditOutcome) (reason : option string) :
    prog unit :=
  match publisher with
  | Some identity => write_audit identity envelope outcome reason
  | None => Ret tt
  end.

(** The branch of a message that is not an envelope. *)
Definition reject_bytes (raw : Bytes) : prog unit :=
  catch (match _make_partial_envelope raw with
         | Some partial => audit partial aud_rejected (Some "invalid_envelope")
         | None => Ret tt
         end) (λ _, Ret tt).

(** The idempotency check: whether the message is skipped, and the tracker.  When
    the audit of a duplicate raises, the [except] lets the message through. *)
Definition check_duplicate (e : EventEnvelope) (tracker : option T) : prog (bool * option T) :=
  match tracker with
  | None => Ret (false, None)
  | Some t =>
      let '(found, t') := dd_is_duplicate (env_event_id e) t in
      if found
      then catch (audit e duplicate_skipped None ;! Ret (true, Some t')) (λ _, Ret (false, Some t'))
      else Ret (false, Some t')
  end.

(** The handler and what follows it. *)
Definition handle_event (e : EventEnvelope) (tracker : option T) : prog (option T * Disposition) :=
  let! handler_error := catch (handler e ;! Ret false) (λ _, Ret true) in
  if handler_error : bool then Ret (tracker, HandlerFailed)
  else
    let! tracker := match tracker with
                    | Some t => let! t := tracker_mark (env_event_id e) t in Ret (Some t)
                    | None => Ret None
                    end in
    catch (audit e accepted None) (λ _, Ret tt) ;!
    Ret (tracker, Handled).

Definition consume_message (raw : Bytes) (tracker : option T) : prog (option T * Disposition) :=
  match parse_envelope raw with
  | Err _ => reject_bytes raw ;! Ret (tracker, InvalidEnvelope)
  | Ok e =>
      let! (duplicate, tracker) := check_duplicate e tracker in
      if duplicate : bool then Ret (tracker, Skipped)
      else
        match payload_rejection e with
        | Some reason => audit e aud_rejected (Some reason) ;! Ret (tracker, Rejected reason)
        | None => handle_event e tracker
        end
  end.

(** The [while True] loop over the messages delivered. *)
Fixpoint consume_loop (messages : list Bytes) (tracker : option T) :
    prog (option T * list Disposition) :=
  match messages with
  | [] => Ret (tracker, [])
  | raw :: messages =>
      let! (tracker, d) := consume_message raw tracker in
      let! (tracker, ds) := consume_loop messages tracker in
      Ret (tracker, d :: ds)
  end.

(** Where the consumer starts reading: the calls that follow [start]. *)
Definition apply_seek (seek : Seek) : prog unit :=
  if seek_to_beginning_flag seek then wire SeekToBeginning
  else match seek_to_offset_val seek with
       | Some offset => wire (SeekTo offset)
       | None => Ret tt
       end.

(** [run(handler, publisher=publisher)], with a fresh tracker when the consumer is
    idempotent.  [start] and the seeks are outside the [try]; [stop] is in its [finally]. *)
Definition run_consumer (seek : Seek) (tracker : option T) (messages : list Bytes) : prog unit :=
  let! tracker := match tracker with
                  | Some t => let! t := tracker_initialize t in Ret (Some t)
                  | None => Ret None
                  end in
  wire ConsumerStart ;!
  apply_seek seek ;!
  try_finally (let! _ := consume_loop messages tracker in Ret tt) (wire ConsumerStop).
End Consumer.
