(* ===== verification/Normalize.v ===== *)
(** * Customer-Resolution agent: normalisation of the peers' results

    The normalisation adapter of
    [apps/agents/customer_resolution/event_handlers.py]: from the data of a task
    result, and from the payloads of the domain events, to findings. *)

From Stdlib Require Import ZArith Bool Ascii String List Lia.
From stdpp Require Import base list strings gmap.
From S2P Require Import Prelude.
From S2P Require Import PyFloat.
From S2P Require Import Contracts.
From S2P Require Import CaseModels.

Open Scope string_scope.
Open Scope list_scope.
Open Scope Z_scope.

(** The billing vocabulary, on a lower-cased recommendation. *)
Definition eligibility_of (rec : string) : Eligibility :=
  if str_in rec ["approve_full_refund"; "approve"; "eligible"; "refund"] then eligible
  else if String.eqb rec "approve_partial_refund" then partial_
  else if str_in rec ["deny_refund"; "deny"; "ineligible"; "reject"] then ineligible
  else if str_in rec ["request_more_information"; "manual_review"] then indeterminate
  else if String.eqb rec "partial_refund" then partial_
  else indeterminate.

Definition _risk_level_from_score (score elevated high : float) : FindingLevel :=
  if (score >=? high)%pf then level_high
  else if (score >=? elevated)%pf then level_elevated
  else level_low.

(** The risk vocabulary; [otherwise] is the level of an unknown word. *)
Definition level_of (rec : string) (otherwise : FindingLevel) : FindingLevel :=
  if str_in rec ["low"; "approve"; "acceptable"] then level_low
  else if String.eqb rec "elevated" then level_elevated
  else if str_in rec ["high"; "deny"; "block"] then level_high
  else otherwise.

(** [_uncertainty_from_confidence], on a confidence that is a float. *)
Definition _uncertainty_from_confidence (confidence : option float) : option float :=
  (λ c, clamp01 (lit 1 1 - c)%pf) <$> confidence.

Definition billing_finding (payload : BillingRefundAnalysisCompletedPayload)
    (task_id : option UUID) : BillingFinding :=
  let eligibility := eligibility_of (py_lower (bra_recommendation payload)) in
  {| bfi_eligibility :=
       if bool_decide (eligibility = ineligible) &&
          String.eqb (bra_usage_level payload) "heavy"
       then partial_ else eligibility;
     bfi_requires_human_review := bra_requires_human_review payload;
     bfi_confidence := Some (bra_confidence payload);
     bfi_summary := bra_reasoning_summary payload;
     bfi_performer_agent_id := "";
     bfi_task_id := task_id |}.

(** [payload.confidence or 0.0] *)
Definition score_or_zero (c : float) : float := if float_truthy c then c else lit 0 1.

Definition risk_finding (payload : RiskReviewCompletedPayload) (task_id : option UUID) :
    RiskFinding := {|
  rfi_level :=
    level_of (py_lower (rrc_recommendation payload))
      (_risk_level_from_score (score_or_zero (rrc_confidence payload)) (lit 5 10) (lit 8 10));
  rfi_requires_human_review := rrc_requires_human_review payload;
  rfi_score := _uncertainty_from_confidence (Some (rrc_confidence payload));
  rfi_summary := rrc_reasoning_summary payload;
  rfi_performer_agent_id := "";
  rfi_task_id := task_id;
|}.

Section Data.
(** pydantic's validation of a [float | None] field. *)
Variable float_field : pyval → option (option float).
(** [float(s)] on a string. *)
Variable float_of_str : string → option float.

(** [float(v)] *)
Definition py_float (v : pyval) : option float :=
  match v with
  | VFloat f => Some f
  | VInt z => Some (lit z 1)
  | VBool b => Some (if b then lit 1 1 else lit 0 1)
  | VDecimal d => Some (float_of_decimal d)
  | VStr s => float_of_str s
  | VNone | VList _ | VDict _ => None
  end.

Definition get_or (k : string) (d : list (string * pyval)) (v : pyval) : pyval :=
  default v (dict_get k d).

(** A [str] field. *)
Definition str_field (v : pyval) : option string :=
  match v with VStr s => Some s | _ => None end.

(** [normalize_billing_result]; every exception inside gives [None]. *)
Definition normalize_billing_result (task_id : UUID) (performer_agent_id : string)
    (data : list (string * pyval)) : option BillingFinding :=
  match dict_get "recommendation" data with
  | Some rec =>
      rec ← str_field rec;
      confidence ← float_field (get_or "confidence" data VNone);
      summary ← str_field (get_or "reasoning_summary" data (VStr ""));
      Some {| bfi_eligibility := eligibility_of (py_lower rec);
              bfi_requires_human_review :=
                py_truthy (get_or "requires_human_review" data (VBool false));
              bfi_confidence := confidence;
              bfi_summary := summary;
              bfi_performer_agent_id := performer_agent_id;
              bfi_task_id := Some task_id |}
  | None =>
      elig ← dict_get "eligible" data;
      eligibility ←
        match elig with
        | VBool b => Some (if b then eligible else ineligible)
        | VStr s =>
            Some (if String.eqb s "eligible" then eligible
                  else if String.eqb s "partial" then partial_
                  else if String.eqb s "ineligible" then ineligible
                  else if String.eqb s "indeterminate" then indeterminate
                  else if String.eqb (py_lower s) "true" then eligible else ineligible)
        | _ => None
        end;
      Some {| bfi_eligibility := eligibility; bfi_requires_human_review := false;
              bfi_confidence := None; bfi_summary := "";
              bfi_performer_agent_id := performer_agent_id; bfi_task_id := Some task_id |}
  end.

(** [_uncertainty_from_confidence] on the raw value. *)
Definition uncertainty_of_value (v : pyval) : option (option float) :=
  match v with
  | VNone => Some None
  | _ => c ← py_float v; Some (_uncertainty_from_confidence (Some c))
  end.

Definition normalize_risk_result (task_id : UUID) (performer_agent_id : string)
    (data : list (string * pyval)) : option RiskFinding :=
  match dict_get "recommendation" data with
  | Some rec =>
      rec ← str_field rec;
      let word := py_lower rec in
      level ←
        (if str_in word ["low"; "approve"; "acceptable"; "elevated"; "high"; "deny"; "block"]
         then Some (level_of word level_low)
         else score ← py_float (get_or "score" data (get_or "confidence" data (VFloat (lit 0 1))));
              Some (_risk_level_from_score score (lit 5 10) (lit 8 10)));
      score ← uncertainty_of_value (get_or "confidence" data VNone);
      summary ← str_field (get_or "reasoning_summary" data (VStr ""));
      Some {| rfi_level := level;
              rfi_requires_human_review :=
                py_truthy (get_or "requires_human_review" data (VBool false));
              rfi_score := score;
              rfi_summary := summary;
              rfi_performer_agent_id := performer_agent_id;
              rfi_task_id := Some task_id |}
  | None =>
      risk ← dict_get "risk" data;
      score ← float_field (get_or "score" data VNone);
      Some {| rfi_level :=
                match risk with
                | VStr s =>
                    let level := py_lower s in
                    if String.eqb level "elevated" then level_elevated
                    else if String.eqb level "high" then level_high else level_low
                | _ => level_low
                end;
              rfi_requires_human_review := false;
              rfi_score := score;
              rfi_summary := "";
              rfi_performer_agent_id := performer_agent_id;
              rfi_task_id := Some task_id |}
  end.
End Data.
