(* ===== verification/Handlers.v ===== *)
(** * Customer-Resolution agent: the handlers

    [apps/agents/customer_resolution/event_handlers.py], [a2a_handlers.py] and
    the sweep of [reaper.py], as programs over the case store and the broker.
    A handler's [case] variable is the case's slot [k] in the store. *)

From Stdlib Require Import ZArith Bool Ascii String List Lia.
From stdpp Require Import base list strings gmap.
From S2P Require Import Prelude.
From S2P Require Import PyFloat.
From S2P Require Import Contracts.
From S2P Require Import A2A.
From S2P Require Import Envelope.
From S2P Require Import CaseModels.
From S2P Require Import Drafter.
From S2P Require Import Classifier.
From S2P Require Import DecisionEngine.
From S2P Require Import Normalize.
From S2P Require Import StateStore.
From S2P Require Import Llm.
From S2P Require Import LlmConfig.
From S2P Require Import Prompts.
From S2P Require Import Async.
From S2P Require Import LlmRuntime.

Open Scope string_scope.
Open Scope list_scope.
Open Scope Z_scope.
Open Scope prog_scope.

Definition IDENTITY : AgentIdentity :=
  {| id_agent_id := CaseModels.AGENT_ID; id_display_name := "Customer Resolution Agent";
     id_tenant_id := AGENT_TENANT_ID |}.

(** [n] seconds on the microsecond clock.  The intake adds them to a POSIX
    timestamp, a float of about 1.7e9, and converts back rounding to microseconds;
    up to the year 2106 the two conversions are off by less than half a
    microsecond together, so the sum is exact. *)
Definition seconds (n : Z) : Z := n * 1000000.

(** What the classification's LLM call takes from outside: the codec and the prompts
    directory, the JSON schema and the pydantic fields of [TicketClassification], and the
    profile [resolve_profile] selects. *)
Class Assistant := {
  assistant_prompting :: Prompting;
  classification_json_schema : list (string * pyval);
  classification_fields : pyval → result TicketClassification;
  classification_dump : TicketClassification → list (string * pyval);
  classify_profile : ModelProfile;
}.

(** [TicketClassification] as an output schema, with its own validators. *)
#[export] Instance classification_schema `{Assistant} : Schema TicketClassification := {|
  model_json_schema := classification_json_schema;
  model_validate data := c ← classification_fields data; mk_classification c;
  model_dump := classification_dump |}.

Section Handlers.
Context `{Uuids} `{Assistant}.
(** The iteration order of the refund vocabulary. *)
Variable signals : list string.
(** [CRA_LLM_ENABLED] *)
Variable llm_enabled : bool.
(** pydantic's [float | None] and [float(str)]. *)
Variable float_field : pyval → option (option float).
Variable float_of_str : string → option float.

(** ** Emission *)

Definition _emit_decision_and_draft (k : UUID) (decision : CustomerResponseDecisionPayload)
    (causation_id : UUID) : prog EventEnvelope :=
  let! case := deref k in
  let! decided := publish IDENTITY (P_Decision decision) TOPIC_RESOLUTION_DECIDED
                    (rc_correlation_id case) (Some causation_id) None in
  assign k (set_decided_event_id (Some (env_event_id decided))) ;!
  catch (write_audit IDENTITY decided aud_completed
           (Some ("decision: " +:+ ResolutionOutcome_value (crd_outcome decision))))
    (λ _, Ret tt) ;!
  let approval_required := requires_human_approval (crd_outcome decision) in
  let! drafted_at := now in
  let! draft := lift (mk_drafted {|
    drf_case_id := rc_correlation_id case;
    drf_ticket_id := crd_ticket_id decision;
    drf_customer_id := crd_customer_id decision;
    drf_decision_event_id := env_event_id decided;
    drf_outcome := crd_outcome decision;
    drf_draft_response := crd_customer_response decision;
    drf_requires_human_approval := approval_required;
    drf_drafted_by_agent_id := DRAFTED_BY_AGENT_ID;
    drf_drafted_at := drafted_at |}) in
  let! drafted := publish IDENTITY (P_Drafted draft) TOPIC_RESPONSE_DRAFTED
                    (rc_correlation_id case) (Some (env_event_id decided)) None in
  assign k (set_drafted_event_id (Some (env_event_id drafted))) ;!
  Ret decided.

(** A decision built by a handler itself, for the case in slot [k]. *)
Definition handler_decision (correlation_id : UUID) (ticket_id customer_id : string)
    (outcome : ResolutionOutcome) (reason risk_summary : option string) (rationale : string) :
    prog CustomerResponseDecisionPayload :=
  lift (decision_row
          {| di_case_id := correlation_id; di_ticket_id := ticket_id;
             di_customer_id := customer_id |} outcome reason None risk_summary rationale).

Definition default_triage : Triage := {|
  tri_needs_refund_review := true; tri_ambiguous := true; tri_matched_signals := [];
  tri_rationale := "No triage available"; tri_issue_type := "unknown";
  tri_confidence := lit 1 1 |}.

(** [_apply_decision]; [causation] is [None] when neither an envelope nor a
    causation id is given. *)
Definition _apply_decision (k : UUID) (causation : option UUID) : prog unit :=
  let! claimed := store_op (λ st t, claim_decision st k t) in
  if negb (claimed : bool) then Ret tt
  else
    let! effective := match causation with Some c => Ret c | None => fresh_uuid end in
    let! case := deref k in
    let! t := now in
    let! decision := lift (decide_case (default default_triage (rc_triage case))
      (rc_billing_result case) (rc_risk_result case) (Some (build_timeout_status case t))
      {| di_case_id := rc_correlation_id case; di_ticket_id := rc_ticket_id case;
         di_customer_id := rc_customer_id case |}) in
    let! _ := _emit_decision_and_draft k decision effective in
    assign k (set_status DECIDED) ;!
    store_try (λ st t, save st k None t).

(** ** Delegation (a2a_handlers.py) *)

(** The body of [validate_risk_capability] and [validate_billing_capability],
    which differ in their constants and in the error's wording. *)
Definition validate_capability (capability_id peer_id declares : string) : prog AgentCard :=
  let! scan := Await ReadCards Ret in
  let! cards := lift (find_capable (λ value, value) capability_id scan) in
  match List.find (λ card, String.eqb (card_agent_id card) peer_id) cards with
  | Some card => Ret card
  | None => Raise (PeerUnavailable ("No published card for " +:+ peer_id +:+
              declares +:+ capability_id))
  end.

Definition risk_input_data (i : RiskAnalysisRequestInput) : list (string * pyval) :=
  [ ("case_id", VStr (uuid_str (ri_case_id i))); ("ticket_id", VStr (ri_ticket_id i));
    ("customer_id", VStr (ri_customer_id i));
    ("requested_refund_amount", VFloat (ri_requested_refund_amount i));
    ("customer_message_summary", VStr (ri_customer_message_summary i)) ].

Definition billing_input_data (i : BillingAnalysisRequestInput) : list (string * pyval) :=
  [ ("case_id", VStr (uuid_str (bi_case_id i))); ("ticket_id", VStr (bi_ticket_id i));
    ("customer_id", VStr (bi_customer_id i));
    ("requested_refund_amount", VFloat (bi_requested_refund_amount i));
    ("purchase_reference", VStr (bi_purchase_reference i));
    ("customer_message_summary", VStr (bi_customer_message_summary i));
    ("policy_context", VStr (bi_policy_context i)) ].

(** [if case.x_task_id is None: case.x_task_id = uuid5(...)] *)
Definition preset_task_id (k : UUID) (field : ResolutionCase → option UUID)
    (set : option UUID → ResolutionCase → ResolutionCase) (capability_id : string) :
    prog unit :=
  assign k (λ c, match field c with
                 | Some _ => c
                 | None => set (Some (uuid5 (rc_correlation_id c) capability_id)) c
                 end).

(** A task id read back after [preset_task_id]. *)
Definition the_task_id (field : ResolutionCase → option UUID) (c : ResolutionCase) : UUID :=
  default 0 (field c).

Definition send_task_request (k : UUID) (ticket_event : UUID) (task_id : UUID)
    (capability_id peer_id : string) (data : list (string * pyval)) : prog unit :=
  let! case := deref k in
  let! input := lift (data_message role_user data) in
  let! _ := publish IDENTITY
    (P_TaskRequest {| tr_task_id := task_id; tr_capability := capability_id;
                      tr_requester_agent_id := CaseModels.AGENT_ID;
                      tr_target_agent_id := peer_id; tr_input := input |})
    "agent.task_request.v1" (rc_correlation_id case) (Some ticket_event)
    (Some (endpoint_topic peer_id)) in
  Ret tt.

Definition request_risk_analysis (k : UUID) (ticket_event : UUID) : prog unit :=
  let! _ := validate_capability RISK_CAPABILITY_ID RISK_PEER_AGENT_ID
              " declares capability " in
  preset_task_id k rc_risk_task_id set_risk_task_id RISK_CAPABILITY_ID ;!
  let! case := deref k in
  send_task_request k ticket_event (the_task_id rc_risk_task_id case) RISK_CAPABILITY_ID
    RISK_PEER_AGENT_ID (risk_input_data (build_risk_request_input case)).

Definition request_billing_analysis (k : UUID) (ticket_event : UUID) : prog unit :=
  let! _ := validate_capability BILLING_CAPABILITY_ID BILLING_PEER_AGENT_ID
              " declares " in
  preset_task_id k rc_billing_task_id set_billing_task_id BILLING_CAPABILITY_ID ;!
  let! case := deref k in
  send_task_request k ticket_event (the_task_id rc_billing_task_id case) BILLING_CAPABILITY_ID
    BILLING_PEER_AGENT_ID (billing_input_data (build_billing_request_input case)).

Definition review_requested (case : ResolutionCase) (requested_at : datetime) :
    RefundReviewRequestedPayload := {|
  rrr_case_id := rc_correlation_id case;
  rrr_ticket_id := rc_ticket_id case;
  rrr_customer_id := rc_customer_id case;
  rrr_requested_reviews := [billing_review; risk_review];
  rrr_billing_task_id := the_task_id rc_billing_task_id case;
  rrr_risk_task_id := the_task_id rc_risk_task_id case;
  rrr_timeout_seconds := Some DELEGATION_TIMEOUT_SECONDS;
  rrr_requested_by_agent_id := CaseModels.AGENT_ID;
  rrr_requested_at := requested_at |}.

Definition delegate (k : UUID) (ticket_event : UUID) : prog unit :=
  preset_task_id k rc_billing_task_id set_billing_task_id BILLING_CAPABILITY_ID ;!
  preset_task_id k rc_risk_task_id set_risk_task_id RISK_CAPABILITY_ID ;!
  let! case := deref k in
  store_try (λ st _, add_pending_task st (rc_case_id case)
                       (the_task_id rc_billing_task_id case)) ;!
  store_try (λ st _, add_pending_task st (rc_case_id case)
                       (the_task_id rc_risk_task_id case)) ;!
  request_billing_analysis k ticket_event ;!
  request_risk_analysis k ticket_event ;!
  let! case := deref k in
  if bool_of_option (rc_billing_task_id case) && bool_of_option (rc_risk_task_id case)
  then
    let! requested_at := now in
    let! announcement := lift (mk_review_requested (review_requested case requested_at)) in
    let! _ := publish IDENTITY (P_ReviewRequested announcement) TOPIC_REFUND_REVIEW_REQUESTED
                (rc_correlation_id case) (Some ticket_event) None in
    Ret tt
  else Ret tt.

(** ** Intake *)

(** The fallback of [classify_with_llm]. *)
Definition fallback_classification (t : Triage) : TicketClassification := {|
  tc_issue_type := tri_issue_type t;
  tc_needs_refund_review := tri_needs_refund_review t;
  tc_confidence := tri_confidence t;
  tc_rationale := tri_rationale t;
  tc_matched_signals := tri_matched_signals t |}.

Definition classify_request (ticket : SupportTicketCreatedPayload)
    (correlation_id causation_id : UUID) : AssistiveRequest TicketClassification := {|
  ar_task_kind := kind_classify;
  ar_agent_id := CaseModels.AGENT_ID;
  ar_correlation_id := correlation_id;
  ar_causation_id := causation_id;
  ar_instructions :=
    "Classify this customer support ticket. Determine the issue_type, " +:+
    "whether it needs refund review, your confidence level, a rationale, " +:+
    "and any matched signals from the ticket text.";
  ar_grounding_inputs :=
    [ ("ticket_id", VStr (stc_ticket_id ticket)); ("customer_id", VStr (stc_customer_id ticket));
      ("reason", VStr (stc_reason ticket)); ("amount", VFloat (stc_amount ticket));
      ("currency", VStr (stc_currency ticket)) ];
  ar_examples := None;
  ar_idempotency_key := "";
  ar_fallback := t ← classify signals ticket; mk_classification (fallback_classification t) |}.

(** The runtime is built without a publisher. *)
Definition classify_with_llm (ticket : SupportTicketCreatedPayload)
    (correlation_id causation_id : UUID) : prog Triage :=
  let! result := assist_or_fallback false true classify_profile
                   (classify_request ticket correlation_id causation_id) in
  match res_value result with
  | Instance_ c => lift (to_triage c)
  | Plain _ => lift (classify signals ticket)
  end.

Definition triage_ticket (ticket : SupportTicketCreatedPayload)
    (correlation_id causation_id : UUID) : prog Triage :=
  if llm_enabled
  then catch (classify_with_llm ticket correlation_id causation_id)
         (λ _, lift (classify signals ticket))
  else lift (classify signals ticket).

Definition direct_response (k : UUID) (ticket : SupportTicketCreatedPayload)
    (triage : Triage) (ticket_event : UUID) : prog unit :=
  let! case := deref k in
  let! decision := handler_decision (rc_correlation_id case) (stc_ticket_id ticket)
    (stc_customer_id ticket) DIRECT_RESPONSE None None (tri_rationale triage) in
  let! _ := _emit_decision_and_draft k decision ticket_event in
  assign k (set_status CLOSED) ;!
  store_try (λ st t, save st k None t).

Definition delegation_failed (k : UUID) (ticket : SupportTicketCreatedPayload)
    (ticket_event : UUID) (exc : exn) : prog unit :=
  let! case := deref k in
  let! decision := handler_decision (rc_correlation_id case) (stc_ticket_id ticket)
    (stc_customer_id ticket) ESCALATE_HUMAN (Some "peer_failure") None
    ("Delegation failed: " +:+ exn_str exc) in
  let! _ := _emit_decision_and_draft k decision ticket_event in
  assign k (set_status ESCALATED) ;!
  store_try (λ st t, save st k None t).

Definition delegate_case (k : UUID) (ticket : SupportTicketCreatedPayload)
    (ticket_event : UUID) : prog unit :=
  assign k (set_status WAITING_FOR_PEER_REVIEWS) ;!
  let! now_ts := now in
  assign k (set_deadline_at (Some (now_ts + seconds CASE_DEADLINE_SECONDS))) ;!
  store_try (λ st t, save st k None t) ;!
  catch (delegate k ticket_event ;! store_try (λ st t, save st k None t))
    (delegation_failed k ticket ticket_event).

Definition intake_handler (envelope : EventEnvelope) : prog unit :=
  match env_payload envelope with
  | P_Ticket ticket =>
      let! k := store_op (λ st t,
        get_or_create st (env_correlation_id envelope) (stc_ticket_id ticket)
          (stc_customer_id ticket) (env_correlation_id envelope) (stc_amount ticket)
          (stc_currency ticket) (stc_reason ticket) t) in
      let! case := deref k in
      if negb (bool_decide (rc_status case ∈ [RECEIVED; CLASSIFIED]))
      then write_audit IDENTITY envelope duplicate_skipped (Some "already_processed")
      else
        let! triage := triage_ticket ticket (env_correlation_id envelope) (env_event_id envelope) in
        assign k (set_triage (Some triage)) ;!
        assign k (set_status CLASSIFIED) ;!
        store_try (λ st t, save st k None t) ;!
        write_audit IDENTITY envelope accepted None ;!
        let! classified :=
          lift (build_issue_classified_payload ticket (env_correlation_id envelope) triage) in
        let! _ := publish IDENTITY (P_Classified classified) TOPIC_ISSUE_CLASSIFIED
                    (env_correlation_id envelope) (Some (env_event_id envelope)) None in
        if negb (tri_needs_refund_review triage)
        then direct_response k ticket triage (env_event_id envelope)
        else delegate_case k ticket (env_event_id envelope)
  | _ => Ret tt
  end.

(** ** Results *)

(** Decide when the case is ready; the domain handlers also check that it is
    still open. *)
Definition decide_if_ready (k : UUID) (check_open : bool) (causation_id : UUID) : prog unit :=
  let! case := deref k in
  if is_ready_to_decide case && (negb check_open || negb (closed_status (rc_status case)))
  then _apply_decision k (Some causation_id)
  else Ret tt.

(** Attach a finding and audit it. *)
Definition attach (k task_id : UUID) (finding : BillingFinding + RiskFinding)
    (envelope : EventEnvelope) : prog unit :=
  let! outcome := store_op (λ st t, apply_result st k task_id finding t) in
  if bool_decide (outcome = ATTACHED)
  then write_task_audit IDENTITY envelope aud_completed (Some task_id) None
  else Ret tt.

(** The data of the first data part of a result's output. *)
Definition output_data (m : A2AMessage) : list (string * pyval) :=
  match List.find (λ p, bool_decide (part_type p = part_data)) (msg_parts m) with
  | Some p => default [] (part_data_ p)
  | None => []
  end.

Definition attach_completed (k : UUID) (is_billing : bool) (result : TaskResult)
    (data : list (string * pyval)) (envelope : EventEnvelope) : prog unit :=
  let task_id := tres_task_id result in
  let performer := tres_performer_agent_id result in
  if is_billing then
    match normalize_billing_result float_field task_id performer data with
    | None => store_update (λ st t, mark_slot_failed st k task_id true "unparseable_result" t)
    | Some finding =>
        assign k (set_billing_result_event_id (Some (env_event_id envelope))) ;!
        attach k task_id (inl finding) envelope
    end
  else
    match normalize_risk_result float_field float_of_str task_id performer data with
    | None => store_update (λ st t, mark_slot_failed st k task_id false "unparseable_result" t)
    | Some finding =>
        assign k (set_risk_result_event_id (Some (env_event_id envelope))) ;!
        attach k task_id (inr finding) envelope
    end.

Definition attach_failed (k : UUID) (is_billing : bool) (result : TaskResult)
    (envelope : EventEnvelope) : prog unit :=
  let reason := match tres_error result with
                | Some e => te_message e
                | None => TaskStatus_str (tres_status result)
                end in
  store_update (λ st t, mark_slot_failed st k (tres_task_id result) is_billing reason t) ;!
  write_task_audit IDENTITY envelope aud_rejected (Some (tres_task_id result)) (Some reason).

Definition result_handler (envelope : EventEnvelope) : prog unit :=
  match env_payload envelope with
  | P_TaskResult result =>
      let task_id := tres_task_id result in
      let! found := reads (λ w, get_by_task_id (w_store w) task_id) in
      match found with
      | None => Ret tt
      | Some case =>
          let k := rc_case_id case in
          if closed_status (rc_status case)
          then write_task_audit IDENTITY envelope duplicate_skipped (Some task_id)
                 (Some "late_result")
          else
            let is_billing := bool_decide (rc_billing_task_id case = Some task_id) in
            let is_risk := bool_decide (rc_risk_task_id case = Some task_id) in
            let completed_ := bool_decide (tres_status result = completed) in
            if completed_ && (is_billing || is_risk)
            then write_task_audit IDENTITY envelope duplicate_skipped (Some task_id)
                   (Some "dual_path")
            else
              match tres_output result with
              | Some ({| msg_parts := _ :: _ |} as m) =>
                  if completed_
                  then attach_completed k is_billing result (output_data m) envelope
                  else attach_failed k is_billing result envelope
              | _ => attach_failed k is_billing result envelope
              end ;!
              decide_if_ready k false (env_event_id envelope)
      end
  | _ => Ret tt
  end.

Definition billing_result_handler (envelope : EventEnvelope) : prog unit :=
  match env_payload envelope with
  | P_BillingResult payload =>
      let! found := reads (λ w, get_by_correlation_id (w_store w)
                                  (env_correlation_id envelope)) in
      match found with
      | None => store_update (λ st _, park_billing_result st (env_correlation_id envelope)
                                        payload)
      | Some case =>
          let k := rc_case_id case in
          match rc_billing_task_id case with
          | None => Ret tt
          | Some task_id =>
              assign k (set_billing_result_event_id (Some (env_event_id envelope))) ;!
              attach k task_id (inl (billing_finding payload (Some task_id))) envelope ;!
              decide_if_ready k true (env_event_id envelope)
          end
      end
  | _ => Ret tt
  end.

(** The condition of the immediate escalation. *)
Definition forces_escalation (finding : RiskFinding) (case : ResolutionCase) : bool :=
  (elevated_or_high (rfi_level finding) || rfi_requires_human_review finding) &&
  negb (match rc_billing_result case with
        | Some b => bool_decide (bfi_eligibility b = ineligible)
        | None => false
        end) &&
  negb (closed_status (rc_status case)).

Definition risk_escalation (k : UUID) (finding : RiskFinding) (event : UUID) : prog unit :=
  let! claimed := store_op (λ st t, claim_decision st k t) in
  if negb (claimed : bool) then Ret tt
  else
    let! case := deref k in
    let level := FindingLevel_str (rfi_level finding) in
    let! decision := handler_decision (rc_correlation_id case) (rc_ticket_id case)
      (rc_customer_id case) ESCALATE_HUMAN (Some "elevated_risk") (Some ("level=" +:+ level))
      ("Risk level " +:+ level +:+ " forces escalation") in
    assign k (set_risk_result_event_id (Some event)) ;!
    assign k (set_risk_result (Some finding)) ;!
    let! _ := _emit_decision_and_draft k decision event in
    assign k (set_status ESCALATED) ;!
    store_try (λ st t, save st k None t).

Definition risk_result_handler (envelope : EventEnvelope) : prog unit :=
  match env_payload envelope with
  | P_RiskResult payload =>
      let! found := reads (λ w, get_by_correlation_id (w_store w)
                                  (env_correlation_id envelope)) in
      match found with
      | None => store_update (λ st _, park_risk_result st (env_correlation_id envelope) payload)
      | Some case =>
          let k := rc_case_id case in
          match rc_risk_task_id case with
          | None => Ret tt
          | Some task_id =>
              let finding := risk_finding payload (Some task_id) in
              if forces_escalation finding case
              then risk_escalation k finding (env_event_id envelope)
              else
                assign k (set_risk_result_event_id (Some (env_event_id envelope))) ;!
                attach k task_id (inr finding) envelope ;!
                decide_if_ready k true (env_event_id envelope)
          end
      end
  | _ => Ret tt
  end.

(** ** The reaper *)

(** One timed-out case: an exception is logged and the sweep goes on.  The sweep holds the
    case object, so its slot is filled. *)
Definition reap_case (k : UUID) : prog unit :=
  let! case := reads (λ w, get (w_store w) k) in
  match case with
  | None => Ret tt
  | Some case =>
      if closed_status (rc_status case) then Ret tt
      else
        let! cause := fresh_uuid in
        catch (_apply_decision k (Some cause)) (λ _, Ret tt)
  end.

Fixpoint reap_all (ks : list UUID) : prog unit :=
  match ks with
  | [] => Ret tt
  | k :: rest => reap_case k ;! reap_all rest
  end.

(** One iteration of [run_reaper]'s loop, at the reaper's clock reading. *)
Definition reaper_sweep (current_time : datetime) : prog unit :=
  let! timed_out := reads (λ w, list_timed_out_cases (w_store w) current_time) in
  reap_all timed_out.
End Handlers.
