(* ===== verification/ProgLogic.v ===== *)
(** * Logics over programs

    The interface of a logic over coroutines ([Async.prog]) that watches the case store
    and the decisions on the broker: a predicate [L P p] ("[p] is harmless, and its value
    satisfies [P]") closed under the ways programs are put together, and true of every
    action and await that neither touches the store nor publishes a decision or a draft.

    Everything the agent shares with other agents - audits, discovery, the LLM runtime,
    the transport consumer - is harmless in every such logic; it is proved here once,
    against the interface.  [DecisionBudget.free] and [Provenance.honest] implement it. *)

From Stdlib Require Import ZArith Bool Ascii String List Lia.
From stdpp Require Import base list strings gmap.
From S2P Require Import Prelude.
From S2P Require Import PyFloat.
From S2P Require Import Contracts.
From S2P Require Import Uuid.
From S2P Require Import Idempotency.
From S2P Require Import A2A.
From S2P Require Import Envelope.
From S2P Require Import CaseModels.
From S2P Require Import Classifier.
From S2P Require Import StateStore.
From S2P Require Import Llm.
From S2P Require Import Prompts.
From S2P Require Import Async.
From S2P Require Import LlmRuntime.
From S2P Require Import Consumer.
From S2P Require Import Handlers.

Open Scope string_scope.
Open Scope list_scope.
Open Scope Z_scope.
Open Scope prog_scope.

#[local] Set Default Proof Using "Type*".

(** ** The interface *)

(** Payloads other than a decision and its draft. *)
Definition silent_payload (p : EventPayload) : Prop :=
  match p with P_Decision _ | P_Drafted _ => False | _ => True end.

Definition silent_query {R} (q : Query R) : Prop :=
  match q with Send _ _ e => silent_payload (env_payload e) | _ => True end.

(** An action that leaves the store and the log. *)
Definition neutral {B} (f : World → B * World) : Prop :=
  ∀ w, w_store (snd (f w)) = w_store w ∧ w_log (snd (f w)) = w_log w.

Class ProgLogic (L : ∀ A : Type, (A → Prop) → prog A → Prop) : Prop := {
  pl_ret {A} (P : A → Prop) a : P a → L A P (Ret a);
  pl_raise {A} (P : A → Prop) e : L A P (Raise e);
  pl_bind {A B} (P : A → Prop) (Q : B → Prop) p g :
    L A P p → (∀ a, P a → L B Q (g a)) → L B Q (bind p g);
  pl_catch {A} (P : A → Prop) p h :
    L A P p → (∀ e, L A P (h e)) → L A P (catch p h);
  pl_do {A B} (P : A → Prop) (f : World → B * World) k :
    neutral f → (∀ b, L A P (k b)) → L A P (Do f k);
  pl_await {A R} (P : A → Prop) (q : Query R) k :
    silent_query q → (∀ r, L A P (k r)) → L A P (Await q k);
}.

(** What follows from the laws: [try: p finally: f]. *)
Lemma pl_finally {L : ∀ A : Type, (A → Prop) → prog A → Prop} `{!ProgLogic L} {A} (P : A → Prop)
    (p : prog A) f :
  L A P p → L unit (λ _, True) f → L A P (try_finally p f).
Proof.
  intros Hp Hf. unfold try_finally.
  apply (pl_bind (λ r, match r with Ok a => P a | Err _ => True end)).
  { apply pl_catch; [|intros; by apply pl_ret]. apply (pl_bind P); [done|]. intros. by apply pl_ret. }
  intros r Hr. apply (pl_bind (λ _, True)); [done|]. intros _ _.
  destruct r; [by apply pl_ret|apply pl_raise].
Qed.

(** ** Envelopes *)

Lemma envelope_payload (e e' : EventEnvelope) :
  mk_envelope e = Ok e' → env_payload e' = env_payload e.
Proof. unfold mk_envelope. repeat case_match; intros; ok_inv; done. Qed.

Lemma build_envelope_inv identity p et q cause id t e :
  _build_envelope identity p et q cause id t = Ok e →
  env_correlation_id e = q ∧ env_payload e = p.
Proof.
  unfold _build_envelope. destruct (lookup_model et); cbn; [|discriminate].
  destruct (negb _); [discriminate|]. unfold mk_envelope. repeat case_match; intros; ok_inv; done.
Qed.

(** ** Harmless programs *)

Create HintDb harmless.

(** Harmless by its structure: the parts by the hints, the rest by the laws.  A part
    without a hint is entered with no knowledge of its value. *)
Ltac harmless_tac :=
  cbv beta zeta;
  lazymatch goal with
  | |- ?L (bind _ _) =>
      first [ eapply pl_bind;
              [ solve [eauto with harmless] | let H := fresh in intros ? H; harmless_tac ]
            | eapply (pl_bind (λ _, True)); [ harmless_tac | intros ? _; harmless_tac ] ]
  | |- ?L (try_finally _ _) => eapply pl_finally; [ harmless_tac | harmless_tac ]
  | |- ?L (catch _ _) => eapply pl_catch; [ harmless_tac | intros ?; harmless_tac ]
  | |- ?L (Await _ _) => apply pl_await; [ try exact I; auto | intros ?; harmless_tac ]
  | |- ?L (Ret _) => apply pl_ret; try done; auto
  | |- ?L (Raise _) => apply pl_raise
  | |- ?L (if ?b then _ else _) => destruct b; harmless_tac
  | |- ?L (match ?x with _ => _ end) => destruct x; harmless_tac
  | |- _ => eauto with harmless
  end.

Section Harmless.
Context (L : ∀ A : Type, (A → Prop) → prog A → Prop) `{!ProgLogic L}.
Abbreviation any := (λ _, True).

Lemma harmless_lift {A} (P : A → Prop) r : (∀ a, r = Ok a → P a) → L A P (lift r).
Proof. intros HP. destruct r; [by apply pl_ret, HP|apply pl_raise]. Qed.

Lemma harmless_lift_any {A} (r : result A) : L A any (lift r).
Proof. by apply harmless_lift. Qed.

Lemma harmless_reads {A} (f : World → A) : L A any (reads f).
Proof. apply pl_do; [done|]. intros. by apply pl_ret. Qed.

Lemma harmless_now : L _ any now.
Proof. apply harmless_reads. Qed.

Lemma harmless_wire call : L _ any (wire call).
Proof. apply pl_await; [exact I|]. intros r. apply harmless_lift_any. Qed.

Lemma harmless_deref k : L _ any (deref k).
Proof.
  apply (pl_bind any); [apply harmless_reads|]. intros [case|] _; [by apply pl_ret|].
  apply harmless_lift_any.
Qed.

Context `{Uuids}.

Lemma harmless_fresh : L _ any fresh_uuid.
Proof. apply pl_do; [done|]. intros. by apply pl_ret. Qed.

Lemma harmless_publish identity p et q cause topic :
  silent_payload p → L _ any (publish identity p et q cause topic).
Proof.
  intros Hp. unfold publish. apply (pl_bind any); [apply harmless_fresh|]. intros id _.
  apply (pl_bind any); [apply harmless_now|]. intros t _.
  apply (pl_bind (λ e, env_payload e = p)).
  { apply harmless_lift. intros e He. by destruct (build_envelope_inv _ _ _ _ _ _ _ _ He). }
  intros e He. apply (pl_bind any).
  { destruct topic; [by apply pl_ret|apply harmless_lift_any]. }
  intros tp _. apply pl_await; [cbn; by rewrite He|].
  intros []; [by apply pl_ret|apply pl_raise..].
Qed.

Lemma harmless_task_audit identity e o task reason :
  L _ any (write_task_audit identity e o task reason).
Proof.
  unfold write_task_audit. apply (pl_bind any); [apply harmless_now|]. intros t _.
  apply (pl_bind any); [apply harmless_lift_any|]. intros payload _.
  apply (pl_bind any); [apply harmless_fresh|]. intros id _.
  apply (pl_bind (λ a, env_payload a = P_Audit payload)).
  { apply harmless_lift. intros a Ha. by apply envelope_payload in Ha. }
  intros a Ha. apply pl_await; [cbn; by rewrite Ha|]. intros. by apply pl_ret.
Qed.

Lemma harmless_write_audit identity e o reason : L _ any (write_audit identity e o reason).
Proof. apply harmless_task_audit. Qed.

Lemma harmless_audit publisher e o reason : L _ any (audit publisher e o reason).
Proof. unfold audit. destruct publisher; [apply harmless_task_audit|by apply pl_ret]. Qed.

Hint Resolve harmless_lift_any harmless_reads harmless_now harmless_wire harmless_deref
  harmless_fresh harmless_task_audit harmless_write_audit harmless_audit : harmless.

(** ** The transport consumer *)

(** A consumer is as harmless as its handler on the messages it gets. *)
Lemma harmless_consumer {Bytes T} `{!Dedup T} (parse : Bytes → result EventEnvelope)
    publisher (h : EventEnvelope → prog unit) seek (tracker : option T) messages :
  (∀ raw e, raw ∈ messages → parse raw = Ok e → L _ any (h e)) →
  L _ any (run_consumer parse publisher h seek tracker messages).
Proof.
  intros Hh.
  assert (Hloop : ∀ tr, L _ any (consume_loop parse publisher h messages tr)).
  { induction messages as [|raw messages IH]; intros tr; [by apply pl_ret|].
    cbn [consume_loop]. apply (pl_bind any).
    - assert (Hraw : ∀ e, parse raw = Ok e → L _ any (h e)) by (intros e; apply Hh; left).
      unfold consume_message, reject_bytes, check_duplicate, handle_event, tracker_mark.
      destruct (parse raw) as [e|err]; [specialize (Hraw e eq_refl)|]; harmless_tac.
    - intros [tr' d] _. apply (pl_bind any); [|intros [tr2 ds] _; by apply pl_ret].
      apply IH. intros raw' e Hin. apply Hh. by right. }
  unfold run_consumer, tracker_initialize, apply_seek. harmless_tac.
Qed.

(** ** The LLM runtime, without a publisher *)

Section Llm.
Context {V : Type} `{!Prompting} `{!Schema V}.

Lemma harmless_structured messages grounding n attempts errors :
  L _ any (structured_loop (V:=V) messages grounding n attempts errors).
Proof.
  revert attempts errors. induction n as [|n IH]; intros attempts errors; [by apply pl_ret|].
  cbn [structured_loop]. apply pl_await; [done|]. intros [raw| | | |]; try by apply pl_raise.
  destruct (judge_completion grounding (raw_text raw)) as [[|]|]; [by apply pl_ret|apply IH|by apply pl_raise].
Qed.

Lemma harmless_fallback redact_pii profile (request : AssistiveRequest V) start reason prompt_ref :
  L _ any (_fallback false redact_pii profile request start reason prompt_ref).
Proof. unfold _fallback, _emit_audit. harmless_tac. Qed.

Lemma harmless_finish redact_pii profile (request : AssistiveRequest V) start prompt_ref raw v st :
  L _ any (finish false redact_pii profile request start prompt_ref raw v st).
Proof. unfold finish, _emit_audit. harmless_tac. Qed.

Hint Resolve harmless_structured harmless_fallback harmless_finish : harmless.

Lemma harmless_assist redact_pii profile (request : AssistiveRequest V) :
  L _ any (assist_or_fallback false redact_pii profile request).
Proof.
  unfold assist_or_fallback, reason, settle_completion, invoke_structured, _emit_audit. harmless_tac.
Qed.
End Llm.

Hint Resolve harmless_assist : harmless.

(** ** Classification and discovery *)

Lemma harmless_triage `{Assistant} signals llm_enabled ticket q ev :
  L _ any (triage_ticket signals llm_enabled ticket q ev).
Proof. unfold triage_ticket, classify_with_llm. harmless_tac. Qed.

Lemma harmless_validate capability peer text : L _ any (validate_capability capability peer text).
Proof. unfold validate_capability. harmless_tac. Qed.

Lemma harmless_send_request k ev task capability peer data :
  L _ any (send_task_request k ev task capability peer data).
Proof.
  unfold send_task_request. apply (pl_bind any); [apply harmless_deref|]. intros case _.
  apply (pl_bind any); [apply harmless_lift_any|]. intros input _.
  apply (pl_bind any); [by apply harmless_publish|]. intros. by apply pl_ret.
Qed.
End Harmless.

(** The parts every logic knows, whatever logic the goal is in. *)
Ltac harmless_part :=
  lazymatch goal with
  | |- ?L _ _ (lift _) => apply (harmless_lift_any L)
  | |- ?L _ _ (reads _) => apply (harmless_reads L)
  | |- ?L _ _ now => apply (harmless_now L)
  | |- ?L _ _ (wire _) => apply (harmless_wire L)
  | |- ?L _ _ fresh_uuid => apply (harmless_fresh L)
  | |- ?L _ _ (publish _ _ _ _ _ _) => apply (harmless_publish L); exact I
  | |- ?L _ _ (write_task_audit _ _ _ _ _) => apply (harmless_task_audit L)
  | |- ?L _ _ (write_audit _ _ _ _) => apply (harmless_write_audit L)
  | |- ?L _ _ (triage_ticket _ _ _ _ _) => apply (harmless_triage L)
  | |- ?L _ _ (validate_capability _ _ _) => apply (harmless_validate L)
  | |- ?L _ _ (send_task_request _ _ _ _ _ _) => apply (harmless_send_request L)
  end.

#[export] Hint Extern 1 => harmless_part : harmless.
