(* ===== verification/DecisionBudget.v ===== *)
(** * One decision per case: the budget logic

    A Hoare logic for programs that counts decision events of one case [c].  A
    token is the right to publish one; claiming a case (closing it) earns one,
    reopening it would cost one.  A specification quantifies over every world an
    action may start from, so it holds whatever other threads do in between:
    there is no interference to reason about. *)

From Stdlib Require Import ZArith Bool Ascii String List Lia.
From stdpp Require Import base list strings gmap relations.
From S2P Require Import Prelude.
From S2P Require Import PyFloat.
From S2P Require Import Contracts.
From S2P Require Import A2A.
From S2P Require Import Envelope.
From S2P Require Import CaseModels.
From S2P Require Import Drafter.
From S2P Require Import Classifier.
From S2P Require Import DecisionEngine.
From S2P Require Import Normalize.
From S2P Require Import StateStore.
From S2P Require Import Async.
From S2P Require Import Handlers.
From S2P Require Import ProgLogic.

Open Scope string_scope.
Open Scope list_scope.
Open Scope Z_scope.
Open Scope prog_scope.

(** ** The world invariant and the counted quantities *)

(** Every case sits in the slot of its own id, which is its correlation id. *)
Record store_ok (st : CaseStore) : Prop := {
  ok_slot : ∀ k c, cs_cases st !! k = Some c → rc_case_id c = k ∧ rc_correlation_id c = k;
  ok_index : ∀ q k, cs_by_correlation st !! q = Some k → k = q;
}.

Definition world_ok (w : World) : Prop := store_ok (w_store w).

Definition case_closed (c : UUID) (st : CaseStore) : bool :=
  match cs_cases st !! c with Some case => closed_status (rc_status case) | None => false end.

Definition closed (c : UUID) (w : World) : nat := Nat.b2n (case_closed c (w_store w)).

Definition is_decision (c : UUID) (e : EventEnvelope) : bool :=
  (env_correlation_id e =? c) && match env_payload e with P_Decision _ => true | _ => false end.

(** The decision events of case [c] in a log. *)
Definition decisions (c : UUID) (log : list (string * EventEnvelope)) : nat :=
  length (List.filter (λ te, is_decision c (snd te)) log).

Definition cost (c : UUID) {R} (q : Query R) : nat :=
  match q with Send _ _ e => Nat.b2n (is_decision c e) | _ => 0 end.

Lemma effect_cost c {R} (q : Query R) r w :
  w_store (effect q r w) = w_store w ∧
  (decisions c (w_log (effect q r w)) <= decisions c (w_log w) + cost c q)%nat.
Proof.
  destruct q; cbn; [|split; [done|lia]..].
  destruct r; cbn; (split; [done|]); try lia; unfold decisions;
    rewrite List.filter_app, length_app; cbn; destruct (is_decision c env); cbn; lia.
Qed.

(** A record stays in the log. *)
Lemma decisions_grow c {R} (q : Query R) r w :
  (decisions c (w_log w) <= decisions c (w_log (effect q r w)))%nat.
Proof.
  destruct q; cbn; try lia. unfold decisions.
  destruct r; cbn; rewrite ?List.filter_app, ?length_app; lia.
Qed.

(** ** Specifications *)

Section Logic.
Variable c : UUID.

(** [spec n p Q X]: started with [n] tokens, [p] pays for every decision of [c]
    it sends; it ends with a value and tokens that satisfy [Q], or with an
    exception and tokens that satisfy [X]. *)
Fixpoint spec {A} (n : nat) (p : prog A) (Q : nat → A → Prop) (X : nat → Prop) : Prop :=
  match p with
  | Ret a => Q n a
  | Raise _ => X n
  | Do f k => ∀ w, world_ok w →
      world_ok (snd (f w)) ∧ w_log (snd (f w)) = w_log w ∧
      ∃ n', (n' + closed c w <= n + closed c (snd (f w)))%nat ∧ spec n' (k (fst (f w))) Q X
  | Await q k => (cost c q <= n)%nat ∧ ∀ r, spec (n - cost c q) (k r) Q X
  end.

Lemma spec_mono {A} n (p : prog A) (Q Q' : nat → A → Prop) (X X' : nat → Prop) :
  (∀ m a, Q m a → Q' m a) → (∀ m, X m → X' m) → spec n p Q X → spec n p Q' X'.
Proof.
  intros HQ HX. revert n. induction p as [a|e|B f k IH|R q k IH]; intros n; cbn; auto.
  - intros H w Hw. destruct (H w Hw) as (H1 & H2 & n' & Hn & Hs). eauto 10.
  - intros [H1 H2]. split; auto.
Qed.

Lemma spec_bind {A B} n (p : prog A) (g : A → prog B) Q X :
  spec n p (λ m a, spec m (g a) Q X) X → spec n (bind p g) Q X.
Proof.
  revert n. induction p as [a|e|T f k IH|R q k IH]; intros n; cbn; auto.
  - intros H w Hw. destruct (H w Hw) as (H1 & H2 & n' & Hn & Hs). eauto 10.
  - intros [H1 H2]. split; auto.
Qed.

Lemma spec_catch {A} n (p : prog A) (h : exn → prog A) Q X :
  spec n p Q (λ m, ∀ e, spec m (h e) Q X) → spec n (catch p h) Q X.
Proof.
  revert n. induction p as [a|e|T f k IH|R q k IH]; intros n; cbn; auto.
  - intros H w Hw. destruct (H w Hw) as (H1 & H2 & n' & Hn & Hs). eauto 10.
  - intros [H1 H2]. split; auto.
Qed.

Lemma spec_lift {A} n (r : result A) (Q : nat → A → Prop) (X : nat → Prop) :
  (∀ a, r = Ok a → Q n a) → X n → spec n (lift r) Q X.
Proof. destruct r; cbn; auto. Qed.

(** An action that keeps the invariant and the log, and does not reopen [c]. *)
Lemma spec_do {A B} n (f : World → B * World) (k : B → prog A) Q X :
  (∀ w, world_ok w →
     world_ok (snd (f w)) ∧ w_log (snd (f w)) = w_log w ∧
     (closed c w <= closed c (snd (f w)))%nat ∧ spec n (k (fst (f w))) Q X) →
  spec n (Do f k) Q X.
Proof.
  intros H w Hw. destruct (H w Hw) as (H1 & H2 & H3 & H4).
  split; [done|]. split; [done|]. exists n. split; [lia|done].
Qed.

Lemma spec_reads {A} n (f : World → A) (Q : nat → A → Prop) X :
  (∀ w, world_ok w → Q n (f w)) → spec n (reads f) Q X.
Proof. intros H. apply spec_do. cbn. auto. Qed.

Lemma spec_now n (Q : nat → datetime → Prop) X : (∀ t, Q n t) → spec n now Q X.
Proof. intros H. apply spec_reads. auto. Qed.

Lemma spec_deref n k (Q : nat → ResolutionCase → Prop) (X : nat → Prop) :
  (∀ case, rc_case_id case = k → rc_correlation_id case = k → Q n case) → X n →
  spec n (deref k) Q X.
Proof.
  intros HQ HX. apply spec_bind, spec_reads. intros w Hw. unfold get.
  destruct (cs_cases (w_store w) !! k) as [case|] eqn:E; [|done].
  destruct (ok_slot _ Hw _ _ E) as [H1 H2]. by apply HQ.
Qed.

(** ** Store methods *)

(** A store function that keeps the invariant and does not reopen [c]. *)
Definition keeps (f : CaseStore → CaseStore) : Prop :=
  ∀ st, store_ok st → store_ok (f st) ∧ (case_closed c st → case_closed c (f st)).

Lemma closed_le w st :
  (case_closed c (w_store w) → case_closed c st) →
  (closed c w <= closed c (set_store st w))%nat.
Proof.
  unfold closed. cbn. destruct (case_closed c (w_store w)), (case_closed c st); cbn; try lia.
Qed.

Lemma spec_store_op {A} n (f : CaseStore → datetime → A * CaseStore) (Q : nat → A → Prop) X :
  (∀ t, keeps (λ st, snd (f st t))) → (∀ st t, store_ok st → Q n (fst (f st t))) →
  spec n (store_op f) Q X.
Proof.
  intros Hk HQ. apply spec_do. intros w Hw. destruct (Hk (w_now w) _ Hw) as [H1 H2].
  specialize (HQ _ (w_now w) Hw). destruct (f (w_store w) (w_now w)) as [a st]. cbn in *.
  split; [done|]. split; [done|]. split; [by apply closed_le|done].
Qed.

Lemma spec_store_update n (f : CaseStore → datetime → CaseStore) (Q : nat → unit → Prop) X :
  (∀ t, keeps (λ st, f st t)) → Q n tt → spec n (store_update f) Q X.
Proof. intros Hk HQ. by apply spec_store_op. Qed.

Lemma spec_store_try n (f : CaseStore → datetime → result CaseStore)
    (Q : nat → unit → Prop) (X : nat → Prop) :
  (∀ t, keeps (λ st, match f st t with Ok st' => st' | Err _ => st end)) →
  Q n tt → X n → spec n (store_try f) Q X.
Proof.
  intros Hk HQ HX. apply spec_do. intros w Hw. destruct (Hk (w_now w) _ Hw) as [H1 H2].
  destruct (f (w_store w) (w_now w)) as [st|e]; cbn in *; split_and!; auto.
  by apply closed_le.
Qed.

(** An update of a case that keeps its identity and does not reopen it. *)
Record tame (f : ResolutionCase → ResolutionCase) : Prop := {
  tame_id : ∀ case, rc_case_id (f case) = rc_case_id case;
  tame_corr : ∀ case, rc_correlation_id (f case) = rc_correlation_id case;
  tame_closed : ∀ case, closed_status (rc_status case) → closed_status (rc_status (f case));
}.

Lemma update_ok k f st :
  (∀ case, rc_case_id (f case) = rc_case_id case) →
  (∀ case, rc_correlation_id (f case) = rc_correlation_id case) →
  store_ok st → store_ok (update_case k f st).
Proof.
  intros H1 H2 [Hs Hi]. constructor; [|done]. intros k' case'. cbn.
  destruct (decide (k = k')) as [->|Hn].
  - rewrite lookup_alter_eq. destruct (cs_cases st !! k') as [case|] eqn:E; [|done].
    intros [= <-]. rewrite H1, H2. by apply Hs.
  - rewrite lookup_alter_ne by done. apply Hs.
Qed.

Lemma keeps_update k f : tame f → keeps (update_case k f).
Proof.
  intros [H1 H2 H3] st Hst. split; [by apply update_ok|].
  unfold case_closed. cbn. destruct (decide (k = c)) as [->|Hn].
  - rewrite lookup_alter_eq. destruct (cs_cases st !! c) as [case|]; cbn; auto.
  - by rewrite lookup_alter_ne.
Qed.

(** An update of another case's slot. *)
Lemma keeps_update_other k f :
  (∀ case, rc_case_id (f case) = rc_case_id case) →
  (∀ case, rc_correlation_id (f case) = rc_correlation_id case) →
  k ≠ c → keeps (update_case k f).
Proof.
  intros H1 H2 Hn st Hst. split; [by apply update_ok|].
  unfold case_closed. cbn. by rewrite lookup_alter_ne.
Qed.

Lemma spec_assign n k f (Q : nat → unit → Prop) X :
  tame f → Q n tt → spec n (assign k f) Q X.
Proof. intros Hf HQ. apply spec_store_update; [|done]. intros _. by apply keeps_update. Qed.

(** ** The store's methods keep the invariant *)

Lemma keeps_put k case st :
  store_ok st → rc_case_id case = k → rc_correlation_id case = k →
  (k = c → case_closed c st → closed_status (rc_status case)) →
  store_ok (put_case k case st) ∧ (case_closed c st → case_closed c (put_case k case st)).
Proof.
  intros [Hs Hi] H1 H2 H3. split.
  - constructor; cbn.
    + intros k' case'. rewrite lookup_insert_Some. intros [[<- <-]|[_ H]]; auto.
    + intros q k'. rewrite lookup_insert_Some. intros [[<- <-]|[_ H]]; auto.
  - unfold case_closed at 2. cbn. destruct (decide (k = c)) as [->|Hn].
    + rewrite lookup_insert_eq. auto.
    + by rewrite lookup_insert_ne.
Qed.

Lemma case_closed_lookup k case st :
  cs_cases st !! k = Some case → k = c → case_closed c st → closed_status (rc_status case).
Proof. intros H -> . unfold case_closed. by rewrite H. Qed.

Lemma keeps_save k v t :
  keeps (λ st, match save st k v t with Ok st' => st' | Err _ => st end).
Proof.
  intros st Hst. unfold save. destruct (cs_cases st !! k) as [case|] eqn:E; [|done].
  destruct (ok_slot _ Hst _ _ E) as [H1 H2]. pose proof (case_closed_lookup _ _ _ E) as Hc.
  rewrite H1, E. destruct v as [v|]; [destruct (negb _); [done|]|]; apply keeps_put; auto.
Qed.

Lemma keeps_add_pending k task :
  keeps (λ st, match add_pending_task st k task with Ok st' => st' | Err _ => st end).
Proof.
  intros st Hst. unfold add_pending_task. destruct (cs_cases st !! k) as [case|] eqn:E; [|done].
  assert (Ht : tame (λ c, set_pending_tasks ({[task]} ∪ rc_pending_tasks c) c)) by done.
  destruct (keeps_update k _ Ht st Hst) as [[H1 H2] H3].
  split; [by constructor|exact H3].
Qed.

Lemma ready_open s : can_transition_to_ready s = true → closed_status s = false.
Proof. by destruct s. Qed.

Lemma keeps_apply_result k task finding t : keeps (λ st, snd (apply_result st k task finding t)).
Proof.
  intros st Hst. unfold apply_result. destruct (cs_cases st !! k) as [case|]; [|done].
  destruct (closed_status (rc_status case)); [done|]. destruct (negb _); [done|].
  apply keeps_update; [|done]. constructor; intros case'.
  - unfold apply_to_case. destruct finding, (_ && _); reflexivity.
  - unfold apply_to_case. destruct finding, (_ && _); reflexivity.
  - unfold apply_to_case. destruct finding; cbn;
      (destruct (can_transition_to_ready (rc_status case')) eqn:E;
        [rewrite (ready_open _ E); done|rewrite andb_false_r; exact id]).
Qed.

Lemma keeps_mark_slot_failed k task b reason t :
  keeps (λ st, mark_slot_failed st k task b reason t).
Proof.
  intros st Hst. unfold mark_slot_failed. destruct (cs_cases st !! k) as [case|]; [|done].
  destruct (is_terminal (rc_status case)); [done|].
  apply keeps_update; [|done]. constructor; intros case'.
  - unfold fail_slot. destruct b, (can_transition_to_ready _); reflexivity.
  - unfold fail_slot. destruct b, (can_transition_to_ready _); reflexivity.
  - unfold fail_slot. destruct b; cbn;
      (destruct (can_transition_to_ready (rc_status case')) eqn:E;
        [rewrite (ready_open _ E); done|exact id]).
Qed.

Lemma keeps_same f :
  (∀ st, cs_cases (f st) = cs_cases st) →
  (∀ st, cs_by_correlation (f st) = cs_by_correlation st) → keeps f.
Proof.
  intros H1 H2 st [Hs Hi]. split; [constructor; rewrite ?H1, ?H2; auto|].
  unfold case_closed. by rewrite H1.
Qed.

Lemma get_or_create_spec st q ticket customer amount currency reason t :
  store_ok st →
  let r := get_or_create st q ticket customer q amount currency reason t in
  fst r = q ∧ store_ok (snd r) ∧ (case_closed c st → case_closed c (snd r)).
Proof.
  intros Hst. unfold get_or_create.
  set (create := if bool_decide (is_Some (cs_cases st !! q)) then _ else _).
  assert (Hc : fst create = q ∧ store_ok (snd create) ∧
               (case_closed c st → case_closed c (snd create))).
  { unfold create. case_bool_decide as E; [done|]. split; [done|].
    apply keeps_put; [done..|]. intros ->. unfold case_closed.
    destruct (cs_cases st !! c); [|done]. by destruct E. }
  destruct (cs_by_correlation st !! q) as [k|] eqn:E; [|exact Hc].
  apply (ok_index _ Hst) in E as ->. case_bool_decide; [done|exact Hc].
Qed.

(** Claiming [c] earns a token. *)
Lemma spec_claim n k (Q : nat → bool → Prop) X :
  (∀ b, Q (n + Nat.b2n (b && bool_decide (k = c)))%nat b) →
  spec n (store_op (λ st t, claim_decision st k t)) Q X.
Proof.
  intros HQ w Hw. unfold claim_decision.
  destruct (cs_cases (w_store w) !! k) as [case|] eqn:E; cbn.
  2: { split_and!; [done..|]. exists n. split; [done|].
       specialize (HQ false). by rewrite Nat.add_0_r in HQ. }
  destruct (closed_status (rc_status case)) eqn:Hc; cbn.
  { split_and!; [done..|]. exists n. split; [done|].
    specialize (HQ false). by rewrite Nat.add_0_r in HQ. }
  split; [by apply update_ok|]. split; [done|]. exists (n + Nat.b2n (true && bool_decide (k = c)))%nat. split; [|apply (HQ true)].
  unfold closed, case_closed. cbn. case_bool_decide as Hk.
  - subst k. rewrite lookup_alter_eq, E. cbn. rewrite Hc. change (closed_status DECIDED) with true. cbn. lia.
  - rewrite lookup_alter_ne by done. cbn. lia.
Qed.

(** ** The publisher *)

Context `{Uuids}.

Lemma spec_fresh n (Q : nat → UUID → Prop) X : (∀ u, Q n u) → spec n fresh_uuid Q X.
Proof. intros HQ. apply spec_do. intros w Hw. split_and!; [done|done|done|apply HQ]. Qed.

(** The tokens a publication of payload [p] under correlation id [q] costs. *)
Definition price (p : EventPayload) (q : UUID) : nat :=
  Nat.b2n ((q =? c) && match p with P_Decision _ => true | _ => false end).

Lemma spec_publish n identity p et q cause topic (Q : nat → EventEnvelope → Prop)
    (X : nat → Prop) :
  (price p q <= n)%nat → (∀ e, Q (n - price p q)%nat e) → (∀ m, X m) →
  spec n (publish identity p et q cause topic) Q X.
Proof.
  intros Hp HQ HX. unfold publish. apply spec_bind, spec_fresh. intros id.
  apply spec_bind, spec_now. intros t. apply spec_bind, spec_lift; [|done]. intros e He.
  destruct (build_envelope_inv _ _ _ _ _ _ _ _ He) as [Hc Hpay].
  apply spec_bind.
  assert (Hsend : ∀ tp, spec n (Await (Send tp (message_key None e) e) (λ o, match o with
    | Acked => Ret e | AckLost | Dropped => Raise (IOError "send_and_wait failed") end)) Q X).
  { intros tp. cbn. unfold is_decision. rewrite Hc, Hpay. split; [exact Hp|].
    intros []; cbn; auto. }
  destruct topic as [tp|]; [apply Hsend|]. apply spec_lift; [|done]. intros tp _. apply Hsend.
Qed.

(** ** Programs that need no token *)

(** [free P p]: [p] needs no token, and its value satisfies [P]. *)
Definition free {A} (P : A → Prop) (p : prog A) : Prop :=
  ∀ n, spec n p (λ _ a, P a) (λ _, True).

Lemma free_bind {A B} (P : A → Prop) (Q : B → Prop) p (g : A → prog B) :
  free P p → (∀ a, P a → free Q (g a)) → free Q (bind p g).
Proof.
  intros Hp Hg n. apply spec_bind. eapply spec_mono; [| |apply (Hp n)]; auto.
  intros m a Ha. by apply Hg.
Qed.

Lemma free_catch {A} (P : A → Prop) (p : prog A) h :
  free P p → (∀ e, free P (h e)) → free P (catch p h).
Proof.
  intros Hp Hh n. apply spec_catch. eapply spec_mono; [| |apply (Hp n)]; auto.
  intros m _ e. apply Hh.
Qed.

Lemma free_ret {A} (P : A → Prop) a : P a → free P (Ret a).
Proof. by intros HP n. Qed.

Lemma free_raise {A} (P : A → Prop) e : free P (Raise e).
Proof. by intros n. Qed.

Lemma free_lift {A} (P : A → Prop) r : (∀ a, r = Ok a → P a) → free P (lift r).
Proof. intros HP n. by apply spec_lift. Qed.

Lemma free_reads {A} (P : A → Prop) f : (∀ w, world_ok w → P (f w)) → free P (reads f).
Proof. intros HP n. by apply spec_reads. Qed.

Lemma free_now : free (λ _, True) now.
Proof. by apply free_reads. Qed.

Lemma free_fresh : free (λ _, True) fresh_uuid.
Proof. intros n. by apply spec_fresh. Qed.

Lemma free_deref k :
  free (λ case, rc_case_id case = k ∧ rc_correlation_id case = k) (deref k).
Proof. intros n. apply spec_deref; auto. Qed.

Lemma free_assign k f : tame f → free (λ _, True) (assign k f).
Proof. intros Hf n. by apply spec_assign. Qed.

Lemma free_save k v :
  free (λ _, True) (store_try (λ st t, save st k v t)).
Proof. intros n. apply spec_store_try; auto. intros t. apply keeps_save. Qed.

Lemma free_publish identity p et q cause topic :
  price p q = 0%nat → free (λ _, True) (publish identity p et q cause topic).
Proof. intros Hp n. apply spec_publish; auto. lia. Qed.

(** The interface that the agents' shared coroutines are proved against. *)
Lemma free_neutral {A B} (P : A → Prop) (f : World → B * World) k :
  neutral f → (∀ b, free P (k b)) → free P (Do f k).
Proof.
  intros Hf Hk n. apply spec_do. intros w Hw. destruct (Hf w) as [Hs Hl].
  unfold world_ok, closed. rewrite Hs. split_and!; [done..|apply Hk].
Qed.

Lemma free_await {A R} (P : A → Prop) (q : Query R) (k : R → prog A) :
  cost c q = 0%nat → (∀ r, free P (k r)) → free P (Await q k).
Proof.
  intros Hq Hk n. cbn. rewrite Hq. split; [apply Nat.le_0_l|]. intros r.
  rewrite Nat.sub_0_r. apply Hk.
Qed.

Lemma silent_cost {R} (q : Query R) : silent_query q → cost c q = 0%nat.
Proof.
  destruct q; cbn; try done. unfold is_decision.
  destruct (env_payload env); cbn; rewrite ?andb_false_r; done.
Qed.

#[export] Instance free_logic : ProgLogic (@free).
Proof.
  constructor; intros; [by apply free_ret|by apply free_raise|by eapply free_bind|
    by apply free_catch|by apply free_neutral|].
  apply free_await; [by apply silent_cost|done].
Qed.
End Logic.

Create HintDb budget.
#[export] Hint Resolve free_ret free_raise free_now free_fresh free_save : budget.
