(* ===== verification/DecisionSafety.v ===== *)
(** * One decision per case: the handlers and the event loop

    Every handler meets its budget ([DecisionBudget]), so on the event loop, under
    every interleaving and every broker failure, a case whose intake is over gets
    at most one decision event.  The intake handler does not claim the case:
    [Scenarios] exhibits a schedule with two decisions.  The last section shows that a case
    once closed gets no further decision, whatever runs. *)

From Stdlib Require Import ZArith Bool Ascii String List Lia.
From stdpp Require Import base list strings gmap relations.
From S2P Require Import Prelude.
From S2P Require Import PyFloat.
From S2P Require Import Contracts.
From S2P Require Import A2A.
From S2P Require Import Envelope.
From S2P Require Import CaseModels.
From S2P Require Import Drafter.
From S2P Require Import Classifier.
From S2P Require Import DecisionEngine.
From S2P Require Import Normalize.
From S2P Require Import StateStore.
From S2P Require Import Uuid.
From S2P Require Import Idempotency.
From S2P Require Import Llm.
From S2P Require Import Prompts.
From S2P Require Import Async.
From S2P Require Import LlmRuntime.
From S2P Require Import Consumer.
From S2P Require Import Handlers.
From S2P Require Import ProgLogic.
From S2P Require Import DecisionBudget.

Open Scope string_scope.
Open Scope list_scope.
Open Scope Z_scope.
Open Scope prog_scope.

(** Programs without decisions are free, by their structure. *)
Ltac solve_tame := constructor; intros ?; cbn; repeat case_match; cbn; auto; done.

Ltac free_tac :=
  cbv beta zeta;
  lazymatch goal with
  | |- free _ _ (bind ?p _) =>
      first [ eapply free_bind;
              [ solve [eauto with budget harmless] | let H := fresh in intros ? H; free_tac ]
            | eapply (free_bind _ (λ _, True)); [ free_tac | intros ? _; free_tac ] ]
  | |- free _ _ (catch _ _) => eapply free_catch; [ free_tac | intros ?; free_tac ]
  | |- free _ _ (lift _) => apply free_lift; auto
  | |- free _ _ (reads _) => apply free_reads; auto
  | |- free _ _ (assign _ _) => apply free_assign; solve_tame
  | |- free _ _ (publish _ _ _ _ _ _) => apply free_publish; unfold price; rewrite ?andb_false_r; try reflexivity
  | |- free _ _ (Await _ _) => apply free_await; [reflexivity|intros ?; free_tac]
  | |- free _ _ (Ret _) => by apply free_ret
  | |- free _ _ (if ?b then _ else _) => destruct b; free_tac
  | |- free _ _ (match ?x with _ => _ end) => destruct x; free_tac
  | |- _ => eauto with budget harmless
  end.

Section Budget.
Variable c : UUID.
Context `{Uuids} `{Assistant}.
Variable signals : list string.
Variable llm_enabled : bool.
Variable float_field : pyval → option (option float).
Variable float_of_str : string → option float.

Abbreviation any := (λ _, True).
Abbreviation safe n p := (spec c n p (λ _ _, True) (λ _, True)).

Lemma free_deref_any k : free c any (deref k).
Proof. intros n. apply spec_deref; auto. Qed.

Lemma free_safe {A} (P : A → Prop) (p : prog A) n : free c P p → safe n p.
Proof. intros Hp. eapply spec_mono; [| |apply (Hp n)]; auto. Qed.

(** Emitting a decision for slot [k] takes one token when [k] is the case [c]. *)
Lemma emit_safe n k d cause :
  (Nat.b2n (Z.eqb k c) <= n)%nat → safe n (_emit_decision_and_draft k d cause).
Proof.
  intros Hn. unfold _emit_decision_and_draft. apply spec_bind, spec_deref; [|done].
  intros case _ Hk. apply spec_bind, spec_publish; [|intros decided|done].
  { unfold price. by rewrite Hk, andb_true_r. }
  apply (free_safe any). free_tac.
Qed.

Lemma free_emit k d cause : k ≠ c → free c any (_emit_decision_and_draft k d cause).
Proof.
  intros Hk n. eapply spec_mono; [| |apply emit_safe]; auto.
  apply Z.eqb_neq in Hk. rewrite Hk. apply Nat.le_0_l.
Qed.

(** After a claim that returned [true]. *)
Lemma claimed_safe n k (claimed : bool) (p : prog unit) :
  (∀ m, (Nat.b2n (Z.eqb k c) <= m)%nat → safe m p) →
  safe (n + Nat.b2n (claimed && bool_decide (k = c)))
    (if negb claimed then Ret tt else p).
Proof.
  intros Hp. destruct claimed; cbn; [|done]. apply Hp.
  destruct (Z.eqb_spec k c); case_bool_decide; cbn; lia || done.
Qed.

(** The end of a decision: emit, set a closed status, save. *)
Lemma close_safe n k d cause s :
  (Nat.b2n (Z.eqb k c) <= n)%nat → closed_status s = true →
  safe n (let! _ := _emit_decision_and_draft k d cause in
          assign k (set_status s) ;! store_try (λ st t, save st k None t)).
Proof.
  intros Hn Hs. apply spec_bind. eapply spec_mono; [| |by apply emit_safe]; auto.
  intros m _ _. apply (free_safe any).
  eapply free_bind; [apply free_assign; constructor; intros; cbn; by rewrite ?Hs|].
  intros _ _. apply free_save.
Qed.

Lemma apply_decision_free k cause : free c any (_apply_decision k cause).
Proof.
  intros n. unfold _apply_decision. apply spec_bind, spec_claim. intros claimed.
  apply claimed_safe. intros m Hm. apply spec_bind.
  assert (Hrest : ∀ u, safe m (let! case := deref k in let! t := now in
    let! decision := lift (decide_case (default default_triage (rc_triage case))
      (rc_billing_result case) (rc_risk_result case) (Some (build_timeout_status case t))
      {| di_case_id := rc_correlation_id case; di_ticket_id := rc_ticket_id case;
         di_customer_id := rc_customer_id case |}) in
    let! _ := _emit_decision_and_draft k decision u in
    assign k (set_status DECIDED) ;! store_try (λ st t, save st k None t))).
  { intros u. apply spec_bind, spec_deref; [|done]. intros case _ _.
    apply spec_bind, spec_now. intros t. apply spec_bind, spec_lift; [|done].
    intros d _. by apply close_safe. }
  destruct cause as [u|]; [apply Hrest|]. apply spec_fresh, Hrest.
Qed.

Lemma risk_escalation_free k finding event : free c any (risk_escalation k finding event).
Proof.
  intros n. unfold risk_escalation. apply spec_bind, spec_claim. intros claimed.
  apply claimed_safe. intros m Hm. apply spec_bind, spec_deref; [|done].
  intros case _ _. unfold handler_decision. apply spec_bind, spec_lift; [|done]. intros d _.
  apply spec_bind, spec_assign; [solve_tame|]. apply spec_bind, spec_assign; [solve_tame|].
  by apply close_safe.
Qed.

Lemma attach_free k task finding e : free c any (attach k task finding e).
Proof.
  unfold attach. eapply (free_bind _ any).
  - intros n. apply spec_store_op; [|done]. intros t. apply keeps_apply_result.
  - intros o _. destruct (bool_decide (o = ATTACHED)); [apply (harmless_task_audit (@free c))|by apply free_ret].
Qed.

Lemma mark_failed_free k task b reason :
  free c any (store_update (λ st t, mark_slot_failed st k task b reason t)).
Proof. intros n. apply spec_store_update; [|done]. intros t. apply keeps_mark_slot_failed. Qed.

Lemma park_free (f : CaseStore → CaseStore) :
  (∀ st, cs_cases (f st) = cs_cases st) →
  (∀ st, cs_by_correlation (f st) = cs_by_correlation st) →
  free c any (store_update (λ st _, f st)).
Proof. intros H1 H2 n. apply spec_store_update; [|done]. intros t. by apply keeps_same. Qed.

Lemma decide_if_ready_free k b cause : free c any (decide_if_ready k b cause).
Proof.
  unfold decide_if_ready. eapply free_bind; [apply free_deref|]. intros case _. cbv beta.
  destruct (is_ready_to_decide case && _); [apply apply_decision_free|by apply free_ret].
Qed.

Hint Resolve free_deref_any attach_free mark_failed_free decide_if_ready_free
  apply_decision_free risk_escalation_free : budget.

Lemma result_handler_free e : free c any (result_handler float_field float_of_str e).
Proof.
  unfold result_handler, attach_completed, attach_failed. destruct (env_payload e); free_tac.
Qed.

Lemma billing_handler_free e : free c any (billing_result_handler e).
Proof.
  unfold billing_result_handler. destruct (env_payload e); free_tac. by apply park_free.
Qed.

Lemma risk_handler_free e : free c any (risk_result_handler e).
Proof.
  unfold risk_result_handler. destruct (env_payload e); free_tac. by apply park_free.
Qed.

Lemma reap_case_free k : free c any (reap_case k).
Proof. unfold reap_case. free_tac. Qed.

Lemma reap_all_free ks : free c any (reap_all ks).
Proof.
  induction ks as [|k ks IH]; [by apply free_ret|].
  change (free c any (reap_case k ;! reap_all ks)).
  eapply free_bind; [apply reap_case_free|auto].
Qed.

Lemma reaper_free t : free c any (reaper_sweep t).
Proof. unfold reaper_sweep. eapply (free_bind _ any); [by apply free_reads|]. intros. apply reap_all_free. Qed.

(** Intake of another case needs no token of [c]. *)

Lemma free_update_other k f :
  (∀ case, rc_case_id (f case) = rc_case_id case) →
  (∀ case, rc_correlation_id (f case) = rc_correlation_id case) →
  k ≠ c → free c any (assign k f).
Proof.
  intros H1 H2 Hk n. apply spec_store_update; [|done]. intros t. by apply keeps_update_other.
Qed.

Lemma preset_free k (field : ResolutionCase → option UUID) set capability :
  (∀ v case, rc_case_id (set v case) = rc_case_id case) →
  (∀ v case, rc_correlation_id (set v case) = rc_correlation_id case) →
  (∀ v case, rc_status (set v case) = rc_status case) →
  free c any (preset_task_id k field set capability).
Proof.
  intros H1 H2 H3. apply free_assign. constructor; intros case; destruct (field case); auto.
  by rewrite H3.
Qed.

Lemma free_add_pending k task : free c any (store_try (λ st _, add_pending_task st k task)).
Proof.
  intros n. apply spec_store_try; [|done|done]. intros t. apply keeps_add_pending.
Qed.

Hint Resolve preset_free free_add_pending : budget.

Lemma delegate_free k ev : free c any (delegate k ev).
Proof.
  unfold delegate, request_billing_analysis, request_risk_analysis. free_tac.
Qed.

Lemma close_free k d cause s :
  k ≠ c → closed_status s = true →
  free c any (let! _ := _emit_decision_and_draft k d cause in
              assign k (set_status s) ;! store_try (λ st t, save st k None t)).
Proof.
  intros Hk Hs n. apply close_safe; [|done]. apply Z.eqb_neq in Hk. rewrite Hk. apply Nat.le_0_l.
Qed.

Lemma decide_free (r : result CustomerResponseDecisionPayload)
    (g : CustomerResponseDecisionPayload → prog unit) :
  (∀ d, free c any (g d)) → free c any (let! d := lift r in g d).
Proof. intros Hg. eapply (free_bind _ any); [by apply free_lift|auto]. Qed.

Lemma direct_response_free k ticket triage ev :
  k ≠ c → free c any (direct_response k ticket triage ev).
Proof.
  intros Hk. unfold direct_response. eapply free_bind; [apply free_deref_any|]. intros case _.
  apply decide_free. intros d. by apply close_free.
Qed.

Lemma delegation_failed_free k ticket ev e :
  k ≠ c → free c any (delegation_failed k ticket ev e).
Proof.
  intros Hk. unfold delegation_failed. eapply free_bind; [apply free_deref_any|]. intros case _.
  apply decide_free. intros d. by apply close_free.
Qed.

Lemma delegate_case_free k ticket ev : k ≠ c → free c any (delegate_case k ticket ev).
Proof.
  intros Hk. unfold delegate_case.
  eapply free_bind; [by apply free_update_other|]. intros _ _.
  eapply free_bind; [apply free_now|]. intros t _.
  eapply free_bind; [by apply free_update_other|]. intros _ _.
  eapply free_bind; [apply free_save|]. intros _ _.
  apply free_catch; [|intros e; by apply delegation_failed_free].
  eapply free_bind; [apply delegate_free|]. intros _ _. apply free_save.
Qed.

Hint Resolve direct_response_free delegate_case_free : budget.

Lemma get_or_create_free q ticket customer amount currency reason :
  free c (λ k, k = q) (store_op (λ st t,
    get_or_create st q ticket customer q amount currency reason t)).
Proof.
  intros n. apply spec_store_op.
  - intros t st Hst.
    destruct (get_or_create_spec c st q ticket customer amount currency reason t Hst)
      as (_ & H1 & H2). done.
  - intros st t Hst.
    destruct (get_or_create_spec c st q ticket customer amount currency reason t Hst)
      as (H1 & _). done.
Qed.

Lemma intake_free e :
  env_correlation_id e ≠ c → free c any (intake_handler signals llm_enabled e).
Proof.
  intros Hk. unfold intake_handler. destruct (env_payload e); try by apply free_ret.
  eapply free_bind; [apply get_or_create_free|]. intros k ->.
  eapply free_bind; [apply free_deref_any|]. intros case _. cbv beta.
  destruct (negb _); [apply (harmless_task_audit (@free c))|].
  eapply free_bind; [apply (harmless_triage (@free c))|]. intros triage _.
  eapply free_bind; [by apply free_update_other|]. intros _ _.
  eapply free_bind; [by apply free_update_other|]. intros _ _.
  free_tac.
Qed.

End Budget.

(** ** The event loop *)

Section EventLoop.
Variable c : UUID.
Context `{Uuids} `{Assistant}.
Variable signals : list string.
Variable llm_enabled : bool.
Variable float_field : pyval → option (option float).
Variable float_of_str : string → option float.

(** The coroutines the agent starts once the intake of case [c] is over: the
    three result handlers and the reaper, for any message, the intake of other
    cases, and the transport consumers ([ResolutionService.serve]) that feed any of
    these handlers from the messages the broker delivers. *)
Inductive late_handler : prog unit → Prop :=
| late_result e : late_handler (result_handler float_field float_of_str e)
| late_billing e : late_handler (billing_result_handler e)
| late_risk e : late_handler (risk_result_handler e)
| late_reaper t : late_handler (reaper_sweep t)
| late_intake e : env_correlation_id e ≠ c → late_handler (intake_handler signals llm_enabled e)
| late_consumer Bytes T (D : Dedup T) (parse : Bytes → result EventEnvelope) publisher h seek
    (tracker : option T) messages :
    (∀ raw e, raw ∈ messages → parse raw = Ok e → late_handler (h e)) →
    late_handler (run_consumer parse publisher h seek tracker messages).

Lemma late_handler_free p : late_handler p → free c (λ _, True) p.
Proof.
  induction 1; [apply result_handler_free|apply billing_handler_free|apply risk_handler_free|
    apply reaper_free|by apply intake_free|by apply (harmless_consumer (@free c))].
Qed.

Abbreviation safe n p := (spec c n p (λ _ _, True) (λ _, True)).

Lemma advance_safe {A} n (p : prog A) w :
  safe n p → world_ok w →
  let '(p', w') := advance p w in
  world_ok w' ∧ w_log w' = w_log w ∧
  ∃ n', (n' + closed c w <= n + closed c w')%nat ∧ safe n' p'.
Proof.
  revert n w. induction p as [a|e|B f k IH|R q k IH]; intros n w Hs Hw; cbn.
  - eauto.
  - eauto.
  - destruct (Hs w Hw) as (H1 & H2 & n' & Hn & Hs'). destruct (f w) as [b w1]. cbn in *.
    specialize (IH b n' w1 Hs' H1). destruct (advance (k b) w1) as [p' w'].
    destruct IH as (H3 & H4 & n'' & Hn' & Hs''). split; [done|]. split; [congruence|].
    exists n''. split; [lia|done].
  - eauto.
Qed.

Definition tok_sum (toks : list nat) : nat := fold_right Nat.add 0%nat toks.

(** The invariant of the loop since world [w0]: the threads' tokens and the
    decisions published since are covered by the case having been closed and the
    [granted] tokens the loop started with. *)
Definition covered (granted : nat) (w0 : World) (l : Loop) : Prop :=
  world_ok (l_world l) ∧
  ∃ toks, Forall2 (λ n p, safe n p) toks (l_threads l) ∧
    (tok_sum toks + decisions c (w_log (l_world l)) + closed c w0 <=
     decisions c (w_log w0) + closed c (l_world l) + granted)%nat.

Lemma tok_sum_insert toks i n n' :
  toks !! i = Some n → (tok_sum (<[i := n']> toks) + n = tok_sum toks + n')%nat.
Proof.
  revert i. induction toks as [|m toks IH]; intros [|i]; cbn; [done..| |].
  - intros [= ->]. lia.
  - intros Hi. specialize (IH _ Hi). change (m + tok_sum (<[i := n']> toks) + n = m + tok_sum toks + n')%nat. lia.
Qed.

Lemma covered_step (starts : prog unit → Prop) granted w0 l l' :
  (∀ p, starts p → free c (λ _, True) p) →
  loop_step starts l l' → covered granted w0 l → covered granted w0 l'.
Proof.
  intros Hstarts Hstep (Hw & toks & Hsafe & Hsum). destruct Hstep as
    [ts w i R q k r p' w' Hi Ha|ts w p p' w' Hp Ha|ts w t Ht]; cbn in *.
  - destruct (Forall2_lookup_r _ _ _ _ _ Hsafe Hi) as (n & Hn & Hs). cbn in Hs.
    destruct Hs as [Hc Hk]. destruct (effect_cost c q r w) as [E1 E2].
    assert (Hw1 : world_ok (effect q r w)) by (unfold world_ok; by rewrite E1).
    pose proof (advance_safe _ _ _ (Hk r) Hw1) as Hadv. rewrite Ha in Hadv.
    destruct Hadv as (Hw' & Hlog & n' & Hn' & Hs'). split; [done|].
    exists (<[i := n']> toks). split; [by apply Forall2_insert|].
    pose proof (tok_sum_insert toks i n n' Hn). cbn [l_world]. rewrite Hlog.
    assert (closed c (effect q r w) = closed c w) by (unfold closed; by rewrite E1). lia.
  - pose proof (advance_safe 0%nat p w (free_safe _ _ _ _ (Hstarts _ Hp)) Hw) as Hadv.
    rewrite Ha in Hadv. destruct Hadv as (Hw' & Hlog & n' & Hn' & Hs').
    split; [done|]. exists (toks ++ [n']). split.
    { apply Forall2_app; [done|]. by constructor. }
    cbn [l_world]. rewrite Hlog. cbn in Hn'.
    assert (tok_sum (toks ++ [n']) = (tok_sum toks + n')%nat) as ->.
    { clear. unfold tok_sum. induction toks; cbn in *; lia. }
    lia.
  - split; [exact Hw|]. exists toks. split; [done|exact Hsum].
Qed.

Lemma covered_steps starts granted w0 l l' :
  (∀ p, starts p → free c (λ _, True) p) →
  rtc (loop_step starts) l l' → covered granted w0 l → covered granted w0 l'.
Proof.
  intros Hstarts. induction 1 as [|x y z Hxy _ IH]; [done|]. intros Hx. apply IH.
  by eapply covered_step.
Qed.

Lemma loop_budget w l :
  world_ok w → rtc (loop_step late_handler) (mk_loop [] w) l →
  (decisions c (w_log (l_world l)) + closed c w <=
   decisions c (w_log w) + closed c (l_world l))%nat.
Proof.
  intros Hw Hr. assert (Hinit : covered 0 w (mk_loop [] w)).
  { split; [done|]. exists []. split; [constructor|]. cbn. lia. }
  destruct (covered_steps _ _ _ _ _ late_handler_free Hr Hinit) as (_ & toks & _ & Hsum). lia.
Qed.

(** C4 (safety): exactly-once decisions, the at-most half.  Start the event loop from
    a consistent store, with no coroutine in flight, and let no intake of case [c] run
    in it: the ticket of [c] was taken in before and is not redelivered
    ([Scenarios.intake_race_decides_twice] shows that this is needed, and
    [closed_case_final] that it is not once the case is closed).  Then, whatever
    other messages arrive (tickets of other cases, duplicates, results for unknown
    cases, failed tasks), however the consumers, the handlers and the reaper
    interleave, and whichever publications fail or lose their acknowledgement, an open
    case [c] gets at most one decision event and is closed when it has one; a closed
    case gets none. *)
Theorem at_most_one_decision w l :
  world_ok w → rtc (loop_step late_handler) (mk_loop [] w) l →
  (decisions c (w_log (l_world l)) + closed c w <=
   decisions c (w_log w) + closed c (l_world l))%nat.
Proof. apply loop_budget. Qed.
End EventLoop.

(** ** The store stays consistent *)

Section Consistency.
Context `{Uuids} `{Assistant}.
Variable signals : list string.
Variable llm_enabled : bool.
Variable float_field : pyval → option (option float).
Variable float_of_str : string → option float.

(** Every coroutine of the agent. *)
Inductive agent_handler : prog unit → Prop :=
| agent_intake e : agent_handler (intake_handler signals llm_enabled e)
| agent_result e : agent_handler (result_handler float_field float_of_str e)
| agent_billing e : agent_handler (billing_result_handler e)
| agent_risk e : agent_handler (risk_result_handler e)
| agent_reaper t : agent_handler (reaper_sweep t)
| agent_consumer Bytes T (D : Dedup T) (parse : Bytes → result EventEnvelope) publisher h seek
    (tracker : option T) messages :
    (∀ raw e, raw ∈ messages → parse raw = Ok e → agent_handler (h e)) →
    agent_handler (run_consumer parse publisher h seek tracker messages).

(** A thread that keeps the invariant: within the budget of some case. *)
Definition sound (p : prog unit) : Prop :=
  ∃ c n, spec c n p (λ _ _, True) (λ _, True).

(** A bound for each element of a list gives one for all. *)
Lemma common_bound {A} (P : A → Z → Prop) (l : list A) :
  (∀ a, a ∈ l → ∃ B, ∀ c, B < c → P a c) → ∃ B, ∀ c, B < c → ∀ a, a ∈ l → P a c.
Proof.
  induction l as [|a l IH]; intros Hl; [exists 0; intros c _ x []%elem_of_nil|].
  destruct (Hl a) as [B1 H1]; [by left|]. destruct IH as [B2 H2]; [intros x Hx; apply Hl; by right|].
  exists (Z.max B1 B2). intros c Hc x [->|Hx]%elem_of_cons; [apply H1; lia|].
  apply H2; [lia|done].
Qed.

(** A handler costs nothing to a case that is none of its messages'. *)
Lemma agent_handler_free p : agent_handler p → ∃ B, ∀ c, B < c → free c (λ _, True) p.
Proof.
  induction 1 as [e|e|e|e|t|Bytes T D parse publisher h seek tracker messages _ IH].
  - exists (env_correlation_id e). intros c Hc. apply intake_free. lia.
  - exists 0. intros c _. apply result_handler_free.
  - exists 0. intros c _. apply billing_handler_free.
  - exists 0. intros c _. apply risk_handler_free.
  - exists 0. intros c _. apply reaper_free.
  - destruct (common_bound (λ raw c, ∀ e, parse raw = Ok e → free c (λ _, True) (h e)) messages)
      as [B HB].
    + intros raw Hraw. destruct (parse raw) as [e|err] eqn:Ep; [|by exists 0].
      destruct (IH raw e Hraw Ep) as [B HB]. exists B. intros c Hc e' [= <-]. auto.
    + exists B. intros c Hc. apply (harmless_consumer (@free c)). intros raw e Hraw. by apply HB.
Qed.

Lemma agent_handler_sound p : agent_handler p → sound p.
Proof.
  intros Hp. destruct (agent_handler_free p Hp) as [B HB]. exists (B + 1), 0%nat.
  apply (free_safe _ (λ _, True)), HB. lia.
Qed.

Lemma advance_sound p w :
  sound p → world_ok w → sound (fst (advance p w)) ∧ world_ok (snd (advance p w)).
Proof.
  intros (c & n & Hs) Hw. pose proof (advance_safe c n p w Hs Hw) as Ha.
  destruct (advance p w) as [p' w']. destruct Ha as (H1 & _ & n' & _ & H2).
  split; [by exists c, n'|done].
Qed.

Definition consistent (l : Loop) : Prop := world_ok (l_world l) ∧ Forall sound (l_threads l).

Lemma consistent_step l l' : loop_step agent_handler l l' → consistent l → consistent l'.
Proof.
  intros Hstep [Hw Hs]. destruct Hstep as
    [ts w i R q k r p' w' Hi Ha|ts w p p' w' Hp Ha|ts w t Ht]; cbn in *.
  - rewrite Forall_forall in Hs. assert (Hin : Await q k ∈ ts) by by eapply list_elem_of_lookup_2.
    destruct (Hs _ Hin) as (c & n & _ & Hk). specialize (Hk r).
    assert (Hw1 : world_ok (effect q r w)).
    { unfold world_ok. by rewrite (proj1 (effect_cost c q r w)). }
    destruct (advance_sound (k r) _ ltac:(by eexists c, _) Hw1) as [H1 H2].
    rewrite Ha in H1, H2. split; [done|]. apply Forall_insert; [by apply Forall_forall|done].
  - destruct (advance_sound p w (agent_handler_sound _ Hp) Hw) as [H1 H2].
    rewrite Ha in H1, H2. split; [done|]. apply Forall_app. split; [done|by constructor].
  - by split.
Qed.

Lemma loop_consistent t l :
  rtc (loop_step agent_handler) (mk_loop [] (mk_world empty_store t 0 [])) l → consistent l.
Proof.
  intros Hr. assert (Hinit : consistent (mk_loop [] (mk_world empty_store t 0 []))).
  { split; [|constructor]. constructor; intros ? ?; cbn; by rewrite lookup_empty. }
  revert Hinit. induction Hr as [l|x y z Hxy _ IH]; [done|].
  intros Hx. apply IH. by eapply consistent_step.
Qed.

(** C15 (invariant): under every interleaving of all the agent's handlers, intake
    included, and every broker failure, the store stays consistent: each case
    sits in the slot of its own id, which is its correlation id, and the
    correlation index maps an id only to itself. *)
Theorem store_consistent t l :
  rtc (loop_step agent_handler) (mk_loop [] (mk_world empty_store t 0 [])) l →
  store_ok (w_store (l_world l)).
Proof.
  intros Hr. by apply (loop_consistent _ _ Hr).
Qed.
End Consistency.

(** ** A closed case stays undecided *)

Section ClosedCase.
Variable c : UUID.

(** The store is consistent and case [c] closed. *)
Definition shut (w : World) : Prop := world_ok w ∧ case_closed c (w_store w) = true.

(** As long as [c] is closed, [p] keeps it so and publishes no decision for it; its value
    satisfies [P]. *)
Fixpoint idle {A} (P : A → Prop) (p : prog A) : Prop :=
  match p with
  | Ret a => P a
  | Raise _ => True
  | Do f k => ∀ w, shut w →
      shut (snd (f w)) ∧ w_log (snd (f w)) = w_log w ∧ idle P (k (fst (f w)))
  | Await q k => cost c q = 0%nat ∧ ∀ r, idle P (k r)
  end.

#[export] Instance idle_logic : ProgLogic (@idle).
Proof.
  split; try done.
  - intros A B P Q p g Hp Hg. induction p as [a|e|T f k IH|R q k IH]; cbn in *; auto.
    + intros w Hw. destruct (Hp w Hw) as (H1 & H2 & H3). auto.
    + destruct Hp as [H1 H2]. auto.
  - intros A P p h Hp Hh. induction p as [a|e|T f k IH|R q k IH]; cbn in *; auto.
    + intros w Hw. destruct (Hp w Hw) as (H1 & H2 & H3). auto.
    + destruct Hp as [H1 H2]. auto.
  - intros A B P f k Hf Hk w [Hw Hc]. destruct (Hf w) as [H1 H2].
    unfold shut, world_ok. rewrite H1. auto.
  - intros A R P q k Hq Hk. split; [|exact Hk]. destruct q; try done. cbn in *. unfold is_decision.
    destruct (env_payload env); try done; by rewrite andb_false_r.
Qed.

(** A coroutine that pays for every decision is idle on a closed case. *)
Lemma spec_idle {A} (P : A → Prop) X (p : prog A) : spec c 0 p (λ _ a, P a) X → idle P p.
Proof.
  induction p as [a|e|T f k IH|R q k IH]; cbn; try done.
  - intros Hs w [Hw Hc]. destruct (Hs w Hw) as (H1 & H2 & n & Hn & Hk).
    unfold closed in Hn. rewrite Hc in Hn.
    destruct (case_closed c (w_store (snd (f w)))) eqn:E; cbn in Hn; [|lia].
    assert (n = 0%nat) as -> by lia. split_and!; [by split|done|by apply IH].
  - intros [H1 H2]. split; [lia|]. intros r. apply IH, H2.
Qed.

Lemma free_idle {A} (P : A → Prop) (p : prog A) : free c P p → idle P p.
Proof. intros Hp. eapply spec_idle, Hp. Qed.

Context `{Uuids} `{Assistant}.
Variable signals : list string.
Variable llm_enabled : bool.
Variable float_field : pyval → option (option float).
Variable float_of_str : string → option float.

(** The ticket of a closed case, delivered again, only leaves an audit. *)
Lemma intake_idle e : idle (λ _, True) (intake_handler signals llm_enabled e).
Proof.
  destruct (decide (env_correlation_id e = c)) as [He|Hne]; [|by apply free_idle, intake_free].
  unfold intake_handler. destruct (env_payload e) as [| | | | |ticket| | | | | | | |]; try done.
  apply (pl_bind (L:=@idle) (λ k, k = c)); [apply free_idle; rewrite He; apply get_or_create_free|].
  intros k ->. apply (pl_bind (L:=@idle) (λ case, closed_status (rc_status case) = true)).
  { unfold deref. cbn. intros w [Hw Hc]. split_and!; [by split|done|].
    unfold case_closed in Hc. unfold get. destruct (cs_cases (w_store w) !! c); [exact Hc|done]. }
  intros case Hcase. cbv beta.
  replace (negb (bool_decide (rc_status case ∈ [RECEIVED; CLASSIFIED]))) with true;
    [apply (harmless_write_audit (@idle))|].
  destruct (rc_status case); (done || (vm_compute; reflexivity)).
Qed.

Lemma agent_idle p :
  agent_handler signals llm_enabled float_field float_of_str p → idle (λ _, True) p.
Proof.
  induction 1 as [e|e|e|e|t|Bytes T D parse publisher h seek tracker messages _ IH].
  - apply intake_idle.
  - apply free_idle, result_handler_free.
  - apply free_idle, billing_handler_free.
  - apply free_idle, risk_handler_free.
  - apply free_idle, reaper_free.
  - by apply (harmless_consumer (@idle)).
Qed.

(** What every loop reached from a closed case satisfies. *)
Definition at_rest (n : nat) (l : Loop) : Prop :=
  shut (l_world l) ∧ decisions c (w_log (l_world l)) = n ∧ Forall (idle (λ _, True)) (l_threads l).

Lemma advance_idle (p : prog unit) w :
  idle (λ _, True) p → shut w →
  shut (snd (advance p w)) ∧ w_log (snd (advance p w)) = w_log w ∧
  idle (λ _, True) (fst (advance p w)).
Proof.
  revert w. induction p as [a|e|T f k IH|R q k IH]; intros w Hp Hw; cbn; [done|done| |done].
  cbn in Hp. destruct (Hp w Hw) as (H1 & H2 & H3). destruct (f w) as [b w1]. cbn in *.
  destruct (IH b w1 H3 H1) as (H4 & H5 & H6). split_and!; [done|congruence|done].
Qed.

Lemma at_rest_step n l l' :
  loop_step (agent_handler signals llm_enabled float_field float_of_str) l l' →
  at_rest n l → at_rest n l'.
Proof.
  intros Hstep (Hw & Hd & Hall). destruct Hstep as
    [ts w i R q k r p' w' Hi Ha|ts w p p' w' Hp Ha|ts w t Ht]; cbn [l_world l_threads] in *.
  - pose proof (proj1 (list.Forall_lookup _ _) Hall i _ Hi) as [Hc Hk].
    destruct (effect_cost c q r w) as [E1 E2].
    assert (Hw1 : shut (effect q r w)).
    { unfold shut, world_ok. by rewrite E1. }
    pose proof (advance_idle (k r) _ (Hk r) Hw1) as (H1 & H2 & H3). rewrite Ha in H1, H2, H3. cbn in *.
    split_and!; cbn; [exact H1| |by apply Forall_insert]. rewrite H2.
    pose proof (decisions_grow c q r w). lia.
  - pose proof (advance_idle p w (agent_idle p Hp) Hw) as (H1 & H2 & H3). rewrite Ha in H1, H2, H3.
    cbn in *. split_and!; cbn; [done|congruence|]. apply Forall_app. split; [done|by constructor].
  - split_and!; done.
Qed.

Lemma at_rest_steps n l l' :
  rtc (loop_step (agent_handler signals llm_enabled float_field float_of_str)) l l' →
  at_rest n l → at_rest n l'.
Proof. induction 1 as [|x y z Hxy _ IH]; [done|]. intros Hx. apply IH. by eapply at_rest_step. Qed.

(** Remark (safety): no decision after the last.  A case that is closed, on a consistent
    store with no coroutine of the agent running, gets no further decision and stays closed,
    whatever coroutines start - the intake of its ticket, delivered again, included. *)
Theorem closed_case_final w l :
  world_ok w → case_closed c (w_store w) = true →
  rtc (loop_step (agent_handler signals llm_enabled float_field float_of_str)) (mk_loop [] w) l →
  decisions c (w_log (l_world l)) = decisions c (w_log w) ∧ case_closed c (w_store (l_world l)) = true.
Proof.
  intros Hw Hc Hr. destruct (at_rest_steps (decisions c (w_log w)) _ _ Hr) as ([_ H1] & H2 & _); [|done].
  split_and!; [by split|done|constructor].
Qed.
End ClosedCase.
