(* ===== verification/Costs.v ===== *)
(** * What a coroutine costs

    The budget logic ([DecisionBudget]) with a frame: [costs n p] says that [p] needs [n]
    tokens of a case and gives back all it was given beyond them.  The costs of a program
    add up along its parts, so a consumer costs the sum of what its messages' handlers
    cost.  The intake of a ticket costs three tokens of its own case: it sets the case's
    status twice without looking at it again, each of which may reopen a case decided in
    the meantime, and it publishes one decision of its own. *)

From Stdlib Require Import ZArith Bool Ascii String List Lia.
From stdpp Require Import base list strings gmap relations.
From S2P Require Import Prelude.
From S2P Require Import PyFloat.
From S2P Require Import Contracts.
From S2P Require Import Uuid.
From S2P Require Import Idempotency.
From S2P Require Import A2A.
From S2P Require Import Envelope.
From S2P Require Import CaseModels.
From S2P Require Import Classifier.
From S2P Require Import DecisionEngine.
From S2P Require Import StateStore.
From S2P Require Import Llm.
From S2P Require Import Async.
From S2P Require Import LlmRuntime.
From S2P Require Import Consumer.
From S2P Require Import Handlers.
From S2P Require Import ProgLogic.
From S2P Require Import DecisionBudget.
From S2P Require Import DecisionSafety.

Open Scope string_scope.
Open Scope list_scope.
Open Scope Z_scope.
Open Scope prog_scope.

#[local] Set Default Proof Using "Type".

Section Costs.
Variable c : UUID.

(** Tokens that are not needed are kept. *)
Lemma spec_frame {A} n m (p : prog A) (Q : nat → A → Prop) (X : nat → Prop) :
  spec c n p Q X →
  spec c (n + m) p (λ k a, ∃ k', k = (k' + m)%nat ∧ Q k' a) (λ k, ∃ k', k = (k' + m)%nat ∧ X k').
Proof.
  revert n. induction p as [a|e|B f k IH|R q k IH]; intros n; cbn; eauto.
  - intros H w Hw. destruct (H w Hw) as (H1 & H2 & n' & Hn & Hs). split; [done|]. split; [done|].
    exists (n' + m)%nat. split; [lia|by apply IH].
  - intros [Hc H]. split; [lia|]. intros r.
    replace (n + m - cost c q)%nat with (n - cost c q + m)%nat by lia. by apply IH.
Qed.

(** [p] needs [n] tokens, and keeps those it is given beyond. *)
Definition costs {A} (n : nat) (p : prog A) : Prop :=
  ∀ m, spec c (n + m) p (λ k _, (m <= k)%nat) (λ k, (m <= k)%nat).

Lemma costs_of_spec {A} n (p : prog A) Q X : spec c n p Q X → costs n p.
Proof.
  intros Hp m. eapply spec_mono; [| |by apply spec_frame].
  - intros k a (k' & -> & _). lia.
  - intros k (k' & -> & _). lia.
Qed.

Lemma costs_safe {A} n (p : prog A) : costs n p → spec c n p (λ _ _, True) (λ _, True).
Proof.
  intros Hp. specialize (Hp 0%nat). rewrite Nat.add_0_r in Hp.
  eapply spec_mono; [| |exact Hp]; done.
Qed.

Lemma costs_free {A} (P : A → Prop) (p : prog A) : free c P p → costs 0 p.
Proof. intros Hp. eapply costs_of_spec, (Hp 0%nat). Qed.

Lemma costs_more {A} n n' (p : prog A) : (n <= n')%nat → costs n p → costs n' p.
Proof.
  intros Hn Hp m. specialize (Hp (n' - n + m)%nat).
  replace (n + (n' - n + m))%nat with (n' + m)%nat in Hp by lia.
  eapply spec_mono; [| |exact Hp]; cbn; intros; lia.
Qed.

Lemma costs_ret {A} n (a : A) : costs n (Ret a).
Proof. intros m. cbn. lia. Qed.

(** A specification from the tokens that are left. *)
Lemma costs_spec {A} n m (p : prog A) (Q : nat → A → Prop) X :
  costs n p → (∀ k a, (m <= k)%nat → Q k a) → (∀ k, (m <= k)%nat → X k) →
  spec c (n + m) p Q X.
Proof. intros Hp HQ HX. eapply spec_mono; [exact HQ|exact HX|apply Hp]. Qed.

Lemma costs_at {A} n k m (p : prog A) :
  costs n p → (n + m <= k)%nat → spec c k p (λ k' _, (m <= k')%nat) (λ k', (m <= k')%nat).
Proof.
  intros Hp Hk. replace k with (n + (k - n))%nat by lia.
  apply (costs_spec _ (k - n)); [done|..]; cbn; intros; lia.
Qed.

Lemma costs_bind {A B} n1 n2 (p : prog A) (g : A → prog B) :
  costs n1 p → (∀ a, costs n2 (g a)) → costs (n1 + n2) (bind p g).
Proof.
  intros Hp Hg m. apply spec_bind. rewrite <- Nat.add_assoc.
  apply (costs_spec _ (n2 + m)); [done| |].
  - intros k a Hk. eapply costs_at; [apply Hg|lia].
  - cbn. intros; lia.
Qed.

(** A [try] whose handler costs what the body leaves. *)
Lemma costs_catch {A} n1 n2 (p : prog A) h :
  costs n1 p → (∀ e, costs n2 (h e)) → costs (n1 + n2) (catch p h).
Proof.
  intros Hp Hh m. apply spec_catch. rewrite <- Nat.add_assoc.
  apply (costs_spec _ (n2 + m)); [done|cbn; intros; lia|].
  intros k Hk e. eapply costs_at; [apply Hh|lia].
Qed.

(** A step of no cost before the rest. *)
Lemma costs_after {A B} (P : A → Prop) n (p : prog A) (g : A → prog B) :
  free c P p → (∀ a, P a → costs n (g a)) → costs n (bind p g).
Proof.
  intros Hp Hg m. apply spec_bind. specialize (Hp 0%nat).
  apply (spec_frame 0 (n + m)) in Hp. cbn in Hp.
  eapply spec_mono; [| |exact Hp].
  - intros k a (k' & -> & Ha). eapply costs_at; [by apply Hg|lia].
  - cbn. intros k (k' & -> & _). lia.
Qed.

Lemma costs_then {A B} n (p : prog A) (g : A → prog B) :
  costs n p → (∀ a, free c (λ _, True) (g a)) → costs n (bind p g).
Proof.
  intros Hp Hg. rewrite <- (Nat.add_0_r n). apply costs_bind; [done|].
  intros a. by eapply costs_free.
Qed.

(** Setting a status without looking may reopen the case: one token. *)
Lemma costs_reopen k f :
  (∀ case, rc_case_id (f case) = rc_case_id case) →
  (∀ case, rc_correlation_id (f case) = rc_correlation_id case) →
  costs 1 (assign k f).
Proof.
  intros H1 H2. eapply (costs_of_spec _ _ (λ _ _, True) (λ _, True)).
  intros w Hw. cbn. split; [by apply update_ok|]. split; [done|]. exists 0%nat.
  split; [|done]. unfold closed. destruct (case_closed _ _), (case_closed _ _); cbn; lia.
Qed.
End Costs.

(** ** The handlers *)

Section Handlers.
Variable c : UUID.
Context `{Uuids} `{Assistant}.
Variable signals : list string.
Variable llm_enabled : bool.

Lemma close_costs k d cause s :
  closed_status s = true →
  costs c 1 (let! _ := _emit_decision_and_draft k d cause in
             assign k (set_status s) ;! store_try (λ st t, save st k None t)).
Proof.
  intros Hs. eapply costs_of_spec, close_safe; [|done]. destruct (Z.eqb k c); cbn; lia.
Qed.

Lemma direct_response_costs k ticket triage ev : costs c 1 (direct_response k ticket triage ev).
Proof.
  unfold direct_response. eapply costs_after; [apply free_deref|]. intros case _.
  eapply (costs_after _ (λ _, True)); [by apply free_lift|]. intros d _. by apply close_costs.
Qed.

Lemma delegation_failed_costs k ticket ev e : costs c 1 (delegation_failed k ticket ev e).
Proof.
  unfold delegation_failed. eapply costs_after; [apply free_deref|]. intros case _.
  eapply (costs_after _ (λ _, True)); [by apply free_lift|]. intros d _. by apply close_costs.
Qed.

Lemma delegate_case_costs k ticket ev : costs c 2 (delegate_case k ticket ev).
Proof.
  unfold delegate_case. apply (costs_bind _ 1 1); [by apply costs_reopen|]. intros _.
  eapply costs_after; [apply free_now|]. intros t _.
  eapply costs_after; [apply free_assign; solve_tame|]. intros _ _.
  eapply costs_after; [apply free_save|]. intros _ _.
  apply (costs_catch _ 0 1); [|intros e; apply delegation_failed_costs].
  eapply costs_free, free_bind; [apply delegate_free|]. intros _ _. apply free_save.
Qed.

(** What the intake of an envelope costs the case [c]. *)
Definition intake_cost (e : EventEnvelope) : nat :=
  match env_payload e with
  | P_Ticket _ => if Z.eqb (env_correlation_id e) c then 3 else 0
  | _ => 0
  end.

Lemma intake_costs_own e : costs c 3 (intake_handler signals llm_enabled e).
Proof.
  unfold intake_handler. destruct (env_payload e); try apply costs_ret.
  eapply costs_after; [apply get_or_create_free|]. intros k ->.
  eapply costs_after; [apply free_deref|]. intros case _. cbv beta.
  destruct (negb _); [apply (costs_more _ 0); [lia|eapply costs_free, (harmless_task_audit (@free c))]|].
  eapply costs_after; [apply (harmless_triage (@free c))|]. intros triage _.
  eapply costs_after; [apply free_assign; solve_tame|]. intros _ _.
  apply (costs_bind _ 1 2); [by apply costs_reopen|]. intros _.
  eapply costs_after; [apply free_save|]. intros _ _.
  eapply costs_after; [apply (harmless_task_audit (@free c))|]. intros _ _.
  eapply (costs_after _ (λ _, True)); [by apply free_lift|]. intros classified _.
  eapply costs_after; [apply free_publish; unfold price; by rewrite andb_false_r|]. intros _ _.
  destruct (negb _); [|apply delegate_case_costs].
  apply (costs_more _ 1); [lia|apply direct_response_costs].
Qed.

Lemma intake_costs e : costs c (intake_cost e) (intake_handler signals llm_enabled e).
Proof.
  destruct (Z.eqb_spec (env_correlation_id e) c) as [Heq|Hne].
  - unfold intake_cost. rewrite Heq, Z.eqb_refl. pose proof (intake_costs_own e) as Hc. revert Hc.
    unfold intake_handler. destruct (env_payload e); try done; intros _; apply costs_ret.
  - replace (intake_cost e) with 0%nat; [by eapply costs_free, intake_free|].
    unfold intake_cost. apply Z.eqb_neq in Hne. rewrite Hne. by destruct (env_payload e).
Qed.
End Handlers.

(** ** A consumer *)

Section ConsumerCosts.
Variable c : UUID.
Context `{Uuids}.
Context {Bytes T : Type} `{!Dedup T} (parse : Bytes → result EventEnvelope).
Variable publisher : option AgentIdentity.
Variable handler : EventEnvelope → prog unit.
Variable cost_of : EventEnvelope → nat.
Hypothesis Hcost : ∀ e, costs c (cost_of e) (handler e).

Definition message_cost (raw : Bytes) : nat :=
  match parse raw with Ok e => cost_of e | Err _ => 0 end.

Definition messages_cost (messages : list Bytes) : nat :=
  foldr (λ raw n, message_cost raw + n)%nat 0%nat messages.

Lemma handle_event_costs e (tracker : option T) : costs c (cost_of e) (handle_event publisher handler e tracker).
Proof using Hcost.
  unfold handle_event. apply costs_then.
  - rewrite <- (Nat.add_0_r (cost_of e)). apply costs_catch.
    + apply costs_then; [apply Hcost|]. intros _. by apply free_ret.
    + intros err. apply costs_ret.
  - intros failed. destruct failed; [by apply free_ret|].
    eapply (free_bind _ (λ _, True)).
    + destruct tracker as [t|]; [|by apply free_ret]. unfold tracker_mark. free_tac.
    + intros tr _. eapply (free_bind _ (λ _, True)); [|intros; by apply free_ret].
      apply free_catch; [apply (harmless_audit (@free c))|intros; by apply free_ret].
Qed.

Lemma check_duplicate_free e (tracker : option T) : free c (λ _, True) (check_duplicate publisher e tracker).
Proof.
  unfold check_duplicate. destruct tracker as [t|]; [|by apply free_ret].
  destruct (dd_is_duplicate _ t) as [[] t']; [|by apply free_ret].
  apply free_catch; [|intros; by apply free_ret].
  eapply free_bind; [apply (harmless_audit (@free c))|]. intros. by apply free_ret.
Qed.

Lemma consume_message_costs raw (tracker : option T) :
  costs c (message_cost raw) (consume_message parse publisher handler raw tracker).
Proof using Hcost.
  unfold consume_message, message_cost. destruct (parse raw) as [e|err] eqn:Ep.
  2: { eapply (costs_after _ (λ _, True)); [|intros; apply costs_ret].
       unfold reject_bytes, _make_partial_envelope. rewrite Ep.
       apply free_catch; intros; by apply free_ret. }
  eapply costs_after; [apply check_duplicate_free|]. intros [skipped tr] _.
  destruct skipped; [apply costs_ret|]. destruct (payload_rejection e) as [reason|]; [|apply handle_event_costs].
  eapply costs_after; [apply (harmless_audit (@free c))|]. intros _ _. apply costs_ret.
Qed.

Lemma costs_finally {A} n (p : prog A) f :
  costs c n p → free c (λ _, True) f → costs c n (try_finally p f).
Proof.
  intros Hp Hf. unfold try_finally. apply costs_then.
  - rewrite <- (Nat.add_0_r n). apply costs_catch; [|intros; apply costs_ret].
    apply costs_then; [exact Hp|]. intros a. by apply free_ret.
  - intros r. eapply (free_bind _ (λ _, True)); [exact Hf|]. intros _ _.
    apply (harmless_lift_any (@free c)).
Qed.

Lemma consumer_costs seek messages (tracker : option T) :
  costs c (messages_cost messages) (run_consumer parse publisher handler seek tracker messages).
Proof using Hcost.
  unfold run_consumer. eapply (costs_after _ (λ _, True)).
  { destruct tracker; [|by apply free_ret]. unfold tracker_initialize. free_tac. }
  intros tr _. eapply (costs_after _ (λ _, True)); [apply (harmless_wire (@free c))|]. intros _ _.
  eapply (costs_after _ (λ _, True)).
  { unfold apply_seek. destruct (seek_to_beginning_flag seek); [apply (harmless_wire (@free c))|].
    destruct (seek_to_offset_val seek); [apply (harmless_wire (@free c))|by apply free_ret]. }
  intros _ _. apply costs_finally; [|apply (harmless_wire (@free c))].
  apply costs_then; [|intros; by apply free_ret]. revert tr.
  induction messages as [|raw messages IH]; intros tr; [apply costs_ret|].
  cbn [consume_loop messages_cost foldr]. apply costs_bind; [apply consume_message_costs|].
  intros [tr' d]. apply costs_then; [apply IH|]. intros [tr2 ds]. by apply free_ret.
Qed.
End ConsumerCosts.
