(* ===== verification/Execution.v ===== *)
(** * Running the handlers

    Equations for [run], and what a decision does when the broker acknowledges
    every record: the decision event, its audit record and the customer-response
    draft are published in this order and chained by their causation ids. *)

From Stdlib Require Import ZArith Bool Ascii String List Lia.
From stdpp Require Import base list strings gmap.
From S2P Require Import Prelude.
From S2P Require Import PyFloat.
From S2P Require Import Contracts.
From S2P Require Import A2A.
From S2P Require Import Envelope.
From S2P Require Import CaseModels.
From S2P Require Import Drafter.
From S2P Require Import Classifier.
From S2P Require Import DecisionEngine.
From S2P Require Import DecisionFacts.
From S2P Require Import Normalize.
From S2P Require Import StateStore.
From S2P Require Import Async.
From S2P Require Import Handlers.

Open Scope string_scope.
Open Scope list_scope.
Open Scope Z_scope.
Open Scope prog_scope.

#[local] Set Default Proof Using "Type*".

(** ** Equations *)

Lemma run_bind {A B} env (p : prog A) (g : A → prog B) w :
  run env (bind p g) w =
  match run env p w with
  | (Ok a, w') => run env (g a) w'
  | (Err e, w') => (Err e, w')
  end.
Proof.
  revert w. induction p as [a|e|T f k IH|R q k IH]; intros w; cbn; [done|done| |].
  - destruct (f w) as [b w']. apply IH.
  - apply IH.
Qed.

Lemma run_catch {A} env (p : prog A) h w :
  run env (catch p h) w =
  match run env p w with
  | (Ok a, w') => (Ok a, w')
  | (Err e, w') => run env (h e) w'
  end.
Proof.
  revert w. induction p as [a|e|T f k IH|R q k IH]; intros w; cbn; [done|done| |].
  - destruct (f w) as [b w']. apply IH.
  - apply IH.
Qed.

Lemma run_lift {A} env (r : result A) w : run env (lift r) w = (r, w).
Proof. by destruct r. Qed.

Lemma run_deref env k w case :
  cs_cases (w_store w) !! k = Some case → run env (deref k) w = (Ok case, w).
Proof. intros Hk. unfold deref. rewrite run_bind. cbn. unfold get. by rewrite Hk. Qed.

Lemma run_assign env k f w :
  run env (assign k f) w = (Ok tt, set_store (update_case k f (w_store w)) w).
Proof. done. Qed.

Lemma run_save env k w case :
  cs_cases (w_store w) !! k = Some case → rc_case_id case = k →
  run env (store_try (λ st t, save st k None t)) w =
  (Ok tt, set_store (put_case k
            (CaseModels.set_updated_at (w_now w) (set_version (rc_version case + 1) case))
            (w_store w)) w).
Proof. intros Hk Hid. cbn. unfold save. by rewrite Hk, Hid, Hk. Qed.

(** ** An environment whose broker acknowledges every record *)

Definition acks (env : Environment) : Prop :=
  ∀ topic key e w, env _ (Send topic key e) w = Acked.

Section Runs.
Context `{Uuids}.
Context (env : Environment) (Hacks : acks env).

(** The world after drawing one UUID and delivering one record. *)
Definition delivered (topic : string) (e : EventEnvelope) (w : World) : World :=
  mk_world (w_store w) (w_now w) (S (w_uuids w)) (w_log w ++ [(topic, e)]).

Definition envelope_of (p : EventPayload) (et : string) (q : UUID) (cause : UUID) (w : World) :
    EventEnvelope := {|
  env_event_id := uuid4 (w_uuids w);
  env_correlation_id := q;
  env_causation_id := Some cause;
  env_agent_id := CaseModels.AGENT_ID;
  env_tenant_id := AGENT_TENANT_ID;
  env_timestamp := w_now w;
  env_event_type := et;
  env_schema_version := "1.0.0";
  env_payload := p |}.

Lemma run_publish p et q cause w m :
  lookup_model et = Ok m → model_of p = Some m → _EVENT_TYPE_RE et = true →
  _resolve_topic et = Ok et →
  run env (publish IDENTITY p et q (Some cause) None) w =
  (Ok (envelope_of p et q cause w), delivered et (envelope_of p et q cause w) w).
Proof.
  intros Hm Hp Hre Ht. unfold publish. rewrite run_bind. cbn [run fresh_uuid].
  rewrite run_bind. cbn [run now reads]. rewrite run_bind, run_lift.
  assert (Hb : _build_envelope IDENTITY p et q (Some cause) (uuid4 (w_uuids w)) (w_now w) =
               Ok (envelope_of p et q cause w)).
  { unfold _build_envelope. rewrite Hm. cbn [mbind result_bind]. rewrite Hp.
    rewrite bool_decide_eq_true_2 by done. cbn [negb]. unfold mk_envelope.
    cbn [env_event_type]. rewrite Hre. reflexivity. }
  cbn [w_now w_uuids]. rewrite Hb. rewrite run_bind, run_lift, Ht. cbn [run].
  rewrite Hacks. reflexivity.
Qed.

Lemma run_publish_decision d q cause w :
  run env (publish IDENTITY (P_Decision d) TOPIC_RESOLUTION_DECIDED q (Some cause) None) w =
  let e := envelope_of (P_Decision d) TOPIC_RESOLUTION_DECIDED q cause w in
  (Ok e, delivered TOPIC_RESOLUTION_DECIDED e w).
Proof. by apply (run_publish _ _ _ _ _ M_Decision); vm_compute. Qed.

Lemma run_publish_draft d q cause w :
  run env (publish IDENTITY (P_Drafted d) TOPIC_RESPONSE_DRAFTED q (Some cause) None) w =
  let e := envelope_of (P_Drafted d) TOPIC_RESPONSE_DRAFTED q cause w in
  (Ok e, delivered TOPIC_RESPONSE_DRAFTED e w).
Proof. by apply (run_publish _ _ _ _ _ M_Drafted); vm_compute. Qed.

(** The audit record of an envelope. *)
Definition audit_of (e : EventEnvelope) (o : AuditOutcome) (task : option UUID)
    (reason : option string) (w : World) : EventEnvelope :=
  envelope_of
    (P_Audit {| aud_original_envelope := e; aud_outcome := o; aud_reason := reason;
                aud_recorded_at := w_now w; aud_task_id := task |})
    "agent.audit.v1" (env_correlation_id e) (env_event_id e) w.

Lemma run_audit e o task reason w :
  (o = aud_rejected ∨ o = aud_failed → reason ≠ None) →
  run env (write_task_audit IDENTITY e o task reason) w =
  (Ok tt, delivered TOPIC_AUDIT (audit_of e o task reason w) w).
Proof.
  intros Hr. unfold write_task_audit. rewrite run_bind. cbn [run now reads].
  rewrite run_bind, run_lift. unfold mk_audit. cbn [aud_outcome aud_reason].
  replace (bool_decide (o ∈ [aud_rejected; aud_failed]) && negb (bool_of_option reason))
    with false.
  2: { destruct reason; [by rewrite andb_false_r|]. destruct o; try reflexivity.
       - exfalso. by apply Hr; [left|].
       - exfalso. by apply Hr; [right|]. }
  rewrite run_bind. cbn [run fresh_uuid]. rewrite run_bind, run_lift.
  replace (mk_envelope _) with (Ok (audit_of e o task reason w)) by (vm_compute; reflexivity).
  cbn [run]. rewrite Hacks. reflexivity.
Qed.

(** ** A decision *)

(** The log after a decision [d] on case [q]: decision, audit and draft. *)
Definition decision_chain (d : CustomerResponseDecisionPayload) (q cause : UUID)
    (log log' : list (string * EventEnvelope)) : Prop :=
  ∃ e1 e2 e3 a dr,
    log' = log ++ [(TOPIC_RESOLUTION_DECIDED, e1); (TOPIC_AUDIT, e2);
                   (TOPIC_RESPONSE_DRAFTED, e3)] ∧
    env_payload e1 = P_Decision d ∧ env_correlation_id e1 = q ∧
    env_causation_id e1 = Some cause ∧
    env_payload e2 = P_Audit a ∧ aud_original_envelope a = e1 ∧ aud_outcome a = aud_completed ∧
    env_causation_id e2 = Some (env_event_id e1) ∧
    env_payload e3 = P_Drafted dr ∧ env_correlation_id e3 = q ∧
    env_causation_id e3 = Some (env_event_id e1) ∧
    drf_decision_event_id dr = env_event_id e1 ∧ drf_outcome dr = crd_outcome d ∧
    drf_draft_response dr = _TEMPLATES (crd_outcome d) ∧
    drf_requires_human_approval dr = requires_human_approval (crd_outcome d).

Lemma run_emit k d cause w case :
  cs_cases (w_store w) !! k = Some case → rc_correlation_id case = k →
  crd_customer_response d = _TEMPLATES (crd_outcome d) →
  ∃ e w', run env (_emit_decision_and_draft k d cause) w = (Ok e, w') ∧
    decision_chain d k cause (w_log w) (w_log w') ∧ w_now w' = w_now w ∧
    env_payload e = P_Decision d ∧
    w_store w' = update_case k (set_drafted_event_id (Some (uuid4 (S (S (w_uuids w))))))
                   (update_case k (set_decided_event_id (Some (uuid4 (w_uuids w)))) (w_store w)).
Proof.
  intros Hk Hq Hd. unfold _emit_decision_and_draft.
  rewrite run_bind, (run_deref _ _ _ _ Hk). cbv beta iota.
  rewrite run_bind, run_publish_decision. cbv beta iota zeta. set (e1 := envelope_of _ _ _ _ w).
  rewrite run_bind, run_assign. cbv beta iota.
  rewrite run_bind, run_catch. unfold write_audit. rewrite run_audit by (intros [|]; done).
  cbv beta iota. set (w2 := set_store _ _). set (e2 := audit_of e1 _ _ _ w2).
  rewrite run_bind. cbn [run now reads]. rewrite run_bind, run_lift, mk_drafted_ok by done.
  cbv beta iota. rewrite run_bind, run_publish_draft. cbv beta iota zeta.
  set (e3 := envelope_of _ _ _ _ _). rewrite run_bind, run_assign. cbn [run].
  eexists e1, _. split; [reflexivity|].
  split; [|done]. exists e1, e2, e3. eexists _, _. cbn -[requires_human_approval _TEMPLATES].
  rewrite <- !app_assoc. split_and!; try reflexivity; cbn; auto.
Qed.

Lemma lookup_update k f st case :
  cs_cases st !! k = Some case → cs_cases (update_case k f st) !! k = Some (f case).
Proof. intros Hk. cbn. by rewrite lookup_alter_eq, Hk. Qed.

(** [case'] is [case] in slot [k] later on: same identity, same tasks, and still
    found by its correlation id. *)
Definition same_case (k : UUID) (case case' : ResolutionCase) (w' : World) : Prop :=
  cs_cases (w_store w') !! k = Some case' ∧ cs_by_correlation (w_store w') !! k = Some k ∧
  rc_case_id case' = k ∧ rc_correlation_id case' = k ∧
  rc_billing_task_id case' = rc_billing_task_id case ∧
  rc_risk_task_id case' = rc_risk_task_id case.

(** Only slot [k] is written, and no time passes. *)
Definition only_slot (k : UUID) (w w' : World) : Prop :=
  w_now w' = w_now w ∧ cs_order (w_store w') = cs_order (w_store w) ∧
  ∀ j, j ≠ k → cs_cases (w_store w') !! j = cs_cases (w_store w) !! j.

(** Emit, set a final status, save. *)
Lemma run_close_framed k d cause w case s :
  cs_cases (w_store w) !! k = Some case → rc_case_id case = k → rc_correlation_id case = k →
  crd_customer_response d = _TEMPLATES (crd_outcome d) →
  ∃ w' case',
    run env (let! _ := _emit_decision_and_draft k d cause in
             assign k (set_status s) ;! store_try (λ st t, save st k None t)) w = (Ok tt, w') ∧
    decision_chain d k cause (w_log w) (w_log w') ∧
    same_case k case case' w' ∧ rc_status case' = s ∧ only_slot k w w'.
Proof.
  intros Hk Hid Hq Hd. rewrite run_bind.
  destruct (run_emit k d cause w case Hk Hq Hd) as (e & w1 & Hr & Hc & Hn & _ & Hst).
  rewrite Hr. rewrite run_bind, run_assign. cbv beta iota.
  set (st2 := update_case k (set_status s) (w_store w1)).
  set (case2 := set_status s (set_drafted_event_id (Some (uuid4 (S (S (w_uuids w)))))
                  (set_decided_event_id (Some (uuid4 (w_uuids w))) case))).
  assert (Hk2 : cs_cases st2 !! k = Some case2).
  { unfold st2. rewrite Hst. unfold case2. by repeat apply lookup_update. }
  rewrite (run_save env k (set_store st2 w1) case2 Hk2 Hid).
  eexists _, (CaseModels.set_updated_at (w_now w1) (set_version (rc_version case2 + 1) case2)).
  split; [reflexivity|]. split; [exact Hc|].
  split; [split; [apply lookup_insert_eq|]; cbn; by rewrite Hq, lookup_insert_eq|].
  split; [reflexivity|]. split; [exact Hn|]. split.
  - cbn. rewrite bool_decide_eq_true_2; [by rewrite Hst|]. exists case2. exact Hk2.
  - intros j Hj. cbn. rewrite lookup_insert_ne, lookup_alter_ne, Hst by done. cbn.
    by rewrite !lookup_alter_ne.
Qed.

Lemma run_close k d cause w case s :
  cs_cases (w_store w) !! k = Some case → rc_case_id case = k → rc_correlation_id case = k →
  crd_customer_response d = _TEMPLATES (crd_outcome d) →
  ∃ w' case',
    run env (let! _ := _emit_decision_and_draft k d cause in
             assign k (set_status s) ;! store_try (λ st t, save st k None t)) w = (Ok tt, w') ∧
    decision_chain d k cause (w_log w) (w_log w') ∧
    same_case k case case' w' ∧ rc_status case' = s.
Proof.
  intros Hk Hid Hq Hd. destruct (run_close_framed k d cause w case s Hk Hid Hq Hd)
    as (w' & case' & Hr & Hc & Hs & Hst & _). by exists w', case'.
Qed.

(** The triage a decision uses. *)
Definition triage_or_default (case : ResolutionCase) : Triage :=
  default default_triage (rc_triage case).

Definition case_ids (case : ResolutionCase) : DecisionIds :=
  {| di_case_id := rc_correlation_id case; di_ticket_id := rc_ticket_id case;
     di_customer_id := rc_customer_id case |}.

(** The ruling of the decision policy on a case at time [t]. *)
Definition case_ruling (case : ResolutionCase) (t : datetime) : ruling :=
  truth_table (triage_or_default case) (rc_billing_result case) (rc_risk_result case)
    (Some (build_timeout_status case t)).

(** [w'] is [w] after case [k] got the decision [r]: the chain is in the log and
    the case has status [s]. *)
Definition decided_by (k cause : UUID) (r : ruling) (s : CaseStatus) (case : ResolutionCase)
    (w w' : World) : Prop :=
  ∃ d case', decision_chain d k cause (w_log w) (w_log w') ∧ ruling_of d = r ∧
    ids_of d = case_ids case ∧ same_case k case case' w' ∧ rc_status case' = s.

Lemma run_apply_decision_framed k cause w case :
  cs_cases (w_store w) !! k = Some case → rc_case_id case = k → rc_correlation_id case = k →
  closed_status (rc_status case) = false →
  ∃ w', run env (_apply_decision k (Some cause)) w = (Ok tt, w') ∧
    decided_by k cause (case_ruling case (w_now w)) DECIDED case w w' ∧ only_slot k w w'.
Proof.
  intros Hk Hid Hq Hopen. unfold _apply_decision. rewrite run_bind. cbn [run store_op].
  unfold claim_decision. rewrite Hk, Hopen. cbv beta iota. cbn [negb].
  set (w1 := set_store _ w). set (case1 := touch (w_now w) (set_status DECIDED case)).
  assert (Hk1 : cs_cases (w_store w1) !! k = Some case1)
    by exact (lookup_update k (λ c, touch (w_now w) (set_status DECIDED c)) _ _ Hk).
  rewrite run_bind. cbn [run]. rewrite run_bind, (run_deref _ _ _ _ Hk1). cbv beta iota.
  rewrite run_bind. cbn [run now reads]. rewrite run_bind, run_lift.
  destruct (decide_ruling (triage_or_default case) (rc_billing_result case)
    (rc_risk_result case) (Some (build_timeout_status case (w_now w))) (case_ids case))
    as (d & Hd & Hrul & Hids & Htpl).
  change (decide_case _ _ _ _ _) with (decide_case (triage_or_default case)
    (rc_billing_result case) (rc_risk_result case)
    (Some (build_timeout_status case (w_now w))) (case_ids case)).
  rewrite Hd. cbv beta iota. rewrite <- Hrul in Htpl.
  destruct (run_close_framed k d cause w1 case1 DECIDED Hk1 Hid Hq Htpl)
    as (w' & case' & Hr & Hc & Hk' & Hs' & Hn & Ho & Hf).
  exists w'. split; [exact Hr|]. split; [by exists d, case'|]. split; [exact Hn|]. split; [exact Ho|].
  intros j Hj. rewrite Hf by done. cbn. by rewrite lookup_alter_ne.
Qed.

Lemma run_apply_decision k cause w case :
  cs_cases (w_store w) !! k = Some case → rc_case_id case = k → rc_correlation_id case = k →
  closed_status (rc_status case) = false →
  ∃ w', run env (_apply_decision k (Some cause)) w = (Ok tt, w') ∧
    decided_by k cause (case_ruling case (w_now w)) DECIDED case w w'.
Proof.
  intros Hk Hid Hq Hopen.
  destruct (run_apply_decision_framed k cause w case Hk Hid Hq Hopen) as (w' & Hr & Hd & _).
  by exists w'.
Qed.

Lemma run_apply_closed k cause w case :
  cs_cases (w_store w) !! k = Some case → closed_status (rc_status case) = true →
  run env (_apply_decision k (Some cause)) w = (Ok tt, set_store (w_store w) w).
Proof.
  intros Hk Hc. unfold _apply_decision. rewrite run_bind. cbn [run store_op].
  unfold claim_decision. by rewrite Hk, Hc.
Qed.

(** C12 (liveness): exactly-once decisions, the at-least half.  With a broker that
    acknowledges, deciding an open case publishes the decision the policy's
    truth table gives for the case, its audit record and its draft, chained by
    causation from the triggering event, and leaves the case DECIDED; deciding
    a closed case changes nothing. *)
Theorem decision_delivered k cause w case :
  cs_cases (w_store w) !! k = Some case → rc_case_id case = k → rc_correlation_id case = k →
  if closed_status (rc_status case)
  then run env (_apply_decision k (Some cause)) w = (Ok tt, w)
  else ∃ w', run env (_apply_decision k (Some cause)) w = (Ok tt, w') ∧
         decided_by k cause (case_ruling case (w_now w)) DECIDED case w w'.
Proof.
  intros Hk Hid Hq. destruct (closed_status (rc_status case)) eqn:Hc.
  - rewrite (run_apply_closed _ _ _ _ Hk Hc). by destruct w.
  - by apply run_apply_decision.
Qed.
End Runs.
