(* ===== verification/LlmFacts.v ===== *)
(** * What an assistive call can and cannot do

    Facts about [reason], for any provider, schema and broker: where its value can
    come from, how often it calls the provider, when it raises, and what its audit
    writers publish. *)

From Stdlib Require Import ZArith Bool Ascii String List Lia.
From stdpp Require Import base list strings gmap.
From S2P Require Import Prelude.
From S2P Require Import PyFloat.
From S2P Require Import Contracts.
From S2P Require Import Envelope.
From S2P Require Import Llm.
From S2P Require Import LlmConfig.
From S2P Require Import Prompts.
From S2P Require Import Async.
From S2P Require Import LlmRuntime.
From S2P Require Import Execution.

Open Scope string_scope.
Open Scope list_scope.
Open Scope Z_scope.
Open Scope prog_scope.

(** ** The cache *)

Lemma cached_app {D} key (l l' : list (string * D)) :
  cached key (l ++ l') = match cached key l with Some d => Some d | None => cached key l' end.
Proof.
  unfold cached. induction l as [|[k d] l IH]; [done|]. cbn. by destruct (String.eqb k key).
Qed.

Lemma cached_put {D} key (d : D) c :
  (0 < rs_maxsize c)%nat → cached key (rs_cache (results_put key d c)) = Some d.
Proof.
  intros Hn. unfold results_put, put_last. cbn [rs_cache].
  set (l := List.filter _ _).
  assert (Hl : cached key l = None).
  { unfold l, cached. generalize (rs_cache c). induction l0 as [|[k e] l0 IH]; [done|]. cbn.
    destruct (String.eqb k key) eqn:E; cbn; [done|]. by rewrite E. }
  assert (Hone : cached key [(key, d)] = Some d) by (unfold cached; cbn; by rewrite String.eqb_refl).
  destruct (Nat.ltb_spec (rs_maxsize c) (length (l ++ [(key, d)]))) as [Hlt|_].
  - destruct l as [|x l']; [cbn in Hlt; lia|]. cbn [app tail]. rewrite cached_app, Hone.
    change (x :: l') with ([x] ++ l') in Hl. rewrite cached_app in Hl.
    destruct (cached key [x]); [done|]. by rewrite Hl.
  - by rewrite cached_app, Hl, Hone.
Qed.

Section Facts.
Context `{Uuids} `{!Prompting} {V : Type} `{!Schema V}.
Context (publishing : bool) (redact_pii : bool) (profile : ModelProfile).
Context (env : Environment).

Abbreviation reasons := (reason publishing redact_pii profile).
Abbreviation emits := (_emit_audit publishing redact_pii profile).

(** ** The audit writers *)

Lemma outcome_unknown (r : AssistiveResult V) : AuditOutcome_of (reasoning_outcome r) = None.
Proof. unfold reasoning_outcome. by destruct (res_reasoning_path r), (res_failure_reason r). Qed.

Lemma run_emit_audit request result ref w :
  ∃ w', run env (emits request result ref) w = (Ok tt, w') ∧ w_log w' = w_log w ∧
        w_store w' = w_store w ∧ w_now w' = w_now w ∧ (publishing = false → w' = w).
Proof.
  unfold _emit_audit. rewrite run_bind. cbn [run now reads].
  destruct publishing; [|by exists w]. unfold write_reasoning_audit.
  rewrite run_catch, run_bind. cbn [run fresh_uuid]. rewrite run_bind, run_lift.
  destruct (mk_envelope _) as [original|err]; cbv beta iota; [|by eexists].
  cbn [lar_outcome build_audit_record]. rewrite outcome_unknown.
  rewrite run_bind, run_lift. cbv beta iota. by eexists.
Qed.

(** C23 (error): the reasoning audit is never written.  The outcomes of a reasoning
    record (produced, served_from_cache, fallback, unable_to_produce) are not among
    those [AuditPayload] accepts, so the writer's own validation fails and is
    swallowed; and the event types of the LLM invocation events have no version
    segment, so no envelope accepts them.  Whatever the result, the broker and the
    settings, neither writer publishes a record or raises. *)
Theorem reasoning_never_audited (request : AssistiveRequest V) (result : AssistiveResult V)
    ref recorded_at cfg prompt w :
  (∃ w', run env (write_reasoning_audit
                    (build_audit_record request result profile ref redact_pii recorded_at)) w = (Ok tt, w') ∧
         w_log w' = w_log w) ∧
  (∃ w', run env (emit_llm_invocation_event cfg request result prompt) w = (Ok tt, w') ∧
         w_log w' = w_log w).
Proof.
  split.
  - unfold write_reasoning_audit. rewrite run_catch, run_bind. cbn [run fresh_uuid].
    rewrite run_bind, run_lift.
    destruct (mk_envelope _) as [original|err]; cbv beta iota; [|(eexists; split; reflexivity)].
    cbn [lar_outcome build_audit_record].
    rewrite outcome_unknown, run_bind, run_lift. cbv beta iota. (eexists; split; reflexivity).
  - unfold emit_llm_invocation_event.
    destruct (lae_events_enabled cfg); cbn [negb]; [|(eexists; split; reflexivity)].
    rewrite run_bind. cbn [run now reads].
    assert (Hbad : ∀ et : string, _EVENT_TYPE_RE et = false → ∀ q cause agent t u (payload : EventPayload),
      ∃ e, mk_envelope {| env_event_id := u; env_correlation_id := q; env_causation_id := cause;
                          env_agent_id := agent; env_tenant_id := "default"; env_timestamp := t;
                          env_event_type := et; env_schema_version := "1.0.0";
                          env_payload := payload |} = Err e).
    { intros et Het q cause agent t u payload. unfold mk_envelope.
      cbn [env_event_type env_agent_id env_tenant_id]. rewrite Het.
      destruct (_AGENT_ID_RE agent), (_TENANT_ID_RE "default"); eexists; reflexivity. }
    destruct (is_failure result); rewrite run_catch, run_bind; cbn [run fresh_uuid];
      rewrite run_bind, run_lift;
      match goal with |- context [mk_envelope {| env_event_id := ?u; env_correlation_id := ?q;
        env_causation_id := ?cause; env_agent_id := ?agent; env_tenant_id := _; env_timestamp := ?t;
        env_event_type := ?et; env_schema_version := _; env_payload := ?payload |}] =>
        destruct (Hbad et eq_refl q cause agent t u payload) as [e ->] end;
      (eexists; split; reflexivity).
Qed.

(** ** The repair loop *)

(** The completion parses, and the schema accepts it as [v]. *)
Definition reads_as (raw : RawCompletion) (v : V) : Prop :=
  ∃ parsed, _parse_json (raw_text raw) = Ok parsed ∧ model_validate parsed = Ok v.

Definition unreadable (raw : RawCompletion) : Prop := ∀ v, ¬ reads_as raw v.

Definition grounded (grounding : list (string * pyval)) (v : V) : Prop :=
  grounding = [] ∨ _grounding_check v grounding = true.

Lemma judge_spec grounding raw v :
  judge_completion grounding (raw_text raw) = Ok (inl v) → reads_as raw v ∧ grounded grounding v.
Proof.
  unfold judge_completion, grounded, reads_as.
  destruct (_parse_json (raw_text raw)) as [parsed|[]] eqn:Ep; try done.
  destruct (model_validate parsed) as [u|] eqn:Ev; [|done].
  case_bool_decide; destruct (_grounding_check u grounding) eqn:Eg; cbn; intros [= <-];
    (split; [by exists parsed|auto]).
Qed.

Lemma judge_raises grounding raw e :
  judge_completion (V:=V) grounding (raw_text raw) = Err e →
  _parse_json (raw_text raw) = Err e ∧ ∀ m, e ≠ JSONDecodeError m.
Proof.
  unfold judge_completion. destruct (_parse_json (raw_text raw)) as [parsed|e'].
  { destruct (model_validate parsed); [|done]. by case_match. }
  destruct e'; try done; intros [= <-]; by split.
Qed.

Lemma validate_reads raw :
  match _validate_output (V:=V) (raw_text raw) with
  | Some v => reads_as raw v
  | None => unreadable raw
  end.
Proof.
  unfold _validate_output, unreadable, reads_as. destruct (_parse_json (raw_text raw)) as [parsed|].
  - destruct (model_validate parsed) as [v|] eqn:Ev; [by exists parsed|].
    intros v (p & [= <-] & Hp). congruence.
  - by intros v (p & Hp & _).
Qed.

(** The prompt of a repair, after these errors. *)
Abbreviation repair messages errors := (repair_prompt messages (model_json_schema (V:=V)) errors).

(** The repair loop raised [e]: the provider did not complete one of its calls, or a
    completion broke the parser otherwise than by not being JSON. *)
Inductive repair_raises (messages : string) (w : World) : exn → Prop :=
| repair_incomplete errors o :
    env _ (Invoke (repair messages errors)) w = o → (∀ raw, o ≠ Completed raw) →
    repair_raises messages w (invoke_error o)
| repair_unparsed errors raw e :
    env _ (Invoke (repair messages errors)) w = Completed raw →
    _parse_json (raw_text raw) = Err e → (∀ m, e ≠ JSONDecodeError m) →
    repair_raises messages w e.

(** [v] is the answer to a repair prompt, after fewer than [n] errors. *)
Definition repaired (messages : string) (grounding : list (string * pyval)) (n : nat) (w : World)
    (v : V) : Prop :=
  ∃ errors raw, (length errors < n)%nat ∧
    env _ (Invoke (repair messages errors)) w = Completed raw ∧ reads_as raw v ∧ grounded grounding v.

Lemma run_structured messages grounding n attempts errors w :
  length errors = attempts →
  ∃ r, run env (structured_loop (V:=V) messages grounding n attempts errors) w = (r, w) ∧
  match r with
  | Ok (StructuredOk v) => repaired messages grounding (attempts + n) w v
  | Ok (StructuredFailed k errors') => k = (attempts + n)%nat
  | Err e => repair_raises messages w e
  end.
Proof.
  revert attempts errors. induction n as [|n IH]; intros attempts errors Hlen.
  { eexists. split; [reflexivity|]. by rewrite Nat.add_0_r. }
  cbn [structured_loop run effect].
  destruct (env _ (Invoke (repair messages errors)) w) as [raw| | | |] eqn:Eo;
    try (eexists; split; [reflexivity|]; by eapply repair_incomplete).
  destruct (judge_completion grounding (raw_text raw)) as [[v|message]|e] eqn:Ej.
  - eexists. split; [reflexivity|]. destruct (judge_spec _ _ _ Ej) as [H1 H2].
    exists errors, raw. split_and!; [lia|done..].
  - destruct (IH (S attempts) (errors ++ [message])) as (r & Hr & Hs).
    { rewrite length_app. cbn. lia. }
    exists r. split; [exact Hr|]. by rewrite <- Nat.add_succ_comm.
  - eexists. split; [reflexivity|]. destruct (judge_raises _ _ _ Ej). by eapply repair_unparsed.
Qed.

(** ** Where a value comes from *)

Abbreviation attempts := (Z.to_nat (1 + mp_max_repairs profile)).

(** The value is what the provider answered: its first completion reads as it; or that is
    unreadable, and the answer to one of the repair prompts reads as it and is grounded. *)
Inductive answered_with (request : AssistiveRequest V) (w : World) (v : V) : Prop :=
| first_answer raw :
    env _ (Invoke (_render_prompt request)) w = Completed raw → reads_as raw v →
    answered_with request w v
| repaired_answer raw :
    env _ (Invoke (_render_prompt request)) w = Completed raw → unreadable raw →
    repaired (_render_prompt request) (ar_grounding_inputs request) attempts w v →
    answered_with request w v.

(** There is no value of the provider, for this reason. *)
Inductive unanswered (request : AssistiveRequest V) (w : World) : FailureReason → Prop :=
| not_completed o :
    env _ (Invoke (_render_prompt request)) w = o → (∀ raw, o ≠ Completed raw) →
    unanswered request w (failure_of o)
| not_repaired raw :
    env _ (Invoke (_render_prompt request)) w = Completed raw → unreadable raw →
    unanswered request w invalid_output.

(** The result of a call that was not served from the cache. *)
Inductive provenance (request : AssistiveRequest V) (w : World)
    (store store' : AssistiveResultStore V) : AssistiveResult V → Prop :=
| from_model r v :
    answered_with request w v → res_value r = Instance_ v → res_reasoning_path r = path_model →
    res_failure_reason r = None →
    store' = results_put (ar_idempotency_key request) (dump_result r) store →
    provenance request w store store' r
| from_fallback r v reason :
    unanswered request w reason →
    ar_fallback request = Ok v → res_value r = Instance_ v →
    res_reasoning_path r = path_fallback → res_failure_reason r = Some reason →
    store' = store → provenance request w store store' r.

Lemma run_fallback request start reason ref w :
  ∃ w', w_log w' = w_log w ∧ w_store w' = w_store w ∧ (publishing = false → w' = w) ∧
  match ar_fallback request with
  | Ok v => ∃ r, run env (_fallback publishing redact_pii profile request start reason ref) w = (Ok r, w') ∧
      res_value r = Instance_ v ∧ res_reasoning_path r = path_fallback ∧
      res_failure_reason r = Some reason
  | Err e => run env (_fallback publishing redact_pii profile request start reason ref) w = (Err e, w')
  end.
Proof.
  unfold _fallback. rewrite run_bind, run_lift. destruct (ar_fallback request) as [v|e].
  2: { by exists w. }
  rewrite run_bind. cbn [run now reads]. rewrite run_bind.
  match goal with |- context [emits request ?res] =>
    destruct (run_emit_audit request res ref w) as (w' & -> & Hl & Hs & _ & Hw) end.
  exists w'. split_and!; [done..|]. by eexists.
Qed.

Lemma run_finish request start ref raw v store w :
  ∃ w' r, run env (finish publishing redact_pii profile request start ref raw v store) w =
    (Ok (r, results_put (ar_idempotency_key request) (dump_result r) store), w') ∧
    w_log w' = w_log w ∧ w_store w' = w_store w ∧ (publishing = false → w' = w) ∧
    res_value r = Instance_ v ∧ res_reasoning_path r = path_model ∧ res_failure_reason r = None.
Proof.
  unfold finish. rewrite run_bind. cbn [run now reads]. rewrite run_bind.
  match goal with |- context [emits request ?res] =>
    destruct (run_emit_audit request res ref w) as (w' & -> & Hl & Hs & _ & Hw) end.
  eexists w', _. split; [reflexivity|]. by split_and!.
Qed.

(** The call's outcome after a cache miss. *)
Definition outcome_ok (request : AssistiveRequest V) (w : World) (store : AssistiveResultStore V)
    (o : result (AssistiveResult V * AssistiveResultStore V)) : Prop :=
  match o with
  | Ok (r, store') => provenance request w store store' r
  | Err e => (ar_fallback request = Err e ∧ ∃ reason, unanswered request w reason) ∨
      (∃ raw, env _ (Invoke (_render_prompt request)) w = Completed raw ∧ unreadable raw) ∧
      repair_raises (_render_prompt request) w e
  end.

Lemma fallback_ok request start reason ref store w :
  unanswered request w reason →
  ∃ o w', run env (let! r := _fallback publishing redact_pii profile request start reason ref in
                   Ret (r, store)) w = (o, w') ∧
    w_log w' = w_log w ∧ w_store w' = w_store w ∧ (publishing = false → w' = w) ∧
    outcome_ok request w store o.
Proof.
  intros Hu. destruct (run_fallback request start reason ref w) as (w' & Hl & Hs & Hw & Hr).
  rewrite run_bind. destruct (ar_fallback request) as [v|e] eqn:Ef.
  - destruct Hr as (r & -> & H1 & H2 & H3). eexists _, w'. split; [reflexivity|].
    split_and!; [done..|]. by eapply from_fallback.
  - rewrite Hr. eexists _, w'. split; [reflexivity|]. split_and!; [done..|]. left. eauto.
Qed.

Lemma finish_ok request start ref raw v store w :
  answered_with request w v →
  ∃ o w', run env (finish publishing redact_pii profile request start ref raw v store) w = (o, w') ∧
    w_log w' = w_log w ∧ w_store w' = w_store w ∧ (publishing = false → w' = w) ∧
    outcome_ok request w store o.
Proof.
  intros Hv. destruct (run_finish request start ref raw v store w)
    as (w' & r & Hr & Hl & Hs & Hw & H1 & H2 & H3).
  eexists _, w'. split_and!; [exact Hr|done..|]. by eapply from_model.
Qed.

Lemma run_reason_miss request store w :
  cached (ar_idempotency_key request) (rs_cache store) = None →
  ∃ o w', run env (reasons request store) w = (o, w') ∧
    w_log w' = w_log w ∧ w_store w' = w_store w ∧ (publishing = false → w' = w) ∧
    outcome_ok request w store o.
Proof.
  intros Hmiss. unfold reason. rewrite run_bind. cbn [run now reads].
  unfold results_get. rewrite Hmiss. cbn [run effect].
  destruct (env _ (Invoke (_render_prompt request)) w) as [raw| | | |] eqn:Eo;
    try (apply fallback_ok; by eapply not_completed).
  unfold settle_completion. pose proof (validate_reads raw) as Hv.
  destruct (_validate_output (raw_text raw)) as [v|].
  { apply finish_ok. by eapply first_answer. }
  rewrite run_bind.
  destruct (run_structured (_render_prompt request) (ar_grounding_inputs request) attempts 0 [] w
              eq_refl) as (r & Hr & Hspec).
  unfold invoke_structured. rewrite Hr. destruct r as [[v|k errs]|e]; cbv beta iota.
  - apply finish_ok. by eapply repaired_answer.
  - apply fallback_ok. by eapply not_repaired.
  - eexists _, w. split_and!; [done..|]. right. split; [by exists raw|done].
Qed.


(** Remark (error): a provider that is down does not fail the call.  When the first
    invocation times out or raises, whatever it raises, the call returns the
    fallback's value, with the reason of the failure. *)
Theorem provider_failure_falls_back request store w v :
  cached (ar_idempotency_key request) (rs_cache store) = None →
  ar_fallback request = Ok v →
  (∀ raw, env _ (Invoke (_render_prompt request)) w ≠ Completed raw) →
  ∃ r w', run env (reasons request store) w = (Ok (r, store), w') ∧
    res_value r = Instance_ v ∧ res_reasoning_path r = path_fallback ∧
    res_failure_reason r = Some (failure_of (env _ (Invoke (_render_prompt request)) w)).
Proof.
  intros Hmiss Hv Hdown. unfold reason. rewrite run_bind. cbn [run now reads].
  unfold results_get. rewrite Hmiss. cbn [run effect].
  destruct (run_fallback request (w_now w) (failure_of (env _ (Invoke (_render_prompt request)) w))
              (_compute_prompt_ref (ar_task_kind request) (_render_prompt request)) w)
    as (w' & _ & _ & _ & Hr). rewrite Hv in Hr. destruct Hr as (r & Hr & H1 & H2 & H3).
  exists r, w'. split; [|done].
  destruct (env _ (Invoke (_render_prompt request)) w) as [raw| | | |]; [by destruct (Hdown raw)|..];
    by rewrite run_bind, Hr.
Qed.

(** Remark (error): a first answer is not checked against the grounding.  A completion
    that parses and validates becomes the value even when it asserts figures that
    are nowhere in the grounding inputs; the repair loop would refuse it. *)
Theorem first_answer_unchecked request store w raw v :
  cached (ar_idempotency_key request) (rs_cache store) = None →
  env _ (Invoke (_render_prompt request)) w = Completed raw →
  _validate_output (raw_text raw) = Some v →
  _grounding_check v (ar_grounding_inputs request) = false →
  ar_grounding_inputs request ≠ [] →
  (∃ r st w', run env (reasons request store) w = (Ok (r, st), w') ∧
     res_value r = Instance_ v ∧ res_reasoning_path r = path_model) ∧
  ∃ message, judge_completion (V:=V) (ar_grounding_inputs request) (raw_text raw) = Ok (inr message).
Proof.
  intros Hmiss Hraw Hv Hg Hne. split.
  - unfold reason. rewrite run_bind. cbn [run now reads].
    unfold results_get. rewrite Hmiss. cbn [run effect]. rewrite Hraw.
    unfold settle_completion. rewrite Hv.
    destruct (run_finish request (w_now w)
                (_compute_prompt_ref (ar_task_kind request) (_render_prompt request)) raw v store w) as (w' & r & -> & _ & _ & _ & H1 & H2 & _).
    by eexists r, _, w'.
  - unfold _validate_output in Hv. unfold judge_completion.
    destruct (_parse_json (raw_text raw)) as [parsed|]; [|done].
    destruct (model_validate parsed) as [u|]; [|done]. simplify_eq.
    rewrite bool_decide_eq_false_2 by done. rewrite Hg. by eexists.
Qed.

(** Remark (roundtrip): what the cache gives back.  After a call that reached the
    model, the next call with the same key is served from the cache without a
    provider call; the value it gets is not the schema's instance any more but the
    plain data it dumps to. *)
Theorem cached_value_is_plain request store w r store' w1 v :
  (0 < rs_maxsize store)%nat →
  run env (reasons request store) w = (Ok (r, store'), w1) →
  cached (ar_idempotency_key request) (rs_cache store) = None →
  res_reasoning_path r = path_model → res_value r = Instance_ v →
  ∃ r2 store2 w2, run env (reasons request store') w1 = (Ok (r2, store2), w2) ∧
    res_reasoning_path r2 = path_cache ∧ res_value r2 = Plain (VDict (model_dump v)).
Proof.
  intros Hn Hrun Hmiss Hpath Hval.
  destruct (run_reason_miss request store w Hmiss) as (o & w' & Hr & _ & _ & _ & Ho).
  rewrite Hrun in Hr. injection Hr as <- <-. cbn in Ho. inversion Ho; [|congruence]. subst.
  unfold reason. rewrite run_bind. cbn [run now reads]. unfold results_get.
  rewrite cached_put by done. rewrite run_bind. cbn [run now reads]. rewrite run_bind.
  match goal with |- context [emits request ?res] =>
    destruct (run_emit_audit request res "" w1) as (w2 & -> & _) end.
  eexists _, _, w2. split; [reflexivity|]. split; [done|]. cbn. by rewrite Hval.
Qed.
End Facts.

(** ** How often the provider is called *)

Section Bound.
Context `{Uuids} `{!Prompting} {V : Type} `{!Schema V}.
Context (publishing : bool) (redact_pii : bool) (profile : ModelProfile).

Definition is_invoke {R} (q : Query R) : bool := match q with Invoke _ => true | _ => false end.

(** No run of [p] invokes the provider more than [n] times. *)
Fixpoint invokes_at_most {A} (n : nat) (p : prog A) : Prop :=
  match p with
  | Ret _ | Raise _ => True
  | Do f k => ∀ w, invokes_at_most n (k (fst (f w)))
  | Await q k =>
      (Nat.b2n (is_invoke q) <= n)%nat ∧ ∀ r, invokes_at_most (n - Nat.b2n (is_invoke q)) (k r)
  end.

Lemma invokes_mono {A} n m (p : prog A) : (n <= m)%nat → invokes_at_most n p → invokes_at_most m p.
Proof.
  revert n m. induction p as [a|e|B f k IH|R q k IH]; intros n m Hnm; cbn; [done|done| |].
  - intros Hk w. eapply IH; [exact Hnm|apply Hk].
  - intros [Hq Hk]. split; [lia|]. intros r. eapply IH; [|apply Hk]. lia.
Qed.

Lemma invokes_bind {A B} n m (p : prog A) (g : A → prog B) :
  invokes_at_most n p → (∀ a, invokes_at_most m (g a)) → invokes_at_most (n + m) (bind p g).
Proof.
  revert n. induction p as [a|e|T f k IH|R q k IH]; intros n; cbn; [|done| |].
  - intros _ Hg. eapply invokes_mono; [|apply Hg]. lia.
  - intros Hk Hg w. by apply IH.
  - intros [Hq Hk] Hg. split; [lia|]. intros r.
    replace (n + m - Nat.b2n (is_invoke q))%nat with (n - Nat.b2n (is_invoke q) + m)%nat by lia.
    by apply IH.
Qed.

Lemma invokes_catch {A} n m (p : prog A) h :
  invokes_at_most n p → (∀ e, invokes_at_most m (h e)) → invokes_at_most (n + m) (catch p h).
Proof.
  revert n. induction p as [a|e|T f k IH|R q k IH]; intros n; cbn; [done| | |].
  - intros _ Hg. eapply invokes_mono; [|apply Hg]. lia.
  - intros Hk Hg w. by apply IH.
  - intros [Hq Hk] Hg. split; [lia|]. intros r.
    replace (n + m - Nat.b2n (is_invoke q))%nat with (n - Nat.b2n (is_invoke q) + m)%nat by lia.
    by apply IH.
Qed.

(** Programs without an invocation. *)
Abbreviation quiet p := (invokes_at_most 0 p).

Lemma quiet_bind {A B} n (p : prog A) (g : A → prog B) :
  quiet p → (∀ a, invokes_at_most n (g a)) → invokes_at_most n (bind p g).
Proof. apply (invokes_bind 0). Qed.

Lemma quiet_lift {A} (r : result A) : quiet (lift r).
Proof. by destruct r. Qed.

Lemma quiet_emit request result ref :
  quiet (_emit_audit publishing redact_pii profile request result ref).
Proof.
  unfold _emit_audit, write_reasoning_audit. apply quiet_bind; [done|]. intros t.
  destruct publishing; [|done]. apply (invokes_catch 0 0); [|done].
  apply quiet_bind; [done|]. intros inner.
  apply quiet_bind; [apply quiet_lift|]. intros original.
  apply quiet_bind; [apply quiet_lift|]. intros payload. apply quiet_bind; [done|]. intros id.
  apply quiet_bind; [apply quiet_lift|]. intros envelope. split; [done|]. by intros [].
Qed.

Lemma quiet_fallback request start reason ref :
  quiet (_fallback publishing redact_pii profile request start reason ref).
Proof.
  unfold _fallback. apply quiet_bind; [apply quiet_lift|]. intros v.
  apply quiet_bind; [done|]. intros t. apply quiet_bind; [apply quiet_emit|done].
Qed.

Lemma quiet_finish request start ref raw v store :
  quiet (finish publishing redact_pii profile request start ref raw v store).
Proof.
  unfold finish. apply quiet_bind; [done|]. intros t. by apply quiet_bind; [apply quiet_emit|].
Qed.

Lemma structured_invokes messages grounding n attempts errors :
  invokes_at_most n (structured_loop (V:=V) messages grounding n attempts errors).
Proof.
  revert attempts errors. induction n as [|n IH]; intros attempts errors; [done|].
  cbn. split; [lia|]. intros [raw| | | |]; try done. rewrite Nat.sub_0_r.
  destruct (judge_completion grounding (raw_text raw)) as [[|]|]; [done|apply IH|done].
Qed.

(** C22 (bounds): a call makes at most two provider invocations plus the profile's
    repairs: the first, the repeated first of the repair loop, and [max_repairs]
    repairs; a negative setting counts as one invocation only. *)
Theorem provider_calls_bounded request store :
  invokes_at_most (1 + Z.to_nat (1 + mp_max_repairs profile))
    (reason publishing redact_pii profile request store).
Proof.
  unfold reason. apply quiet_bind; [done|]. intros start.
  destruct (results_get _ store) as [[data|] store'].
  - apply quiet_bind; [done|]. intros t. by apply quiet_bind; [apply quiet_emit|].
  - split; [cbn; lia|]. intros o. cbn [is_invoke Nat.b2n]. rewrite Nat.add_comm, Nat.add_sub.
    assert (Hfb : ∀ n reason s ref, invokes_at_most n
      (let! r := _fallback publishing redact_pii profile request s reason ref in Ret (r, store'))).
    { intros n reason s ref. apply quiet_bind; [apply quiet_fallback|done]. }
    destruct o as [raw| | | |]; try apply Hfb. unfold settle_completion.
    destruct (_validate_output (raw_text raw)) as [v|].
    + eapply invokes_mono; [|apply quiet_finish]. lia.
    + rewrite <- (Nat.add_0_r (Z.to_nat _)). apply invokes_bind; [apply structured_invokes|].
      intros [v|]; [apply quiet_finish|apply Hfb].
Qed.
End Bound.
