(* ===== verification/Providers.v ===== *)
(** * The model providers

    [src/agent_foundation/llm/providers/]: the stub, Bedrock and AgentCore, the choice
    between them ([providers/__init__.py]) and the runtime built on it ([llm/factory.py]);
    and [AgentLLM] of [llm/client.py] on the Bedrock client.

    A provider answers [Invoke] in the coroutine model: [with_provider] is an environment
    whose LLM is the given provider, so that [reason] runs on the code's own default
    provider, the stub.  boto3 and its client are parameters. *)

From Stdlib Require Import ZArith Bool Ascii String List Lia.
From stdpp Require Import base list strings.
From S2P Require Import Prelude.
From S2P Require Import PyFloat.
From S2P Require Import Contracts.
From S2P Require Import Uuid.
From S2P Require Import PyNumber.
From S2P Require Import Llm.
From S2P Require Import LlmConfig.
From S2P Require Import LlmTools.
From S2P Require Import Prompts.
From S2P Require Import Async.
From S2P Require Import LlmRuntime.
From S2P Require Import Execution.
From S2P Require Import LlmFacts.

Open Scope string_scope.
Open Scope list_scope.
Open Scope Z_scope.
Open Scope prog_scope.

#[local] Set Default Proof Using "Type".

(** ** The stub *)

(** [\s*(?:END_SCHEMA|$)] *)
Definition at_schema_end (s : string) : bool :=
  String.prefix "END_SCHEMA" (py_lstrip s) || String.eqb (py_lstrip s) "".

(** [.*?\}] up to the schema's end: the shortest text. *)
Fixpoint upto_close (s : string) : option string :=
  match s with
  | EmptyString => None
  | String c s' =>
      if Ascii.eqb c "}" && at_schema_end s' then Some "}"
      else rest ← upto_close s'; Some (String c rest)
  end.

Definition schema_here (s : string) : option string :=
  match py_lstrip s with
  | String c s' => if Ascii.eqb c "{" then String c <$> upto_close s' else None
  | EmptyString => None
  end.

(** [re.search(r"OUTPUT_SCHEMA:\s*(\{.*?\})\s*(?:END_SCHEMA|$)", prompt, re.DOTALL)]: the
    group of the leftmost match. *)
Fixpoint find_schema (s : string) : option string :=
  match (if String.prefix "OUTPUT_SCHEMA:" s then schema_here (str_drop 14 s) else None) with
  | Some g => Some g
  | None => match s with EmptyString => None | String _ s' => find_schema s' end
  end.

Section Stub.
Context `{Json}.

(** [_extract_schema_hint] *)
Definition _extract_schema_hint (prompt : string) : option pyval :=
  match find_schema prompt with
  | Some g => match json_loads g with Ok parsed => Some parsed | Err _ => None end
  | None => None
  end.

(** [int(text, 16)] *)
Definition digest_int (text : string) : result Z :=
  match int_16 text with
  | Some z => Ok z
  | None => Err (ValueError ("invalid literal for int() with base 16: " +:+ py_repr_str text))
  end.

(** [values[idx]] with [idx = n % len(values)]; what cannot be indexed so raises. *)
Definition pick (values : pyval) (n : Z) : result pyval :=
  match values with
  | VList [] => Err (ValueError "integer modulo by zero")
  | VList l => Ok (nth (Z.to_nat (n mod Z.of_nat (length l))) l VNone)
  | v => Err (AttributeError ("'" +:+ py_type_name v +:+ "' object is no list of values"))
  end.

(** [_generate_field] *)
Definition _generate_field (name : string) (info : pyval) (digest : string) : result pyval :=
  let text := VStr ("stub-" +:+ name +:+ "-" +:+ py_take 8 digest) in
  field_type ← py_get info "type" (VStr "string");
  let of_type t := match field_type with VStr s => String.eqb s t | _ => false end in
  match info with
  | VDict d =>
      match items_get "enum" d with
      | Some values => n ← digest_int (py_take 4 digest); pick values n
      | None =>
          if of_type "string" then Ok text
          else if of_type "number" || of_type "integer"
          then n ← digest_int (py_take 4 digest); Ok (VInt (n mod 100))
          else if of_type "boolean"
          then n ← digest_int (py_take 1 digest); Ok (VBool (Z.eqb (n mod 2) 0))
          else if of_type "array" then Ok (VList [VStr ("stub-item-" +:+ py_take 6 digest)])
          else Ok text
      end
  | _ => Ok text
  end.

(** The fields of the answer, in the order of the schema's properties. *)
Fixpoint fill_fields (properties : items) (digest : string) : result items :=
  match properties with
  | [] => Ok []
  | (name, info) :: rest =>
      v ← _generate_field name info digest;
      fields ← fill_fields rest digest;
      Ok ((name, v) :: fields)
  end.

(** [_fill_schema] *)
Definition _fill_schema (schema : pyval) (digest : string) : result string :=
  properties ← py_get schema "properties" (VDict []);
  if negb (py_truthy properties)
  then Ok (json_dumps (VDict [("text", VStr ("stub-" +:+ py_take 8 digest))]))
  else
    match properties with
    | VDict l => fields ← fill_fields l digest; Ok (json_dumps (VDict fields))
    | v => Err (AttributeError ("'" +:+ py_type_name v +:+ "' object has no attribute 'items'"))
    end.

(** [_generate_from_schema] *)
Definition _generate_from_schema (prompt digest : string) : result string :=
  match _extract_schema_hint prompt with
  | Some schema =>
      if py_truthy schema then _fill_schema schema digest
      else Ok (json_dumps (VDict [("text", VStr ("stub-response-" +:+ py_take 8 digest))]))
  | None => Ok (json_dumps (VDict [("text", VStr ("stub-response-" +:+ py_take 8 digest))]))
  end.

(** The completion of a text. *)
Definition stub_completion (prompt output : string) : RawCompletion := {|
  raw_text := output;
  raw_token_usage := {| tu_input_tokens := Z.of_nat (py_len prompt) / 4;
                        tu_output_tokens := Z.of_nat (py_len output) / 4;
                        tu_cache_read_tokens := 0; tu_cache_write_tokens := 0 |};
  raw_cache_hit := false; raw_model_id := "stub" |}.

(** [StubProvider.invoke]; the profile is ignored. *)
Definition stub_invoke (prompt : string) : InvokeOutcome :=
  match _generate_from_schema prompt (sha256_hex prompt) with
  | Ok output => Completed (stub_completion prompt output)
  | Err e => OtherError (exn_str e)
  end.
End Stub.

(** ** Bedrock *)

(** An exception of boto3: its class as far as the code looks at it, and its text. *)
Inductive AwsErrorKind := NoCredentialsError | ProfileNotFound | NoRegionError | OtherAwsError.

Record AwsError := {
  aws_kind : AwsErrorKind;
  aws_msg : string;
}.

(** What [provider.invoke] raises: [ProviderCredentialsError] is a [ProviderError]. *)
Inductive ProviderExn :=
| RaisedCredentials (msg : string)
| RaisedProvider (msg : string)
| RaisedOther (msg : string).

(** The class and the text of an exception as [reason] sees them. *)
Definition invoke_outcome (r : RawCompletion + ProviderExn) : InvokeOutcome :=
  match r with
  | inl raw => Completed raw
  | inr (RaisedCredentials msg) | inr (RaisedProvider msg) => ProviderError msg
  | inr (RaisedOther msg) => OtherError msg
  end.

(** [_check_credentials_error]: what it raises, if anything. *)
Definition _check_credentials_error (exc : AwsError) : option ProviderExn :=
  match aws_kind exc with
  | NoCredentialsError =>
      Some (RaisedCredentials ("AWS credentials not found. Configure with: aws configure, " +:+
              "or set AWS_PROFILE / AWS_ACCESS_KEY_ID + AWS_SECRET_ACCESS_KEY"))
  | ProfileNotFound =>
      Some (RaisedCredentials ("AWS profile not found: " +:+ aws_msg exc +:+
              ". Run: aws configure --profile <name>"))
  | NoRegionError =>
      Some (RaisedCredentials "AWS region not set. Set AWS_REGION or AGENT_LLM_REGION")
  | OtherAwsError => None
  end.

(** The object [create_bedrock_client] reads its settings from. *)
Inductive ClientConfig :=
| NoConfig
| FromModelConfig (c : BedrockModelConfig)
| FromProfile (p : ModelProfile).

(** A client: its region, its two timeouts and its attempts. *)
Record BedrockClient := {
  client_region_name : string;
  client_connect_timeout : Z;
  client_read_timeout : Z;
  client_max_attempts : Z;
}.

(** The attributes with their defaults; [int(timeout)] of a float may raise. *)
Definition config_region (config : ClientConfig) : string :=
  match config with
  | NoConfig => "us-east-1"
  | FromModelConfig c => if str_truthy (bc_region c) then bc_region c else "us-east-1"
  | FromProfile p =>
      match mp_region p with
      | Some r => if str_truthy r then r else "us-east-1"
      | None => "us-east-1"
      end
  end.

Definition config_timeout (config : ClientConfig) : result Z :=
  match config with
  | NoConfig => Ok 30
  | FromModelConfig c => Ok (bc_timeout_seconds c)
  | FromProfile p => py_int (VFloat (mp_timeout_seconds p))
  end.

Definition config_attempts (config : ClientConfig) : Z :=
  match config with FromModelConfig c => bc_retry_max_attempts c | _ => 3 end.

Section Bedrock.
Context `{Json} `{Fields}.
(** boto3: not installed, or what [boto3.client] does with the settings. *)
Variable boto3 : option (BedrockClient → option AwsError).
(** [client.invoke_model(modelId, body)] at a time, and the reading of its body. *)
Variable invoke_model : World → BedrockClient → string → string → result string + AwsError.

Definition create_bedrock_client (config : ClientConfig) : BedrockClient + ProviderExn :=
  match boto3 with
  | None =>
      inr (RaisedProvider ("boto3 is required for the Bedrock provider. " +:+
                           "Install with: pip install -e '.[llm]'"))
  | Some client =>
      match config_timeout config with
      | Err e => inr (RaisedOther (exn_str e))
      | Ok seconds =>
          let settings := {|
            client_region_name := config_region config; client_connect_timeout := seconds;
            client_read_timeout := seconds; client_max_attempts := config_attempts config |} in
          match client settings with
          | None => inl settings
          | Some exc =>
              inr (default (RaisedProvider ("Failed to create Bedrock client: " +:+ aws_msg exc))
                     (_check_credentials_error exc))
          end
      end
  end.

(** [BedrockProvider]: its config and its client, made at the first call. *)
Record BedrockProvider := {
  bp_config : ClientConfig;
  bp_client : option BedrockClient;
}.

Definition new_bedrock (config : ClientConfig) : BedrockProvider :=
  {| bp_config := config; bp_client := None |}.

Definition _get_client (p : BedrockProvider) : (BedrockClient + ProviderExn) * BedrockProvider :=
  match bp_client p with
  | Some c => (inl c, p)
  | None =>
      match create_bedrock_client (bp_config p) with
      | inl c => (inl c, {| bp_config := bp_config p; bp_client := Some c |})
      | inr e => (inr e, p)
      end
  end.

(** The body of the request. *)
Definition request_body (prompt : string) (profile : ModelProfile) : pyval :=
  VDict [ ("anthropic_version", VStr "bedrock-2023-05-31");
          ("messages", VList [VDict [("role", VStr "user"); ("content", VStr prompt)]]);
          ("max_tokens", VInt (mp_max_tokens profile));
          ("temperature", VFloat (mp_temperature profile)) ].

(** The completion of an answer's body. *)
Definition read_completion (resp_body : pyval) (model_id : string) : result RawCompletion :=
  content ← py_get resp_body "content" (VList []);
  blocks ← py_iter content;
  parts ← text_parts blocks;
  usage ← py_get resp_body "usage" (VDict []);
  let count key := (v ← py_get usage key (VInt 0); int_value v) in
  input ← count "input_tokens";
  output ← count "output_tokens";
  read ← count "cache_read_input_tokens";
  written ← count "cache_creation_input_tokens";
  text ← join_parts 0 parts;
  model ← py_get resp_body "model" (VStr model_id);
  model ← str_value model;
  Ok {| raw_text := text;
        raw_token_usage := {| tu_input_tokens := input; tu_output_tokens := output;
                              tu_cache_read_tokens := read; tu_cache_write_tokens := written |};
        raw_cache_hit := Z.ltb 0 read; raw_model_id := model |}.

(** [BedrockProvider.invoke]: what is raised after the call itself is not a provider error. *)
Definition bedrock_invoke (w : World) (prompt : string) (profile : ModelProfile)
    (p : BedrockProvider) : (RawCompletion + ProviderExn) * BedrockProvider :=
  let '(client, p) := _get_client p in
  match client with
  | inr e => (inr e, p)
  | inl client =>
      match invoke_model w client (mp_model_id profile) (json_dumps (request_body prompt profile)) with
      | inr exc =>
          (inr (default (RaisedProvider ("Bedrock invocation failed: " +:+ aws_msg exc))
                  (_check_credentials_error exc)), p)
      | inl text =>
          match (text ← text; resp_body ← json_loads text; read_completion resp_body (mp_model_id profile)) with
          | Ok raw => (inl raw, p)
          | Err e => (inr (RaisedOther (exn_str e)), p)
          end
      end
  end.

(** ** AgentCore *)

(** [AgentCoreProvider]: its config and its Bedrock provider, made at the first call. *)
Record AgentCoreProvider := {
  ac_config : ClientConfig;
  ac_bedrock_provider : option BedrockProvider;
}.

Definition new_agentcore (config : ClientConfig) : AgentCoreProvider :=
  {| ac_config := config; ac_bedrock_provider := None |}.

Definition _get_bedrock_provider (p : AgentCoreProvider) : BedrockProvider :=
  default (new_bedrock (ac_config p)) (ac_bedrock_provider p).

Definition agentcore_invoke (w : World) (prompt : string) (profile : ModelProfile)
    (p : AgentCoreProvider) : (RawCompletion + ProviderExn) * AgentCoreProvider :=
  let '(r, provider) := bedrock_invoke w prompt profile (_get_bedrock_provider p) in
  (match r with
   | inr (RaisedOther msg) => inr (RaisedProvider ("AgentCore invocation failed: " +:+ msg))
   | r => r
   end, {| ac_config := ac_config p; ac_bedrock_provider := Some provider |}).
End Bedrock.

(** ** The choice of a provider *)

Inductive ModelProvider :=
| Stub
| Bedrock (p : BedrockProvider)
| AgentCore (p : AgentCoreProvider).

(** [select_provider]; the modules of the providers import neither boto3 nor AgentCore, so
    they can always be imported. *)
Definition select_provider (mode : string) : ModelProvider + ProviderExn :=
  if String.eqb mode "stub" then inl Stub
  else if String.eqb mode "bedrock" then inl (Bedrock (new_bedrock NoConfig))
  else if String.eqb mode "agentcore" then inl (AgentCore (new_agentcore NoConfig))
  else inr (RaisedProvider ("Unknown provider mode: " +:+ py_repr_str mode +:+
                            ". Use 'stub', 'bedrock', or 'agentcore'.")).

Definition LLMProvider_str (m : LLMProvider) : string :=
  match m with
  | provider_stub => "stub"
  | provider_bedrock => "bedrock"
  | provider_agentcore => "agentcore"
  end.

(** [LLMRuntime], as [build_runtime] makes it. *)
Record LLMRuntime (V : Type) := {
  llm_provider : ModelProvider;
  llm_store : AssistiveResultStore V;
  llm_config : RuntimeConfig;
  llm_publishing : bool;
}.
Arguments llm_provider {V}.
Arguments llm_store {V}.
Arguments llm_config {V}.
Arguments llm_publishing {V}.

(** [build_runtime(config, publisher=...)]; without a config the environment is read. *)
Definition build_runtime {V} (environ : string → option string) (config : option RuntimeConfig)
    (publishing : bool) : result (LLMRuntime V) :=
  cfg ← match config with Some c => Ok c | None => LlmConfig.from_env environ end;
  match select_provider (LLMProvider_str (cfg_mode cfg)) with
  | inr (RaisedCredentials msg) | inr (RaisedProvider msg) | inr (RaisedOther msg) => Err (IOError msg)
  | inl provider =>
      Ok {| llm_provider := provider; llm_store := new_store;
            llm_config := cfg; llm_publishing := publishing |}
  end.

(** ** [AgentLLM] on the client *)

(** [_build_request_body]; the messages are dicts. *)
Definition _build_request_body (messages : list pyval) (max_tokens : Z) (temperature : float)
    (top_p : option float) (system : option string) : pyval :=
  VDict ([ ("anthropic_version", VStr "bedrock-2023-05-31"); ("messages", VList messages);
           ("max_tokens", VInt max_tokens); ("temperature", VFloat temperature) ] ++
         match top_p with Some v => [("top_p", VFloat v)] | None => [] end ++
         match system with
         | Some s => if str_truthy s then [("system", VStr s)] else []
         | None => []
         end).

(** The last message of a structured call. *)
Definition schema_message `{Json} {V} `{!Schema V} : pyval :=
  VDict [ ("role", VStr "user");
          ("content", VStr ("Respond with valid JSON matching this schema:" +:+ newline +:+
                            json_dumps_indent (VDict (model_json_schema (V:=V))))) ].

Section AgentLLM.
Context `{Json} `{Fields}.
Variable boto3 : option (BedrockClient → option AwsError).
Variable invoke_model : World → BedrockClient → string → string → result string + AwsError.
Variable config : ClientConfig.
Variable profile : ModelProfile.

(** What the call to Bedrock gives. *)
Definition bedrock_outcome (w : World) (client : BedrockClient) (messages : list pyval) : BedrockOutcome :=
  let body := _build_request_body messages (mp_max_tokens profile) (mp_temperature profile) None None in
  match invoke_model w client (mp_model_id profile) (json_dumps body) with
  | inr exc => InvocationRaised (aws_msg exc)
  | inl text =>
      match (text ← text; json_loads text) with
      | Ok body => Body body
      | Err e => BodyBroken (exn_str e)
      end
  end.

(** [AgentLLM.invoke], with a profile: making the client may raise a provider's error, as only
    an [ImportError] becomes an [LLMClientError] there, and [create_bedrock_client] turns
    its own into a [ProviderError]. *)
Definition agent_llm_invoke (w : World) (messages : list pyval) (metadata : option items)
    (latency_ms : Z) : result LLMResponse + ProviderExn :=
  match create_bedrock_client boto3 config with
  | inr e => inr e
  | inl client => inl (client_invoke metadata (bedrock_outcome w client messages) latency_ms)
  end.

Definition agent_llm_invoke_structured {V} `{!Schema V} (w : World) (messages : list pyval)
    (metadata : option items) (latency_ms : Z) : result (StructuredLLMResponse V) + ProviderExn :=
  let structured_messages := messages ++ [schema_message (V:=V)] in
  match create_bedrock_client boto3 config with
  | inr e => inr e
  | inl client =>
      inl (client_invoke_structured metadata (bedrock_outcome w client structured_messages) latency_ms)
  end.
End AgentLLM.

(** ** The stub finds the schema in the prompt *)

Lemma prefix_more p a r : String.prefix p a = true → String.prefix p (a +:+ r) = true.
Proof.
  revert a. induction p as [|c p IH]; intros [|d a]; cbn; try done.
  - intros _. by destruct r.
  - change (String d a +:+ r) with (String d (a +:+ r)). cbn. destruct (ascii_dec c d); [apply IH|done].
Qed.

Lemma contains_cons sub c s :
  py_contains sub (String c s) = false → String.prefix sub (String c s) = false ∧ py_contains sub s = false.
Proof. cbn. by rewrite orb_false_iff. Qed.

Lemma prefix_contains sub s : String.prefix sub s = true → py_contains sub s = true.
Proof. intros H. destruct s; cbn in *; by rewrite H. Qed.

(** Stripping stops at [x]; what it leaves contains nothing new. *)
Lemma lstrip_stops b x rest :
  is_space x = false →
  ∃ b', py_lstrip (b +:+ String x rest) = b' +:+ String x rest ∧
    ∀ sub r, py_contains sub (b +:+ r) = false → py_contains sub (b' +:+ r) = false.
Proof.
  intros Hx. induction b as [|c b (b' & Hb & Hc)].
  - exists "". split; [|done]. change ("" +:+ String x rest) with (String x rest). cbn. by rewrite Hx.
  - change (String c b +:+ String x rest) with (String c (b +:+ String x rest)). cbn [py_lstrip].
    destruct (is_space c).
    + exists b'. split; [exact Hb|]. intros sub r Hr. apply Hc. by apply contains_cons in Hr as [_ ?].
    + exists (String c b). by split.
Qed.

Lemma inside_no_end b rest :
  py_contains "END_SCHEMA" (b +:+ "}") = false → at_schema_end (b +:+ String "}" rest) = false.
Proof.
  intros Hno. destruct (lstrip_stops b "}" rest eq_refl) as (b' & Hb & Hc). unfold at_schema_end.
  rewrite Hb. apply orb_false_iff. split; [|by destruct b'].
  apply not_true_iff_false. intros Hp. apply prefix_break in Hp; [|cbn; repeat split; discriminate].
  pose proof (prefix_contains _ _ (prefix_more _ _ "}" Hp)) as Hin. by rewrite (Hc _ _ Hno) in Hin.
Qed.

Lemma upto_close_object body rest :
  py_contains "END_SCHEMA" (body +:+ "}") = false →
  upto_close (body +:+ String "}" (newline +:+ "END_SCHEMA" +:+ rest)) = Some (body +:+ "}").
Proof.
  induction body as [|c b IH].
  { intros _. change ("" +:+ ?x) with x. cbn [upto_close]. unfold at_schema_end.
    change (py_lstrip _) with ("END_SCHEMA" +:+ rest). by rewrite prefix_app. }
  intros Hno.
  change (String c b +:+ ?x) with (String c (b +:+ x)) in *. apply contains_cons in Hno as [_ Hno].
  cbn [upto_close]. rewrite (inside_no_end b _ Hno), andb_false_r. by rewrite (IH Hno).
Qed.

Lemma find_schema_skip a rest :
  py_contains "OUTPUT_SCHEMA:" a = false →
  find_schema (a +:+ String "010" rest) = find_schema rest.
Proof.
  induction a as [|c a IH]; [reflexivity|]. intros [Hp Ha]%contains_cons.
  change (String c a +:+ String "010" rest) with (String c (a +:+ String "010" rest)).
  cbn [find_schema]. destruct (String.prefix _ (String c (a +:+ _))) eqn:E; [|by apply IH].
  change (String c (a +:+ String "010" rest)) with (String c a +:+ String "010" rest) in E.
  apply prefix_break in E; [congruence|]. cbn. repeat split; discriminate.
Qed.

(** The text of a JSON object that does not hold the mark of the schema's end. *)
Definition object_text (js : string) : Prop :=
  (∃ body, js = String "{" (body +:+ "}")) ∧ py_contains "END_SCHEMA" js = false.

Lemma find_schema_line rest : find_schema (newline +:+ rest) = find_schema rest.
Proof. by apply (find_schema_skip ""). Qed.

Lemma find_schema_here x :
  find_schema ("OUTPUT_SCHEMA: " +:+ x) =
  match schema_here (String " " x) with
  | Some g => Some g
  | None => find_schema ("UTPUT_SCHEMA: " +:+ x)
  end.
Proof. by destruct x. Qed.

Lemma find_schema_part a js rest :
  py_contains "OUTPUT_SCHEMA:" a = false → object_text js →
  find_schema (a +:+ newline +:+ schema_part js +:+ rest) = Some js.
Proof.
  intros Ha [[body ->] Hno]. apply contains_cons in Hno as [_ Hno].
  unfold schema_part. rewrite !append_assoc.
  change (a +:+ newline +:+ ?x) with (a +:+ String "010" x). rewrite find_schema_skip by done.
  rewrite find_schema_line, find_schema_here. unfold schema_here.
  change (py_lstrip _) with (String "{" ((body +:+ "}") +:+ newline +:+ "END_SCHEMA" +:+ rest)).
  cbv beta iota. rewrite append_assoc.
  change ("}" +:+ newline +:+ ?x) with (String "}" (newline +:+ x)).
  by rewrite (upto_close_object body rest Hno).
Qed.

(** ** The text of an object has no fences *)

Lemma rstrip_stops a x : is_space x = false → py_rstrip (a +:+ String x "") = a +:+ String x "".
Proof.
  intros Hx. induction a as [|c a IH].
  - change ("" +:+ String x "") with (String x ""). cbn. by rewrite Hx.
  - change (String c a +:+ String x "") with (String c (a +:+ String x "")). cbn [py_rstrip].
    rewrite IH. by destruct a.
Qed.

Lemma drop_last n a x :
  str_drop n (a +:+ String x "") = "" ∨ ∃ b, str_drop n (a +:+ String x "") = b +:+ String x "".
Proof.
  revert a. induction n as [|n IH]; intros a; [right; by exists a|].
  destruct a as [|c a]; [by left; destruct n|]. apply IH.
Qed.

Lemma last_differs a b x y : x ≠ y → a +:+ String x "" ≠ b +:+ String y "".
Proof.
  intros Hxy. revert b. induction a as [|c a IH]; intros [|d b] [=]; [done|..].
  - by destruct b.
  - by destruct a.
  - by eapply IH.
Qed.

Lemma no_fence_end a : ends_with fence (a +:+ "}") = false.
Proof.
  unfold ends_with. destruct (drop_last (String.length (a +:+ "}") - String.length fence) a "}")
    as [->|[b ->]]; [done|].
  apply andb_false_iff. left. apply String.eqb_neq. by apply (last_differs b "``").
Qed.

Lemma object_unfenced body : strip_fences (String "{" (body +:+ "}")) = String "{" (body +:+ "}").
Proof.
  assert (Hs : py_strip (String "{" (body +:+ "}")) = String "{" (body +:+ "}")).
  { unfold py_strip. change (py_lstrip _) with (String "{" body +:+ "}"). by apply rstrip_stops. }
  unfold strip_fences. rewrite Hs. change (String.prefix "```json" _) with false. cbv beta iota zeta.
  change (String.prefix fence _) with false. cbv beta iota zeta.
  change (String "{" (body +:+ "}")) with (String "{" body +:+ "}"). rewrite no_fence_end. exact Hs.
Qed.

(** ** A call on the stub *)

(** One field a property, in their order. *)
Lemma fill_fields_names `{!Json} properties digest fields :
  fill_fields properties digest = Ok fields → fields.*1 = properties.*1.
Proof.
  revert fields. induction properties as [|[name info] ps IH]; intros fields; cbn; [by intros [= <-]|].
  destruct (_generate_field name info digest) as [x|]; [|done]. cbn.
  destruct (fill_fields ps digest) as [fs|] eqn:E; [|done]. cbn. intros [= <-]. cbn. f_equal. by apply IH.
Qed.

(** The environment whose LLM is [invoke]. *)
Definition with_provider (invoke : World → string → InvokeOutcome) (env : Environment) : Environment :=
  λ R q, match q in Query R return World → R with
         | Invoke prompt => λ w, invoke w prompt
         | Send topic key e => env _ (Send topic key e)
         | ReadCards => env _ ReadCards
         | Wire call => env _ (Wire call)
         | ReadProcessed topic => env _ (ReadProcessed topic)
         | Persist topic key => env _ (Persist topic key)
         | Sleep s => env _ (Sleep s)
         | StopSet => env _ StopSet
         | WaitStop s => env _ (WaitStop s)
         end.

Section Call.
Context `{Uuids} `{!Prompting} {V : Type} `{!Schema V}.
Context (publishing redact_pii : bool) (profile : ModelProfile) (env : Environment).
Context (request : AssistiveRequest V).

Abbreviation schema := (model_json_schema (V:=V)).
Abbreviation prompt := (_render_prompt request).

(** The text before the schema in the prompt, and the schema's text. *)
Definition prompt_head : string :=
  match template_of (ar_task_kind request) (ar_agent_id request) with
  | Ok t => pt_body t
  | Err _ => ar_instructions request
  end.

Definition schema_text : string :=
  match template_of (ar_task_kind request) (ar_agent_id request) with
  | Ok _ => json_dumps (VDict schema)
  | Err _ => json_dumps_indent (VDict schema)
  end.

Lemma prompt_shape : ∃ rest, prompt = prompt_head +:+ newline +:+ schema_part schema_text +:+ rest.
Proof.
  unfold _render_prompt, prompt_head, schema_text. destruct (template_of _ _) as [t|e].
  - cbn [render fst app]. destruct (examples_part _) as [|x l]; cbn [py_join String.concat];
      rewrite !append_assoc; by eexists.
  - unfold plain_prompt. destruct (examples_part _ ++ _) as [|x l] eqn:E;
      [by apply app_nil in E as [_ ?]|]. cbn [py_join String.concat]. by eexists.
Qed.

(** JSON reads back the schema, from a prompt whose head does not hold the mark. *)
Lemma hint_is_schema :
  py_contains "OUTPUT_SCHEMA:" prompt_head = false → object_text schema_text →
  json_loads schema_text = Ok (VDict schema) →
  _extract_schema_hint prompt = Some (VDict schema).
Proof.
  intros Hh Ho Hl. destruct prompt_shape as [rest ->]. unfold _extract_schema_hint.
  by rewrite find_schema_part, Hl.
Qed.

(** The fields the stub makes up for the schema. *)
Definition stub_fields (properties : items) : result items := fill_fields properties (sha256_hex prompt).

Lemma stub_answers properties fields :
  py_contains "OUTPUT_SCHEMA:" prompt_head = false → object_text schema_text →
  json_loads schema_text = Ok (VDict schema) →
  items_get "properties" schema = Some (VDict properties) → properties ≠ [] →
  stub_fields properties = Ok fields →
  stub_invoke prompt = Completed (stub_completion prompt (json_dumps (VDict fields))).
Proof.
  intros Hh Ho Hl Hp Hne Hf. unfold stub_invoke, _generate_from_schema.
  rewrite hint_is_schema by done.
  assert (Ht : py_truthy (VDict schema) = true) by (by destruct schema).
  assert (Hget : py_get (VDict schema) "properties" (VDict []) = Ok (VDict properties))
    by (unfold py_get; by rewrite Hp).
  rewrite Ht. unfold _fill_schema. rewrite Hget. cbn [mbind result_bind].
  assert (Ht' : py_truthy (VDict properties) = true) by (by destruct properties).
  rewrite Ht'. cbn [negb]. unfold stub_fields in Hf. by rewrite Hf.
Qed.

(** Remark (functional): the default provider answers the schema it is asked for.  The stub
    finds the schema in the prompt that [reason] renders, whatever the grounding inputs
    and the examples, if the template's body (or the instructions) do not hold the mark; it
    makes up one field for every property, from the hash of the prompt; and when these
    fields validate, the call ends on the model's path with them, with no failure. *)
Theorem stub_call_settles properties fields store w v :
  cached (ar_idempotency_key request) (rs_cache store) = None →
  py_contains "OUTPUT_SCHEMA:" prompt_head = false → object_text schema_text →
  json_loads schema_text = Ok (VDict schema) →
  items_get "properties" schema = Some (VDict properties) → properties ≠ [] →
  stub_fields properties = Ok fields →
  object_text (json_dumps (VDict fields)) → json_loads (json_dumps (VDict fields)) = Ok (VDict fields) →
  model_validate (VDict fields) = Ok v →
  fields.*1 = properties.*1 ∧
  ∃ r store' w',
    run (with_provider (λ _, stub_invoke) env) (reason publishing redact_pii profile request store) w =
      (Ok (r, store'), w') ∧
    res_value r = Instance_ v ∧ res_reasoning_path r = path_model ∧ res_failure_reason r = None.
Proof.
  intros Hmiss Hh Ho Hl Hp Hne Hf [[body Hb] _] Hlf Hv. split.
  - by eapply fill_fields_names.
  - unfold reason. rewrite run_bind. cbn [run now reads]. unfold results_get. rewrite Hmiss.
    cbn [run effect with_provider].
    rewrite (stub_answers properties fields) by done.
    unfold settle_completion, _validate_output, _parse_json. cbn [raw_text stub_completion].
    rewrite Hb, object_unfenced, <- Hb, Hlf, Hv.
    destruct (run_finish publishing redact_pii profile (with_provider (λ _, stub_invoke) env) request
                (w_now w) (_compute_prompt_ref (ar_task_kind request) prompt)
                (stub_completion prompt (json_dumps (VDict fields))) v store w)
      as (w' & r & Hr & _ & _ & _ & H1 & H2 & H3).
    eexists r, _, w'. split; [exact Hr|]. by split_and!.
Qed.
End Call.

(** ** Facts about the cloud providers *)

Section Cloud.
Context `{Json} `{Fields}.
Context (boto3 : option (BedrockClient → option AwsError)).
Context (invoke_model : World → BedrockClient → string → string → result string + AwsError).

(** Remark (error): the AgentCore provider raises provider errors only.  Whatever its client,
    the call and the answer do, an exception that leaves it is a [ProviderError], with the
    credentials errors kept apart; the Bedrock provider lets an unreadable answer's own
    exception through. *)
Theorem agentcore_raises_provider_errors w prompt profile p exc p' :
  agentcore_invoke boto3 invoke_model w prompt profile p = (inr exc, p') →
  ∃ msg, exc = RaisedCredentials msg ∨ exc = RaisedProvider msg.
Proof.
  unfold agentcore_invoke. destruct (bedrock_invoke _ _ _ _ _ _) as [[raw|[m|m|m]] b]; intros [= <- <-]; eauto.
Qed.

(** Remark (error): the region and the timeout that are configured do not reach Bedrock.  A
    runtime built for Bedrock or AgentCore has a client for [us-east-1] with timeouts of
    thirty seconds, whatever [AGENT_LLM_REGION], [AWS_REGION] and
    [AGENT_LLM_TIMEOUT_SECONDS] say, and whatever the profile of the call. *)
Theorem bedrock_settings_ignored {V} environ config publishing (rt : LLMRuntime V) :
  build_runtime environ config publishing = Ok rt →
  match llm_provider rt with
  | Stub => cfg_mode (llm_config rt) = provider_stub
  | Bedrock p => cfg_mode (llm_config rt) = provider_bedrock ∧
      ∀ c p', _get_client boto3 p = (inl c, p') →
        client_region_name c = "us-east-1" ∧ client_read_timeout c = 30
  | AgentCore p => cfg_mode (llm_config rt) = provider_agentcore ∧
      ∀ c p', _get_client boto3 (_get_bedrock_provider p) = (inl c, p') →
        client_region_name c = "us-east-1" ∧ client_read_timeout c = 30
  end.
Proof.
  unfold build_runtime. destruct (match config with Some c => Ok c | None => _ end) as [cfg|]; [|done].
  cbn [mbind result_bind].
  destruct (cfg_mode cfg) eqn:Em; cbn; intros [= <-]; cbn; rewrite ?Em; (split || idtac); try done;
    intros c p'; unfold _get_client; cbn; unfold create_bedrock_client; destruct boto3 as [client|];
    try done; cbn; destruct (client _); try done; by intros [= <- <-].
Qed.
End Cloud.

(** ** The stub and the classification *)

Lemma fill_fields_get `{!Json} properties digest fields name info :
  fill_fields properties digest = Ok fields → items_get name properties = Some info →
  ∃ v, _generate_field name info digest = Ok v ∧ items_get name fields = Some v.
Proof.
  revert fields. induction properties as [|[n i] ps IH]; intros fields; [by intros _|]. cbn.
  destruct (_generate_field n i digest) as [x|] eqn:Ex; [|done]. cbn.
  destruct (fill_fields ps digest) as [fs|] eqn:E; [|done]. cbn. intros [= <-].
  unfold items_get. cbn. case_bool_decide as Hn; cbn; [|by apply IH].
  intros [= <-]. subst n. by exists x.
Qed.

(** Remark (error): the stub never classifies with confidence.  For a property of type
    [number], like the confidence of [TicketClassification], it makes up a whole number
    from 0 to 99; from 2 on the field's bound refuses it, so in the default mode a
    classification is the fallback's unless the hash says 0 or 1. *)
Theorem stub_confidence_refused `{!Json} properties digest fields info :
  fill_fields properties digest = Ok fields →
  items_get "confidence" properties = Some (VDict info) →
  items_get "type" info = Some (VStr "number") → items_get "enum" info = None →
  ∃ n, items_get "confidence" fields = Some (VInt n) ∧ 0 <= n < 100 ∧ (2 <= n → in_unit (float_of_Z n) = false).
Proof.
  intros Hf Hp Ht He. destruct (fill_fields_get _ _ _ _ _ Hf Hp) as (v & Hg & Hv).
  unfold _generate_field, py_get in Hg. rewrite Ht, He in Hg. cbn in Hg.
  destruct (digest_int (py_take 4 digest)) as [z|]; [|done]. cbn in Hg. injection Hg as <-.
  exists (z mod 100). split; [exact Hv|]. assert (Hb : 0 <= z mod 100 < 100) by (apply Z.mod_pos_bound; lia).
  split; [exact Hb|]. intros H2. revert H2 Hb. generalize (z mod 100) as n. intros n H2 Hb.
  assert (Hall : forallb (λ n, negb (in_unit (float_of_Z n))) (map (λ k, Z.of_nat k + 2) (seq 0 98)) = true) by (vm_compute; reflexivity).
  rewrite List.forallb_forall in Hall. apply negb_true_iff, Hall. apply in_map_iff. exists (Z.to_nat (n - 2)).
  rewrite in_seq. lia.
Qed.
