(* ===== verification/LangGraph.v ===== *)
(** * The LangGraph adapter

    [src/agent_foundation/llm/langgraph.py]: [as_node] and [create_langgraph_llm_node], the
    nodes that run an assistive call on a graph's state and put its outcome into a copy of
    it.  A state is a dict; its values are JSON values, and UUIDs where the ids are. *)

From Stdlib Require Import ZArith Bool Ascii String List Lia.
From stdpp Require Import base list strings.
From S2P Require Import Prelude.
From S2P Require Import PyFloat.
From S2P Require Import Contracts.
From S2P Require Import Uuid.
From S2P Require Import Llm.
From S2P Require Import LlmConfig.
From S2P Require Import Prompts.
From S2P Require Import Async.
From S2P Require Import LlmRuntime.
From S2P Require Import Execution.
From S2P Require Import LlmFacts.

Open Scope string_scope.
Open Scope list_scope.
Open Scope Z_scope.
Open Scope prog_scope.

#[local] Set Default Proof Using "Type".

Inductive StateValue := SUuid (u : UUID) | SJson (v : pyval).

Abbreviation State := (list (string * StateValue)).

(** A value in the grounding inputs: [json.dumps(default=str)] writes a UUID as its text. *)
Definition json_of (v : StateValue) : pyval :=
  match v with SUuid u => VStr (uuid_str u) | SJson v => v end.

(** [TaskKind(task_kind)] *)
Definition TaskKind_of (s : string) : result TaskKind :=
  if String.eqb s "classify" then Ok kind_classify
  else if String.eqb s "extract_intent" then Ok kind_extract_intent
  else if String.eqb s "draft_response" then Ok kind_draft_response
  else if String.eqb s "summarize_reasoning" then Ok kind_summarize_reasoning
  else Err (ValueError (py_repr_str s +:+ " is not a valid TaskKind")).

(** An id of the state: [state.get(key, uuid4())] draws a fresh one in any case; a text is
    parsed, and the request takes nothing but a UUID. *)
Definition state_id `{Uuids} (key : string) (state : State) : prog UUID :=
  let! fresh := fresh_uuid in
  match items_get key state with
  | None => Ret fresh
  | Some (SUuid u) => Ret u
  | Some (SJson (VStr s)) => lift (parse_uuid s)
  | Some (SJson _) => Raise (ValidationError "UUID input should be a string, bytes or UUID object")
  end.

(** The state without the ids. *)
Definition grounding_of (state : State) : items :=
  map (λ kv, (fst kv, json_of (snd kv)))
    (List.filter (λ kv, negb (str_in (fst kv) ["correlation_id"; "causation_id"])) state).

(** The placeholders of [prompt_template], replaced one key after the other. *)
Definition render_instructions (prompt_template : string) (grounding : items) : string :=
  fold_left (λ text kv, py_replace ("{" +:+ fst kv +:+ "}") (py_str (snd kv)) text)
    grounding prompt_template.

Section Nodes.
Context `{Uuids} `{Prompting} {V : Type} `{!Schema V}.
(** The runtime: with a publisher or without one, its [redact_pii] and the profile. *)
Variable publishing : bool.
Variable redact_pii : bool.
Variable profile : ModelProfile.
Variable agent_id task_kind state_key : string.
Variable fallback : result V.

(** The six entries a node writes. *)
Definition node_outputs (result : AssistiveResult V) : State :=
  [ (state_key, SJson match res_value result with
                      | Instance_ v => VDict (model_dump v)
                      | Plain d => d
                      end);
    (state_key +:+ "_reasoning_path", SJson (VStr (ReasoningPath_str (res_reasoning_path result))));
    (state_key +:+ "_token_usage", SJson (vopt dump_usage (res_token_usage result)));
    (state_key +:+ "_model_id", SJson (vopt VStr (res_model_id result)));
    (state_key +:+ "_cache_hit", SJson (VBool (res_cache_hit result)));
    (state_key +:+ "_latency_ms", SJson (VInt (res_latency_ms result))) ].

(** [{ **state, ... }], and the assignments to a copy of the state. *)
Definition with_outputs (state outputs : State) : State :=
  fold_left (λ s kv, items_put (fst kv) (snd kv) s) outputs state.

(** The call of a node, with its instructions. *)
Definition node_call (instructions : items → string) (state : State)
    (store : AssistiveResultStore V) : prog (AssistiveResult V * AssistiveResultStore V) :=
  let! correlation_id := state_id "correlation_id" state in
  let! causation_id := state_id "causation_id" state in
  let grounding := grounding_of state in
  let! kind := lift (TaskKind_of task_kind) in
  let! request := lift (mk_request {|
    ar_task_kind := kind; ar_agent_id := agent_id;
    ar_correlation_id := correlation_id; ar_causation_id := causation_id;
    ar_instructions := instructions grounding; ar_grounding_inputs := grounding;
    ar_examples := None; ar_idempotency_key := ""; ar_fallback := fallback |}) in
  reason publishing redact_pii profile request store.

(** The node of [as_node]: the state it returns, and the runtime's store. *)
Definition as_node (instructions : string) (state : State) (store : AssistiveResultStore V) :
    prog (State * AssistiveResultStore V) :=
  let! (result, store) := node_call (λ _, instructions) state store in
  Ret (with_outputs state (node_outputs result), store).

(** The node of [create_langgraph_llm_node]; without a runtime it builds one for the call. *)
Definition create_langgraph_llm_node (prompt_template : string) (has_runtime : bool) (state : State)
    (store : AssistiveResultStore V) : prog (State * AssistiveResultStore V) :=
  let! (result, store') :=
    node_call (render_instructions prompt_template) state (if has_runtime then store else new_store) in
  Ret (with_outputs state (node_outputs result), if has_runtime then store' else store).
End Nodes.

(** ** What a node changes *)

Lemma with_outputs_other k outputs state :
  k ∉ outputs.*1 → items_get k (with_outputs state outputs) = items_get k state.
Proof.
  unfold with_outputs. revert state. induction outputs as [|[k0 v0] l IH]; intros state; [done|].
  cbn [fold_left fst snd fmap list_fmap]. intros [Hne Hl]%not_elem_of_cons.
  rewrite IH by done. by rewrite items_get_put, decide_False.
Qed.

Lemma with_outputs_in k v outputs state :
  NoDup outputs.*1 → (k, v) ∈ outputs → items_get k (with_outputs state outputs) = Some v.
Proof.
  unfold with_outputs. revert state. induction outputs as [|[k0 v0] l IH]; intros state; [by intros _ ?%not_elem_of_nil|].
  cbn [fold_left fst snd fmap list_fmap]. intros [Hnot Hnd]%list.NoDup_cons.
  intros [[= -> ->]|Hin]%elem_of_cons; [|by apply IH].
  fold (with_outputs (items_put k0 v0 state) l). rewrite with_outputs_other by done.
  by rewrite items_get_put, decide_True.
Qed.

Lemma suffix_inj a b c : a +:+ b = a +:+ c → b = c.
Proof. induction a as [|x a IH]; [done|]. intros [=]. by apply IH. Qed.

Section Facts.
Context `{Uuids} `{!Prompting} {V : Type} `{!Schema V}.
Context (publishing redact_pii : bool) (profile : ModelProfile) (env : Environment).
Context (agent_id task_kind state_key : string) (fallback : result V).

(** The six keys are different. *)
Lemma node_outputs_keys (r : AssistiveResult V) : NoDup (node_outputs state_key r).*1.
Proof.
  replace (node_outputs state_key r).*1 with
    ((λ suffix, state_key +:+ suffix) <$>
       [""; "_reasoning_path"; "_token_usage"; "_model_id"; "_cache_hit"; "_latency_ms"])
    by (cbn; by rewrite append_nil).
  apply (NoDup_fmap_2_strong (λ suffix, state_key +:+ suffix)
           [""; "_reasoning_path"; "_token_usage"; "_model_id"; "_cache_hit"; "_latency_ms"]).
  - intros x y _ _ Hxy. by eapply suffix_inj.
  - apply (bool_decide_unpack _). vm_compute. exact I.
Qed.

(** Remark (functional): what a node returns.  A node that returns gives the state it got with
    six entries set: the call's value, dumped, and how it was reached, under the node's key
    and its suffixes.  Every other key keeps its value: in particular the ids, so the
    nodes of a graph share them. *)
Theorem node_returns_state instructions state store s' store' w w' :
  run env (as_node publishing redact_pii profile agent_id task_kind state_key fallback
             instructions state store) w = (Ok (s', store'), w') →
  ∃ r, run env (node_call publishing redact_pii profile agent_id task_kind fallback
                  (λ _, instructions) state store) w = (Ok (r, store'), w') ∧
    (∀ k, k ∉ (node_outputs state_key r).*1 → items_get k s' = items_get k state) ∧
    (∀ k v, (k, v) ∈ node_outputs state_key r → items_get k s' = Some v).
Proof.
  unfold as_node. rewrite run_bind.
  destruct (run env (node_call _ _ _ _ _ _ _ _ _) w) as [[[r st]|e] w1]; [|done].
  cbn [run]. intros [= <- <- <-]. exists r. split; [done|]. split.
  - intros k. apply (with_outputs_other k (node_outputs state_key r) state).
  - intros k v. apply (with_outputs_in k v (node_outputs state_key r) state), node_outputs_keys.
Qed.
End Facts.

(** Remark (error): placeholders are not replaced at once.  The value of a key is itself
    searched for the placeholders of the keys after it, so a text that comes from a ticket
    can pull other values of the state into the instructions. *)
Theorem placeholders_nest :
  render_instructions "Summarise {reason}."
    [("reason", VStr "see {internal_notes}"); ("internal_notes", VStr "fraud score 0.9")] =
  "Summarise see fraud score 0.9.".
Proof. vm_compute. reflexivity. Qed.
