(* ===== verification/LlmDrafter.v ===== *)
(** * Customer-Resolution agent: drafting with the LLM

    [draft_with_llm] of [apps/agents/customer_resolution/response_drafter.py]: the
    LLM writes the response, the template is its fallback, and the leak guard reads
    what it wrote.  The runtime is an argument of the function, so its result store
    is passed and returned. *)

From Stdlib Require Import ZArith Bool Ascii String List Lia.
From stdpp Require Import base list strings gmap.
From S2P Require Import Prelude.
From S2P Require Import PyFloat.
From S2P Require Import Contracts.
From S2P Require Import Envelope.
From S2P Require Import CaseModels.
From S2P Require Import Drafter.
From S2P Require Import DecisionFacts.
From S2P Require Import Llm.
From S2P Require Import LlmConfig.
From S2P Require Import Prompts.
From S2P Require Import Async.
From S2P Require Import LlmRuntime.
From S2P Require Import Execution.
From S2P Require Import LlmFacts.

Open Scope string_scope.
Open Scope list_scope.
Open Scope Z_scope.
Open Scope prog_scope.

#[local] Set Default Proof Using "Type".

(** What the drafting call takes from outside: the codec and the prompts directory, the
    JSON schema and the pydantic fields of [ResponseDraft] and the profile [resolve_profile] selects. *)
Class Drafting := {
  drafting_prompting :: Prompting;
  draft_json_schema : list (string * pyval);
  draft_fields : pyval → result ResponseDraft;
  draft_dump : ResponseDraft → list (string * pyval);
  draft_profile : ModelProfile;
}.

(** [ResponseDraft] as an output schema, with its own validator. *)
#[export] Instance draft_schema `{Drafting} : Schema ResponseDraft := {|
  model_json_schema := draft_json_schema;
  model_validate data := d ← draft_fields data; mk_draft d;
  model_dump := draft_dump |}.

(** [allowed_facts.model_dump(mode="json")] *)
Definition dump_facts (f : AllowedFacts) : pyval :=
  VDict [ ("refund_amount", vopt VFloat (af_refund_amount f));
          ("currency", vopt VStr (af_currency f));
          ("order_reference", vopt VStr (af_order_reference f));
          ("billing_outcome_summary", vopt VStr (af_billing_outcome_summary f));
          ("eligibility", vopt VBool (af_eligibility f)) ].

(** [tone.model_dump(mode="json")] *)
Definition dump_tone (t : ToneConfig) : pyval :=
  VDict [ ("brand_name", VStr (tone_brand_name t)); ("greeting", VStr (tone_greeting t));
          ("signoff", VStr (tone_signoff t)); ("formality", VStr (tone_formality t));
          ("apologetic", VBool (tone_apologetic t)) ].

(** The draft rebuilt with [requires_human_approval=True]. *)
Definition force_approval (d : ResponseDraft) : result ResponseDraft :=
  mk_draft {| rd_subject := rd_subject d; rd_body := rd_body d;
              rd_response_type := rd_response_type d; rd_requires_human_approval := true |}.

Section Draft.
Context `{Uuids} `{Drafting}.
(** The runtime: with a publisher or without one. *)
Variable publishing : bool.
Variable redact_pii : bool.
Variable outcome : ResolutionOutcome.
Variable allowed_facts : AllowedFacts.
Variable tone_config : option ToneConfig.
Variable ticket_summary : string.

Definition tone : ToneConfig := default DEFAULT_TONE tone_config.

Definition fallback_draft : result ResponseDraft :=
  draft_structured_response outcome allowed_facts (Some tone).

Definition draft_request (correlation_id causation_id : UUID) : AssistiveRequest ResponseDraft := {|
  ar_task_kind := kind_draft_response;
  ar_agent_id := CaseModels.AGENT_ID;
  ar_correlation_id := correlation_id;
  ar_causation_id := causation_id;
  ar_instructions :=
    "Draft a customer-facing response for this support case. " +:+
    "Use ONLY the allowed facts provided. Do NOT reveal internal fields, " +:+
    "risk scores, confidence values, or evidence details. " +:+
    "The response must be professional and empathetic.";
  ar_grounding_inputs :=
    [ ("outcome", VStr (ResolutionOutcome_value outcome));
      ("allowed_facts", dump_facts allowed_facts); ("tone", dump_tone tone);
      ("ticket_summary", VStr ticket_summary) ];
  ar_examples := None;
  ar_idempotency_key := "";
  ar_fallback := fallback_draft |}.

Definition given_or_fresh (id : option UUID) : prog UUID :=
  match id with Some u => Ret u | None => fresh_uuid end.

(** What is done with the runtime's result. *)
Definition review_draft (result : AssistiveResult ResponseDraft) : Prelude.result ResponseDraft :=
  match res_value result with
  | Instance_ draft =>
      match _assert_no_internal_leak (rd_body draft) with
      | Err (ValueError _) => draft ← fallback_draft; force_approval draft
      | Err e => Err e
      | Ok _ =>
          if bool_decide (res_reasoning_path result = path_fallback)
          then force_approval draft else Ok draft
      end
  | Plain _ => fallback_draft
  end.

Definition draft_with_llm (correlation_id causation_id : option UUID)
    (store : AssistiveResultStore ResponseDraft) :
    prog (ResponseDraft * AssistiveResultStore ResponseDraft) :=
  let! cid := given_or_fresh correlation_id in
  let! cause := given_or_fresh causation_id in
  let! request := lift (mk_request (draft_request cid cause)) in
  let! (result, store) := reason publishing redact_pii draft_profile request store in
  let! draft := lift (review_draft result) in
  Ret (draft, store).
End Draft.

(** ** A leak does not span a line break *)




(** ** What the customer may read *)

Definition clean_tone (t : ToneConfig) : Prop := ¬ leaks (tone_greeting t) ∧ ¬ leaks (tone_signoff t).

Lemma not_leaks_guard text : is_ok (_assert_no_internal_leak text) → ¬ leaks text.
Proof. intros [u Hu]. pose proof (guard_spec text) as H. by rewrite Hu in H. Qed.

Lemma default_tone_clean : clean_tone DEFAULT_TONE.
Proof. split; apply not_leaks_guard; by eexists. Qed.






Section Facts.
Context `{Uuids} `{Drafting}.
Context (publishing : bool)
  (redact_pii : bool).
Context (env : Environment).

(** ** The result store holds plain data *)

Definition plain_store (s : AssistiveResultStore ResponseDraft) : Prop :=
  Forall (λ kd : string * AssistiveResult ResponseDraft, ∃ v, res_value kd.2 = Plain v) (rs_cache s).

Lemma new_store_plain : plain_store new_store.
Proof. constructor. Qed.





(** ** Where a draft comes from *)

(** The request was not answered from the result store. *)
Abbreviation missed request store := (cached (ar_idempotency_key request) (rs_cache store) = None).











(** Remark (safety): the model has the last word on what is not its body.  A first
    completion that parses, validates and has a guarded body is the draft, whatever
    its subject says and whatever it answers for the human approval, even for an
    approval or an escalation: neither the guard nor [HUMAN_APPROVAL_OUTCOMES] is
    applied to them. *)
Theorem model_draft_unchanged outcome facts tone_config summary cid cause store w raw d :
  (∀ request, mk_request (draft_request outcome facts tone_config summary cid cause) = Ok request →
     cached (ar_idempotency_key request) (rs_cache store) = None ∧
     env _ (Invoke (_render_prompt request)) w = Completed raw) →
  _validate_output (raw_text raw) = Some d →
  ¬ leaks (rd_body d) →
  ∃ store' w', run env (draft_with_llm publishing redact_pii outcome facts tone_config summary
                          (Some cid) (Some cause) store) w = (Ok (d, store'), w').
Proof.
  intros Hmiss Hv Hleak. unfold draft_with_llm. rewrite run_bind. cbn [given_or_fresh run].
  rewrite run_bind. cbn [given_or_fresh run]. rewrite run_bind, run_lift.
  destruct (mk_request (draft_request outcome facts tone_config summary cid cause)) as [request|] eqn:Er;
    [|done].
  destruct (Hmiss request eq_refl) as [Hc Hraw]. cbv beta iota. rewrite run_bind.
  unfold reason at 1. rewrite run_bind. cbn [run now reads]. unfold results_get. rewrite Hc.
  cbn [run effect]. rewrite Hraw. unfold settle_completion. rewrite Hv.
  destruct (run_finish publishing redact_pii draft_profile env request (w_now w)
              (_compute_prompt_ref (ar_task_kind request) (_render_prompt request)) raw d store w)
    as (w' & r & -> & _ & _ & _ & H1 & H2 & _).
  rewrite run_bind, run_lift. unfold review_draft. rewrite H1, H2.
  pose proof (guard_spec (rd_body d)) as Hg. destruct (_assert_no_internal_leak (rd_body d)); [|done].
  by eexists _, w'.
Qed.
End Facts.
