(* ===== verification/Transport.v ===== *)
(** * Sending, whatever the broker answers

    What the audit writer and the raw publisher do for any valid identity and any
    broker: they never raise for a lost record, and the log grows by the record
    exactly when the broker wrote it. *)

From Stdlib Require Import ZArith Bool Ascii String List Lia.
From stdpp Require Import base list strings gmap.
From S2P Require Import Prelude.
From S2P Require Import PyFloat.
From S2P Require Import Contracts.
From S2P Require Import Uuid.
From S2P Require Import Idempotency.
From S2P Require Import A2A.
From S2P Require Import Envelope.
From S2P Require Import Async.
From S2P Require Import Consumer.
From S2P Require Import Execution.

Open Scope string_scope.
Open Scope list_scope.
Open Scope Z_scope.
Open Scope prog_scope.

(** An identity that [AgentIdentity]'s validators accept. *)
Definition valid_identity (i : AgentIdentity) : Prop :=
  _AGENT_ID_RE (id_agent_id i) = true ∧ _TENANT_ID_RE (id_tenant_id i) = true.

(** ** [Publisher.publish_raw] *)

Definition publish_raw (envelope : EventEnvelope) (topic : string) (key : option string) :
    prog unit :=
  Await (Send topic (message_key key envelope) envelope) (λ outcome,
    match outcome with
    | Acked => Ret tt
    | AckLost | Dropped => Raise (IOError "send_and_wait failed")
    end).

(** [try: await publisher.publish_raw(...) except Exception: log] *)
Definition publish_raw_quietly (envelope : EventEnvelope) (topic : string)
    (key : option string) : prog unit :=
  catch (publish_raw envelope topic key) (λ _, Ret tt).

Section Sends.
Context `{Uuids}.
Context (env : Environment).

(** The world after a UUID is drawn and a record is sent. *)
Definition drawn (w : World) : World :=
  mk_world (w_store w) (w_now w) (S (w_uuids w)) (w_log w).

Definition sent_as (key : option string) (topic : string) (e : EventEnvelope) (w : World) : World :=
  effect (Send topic (message_key key e) e) (env _ (Send topic (message_key key e) e) w) w.

Abbreviation sent := (sent_as None).

(** [w'] follows [w] by records only: the store and the clock stay. *)
Record extends (w w' : World) (log : list (string * EventEnvelope)) : Prop := {
  ext_store : w_store w' = w_store w;
  ext_now : w_now w' = w_now w;
  ext_log : w_log w' = w_log w ++ log;
}.

Lemma extends_refl w : extends w w [].
Proof. constructor; [done..|by rewrite app_nil_r]. Qed.

Lemma extends_trans w1 w2 w3 l1 l2 :
  extends w1 w2 l1 → extends w2 w3 l2 → extends w1 w3 (l1 ++ l2).
Proof. intros [H1 H2 H3] [H4 H5 H6]. constructor; [congruence..|]. by rewrite H6, H3, app_assoc. Qed.

(** What a send leaves in the log. *)
Definition kept_as (key : option string) (topic : string) (e : EventEnvelope) (w : World) :
    list (string * EventEnvelope) :=
  if written (env _ (Send topic (message_key key e) e) w) then [(topic, e)] else [].

Abbreviation kept := (kept_as None).

Lemma kept_acked key topic e w : acks env → kept_as key topic e w = [(topic, e)].
Proof. intros Ha. unfold kept_as. by rewrite Ha. Qed.

Lemma sent_extends key topic e w : extends w (sent_as key topic e w) (kept_as key topic e w).
Proof.
  unfold sent_as, kept_as. destruct (env _ _ w); constructor; cbn; done || by rewrite app_nil_r.
Qed.

Lemma run_quietly topic e key w :
  run env (publish_raw_quietly e topic key) w = (Ok tt, sent_as key topic e w).
Proof.
  unfold publish_raw_quietly. rewrite run_catch. cbn [run publish_raw]. unfold sent_as.
  by destruct (env _ _ w).
Qed.

(** The audit record an agent writes of an envelope, at world [w]. *)
Definition audit_by (identity : AgentIdentity) (e : EventEnvelope) (o : AuditOutcome)
    (task : option UUID) (reason : option string) (w : World) : EventEnvelope := {|
  env_event_id := uuid4 (w_uuids w);
  env_correlation_id := env_correlation_id e;
  env_causation_id := Some (env_event_id e);
  env_agent_id := id_agent_id identity;
  env_tenant_id := id_tenant_id identity;
  env_timestamp := w_now w;
  env_event_type := "agent.audit.v1";
  env_schema_version := "1.0.0";
  env_payload := P_Audit {| aud_original_envelope := e; aud_outcome := o; aud_reason := reason;
                            aud_recorded_at := w_now w; aud_task_id := task |} |}.

(** The reason an outcome needs. *)
Definition reason_ok (o : AuditOutcome) (reason : option string) : Prop :=
  o = aud_rejected ∨ o = aud_failed → reason ≠ None.

Lemma mk_audit_ok {P} (a : AuditPayload P) :
  reason_ok (aud_outcome a) (aud_reason a) → mk_audit a = Ok a.
Proof.
  intros Hr. unfold mk_audit.
  replace (bool_decide (aud_outcome a ∈ [aud_rejected; aud_failed]) &&
           negb (bool_of_option (aud_reason a))) with false; [done|].
  destruct (aud_reason a); [by rewrite andb_false_r|]. unfold reason_ok in Hr.
  destruct (aud_outcome a); try reflexivity; exfalso; apply Hr; auto.
Qed.

Lemma mk_envelope_ok (e : EventEnvelope) :
  _AGENT_ID_RE (env_agent_id e) = true → _TENANT_ID_RE (env_tenant_id e) = true →
  _EVENT_TYPE_RE (env_event_type e) = true → _SEMVER_RE (env_schema_version e) = true →
  env_causation_id e ≠ None → mk_envelope e = Ok e.
Proof.
  intros H1 H2 H3 H4 H5. unfold mk_envelope. rewrite H1, H2, H3, H4.
  by destruct (env_causation_id e).
Qed.

Lemma run_task_audit identity e o task reason w :
  valid_identity identity → reason_ok o reason →
  run env (write_task_audit identity e o task reason) w =
  (Ok tt, sent TOPIC_AUDIT (audit_by identity e o task reason w) (drawn w)).
Proof.
  intros [Ha Ht] Hr. unfold write_task_audit. rewrite run_bind. cbn [run now reads].
  rewrite run_bind, run_lift, mk_audit_ok by done. cbv beta iota.
  rewrite run_bind. cbn [run fresh_uuid]. rewrite run_bind, run_lift.
  rewrite mk_envelope_ok by (done || (vm_compute; reflexivity)). reflexivity.
Qed.

Lemma audit_extends identity e o task reason w :
  extends w (sent TOPIC_AUDIT (audit_by identity e o task reason w) (drawn w))
    (kept TOPIC_AUDIT (audit_by identity e o task reason w) (drawn w)).
Proof.
  destruct (sent_extends None TOPIC_AUDIT (audit_by identity e o task reason w) (drawn w)) as [H1 H2 H3].
  by constructor.
Qed.

(** The event an identity publishes, at world [w]. *)
Definition event_by (identity : AgentIdentity) (p : EventPayload) (et : string) (q : UUID)
    (cause : option UUID) (w : World) : EventEnvelope := {|
  env_event_id := uuid4 (w_uuids w);
  env_correlation_id := q;
  env_causation_id := cause;
  env_agent_id := id_agent_id identity;
  env_tenant_id := id_tenant_id identity;
  env_timestamp := w_now w;
  env_event_type := et;
  env_schema_version := "1.0.0";
  env_payload := p |}.

Lemma run_publish_valid identity p et q cause given w m topic :
  acks env → lookup_model et = Ok m → model_of p = Some m →
  match given with Some t => Ok t | None => _resolve_topic et end = Ok topic →
  mk_envelope (event_by identity p et q cause w) = Ok (event_by identity p et q cause w) →
  run env (publish identity p et q cause given) w =
  (Ok (event_by identity p et q cause w), delivered topic (event_by identity p et q cause w) w).
Proof.
  intros Ha Hm Hp Ht He. unfold publish. rewrite run_bind. cbn [run fresh_uuid].
  rewrite run_bind. cbn [run now reads]. rewrite run_bind, run_lift. cbn [w_now w_uuids].
  assert (Hb : _build_envelope identity p et q cause (uuid4 (w_uuids w)) (w_now w) =
               Ok (event_by identity p et q cause w)).
  { unfold _build_envelope. rewrite Hm. cbn [mbind result_bind]. rewrite Hp.
    by rewrite bool_decide_eq_true_2. }
  rewrite Hb, run_bind.
  replace (run env (match given with Some t => Ret t | None => lift (_resolve_topic et) end))
    with (run env (lift (match given with Some t => Ok t | None => _resolve_topic et end)))
    by (by destruct given).
  rewrite run_lift, Ht. cbn [run]. rewrite Ha. reflexivity.
Qed.
End Sends.

Abbreviation sent env := (sent_as env None).
Abbreviation kept env := (kept_as env None).
