(* ===== verification/ConsumerFacts.v ===== *)
(** * The consumer is at most once, and survives

    Facts about [consume_loop] under every broker: an event that was handled is
    not handed to the handler again while its id fits the tracker; the loop raises
    for no message and no handler; and the audit trail tells what happened. *)

From Stdlib Require Import ZArith Bool Ascii String List Lia.
From stdpp Require Import base list strings gmap.
From S2P Require Import Prelude.
From S2P Require Import PyFloat.
From S2P Require Import Contracts.
From S2P Require Import Uuid.
From S2P Require Import Idempotency.
From S2P Require Import A2A.
From S2P Require Import Envelope.
From S2P Require Import Async.
From S2P Require Import Consumer.
From S2P Require Import Execution.
From S2P Require Import Transport.

Open Scope string_scope.
Open Scope list_scope.
Open Scope Z_scope.
Open Scope prog_scope.

#[local] Set Default Proof Using "Type*".

Section Facts.
Context `{Uuids}.
Context {Bytes : Type} (parse_envelope : Bytes → result EventEnvelope).
Context {T : Type} `{!Dedup T}.
Context (identity : AgentIdentity) (Hid : valid_identity identity).
Context (handler : EventEnvelope → prog unit).
Context (env : Environment).

Abbreviation consume := (consume_message parse_envelope (Some identity) handler).
Abbreviation loop := (consume_loop parse_envelope (Some identity) handler).

(** The record one message leaves, when it leaves one. *)
Definition audited (e : EventEnvelope) (o : AuditOutcome) (reason : option string)
    (w : World) : World :=
  sent env TOPIC_AUDIT (audit_by identity e o None reason w) (drawn w).

Lemma run_consumer_audit e o reason w :
  reason_ok o reason →
  run env (audit (Some identity) e o reason) w = (Ok tt, audited e o reason w).
Proof. intros Hr. unfold audit, write_audit. by rewrite run_task_audit. Qed.

Lemma reason_none o : o = accepted ∨ o = duplicate_skipped → reason_ok o None.
Proof. by intros [->| ->] [|]. Qed.

(** What the loop does with one message: the new tracker, the branch and the
    world, as a function of the tracker, the message and the handler's run. *)
Definition step (raw : Bytes) (t : T) (w : World) : T * Disposition * World :=
  match parse_envelope raw with
  | Err _ => (t, InvalidEnvelope, w)
  | Ok e =>
      let '(found, t1) := dd_is_duplicate (env_event_id e) t in
      if found then (t1, Skipped, audited e duplicate_skipped None w)
      else
        match payload_rejection e with
        | Some reason => (t1, Rejected reason, audited e aud_rejected (Some reason) w)
        | None =>
            match run env (handler e) w with
            | (Err _, w1) => (t1, HandlerFailed, w1)
            | (Ok _, w1) =>
                let o := env _ (Persist (dd_topic t1) (uuid_str (env_event_id e))) w1 in
                (dd_mark_processed (env_event_id e) (written o) t1, Handled,
                 audited e accepted None w1)
            end
        end
  end.

Lemma run_message raw t w :
  run env (consume raw (Some t)) w =
  let '(t', d, w') := step raw t w in (Ok (Some t', d), w').
Proof.
  unfold consume_message, step. destruct (parse_envelope raw) as [e|err] eqn:Ep.
  2: { rewrite run_bind. unfold reject_bytes, _make_partial_envelope. by rewrite run_catch, Ep. }
  rewrite run_bind. unfold check_duplicate.
  destruct (dd_is_duplicate (env_event_id e) t) as [[] t1].
  - rewrite run_catch, run_bind, run_consumer_audit by (apply reason_none; auto). reflexivity.
  - cbn [run]. destruct (payload_rejection e) as [reason|].
    + rewrite run_bind, run_consumer_audit by (by intros _). reflexivity.
    + unfold handle_event. rewrite run_bind, run_catch, run_bind.
      destruct (run env (handler e) w) as [[[]|err] w1]; cbn [run]; [|done].
      rewrite run_bind. cbn [run tracker_mark bind]. rewrite run_bind, run_catch.
      rewrite run_consumer_audit by (apply reason_none; auto). reflexivity.
Qed.

(** The whole run, folded. *)
Fixpoint steps (messages : list Bytes) (t : T) (w : World) : T * list Disposition * World :=
  match messages with
  | [] => (t, [], w)
  | raw :: messages =>
      let '(t1, d, w1) := step raw t w in
      let '(t2, ds, w2) := steps messages t1 w1 in
      (t2, d :: ds, w2)
  end.

Lemma run_loop messages t w :
  run env (loop messages (Some t)) w =
  let '(t', ds, w') := steps messages t w in (Ok (Some t', ds), w').
Proof.
  revert t w. induction messages as [|raw messages IH]; intros t w; [done|].
  cbn [consume_loop steps]. rewrite run_bind, run_message.
  destruct (step raw t w) as [[t1 d] w1]. cbv beta iota. rewrite run_bind, IH.
  by destruct (steps messages t1 w1) as [[t2 ds] w2].
Qed.

(** C18 (liveness): the consume loop survives every message.  Over the messages the
    client hands out, whatever their bytes, the handler and the broker's answers to the
    loop's own publications, no exception leaves the loop, and every message gets its
    branch.  (The client's own start, seek and stop may raise: [run_consumer].) *)
Theorem consumer_survives messages t w :
  ∃ t' ds w', run env (loop messages (Some t)) w = (Ok (Some t', ds), w') ∧
              length ds = length messages.
Proof.
  rewrite run_loop. destruct (steps messages t w) as [[t' ds] w'] eqn:E.
  exists t', ds, w'. split; [done|]. revert t w t' ds w' E.
  induction messages as [|raw messages IH]; intros t w t' ds w' E; cbn in E; [by simplify_eq|].
  destruct (step raw t w) as [[t1 d] w1]. destruct (steps messages t1 w1) as [[t2 ds2] w2] eqn:E2.
  simplify_eq/=. f_equal. eauto.
Qed.

(** [a] is the audit record of [e]. *)
Definition audits (a : EventEnvelope) (e : EventEnvelope) (o : AuditOutcome)
    (reason : option string) : Prop :=
  ∃ p, env_payload a = P_Audit p ∧ aud_original_envelope p = e ∧ aud_outcome p = o ∧
       aud_reason p = reason ∧ env_correlation_id a = env_correlation_id e ∧
       env_causation_id a = Some (env_event_id e).

Lemma audited_log e o reason w :
  acks env → ∃ a, w_log (audited e o reason w) = w_log w ++ [(TOPIC_AUDIT, a)] ∧
                  audits a e o reason.
Proof.
  intros Ha. eexists. unfold audited. rewrite (ext_log _ _ _ (sent_extends _ _ _ _ _)).
  rewrite kept_acked by done. split; [reflexivity|]. by eexists.
Qed.

(** C17 (functional): the audit trail of one message.  When the broker
    acknowledges, a message leaves the world exactly like this: bytes that are no
    envelope leave no trace at all; a duplicate, and an event whose type or payload
    the registry does not know, are audited once with their reason and do not reach
    the handler; a handled event is audited once after the handler's own records;
    a failing handler leaves only its own records. *)
Theorem message_audited raw t w t' d w' :
  acks env →
  run env (consume raw (Some t)) w = (Ok (Some t', d), w') →
  match parse_envelope raw, d with
  | Err _, InvalidEnvelope => w' = w
  | Ok e, Skipped =>
      ∃ a, w_log w' = w_log w ++ [(TOPIC_AUDIT, a)] ∧ audits a e duplicate_skipped None
  | Ok e, Rejected reason =>
      payload_rejection e = Some reason ∧
      ∃ a, w_log w' = w_log w ++ [(TOPIC_AUDIT, a)] ∧ audits a e aud_rejected (Some reason)
  | Ok e, Handled =>
      payload_rejection e = None ∧ fst (run env (handler e) w) = Ok tt ∧
      ∃ a, w_log w' = w_log (snd (run env (handler e) w)) ++ [(TOPIC_AUDIT, a)] ∧
           audits a e accepted None
  | Ok e, HandlerFailed =>
      payload_rejection e = None ∧ ¬ is_ok (fst (run env (handler e) w)) ∧
      w' = snd (run env (handler e) w)
  | _, _ => False
  end.
Proof.
  intros Ha. rewrite run_message. unfold step.
  destruct (parse_envelope raw) as [e|err]; [|by intros [= <- <- <-]].
  destruct (dd_is_duplicate (env_event_id e) t) as [[] t1].
  { intros [= <- <- <-]. by apply audited_log. }
  destruct (payload_rejection e) as [reason|].
  { intros [= <- <- <-]. split; [done|]. by apply audited_log. }
  destruct (run env (handler e) w) as [[[]|err] w1]; intros [= <- <- <-].
  - split; [done|]. split; [done|]. by apply audited_log.
  - split; [done|]. split; [|done]. by intros [].
Qed.

(** ** At most once *)

(** The ids at stake: those the tracker knows and those of the messages. *)
Definition at_stake (ids : list UUID) (t : T) (messages : list Bytes) : Prop :=
  (length ids <= dd_capacity)%nat ∧ (∀ u, dd_recent t u → u ∈ ids) ∧
  ∀ raw e, raw ∈ messages → parse_envelope raw = Ok e → env_event_id e ∈ ids.

(** Message [raw] carries event [u]. *)
Definition carries (u : UUID) (raw : Bytes) : bool :=
  match parse_envelope raw with Ok e => env_event_id e =? u | Err _ => false end.

(** The branches that call the handler. *)
Definition called (d : Disposition) : bool :=
  match d with HandlerFailed | Handled => true | _ => false end.

Lemma step_known raw t w t' d w' ids :
  dd_ok t → (length ids <= dd_capacity)%nat → (∀ u, dd_recent t u → u ∈ ids) →
  (∀ e, parse_envelope raw = Ok e → env_event_id e ∈ ids) →
  step raw t w = (t', d, w') →
  dd_ok t' ∧ (∀ u, dd_recent t' u → u ∈ ids) ∧
  (∀ u, dd_recent t u → dd_recent t' u) ∧
  (∀ u, dd_recent t u → carries u raw = true → d = Skipped) ∧
  (∀ u, carries u raw = true → d = Handled → dd_recent t' u).
Proof.
  intros Hok Hlen Hsub Hraw. unfold step, carries.
  destruct (parse_envelope raw) as [e|err]; [|intros [= <- <- <-]; naive_solver].
  specialize (Hraw e eq_refl).
  destruct (dd_is_duplicate_spec (env_event_id e) t Hok) as (Hdup & Hok1 & Hrec1).
  destruct (dd_is_duplicate (env_event_id e) t) as [found t1]. cbn in Hdup, Hok1, Hrec1.
  assert (Hbase : dd_ok t1 ∧ (∀ u, dd_recent t1 u → u ∈ ids) ∧
                  (∀ u, dd_recent t u → dd_recent t1 u)) by naive_solver.
  destruct Hbase as (_ & Hsub1 & Hkeep1).
  destruct found.
  { intros [= <- <- <-]. naive_solver. }
  assert (Hnot : ¬ dd_recent t (env_event_id e)) by (intros Hr; by apply Hdup in Hr).
  destruct (payload_rejection e).
  { intros [= <- <- <-]. split_and!; auto; [|done]. intros u Hu <-%Z.eqb_eq. done. }
  destruct (run env (handler e) w) as [[]  w1].
  2: { intros [= <- <- <-]. split_and!; auto; [|done]. intros u Hu <-%Z.eqb_eq. done. }
  intros [= <- <- <-]. split_and!.
  - by apply dd_mark_ok.
  - intros u Hu. apply dd_mark_sound in Hu as [->|]; auto.
  - intros u Hu. eapply (dd_mark_complete _ _ _ ids); auto.
  - intros u Hu <-%Z.eqb_eq. done.
  - intros u <-%Z.eqb_eq _. eapply (dd_mark_complete _ _ _ ids); auto.
Qed.

(** C16 (safety): a handled event is not handled again.  Once the handler has
    returned for an event, or when the tracker knew it at the start, every later
    message with its id is skipped, whatever else arrives in between, as long as
    the ids at stake fit the tracker's capacity. *)
Theorem handled_at_most_once ids messages t w t' ds w' u :
  dd_ok t → at_stake ids t messages →
  run env (loop messages (Some t)) w = (Ok (Some t', ds), w') →
  (∀ j raw d, dd_recent t u → messages !! j = Some raw → carries u raw = true →
     ds !! j = Some d → d = Skipped) ∧
  (∀ i j rawi rawj d, (i < j)%nat → messages !! i = Some rawi → carries u rawi = true →
     ds !! i = Some Handled → messages !! j = Some rawj → carries u rawj = true →
     ds !! j = Some d → d = Skipped).
Proof.
  rewrite run_loop. revert t w t' ds w'.
  induction messages as [|raw messages IH]; intros t w t' ds w' Hok (Hlen & Hsub & Hms) Hrun.
  { split; intros; by destruct j. }
  cbn [steps] in Hrun. destruct (step raw t w) as [[t1 d1] w1] eqn:E1.
  destruct (steps messages t1 w1) as [[t2 ds2] w2] eqn:E2. simplify_eq.
  assert (Hraw : ∀ e, parse_envelope raw = Ok e → env_event_id e ∈ ids)
    by (intros e; apply Hms; by left).
  destruct (step_known _ _ _ _ _ _ ids Hok Hlen Hsub Hraw E1)
    as (Hok1 & Hsub1 & Hkeep & Hskip & Hknown).
  destruct (IH t1 w1 t' ds2 w' Hok1) as [IH1 IH2].
  { split; [done|]. split; [done|]. intros r e Hr. apply Hms. by right. }
  { by rewrite E2. }
  split.
  - intros [|j] rw d Hrec; cbn; intros Hj Hc Hd; simplify_eq; eauto.
  - intros [|i] [|j] ri rj d Hij; cbn; intros Hi Hci Hdi Hj Hcj Hdj; try lia; simplify_eq.
    + by eapply IH1; eauto.
    + eapply (IH2 i j); eauto. lia.
Qed.
End Facts.
