(* ===== verification/ResolutionApp.v ===== *)
(** * Customer-Resolution agent: the AgentCore entry point

    [_invoke] of [apps/agents/customer_resolution/agentcore_app.py]: a ticket and,
    if the caller has them, the peers' results, classified and ruled on in one call.
    It draws UUIDs and reads the clock, and does nothing else to the world.
    Pydantic's validation and serialisation and [json.loads] are parameters. *)

From Stdlib Require Import ZArith Bool Ascii String List Lia.
From stdpp Require Import base list strings gmap.
From S2P Require Import Prelude.
From S2P Require Import PyFloat.
From S2P Require Import Contracts.
From S2P Require Import Uuid.
From S2P Require Import CaseModels.
From S2P Require Import Drafter.
From S2P Require Import Classifier.
From S2P Require Import DecisionEngine.
From S2P Require Import DecisionFacts.
From S2P Require Import Normalize.
From S2P Require Import Async.
From S2P Require Import Execution.

Open Scope string_scope.
Open Scope list_scope.
Open Scope Z_scope.
Open Scope prog_scope.

#[local] Set Default Proof Using "Type".

Section App.
Context `{Uuids}.
(** The iteration order of the refund vocabulary. *)
Variable signals : list string.
(** [json.loads] (its error is a [JSONDecodeError]), and pydantic's [float | None] and [float(str)]. *)
Variable json_loads : string → result pyval.
Variable float_field : pyval → option (option float).
Variable float_of_str : string → option float.
(** [SupportTicketCreatedPayload(...)] on the values it is given. *)
Variable validate_ticket : pyval → pyval → float → pyval → pyval → datetime →
  result SupportTicketCreatedPayload.

(** [float(v)] with the text of the exception it raises. *)
Definition float_or_error (v : pyval) : result float :=
  match py_float float_of_str v with
  | Some f => Ok f
  | None =>
      Err (ValueError match v with
                      | VStr _ => "could not convert string to float: " +:+ py_repr v
                      | _ => "float() argument must be a string or a real number, not '" +:+
                             py_type_name v +:+ "'"
                      end)
  end.

(** [payload[key]] *)
Definition item (key : string) (payload : list (string * pyval)) : result pyval :=
  match dict_get key payload with Some v => Ok v | None => Err (KeyError key) end.

(** The ticket read from the payload, created at [t]. *)
Definition read_ticket (payload : list (string * pyval)) (t : datetime) :
    result SupportTicketCreatedPayload :=
  ticket_id ← item "ticket_id" payload;
  customer_id ← item "customer_id" payload;
  amount ← float_or_error (get_or "amount" payload (VFloat (lit 0 1)));
  validate_ticket ticket_id customer_id amount (get_or "currency" payload (VStr "USD"))
    (get_or "reason" payload (VStr "")) t.

(** [UUID(str(raw_case_id)) if raw_case_id else uuid4()], and [uuid4()] when the text is
    no UUID. *)
Definition read_case_id (payload : list (string * pyval)) : prog UUID :=
  let raw_case_id := get_or "case_id" payload VNone in
  if py_truthy raw_case_id
  then match parse_uuid (py_str raw_case_id) with Ok u => Ret u | Err _ => fresh_uuid end
  else fresh_uuid.

(** A supplied finding; a performer id that is not a string fails the finding's
    validation inside [normalize]. *)
Definition supplied_finding {F} (result_key performer_key peer : string)
    (normalize : UUID → string → list (string * pyval) → option F)
    (payload : list (string * pyval)) : prog (option F) :=
  match dict_get result_key payload with
  | Some (VDict data) =>
      let! task_id := fresh_uuid in
      Ret (match get_or performer_key payload (VStr peer) with
           | VStr performer => normalize task_id performer data
           | _ => None
           end)
  | _ => Ret None
  end.

(** [decision.model_dump(mode="json")] *)
Definition dump_decision (p : CustomerResponseDecisionPayload) : list (string * pyval) :=
  [ ("case_id", VStr (uuid_str (crd_case_id p))); ("ticket_id", VStr (crd_ticket_id p));
    ("customer_id", VStr (crd_customer_id p));
    ("outcome", VStr (ResolutionOutcome_value (crd_outcome p)));
    ("customer_response", VStr (crd_customer_response p));
    ("escalation_reason", vopt VStr (crd_escalation_reason p));
    ("billing_summary", vopt VStr (crd_billing_summary p));
    ("risk_summary", vopt VStr (crd_risk_summary p)); ("rationale", VStr (crd_rationale p)) ].

Definition answer_failed (error : string) (more : list (string * pyval)) : list (string * pyval) :=
  ("status", VStr "failed") :: ("error", VStr error) :: more.

(** From a ticket that is read: classify, collect the findings, decide. *)
Definition rule_on (payload : list (string * pyval)) (ticket : SupportTicketCreatedPayload) :
    prog (list (string * pyval)) :=
  let! triage := lift (classify signals ticket) in
  let! case_id := read_case_id payload in
  let! billing := supplied_finding "billing_result" "billing_performer_agent_id"
    BILLING_PEER_AGENT_ID (normalize_billing_result float_field) payload in
  let! risk := supplied_finding "risk_result" "risk_performer_agent_id" RISK_PEER_AGENT_ID
    (normalize_risk_result float_field float_of_str) payload in
  let! decision := lift (decide_case triage billing risk None
    {| di_case_id := case_id; di_ticket_id := stc_ticket_id ticket;
       di_customer_id := stc_customer_id ticket |}) in
  Ret (("status", VStr "completed") :: dump_decision decision).

Definition _invoke (payload : pyval) : prog (list (string * pyval)) :=
  match (match payload with VStr s => json_loads s | _ => Ok payload end) with
  | Err exc => Ret (answer_failed ("Invalid JSON payload: " +:+ exn_str exc) [])
  | Ok (VDict d) =>
      let! t := now in
      match read_ticket d t with
      | Err exc =>
          Ret (answer_failed (exn_str exc)
                 [("reason", VStr "Input validation failed (FR-011). No decision fabricated.")])
      | Ok ticket => rule_on d ticket
      end
  | Ok _ => Ret (answer_failed "Payload must be a JSON object." [])
  end.
End App.

(** ** What an invocation answers *)

Section Facts.
Context `{Uuids}.
Context (signals : list string) (json_loads : string → result pyval)
  (float_field : pyval → option (option float)) (float_of_str : string → option float)
  (validate_ticket : pyval → pyval → float → pyval → pyval → datetime →
     result SupportTicketCreatedPayload).
Context (env : Environment).

(** The payload as a dict, when it is one. *)
Definition payload_dict (payload : pyval) : option (list (string * pyval)) :=
  match (match payload with VStr s => json_loads s | _ => Ok payload end) with
  | Ok (VDict d) => Some d
  | _ => None
  end.

(** The caller's case id, when there is one and it is a UUID. *)
Definition given_case_id (payload : list (string * pyval)) : option UUID :=
  let raw := get_or "case_id" payload VNone in
  if py_truthy raw then match parse_uuid (py_str raw) with Ok u => Some u | Err _ => None end
  else None.

(** The data the caller supplied for a peer. *)
Definition given_data (result_key : string) (payload : list (string * pyval)) :
    option (list (string * pyval)) :=
  match dict_get result_key payload with Some (VDict data) => Some data | _ => None end.

(** The agent the caller names as a finding's performer, the peer by default. *)
Definition given_performer (performer_key peer : string) (payload : list (string * pyval)) :
    option string :=
  match get_or performer_key payload (VStr peer) with VStr p => Some p | _ => None end.

(** The finding that the caller's data normalises to, as the result of task [task]. *)
Definition given_finding {F} (result_key performer_key peer : string)
    (normalize : UUID → string → list (string * pyval) → option F)
    (payload : list (string * pyval)) (task : UUID) : option F :=
  data ← given_data result_key payload; performer ← given_performer performer_key peer payload;
  normalize task performer data.

Definition given_billing : list (string * pyval) → UUID → option BillingFinding :=
  given_finding "billing_result" "billing_performer_agent_id" BILLING_PEER_AGENT_ID
    (normalize_billing_result float_field).
Definition given_risk : list (string * pyval) → UUID → option RiskFinding :=
  given_finding "risk_result" "risk_performer_agent_id" RISK_PEER_AGENT_ID
    (normalize_risk_result float_field float_of_str).

(** A run that only draws UUIDs. *)
Definition silent (w w' : World) : Prop :=
  w_store w' = w_store w ∧ w_log w' = w_log w ∧ w_now w' = w_now w.

Lemma silent_trans w w1 w2 : silent w w1 → silent w1 w2 → silent w w2.
Proof. unfold silent. intuition congruence. Qed.

(** [u] is a UUID the run from [w] to [w'] drew. *)
Definition drawn (w w' : World) (u : UUID) : Prop :=
  ∃ n, (w_uuids w <= n < w_uuids w')%nat ∧ u = uuid4 n.

Definition advances (w w' : World) : Prop := silent w w' ∧ (w_uuids w <= w_uuids w')%nat.

Lemma drawn_widen w w1 w2 w' u :
  (w_uuids w <= w_uuids w1)%nat → (w_uuids w2 <= w_uuids w')%nat → drawn w1 w2 u → drawn w w' u.
Proof. intros H1 H2 (n & Hn & ->). exists n. split; [lia|done]. Qed.

(** The case id of the ruling: the caller's or a drawn one. *)
Definition ruled_case_id (d : list (string * pyval)) (w w' : World) (u : UUID) : Prop :=
  match given_case_id d with Some c => u = c | None => drawn w w' u end.

Lemma run_read_case_id d w :
  ∃ u w', run env (read_case_id d) w = (Ok u, w') ∧ advances w w' ∧ ruled_case_id d w w' u.
Proof.
  unfold read_case_id, ruled_case_id, given_case_id.
  assert (Hf : ∃ u w', run env fresh_uuid w = (Ok u, w') ∧ advances w w' ∧ drawn w w' u).
  { cbn. eexists _, _. split; [reflexivity|]. split; [split; [done|cbn; lia]|].
    exists (w_uuids w). cbn. split; [lia|done]. }
  destruct (py_truthy _); [|done]. destruct (parse_uuid _) as [u|]; [|done].
  exists u, w. split; [done|]. split; [split; [done|lia]|done].
Qed.

Lemma run_supplied {F} result_key performer_key peer
    (normalize : UUID → string → list (string * pyval) → option F) d w :
  ∃ u w', advances w w' ∧
    run env (supplied_finding result_key performer_key peer normalize d) w =
      (Ok (given_finding result_key performer_key peer normalize d u), w') ∧
    (is_Some (given_data result_key d) → drawn w w' u).
Proof.
  unfold supplied_finding, given_finding, given_performer, given_data.
  destruct (dict_get result_key d) as [[]|];
    try (exists (uuid4 (w_uuids w)), w; split; [split; [done|lia]|];
         split; [reflexivity|intros [? [=]]]).
  exists (uuid4 (w_uuids w)). eexists. split; [|split].
  2: { rewrite run_bind. cbn [run fresh_uuid]. cbn.
       destruct (get_or performer_key d (VStr peer)); reflexivity. }
  - split; [done|cbn; lia].
  - intros _. exists (w_uuids w). cbn. split; [lia|done].
Qed.

(** The answer is the decision engine's, on the caller's ticket and findings. *)
Definition decided_answer (d : list (string * pyval)) (ticket : SupportTicketCreatedPayload)
    (w w' : World) (answer : list (string * pyval)) : Prop :=
  ∃ triage case_id tb tr p,
    classify signals ticket = Ok triage ∧ ruled_case_id d w w' case_id ∧
    (is_Some (given_data "billing_result" d) → drawn w w' tb) ∧
    (is_Some (given_data "risk_result" d) → drawn w w' tr) ∧
    decide_case triage (given_billing d tb) (given_risk d tr) None
      {| di_case_id := case_id; di_ticket_id := stc_ticket_id ticket;
         di_customer_id := stc_customer_id ticket |} = Ok p ∧
    answer = ("status", VStr "completed") :: dump_decision p.

Lemma run_rule_on d ticket w :
  ∃ answer w', run env (rule_on signals float_field float_of_str d ticket) w = (Ok answer, w') ∧
    silent w w' ∧ decided_answer d ticket w w' answer.
Proof.
  unfold rule_on. rewrite run_bind, run_lift.
  destruct (classify_total signals ticket) as (triage & Hc & _). rewrite Hc, run_bind.
  destruct (run_read_case_id d w) as (u & w1 & -> & [H1 L1] & Hu). rewrite run_bind.
  destruct (run_supplied "billing_result" "billing_performer_agent_id" BILLING_PEER_AGENT_ID
              (normalize_billing_result float_field) d w1) as (tb & w2 & [H2 L2] & -> & Hb).
  rewrite run_bind.
  destruct (run_supplied "risk_result" "risk_performer_agent_id" RISK_PEER_AGENT_ID
              (normalize_risk_result float_field float_of_str) d w2) as (tr & w3 & [H3 L3] & -> & Hr).
  rewrite run_bind, run_lift. fold (given_billing d tb). fold (given_risk d tr).
  set (ids := {| di_case_id := u; di_ticket_id := _; di_customer_id := _ |}).
  destruct (decide_ruling triage (given_billing d tb) (given_risk d tr) None ids) as (p & Hp & _).
  rewrite Hp. eexists _, w3. split; [reflexivity|]. split.
  - eapply silent_trans; [exact H1|]. by eapply silent_trans.
  - exists triage, u, tb, tr, p. split_and!; try done.
    + unfold ruled_case_id in *. destruct (given_case_id d); [done|].
      eapply drawn_widen; [| |exact Hu]; lia.
    + intros Hs. eapply drawn_widen; [| |exact (Hb Hs)]; lia.
    + intros Hs. eapply drawn_widen; [| |exact (Hr Hs)]; lia.
Qed.

(** Without both findings the engine gives no verdict on a refund. *)
Lemma missing_finding_outcome triage b r ids p :
  b = None ∨ r = None → decide_case triage b r None ids = Ok p →
  (crd_outcome p, crd_escalation_reason p) =
  if tri_needs_refund_review triage then (ESCALATE_HUMAN, Some "missing_analysis")
  else (DIRECT_RESPONSE, None).
Proof.
  intros Hno Hp. destruct (decide_ruling triage b r None ids) as (q & Hq & Hrul & _).
  assert (q = p) as -> by congruence. unfold ruling_of in Hrul. rewrite Hrul.
  unfold truth_table, first_match. cbn [List.find fst].
  destruct (tri_needs_refund_review triage); cbn [negb andb]; [|done].
  destruct b, r; destruct Hno; try discriminate; done.
Qed.

(** C29 (safety): the AgentCore entry point fabricates nothing.  Whatever the payload,
    an invocation answers without raising, publishes nothing and touches no case.  A
    payload that is no JSON object, or holds no valid ticket, gets a failed answer;
    any other gets the decision engine's ruling on the classified ticket, under the case
    id the caller gave if that is a UUID and a freshly drawn one if not, and on exactly the
    findings the caller supplied: each peer's finding is the normalisation of the
    data under its key, by the performer the caller names, and none without
    it.  Without both findings the outcome is no verdict on the refund: a direct response
    when the ticket asks for none, otherwise an escalation for the missing analysis. *)
Theorem invocation_fabricates_nothing payload w :
  ∃ answer w', run env (_invoke signals json_loads float_field float_of_str validate_ticket payload) w
      = (Ok answer, w') ∧ silent w w' ∧
    match payload_dict payload with
    | None => ∃ error, answer = answer_failed error []
    | Some d =>
        match read_ticket float_of_str validate_ticket d (w_now w) with
        | Err exc => answer = answer_failed (exn_str exc)
            [("reason", VStr "Input validation failed (FR-011). No decision fabricated.")]
        | Ok ticket => decided_answer d ticket w w' answer ∧
            ((∀ task, given_billing d task = None) ∨ (∀ task, given_risk d task = None) →
             ∃ triage, classify signals ticket = Ok triage ∧
             let '(o, reason) := if tri_needs_refund_review triage
                                 then (ESCALATE_HUMAN, VStr "missing_analysis")
                                 else (DIRECT_RESPONSE, VNone) in
             dict_get "outcome" answer = Some (VStr (ResolutionOutcome_value o)) ∧
             dict_get "escalation_reason" answer = Some reason)
        end
    end.
Proof.
  unfold _invoke, payload_dict.
  destruct (match payload with VStr s => json_loads s | _ => Ok payload end) as [[]|exc];
    try (eexists _, w; split; [reflexivity|]; split; [done|]; by eexists).
  rewrite run_bind. cbn [run now reads].
  destruct (read_ticket _ _ d (w_now w)) as [ticket|exc]; [|by eexists _, w].
  destruct (run_rule_on d ticket w) as (answer & w' & Hr & Hs & Ha).
  exists answer, w'. split; [exact Hr|]. split; [done|]. split; [done|].
  destruct Ha as (triage & u & tb & tr & p & Hc & _ & _ & _ & Hp & ->).
  intros Hno. exists triage. split; [done|].
  apply missing_finding_outcome in Hp; [|by destruct Hno as [Hno|Hno]; rewrite Hno; auto].
  by destruct (tri_needs_refund_review triage); injection Hp as Ho He; cbn; rewrite Ho, He.
Qed.
End Facts.
