(* ===== verification/Runtime.v ===== *)
(** * The agent runtime

    [src/agent_foundation/runtime/runtime.py]: registration of capability
    handlers, the life cycle of one task request ([_handle_message]), the serve
    loop, the published card, and the heartbeat of
    [observability/heartbeat.py] that [serve] runs beside it.

    A message is its bytes; [parse_envelope] is [EventEnvelope.model_validate_json]
    and [validation_error] the exception [TaskRequest.model_validate] raises for a
    payload that is not a task request.  The spans around a task are left out
    (see [Telemetry]). *)

From Stdlib Require Import ZArith Bool Ascii String List Lia.
From stdpp Require Import base list strings gmap sorting.
From S2P Require Import Prelude.
From S2P Require Import PyFloat.
From S2P Require Import Contracts.
From S2P Require Import Uuid.
From S2P Require Import Idempotency.
From S2P Require Import A2A.
From S2P Require Import Envelope.
From S2P Require Import Async.
From S2P Require Import PyNumber.
From S2P Require Import LlmConfig.
From S2P Require Import ObsConfig.
From S2P Require Import Consumer.
From S2P Require Import Transport.

Open Scope string_scope.
Open Scope list_scope.
Open Scope Z_scope.
Open Scope prog_scope.

(** ** The runtime object *)

Definition TaskHandler : Type := TaskRequest → prog A2AMessage.

Record AgentRuntime := {
  rt_identity : AgentIdentity;
  rt_card : AgentCard;
  rt_capability_ids : list string;
  rt_handlers : list (string * TaskHandler);
}.

(** [_capability_ids] is computed once, from the first card. *)
Definition new_runtime (identity : AgentIdentity) (card : AgentCard) : AgentRuntime :=
  {| rt_identity := identity; rt_card := card;
     rt_capability_ids := remove_dups (map cap_id (card_capabilities card)); rt_handlers := [] |}.

(** [repr] of a list of texts. *)
Definition py_repr_list (l : list string) : string :=
  "[" +:+ py_join ", " (map py_repr_str l) +:+ "]".

(** [@runtime.handler(capability_id)]: a handler registered again replaces the
    first; the newest registration is found first. *)
Definition register (capability_id : string) (fn : TaskHandler) (rt : AgentRuntime) :
    result AgentRuntime :=
  if str_in capability_id (rt_capability_ids rt)
  then Ok {| rt_identity := rt_identity rt; rt_card := rt_card rt;
             rt_capability_ids := rt_capability_ids rt; rt_handlers := (capability_id, fn) :: rt_handlers rt |}
  else Err (ValueError ("Capability " +:+ py_repr_str capability_id +:+
              " is not declared on the agent card; declared: " +:+
              py_repr_list (merge_sort String.le (rt_capability_ids rt)))).

Section Publishing.
Context `{Uuids}.

(** [_publish_card] *)
Definition _publish_card (rt : AgentRuntime) : prog unit :=
  let! event_id := fresh_uuid in
  let! correlation_id := fresh_uuid in
  let! timestamp := now in
  let! card_envelope := lift (mk_envelope {|
    env_event_id := event_id;
    env_correlation_id := correlation_id;
    env_causation_id := None;
    env_agent_id := id_agent_id (rt_identity rt);
    env_tenant_id := id_tenant_id (rt_identity rt);
    env_timestamp := timestamp;
    env_event_type := "agent.agent_card.v1";
    env_schema_version := "1.0.0";
    env_payload := P_Card (rt_card rt) |}) in
  publish_raw_quietly card_envelope TOPIC_AGENT_CARD (Some (id_agent_id (rt_identity rt))).

(** [republish_card(card)]: a new card is published, but the requests are still
    checked against the capabilities of the first one; while [serve] runs ([publishing]) or not. *)
Definition republish_card (card : option AgentCard) (publishing : bool) (rt : AgentRuntime) :
    prog AgentRuntime :=
  let rt := match card with
            | Some card => {| rt_identity := rt_identity rt; rt_card := card;
                              rt_capability_ids := rt_capability_ids rt;
                              rt_handlers := rt_handlers rt |}
            | None => rt
            end in
  (if publishing then _publish_card rt else Ret tt) ;!
  Ret rt.

(** [_publish_result] *)
Definition _publish_result (rt : AgentRuntime) (result : TaskResult)
    (request_envelope : EventEnvelope) : prog unit :=
  let! event_id := fresh_uuid in
  let! timestamp := now in
  let! result_envelope := lift (mk_envelope {|
    env_event_id := event_id;
    env_correlation_id := env_correlation_id request_envelope;
    env_causation_id := Some (env_event_id request_envelope);
    env_agent_id := id_agent_id (rt_identity rt);
    env_tenant_id := id_tenant_id (rt_identity rt);
    env_timestamp := timestamp;
    env_event_type := "agent.task_result.v1";
    env_schema_version := "1.0.0";
    env_payload := P_TaskResult result |}) in
  publish_raw_quietly result_envelope TOPIC_TASK_RESULT None.

(** ** The heartbeat *)

Definition TOPIC_HEARTBEAT : string := "system.agent.heartbeat".

(** [HeartbeatEmitter._build_envelope] *)
Definition heartbeat_envelope (identity : AgentIdentity) (interval_s : float)
    (event_id correlation_id : UUID) (t : datetime) : result EventEnvelope :=
  mk_envelope {|
    env_event_id := event_id;
    env_correlation_id := correlation_id;
    env_causation_id := None;
    env_agent_id := id_agent_id identity;
    env_tenant_id := id_tenant_id identity;
    env_timestamp := t;
    env_event_type := "system.agent.heartbeat.v1";
    env_schema_version := "1.0.0";
    env_payload := P_Other (VDict [("agent_id", VStr (id_agent_id identity));
                                   ("emitted_at", VStr (isoformat t));
                                   ("interval_s", VFloat interval_s)]) |}.

(** [is_enabled] *)
Definition heartbeat_enabled (interval_s : float) : bool := (lit 0 1 <? interval_s)%pf.

(** [emit_once]: any error is swallowed. *)
Definition emit_once (identity : AgentIdentity) (interval_s : float) : prog unit :=
  if negb (heartbeat_enabled interval_s) then Ret tt
  else
    catch
      (let! t := now in
       let! event_id := fresh_uuid in
       let! correlation_id := fresh_uuid in
       let! envelope := lift (heartbeat_envelope identity interval_s event_id correlation_id t) in
       publish_raw envelope TOPIC_HEARTBEAT None)
      (λ _, Ret tt).

(** [HeartbeatEmitter.run(stop_event)], the first [turns] turns of its loop. *)
Fixpoint heartbeat_loop (identity : AgentIdentity) (interval_s : float) (turns : nat) : prog unit :=
  match turns with
  | O => Ret tt
  | S turns =>
      emit_once identity interval_s ;!
      let! stopped := Await (WaitStop interval_s) Ret in
      if stopped : bool then Ret tt else heartbeat_loop identity interval_s turns
  end.

Definition heartbeat_run (identity : AgentIdentity) (interval_s : float) (turns : nat) : prog unit :=
  if negb (heartbeat_enabled interval_s) then Ret tt else heartbeat_loop identity interval_s turns.

(** ** The background tasks of [serve] *)

(** The loop of [_republish_card_loop], its first [turns] turns. *)
Fixpoint card_loop (rt : AgentRuntime) (interval_s : float) (turns : nat) : prog unit :=
  match turns with
  | O => Ret tt
  | S turns =>
      let! stopped := Await (WaitStop interval_s) Ret in
      if stopped : bool then Ret tt
      else _publish_card rt ;! card_loop rt interval_s turns
  end.

Definition _republish_card_loop (rt : AgentRuntime) (interval_s : float) (turns : nat) : prog unit :=
  if (interval_s <=? lit 0 1)%pf then Ret tt else card_loop rt interval_s turns.

(** [_start_background_tasks]: the tasks it creates, from the environment. *)
Definition _start_background_tasks (environ : string → option string) (rt : AgentRuntime)
    (turns : nat) : list (prog unit) :=
  let obs := ObsConfig.from_env environ (id_agent_id (rt_identity rt)) in
  let hb_interval := if oc_enabled obs then oc_heartbeat_interval_s obs else lit 0 1 in
  let card_interval := float_or environ "AGENT_CARD_REPUBLISH_INTERVAL_S" "30" (lit 30 1) in
  (if heartbeat_enabled hb_interval then [heartbeat_run (rt_identity rt) hb_interval turns] else []) ++
  (if (lit 0 1 <? card_interval)%pf then [_republish_card_loop rt card_interval turns] else []).
End Publishing.

(** ** The life cycle of one request *)

(** [envelope.payload.get("task_id")] of the dumped payload. *)
Definition payload_task_id (p : EventPayload) : pyval :=
  match p with
  | P_Message m => vopt (λ u, VStr (uuid_str u)) (msg_task_id m)
  | P_Audit a => vopt (λ u, VStr (uuid_str u)) (aud_task_id a)
  | P_TaskRequest r => VStr (uuid_str (tr_task_id r))
  | P_TaskResult r => VStr (uuid_str (tres_task_id r))
  | P_Other (VDict d) => default VNone (dict_get "task_id" d)
  | _ => VNone
  end.

(** [str(exc)[:500]] *)
Definition error_text (e : exn) : string := py_take 500 (exn_str e).

Section Serving.
Context `{Uuids}.
Context {Bytes : Type} (parse_envelope : Bytes → result EventEnvelope).
Context {T : Type} `{!Dedup T}.
Variable validation_error : EventPayload → exn.
Variable rt : AgentRuntime.

(** [TaskRequest.model_validate(envelope.payload)] *)
Definition validate_request (p : EventPayload) : result TaskRequest :=
  match p with P_TaskRequest r => Ok r | _ => Err (validation_error p) end.

(** Publish a result without output, and audit it. *)
Definition refuse (envelope : EventEnvelope) (task_id : UUID) (status : TaskStatus)
    (category : ErrorCategory) (message : string) (outcome : AuditOutcome)
    (audit_task : option UUID) (reason : string) : prog unit :=
  let! result := lift (validate_status_fields {|
    tres_task_id := task_id; tres_status := status;
    tres_performer_agent_id := id_agent_id (rt_identity rt);
    tres_output := None;
    tres_error := Some {| te_category := category; te_message := message |} |}) in
  _publish_result rt result envelope ;!
  write_task_audit (rt_identity rt) envelope outcome audit_task (Some reason).

(** A payload that is not a task request: [UUID(str(raw_task_id))] is outside the
    [try], so a malformed id leaves [_handle_message]. *)
Definition reject_payload (envelope : EventEnvelope) (exc : exn) : prog unit :=
  let raw_task_id := payload_task_id (env_payload envelope) in
  let! task_id := if py_truthy raw_task_id then lift (uuid_of_value raw_task_id)
                  else fresh_uuid in
  refuse envelope task_id rejected cat_validation (error_text exc) aud_rejected None
    (error_text exc).

(** The handler's call, its result and audit; [except Exception: pass] outside. *)
Definition perform (envelope : EventEnvelope) (req : TaskRequest) (handler : TaskHandler) :
    prog unit :=
  catch
    (catch
      (let! output := handler req in
       let! result := lift (validate_status_fields {|
         tres_task_id := tr_task_id req; tres_status := completed;
         tres_performer_agent_id := id_agent_id (rt_identity rt);
         tres_output := Some output; tres_error := None |}) in
       _publish_result rt result envelope ;!
       write_task_audit (rt_identity rt) envelope aud_completed (Some (tr_task_id req)) None)
      (λ exc,
        refuse envelope (tr_task_id req) failed cat_handler_error (error_text exc) aud_failed
          (Some (tr_task_id req)) (error_text exc)))
    (λ _, Ret tt).

(** The [try] around the duplicate check: [true] when the request is skipped. *)
Definition skip_duplicate (envelope : EventEnvelope) (task_id : UUID) (tracker : T) :
    prog (bool * T) :=
  let '(found, tracker) := dd_is_duplicate task_id tracker in
  if found : bool
  then catch (write_task_audit (rt_identity rt) envelope duplicate_skipped (Some task_id) None ;!
              Ret (true, tracker)) (λ _, Ret (false, tracker))
  else Ret (false, tracker).

(** A request that is addressed to this agent and names a declared capability. *)
Definition accept_request (envelope : EventEnvelope) (req : TaskRequest) (tracker : T) : prog T :=
  let! (skipped, tracker) := skip_duplicate envelope (tr_task_id req) tracker in
  if skipped : bool then Ret tracker
  else
    write_task_audit (rt_identity rt) envelope accepted (Some (tr_task_id req)) None ;!
    match assoc_get (tr_capability req) (rt_handlers rt) with
    | None =>
        refuse envelope (tr_task_id req) failed cat_internal
          "No handler registered for this capability" aud_failed (Some (tr_task_id req))
          "no_handler" ;!
        Ret tracker
    | Some handler =>
        perform envelope req handler ;!
        tracker_mark (tr_task_id req) tracker
    end.

Definition _handle_message (raw : Bytes) (tracker : T) : prog T :=
  match parse_envelope raw with
  | Err _ => Ret tracker
  | Ok envelope =>
      match validate_request (env_payload envelope) with
      | Err exc => reject_payload envelope exc ;! Ret tracker
      | Ok req =>
          if negb (String.eqb (tr_target_agent_id req) (id_agent_id (rt_identity rt))) then
            refuse envelope (tr_task_id req) rejected cat_validation
              ("This agent is " +:+ py_repr_str (id_agent_id (rt_identity rt)) +:+ ", not " +:+
               py_repr_str (tr_target_agent_id req))
              aud_rejected (Some (tr_task_id req)) "wrong_target" ;!
            Ret tracker
          else if negb (str_in (tr_capability req) (rt_capability_ids rt)) then
            refuse envelope (tr_task_id req) rejected cat_unsupported_capability
              ("Capability " +:+ py_repr_str (tr_capability req) +:+ " is not supported")
              aud_rejected (Some (tr_task_id req)) "unsupported_capability" ;!
            Ret tracker
          else accept_request envelope req tracker
      end
  end.

(** The [while True] loop of [serve], over the messages of the endpoint topic until the
    stop event is set or [getone] raises (which is logged). *)
Fixpoint serve_loop (messages : list Bytes) (tracker : T) : prog T :=
  match messages with
  | [] => Ret tracker
  | raw :: messages =>
      let! tracker := _handle_message raw tracker in
      serve_loop messages tracker
  end.

(** [serve]; the heartbeat and the card loop are threads of their own, which end when it
    does. *)
Definition serve (tracker : T) (messages : list Bytes) : prog unit :=
  wire ProducerStart ;!
  try_finally
    (wire (CreateTopics [endpoint_topic (id_agent_id (rt_identity rt))]) ;!
     _publish_card rt ;!
     let! tracker := tracker_initialize tracker in
     wire ConsumerStart ;!
     try_finally (let! _ := serve_loop messages tracker in Ret tt) (wire ConsumerStop))
    (wire ProducerStop).
End Serving.
