(* ===== verification/RuntimeFacts.v ===== *)
(** * What an endpoint promises its peers

    Facts about [_handle_message] and the serve loop, for any registered handlers:
    the table of answers, at-most-once execution per task id, the validity of every
    result, and exactly which message stops the endpoint. *)

From Stdlib Require Import ZArith Bool Ascii String List Lia.
From stdpp Require Import base list strings gmap.
From S2P Require Import Prelude.
From S2P Require Import PyFloat.
From S2P Require Import Contracts.
From S2P Require Import Uuid.
From S2P Require Import Idempotency.
From S2P Require Import A2A.
From S2P Require Import Envelope.
From S2P Require Import Async.
From S2P Require Import Consumer.
From S2P Require Import Execution.
From S2P Require Import Transport.
From S2P Require Import Runtime.

Open Scope string_scope.
Open Scope list_scope.
Open Scope Z_scope.
Open Scope prog_scope.

#[local] Set Default Proof Using "Type*".

Section Facts.
Context `{Uuids}.
Context {Bytes : Type} (parse_envelope : Bytes → result EventEnvelope).
Context {T : Type} `{!Dedup T}.
Context (validation_error : EventPayload → exn).
Context (rt : AgentRuntime) (Hid : valid_identity (rt_identity rt)).
Context (env : Environment).

Abbreviation handle := (_handle_message parse_envelope validation_error rt).
Abbreviation endpoint := (serve_loop parse_envelope validation_error rt).
Abbreviation me := (id_agent_id (rt_identity rt)).

(** ** Results *)

(** The result envelope for a request, at world [w]. *)
Definition result_by (r : TaskResult) (e : EventEnvelope) (w : World) : EventEnvelope := {|
  env_event_id := uuid4 (w_uuids w);
  env_correlation_id := env_correlation_id e;
  env_causation_id := Some (env_event_id e);
  env_agent_id := me;
  env_tenant_id := id_tenant_id (rt_identity rt);
  env_timestamp := w_now w;
  env_event_type := "agent.task_result.v1";
  env_schema_version := "1.0.0";
  env_payload := P_TaskResult r |}.

Definition result_sent (r : TaskResult) (e : EventEnvelope) (w : World) : World :=
  sent env TOPIC_TASK_RESULT (result_by r e w) (drawn w).

Definition audit_sent (e : EventEnvelope) (o : AuditOutcome) (task : option UUID)
    (reason : option string) (w : World) : World :=
  sent env TOPIC_AUDIT (audit_by (rt_identity rt) e o task reason w) (drawn w).

(** A result and its audit. *)
Definition concluded (r : TaskResult) (e : EventEnvelope) (o : AuditOutcome)
    (task : option UUID) (reason : option string) (w : World) : World :=
  audit_sent e o task reason (result_sent r e w).

Lemma run_publish_result r e w :
  run env (_publish_result rt r e) w = (Ok tt, result_sent r e w).
Proof.
  destruct Hid as [Ha Ht]. unfold _publish_result.
  rewrite run_bind. cbn [run fresh_uuid]. rewrite run_bind. cbn [run now reads].
  rewrite run_bind, run_lift, mk_envelope_ok by (done || (vm_compute; reflexivity)).
  cbv beta iota. by rewrite run_quietly.
Qed.

Lemma run_audit_sent e o task reason w :
  reason_ok o reason →
  run env (write_task_audit (rt_identity rt) e o task reason) w =
  (Ok tt, audit_sent e o task reason w).
Proof. intros Hr. by rewrite run_task_audit. Qed.

(** A result without output, of a status and category that go together. *)
Definition error_result (task : UUID) (status : TaskStatus) (category : ErrorCategory)
    (message : string) : TaskResult := {|
  tres_task_id := task; tres_status := status; tres_performer_agent_id := me;
  tres_output := None; tres_error := Some {| te_category := category; te_message := message |} |}.

Definition matching (status : TaskStatus) (category : ErrorCategory) : bool :=
  match status, category with
  | failed, (cat_handler_error | cat_internal) => true
  | rejected, (cat_validation | cat_unsupported_capability | cat_duplicate) => true
  | _, _ => false
  end.

Lemma error_result_valid task status category message :
  matching status category = true →
  validate_status_fields (error_result task status category message) =
  Ok (error_result task status category message).
Proof. by destruct status, category. Qed.

Lemma run_refuse e task status category message o audit_task reason w :
  matching status category = true → 
  run env (refuse rt e task status category message o audit_task reason) w =
  (Ok tt, concluded (error_result task status category message) e o audit_task (Some reason) w).
Proof.
  intros Hm. unfold refuse. rewrite run_bind, run_lift.
  change {| tres_task_id := task; tres_status := status; tres_performer_agent_id := me;
            tres_output := None;
            tres_error := Some {| te_category := category; te_message := message |} |}
    with (error_result task status category message).
  rewrite error_result_valid by done. cbv beta iota.
  rewrite run_bind, run_publish_result. cbv beta iota. by rewrite run_audit_sent.
Qed.

(** The result of a handler's run. *)
Definition result_for (req : TaskRequest) (answer : result A2AMessage) : TaskResult :=
  match answer with
  | Ok output => {| tres_task_id := tr_task_id req; tres_status := completed;
                    tres_performer_agent_id := me; tres_output := Some output;
                    tres_error := None |}
  | Err exc => error_result (tr_task_id req) failed cat_handler_error (error_text exc)
  end.

Definition outcome_for (answer : result A2AMessage) : AuditOutcome * option string :=
  match answer with
  | Ok _ => (aud_completed, None)
  | Err exc => (aud_failed, Some (error_text exc))
  end.

Lemma result_for_valid req answer :
  validate_status_fields (result_for req answer) = Ok (result_for req answer).
Proof. destruct answer; [done|by apply error_result_valid]. Qed.

Lemma run_perform e req h w :
  run env (perform rt e req h) w =
  let '(answer, w1) := run env (h req) w in
  (Ok tt, concluded (result_for req answer) e (fst (outcome_for answer)) (Some (tr_task_id req))
            (snd (outcome_for answer)) w1).
Proof.
  unfold perform. rewrite run_catch, run_catch, run_bind.
  destruct (run env (h req) w) as [[output|exc] w1]; cbv beta iota.
  - rewrite run_bind, run_lift.
    change {| tres_task_id := tr_task_id req; tres_status := completed;
              tres_performer_agent_id := me; tres_output := Some output; tres_error := None |}
      with (result_for req (Ok output)).
    rewrite result_for_valid. cbv beta iota. rewrite run_bind, run_publish_result.
    cbv beta iota. by rewrite run_audit_sent by (by intros [|]).
  - by rewrite run_refuse.
Qed.

(** ** The table of answers *)

Inductive Verdict :=
| WrongTarget
| Unsupported
| Duplicate
| NoHandler
| Perform (h : TaskHandler).

(** What a request deserves, [known] telling that its task id was processed. *)
Definition verdict (req : TaskRequest) (known : bool) : Verdict :=
  first_match
    [ (negb (String.eqb (tr_target_agent_id req) me), WrongTarget);
      (negb (str_in (tr_capability req) (rt_capability_ids rt)), Unsupported);
      (known, Duplicate) ]
    (match assoc_get (tr_capability req) (rt_handlers rt) with
     | None => NoHandler
     | Some h => Perform h
     end).

(** The world after a request of this verdict. *)
Definition answered (e : EventEnvelope) (req : TaskRequest) (v : Verdict) (w : World) : World :=
  let task := tr_task_id req in
  match v with
  | WrongTarget =>
      concluded (error_result task rejected cat_validation
        ("This agent is " +:+ py_repr_str me +:+ ", not " +:+ py_repr_str (tr_target_agent_id req)))
        e aud_rejected (Some task) (Some "wrong_target") w
  | Unsupported =>
      concluded (error_result task rejected cat_unsupported_capability
        ("Capability " +:+ py_repr_str (tr_capability req) +:+ " is not supported"))
        e aud_rejected (Some task) (Some "unsupported_capability") w
  | Duplicate => audit_sent e duplicate_skipped (Some task) None w
  | NoHandler =>
      concluded (error_result task failed cat_internal "No handler registered for this capability")
        e aud_failed (Some task) (Some "no_handler")
        (audit_sent e accepted (Some task) None w)
  | Perform h =>
      let '(answer, w1) := run env (h req) (audit_sent e accepted (Some task) None w) in
      concluded (result_for req answer) e (fst (outcome_for answer)) (Some task)
        (snd (outcome_for answer)) w1
  end.

(** The tracker after it, in the world [w] the answer left. *)
Definition tracked (req : TaskRequest) (v : Verdict) (t : T) (w : World) : T :=
  let t1 := snd (dd_is_duplicate (tr_task_id req) t) in
  match v with
  | WrongTarget | Unsupported => t
  | Duplicate | NoHandler => t1
  | Perform _ =>
      dd_mark_processed (tr_task_id req)
        (written (env _ (Persist (dd_topic t1) (uuid_str (tr_task_id req))) w)) t1
  end.

Lemma run_request raw e req t w :
  parse_envelope raw = Ok e → env_payload e = P_TaskRequest req →
  let v := verdict req (fst (dd_is_duplicate (tr_task_id req) t)) in
  run env (handle raw t) w = (Ok (tracked req v t (answered e req v w)), answered e req v w).
Proof.
  intros He Hp. cbv zeta. unfold _handle_message. rewrite He, Hp. cbn [validate_request].
  unfold verdict. cbn [first_match List.find fst].
  destruct (negb (String.eqb (tr_target_agent_id req) me)); cbn [first_match List.find fst snd].
  { by rewrite run_bind, run_refuse. }
  destruct (negb (str_in (tr_capability req) (rt_capability_ids rt))); cbn [List.find fst snd].
  { by rewrite run_bind, run_refuse. }
  unfold accept_request, skip_duplicate. rewrite run_bind.
  unfold tracked. destruct (dd_is_duplicate (tr_task_id req) t) as [[] t1]; cbn [fst snd first_match List.find].
  { rewrite run_catch, run_bind, run_audit_sent by (by intros [|]). reflexivity. }
  cbn [run]. rewrite run_bind, run_audit_sent by (by intros [|]). cbv beta iota.
  destruct (assoc_get (tr_capability req) (rt_handlers rt)) as [h|].
  - rewrite run_bind, run_perform. cbn [answered].
    destruct (run env (h req) _) as [answer w1]. reflexivity.
  - by rewrite run_bind, run_refuse.
Qed.

(** A result envelope of request [e], with a valid result. *)
Definition is_result (entry : string * EventEnvelope) (r : TaskResult) (e : EventEnvelope) : Prop :=
  fst entry = TOPIC_TASK_RESULT ∧ env_payload (snd entry) = P_TaskResult r ∧
  validate_status_fields r = Ok r ∧
  env_correlation_id (snd entry) = env_correlation_id e ∧
  env_causation_id (snd entry) = Some (env_event_id e) ∧ env_agent_id (snd entry) = me.

Definition is_audit (entry : string * EventEnvelope) (e : EventEnvelope) (o : AuditOutcome)
    (task : option UUID) (reason : option string) : Prop :=
  fst entry = TOPIC_AUDIT ∧
  ∃ a, env_payload (snd entry) = P_Audit a ∧ aud_original_envelope a = e ∧ aud_outcome a = o ∧
       aud_task_id a = task ∧ aud_reason a = reason.

Lemma audit_sent_extends e o task reason w :
  acks env → ∃ ea, extends w (audit_sent e o task reason w) [ea] ∧ is_audit ea e o task reason.
Proof.
  intros Ha. eexists. split.
  - pose proof (audit_extends env (rt_identity rt) e o task reason w) as Hx.
    rewrite kept_acked in Hx by done. exact Hx.
  - split; [done|]. by eexists.
Qed.

Lemma result_sent_extends r e w :
  acks env → validate_status_fields r = Ok r →
  ∃ er, extends w (result_sent r e w) [er] ∧ is_result er r e.
Proof.
  intros Ha Hr. exists (TOPIC_TASK_RESULT, result_by r e w). split; [|by split_and!].
  destruct (sent_extends env None TOPIC_TASK_RESULT (result_by r e w) (drawn w)) as [H1 H2 H3].
  rewrite kept_acked in H3 by done. by constructor.
Qed.

Lemma concluded_extends r e o task reason w :
  acks env → validate_status_fields r = Ok r →
  ∃ er ea, extends w (concluded r e o task reason w) [er; ea] ∧
           is_result er r e ∧ is_audit ea e o task reason.
Proof.
  intros Ha Hr. destruct (result_sent_extends r e w Ha Hr) as (er & H1 & Her).
  destruct (audit_sent_extends e o task reason (result_sent r e w) Ha) as (ea & H2 & Hea).
  exists er, ea. split; [exact (extends_trans _ _ _ _ _ H1 H2)|done].
Qed.

(** The records of a handler's run. *)
Lemma answered_perform e req h w :
  acks env →
  ∃ ea w1, extends w w1 [ea] ∧ is_audit ea e accepted (Some (tr_task_id req)) None ∧
  let '(answer, w2) := run env (h req) w1 in
  ∃ er eb, extends w2 (answered e req (Perform h) w) [er; eb] ∧
    is_result er (result_for req answer) e ∧
    is_audit eb e (fst (outcome_for answer)) (Some (tr_task_id req)) (snd (outcome_for answer)).
Proof.
  intros Ha. cbn [answered].
  destruct (audit_sent_extends e accepted (Some (tr_task_id req)) None w Ha) as (ea & Hl & Hea).
  exists ea, (audit_sent e accepted (Some (tr_task_id req)) None w). split; [done|].
  split; [done|]. destruct (run env (h req) _) as [answer w2].
  apply concluded_extends; [done|apply result_for_valid].
Qed.

(** C11 (functional): the endpoint's contract.  When the broker acknowledges, a
    task request gets exactly the answer its verdict calls for: a request for
    another agent or an undeclared capability one rejected result; a request
    processed before no result; a declared capability without a handler one failed
    result; and otherwise the handler runs once, between the accepted audit and one
    result, completed with its output or failed with its error.  Every result is a
    valid [TaskResult] of this agent, correlated with and caused by the request. *)
Theorem request_answered raw e req t w :
  acks env → parse_envelope raw = Ok e → env_payload e = P_TaskRequest req →
  let task := tr_task_id req in
  ∃ t' w', run env (handle raw t) w = (Ok t', w') ∧
  match verdict req (fst (dd_is_duplicate task t)) with
  | WrongTarget => ∃ text er ea, extends w w' [er; ea] ∧
      is_result er (error_result task rejected cat_validation text) e ∧
      is_audit ea e aud_rejected (Some task) (Some "wrong_target")
  | Unsupported => ∃ text er ea, extends w w' [er; ea] ∧
      is_result er (error_result task rejected cat_unsupported_capability text) e ∧
      is_audit ea e aud_rejected (Some task) (Some "unsupported_capability")
  | Duplicate => ∃ ea, extends w w' [ea] ∧ is_audit ea e duplicate_skipped (Some task) None
  | NoHandler => ∃ text ea er eb, extends w w' [ea; er; eb] ∧
      is_audit ea e accepted (Some task) None ∧
      is_result er (error_result task failed cat_internal text) e ∧
      is_audit eb e aud_failed (Some task) (Some "no_handler")
  | Perform h => ∃ ea w1, extends w w1 [ea] ∧ is_audit ea e accepted (Some task) None ∧
      let '(answer, w2) := run env (h req) w1 in
      ∃ er eb, extends w2 w' [er; eb] ∧ is_result er (result_for req answer) e ∧
        is_audit eb e (fst (outcome_for answer)) (Some task) (snd (outcome_for answer))
  end.
Proof.
  intros Ha He Hp. cbv zeta. rewrite (run_request raw e req t w He Hp).
  eexists _, _. split; [reflexivity|].
  destruct (verdict req (fst (dd_is_duplicate (tr_task_id req) t))) as [| | | |h]; cbn [answered].
  - eexists. by apply concluded_extends.
  - eexists. by apply concluded_extends.
  - by apply audit_sent_extends.
  - destruct (audit_sent_extends e accepted (Some (tr_task_id req)) None w Ha) as (ea & Hx & Hea).
    destruct (concluded_extends (error_result (tr_task_id req) failed cat_internal
      "No handler registered for this capability") e aud_failed (Some (tr_task_id req))
      (Some "no_handler") (audit_sent e accepted (Some (tr_task_id req)) None w) Ha eq_refl)
      as (er & eb & Hx' & Her & Heb).
    eexists _, ea, er, eb. split; [exact (extends_trans _ _ _ _ _ Hx Hx')|]. by split_and!.
  - by apply answered_perform.
Qed.

(** A new request whose handler publishes one record and answers: four records. *)
Lemma run_published_answer raw e req t w h (spec : A2AMessage → string * EventEnvelope → Prop) :
  acks env → parse_envelope raw = Ok e → env_payload e = P_TaskRequest req →
  verdict req (fst (dd_is_duplicate (tr_task_id req) t)) = Perform h →
  (∀ w1, ∃ out topic ev, run env (h req) w1 = (Ok out, delivered topic ev w1) ∧
     spec out (topic, ev)) →
  ∃ t' w' out ea ev er eb,
    run env (handle raw t) w = (Ok t', w') ∧ extends w w' [ea; ev; er; eb] ∧
    spec out ev ∧ is_audit ea e accepted (Some (tr_task_id req)) None ∧
    is_result er (result_for req (Ok out)) e ∧
    is_audit eb e aud_completed (Some (tr_task_id req)) None.
Proof.
  intros Ha He Hp Hv Hh. rewrite (run_request raw e req t w He Hp), Hv.
  destruct (answered_perform e req h w Ha) as (ea & w1 & Hx1 & Hea & Hw).
  destruct (Hh w1) as (out & topic & ev & Hrun & Hs). rewrite Hrun in Hw.
  destruct Hw as (er & eb & Hx2 & Her & Heb).
  eexists _, _, out, ea, (topic, ev), er, eb. split; [reflexivity|].
  split; [|by split_and!].
  assert (Hd : extends w1 (delivered topic ev w1) [(topic, ev)]) by by constructor.
  exact (extends_trans _ _ _ _ _ Hx1 (extends_trans _ _ _ _ _ Hd Hx2)).
Qed.

(** ** At most once *)

(** Message [raw] makes the handler run for task [u]. *)
Definition performs (u : UUID) (raw : Bytes) (t : T) : bool :=
  match parse_envelope raw with
  | Ok e =>
      match env_payload e with
      | P_TaskRequest req =>
          (tr_task_id req =? u) &&
          match verdict req (fst (dd_is_duplicate (tr_task_id req) t)) with
          | Perform _ => true
          | _ => false
          end
      | _ => false
      end
  | Err _ => false
  end.

(** The task ids at stake fit the tracker. *)
Definition tasks_at_stake (ids : list UUID) (t : T) (messages : list Bytes) : Prop :=
  (length ids <= dd_capacity)%nat ∧ (∀ u, dd_recent t u → u ∈ ids) ∧
  ∀ raw e req, raw ∈ messages → parse_envelope raw = Ok e → env_payload e = P_TaskRequest req →
    tr_task_id req ∈ ids.

Lemma verdict_known req h : verdict req true ≠ Perform h.
Proof.
  unfold verdict. cbn [first_match List.find fst].
  destruct (negb _); [done|]. cbn [first_match List.find fst]. by destruct (negb _).
Qed.

Lemma request_or_not p :
  (∃ req, p = P_TaskRequest req) ∨ (∀ req, p ≠ P_TaskRequest req).
Proof. destruct p; try (right; intros ?; discriminate). left. by eexists. Qed.

Lemma run_other raw e t w :
  parse_envelope raw = Ok e → (∀ req, env_payload e ≠ P_TaskRequest req) →
  ∀ t' w', run env (handle raw t) w = (Ok t', w') → t' = t.
Proof.
  intros He Hp t' w'. unfold _handle_message. rewrite He.
  destruct (env_payload e) eqn:E; cbn [validate_request]; try (by exfalso; eapply Hp);
    rewrite run_bind; destruct (run env (reject_payload _ _ _) w) as [[] w1]; by intros [= ->].
Qed.

Lemma handle_known ids raw t w t' w' :
  dd_ok t → (length ids <= dd_capacity)%nat → (∀ u, dd_recent t u → u ∈ ids) →
  (∀ e req, parse_envelope raw = Ok e → env_payload e = P_TaskRequest req → tr_task_id req ∈ ids) →
  run env (handle raw t) w = (Ok t', w') →
  dd_ok t' ∧ (∀ u, dd_recent t' u → u ∈ ids) ∧ (∀ u, dd_recent t u → dd_recent t' u) ∧
  (∀ u, performs u raw t = true → ¬ dd_recent t u ∧ dd_recent t' u).
Proof.
  intros Hok Hlen Hsub Hraw Hrun. unfold performs.
  destruct (parse_envelope raw) as [e|err] eqn:He.
  2: { unfold _handle_message in Hrun. rewrite He in Hrun. by simplify_eq/=. }
  destruct (request_or_not (env_payload e)) as [[req Hp]|Hp].
  2: { rewrite (run_other raw e t w He Hp t' w' Hrun).
       split_and!; auto. destruct (env_payload e) eqn:E; try done. by destruct (Hp r). }
  rewrite Hp. rewrite (run_request raw e req t w He Hp) in Hrun. injection Hrun as <- _.
  pose proof (Hraw e req eq_refl Hp) as Hin.
  destruct (dd_is_duplicate_spec (tr_task_id req) t Hok) as (Hdup & Hok1 & Hrec1).
  assert (Hsub1 : ∀ v, dd_recent (snd (dd_is_duplicate (tr_task_id req) t)) v → v ∈ ids)
    by (intros v Hv; by apply Hsub, Hrec1).
  assert (Hkeep1 : ∀ v, dd_recent t v → dd_recent (snd (dd_is_duplicate (tr_task_id req) t)) v)
    by (intros v; apply Hrec1).
  unfold tracked. destruct (verdict req (fst (dd_is_duplicate (tr_task_id req) t))) as [| | | |h] eqn:Ev;
    try (split_and!; [assumption|auto|auto|]; intros u [_ Hf]%andb_true_iff; discriminate Hf).
  assert (Hnot : ¬ dd_recent t (tr_task_id req)).
  { intros Hr. apply Hdup in Hr. rewrite Hr in Ev. by apply verdict_known in Ev. }
  split_and!.
  - by apply dd_mark_ok.
  - intros u Hu. apply dd_mark_sound in Hu as [->|Hu]; auto.
  - intros u Hu. eapply (dd_mark_complete _ _ _ ids); auto.
  - intros u [<-%Z.eqb_eq _]%andb_true_iff. split; [done|].
    by eapply (dd_mark_complete _ _ _ ids); auto.
Qed.

(** ** What stops the endpoint *)

(** A message whose handling cannot raise: its payload is a task request, or has
    no task id, or has one that is a UUID. *)
Definition readable (raw : Bytes) : bool :=
  match parse_envelope raw with
  | Ok e =>
      match env_payload e with
      | P_TaskRequest _ => true
      | p => negb (py_truthy (payload_task_id p)) ||
             match uuid_of_value (payload_task_id p) with Ok _ => true | Err _ => false end
      end
  | Err _ => true
  end.

Lemma run_reject_payload e exc w :
  is_ok (fst (run env (reject_payload rt e exc) w)) ↔
  negb (py_truthy (payload_task_id (env_payload e))) ||
  match uuid_of_value (payload_task_id (env_payload e)) with Ok _ => true | Err _ => false end = true.
Proof.
  unfold reject_payload. cbv zeta. rewrite run_bind.
  destruct (py_truthy _); cbn [negb orb].
  - rewrite run_lift. destruct (uuid_of_value _) as [u|err]; cbv beta iota.
    + rewrite run_refuse by done. split; [done|]. intros _. by eexists.
    + split; [by intros []|done].
  - cbn [run fresh_uuid]. rewrite run_refuse by done. split; [done|]. intros _. by eexists.
Qed.

Lemma handle_survives raw t w :
  is_ok (fst (run env (handle raw t) w)) ↔ readable raw = true.
Proof.
  unfold readable. destruct (parse_envelope raw) as [e|err] eqn:He.
  2: { unfold _handle_message. rewrite He. split; [done|]. intros _. by eexists. }
  destruct (request_or_not (env_payload e)) as [[req Hp]|Hp].
  { rewrite (run_request raw e req t w He Hp), Hp. split; [done|]. intros _. by eexists. }
  assert (Hrej : ∃ exc, run env (handle raw t) w =
            match run env (reject_payload rt e exc) w with
            | (Ok _, w') => (Ok t, w') | (Err x, w') => (Err x, w') end).
  { unfold _handle_message. rewrite He. destruct (env_payload e) eqn:E; cbn [validate_request];
      try (by exfalso; eapply Hp); eexists; by rewrite run_bind. }
  destruct Hrej as [exc ->]. pose proof (run_reject_payload e exc w) as Hr.
  destruct (run env (reject_payload rt e exc) w) as [[[]|x] w1]; cbn [fst] in *;
    destruct (env_payload e); try (by exfalso; eapply Hp);
    (etrans; [|exact Hr]); split; intros [? ?]; try done; by eexists.
Qed.

(** C19 (error): exactly which messages stop an endpoint.  The serve loop outlives
    every message (bytes that are no envelope, failing handlers, lost records)
    except an envelope whose payload is not a task request and carries a task id
    that is not a UUID: that one raises out of the loop, and nothing after it is
    served. *)
Theorem endpoint_survives_iff messages t w :
  is_ok (fst (run env (endpoint messages t) w)) ↔ forallb readable messages = true.
Proof.
  revert t w. induction messages as [|raw messages IH]; intros t w.
  { split; [done|]. intros _. by eexists. }
  cbn [serve_loop forallb]. rewrite run_bind. pose proof (handle_survives raw t w) as Hr.
  destruct (run env (handle raw t) w) as [[t'|err] w']; cbn [fst] in *.
  - rewrite IH. destruct (readable raw); [done|]. assert (is_ok (Ok t')) as H1 by by eexists.
    by apply Hr in H1.
  - split; [by intros []|]. intros [H1 _]%andb_true_iff. by apply Hr in H1 as [].
Qed.
End Facts.

(** ** At most once: counting the handlers' runs *)

(** The mark a run of a handler leaves in the log, and how many a log has of task [u]. *)
Definition SIGNATURE : string := "signature.of.a.handler.run".

Definition signature (req : TaskRequest) : EventEnvelope := {|
  env_event_id := 0; env_correlation_id := 0; env_causation_id := None; env_agent_id := "";
  env_tenant_id := ""; env_timestamp := 0; env_event_type := ""; env_schema_version := "";
  env_payload := P_TaskRequest req |}.

Definition signs (u : UUID) (te : string * EventEnvelope) : bool :=
  String.eqb (fst te) SIGNATURE &&
  match env_payload (snd te) with P_TaskRequest req => tr_task_id req =? u | _ => false end.

Definition signatures (u : UUID) (w : World) : nat := length (List.filter (signs u) (w_log w)).

(** A handler that first leaves its mark, and the runtime all of whose handlers do. *)
Definition signed (h : TaskHandler) : TaskHandler := λ req,
  Do (λ w, (tt, add_log (SIGNATURE, signature req) w)) (λ _, h req).

Definition observed (rt : AgentRuntime) : AgentRuntime := {|
  rt_identity := rt_identity rt; rt_card := rt_card rt; rt_capability_ids := rt_capability_ids rt;
  rt_handlers := map (λ ch, (fst ch, signed (snd ch))) (rt_handlers rt) |}.

Section AtMostOnce.
Context `{Uuids}.
Context {Bytes : Type} (parse_envelope : Bytes → result EventEnvelope).
Context {T : Type} `{!Dedup T}.
Context (validation_error : EventPayload → exn).
Context (rt : AgentRuntime) (Hid : valid_identity (rt_identity rt)).
Context (env : Environment).

(** The handlers leave no mark of their own. *)
Definition leave_no_mark : Prop :=
  ∀ c h req u w, (c, h) ∈ rt_handlers rt → signatures u (snd (run env (h req) w)) = signatures u w.

Context (Hmark : leave_no_mark).

Abbreviation handle := (_handle_message parse_envelope validation_error (observed rt)).

Lemma observed_handler capability h :
  assoc_get capability (rt_handlers (observed rt)) = Some h →
  ∃ h0 c, (c, h0) ∈ rt_handlers rt ∧ h = signed h0.
Proof.
  unfold assoc_get. cbn [rt_handlers observed].
  induction (rt_handlers rt) as [|[c h0] l IH]; [done|]. cbn [map List.find fst snd].
  destruct (String.eqb _ _).
  - intros [= <-]. exists h0, c. split; [by left|done].
  - intros Hf. destruct (IH Hf) as (h1 & c1 & Hin & He). exists h1, c1. split; [by right|done].
Qed.

Lemma drawn_unsigned u w : signatures u (drawn w) = signatures u w.
Proof. done. Qed.

Lemma sent_unsigned key u topic e w :
  topic ≠ SIGNATURE → signatures u (sent_as env key topic e w) = signatures u w.
Proof.
  intros Ht. unfold signatures. rewrite (ext_log _ _ _ (sent_extends env key topic e w)).
  unfold kept_as. destruct (written _); [|by rewrite app_nil_r].
  rewrite List.filter_app. cbn [List.filter]. unfold signs at 2. cbn [fst snd].
  rewrite (proj2 (String.eqb_neq _ _) Ht). by rewrite app_nil_r.
Qed.

Lemma concluded_unsigned u r e o task reason w :
  signatures u (concluded (observed rt) env r e o task reason w) = signatures u w.
Proof.
  unfold concluded, audit_sent, result_sent. by rewrite !sent_unsigned, !drawn_unsigned, sent_unsigned.
Qed.

Lemma audit_unsigned u e o task reason w :
  signatures u (audit_sent (observed rt) env e o task reason w) = signatures u w.
Proof. unfold audit_sent. by rewrite sent_unsigned, drawn_unsigned. Qed.

Lemma sign_once u req w :
  signatures u (add_log (SIGNATURE, signature req) w) =
  (signatures u w + Nat.b2n (tr_task_id req =? u)%Z)%nat.
Proof.
  unfold signatures. cbn [add_log w_log]. rewrite List.filter_app, length_app. cbn [List.filter].
  unfold signs at 2. cbn [fst snd signature env_payload]. rewrite String.eqb_refl.
  by destruct (tr_task_id req =? u).
Qed.

(** One message leaves the mark of task [u] exactly when it is performed. *)
Lemma message_signs u raw t w :
  signatures u (snd (run env (handle raw t) w)) =
  (signatures u w + Nat.b2n (performs parse_envelope (observed rt) u raw t))%nat.
Proof using Hid Hmark.
  unfold performs. destruct (parse_envelope raw) as [e|err] eqn:He.
  2: { unfold _handle_message. rewrite He. cbn. lia. }
  destruct (request_or_not (env_payload e)) as [[req Hp]|Hp].
  - rewrite (run_request parse_envelope validation_error (observed rt) Hid env raw e req t w He Hp).
    rewrite Hp. cbn [snd]. destruct (verdict _ req _) as [| | | |h] eqn:Ev; cbn [answered];
      rewrite ?andb_false_r; cbn [Nat.b2n];
      rewrite ?concluded_unsigned, ?audit_unsigned, ?concluded_unsigned, ?audit_unsigned; try lia.
    assert (Hh : assoc_get (tr_capability req) (rt_handlers (observed rt)) = Some h).
    { revert Ev. unfold verdict, first_match. cbn [List.find fst].
      repeat (destruct (_ : bool); cbn [List.find fst snd]; [done|]).
      by destruct (assoc_get _ _); [intros [= ->]|]. }
    apply observed_handler in Hh as (h0 & c & Hin & ->). unfold signed. cbn [run].
    pose proof (Hmark c h0 req u (add_log (SIGNATURE, signature req)
      (audit_sent (observed rt) env e accepted (Some (tr_task_id req)) None w)) Hin) as Hm.
    destruct (run env (h0 req) _) as [answer w1]. cbn [snd] in Hm.
    rewrite concluded_unsigned, Hm, sign_once, audit_unsigned, andb_true_r. done.
  - assert (Hx : snd (run env (handle raw t) w) =
      snd (run env (reject_payload (observed rt) e (validation_error (env_payload e))) w)).
    { unfold _handle_message. rewrite He. destruct (env_payload e) eqn:E; cbn [validate_request];
        try (by exfalso; eapply Hp); rewrite run_bind;
        by destruct (run env (reject_payload _ _ _) w) as [[[]|] ?]. }
    rewrite Hx. replace (match env_payload e with P_TaskRequest _ => _ | _ => false end) with false
      by (destruct (env_payload e); try done; by exfalso; eapply Hp).
    cbn [Nat.b2n]. rewrite Nat.add_0_r. unfold reject_payload. cbv zeta. rewrite run_bind.
    destruct (py_truthy _).
    + rewrite run_lift. destruct (uuid_of_value _); [|done]. rewrite run_refuse by done. cbn [snd].
      apply concluded_unsigned.
    + cbn [run fresh_uuid]. rewrite run_refuse by done. cbn [snd]. by rewrite concluded_unsigned.
Qed.

(** C10 (safety): a task is performed at most once.  Let every handler first leave a mark in
    the log (a record of a topic on which the handlers themselves write nothing).  Over any
    messages the broker delivers and redelivers, whatever it answers and however the serve
    loop ends, the log gains at most one mark of a task id - the handler ran at most once for
    it - and none when the tracker knew the id at the start, as long as the ids at stake fit
    the tracker's capacity. *)
Theorem task_performed_at_most_once ids messages t w u :
  dd_ok t → tasks_at_stake parse_envelope ids t messages →
  let w' := snd (run env (serve_loop parse_envelope validation_error (observed rt) messages t) w) in
  (signatures u w' <= signatures u w + 1)%nat ∧ (dd_recent t u → signatures u w' = signatures u w).
Proof using Hid Hmark.
  revert t w. induction messages as [|raw messages IH]; intros t w Hok (Hlen & Hsub & Hms); cbv zeta.
  { cbn. split; [lia|done]. }
  cbn [serve_loop]. rewrite run_bind. pose proof (message_signs u raw t w) as Hsig.
  assert (Hraw : ∀ e req, parse_envelope raw = Ok e → env_payload e = P_TaskRequest req → tr_task_id req ∈ ids)
    by (intros e req; apply Hms; by left).
  destruct (run env (handle raw t) w) as [[t'|err] w'] eqn:Hrun; cbn [snd] in Hsig |- *.
  - destruct (handle_known parse_envelope validation_error (observed rt) Hid env ids raw t w t' w'
                Hok Hlen Hsub Hraw Hrun) as (Hok' & Hsub' & Hkeep & Hperf).
    destruct (IH t' w' Hok') as [IH1 IH2].
    { split; [done|]. split; [done|]. intros r e req Hr. apply Hms. by right. }
    cbv zeta in IH1, IH2. destruct (performs _ _ u raw t) eqn:Ep; cbn [Nat.b2n] in Hsig.
    + destruct (Hperf u Ep) as [Hnot Hrec]. rewrite IH2 by done. split; [lia|]. by intros.
    + split; [lia|]. intros Hr. rewrite IH2 by auto. lia.
  - destruct (performs _ _ u raw t) eqn:Ep; [|cbn in Hsig; split; [lia|intros; lia]].
    exfalso. unfold performs in Ep. destruct (parse_envelope raw) as [e|] eqn:He; [|done].
    destruct (env_payload e) as [| | |req| | | | | | | | | |] eqn:Hp; try done.
    by rewrite (run_request parse_envelope validation_error (observed rt) Hid env raw e req t w He Hp) in Hrun.
Qed.
End AtMostOnce.
