(* ===== verification/Peers.v ===== *)
(** * The peer agents on the runtime

    [apps/agents/risk_fraud/main.py] and [billing_entitlement/main.py] with their
    [identity.py] and [llm_summary.py]: the task handlers each agent registers on
    its [AgentRuntime]: validate, analyse, optionally ask the LLM for a narrative,
    publish the domain result under the case's correlation id, answer the task. *)

From Stdlib Require Import ZArith Bool Ascii String List Lia.
From stdpp Require Import base list strings gmap.
From S2P Require Import Prelude.
From S2P Require Import PyFloat.
From S2P Require Import Contracts.
From S2P Require Import Uuid.
From S2P Require Import Idempotency.
From S2P Require Import Llm.
From S2P Require Import LlmConfig.
From S2P Require Import Prompts.
From S2P Require Import A2A.
From S2P Require Import RiskModels.
From S2P Require Import RiskStore.
From S2P Require Import RiskScoring.
From S2P Require Import RiskService.
From S2P Require Import BillingModels.
From S2P Require Import BillingRules.
From S2P Require Import BillingStore.
From S2P Require Import BillingService.
From S2P Require Import Envelope.
From S2P Require Import Async.
From S2P Require Import LlmRuntime.
From S2P Require Import Runtime.

Open Scope string_scope.
Open Scope list_scope.
Open Scope Z_scope.
Open Scope prog_scope.

(** A narrative as [to_result_payload] reads it: [narrative.polished_summary] of
    plain data raises. *)
Definition narrative_instance {N} (narrative : option (AnyValue N)) : result (option N) :=
  match narrative with
  | None => Ok None
  | Some (Instance_ n) => Ok (Some n)
  | Some (Plain _) => Err (AttributeError "'dict' object has no attribute 'polished_summary'")
  end.

(** [try: narrative = await enrich(...) except Exception: narrative = None] *)
Definition optional_narrative {N} (llm_enabled : bool) (enrich : prog (AnyValue N)) :
    prog (option (AnyValue N)) :=
  if llm_enabled then catch (let! v := enrich in Ret (Some v)) (λ _, Ret None)
  else Ret None.

(** ** The risk agent *)

Definition risk_identity : AgentIdentity := {|
  id_agent_id := RiskService.AGENT_ID; id_display_name := "Risk Fraud Agent";
  id_tenant_id := "poc" |}.

Definition risk_agent_card : AgentCard := {|
  card_agent_id := RiskService.AGENT_ID;
  card_name := "Risk Fraud Agent";
  card_description :=
    "Assesses fraud risk for refund requests based on owned risk/fraud signals.";
  card_version := "1.0.0";
  card_endpoint_topic := endpoint_topic RiskService.AGENT_ID;
  card_capabilities := [{|
    cap_id := "assess_fraud_risk";
    cap_name := "Assess Fraud Risk";
    cap_description :=
      "Validates the structured refund risk request, loads owned risk/fraud signals, " +:+
      "and returns a deterministic risk assessment (low / elevated / high) with " +:+
      "confidence score, evidence, policy references, and a human-review flag. " +:+
      "Descriptive intent: assess_refund_risk.";
    cap_tags := ["risk"; "fraud"; "refund"] |}] |}.

(** The stable instruction block of the risk agent. *)
Definition risk_instructions : string :=
"You are a risk-analysis assistant for a refund-fraud detection system.

Given a deterministic risk assessment (risk_level, recommended_action, confidence,
evidence items, and policy references), produce a clear, concise narrative that:

1. **polished_summary**: Rewrite the reasoning_summary into a polished 2-4 sentence
   paragraph suitable for a human reviewer. Reference the fired policy rules by ID
   (e.g. FP-002, FP-003) and explain WHY they contribute to the overall risk level.
   Do NOT invent facts — ground every claim in the provided evidence.

2. **evidence_explanation**: Summarize the evidence items into a cohesive explanation
   that a non-technical reviewer can understand. Group related signals (e.g. velocity
   + anomaly = behavioral concern). Keep it factual and grounded.

CONSTRAINTS:
- Do NOT suggest a different risk_level, recommended_action, or confidence.
- Do NOT fabricate evidence or policy rules not present in the input.
- Keep each field under 500 characters.
- Return valid JSON matching the output schema.
".

(** [_build_grounding_inputs] of the risk agent. *)
Definition risk_grounding (assessment : RiskAssessment) (request : RiskAssessmentRequest) :
    list (string * pyval) :=
  [ ("risk_level", VStr (RiskLevel_str (ra_risk_level assessment)));
    ("recommended_action", VStr (RecommendedAction_str (ra_recommended_action assessment)));
    ("confidence", VFloat (ra_confidence assessment));
    ("reasoning_summary", VStr (ra_reasoning_summary assessment));
    ("requires_human_review", VBool (ra_requires_human_review assessment));
    ("evidence", VList (map dump_evidence (ra_evidence assessment)));
    ("policy_references", VList (map VStr (ra_policy_references assessment)));
    ("ticket_id", VStr (rar_ticket_id request));
    ("customer_id", VStr (rar_customer_id request));
    ("case_id", VStr (uuid_str (rar_case_id request))) ].

Section Risk.
Context `{Uuids} `{Prompting} `{!Schema RiskNarrative}.
(** pydantic's validation of the request, the signal store, [RISK_LLM_SUMMARY_ENABLED]
    and the profile in force. *)
Variable validate : list (string * pyval) → result RiskAssessmentRequest.
Context {St : Type} `{!RiskSignalStore St} (store : St).
Variable llm_enabled : bool.
Variable profile : ModelProfile.

(** [enrich_assessment] *)
Definition enrich_assessment (assessment : RiskAssessment) (request : RiskAssessmentRequest)
    (causation_id : UUID) : prog (AnyValue RiskNarrative) :=
  let! result := assist_or_fallback false true profile {|
    ar_task_kind := kind_summarize_reasoning;
    ar_agent_id := "risk-fraud-agent";
    ar_correlation_id := rar_case_id request;
    ar_causation_id := causation_id;
    ar_instructions := risk_instructions;
    ar_grounding_inputs := risk_grounding assessment request;
    ar_examples := None;
    ar_idempotency_key := "";
    ar_fallback := Ok (_make_fallback assessment) |} in
  Ret (res_value result).

(** [handle_risk] *)
Definition handle_risk (req : TaskRequest) : prog A2AMessage :=
  let! (assessment, request) := lift (assess validate store (msg_parts (tr_input req))) in
  let! narrative := optional_narrative llm_enabled
                      (enrich_assessment assessment request (tr_task_id req)) in
  let! narrative := lift (narrative_instance narrative) in
  let! payload := lift (to_result_payload assessment request narrative) in
  let! _ := publish risk_identity (P_RiskResult payload) TOPIC_RISK_RESULT
              (rar_case_id request) (Some (tr_task_id req)) None in
  lift (build_a2a_output assessment narrative).

(** The runtime of [main]. *)
Definition risk_runtime : result AgentRuntime :=
  register "assess_fraud_risk" handle_risk (new_runtime risk_identity risk_agent_card).
End Risk.

(** ** The billing agent *)

Definition billing_identity : AgentIdentity := {|
  id_agent_id := BillingService.AGENT_ID; id_display_name := "Billing Entitlement Agent";
  id_tenant_id := "poc" |}.

Definition billing_agent_card : AgentCard := {|
  card_agent_id := BillingService.AGENT_ID;
  card_name := "Billing Entitlement Agent";
  card_description :=
    "Analyzes refund eligibility based on owned billing and entitlement data.";
  card_version := "1.0.0";
  card_endpoint_topic := endpoint_topic BillingService.AGENT_ID;
  card_capabilities := [{|
    cap_id := "analyze_refund_eligibility";
    cap_name := "Analyze Refund Eligibility";
    cap_description :=
      "Validates the structured refund request, loads owned billing facts, " +:+
      "and returns a deterministic recommendation (approve_full_refund / " +:+
      "approve_partial_refund / deny_refund / request_more_information / " +:+
      "manual_review) with confidence score, evidence, and policy references.";
    cap_tags := ["billing"; "entitlement"; "refund"] |}] |}.

(** The stable instruction block of the billing agent. *)
Definition billing_instructions : string :=
"You are a billing-analysis assistant for a refund eligibility system.

Given a deterministic refund eligibility recommendation (recommendation, confidence,
eligible_refund_amount, evidence items, and policy references), produce a clear,
concise narrative that:

1. **polished_summary**: Rewrite the reasoning_summary into a polished 2-4 sentence
   paragraph suitable for a human reviewer. Reference the fired policy rules by ID
   (e.g. RP-001, RP-002) and explain WHY they contribute to the overall recommendation.
   Include the subscription, invoice, payment, and entitlement statuses in context.
   Do NOT invent facts — ground every claim in the provided evidence.

2. **evidence_explanation**: Summarize the evidence items into a cohesive explanation
   that a non-technical reviewer can understand. Group related billing signals
   (e.g. subscription status + payment status = account health). Keep it factual
   and grounded.

CONSTRAINTS:
- Do NOT suggest a different recommendation, confidence, or eligible_refund_amount.
- Do NOT fabricate evidence or policy rules not present in the input.
- Keep each field under 500 characters.
- Return valid JSON matching the output schema.
".

(** [_build_grounding_inputs] of the billing agent. *)
Definition billing_grounding (rec : EligibilityRecommendation)
    (request : RefundEligibilityRequest) : list (string * pyval) :=
  [ ("recommendation", VStr (Recommendation_str (er_recommendation rec)));
    ("confidence", VFloat (er_confidence rec));
    ("reasoning_summary", VStr (er_reasoning_summary rec));
    ("requires_human_review", VBool (er_requires_human_review rec));
    ("eligible_refund_amount", VStr (dec_str (er_eligible_refund_amount rec)));
    ("evidence", VList (map dump_evidence (er_evidence rec)));
    ("policy_references", VList (map VStr (er_policy_references rec)));
    ("subscription_status", VStr (er_subscription_status rec));
    ("invoice_status", VStr (er_invoice_status rec));
    ("payment_status", VStr (er_payment_status rec));
    ("entitlement_status", VStr (er_entitlement_status rec));
    ("usage_level", VStr (er_usage_level rec));
    ("refund_window_status", VStr (er_refund_window_status rec));
    ("ticket_id", VStr (rer_ticket_id request));
    ("customer_id", VStr (rer_customer_id request));
    ("case_id", VStr (uuid_str (rer_case_id request))) ].

Section Billing.
Context `{Uuids} `{Prompting} `{!Schema BillingNarrative}.
Variable validate : list (string * pyval) → result RefundEligibilityRequest.
Context {St : Type} `{!BillingFactStore St} (store : St).
Variable llm_enabled : bool.
Variable profile : ModelProfile.

(** [enrich_recommendation] *)
Definition enrich_recommendation (rec : EligibilityRecommendation)
    (request : RefundEligibilityRequest) (causation_id : UUID) : prog (AnyValue BillingNarrative) :=
  let! result := assist_or_fallback false true profile {|
    ar_task_kind := kind_summarize_reasoning;
    ar_agent_id := "billing-entitlement-agent";
    ar_correlation_id := rer_case_id request;
    ar_causation_id := causation_id;
    ar_instructions := billing_instructions;
    ar_grounding_inputs := billing_grounding rec request;
    ar_examples := None;
    ar_idempotency_key := "";
    ar_fallback := Ok (billing_make_fallback rec) |} in
  Ret (res_value result).

(** [handle_eligibility] *)
Definition handle_eligibility (req : TaskRequest) : prog A2AMessage :=
  let! t := now in
  let! (request, rec, facts) := lift (analyze validate store t (msg_parts (tr_input req))) in
  let! narrative := optional_narrative llm_enabled
                      (enrich_recommendation rec request (tr_task_id req)) in
  let! narrative := lift (narrative_instance narrative) in
  let! payload := lift (build_result_payload request rec facts narrative) in
  let! _ := publish billing_identity (P_BillingResult payload) TOPIC_BILLING_RESULT
              (rer_case_id request) (Some (tr_task_id req)) None in
  lift (build_billing_output rec narrative).

Definition billing_runtime : result AgentRuntime :=
  register "analyze_refund_eligibility" handle_eligibility
    (new_runtime billing_identity billing_agent_card).
End Billing.

(** The cards pass their validators. *)
Example peer_cards_valid :
  mk_card risk_agent_card = Ok risk_agent_card ∧ mk_card billing_agent_card = Ok billing_agent_card.
Proof. split; vm_compute; reflexivity. Qed.
