(* ===== verification/PeerFacts.v ===== *)
(** * The peers deliver

    Facts about the task handlers of the risk and billing agents on their runtime:
    a valid request, once delivered, leads to exactly one domain result under the
    case's correlation id and one completed task result, whatever the LLM does. *)

From Stdlib Require Import ZArith Bool Ascii String List Lia.
From stdpp Require Import base list strings gmap.
From S2P Require Import Prelude.
From S2P Require Import PyFloat.
From S2P Require Import Contracts.
From S2P Require Import Uuid.
From S2P Require Import Idempotency.
From S2P Require Import Llm.
From S2P Require Import A2A.
From S2P Require Import RiskModels.
From S2P Require Import RiskStore.
From S2P Require Import RiskScoring.
From S2P Require Import RiskService.
From S2P Require Import RiskScoringFacts.
From S2P Require Import RiskServiceFacts.
From S2P Require Import BillingModels.
From S2P Require Import BillingRules.
From S2P Require Import BillingStore.
From S2P Require Import BillingService.
From S2P Require Import BillingFacts.
From S2P Require Import Envelope.
From S2P Require Import Async.
From S2P Require Import LlmConfig.
From S2P Require Import Prompts.
From S2P Require Import LlmRuntime.
From S2P Require Import Consumer.
From S2P Require Import Execution.
From S2P Require Import LlmFacts.
From S2P Require Import Transport.
From S2P Require Import Runtime.
From S2P Require Import RuntimeFacts.
From S2P Require Import Peers.

Open Scope string_scope.
Open Scope list_scope.
Open Scope Z_scope.
Open Scope prog_scope.

#[local] Set Default Proof Using "Type*".

Section Publishing.
Context `{Uuids}.
Context (env : Environment) (Hacks : acks env).

Lemma run_publish_event identity p et q cause w m :
  valid_identity identity →
  lookup_model et = Ok m → model_of p = Some m → _EVENT_TYPE_RE et = true →
  _resolve_topic et = Ok et →
  run env (publish identity p et q (Some cause) None) w =
  (Ok (event_by identity p et q (Some cause) w),
   delivered et (event_by identity p et q (Some cause) w) w).
Proof.
  intros [Ha Htn] Hm Hp Hre Ht. eapply run_publish_valid; try done. by apply mk_envelope_ok.
Qed.

(** An assistive call without a publisher, on a store of its own: it changes
    nothing, and a value it returns is an instance of the schema. *)
Lemma run_assist `{!Prompting} {V} `{!Schema V} redact_pii profile (request : AssistiveRequest V) w :
  ∃ o, run env (assist_or_fallback false redact_pii profile request) w = (o, w) ∧
       ∀ r, o = Ok r → ∃ v, res_value r = Instance_ v.
Proof.
  unfold assist_or_fallback. rewrite run_bind, run_lift.
  destruct (mk_request request) as [req|err]; [|by eexists]. rewrite run_bind.
  destruct (run_reason_miss false redact_pii profile env req new_store w eq_refl)
    as (o & w' & -> & _ & _ & Hw & Ho). rewrite (Hw eq_refl).
  destruct o as [[r st]|err]; [|by eexists]. eexists. split; [reflexivity|].
  intros r' [= <-]. by destruct Ho as [r v _ Hv|r v reason _ Hv]; exists v.
Qed.

(** The optional narrative is read without an error, and changes nothing. *)
Lemma run_optional_narrative `{!Prompting} {N} `{!Schema N} llm profile (request : AssistiveRequest N) w :
  ∃ n n', run env (optional_narrative llm
            (let! result := assist_or_fallback false true profile request in
             Ret (res_value result))) w = (Ok n, w) ∧ narrative_instance n = Ok n'.
Proof.
  unfold optional_narrative. destruct llm; [|by eexists _, _].
  rewrite run_catch, run_bind, run_bind.
  destruct (run_assist true profile request w) as ([r|err] & -> & Hv).
  - destruct (Hv r eq_refl) as [v Hval]. cbn [run]. rewrite Hval. by eexists _, (Some v).
  - by eexists None, None.
Qed.
End Publishing.

Lemma risk_identity_valid : valid_identity risk_identity.
Proof. split; vm_compute; reflexivity. Qed.

Lemma billing_identity_valid : valid_identity billing_identity.
Proof. split; vm_compute; reflexivity. Qed.

(** ** The risk agent *)

Section Risk.
Context `{Uuids} `{!Prompting} `{!Schema RiskNarrative}.
Context (validate : list (string * pyval) → result RiskAssessmentRequest).
Context {St : Type} `{!RiskSignalStore St} (store : St).
Context (llm_enabled : bool) (profile : ModelProfile).
Context (env : Environment) (Hacks : acks env).

Abbreviation handler := (handle_risk validate store llm_enabled profile).

Lemma run_handle_risk req d rreq w :
  first_data (msg_parts (tr_input req)) = Some d → validate d = Ok rreq →
  ∃ payload out data,
    let e := event_by risk_identity (P_RiskResult payload) TOPIC_RISK_RESULT
               (rar_case_id rreq) (Some (tr_task_id req)) w in
    run env (handler req) w = (Ok out, delivered TOPIC_RISK_RESULT e w) ∧
    payload_wire payload =
      expected_wire (store_load_signals store (rar_customer_id rreq)) rreq ∧
    first_data (msg_parts out) = Some data ∧ data_wire data = Some (payload_wire payload).
Proof.
  intros Hd Hv. unfold handle_risk. rewrite run_bind, run_lift.
  destruct (run_optional_narrative env Hacks llm_enabled profile {|
    ar_task_kind := kind_summarize_reasoning; ar_agent_id := "risk-fraud-agent";
    ar_correlation_id := rar_case_id rreq; ar_causation_id := tr_task_id req;
    ar_instructions := risk_instructions;
    ar_grounding_inputs := risk_grounding
      (match assess validate store (msg_parts (tr_input req)) with
       | Ok (a, _) => a | Err _ => _missing_data_assessment "" end) rreq;
    ar_examples := None;
    ar_idempotency_key := "";
    ar_fallback := Ok (_make_fallback
      (match assess validate store (msg_parts (tr_input req)) with
       | Ok (a, _) => a | Err _ => _missing_data_assessment "" end)) |} w)
    as (n & n' & Hn & Hn').
  destruct (pipeline_delivers validate store (msg_parts (tr_input req)) d rreq n' Hd Hv)
    as (a & payload & out & data & Ha & Hp & Ho & Hdata & Hw & Hdw).
  rewrite Ha in Hn |- *. cbv beta iota. rewrite run_bind.
  unfold enrich_assessment. rewrite Hn. cbv beta iota.
  rewrite run_bind, run_lift, Hn'. cbv beta iota. rewrite run_bind, run_lift, Hp. cbv beta iota.
  rewrite run_bind, (run_publish_event env Hacks _ _ _ _ _ _ M_RiskResult)
    by (apply risk_identity_valid || (vm_compute; reflexivity)).
  cbv beta iota. rewrite run_lift, Ho. by exists payload, out, data.
Qed.

Context {Bytes : Type} (parse_envelope : Bytes → result EventEnvelope).
Context {T : Type} `{!Dedup T}.
Context (validation_error : EventPayload → exn).

(** Remark (liveness): the risk agent delivers.  With the broker up, a new request for
    its capability whose data validates leads, whatever the LLM does, to four
    records and no others: the accepted audit; the domain result, under the case's
    correlation id and caused by the task, with the verdict of the fraud policy on
    the customer's signals; the completed task result with the same verdict; and
    the completed audit. *)
Theorem risk_agent_delivers rt raw e req d rreq t w :
  risk_runtime validate store llm_enabled profile = Ok rt →
  parse_envelope raw = Ok e → env_payload e = P_TaskRequest req →
  tr_target_agent_id req = RiskService.AGENT_ID → tr_capability req = "assess_fraud_risk" →
  fst (dd_is_duplicate (tr_task_id req) t) = false →
  first_data (msg_parts (tr_input req)) = Some d → validate d = Ok rreq →
  ∃ t' w' out ea ev er eb payload data,
    run env (_handle_message parse_envelope validation_error rt raw t) w = (Ok t', w') ∧
    extends w w' [ea; (TOPIC_RISK_RESULT, ev); er; eb] ∧
    is_audit ea e accepted (Some (tr_task_id req)) None ∧
    env_correlation_id ev = rar_case_id rreq ∧ env_causation_id ev = Some (tr_task_id req) ∧
    env_payload ev = P_RiskResult payload ∧
    payload_wire payload =
      expected_wire (store_load_signals store (rar_customer_id rreq)) rreq ∧
    is_result rt er (result_for rt req (Ok out)) e ∧
    first_data (msg_parts out) = Some data ∧ data_wire data = Some (payload_wire payload) ∧
    is_audit eb e aud_completed (Some (tr_task_id req)) None.
Proof.
  intros Hrt He Hp Htarget Hcap Hnew Hd Hv. injection Hrt as <-.
  edestruct (run_published_answer parse_envelope validation_error
    {| rt_identity := risk_identity; rt_card := risk_agent_card;
       rt_capability_ids := ["assess_fraud_risk"];
       rt_handlers := [("assess_fraud_risk", handler)] |} risk_identity_valid env
    raw e req t w handler
    (λ out entry, ∃ payload data, fst entry = TOPIC_RISK_RESULT ∧
       env_correlation_id (snd entry) = rar_case_id rreq ∧
       env_causation_id (snd entry) = Some (tr_task_id req) ∧
       env_payload (snd entry) = P_RiskResult payload ∧
       payload_wire payload =
         expected_wire (store_load_signals store (rar_customer_id rreq)) rreq ∧
       first_data (msg_parts out) = Some data ∧ data_wire data = Some (payload_wire payload)))
    as (t' & w' & out & ea & [topic ev] & er & eb & Hrun & Hl & Hspec & H1 & H2 & H3);
    [done..| | |].
  - unfold verdict. rewrite Hnew, Htarget, Hcap. reflexivity.
  - intros w1. destruct (run_handle_risk req d rreq w1 Hd Hv) as (payload & out & data & Hr & Hw & Ho & Hdw).
    eexists out, _, _. split; [exact Hr|]. by exists payload, data.
  - destruct Hspec as (payload & data & Ht & Hc & Hca & Hpl & Hw & Ho & Hdw). cbn in Ht. subst topic.
    exists t', w', out, ea, ev, er, eb, payload, data. split_and!; try done; apply H2.
Qed.
End Risk.

(** ** The billing agent *)

Section Billing.
Context `{Uuids} `{!Prompting} `{!Schema BillingNarrative}.
Context (validate : list (string * pyval) → result RefundEligibilityRequest).
Context {St : Type} `{!BillingFactStore St} (store : St).
Context (llm_enabled : bool) (profile : ModelProfile).
Context (env : Environment) (Hacks : acks env).

Abbreviation handler := (handle_eligibility validate store llm_enabled profile).

Lemma run_handle_eligibility req breq rec facts w :
  analyze validate store (w_now w) (msg_parts (tr_input req)) = Ok (breq, rec, facts) →
  ∃ n payload out data,
    let e := event_by billing_identity (P_BillingResult payload) TOPIC_BILLING_RESULT
               (rer_case_id breq) (Some (tr_task_id req)) w in
    run env (handler req) w = (Ok out, delivered TOPIC_BILLING_RESULT e w) ∧
    build_result_payload breq rec facts n = Ok payload ∧
    first_data (msg_parts out) = Some data ∧
    billing_data_wire data = Some (recommendation_wire rec) ∧
    billing_payload_wire payload = recommendation_wire rec.
Proof.
  intros Ha. unfold handle_eligibility. rewrite run_bind. cbn [run now reads].
  rewrite run_bind, run_lift, Ha. cbv beta iota. rewrite run_bind.
  unfold enrich_recommendation.
  match goal with |- context [assist_or_fallback false _ profile ?r] =>
    destruct (run_optional_narrative env Hacks llm_enabled profile r w) as (n & n' & Hn & Hn') end.
  rewrite Hn. cbv beta iota. rewrite run_bind, run_lift, Hn'. cbv beta iota.
  destruct (analysis_delivers validate store (w_now w) _ breq rec facts n' Ha)
    as (payload & out & data & Hp & Ho & Hdata & Hpw & Hdw & _).
  rewrite run_bind, run_lift, Hp. cbv beta iota.
  rewrite run_bind, (run_publish_event env Hacks _ _ _ _ _ _ M_BillingResult)
    by (apply billing_identity_valid || (vm_compute; reflexivity)).
  cbv beta iota. rewrite run_lift, Ho. exists n', payload, out, data.
  by split_and!.
Qed.

Context {Bytes : Type} (parse_envelope : Bytes → result EventEnvelope).
Context {T : Type} `{!Dedup T}.
Context (validation_error : EventPayload → exn).

(** Remark (liveness): the billing agent delivers.  With the broker up, a new request
    for its capability that validates, and whose facts the rules can evaluate at
    the time they are read, leads, whatever the LLM does, to four records and no
    others: the accepted audit; the domain result, under the case's correlation
    id and caused by the task, with the recommendation of the rules; the completed
    task result with the same recommendation; and the completed audit. *)
Theorem billing_agent_delivers rt raw e req t w :
  billing_runtime validate store llm_enabled profile = Ok rt →
  parse_envelope raw = Ok e → env_payload e = P_TaskRequest req →
  tr_target_agent_id req = BillingService.AGENT_ID →
  tr_capability req = "analyze_refund_eligibility" →
  fst (dd_is_duplicate (tr_task_id req) t) = false →
  (∀ now, is_ok (analyze validate store now (msg_parts (tr_input req)))) →
  ∃ t' w' out ea ev er eb now breq rec facts payload data,
    run env (_handle_message parse_envelope validation_error rt raw t) w = (Ok t', w') ∧
    extends w w' [ea; (TOPIC_BILLING_RESULT, ev); er; eb] ∧
    analyze validate store now (msg_parts (tr_input req)) = Ok (breq, rec, facts) ∧
    is_audit ea e accepted (Some (tr_task_id req)) None ∧
    env_correlation_id ev = rer_case_id breq ∧ env_causation_id ev = Some (tr_task_id req) ∧
    env_payload ev = P_BillingResult payload ∧
    billing_payload_wire payload = recommendation_wire rec ∧
    is_result rt er (result_for rt req (Ok out)) e ∧
    first_data (msg_parts out) = Some data ∧
    billing_data_wire data = Some (recommendation_wire rec) ∧
    is_audit eb e aud_completed (Some (tr_task_id req)) None.
Proof.
  intros Hrt He Hp Htarget Hcap Hnew Han. injection Hrt as <-.
  edestruct (run_published_answer parse_envelope validation_error
    {| rt_identity := billing_identity; rt_card := billing_agent_card;
       rt_capability_ids := ["analyze_refund_eligibility"];
       rt_handlers := [("analyze_refund_eligibility", handler)] |} billing_identity_valid env
    raw e req t w handler
    (λ out entry, ∃ now breq rec facts payload data,
       analyze validate store now (msg_parts (tr_input req)) = Ok (breq, rec, facts) ∧
       fst entry = TOPIC_BILLING_RESULT ∧
       env_correlation_id (snd entry) = rer_case_id breq ∧
       env_causation_id (snd entry) = Some (tr_task_id req) ∧
       env_payload (snd entry) = P_BillingResult payload ∧
       billing_payload_wire payload = recommendation_wire rec ∧
       first_data (msg_parts out) = Some data ∧
       billing_data_wire data = Some (recommendation_wire rec)))
    as (t' & w' & out & ea & [topic ev] & er & eb & Hrun & Hl & Hspec & H1 & H2 & H3);
    [done..| | |].
  - unfold verdict. rewrite Hnew, Htarget, Hcap. reflexivity.
  - intros w1. destruct (Han (w_now w1)) as [[[breq rec] facts] Ha].
    destruct (run_handle_eligibility req breq rec facts w1 Ha)
      as (n & payload & out & data & Hr & Hw & Ho & Hdw & Hpw).
    eexists out, _, _. split; [exact Hr|]. by exists (w_now w1), breq, rec, facts, payload, data.
  - destruct Hspec as (now & breq & rec & facts & payload & data & Ha & Ht & Hspec).
    cbn in Ht. subst topic.
    exists t', w', out, ea, ev, er, eb, now, breq, rec, facts, payload, data.
    destruct Hspec as (? & ? & ? & ? & ? & ?). split_and!; try done; apply H2.
Qed.
End Billing.
