(* ===== verification/Executors.v ===== *)
(** * The A2A executors

    The entry points of the AgentCore runtime, [app/RiskFraud/main.py],
    [app/BillingEntitlement/main.py] and [app/CustomerResolution/main.py] of the three
    agents: they read the parts of an a2a-sdk message, run the agent's pipeline once and put
    its outcome on the task's event queue.

    The SDK is outside: a message is the list of its parts, the queue the list of events put
    on it, and [new_task] may raise.  The theorems say what the queue holds after a run, and
    that an agent gives the same answer through its three entry points: the Kafka handler,
    the HTTP endpoint and the executor. *)

From Stdlib Require Import ZArith Bool Ascii String List Lia.
From stdpp Require Import base list strings gmap.
From S2P Require Import Prelude.
From S2P Require Import PyFloat.
From S2P Require Import Contracts.
From S2P Require Import Uuid.
From S2P Require Import A2A.
From S2P Require Import RiskModels.
From S2P Require Import RiskStore.
From S2P Require Import RiskScoring.
From S2P Require Import RiskService.
From S2P Require Import RiskServiceFacts.
From S2P Require Import BillingModels.
From S2P Require Import BillingRules.
From S2P Require Import BillingStore.
From S2P Require Import BillingService.
From S2P Require Import BillingFacts.
From S2P Require Import Envelope.
From S2P Require Import Llm.
From S2P Require Import LlmConfig.
From S2P Require Import Prompts.
From S2P Require Import Async.
From S2P Require Import Execution.
From S2P Require Import ResolutionApp.
From S2P Require Import Runtime.
From S2P Require Import Peers.
From S2P Require Import PeerFacts.

Open Scope string_scope.
Open Scope list_scope.
Open Scope Z_scope.
Open Scope prog_scope.

#[local] Set Default Proof Using "Type".

(** ** The SDK *)

(** The [root] of a part. *)
Inductive SdkPart :=
| DataPart (data : list (string * pyval))
| TextPart (text : string)
| FilePart.

(** [RequestContext]: the message, whether there is a current task, and what [new_task] of
    the message does when there is none. *)
Record RequestContext := {
  ctx_message : option (list SdkPart);
  ctx_current_task : bool;
  ctx_new_task : result unit;
}.

Inductive TaskEvent :=
| Enqueued
| ArtifactAdded (data : list (string * pyval))
| TaskFailed
| TaskCompleted.

(** What a run leaves: the events on the queue, and the exception that left it. *)
Abbreviation TaskRun := (list TaskEvent * option exn)%type.

(** [except ValueError]: pydantic's [ValidationError] is one. *)
Definition is_value_error (e : exn) : bool :=
  match e with ValueError _ | ValidationError _ | JSONDecodeError _ => true | _ => false end.

(** The task of a context: the current one, or a new one that is put on the queue. *)
Definition with_task (ctx : RequestContext) (run : TaskRun) : TaskRun :=
  if ctx_current_task ctx then run
  else match ctx_new_task ctx with
       | Ok _ => (Enqueued :: run.1, run.2)
       | Err e => ([], Some e)
       end.

(** [message.parts if message else []] *)
Definition sdk_parts (ctx : RequestContext) : list SdkPart := default [] (ctx_message ctx).

Section Parts.
Variable json_loads : string → result pyval.

(** One part of [_input_parts]: data that is not empty, or a text that is JSON and a dict. *)
Definition input_part (p : SdkPart) : option A2APart :=
  match p with
  | DataPart ((_ :: _) as data) => Some (data_part data)
  | TextPart text =>
      if str_truthy text
      then match json_loads text with Ok (VDict d) => Some (data_part d) | _ => None end
      else None
  | _ => None
  end.

Definition _input_parts (ctx : RequestContext) : list A2APart := omap input_part (sdk_parts ctx).

(** [_payload]: the first part that has data or a text. *)
Fixpoint first_payload (parts : list SdkPart) : pyval :=
  match parts with
  | [] => VDict []
  | DataPart ((_ :: _) as data) :: _ => VDict data
  | TextPart text :: rest => if str_truthy text then VStr text else first_payload rest
  | _ :: rest => first_payload rest
  end.

Definition _payload (ctx : RequestContext) : pyval := first_payload (sdk_parts ctx).

(** [out.parts[0].data]; the messages of the agents have one data part. *)
Definition first_part_data (m : A2AMessage) : list (string * pyval) :=
  match msg_parts m with p :: _ => default [] (part_data_ p) | [] => [] end.

(** The artifact of an output, and the end of the task; nothing catches an error of the
    output's own. *)
Definition add_output (out : result A2AMessage) : TaskRun :=
  match out with
  | Ok m => ([ArtifactAdded (first_part_data m); TaskCompleted], None)
  | Err e => ([], Some e)
  end.

(** A pipeline's error: the task fails on a [ValueError], the others leave. *)
Definition reject (e : exn) : TaskRun := if is_value_error e then ([TaskFailed], None) else ([], Some e).

(** ** [RiskFraudExecutor.execute] *)

Definition risk_execute {St : Type} `{!RiskSignalStore St} (store : St)
    (validate : list (string * pyval) → result RiskAssessmentRequest) (ctx : RequestContext) : TaskRun :=
  with_task ctx
    match assess validate store (_input_parts ctx) with
    | Err e => reject e
    | Ok (assessment, _) => add_output (build_a2a_output assessment None)
    end.

(** ** [BillingEntitlementExecutor.execute] *)

Definition billing_execute {St : Type} `{!BillingFactStore St} (store : St) (t : datetime)
    (validate : list (string * pyval) → result RefundEligibilityRequest) (ctx : RequestContext) : TaskRun :=
  with_task ctx
    match analyze validate store t (_input_parts ctx) with
    | Err e => reject e
    | Ok (_, rec, _) => add_output (build_billing_output rec None)
    end.

(** ** [CustomerResolutionExecutor.execute] *)

(** [_invoke] of the AgentCore entry point is the parameter [invoke] here. *)
Definition resolution_execute (invoke : pyval → prog (list (string * pyval))) (ctx : RequestContext) :
    prog (list TaskEvent) :=
  let! created := lift (if ctx_current_task ctx then Ok []
                        else _ ← ctx_new_task ctx; Ok [Enqueued]) in
  let! result := invoke (_payload ctx) in
  match dict_get "status" result with
  | Some (VStr "failed") => Ret (created ++ [TaskFailed])
  | _ => Ret (created ++ [ArtifactAdded result; TaskCompleted])
  end.
End Parts.

(** ** What a run puts on the queue *)

(** The events before the pipeline's. *)
Definition created (ctx : RequestContext) : list TaskEvent :=
  if ctx_current_task ctx then [] else [Enqueued].

Definition has_task (ctx : RequestContext) : Prop := ctx_current_task ctx = true ∨ ctx_new_task ctx = Ok tt.

Lemma with_task_run ctx run :
  has_task ctx → with_task ctx run = (created ctx ++ run.1, run.2).
Proof.
  unfold has_task, with_task, created. destruct run, (ctx_current_task ctx); [done|].
  intros [Ht|Ht]; [done|]. by rewrite Ht.
Qed.

Lemma rejected ctx e :
  (created ctx ++ (reject e).1, (reject e).2) =
  match e with
  | ValueError _ | ValidationError _ | JSONDecodeError _ => (created ctx ++ [TaskFailed], None)
  | _ => (created ctx, Some e)
  end.
Proof. destruct e; cbn; by rewrite ?app_nil_r. Qed.

(** Remark (safety): an executor of the resolution agent settles its task.  When its pipeline
    answers, the queue ends with one failure and no artifact, or with one artifact, the
    pipeline's answer, and the completion; a failed answer is never an artifact. *)
Theorem resolution_task_settled `{Uuids} env invoke ctx w answer w' :
  has_task ctx → run env (invoke (_payload ctx)) w = (Ok answer, w') →
  run env (resolution_execute invoke ctx) w =
    (Ok (created ctx ++ if bool_of_option (match dict_get "status" answer with
                                           | Some (VStr "failed") => Some tt | _ => None end)
                        then [TaskFailed] else [ArtifactAdded answer; TaskCompleted]), w').
Proof.
  intros Ht Hi. unfold resolution_execute.
  replace (if ctx_current_task ctx then Ok [] else _) with (Ok (created ctx)).
  2: { unfold created. destruct Ht as [->| ->]; [done|]. by destruct (ctx_current_task ctx). }
  rewrite run_bind, run_lift. cbv beta iota. rewrite run_bind, Hi. cbv beta iota.
  repeat case_match; done.
Qed.

(** ** One answer through three entry points *)

(** The body of an HTTP request whose message has these parts. *)
Definition posts (parts_validate : pyval → result (list A2APart)) (body task_id : pyval) (fresh : UUID) (parts : list A2APart) : Prop :=
  body_get body "task_id" (VStr (uuid_str fresh)) = Ok task_id ∧
  ∃ input raw, body_get body "input" (VDict []) = Ok input ∧ body_get input "parts" (VList []) = Ok raw ∧
    parts_validate raw = Ok parts.

Section Risk.
Context `{Uuids} `{!Prompting} `{!Schema RiskNarrative}.
Context (validate : list (string * pyval) → result RiskAssessmentRequest).
Context {St : Type} `{!RiskSignalStore St} (store : St) (profile : ModelProfile).
Context (env : Environment) (Hacks : acks env).
Context (json_loads : string → result pyval) (parts_validate : pyval → result (list A2APart)).

(** C36 (equivalence): the risk agent's entry points agree.  Take one list of parts, the
    broker acknowledging every record (the Kafka handler publishes its result event
    before it answers) and an SDK that makes the task.  When the assessment succeeds, the
    Kafka handler (without a narrative), the HTTP endpoint and the AgentCore executor
    build one and the same answer: the handler returns the message, the endpoint the
    message in a completed result, the executor its data as the artifact of a completed
    task.  When it raises, none of them answers: the handler raises the same exception and
    publishes nothing, the endpoint gives a failed result; the executor fails the task on a
    ValueError (pydantic's and json's included: the refusals of a request) and lets
    any other exception, one of the signal store, leave with the task unsettled. *)
Theorem risk_entry_points_agree ctx body task_id fresh req w :
  has_task ctx → posts parts_validate body task_id fresh (_input_parts json_loads ctx) →
  msg_parts (tr_input req) = _input_parts json_loads ctx →
  match assess validate store (_input_parts json_loads ctx) with
  | Ok (a, _) => ∃ out w',
      build_a2a_output a None = Ok out ∧
      run env (handle_risk validate store false profile req) w = (Ok out, w') ∧
      handle_task validate parts_validate uuid_str store (Some body) fresh = Ok {|
        resp_status_code := 200;
        resp_content := completed_content RiskService.AGENT_ID task_id (dump_message uuid_str out) |} ∧
      risk_execute json_loads store validate ctx =
        (created ctx ++ [ArtifactAdded (first_part_data out); TaskCompleted], None)
  | Err e =>
      run env (handle_risk validate store false profile req) w = (Err e, w) ∧
      handle_task validate parts_validate uuid_str store (Some body) fresh = Ok {|
        resp_status_code := 200;
        resp_content := failed_content RiskService.AGENT_ID task_id "handler_error" (exn_str e) |} ∧
      risk_execute json_loads store validate ctx =
        match e with
        | ValueError _ | ValidationError _ | JSONDecodeError _ => (created ctx ++ [TaskFailed], None)
        | _ => (created ctx, Some e)
        end
  end.
Proof using Hacks.
  intros Ht (Hid & input & raw & Hin & Hraw & Hparts) Hmsg.
  unfold risk_execute, handle_task. rewrite with_task_run by done. rewrite Hid. cbn [mbind result_bind].
  rewrite Hin. cbn [mbind result_bind]. rewrite Hraw. cbn [mbind result_bind]. rewrite Hparts. cbn [mbind result_bind].
  unfold handle_risk. rewrite run_bind, run_lift, Hmsg.
  destruct (assess validate store (_input_parts json_loads ctx)) as [[a rreq]|e] eqn:Ha;
    [|by rewrite rejected].
  cbv beta iota. assert (Hv : ∃ d, first_data (_input_parts json_loads ctx) = Some d ∧ validate d = Ok rreq).
  { revert Ha. unfold assess, validate_input. destruct (first_data _) as [d|]; [|done].
    destruct (validate d) as [r|] eqn:Ev; [|done]. cbn. intros Ha. exists d. split; [done|]. rewrite Ev. f_equal.
    destruct (store_load_signals _ _) as [s|]; [|congruence].
    destruct (assess_signals s r FRAUD_POLICY); cbn in Ha; congruence. }
  destruct Hv as (d & Hd & Hv).
  destruct (pipeline_delivers validate store _ d rreq None Hd Hv)
    as (a' & payload & out & data & Ha' & Hp & Ho & _). assert (a' = a) as -> by congruence.
  cbn [mbind result_bind]. exists out. eexists. split; [exact Ho|]. rewrite Ho. split; [|by split].
  rewrite run_bind. cbn [optional_narrative run]. rewrite run_bind, run_lift. cbn [narrative_instance].
  rewrite run_bind, run_lift, Hp. cbv beta iota.
  rewrite run_bind, (run_publish_event env Hacks _ _ _ _ _ _ M_RiskResult)
    by (apply risk_identity_valid || (vm_compute; reflexivity)).
  cbv beta iota. rewrite run_lift, Ho. reflexivity.
Qed.
End Risk.

Section Billing.
Context `{Uuids} `{!Prompting} `{!Schema BillingNarrative}.
Context (validate : list (string * pyval) → result RefundEligibilityRequest).
Context {St : Type} `{!BillingFactStore St} (store : St) (profile : ModelProfile).
Context (env : Environment) (Hacks : acks env).
Context (json_loads : string → result pyval) (parts_validate : pyval → result (list A2APart)).

(** Remark (equivalence): the billing agent's entry points agree, in the same sense, at one
    reading of the clock, which the rules take for the age of the invoice. *)
Theorem billing_entry_points_agree ctx body task_id fresh req w :
  has_task ctx → posts parts_validate body task_id fresh (_input_parts json_loads ctx) →
  msg_parts (tr_input req) = _input_parts json_loads ctx →
  match analyze validate store (w_now w) (_input_parts json_loads ctx) with
  | Ok (_, rec, _) => ∃ out w',
      build_billing_output rec None = Ok out ∧
      run env (handle_eligibility validate store false profile req) w = (Ok out, w') ∧
      handle_billing_task validate parts_validate uuid_str store (w_now w) (Some body) fresh = Ok {|
        resp_status_code := 200;
        resp_content := completed_content BillingService.AGENT_ID task_id (dump_message uuid_str out) |} ∧
      billing_execute json_loads store (w_now w) validate ctx =
        (created ctx ++ [ArtifactAdded (first_part_data out); TaskCompleted], None)
  | Err e =>
      run env (handle_eligibility validate store false profile req) w = (Err e, w) ∧
      handle_billing_task validate parts_validate uuid_str store (w_now w) (Some body) fresh = Ok {|
        resp_status_code := 200;
        resp_content := failed_content BillingService.AGENT_ID task_id "handler_error" (exn_str e) |} ∧
      billing_execute json_loads store (w_now w) validate ctx =
        match e with
        | ValueError _ | ValidationError _ | JSONDecodeError _ => (created ctx ++ [TaskFailed], None)
        | _ => (created ctx, Some e)
        end
  end.
Proof using Hacks.
  intros Ht (Hid & input & raw & Hin & Hraw & Hparts) Hmsg.
  unfold billing_execute, handle_billing_task. rewrite with_task_run by done. rewrite Hid.
  cbn [mbind result_bind]. rewrite Hin. cbn [mbind result_bind]. rewrite Hraw.
  cbn [mbind result_bind]. rewrite Hparts. cbn [mbind result_bind].
  unfold handle_eligibility. rewrite run_bind. cbn [run now reads]. rewrite run_bind, run_lift, Hmsg.
  destruct (analyze validate store (w_now w) (_input_parts json_loads ctx))
    as [[[breq rec] facts]|e] eqn:Ha; [|by rewrite rejected].
  destruct (analysis_delivers validate store (w_now w) _ breq rec facts None Ha)
    as (payload & out & data & Hp & Ho & _).
  cbn [mbind result_bind]. exists out. eexists. split; [exact Ho|]. rewrite Ho. split; [|by split].
  cbv beta iota. rewrite run_bind. cbn [optional_narrative run]. rewrite run_bind, run_lift. cbn [narrative_instance].
  rewrite run_bind, run_lift, Hp. cbv beta iota.
  rewrite run_bind, (run_publish_event env Hacks _ _ _ _ _ _ M_BillingResult)
    by (apply billing_identity_valid || (vm_compute; reflexivity)).
  cbv beta iota. rewrite run_lift, Ho. reflexivity.
Qed.
End Billing.
