(* ===== verification/Choreography.v ===== *)
(** * The two analyses of a case, end to end

    What the billing and risk results do to a case that waits for both: the
    decision they lead to in either order, how that decision rests on the facts
    the peer agents own, and where the order of arrival matters. *)

From Stdlib Require Import ZArith Bool Ascii String List Lia.
From stdpp Require Import base list strings gmap relations.
From S2P Require Import Prelude.
From S2P Require Import PyFloat.
From S2P Require Import Contracts.
From S2P Require Import A2A.
From S2P Require Import Envelope.
From S2P Require Import CaseModels.
From S2P Require Import Drafter.
From S2P Require Import Classifier.
From S2P Require Import DecisionEngine.
From S2P Require Import DecisionFacts.
From S2P Require Import Normalize.
From S2P Require Import StateStore.
From S2P Require Import Async.
From S2P Require Import Handlers.
From S2P Require Import DecisionBudget.
From S2P Require Import Execution.

Open Scope string_scope.
Open Scope list_scope.
Open Scope Z_scope.
Open Scope prog_scope.

#[local] Set Default Proof Using "Type*".

(** ** A case that waits for both analyses *)

(** The attributes the two handlers set. *)
Definition with_billing (b : BillingFinding) (event task : UUID) (t : datetime)
    (case : ResolutionCase) : ResolutionCase :=
  apply_to_case task (inl b) t (set_billing_result_event_id (Some event) case).

Definition with_risk (r : RiskFinding) (event task : UUID) (t : datetime)
    (case : ResolutionCase) : ResolutionCase :=
  apply_to_case task (inr r) t (set_risk_result_event_id (Some event) case).

Lemma apply_to_case_ids task f t c :
  rc_case_id (apply_to_case task f t c) = rc_case_id c ∧
  rc_correlation_id (apply_to_case task f t c) = rc_correlation_id c.
Proof. unfold apply_to_case. destruct f, (_ && _); done. Qed.

(** The guard of the immediate escalation, on the finding alone. *)
Definition alarming (r : RiskFinding) : bool :=
  elevated_or_high (rfi_level r) || rfi_requires_human_review r.

Record awaiting (case : ResolutionCase) (b r : UUID) : Prop := {
  aw_status : rc_status case = WAITING_FOR_PEER_REVIEWS;
  aw_billing : rc_billing_task_id case = Some b;
  aw_risk : rc_risk_task_id case = Some r;
  aw_distinct : b ≠ r;
  aw_pending : rc_pending_tasks case = {[ b; r ]};
  aw_slots : rc_billing_slot_failed case = false ∧ rc_risk_slot_failed case = false;
  aw_fresh : rc_billing_result case = None ∧ rc_risk_result case = None;
}.

(** The decision policy on two findings. *)
Definition policy_ruling (case : ResolutionCase) (fb : BillingFinding) (fr : RiskFinding) :
    ruling :=
  truth_table (triage_or_default case) (Some fb) (Some fr) None.

Definition is_ineligible (fb : BillingFinding) : bool :=
  bool_decide (bfi_eligibility fb = ineligible).

Lemma no_pending_ruling case t :
  rc_pending_tasks case = ∅ →
  case_ruling case t =
  truth_table (triage_or_default case) (rc_billing_result case) (rc_risk_result case) None.
Proof.
  intros Hp. unfold case_ruling, build_timeout_status, task_pending. rewrite Hp.
  destruct (rc_billing_task_id case), (rc_risk_task_id case);
    rewrite ?bool_decide_eq_false_2 by set_solver; reflexivity.
Qed.

Lemma pending_left {b r : UUID} : b ≠ r → ({[b; r]} ∖ {[b]} : gset UUID) = {[r]}.
Proof. set_solver. Qed.
Lemma pending_right {b r : UUID} : b ≠ r → ({[b; r]} ∖ {[r]} : gset UUID) = {[b]}.
Proof. set_solver. Qed.
Lemma in_left (b r : UUID) : b ∈ ({[b; r]} : gset UUID).
Proof. set_solver. Qed.
Lemma in_right (b r : UUID) : r ∈ ({[b; r]} : gset UUID).
Proof. set_solver. Qed.
Lemma pending_none {x : UUID} : ({[x]} ∖ {[x]} : gset UUID) = ∅.
Proof. set_solver. Qed.

Lemma with_billing_awaiting fb ev b r t case :
  awaiting case b r →
  let c := with_billing fb ev b t case in
  rc_pending_tasks c = {[r]} ∧ rc_status c = WAITING_FOR_PEER_REVIEWS ∧
  is_ready_to_decide c = false ∧ rc_billing_result c = Some fb ∧ rc_risk_result c = None ∧
  rc_risk_task_id c = Some r ∧ rc_triage c = rc_triage case.
Proof.
  intros [Hs Hb Hr Hn Hp [S1 S2] [F1 F2]]. unfold with_billing, apply_to_case. cbn.
  rewrite Hp, (pending_left Hn), bool_decide_eq_false_2 by set_solver. cbn [andb].
  unfold is_ready_to_decide. cbn. rewrite S1, S2. cbn.
  rewrite ?bool_decide_eq_false_2 by set_solver. by rewrite Hs, Hr, F2.
Qed.

Lemma with_risk_awaiting fr ev b r t case :
  awaiting case b r →
  let c := with_risk fr ev r t case in
  rc_pending_tasks c = {[b]} ∧ rc_status c = WAITING_FOR_PEER_REVIEWS ∧
  is_ready_to_decide c = false ∧ rc_risk_result c = Some fr ∧
  rc_billing_task_id c = Some b ∧ rc_triage c = rc_triage case.
Proof.
  intros [Hs Hb Hr Hn Hp [S1 S2] [F1 F2]]. unfold with_risk, apply_to_case. cbn.
  rewrite Hp, (pending_right Hn), bool_decide_eq_false_2 by set_solver. cbn [andb].
  unfold is_ready_to_decide. cbn. rewrite S1, S2. cbn.
  rewrite ?bool_decide_eq_false_2 by set_solver. by rewrite Hs, Hb.
Qed.
(** The rulings the handlers reach when the billing result, or the risk result,
    comes first. *)
Definition billing_first_ruling (case : ResolutionCase) (fb : BillingFinding)
    (fr : RiskFinding) : ruling :=
  if alarming fr && negb (is_ineligible fb) then escalate "elevated_risk"
  else policy_ruling case fb fr.

Definition risk_first_ruling (case : ResolutionCase) (fb : BillingFinding)
    (fr : RiskFinding) : ruling :=
  if alarming fr then escalate "elevated_risk" else policy_ruling case fb fr.

(** The second analysis leaves nothing pending. *)
Lemma with_risk_last fr ev task t c :
  rc_pending_tasks c = {[task]} → rc_status c = WAITING_FOR_PEER_REVIEWS →
  let c' := with_risk fr ev task t c in
  rc_pending_tasks c' = ∅ ∧ rc_status c' = READY_FOR_DECISION ∧ rc_triage c' = rc_triage c ∧
  rc_billing_result c' = rc_billing_result c ∧ rc_risk_result c' = Some fr.
Proof.
  intros Hp Hs. unfold with_risk, apply_to_case. cbn.
  rewrite Hp, pending_none, Hs, bool_decide_eq_true_2 by done. done.
Qed.

Lemma with_billing_last fb ev task t c :
  rc_pending_tasks c = {[task]} → rc_status c = WAITING_FOR_PEER_REVIEWS →
  let c' := with_billing fb ev task t c in
  rc_pending_tasks c' = ∅ ∧ rc_status c' = READY_FOR_DECISION ∧ rc_triage c' = rc_triage c ∧
  rc_billing_result c' = Some fb ∧ rc_risk_result c' = rc_risk_result c.
Proof.
  intros Hp Hs. unfold with_billing, apply_to_case. cbn.
  rewrite Hp, pending_none, Hs, bool_decide_eq_true_2 by done. done.
Qed.

(** ** A case in a world *)

Section Choreography.
Context `{Uuids}.
Context (env : Environment) (Hacks : acks env).

(** Slot [k] of world [w] holds [case], reachable by its correlation id. *)
Record holds (k : UUID) (case : ResolutionCase) (w : World) : Prop := {
  h_slot : cs_cases (w_store w) !! k = Some case;
  h_index : cs_by_correlation (w_store w) !! k = Some k;
  h_id : rc_case_id case = k;
  h_corr : rc_correlation_id case = k;
}.

Lemma holds_found k case w : holds k case w → get_by_correlation_id (w_store w) k = Some case.
Proof. intros []. unfold get_by_correlation_id. rewrite h_index0. exact h_slot0. Qed.

Lemma holds_assign k case w f :
  (∀ c, rc_case_id (f c) = rc_case_id c) → (∀ c, rc_correlation_id (f c) = rc_correlation_id c) →
  holds k case w → holds k (f case) (set_store (update_case k f (w_store w)) w).
Proof.
  intros H1 H2 []. constructor; rewrite ?H1, ?H2; try done. by apply lookup_update.
Qed.

Lemma holds_delivered k case w topic e : holds k case w → holds k case (delivered topic e w).
Proof. by intros []. Qed.

(** Attaching a result the case waits for: the case is updated and the result
    audited. *)
Lemma run_attach k task f e w case :
  holds k case w → closed_status (rc_status case) = false → task ∈ rc_pending_tasks case →
  ∃ w' a, run env (attach k task f e) w = (Ok tt, w') ∧
    holds k (apply_to_case task f (w_now w) case) w' ∧ w_now w' = w_now w ∧
    w_log w' = w_log w ++ [(TOPIC_AUDIT, a)] ∧
    ∃ p, env_payload a = P_Audit p ∧ aud_original_envelope p = e ∧
         aud_outcome p = aud_completed ∧ aud_task_id p = Some task.
Proof.
  intros Hh Hopen Htask. unfold attach. rewrite run_bind. cbn [run store_op].
  unfold apply_result. rewrite (h_slot _ _ _ Hh), Hopen, bool_decide_eq_true_2 by done.
  cbv beta iota. cbn [negb]. rewrite bool_decide_eq_true_2 by done.
  rewrite run_audit by (done || (intros [|]; done)). eexists _, _. split; [reflexivity|].
  split; [|split; [reflexivity|split; [reflexivity|by eexists]]].
  apply holds_delivered, holds_assign; [apply apply_to_case_ids..|done].
Qed.

Definition billing_event (e : EventEnvelope) (k : UUID)
    (p : BillingRefundAnalysisCompletedPayload) : Prop :=
  env_correlation_id e = k ∧ env_payload e = P_BillingResult p.

Definition risk_event (e : EventEnvelope) (k : UUID) (p : RiskReviewCompletedPayload) : Prop :=
  env_correlation_id e = k ∧ env_payload e = P_RiskResult p.

(** One audit record more. *)
Definition audited (w w' : World) : Prop :=
  ∃ a p, w_log w' = w_log w ++ [(TOPIC_AUDIT, a)] ∧ env_payload a = P_Audit p.

Lemma run_billing_event k e p task w case :
  holds k case w → billing_event e k p → rc_billing_task_id case = Some task →
  closed_status (rc_status case) = false → task ∈ rc_pending_tasks case →
  ∃ w', holds k (with_billing (billing_finding p (Some task)) (env_event_id e) task (w_now w) case)
          w' ∧ w_now w' = w_now w ∧ audited w w' ∧
    run env (billing_result_handler e) w = run env (decide_if_ready k true (env_event_id e)) w'.
Proof.
  intros Hh [Hq Hp] Htask Hopen Hin. unfold billing_result_handler. rewrite Hp, Hq.
  rewrite run_bind. cbn [run reads]. rewrite (holds_found _ _ _ Hh), Htask.
  rewrite (h_id _ _ _ Hh), run_bind, run_assign. cbv beta iota. rewrite run_bind.
  pose proof (holds_assign k case w (set_billing_result_event_id (Some (env_event_id e)))
                (λ _, eq_refl) (λ _, eq_refl) Hh) as Hh1.
  destruct (run_attach k task (inl (billing_finding p (Some task))) e _ _ Hh1 Hopen Hin)
    as (w' & a & Hr & Hh' & Hn & Hl & q & Hq' & _).
  rewrite Hr. exists w'. split; [exact Hh'|]. split; [exact Hn|]. split; [|done]. by exists a, q.
Qed.

Lemma run_risk_event k e p task w case :
  holds k case w → risk_event e k p → rc_risk_task_id case = Some task →
  closed_status (rc_status case) = false → task ∈ rc_pending_tasks case →
  forces_escalation (risk_finding p (Some task)) case = false →
  ∃ w', holds k (with_risk (risk_finding p (Some task)) (env_event_id e) task (w_now w) case)
          w' ∧ w_now w' = w_now w ∧ audited w w' ∧
    run env (risk_result_handler e) w = run env (decide_if_ready k true (env_event_id e)) w'.
Proof.
  intros Hh [Hq Hp] Htask Hopen Hin Hforce. unfold risk_result_handler. rewrite Hp, Hq.
  rewrite run_bind. cbn [run reads]. rewrite (holds_found _ _ _ Hh), Htask.
  rewrite (h_id _ _ _ Hh), Hforce, run_bind, run_assign. cbv beta iota. rewrite run_bind.
  pose proof (holds_assign k case w (set_risk_result_event_id (Some (env_event_id e)))
                (λ _, eq_refl) (λ _, eq_refl) Hh) as Hh1.
  destruct (run_attach k task (inr (risk_finding p (Some task))) e _ _ Hh1 Hopen Hin)
    as (w' & a & Hr & Hh' & Hn & Hl & q & Hq' & _).
  rewrite Hr. exists w'. split; [exact Hh'|]. split; [exact Hn|]. split; [|done]. by exists a, q.
Qed.

(** An alarming result on an open case escalates at once. *)
Lemma run_risk_escalation k e p task w case :
  holds k case w → risk_event e k p → rc_risk_task_id case = Some task →
  forces_escalation (risk_finding p (Some task)) case = true →
  ∃ w', run env (risk_result_handler e) w = (Ok tt, w') ∧
    decided_by k (env_event_id e) (escalate "elevated_risk") ESCALATED case w w'.
Proof.
  intros Hh [Hq Hp] Htask Hforce. unfold risk_result_handler. rewrite Hp, Hq.
  rewrite run_bind. cbn [run reads]. rewrite (holds_found _ _ _ Hh), Htask.
  rewrite (h_id _ _ _ Hh), Hforce. unfold risk_escalation. rewrite run_bind.
  assert (Hopen : closed_status (rc_status case) = false).
  { unfold forces_escalation in Hforce. apply andb_true_iff in Hforce as [_ Ho].
    by apply negb_true_iff. }
  cbn [run store_op]. unfold claim_decision. rewrite (h_slot _ _ _ Hh), Hopen.
  cbv beta iota. cbn [negb].
  pose proof (holds_assign k case w (λ c, touch (w_now w) (set_status DECIDED c))
                (λ _, eq_refl) (λ _, eq_refl) Hh) as Hh1.
  rewrite run_bind, (run_deref _ _ _ _ (h_slot _ _ _ Hh1)). cbv beta iota.
  unfold handler_decision. rewrite run_bind, run_lift, decision_row_ok by eauto.
  cbv beta iota. rewrite run_bind, run_assign. cbv beta iota.
  pose proof (holds_assign k _ _ (set_risk_result_event_id (Some (env_event_id e)))
                (λ _, eq_refl) (λ _, eq_refl) Hh1) as Hh2.
  rewrite run_bind, run_assign. cbv beta iota.
  pose proof (holds_assign k _ _ (set_risk_result (Some (risk_finding p (Some task))))
                (λ _, eq_refl) (λ _, eq_refl) Hh2) as Hh3.
  edestruct (run_close env Hacks k) as (w' & case' & Hr & Hc & Hk' & Hs').
  { apply (h_slot _ _ _ Hh3). }
  { apply (h_id _ _ _ Hh3). }
  { apply (h_corr _ _ _ Hh3). }
  2: { exists w'. split; [exact Hr|]. eexists _, case'. split; [exact Hc|].
       split; [reflexivity|]. split; [|by split].
       destruct Hh. unfold ids_of, case_ids. cbn. congruence. }
  reflexivity.
Qed.

Lemma run_not_ready k case w u :
  holds k case w → is_ready_to_decide case = false →
  run env (decide_if_ready k true u) w = (Ok tt, w).
Proof.
  intros Hh Hr. unfold decide_if_ready. rewrite run_bind, (run_deref _ _ _ _ (h_slot _ _ _ Hh)).
  by rewrite Hr.
Qed.

Lemma run_ready k case w u :
  holds k case w → is_ready_to_decide case = true → closed_status (rc_status case) = false →
  run env (decide_if_ready k true u) w = run env (_apply_decision k (Some u)) w.
Proof.
  intros Hh Hr Ho. unfold decide_if_ready.
  rewrite run_bind, (run_deref _ _ _ _ (h_slot _ _ _ Hh)). by rewrite Hr, Ho.
Qed.

(** A billing result for a closed case: nothing is published. *)
Lemma run_billing_closed k e p task w case :
  holds k case w → billing_event e k p → rc_billing_task_id case = Some task →
  closed_status (rc_status case) = true →
  ∃ w', run env (billing_result_handler e) w = (Ok tt, w') ∧ w_log w' = w_log w ∧
    holds k (set_billing_result_event_id (Some (env_event_id e)) case) w'.
Proof.
  intros Hh [Hq Hp] Htask Hc. unfold billing_result_handler. rewrite Hp, Hq.
  rewrite run_bind. cbn [run reads]. rewrite (holds_found _ _ _ Hh), Htask.
  rewrite (h_id _ _ _ Hh), run_bind, run_assign. cbv beta iota. rewrite run_bind.
  pose proof (holds_assign k case w (set_billing_result_event_id (Some (env_event_id e)))
                (λ _, eq_refl) (λ _, eq_refl) Hh) as Hh1.
  unfold attach. rewrite run_bind. cbn [run store_op]. unfold apply_result.
  rewrite (h_slot _ _ _ Hh1). cbn [set_billing_result_event_id rc_status]. rewrite Hc.
  cbv beta iota. rewrite bool_decide_eq_false_2 by done. cbn [run].
  unfold decide_if_ready. rewrite run_bind, (run_deref _ _ _ _ (h_slot _ _ _ Hh1)).
  cbv beta iota. cbn [set_billing_result_event_id rc_status]. rewrite Hc, andb_false_r.
  eexists. split; [reflexivity|]. split; [reflexivity|]. exact Hh1.
Qed.

Definition only_audits (log : list (string * EventEnvelope)) : Prop :=
  Forall (λ te, ∃ p, env_payload (snd te) = P_Audit p) log.

(** The case got exactly one decision, with ruling [r], and audit records. *)
Definition settled (k cause : UUID) (r : ruling) (w w' : World) : Prop :=
  ∃ pre d case', only_audits pre ∧ decision_chain d k cause (w_log w ++ pre) (w_log w') ∧
    ruling_of d = r ∧ cs_cases (w_store w') !! k = Some case' ∧
    closed_status (rc_status case') = true.

Lemma decisions_app k l1 l2 :
  decisions k (l1 ++ l2) = (decisions k l1 + decisions k l2)%nat.
Proof. unfold decisions. by rewrite List.filter_app, length_app. Qed.

Lemma decisions_audits k l : only_audits l → decisions k l = 0%nat.
Proof.
  induction 1 as [|[t e] l [p Hp] _ IH]; [done|]. unfold decisions, is_decision in *. cbn in *.
  rewrite Hp, andb_false_r. exact IH.
Qed.

(** A settled case has exactly one decision more. *)
Lemma settled_decisions k cause r w w' :
  settled k cause r w w' → decisions k (w_log w') = S (decisions k (w_log w)).
Proof.
  intros (pre & d & case' & Hpre & Hc & _).
  destruct Hc as (e1 & e2 & e3 & a & dr & Hl & P1 & Q1 & _ & P2 & _ & _ & _ & P3 & _).
  rewrite Hl, !decisions_app, (decisions_audits _ _ Hpre). unfold decisions at 2, is_decision.
  cbn. rewrite P1, P2, P3, Q1, Z.eqb_refl, !andb_false_r. cbn. lia.
Qed.

Lemma run_decide_now k u w case :
  holds k case w → rc_pending_tasks case = ∅ → closed_status (rc_status case) = false →
  ∃ w', run env (decide_if_ready k true u) w = (Ok tt, w') ∧
    decided_by k u
      (truth_table (triage_or_default case) (rc_billing_result case) (rc_risk_result case) None)
      DECIDED case w w'.
Proof.
  intros Hh Hp Ho. rewrite (run_ready _ _ _ _ Hh) by (done || (apply ready_spec; auto)).
  rewrite <- (no_pending_ruling case (w_now w) Hp). destruct Hh. by apply run_apply_decision.
Qed.


(** What is known of a case after its first analysis. *)
Record half_done (k : UUID) (case case1 : ResolutionCase) (pending : UUID) (w w1 : World) :
    Prop := {
  hd_holds : holds k case1 w1;
  hd_pending : rc_pending_tasks case1 = {[pending]};
  hd_status : rc_status case1 = WAITING_FOR_PEER_REVIEWS;
  hd_triage : rc_triage case1 = rc_triage case;
  hd_tasks : rc_billing_task_id case1 = rc_billing_task_id case ∧
             rc_risk_task_id case1 = rc_risk_task_id case;
  hd_audited : audited w w1;
}.

Lemma first_billing k e p b r w case :
  holds k case w → awaiting case b r → billing_event e k p →
  ∃ w1 case1, run env (billing_result_handler e) w = (Ok tt, w1) ∧
    half_done k case case1 r w w1 ∧
    rc_billing_result case1 = Some (billing_finding p (Some b)).
Proof.
  intros Hh Haw He.
  destruct (run_billing_event k e p b w case Hh He (aw_billing _ _ _ Haw))
    as (w1 & Hh1 & Hn1 & Ha1 & Hrun1).
  { by rewrite (aw_status _ _ _ Haw). }
  { rewrite (aw_pending _ _ _ Haw). apply in_left. }
  destruct (with_billing_awaiting (billing_finding p (Some b)) (env_event_id e) b r (w_now w)
              case Haw) as (Hp1 & Hs1 & Hnr & Hb1 & Hr1 & Ht1 & Htri).
  rewrite (run_not_ready _ _ _ _ Hh1 Hnr) in Hrun1. eexists w1, _. split; [exact Hrun1|].
  split; [|exact Hb1]. constructor; try done. split; [|by rewrite Ht1, (aw_risk _ _ _ Haw)].
  unfold with_billing, apply_to_case. by destruct (_ && _).
Qed.

Lemma first_risk k e p b r w case :
  holds k case w → awaiting case b r → risk_event e k p →
  forces_escalation (risk_finding p (Some r)) case = false →
  ∃ w1 case1, run env (risk_result_handler e) w = (Ok tt, w1) ∧
    half_done k case case1 b w w1 ∧
    rc_risk_result case1 = Some (risk_finding p (Some r)).
Proof.
  intros Hh Haw He Hforce.
  destruct (run_risk_event k e p r w case Hh He (aw_risk _ _ _ Haw))
    as (w1 & Hh1 & Hn1 & Ha1 & Hrun1); [| |done|].
  { by rewrite (aw_status _ _ _ Haw). }
  { rewrite (aw_pending _ _ _ Haw). apply in_right. }
  destruct (with_risk_awaiting (risk_finding p (Some r)) (env_event_id e) b r (w_now w)
              case Haw) as (Hp1 & Hs1 & Hnr & Hr1 & Ht1 & Htri).
  rewrite (run_not_ready _ _ _ _ Hh1 Hnr) in Hrun1. eexists w1, _. split; [exact Hrun1|].
  split; [|exact Hr1]. constructor; try done. split; [by rewrite Ht1, (aw_billing _ _ _ Haw)|].
  unfold with_risk, apply_to_case. by destruct (_ && _).
Qed.

Lemma settled_trans k cause r w w1 w2 :
  audited w w1 → settled k cause r w1 w2 → settled k cause r w w2.
Proof.
  intros (a & p & Hl & Ha) (pre & d & case' & Hpre & Hc & Hrest).
  exists ((TOPIC_AUDIT, a) :: pre), d, case'.
  split; [constructor; [by exists p|done]|]. split; [|done].
  rewrite Hl, <- app_assoc in Hc. exact Hc.
Qed.

Lemma settled_direct k cause r s case w w' :
  closed_status s = true → decided_by k cause r s case w w' → settled k cause r w w'.
Proof.
  intros Hs (d & case' & Hc & Hr & _ & (Hk & _) & Hs'). exists [], d, case'.
  rewrite app_nil_r. split_and!; try done; [constructor|by rewrite Hs'].
Qed.

Lemma last_risk k e p b r w w1 case case1 :
  awaiting case b r → half_done k case case1 r w w1 → risk_event e k p →
  forces_escalation (risk_finding p (Some r)) case1 = false →
  ∃ w2, run env (risk_result_handler e) w1 = (Ok tt, w2) ∧
    settled k (env_event_id e)
      (truth_table (triage_or_default case) (rc_billing_result case1)
         (Some (risk_finding p (Some r))) None) w1 w2.
Proof.
  intros Haw [Hh Hp Hs Htri [_ Ht] _] He Hforce. rewrite (aw_risk _ _ _ Haw) in Ht.
  destruct (run_risk_event k e p r w1 case1 Hh He Ht) as (w2 & Hh2 & _ & Ha2 & Hrun2);
    [by rewrite Hs|by rewrite Hp; apply elem_of_singleton_2|done|].
  destruct (with_risk_last (risk_finding p (Some r)) (env_event_id e) r (w_now w1) case1 Hp Hs)
    as (Hp2 & Hs2 & Htri2 & Hb2 & Hr2).
  set (case2 := with_risk _ _ _ _ case1) in *. clearbody case2.
  destruct (run_decide_now k (env_event_id e) w2 _ Hh2 Hp2) as (w3 & Hrun3 & Hd);
    [by rewrite Hs2|].
  exists w3. split; [by rewrite Hrun2|]. apply (settled_trans _ _ _ _ w2); [done|].
  assert (Et : triage_or_default case2 = triage_or_default case)
    by (unfold triage_or_default; by rewrite Htri2, Htri).
  rewrite Et, Hb2, Hr2 in Hd. exact (settled_direct _ _ _ DECIDED _ _ _ eq_refl Hd).
Qed.

Lemma last_billing k e p b r w w1 case case1 :
  awaiting case b r → half_done k case case1 b w w1 → billing_event e k p →
  ∃ w2, run env (billing_result_handler e) w1 = (Ok tt, w2) ∧
    settled k (env_event_id e)
      (truth_table (triage_or_default case) (Some (billing_finding p (Some b)))
         (rc_risk_result case1) None) w1 w2.
Proof.
  intros Haw [Hh Hp Hs Htri [Ht _] _] He. rewrite (aw_billing _ _ _ Haw) in Ht.
  destruct (run_billing_event k e p b w1 case1 Hh He Ht) as (w2 & Hh2 & _ & Ha2 & Hrun2);
    [by rewrite Hs|by rewrite Hp; apply elem_of_singleton_2|].
  destruct (with_billing_last (billing_finding p (Some b)) (env_event_id e) b (w_now w1) case1
              Hp Hs) as (Hp2 & Hs2 & Htri2 & Hb2 & Hr2).
  set (case2 := with_billing _ _ _ _ case1) in *. clearbody case2.
  destruct (run_decide_now k (env_event_id e) w2 _ Hh2 Hp2) as (w3 & Hrun3 & Hd);
    [by rewrite Hs2|].
  exists w3. split; [by rewrite Hrun2|]. apply (settled_trans _ _ _ _ w2); [done|].
  assert (Et : triage_or_default case2 = triage_or_default case)
    by (unfold triage_or_default; by rewrite Htri2, Htri).
  rewrite Et, Hb2, Hr2 in Hd. exact (settled_direct _ _ _ DECIDED _ _ _ eq_refl Hd).
Qed.

Lemma billing_first_settles k w case b r eb er pb pr :
  holds k case w → awaiting case b r → billing_event eb k pb → risk_event er k pr →
  let fb := billing_finding pb (Some b) in
  let fr := risk_finding pr (Some r) in
  ∃ w1 w2, run env (billing_result_handler eb) w = (Ok tt, w1) ∧
    run env (risk_result_handler er) w1 = (Ok tt, w2) ∧
    settled k (env_event_id er) (billing_first_ruling case fb fr) w w2.
Proof.
  intros Hh Haw Hb Hr fb fr. unfold billing_first_ruling.
  destruct (first_billing k eb pb b r w case Hh Haw Hb) as (w1 & case1 & Hrun1 & Hd1 & Hb1).
  exists w1.
  assert (Hforce : forces_escalation fr case1 = alarming fr && negb (is_ineligible fb)).
  { unfold forces_escalation. rewrite Hb1, (hd_status _ _ _ _ _ _ Hd1), andb_true_r. done. }
  destruct (alarming fr && negb (is_ineligible fb)).
  - destruct (run_risk_escalation k er pr r w1 case1 (hd_holds _ _ _ _ _ _ Hd1) Hr)
      as (w2 & Hrun2 & Hd2); [|exact Hforce|].
    { rewrite (proj2 (hd_tasks _ _ _ _ _ _ Hd1)). apply (aw_risk _ _ _ Haw). }
    exists w2. split_and!; [done..|]. apply (settled_trans _ _ _ _ w1); [apply Hd1|].
    eapply settled_direct; [|eassumption]; done.
  - destruct (last_risk k er pr b r w w1 case case1 Haw Hd1 Hr Hforce) as (w2 & Hrun2 & Hset).
    exists w2. split_and!; [done..|]. apply (settled_trans _ _ _ _ w1); [apply Hd1|].
    rewrite Hb1 in Hset. exact Hset.
Qed.

Lemma risk_first_settles k w case b r eb er pb pr :
  holds k case w → awaiting case b r → billing_event eb k pb → risk_event er k pr →
  let fb := billing_finding pb (Some b) in
  let fr := risk_finding pr (Some r) in
  ∃ w1 w2, run env (risk_result_handler er) w = (Ok tt, w1) ∧
    run env (billing_result_handler eb) w1 = (Ok tt, w2) ∧
    if alarming fr
    then settled k (env_event_id er) (escalate "elevated_risk") w w1 ∧ w_log w2 = w_log w1
    else settled k (env_event_id eb) (policy_ruling case fb fr) w w2.
Proof.
  intros Hh Haw Hb Hr fb fr. pose proof (aw_risk _ _ _ Haw) as Htr.
  assert (Hforce : forces_escalation fr case = alarming fr).
  { unfold forces_escalation. rewrite (proj1 (aw_fresh _ _ _ Haw)), (aw_status _ _ _ Haw).
    by rewrite !andb_true_r. }
  destruct (alarming fr).
  - destruct (run_risk_escalation k er pr r w case Hh Hr Htr Hforce) as (w1 & Hrun1 & Hd).
    pose proof Hd as (d & case' & _ & _ & _ & (Hk' & Hi' & Hid' & Hq' & Hb' & _) & Hs').
    rewrite (aw_billing _ _ _ Haw) in Hb'.
    destruct (run_billing_closed k eb pb b w1 case') as (w2 & Hrun2 & Hl2 & _);
      [by constructor|done|done|by rewrite Hs'|].
    exists w1, w2. split; [done|]. split; [done|]. split; [|done]. eapply settled_direct; [|eassumption]; done.
  - destruct (first_risk k er pr b r w case Hh Haw Hr Hforce)
      as (w1 & case1 & Hrun1 & Hd1 & Hr1).
    destruct (last_billing k eb pb b r w w1 case case1 Haw Hd1 Hb) as (w2 & Hrun2 & Hset).
    exists w1, w2. split_and!; [done..|]. apply (settled_trans _ _ _ _ w1); [apply Hd1|].
    rewrite Hr1 in Hset. exact Hset.
Qed.

(** C5 (liveness): the two analyses settle the case.  When a case waits for both
    and the broker acknowledges, delivering the billing and risk results, in
    either order, raises nothing and publishes exactly one decision, audited and
    drafted, caused by the result that arrived last, or by an alarming risk result
    that arrived first and escalated the case at once; the ruling is the one of
    the order of arrival ([billing_first_ruling], [risk_first_ruling]). *)
Theorem analyses_settle k w case b r eb er pb pr :
  holds k case w → awaiting case b r → billing_event eb k pb → risk_event er k pr →
  let fb := billing_finding pb (Some b) in
  let fr := risk_finding pr (Some r) in
  (∃ w1 w2, run env (billing_result_handler eb) w = (Ok tt, w1) ∧
     run env (risk_result_handler er) w1 = (Ok tt, w2) ∧
     settled k (env_event_id er) (billing_first_ruling case fb fr) w w2 ∧
     decisions k (w_log w2) = S (decisions k (w_log w))) ∧
  (∃ w1 w2, run env (risk_result_handler er) w = (Ok tt, w1) ∧
     run env (billing_result_handler eb) w1 = (Ok tt, w2) ∧
     (∃ wd, w_log wd = w_log w2 ∧
        settled k (env_event_id (if alarming fr then er else eb)) (risk_first_ruling case fb fr) w wd) ∧
     decisions k (w_log w2) = S (decisions k (w_log w))).
Proof.
  intros Hh Haw Hb Hr fb fr. split.
  - destruct (billing_first_settles k w case b r eb er pb pr Hh Haw Hb Hr)
      as (w1 & w2 & H1 & H2 & H3).
    exists w1, w2. split_and!; try done. by eapply settled_decisions.
  - destruct (risk_first_settles k w case b r eb er pb pr Hh Haw Hb Hr)
      as (w1 & w2 & H1 & H2 & H3). exists w1, w2. split; [done|]. split; [done|].
    unfold risk_first_ruling. fold fr in H3. destruct (alarming fr).
    + destruct H3 as [H3 Hl]. split; [by exists w1|rewrite Hl; by eapply settled_decisions].
    + split; [by exists w2|by eapply settled_decisions].
Qed.
End Choreography.
