(* ===== verification/EndToEnd.v ===== *)
(** * The refund workflow end to end

    The three agents together: the recommendations of the billing and risk agents
    travel in their domain events to the case they answer, and the case gets its
    decision. *)

From Stdlib Require Import ZArith Bool Ascii String List Lia.
From stdpp Require Import base list strings gmap.
From S2P Require Import Prelude.
From S2P Require Import PyFloat.
From S2P Require Import Contracts.
From S2P Require Import A2A.
From S2P Require Import RiskModels.
From S2P Require Import RiskStore.
From S2P Require Import RiskScoring.
From S2P Require Import RiskService.
From S2P Require Import RiskScoringFacts.
From S2P Require Import RiskServiceFacts.
From S2P Require Import BillingModels.
From S2P Require Import BillingRules.
From S2P Require Import BillingStore.
From S2P Require Import BillingService.
From S2P Require Import BillingFacts.
From S2P Require Import Envelope.
From S2P Require Import CaseModels.
From S2P Require Import Drafter.
From S2P Require Import Classifier.
From S2P Require Import DecisionEngine.
From S2P Require Import DecisionFacts.
From S2P Require Import Normalize.
From S2P Require Import StateStore.
From S2P Require Import Async.
From S2P Require Import Handlers.
From S2P Require Import Execution.
From S2P Require Import Choreography.

Open Scope string_scope.
Open Scope list_scope.
Open Scope Z_scope.

(** ** The wire *)

Lemma eligible_word r :
  eligibility_of (py_lower (Recommendation_str r)) = eligible ↔ r = APPROVE_FULL_REFUND.
Proof. destruct r; vm_compute; intuition congruence. Qed.

Lemma low_word l otherwise :
  level_of (py_lower (RiskLevel_str l)) otherwise =
  match l with LOW => level_low | ELEVATED => level_elevated | HIGH => level_high end.
Proof. by destruct l. Qed.

Lemma billing_payload_inv req rec facts narrative p :
  build_result_payload req rec facts narrative = Ok p →
  bra_recommendation p = Recommendation_str (er_recommendation rec) ∧
  bra_confidence p = er_confidence rec ∧
  bra_requires_human_review p = er_requires_human_review rec ∧
  bra_eligible_refund_amount p = er_eligible_refund_amount rec ∧
  bra_usage_level p = er_usage_level rec.
Proof.
  unfold build_result_payload, mk_billing_result. destruct (in_unit _); [|discriminate].
  intros [= <-]. done.
Qed.

Lemma risk_payload_inv a req narrative p :
  to_result_payload a req narrative = Ok p →
  rrc_recommendation p = RiskLevel_str (ra_risk_level a) ∧
  rrc_confidence p = ra_confidence a ∧
  rrc_requires_human_review p = ra_requires_human_review a.
Proof.
  unfold to_result_payload, mk_risk_result. destruct (in_unit _); [|discriminate].
  intros [= <-]. done.
Qed.

Lemma finding_eligible p t :
  bfi_eligibility (billing_finding p t) = eligible →
  eligibility_of (py_lower (bra_recommendation p)) = eligible.
Proof. unfold billing_finding. cbn. by destruct (bool_decide _ && _). Qed.

(** ** Approvals rest on the facts the peers own *)

Lemma policy_approval triage fb fr :
  fst (truth_table triage (Some fb) (Some fr) None) = APPROVE_REFUND →
  tri_needs_refund_review triage = true ∧ bfi_eligibility fb = eligible ∧
  rfi_level fr = level_low ∧ bfi_requires_human_review fb = false ∧
  rfi_requires_human_review fr = false ∧
  (compute_confidence (Some triage) (Some fb) (Some fr) <? lit 6 10)%pf = false.
Proof.
  unfold truth_table, first_match, analysis_rows. cbn [List.find fst].
  destruct (tri_needs_refund_review triage); cbn [negb andb]; [|discriminate].
  destruct (bfi_requires_human_review fb || _) eqn:Hh; [discriminate|].
  apply orb_false_iff in Hh as [Hb Hr]. destruct (_ <? _)%pf; [discriminate|].
  intros H. split_and!; try done; by destruct (bfi_eligibility fb), (rfi_level fr).
Qed.

Lemma ruling_approval case fb fr :
  fst (billing_first_ruling case fb fr) = APPROVE_REFUND ∨
  fst (risk_first_ruling case fb fr) = APPROVE_REFUND →
  fst (policy_ruling case fb fr) = APPROVE_REFUND.
Proof.
  unfold billing_first_ruling, risk_first_ruling. destruct (alarming fr), (is_ineligible fb);
    cbn [andb negb]; intros [H|H]; done.
Qed.

(** The billing facts allow a refund of [amount]. *)
Definition billing_clears (now : datetime) (facts : BillingFacts) (amount : Decimal) : Prop :=
  ∃ i p, bf_invoice facts = Some i ∧ bf_payment facts = Some p ∧ approvable now facts i p ∧
    refundable p = Ok amount.

(** The fraud policy rules the request low without human review. *)
Definition risk_clears (signals : RiskSignals) (request : RiskAssessmentRequest) : Prop :=
  ∃ action confidence, engine_verdict signals request = (LOW, action, confidence, false).

(** What a policy approval of the agents' own recommendations rests on. *)
Lemma approval_facts now facts breq rec bnarr pb btask
    signals rreq a rnarr pr rtask triage :
  evaluate now facts breq REFUND_POLICY = Ok rec →
  build_result_payload breq rec (Some facts) bnarr = Ok pb →
  assess_signals signals rreq FRAUD_POLICY = Ok a →
  to_result_payload a rreq rnarr = Ok pr →
  fst (truth_table triage (Some (billing_finding pb btask)) (Some (risk_finding pr rtask)) None) =
    APPROVE_REFUND →
  billing_clears now facts (bra_eligible_refund_amount pb) ∧ risk_clears signals rreq ∧
  tri_needs_refund_review triage = true.
Proof.
  intros Hev Hpb Has Hpr Hrule.
  apply policy_approval in Hrule as (Hneed & Helig & Hlow & _ & Hreview & _).
  destruct (billing_payload_inv _ _ _ _ _ Hpb) as (Hrec & _ & _ & Hamt & _).
  destruct (risk_payload_inv _ _ _ _ Hpr) as (Hlev & _ & Hhr).
  assert (Happ : er_recommendation rec = APPROVE_FULL_REFUND).
  { apply eligible_word. rewrite <- Hrec. by apply (finding_eligible pb btask). }
  pose proof (approved_gate _ _ _ _ _ Hev Happ) as Hg.
  destruct (gate_known _ _ _ Hg) as (i & p & Hi & Hp); [done|].
  destruct (evaluate_ok _ _ _ _ _ Hev) as [_ Hm]. rewrite Hg in Hm. cbn in Hm. rewrite Hp in Hm.
  destruct (assess_signals_refines signals rreq FRAUD_POLICY) as (a' & Ha' & Hv).
  assert (a' = a) as -> by congruence. unfold risk_clears.
  destruct (engine_verdict signals rreq) as [[[l action] c] h] eqn:Hpol.
  unfold verdict, as_verdict in Hv. injection Hv as Hl Haction Hc Hh.
  split; [|split; [|done]].
  - exists i, p. split_and!; try done; [by apply gate_not_delivered|by rewrite Hamt].
  - exists action, c. unfold risk_finding in Hlow, Hreview. cbn in Hlow, Hreview.
    rewrite Hlev, low_word in Hlow. rewrite Hhr in Hreview.
    assert (l = LOW) as -> by (rewrite <- Hl; by destruct (ra_risk_level a)).
    by rewrite <- Hh, Hreview.
Qed.

(** Remark (safety): an approved refund rests on the owned facts.  When the two
    agents' recommendations reach a case through their domain events and the case
    is ruled approve_refund, in either order of arrival, then at the billing
    agent's reading the purchase was approvable (within the window, paid,
    captured, not reversed, consistent, lightly used, undelivered), the announced
    amount is the payment's refundable amount, the risk policy's verdict is low
    without human review, and the ticket needed a review. *)
Theorem approval_rests_on_facts now facts breq rec bnarr pb btask
    signals rreq a rnarr pr rtask case :
  evaluate now facts breq REFUND_POLICY = Ok rec →
  build_result_payload breq rec (Some facts) bnarr = Ok pb →
  assess_signals signals rreq FRAUD_POLICY = Ok a →
  to_result_payload a rreq rnarr = Ok pr →
  let fb := billing_finding pb btask in
  let fr := risk_finding pr rtask in
  fst (billing_first_ruling case fb fr) = APPROVE_REFUND ∨
  fst (risk_first_ruling case fb fr) = APPROVE_REFUND →
  billing_clears now facts (bra_eligible_refund_amount pb) ∧ risk_clears signals rreq ∧
  tri_needs_refund_review (triage_or_default case) = true.
Proof.
  intros Hev Hpb Has Hpr fb fr Hrule. apply ruling_approval in Hrule.
  exact (approval_facts _ _ _ _ _ _ _ _ _ _ _ _ _ _ Hev Hpb Has Hpr Hrule).
Qed.

(** ** The order of arrival *)

(** The ruling depends on which analysis arrives first. *)
Definition order_sensitive (case : ResolutionCase) (fb : BillingFinding) (fr : RiskFinding) :
    Prop :=
  billing_first_ruling case fb fr ≠ risk_first_ruling case fb fr.

(** Remark (functional): the order of arrival matters only where the policy wants a
    denial corroborated by risk: an ineligible purchase and an alarming risk.
    There the risk result arriving first escalates at once, and arriving second
    leaves the ruling to the truth table, which denies (so that the order does
    matter) when nobody asks for review and the confidence holds. *)
Theorem arrival_order_matters case fb fr :
  (order_sensitive case fb fr → alarming fr = true ∧ bfi_eligibility fb = ineligible) ∧
  (alarming fr = true → bfi_eligibility fb = ineligible →
   risk_first_ruling case fb fr = escalate "elevated_risk" ∧
   billing_first_ruling case fb fr = policy_ruling case fb fr ∧
   (tri_needs_refund_review (triage_or_default case) = true →
    bfi_requires_human_review fb = false → rfi_requires_human_review fr = false →
    (compute_confidence (Some (triage_or_default case)) (Some fb) (Some fr) <? lit 6 10)%pf
      = false →
    billing_first_ruling case fb fr = (DENY_REFUND, None) ∧ order_sensitive case fb fr)).
Proof.
  unfold order_sensitive, billing_first_ruling, risk_first_ruling, is_ineligible. split.
  - destruct (alarming fr), (bool_decide (bfi_eligibility fb = ineligible)) eqn:E; cbn; try done.
    intros _. by apply bool_decide_eq_true in E.
  - intros Ha He. rewrite Ha, bool_decide_eq_true_2 by done.
    cbn [andb negb]. split_and!; [done..|]. intros Hn Hb Hr Hc.
    assert (Hd : policy_ruling case fb fr = (DENY_REFUND, None)).
    { unfold policy_ruling, truth_table, first_match, analysis_rows. cbn [List.find fst].
      rewrite Hn, Hb, Hr, Hc, He. cbn [negb andb orb]. unfold alarming in Ha.
      rewrite Hr, orb_false_r in Ha. by destruct (rfi_level fr). }
    by rewrite Hd.
Qed.

(** ** Seeds *)

Definition seeded_case : ResolutionCase :=
  CaseModels.set_triage (Some (triage_of "please refund me"))
    (new_case 1 "T-1" "C-1" 1 (lit 4999 100) "USD" "please refund me" 0).

(** The two rulings of a seeded purchase and a seeded customer. *)
Definition seeded_rulings (ref customer : string) : option (ruling * ruling) :=
  match build_result_payload (sample_billing_request ref "") (recommendation_at 0 ref)
          (Some (facts_of ref)) None,
        to_result_payload (assessment_of customer) (sample_request customer None) None with
  | Ok pb, Ok pr =>
      let fb := billing_finding pb None in
      let fr := risk_finding pr None in
      Some (billing_first_ruling seeded_case fb fr, risk_first_ruling seeded_case fb fr)
  | _, _ => None
  end.

Definition same (r : ruling) : option (ruling * ruling) := Some (r, r).

Definition denied_or_escalated : option (ruling * ruling) :=
  Some ((DENY_REFUND, None), escalate "elevated_risk").

(** Remark (functional): the seeded matrix, for a clear refund ticket: each purchase
    against a clean customer, one without history (confidence 0.6, still decided
    automatically), an elevated and a high-risk one. *)
Theorem seeded_matrix :
  map (λ ref, map (seeded_rulings ref)
                ["CUS-CLEAN"; "CUS-MISSING-HISTORY"; "CUS-CARD-TESTING"; "CUS-CHARGEBACKS"])
    seeded_refs =
  let approve := same (APPROVE_REFUND, None) in
  let credit := same (OFFER_PARTIAL_CREDIT, None) in
  let risky := same (escalate "elevated_risk") in
  let conflict := same (escalate "conflicting_analyses") in
  let review := same (escalate "peer_requested_review") in
  [ [approve; approve; risky; risky];
    [conflict; conflict; denied_or_escalated; denied_or_escalated];
    [conflict; conflict; denied_or_escalated; denied_or_escalated];
    [conflict; conflict; denied_or_escalated; denied_or_escalated];
    [credit; credit; risky; risky];
    [review; review; risky; risky];
    [approve; approve; risky; risky] ].
Proof. vm_compute. reflexivity. Qed.
