(* ===== verification/Scenarios.v ===== *)
(** * Schedules: what the interleavings really do

    An executable scheduler for the event loop, sound for its step relation, and
    the schedules that show the limits of the choreography: a case with two
    decisions, and a case that is closed and never decided. *)

From Stdlib Require Import ZArith Bool Ascii String List Lia.
From stdpp Require Import base list strings gmap relations.
From S2P Require Import Prelude.
From S2P Require Import PyFloat.
From S2P Require Import Contracts.
From S2P Require Import A2A.
From S2P Require Import Envelope.
From S2P Require Import CaseModels.
From S2P Require Import Drafter.
From S2P Require Import Classifier.
From S2P Require Import DecisionEngine.
From S2P Require Import DecisionFacts.
From S2P Require Import Normalize.
From S2P Require Import StateStore.
From S2P Require Import Llm.
From S2P Require Import LlmConfig.
From S2P Require Import Prompts.
From S2P Require Import Async.
From S2P Require Import LlmRuntime.
From S2P Require Import Handlers.
From S2P Require Import DecisionBudget.
From S2P Require Import DecisionSafety.

Open Scope string_scope.
Open Scope list_scope.
Open Scope Z_scope.
Open Scope prog_scope.

(** ** An executable scheduler *)

(** An answer of the environment, before it is matched with the await. *)
Inductive Answer :=
| ASend (o : SendOutcome)
| ACards (scan : CardScan (result EventEnvelope))
| AInvoke (o : InvokeOutcome).

Definition answer {R} (q : Query R) (a : Answer) : option R :=
  match q with
  | Send _ _ _ => match a with ASend o => Some o | _ => None end
  | ReadCards => match a with ACards r => Some r | _ => None end
  | Invoke _ => match a with AInvoke o => Some o | _ => None end
  | _ => None
  end.

Inductive Move :=
| Start (p : prog unit)
| Reply (i : nat) (a : Answer).

Definition move (m : Move) (l : Loop) : option Loop :=
  match m with
  | Start p =>
      let '(p', w') := advance p (l_world l) in Some (mk_loop (l_threads l ++ [p']) w')
  | Reply i a =>
      match l_threads l !! i with
      | Some (Await q k) =>
          r ← answer q a;
          let '(p', w') := advance (k r) (effect q r (l_world l)) in
          Some (mk_loop (<[i := p']> (l_threads l)) w')
      | _ => None
      end
  end.

Fixpoint moves (ms : list Move) (l : Loop) : option Loop :=
  match ms with
  | [] => Some l
  | m :: ms => l' ← move m l; moves ms l'
  end.

Lemma move_sound (handler : prog unit → Prop) m l l' :
  match m with Start p => handler p | Reply _ _ => True end →
  move m l = Some l' → loop_step handler l l'.
Proof.
  destruct l as [ts w]. destruct m as [p|i a]; cbn; intros Hp H.
  - destruct (advance p w) as [p' w'] eqn:Ha. injection H as <-. by apply step_start with p.
  - destruct (ts !! i) as [[| | |R q k]|] eqn:Hi; try discriminate.
    destruct (answer q a) as [r|]; [|discriminate]. cbn in H.
    destruct (advance (k r) (effect q r w)) as [p' w'] eqn:Ha. injection H as <-.
    by eapply step_resume.
Qed.

Lemma moves_sound (handler : prog unit → Prop) ms l l' :
  Forall (λ m, match m with Start p => handler p | Reply _ _ => True end) ms →
  moves ms l = Some l' → rtc (loop_step handler) l l'.
Proof.
  revert l. induction ms as [|m ms IH]; intros l Hall H.
  - injection H as <-. apply rtc_refl.
  - cbn in H. destruct (move m l) as [l1|] eqn:E; [|discriminate].
    inversion Hall as [|? ? Hm Hms]. eapply rtc_l; [by eapply move_sound|by apply IH].
Qed.

(** ** A concrete deployment *)

#[local] Instance demo_uuids : Uuids := {|
  uuid4 := λ n, 1000 + Z.of_nat n;
  uuid5 := λ q name, 10 * q + (if String.eqb name BILLING_CAPABILITY_ID then 1 else 2);
|}.

(** A codec whose every text is a JSON string of itself, and a model output that is
    never a classification. *)
Definition demo_json : Json := {|
  json_loads s := if str_truthy s then Ok (VStr s) else Err (JSONDecodeError "Expecting value");
  json_dumps v := match v with VStr s => s | _ => "" end;
  json_dumps_sorted _ := "";
  json_dumps_indent v := match v with VStr s => s | _ => "" end;
  sha256_hex _ := "";
|}.

(** No prompts directory, and fields that take the values of their type only. *)
Definition demo_prompting : Prompting := {|
  prompting_json := demo_json;
  prompting_fields := {|
    str_value v := match v with VStr s => Ok s | _ => Err (ValidationError "string") end;
    float_value v := match v with VFloat f => Ok f | _ => Err (ValidationError "float") end;
    int_value v := match v with VInt z => Ok z | _ => Err (ValidationError "int") end |};
  prompts_dir := None;
  prompts_yaml _ := Ok [];
|}.

#[local] Instance demo_assistant : Assistant := {|
  assistant_prompting := demo_prompting;
  classification_json_schema := [("title", VStr "TicketClassification")];
  classification_fields _ := Err (ValidationError "Field required");
  classification_dump _ := [];
  classify_profile := with_max_tokens 256 _DEFAULT_PROFILE;
|}.

Definition demo_intake : EventEnvelope → prog unit := intake_handler REFUND_INTENT_SIGNALS false.

Definition demo_result : EventEnvelope → prog unit := result_handler (λ _, None) (λ _, None).

Definition envelope_in (id q : UUID) (et : string) (p : EventPayload) : EventEnvelope := {|
  env_event_id := id; env_correlation_id := q; env_causation_id := None;
  env_agent_id := "sender"; env_tenant_id := "poc"; env_timestamp := 0;
  env_event_type := et; env_schema_version := "1.0.0"; env_payload := p |}.

Definition ticket_event : EventEnvelope :=
  envelope_in 100 5 TICKET_CREATED (P_Ticket (sample_ticket "please refund me")).

Definition demo_billing (recommendation : string) : BillingRefundAnalysisCompletedPayload := {|
  bra_ticket_id := "T-1"; bra_recommendation := recommendation; bra_confidence := lit 9 10;
  bra_evidence := []; bra_reasoning_summary := ""; bra_requires_human_review := false;
  bra_case_id := 5; bra_customer_id := "C-1"; bra_billing_account_id := None;
  bra_subscription_status := "active"; bra_invoice_status := "paid";
  bra_payment_status := "captured"; bra_entitlement_status := "active";
  bra_usage_level := "light"; bra_refund_window_status := "within";
  bra_eligible_refund_amount := dec_zero; bra_enriched_reasoning_summary := None;
  bra_evidence_explanation := None |}.

Definition demo_risk (recommendation : string) : RiskReviewCompletedPayload := {|
  rrc_ticket_id := "T-1"; rrc_recommendation := recommendation; rrc_confidence := lit 9 10;
  rrc_evidence := []; rrc_reasoning_summary := ""; rrc_requires_human_review := false;
  rrc_enriched_reasoning_summary := None; rrc_evidence_explanation := None |}.

Definition billing_result_event (recommendation : string) : EventEnvelope :=
  envelope_in 101 5 TOPIC_BILLING_RESULT (P_BillingResult (demo_billing recommendation)).

Definition risk_result_event (recommendation : string) : EventEnvelope :=
  envelope_in 102 5 TOPIC_RISK_RESULT (P_RiskResult (demo_risk recommendation)).

(** The billing agent rejects the task. *)
Definition billing_rejected_event : EventEnvelope :=
  envelope_in 103 5 "agent.task_result.v1" (P_TaskResult {|
    tres_task_id := 51; tres_status := rejected;
    tres_performer_agent_id := BILLING_PEER_AGENT_ID; tres_output := None;
    tres_error := Some {| te_category := cat_validation; te_message := "invalid input" |} |}).

Definition peer_card (agent_id capability_id : string) : AgentCard := {|
  card_agent_id := agent_id; card_name := agent_id; card_description := "peer";
  card_version := "1.0.0"; card_endpoint_topic := endpoint_topic agent_id;
  card_capabilities := [ {| cap_id := capability_id; cap_name := capability_id;
                            cap_description := "capability"; cap_tags := [] |} ] |}.

Definition billing_card : AgentCard := peer_card BILLING_PEER_AGENT_ID BILLING_CAPABILITY_ID.
Definition risk_card : AgentCard := peer_card RISK_PEER_AGENT_ID RISK_CAPABILITY_ID.

(** A scan that finds these cards, in one poll. *)
Definition card_record (card : AgentCard) : CardRecord (result EventEnvelope) := {|
  rec_key := card_agent_id card;
  rec_value := Ok (envelope_in 90 91 "agent.agent_card.v1" (P_Card card)) |}.

Definition scan_of (cards : list AgentCard) : CardScan (result EventEnvelope) := {|
  scan_start := Ok tt; scan_polls := [Ok [map card_record cards]; Ok []]; scan_stop := Ok tt |}.

Definition start_world : World := mk_world empty_store 0 0 [].
Definition start_loop : Loop := mk_loop [] start_world.

Definition ack (i : nat) : Move := Reply i (ASend Acked).

Definition demo_handler : prog unit → Prop :=
  agent_handler REFUND_INTENT_SIGNALS false (λ _, None) (λ _, None).

(** ** Two decisions for one case *)

(** The intake delegates to billing and looks for the risk agent, whose card is
    not published; meanwhile billing rejects its task. *)
Definition race : list Move :=
  [ Start (demo_intake ticket_event); ack 0; ack 0;
    Reply 0 (ACards (scan_of [billing_card])); ack 0;
    Start (demo_result billing_rejected_event); ack 1; ack 1; ack 1; ack 1;
    Reply 0 (ACards (scan_of [billing_card])); ack 0; ack 0; ack 0 ].

(** The coroutines a schedule starts. *)
Definition starts (ms : list Move) : list (prog unit) :=
  omap (λ m, match m with Start p => Some p | Reply _ _ => None end) ms.

(** Every record is written and acknowledged. *)
Definition lossless (m : Move) : Prop :=
  match m with Reply _ (ASend o) => o = Acked | _ => True end.

(** The decisions of a log: the message that caused each, its outcome, the escalation's reason
    and the rationale. *)
Definition rulings (log : list (string * EventEnvelope)) :
    list (option UUID * ResolutionOutcome * option string * string) :=
  omap (λ te, match env_payload (snd te) with
              | P_Decision p => Some (env_causation_id (snd te), crd_outcome p,
                                      crd_escalation_reason p, crd_rationale p)
              | _ => None
              end) log.

(** C32 (safety): the exactly-once rule fails while the intake runs.  On one ticket - its
    intake started once and billing's rejection of its task delivered once, nothing else, with
    every record written and acknowledged - the agent publishes two decisions for the case:
    the result handler decides it on the rejected task (event 103), and the intake, whose
    search for the risk agent fails, emits the escalation of its delegation-failure path
    (caused by the ticket, event 100) without claiming the case. *)
Theorem intake_race_decides_twice :
  ∃ ms l,
    starts ms = [demo_intake ticket_event; demo_result billing_rejected_event] ∧
    Forall lossless ms ∧
    moves ms start_loop = Some l ∧ rtc (loop_step demo_handler) start_loop l ∧
    Forall (λ p, p = Ret tt) (l_threads l) ∧
    decisions 5 (w_log (l_world l)) = 2%nat ∧
    rulings (w_log (l_world l)) =
      [ (Some 103, ESCALATE_HUMAN, Some "missing_analysis", "Missing analysis: ['risk']");
        (Some 100, ESCALATE_HUMAN, Some "peer_failure",
         "Delegation failed: No published card for " +:+ RISK_PEER_AGENT_ID +:+
         " declares capability " +:+ RISK_CAPABILITY_ID) ].
Proof.
  destruct (moves race start_loop) as [l|] eqn:E; [|by vm_compute in E].
  exists race, l. split; [reflexivity|].
  split; [repeat (apply Forall_cons_2; [done|]); apply Forall_nil_2|]. split; [done|]. split.
  - apply (moves_sound demo_handler race); [|done].
    repeat (apply Forall_cons_2; [try exact I; constructor|]). apply Forall_nil_2.
  - vm_compute in E. injection E as <-. split; [repeat constructor|].
    split; vm_compute; reflexivity.
Qed.

(** ** A closed case that is never decided *)

(** The complete delegation and both analyses, up to the publication of the decision. *)
Definition delivered_analyses : list Move :=
  [ Start (demo_intake ticket_event); ack 0; ack 0;
    Reply 0 (ACards (scan_of [billing_card; risk_card])); ack 0;
    Reply 0 (ACards (scan_of [billing_card; risk_card])); ack 0; ack 0;
    Start (billing_result_handler (billing_result_event "approve_full_refund")); ack 1;
    Start (risk_result_handler (risk_result_event "low")); ack 2 ].

(** The coroutine has returned or raised. *)
Definition ended (p : prog unit) : bool := match p with Ret _ | Raise _ => true | _ => false end.

Lemma ended_idle c p : ended p = true → idle c (λ _, True) p.
Proof. by destruct p. Qed.

(** The decision the third coroutine is about to publish. *)
Definition awaits_decision (l : Loop) : bool :=
  match l_threads l !! 2%nat with
  | Some (Await (Send topic _ d) _) => String.eqb topic TOPIC_RESOLUTION_DECIDED && is_decision 5 d
  | _ => false
  end.

Lemma analyses_reachable l :
  moves delivered_analyses start_loop = Some l → rtc (loop_step demo_handler) start_loop l.
Proof.
  intros E. apply (moves_sound demo_handler delivered_analyses); [|exact E].
  repeat (apply Forall_cons_2; [try exact I; constructor|]). apply Forall_nil_2.
Qed.

(** What the loop is after the broker refused the decision. *)
Definition refused : option Loop :=
  l ← moves delivered_analyses start_loop; move (Reply 2 (ASend Dropped)) l.

Lemma refused_closed :
  (λ l, (case_closed 5 (w_store (l_world l)), decisions 5 (w_log (l_world l)),
         forallb ended (l_threads l), rc_status <$> get (w_store (l_world l)) 5)) <$> refused =
  Some (true, 0%nat, true, Some DECIDED).
Proof. vm_compute. reflexivity. Qed.

Lemma refused_not_listed l : refused = Some l → ∀ t, list_timed_out_cases (w_store (l_world l)) t = [].
Proof. intros E. vm_compute in E. injection E as <-. reflexivity. Qed.

(** C33 (liveness): the claim is not undone when the publication fails.  With one ticket and
    both its analyses delivered and every record so far acknowledged, the agent is about to publish the decision of case 5;
    the broker refuses this one record.  Every coroutine has then ended, the case is DECIDED
    with no decision published and no sweep lists it; and whatever the agent runs from there
    - any later result, sweep or consumer, the ticket's intake delivered again included - and
    whatever the broker answers, no decision is ever published: the customer waits forever. *)
Theorem lost_decision_is_final :
  ∃ ms l1 key d (k : SendOutcome → prog unit) l2,
    starts ms = [demo_intake ticket_event;
                 billing_result_handler (billing_result_event "approve_full_refund");
                 risk_result_handler (risk_result_event "low")] ∧
    Forall lossless ms ∧ moves ms start_loop = Some l1 ∧
    rtc (loop_step demo_handler) start_loop l1 ∧
    l_threads l1 !! 2%nat = Some (Await (Send TOPIC_RESOLUTION_DECIDED key d) k) ∧
    is_decision 5 d = true ∧
    move (Reply 2 (ASend Dropped)) l1 = Some l2 ∧ loop_step demo_handler l1 l2 ∧
    forallb ended (l_threads l2) = true ∧
    (rc_status <$> get (w_store (l_world l2)) 5) = Some DECIDED ∧
    (∀ t, list_timed_out_cases (w_store (l_world l2)) t = []) ∧
    ∀ l', rtc (loop_step demo_handler) l2 l' → decisions 5 (w_log (l_world l')) = 0%nat.
Proof.
  pose proof refused_closed as Hc. pose proof refused_not_listed as Ht. unfold refused in Hc, Ht.
  destruct (moves delivered_analyses start_loop) as [l1|] eqn:E1; [|discriminate Hc].
  cbn [mbind option_bind] in Hc, Ht.
  destruct (move (Reply 2 (ASend Dropped)) l1) as [l2|] eqn:E2; [|discriminate Hc].
  cbn [fmap option_fmap option_map] in Hc. injection Hc as Hclosed Hd He Hs.
  assert (Ha : awaits_decision l1 = true).
  { assert (H1 : awaits_decision <$> moves delivered_analyses start_loop = Some true)
      by (vm_compute; reflexivity). rewrite E1 in H1. by injection H1. }
  unfold awaits_decision in Ha.
  destruct (l_threads l1 !! 2%nat) as [[| | |? [topic key d| | | | | | | |] k]|] eqn:E3; try discriminate Ha.
  apply andb_prop in Ha as [Htopic Hdec]. apply String.eqb_eq in Htopic as ->.
  pose proof (move_sound demo_handler (Reply 2 (ASend Dropped)) l1 l2 I E2) as Hstep.
  pose proof (analyses_reachable l1 E1) as Hr.
  exists delivered_analyses, l1, key, d, k, l2. split; [reflexivity|].
  split; [repeat (apply Forall_cons_2; [done|]); apply Forall_nil_2|].
  do 8 (split; [first [exact E1|exact Hr|exact E3|exact Hdec|exact E2|exact Hstep|exact He|exact Hs]|]).
  split; [exact (Ht l2 eq_refl)|]. intros l' Hr'.
  destruct (loop_consistent _ _ _ _ 0 l2 (rtc_r _ _ _ Hr Hstep)) as [Hw _].
  destruct (at_rest_steps 5 _ _ _ _ 0 l2 l' Hr') as (_ & H2 & _); [|done].
  split_and!; [by split|done|]. apply list.Forall_forall. intros p Hp. apply ended_idle.
  rewrite forallb_forall in He. by apply He, list_elem_of_In.
Qed.
