(* ===== verification/Intake.v ===== *)
(** * The intake of a ticket

    What [intake_handler] does with a new ticket when the broker acknowledges and
    the peers' cards are published: the direct response, or the complete
    delegation that leaves the case waiting for both analyses. *)

From Stdlib Require Import ZArith Bool Ascii String List Lia.
From stdpp Require Import base list strings gmap.
From S2P Require Import Prelude.
From S2P Require Import PyFloat.
From S2P Require Import Contracts.
From S2P Require Import A2A.
From S2P Require Import Envelope.
From S2P Require Import CaseModels.
From S2P Require Import Drafter.
From S2P Require Import Classifier.
From S2P Require Import DecisionEngine.
From S2P Require Import DecisionFacts.
From S2P Require Import Normalize.
From S2P Require Import StateStore.
From S2P Require Import Llm.
From S2P Require Import Prompts.
From S2P Require Import Async.
From S2P Require Import LlmRuntime.
From S2P Require Import Handlers.
From S2P Require Import DecisionBudget.
From S2P Require Import Execution.
From S2P Require Import LlmFacts.
From S2P Require Import Choreography.

Open Scope string_scope.
Open Scope list_scope.
Open Scope Z_scope.
Open Scope prog_scope.

#[local] Set Default Proof Using "Type*".

(** A case opened for a ticket. *)
Definition about (ticket : SupportTicketCreatedPayload) (case : ResolutionCase) : Prop :=
  rc_ticket_id case = stc_ticket_id ticket ∧ rc_customer_id case = stc_customer_id ticket ∧
  rc_ticket_amount case = stc_amount ticket ∧ rc_ticket_reason case = stc_reason ticket.

(** What the peers are asked about ticket [ticket] in case [k]. *)
Definition risk_question (k : UUID) (ticket : SupportTicketCreatedPayload) :
    RiskAnalysisRequestInput := {|
  ri_case_id := k; ri_ticket_id := stc_ticket_id ticket;
  ri_customer_id := stc_customer_id ticket;
  ri_requested_refund_amount := stc_amount ticket;
  ri_customer_message_summary := stc_reason ticket |}.

Definition billing_question (k : UUID) (ticket : SupportTicketCreatedPayload) :
    BillingAnalysisRequestInput := {|
  bi_case_id := k; bi_ticket_id := stc_ticket_id ticket;
  bi_customer_id := stc_customer_id ticket;
  bi_requested_refund_amount := stc_amount ticket;
  bi_purchase_reference := stc_ticket_id ticket;
  bi_customer_message_summary := stc_reason ticket;
  bi_policy_context := "standard" |}.

Lemma questions_about k ticket case :
  rc_correlation_id case = k → about ticket case →
  build_risk_request_input case = risk_question k ticket ∧
  build_billing_request_input case = billing_question k ticket.
Proof.
  intros Hk (H1 & H2 & H3 & H4).
  unfold build_risk_request_input, build_billing_request_input. by rewrite Hk, H1, H2, H3, H4.
Qed.

(** A case as [get_or_create] and the classification leave it. *)
Record undelegated (ticket : SupportTicketCreatedPayload) (triage : Triage)
    (case : ResolutionCase) : Prop := {
  un_billing : rc_billing_task_id case = None;
  un_risk : rc_risk_task_id case = None;
  un_pending : rc_pending_tasks case = ∅;
  un_slots : rc_billing_slot_failed case = false ∧ rc_risk_slot_failed case = false;
  un_results : rc_billing_result case = None ∧ rc_risk_result case = None;
  un_triage : rc_triage case = Some triage;
  un_ticket : about ticket case;
}.

Section Intake.
Context `{Uuids} `{Assistant}.
Variable signals : list string.
Variable llm_enabled : bool.
Context (env : Environment) (Hacks : acks env).

(** ** Classification always yields a triage *)

Lemma to_triage_ok c :
  in_unit (tc_confidence c) = true →
  ∃ u, to_triage c = Ok u ∧ in_unit (tri_confidence u) = true.
Proof.
  intros Hc. unfold to_triage, mk_triage. cbn -[in_unit]. rewrite Hc.
  eexists. split; [reflexivity|exact Hc].
Qed.

(** A value of the classification schema has its confidence in range. *)
Lemma schema_confidence data c :
  model_validate data = Ok c → in_unit (tc_confidence c) = true.
Proof.
  cbn. destruct (classification_fields data) as [c'|]; [|done]. cbn. unfold mk_classification.
  destruct (in_unit (tc_confidence c')) eqn:E; [|done]. by intros [= <-].
Qed.

Lemma answered_confidence profile request w c :
  answered_with profile env request w c → in_unit (tc_confidence c) = true.
Proof.
  intros [raw _ (parsed & _ & Hp)|raw _ _ (errors & raw' & _ & _ & (parsed & _ & Hp) & _)];
    by eapply schema_confidence.
Qed.

(** The classifier's fallback. *)
Lemma fallback_classified ticket q ev t :
  classify signals ticket = Ok t →
  ar_fallback (classify_request signals ticket q ev) = Ok (fallback_classification t) ∧
  in_unit (tri_confidence t) = true.
Proof.
  intros Ht. destruct (classify_total signals ticket) as (t' & Ht' & Hu).
  rewrite Ht in Ht'. injection Ht' as <-. split; [|done].
  cbn. rewrite Ht. cbn. unfold mk_classification. cbn -[in_unit]. by rewrite Hu.
Qed.

(** The triage of ticket [ticket] when the provider answers as it does in world [w]: the rules'
    when the LLM is off, or when the repair loop raises; the LLM's own classification; or, when
    there is none, the rules' as the fallback of the runtime. *)
Inductive triaged (ticket : SupportTicketCreatedPayload) (q ev : UUID) (w : World) : Triage → Prop :=
| by_rules t :
    llm_enabled = false → classify signals ticket = Ok t → triaged ticket q ev w t
| by_answer request c t :
    llm_enabled = true → mk_request (classify_request signals ticket q ev) = Ok request →
    answered_with classify_profile env request w c → to_triage c = Ok t → triaged ticket q ev w t
| by_fallback request reason t t' :
    llm_enabled = true → mk_request (classify_request signals ticket q ev) = Ok request →
    unanswered env request w reason → classify signals ticket = Ok t →
    to_triage (fallback_classification t) = Ok t' → triaged ticket q ev w t'
| by_failure request e t :
    llm_enabled = true → mk_request (classify_request signals ticket q ev) = Ok request →
    unanswered env request w invalid_output →
    repair_raises (V:=TicketClassification) env (_render_prompt request) w e →
    classify signals ticket = Ok t → triaged ticket q ev w t.

(** The LLM's classification changes nothing, and its triage is in range. *)
Lemma run_classify_with_llm ticket q ev w :
  llm_enabled = true →
  ∃ o, run env (classify_with_llm signals ticket q ev) w = (o, w) ∧
    match o with
    | Ok triage => triaged ticket q ev w triage ∧ in_unit (tri_confidence triage) = true
    | Err e => ∀ t, classify signals ticket = Ok t → triaged ticket q ev w t
    end.
Proof.
  intros Hllm. destruct (classify_total signals ticket) as (t & Ht & _).
  destruct (fallback_classified ticket q ev t Ht) as [Hfb Hu].
  unfold classify_with_llm, assist_or_fallback. rewrite run_bind, run_bind, run_lift.
  destruct (mk_request (classify_request signals ticket q ev)) as [request|e] eqn:Er; [|done].
  assert (Hfall : ar_fallback request = ar_fallback (classify_request signals ticket q ev)).
  { unfold mk_request in Er. destruct (negb _); [done|]. by injection Er as <-. }
  rewrite run_bind.
  destruct (run_reason_miss false true classify_profile env request new_store w eq_refl)
    as (o & w' & -> & _ & _ & Hw & Ho). rewrite (Hw eq_refl).
  destruct o as [[r store']|e]; cbn [outcome_ok] in Ho.
  - cbn [run]. destruct Ho as [r c Hc Hval _ _ _|r c reason Hun Hf Hval _ _ _]; rewrite Hval.
    + destruct (to_triage_ok c (answered_confidence _ _ _ _ Hc)) as (u & Hu' & Hcu).
      rewrite run_lift, Hu'. eexists. split; [reflexivity|]. split; [|done]. by eapply by_answer.
    + rewrite Hfall, Hfb in Hf. injection Hf as <-.
      destruct (to_triage_ok (fallback_classification t) Hu) as (u & Hu' & Hcu).
      rewrite run_lift, Hu'. eexists. split; [reflexivity|]. split; [|done]. by eapply by_fallback.
  - eexists. split; [reflexivity|]. cbv beta iota. destruct Ho as [[He _]|[(raw & Hraw & Hun) Hr]].
    + rewrite Hfall, Hfb in He. discriminate He.
    + intros t' Ht'. eapply by_failure; [done|exact Er|by eapply not_repaired|exact Hr|exact Ht'].
Qed.

Lemma run_triage ticket q ev w :
  ∃ triage, run env (triage_ticket signals llm_enabled ticket q ev) w = (Ok triage, w) ∧
    triaged ticket q ev w triage ∧ in_unit (tri_confidence triage) = true.
Proof.
  destruct (classify_total signals ticket) as (t & Ht & Hu). unfold triage_ticket.
  destruct llm_enabled eqn:Hllm.
  - rewrite run_catch. destruct (run_classify_with_llm ticket q ev w Hllm) as ([triage|e] & -> & Ho).
    + exists triage. split; [done|]. exact Ho.
    + exists t. rewrite run_lift, Ht. split; [done|]. split; [by apply Ho|done].
  - exists t. rewrite run_lift, Ht. split; [done|]. split; [by apply by_rules|done].
Qed.

(** ** Building blocks *)

Lemma run_save_holds k case w :
  holds k case w →
  ∃ w', run env (store_try (λ st t, save st k None t)) w = (Ok tt, w') ∧
    holds k (CaseModels.set_updated_at (w_now w) (set_version (rc_version case + 1) case)) w' ∧
    w_log w' = w_log w ∧ w_now w' = w_now w.
Proof.
  intros []. rewrite (run_save env k w case h_slot h_id). eexists. split; [reflexivity|].
  split; [|done]. constructor; cbn; rewrite ?h_corr, ?lookup_insert_eq; done.
Qed.

Lemma holds_same k case w w' :
  w_store w' = w_store w → holds k case w → holds k case w'.
Proof. intros Hs []. constructor; rewrite ?Hs; done. Qed.

Lemma run_publish_classified d q cause w :
  run env (publish IDENTITY (P_Classified d) TOPIC_ISSUE_CLASSIFIED q (Some cause) None) w =
  let e := envelope_of (P_Classified d) TOPIC_ISSUE_CLASSIFIED q cause w in
  (Ok e, delivered TOPIC_ISSUE_CLASSIFIED e w).
Proof. by apply (run_publish env Hacks _ _ _ _ _ M_Classified); vm_compute. Qed.

Lemma run_publish_review d q cause w :
  run env (publish IDENTITY (P_ReviewRequested d) TOPIC_REFUND_REVIEW_REQUESTED q (Some cause)
             None) w =
  let e := envelope_of (P_ReviewRequested d) TOPIC_REFUND_REVIEW_REQUESTED q cause w in
  (Ok e, delivered TOPIC_REFUND_REVIEW_REQUESTED e w).
Proof. by apply (run_publish env Hacks _ _ _ _ _ M_ReviewRequested); vm_compute. Qed.

Lemma run_publish_task r q cause topic w :
  run env (publish IDENTITY (P_TaskRequest r) "agent.task_request.v1" q (Some cause)
             (Some topic)) w =
  let e := envelope_of (P_TaskRequest r) "agent.task_request.v1" q cause w in
  (Ok e, delivered topic e w).
Proof.
  unfold publish. rewrite run_bind. cbn [run fresh_uuid].
  rewrite run_bind. cbn [run now reads]. rewrite run_bind, run_lift.
  replace (_build_envelope _ _ _ _ _ _ _)
    with (Ok (envelope_of (P_TaskRequest r) "agent.task_request.v1" q cause w))
    by (vm_compute; reflexivity).
  rewrite run_bind. cbn [run]. rewrite Hacks. reflexivity.
Qed.

(** ** Up to the classification event *)

Definition new_correlation (k : UUID) (w : World) : Prop :=
  cs_cases (w_store w) !! k = None ∧ cs_by_correlation (w_store w) !! k = None.

Lemma run_get_or_create k ticket customer amount currency reason w :
  new_correlation k w →
  ∃ w', run env (store_op (λ st t,
          get_or_create st k ticket customer k amount currency reason t)) w = (Ok k, w') ∧
    holds k (new_case k ticket customer k amount currency reason (w_now w)) w' ∧
    w_log w' = w_log w ∧ w_now w' = w_now w ∧
    w' = set_store (put_case k (new_case k ticket customer k amount currency reason (w_now w))
                      (w_store w)) w.
Proof.
  intros [H1 H2]. cbn [run store_op]. unfold get_or_create. rewrite H2, H1.
  rewrite bool_decide_eq_false_2 by (by intros [? ?]). eexists. split; [reflexivity|].
  split; [|done]. constructor; cbn; rewrite ?lookup_insert_eq; done.
Qed.

(** The world in which the ticket is classified: its case is in the store. *)
Definition registered (k : UUID) (ticket : SupportTicketCreatedPayload) (w : World) : World :=
  set_store (put_case k (new_case k (stc_ticket_id ticket) (stc_customer_id ticket) k
    (stc_amount ticket) (stc_currency ticket) (stc_reason ticket) (w_now w)) (w_store w)) w.

Lemma run_classification e ticket w :
  env_payload e = P_Ticket ticket → new_correlation (env_correlation_id e) w →
  let k := env_correlation_id e in
  ∃ triage w' case a c,
    triaged ticket k (env_event_id e) (registered k ticket w) triage ∧
    (∃ w0, run env (triage_ticket signals llm_enabled ticket (env_correlation_id e) (env_event_id e)) w0 = (Ok triage, w0)) ∧
    w_now w' = w_now w ∧
    run env (intake_handler signals llm_enabled e) w =
      run env (if negb (tri_needs_refund_review triage)
               then direct_response k ticket triage (env_event_id e)
               else delegate_case k ticket (env_event_id e)) w' ∧
    holds k case w' ∧ undelegated ticket triage case ∧
    w_log w' = w_log w ++ [(TOPIC_AUDIT, a); (TOPIC_ISSUE_CLASSIFIED, c)] ∧
    (∃ p, env_payload a = P_Audit p ∧ aud_outcome p = accepted ∧ aud_original_envelope p = e) ∧
    (∃ p, build_issue_classified_payload ticket k triage = Ok p ∧
          env_payload c = P_Classified p ∧ env_correlation_id c = k ∧
          env_causation_id c = Some (env_event_id e)).
Proof.
  intros Hp Hnew. cbv zeta. unfold intake_handler. rewrite Hp.
  remember (env_correlation_id e) as k eqn:Ek. rewrite run_bind.
  destruct (run_get_or_create k (stc_ticket_id ticket) (stc_customer_id ticket)
    (stc_amount ticket) (stc_currency ticket) (stc_reason ticket) w Hnew)
    as (w1 & -> & Hh1 & Hl1 & Hn1 & Hw1).
  rewrite run_bind, (run_deref _ _ _ _ (h_slot _ _ _ Hh1)). cbv beta iota.
  rewrite (bool_decide_eq_true_2 (rc_status (new_case _ _ _ _ _ _ _ _) ∈ _)) by (by left).
  cbn [negb]. rewrite run_bind.
  destruct (run_triage ticket k (env_event_id e) w1) as (triage & Htri & Hwhy & Hu). rewrite Htri. cbv beta iota.
  rewrite run_bind, run_assign. cbv beta iota.
  pose proof (holds_assign k _ _ (CaseModels.set_triage (Some triage)) (λ _, eq_refl)
                (λ _, eq_refl) Hh1) as Hh2.
  rewrite run_bind, run_assign. cbv beta iota.
  pose proof (holds_assign k _ _ (set_status CLASSIFIED) (λ _, eq_refl)
                (λ _, eq_refl) Hh2) as Hh3.
  rewrite run_bind. destruct (run_save_holds _ _ _ Hh3) as (w4 & -> & Hh4 & Hl4 & Hn4).
  cbv beta iota. rewrite run_bind. unfold write_audit. rewrite run_audit by (done || (intros [|]; done)).
  cbv beta iota. set (a := audit_of _ _ _ _ _).
  assert (Hb : ∃ p, build_issue_classified_payload ticket k triage = Ok p).
  { unfold build_issue_classified_payload, mk_classified. cbn [cic_confidence]. rewrite Hu.
    by eexists. }
  destruct Hb as [p Hb]. rewrite run_bind, run_lift, Hb. cbv beta iota.
  rewrite run_bind, run_publish_classified. cbv beta iota zeta. set (c := envelope_of _ _ _ _ _).
  eexists triage, (delivered TOPIC_ISSUE_CLASSIFIED c (delivered TOPIC_AUDIT a w4)), _, a, c.
  split; [by rewrite Hw1 in Hwhy|]. split; [by exists w1|].
  split; [change (w_now w4 = w_now w); rewrite Hn4; exact Hn1|]. split; [reflexivity|].
  split; [apply holds_delivered, holds_delivered; exact Hh4|].
  split; [constructor; repeat split|].
  split; [|split; [by eexists|by exists p]].
  cbn [delivered w_log]. rewrite Hl4. cbn [set_store w_log]. by rewrite Hl1, <- app_assoc.
Qed.

(** ** The direct response *)


(** ** The delegation *)

(** The published cards: both peers are discoverable. *)
Variable scan : CardScan (result EventEnvelope).
Hypothesis Hcards : ∀ w, env _ ReadCards w = scan.

Definition discoverable (capability_id peer_id : string) : Prop :=
  ∃ cards card, find_capable (λ value, value) capability_id scan = Ok cards ∧
    List.find (λ c, String.eqb (card_agent_id c) peer_id) cards = Some card.

Lemma run_validate capability peer text w :
  discoverable capability peer →
  ∃ card, run env (validate_capability capability peer text) w = (Ok card, w).
Proof.
  intros (cards & card & Hc & Hf). unfold validate_capability. rewrite run_bind. cbn [run effect].
  rewrite Hcards, run_bind, run_lift, Hc. cbv beta iota. rewrite Hf. by exists card.
Qed.

Lemma run_preset k (field : ResolutionCase → option UUID) set capability w case :
  (∀ v c, rc_case_id (set v c) = rc_case_id c) →
  (∀ v c, rc_correlation_id (set v c) = rc_correlation_id c) →
  holds k case w →
  ∃ w', run env (preset_task_id k field set capability) w = (Ok tt, w') ∧
    holds k (match field case with
             | Some _ => case
             | None => set (Some (uuid5 k capability)) case
             end) w' ∧ w_log w' = w_log w ∧ w_now w' = w_now w.
Proof.
  intros H1 H2 Hh. unfold preset_task_id. rewrite run_assign. eexists. split; [reflexivity|].
  split; [|done].
  pose proof (holds_assign k case w (λ c, match field c with
    | Some _ => c | None => set (Some (uuid5 (rc_correlation_id c) capability)) c end)) as Hf.
  cbv beta in Hf. rewrite (h_corr _ _ _ Hh) in Hf. apply Hf; [..|done].
  - intros c. destruct (field c); auto.
  - intros c. destruct (field c); auto.
Qed.

Lemma run_add_pending k task w case :
  holds k case w →
  ∃ w', run env (store_try (λ st _, add_pending_task st k task)) w = (Ok tt, w') ∧
    holds k (set_pending_tasks ({[task]} ∪ rc_pending_tasks case) case) w' ∧
    w_log w' = w_log w ∧ w_now w' = w_now w.
Proof.
  intros Hh. cbn [run store_try lift]. unfold add_pending_task. rewrite (h_slot _ _ _ Hh).
  eexists. split; [reflexivity|]. split; [|done].
  pose proof (holds_assign k case w (λ c, set_pending_tasks ({[task]} ∪ rc_pending_tasks c) c)
                (λ _, eq_refl) (λ _, eq_refl) Hh) as [H1 H2 H3 H4].
  by constructor.
Qed.

(** A task request of case [k] to a peer, in the log. *)
Definition request_sent (k task : UUID) (capability_id peer_id : string) (ev : UUID)
    (data : list (string * pyval)) (entry : string * EventEnvelope) : Prop :=
  fst entry = endpoint_topic peer_id ∧ env_correlation_id (snd entry) = k ∧
  env_causation_id (snd entry) = Some ev ∧
  ∃ r, env_payload (snd entry) = P_TaskRequest r ∧ tr_task_id r = task ∧
    tr_capability r = capability_id ∧ tr_target_agent_id r = peer_id ∧
    msg_parts (tr_input r) = [data_part data].

Lemma run_send_request k ev task capability peer data w case :
  holds k case w →
  ∃ w' entry, run env (send_task_request k ev task capability peer data) w = (Ok tt, w') ∧
    holds k case w' ∧ w_log w' = w_log w ++ [entry] ∧ w_now w' = w_now w ∧
    request_sent k task capability peer ev data entry.
Proof.
  intros Hh. unfold send_task_request.
  rewrite run_bind, (run_deref _ _ _ _ (h_slot _ _ _ Hh)). cbv beta iota.
  rewrite run_bind, run_lift, data_message_ok. cbv beta iota.
  rewrite run_bind, run_publish_task. cbv beta iota zeta. cbn [run].
  eexists _, _. split; [reflexivity|]. split; [by apply holds_delivered|].
  split; [reflexivity|]. split; [reflexivity|].
  rewrite (h_corr _ _ _ Hh). split_and!; try reflexivity.
  eexists. split; [reflexivity|]. by split_and!.
Qed.

(** One request, when the task id is already set. *)
Lemma run_request_billing k ev w case b :
  holds k case w → rc_billing_task_id case = Some b →
  discoverable BILLING_CAPABILITY_ID BILLING_PEER_AGENT_ID →
  ∃ w' entry, run env (request_billing_analysis k ev) w = (Ok tt, w') ∧
    holds k case w' ∧ w_log w' = w_log w ++ [entry] ∧ w_now w' = w_now w ∧
    request_sent k b BILLING_CAPABILITY_ID BILLING_PEER_AGENT_ID ev
      (billing_input_data (build_billing_request_input case)) entry.
Proof.
  intros Hh Hb Hd. unfold request_billing_analysis. rewrite run_bind.
  destruct (run_validate _ _ " declares " w Hd) as [card ->]. rewrite run_bind.
  destruct (run_preset k rc_billing_task_id set_billing_task_id BILLING_CAPABILITY_ID w case
              (λ _ _, eq_refl) (λ _ _, eq_refl) Hh) as (w1 & -> & Hh1 & Hl1 & Hn1).
  rewrite Hb in Hh1. rewrite run_bind, (run_deref _ _ _ _ (h_slot _ _ _ Hh1)). cbv beta iota.
  replace (the_task_id rc_billing_task_id case) with b by (unfold the_task_id; by rewrite Hb).
  rewrite <- Hl1, <- Hn1. by apply run_send_request.
Qed.

Lemma run_request_risk k ev w case r :
  holds k case w → rc_risk_task_id case = Some r →
  discoverable RISK_CAPABILITY_ID RISK_PEER_AGENT_ID →
  ∃ w' entry, run env (request_risk_analysis k ev) w = (Ok tt, w') ∧
    holds k case w' ∧ w_log w' = w_log w ++ [entry] ∧ w_now w' = w_now w ∧
    request_sent k r RISK_CAPABILITY_ID RISK_PEER_AGENT_ID ev
      (risk_input_data (build_risk_request_input case)) entry.
Proof.
  intros Hh Hr Hd. unfold request_risk_analysis. rewrite run_bind.
  destruct (run_validate _ _ " declares capability " w Hd) as [card ->]. rewrite run_bind.
  destruct (run_preset k rc_risk_task_id set_risk_task_id RISK_CAPABILITY_ID w case
              (λ _ _, eq_refl) (λ _ _, eq_refl) Hh) as (w1 & -> & Hh1 & Hl1 & Hn1).
  rewrite Hr in Hh1. rewrite run_bind, (run_deref _ _ _ _ (h_slot _ _ _ Hh1)). cbv beta iota.
  replace (the_task_id rc_risk_task_id case) with r by (unfold the_task_id; by rewrite Hr).
  rewrite <- Hl1, <- Hn1. by apply run_send_request.
Qed.

(** A delegated case: it awaits both tasks under the ids the intake minted. *)
Record delegated (k : UUID) (ticket : SupportTicketCreatedPayload) (triage : Triage) (deadline : datetime)
    (case : ResolutionCase) : Prop := {
  dg_awaiting : awaiting case (uuid5 k BILLING_CAPABILITY_ID) (uuid5 k RISK_CAPABILITY_ID);
  dg_triage : rc_triage case = Some triage;
  dg_deadline : rc_deadline_at case = Some deadline;
  dg_ticket : about ticket case;
}.

(** The case just before the peers are asked: both tasks registered. *)
Lemma run_register k triage ticket deadline w case :
  uuid5 k BILLING_CAPABILITY_ID ≠ uuid5 k RISK_CAPABILITY_ID →
  holds k case w → undelegated ticket triage case →
  rc_status case = WAITING_FOR_PEER_REVIEWS → rc_deadline_at case = Some deadline →
  ∃ w' case', holds k case' w' ∧ delegated k ticket triage deadline case' ∧ w_log w' = w_log w ∧
    w_now w' = w_now w ∧ ∀ (p : prog unit),
    run env (preset_task_id k rc_billing_task_id set_billing_task_id BILLING_CAPABILITY_ID ;!
             preset_task_id k rc_risk_task_id set_risk_task_id RISK_CAPABILITY_ID ;!
             let! case := deref k in
             store_try (λ st _, add_pending_task st (rc_case_id case)
                                  (the_task_id rc_billing_task_id case)) ;!
             store_try (λ st _, add_pending_task st (rc_case_id case)
                                  (the_task_id rc_risk_task_id case)) ;! p) w =
    run env p w'.
Proof.
  intros Hne Hh [Ub Ur Up [S1 S2] [R1 R2] Ut Uk] Hst Hdl.
  destruct (run_preset k rc_billing_task_id set_billing_task_id BILLING_CAPABILITY_ID w case
              (λ _ _, eq_refl) (λ _ _, eq_refl) Hh) as (w1 & E1 & Hh1 & Hl1 & Hn1).
  rewrite Ub in Hh1.
  destruct (run_preset k rc_risk_task_id set_risk_task_id RISK_CAPABILITY_ID w1 _
              (λ _ _, eq_refl) (λ _ _, eq_refl) Hh1) as (w2 & E2 & Hh2 & Hl2 & Hn2).
  cbn [set_billing_task_id rc_risk_task_id] in Hh2. rewrite Ur in Hh2.
  destruct (run_add_pending k (uuid5 k BILLING_CAPABILITY_ID) w2 _ Hh2)
    as (w3 & E3 & Hh3 & Hl3 & Hn3).
  destruct (run_add_pending k (uuid5 k RISK_CAPABILITY_ID) w3 _ Hh3)
    as (w4 & E4 & Hh4 & Hl4 & Hn4).
  eexists w4, _. split; [exact Hh4|]. split; [|split; [congruence|split; [congruence|]]].
  - constructor; [constructor|exact Ut|exact Hdl|exact Uk]; try done. cbn. rewrite Up. set_solver.
  - intros p. rewrite run_bind, E1. cbv beta iota. rewrite run_bind, E2. cbv beta iota.
    rewrite run_bind, (run_deref _ _ _ _ (h_slot _ _ _ Hh2)). cbv beta iota.
    rewrite (h_id _ _ _ Hh2).
    change (the_task_id rc_billing_task_id _) with (uuid5 k BILLING_CAPABILITY_ID).
    change (the_task_id rc_risk_task_id _) with (uuid5 k RISK_CAPABILITY_ID).
    rewrite run_bind, E3. cbv beta iota. rewrite run_bind, E4. done.
Qed.

(** The announcement of both reviews. *)
Definition announced (k : UUID) (ev : UUID) (entry : string * EventEnvelope) : Prop :=
  fst entry = TOPIC_REFUND_REVIEW_REQUESTED ∧ env_correlation_id (snd entry) = k ∧
  env_causation_id (snd entry) = Some ev ∧
  ∃ a, env_payload (snd entry) = P_ReviewRequested a ∧
    rrr_billing_task_id a = uuid5 k BILLING_CAPABILITY_ID ∧
    rrr_risk_task_id a = uuid5 k RISK_CAPABILITY_ID ∧
    rrr_requested_reviews a = [billing_review; risk_review].

(** The three records of a delegation. *)
Definition delegation_records (k ev : UUID) (ticket : SupportTicketCreatedPayload)
    (l : list (string * EventEnvelope)) : Prop :=
  ∃ e1 e2 e3, l = [e1; e2; e3] ∧
    request_sent k (uuid5 k BILLING_CAPABILITY_ID) BILLING_CAPABILITY_ID BILLING_PEER_AGENT_ID
      ev (billing_input_data (billing_question k ticket)) e1 ∧
    request_sent k (uuid5 k RISK_CAPABILITY_ID) RISK_CAPABILITY_ID RISK_PEER_AGENT_ID
      ev (risk_input_data (risk_question k ticket)) e2 ∧
    announced k ev e3.

Hypothesis Hbilling : discoverable BILLING_CAPABILITY_ID BILLING_PEER_AGENT_ID.
Hypothesis Hrisk : discoverable RISK_CAPABILITY_ID RISK_PEER_AGENT_ID.

Lemma run_delegate k ev ticket triage deadline w case :
  uuid5 k BILLING_CAPABILITY_ID ≠ uuid5 k RISK_CAPABILITY_ID →
  holds k case w → undelegated ticket triage case →
  rc_status case = WAITING_FOR_PEER_REVIEWS → rc_deadline_at case = Some deadline →
  ∃ w' case' l, run env (delegate k ev) w = (Ok tt, w') ∧ holds k case' w' ∧
    delegated k ticket triage deadline case' ∧ w_log w' = w_log w ++ l ∧ delegation_records k ev ticket l.
Proof.
  intros Hne Hh Hun Hst Hdl. unfold delegate.
  destruct (run_register k triage ticket deadline w case Hne Hh Hun Hst Hdl)
    as (w1 & c1 & Hh1 & Hd1 & Hl1 & Hn1 & Hrun). rewrite Hrun. clear Hrun.
  pose proof (aw_billing _ _ _ (dg_awaiting _ _ _ _ _ Hd1)) as Hb.
  pose proof (aw_risk _ _ _ (dg_awaiting _ _ _ _ _ Hd1)) as Hr.
  destruct (questions_about k ticket c1 (h_corr _ _ _ Hh1) (dg_ticket _ _ _ _ _ Hd1)) as [Qr Qb].
  rewrite run_bind.
  destruct (run_request_billing k ev w1 c1 _ Hh1 Hb Hbilling)
    as (w2 & e1 & -> & Hh2 & Hl2 & _ & Hs1).
  rewrite run_bind.
  destruct (run_request_risk k ev w2 c1 _ Hh2 Hr Hrisk) as (w3 & e2 & -> & Hh3 & Hl3 & _ & Hs2).
  rewrite Qb in Hs1. rewrite Qr in Hs2.
  rewrite run_bind, (run_deref _ _ _ _ (h_slot _ _ _ Hh3)). cbv beta iota.
  rewrite Hb, Hr. cbn [bool_of_option andb]. rewrite run_bind. cbn [run now reads].
  rewrite run_bind, run_lift. cbn [mk_review_requested validate_reviews].
  replace (mk_review_requested (review_requested c1 (w_now w3)))
    with (Ok (review_requested c1 (w_now w3))) by (vm_compute; reflexivity).
  cbv beta iota. rewrite run_bind, run_publish_review. cbv beta iota zeta. cbn [run].
  eexists _, c1, _. split; [reflexivity|]. split; [by apply holds_delivered|]. split; [done|].
  split.
  - cbn [delivered w_log]. rewrite Hl3, Hl2, Hl1, <- !app_assoc. reflexivity.
  - eexists e1, e2, _. split; [reflexivity|]. split; [done|]. split; [done|].
    split; [reflexivity|]. split; [apply (h_corr _ _ _ Hh3)|]. split; [reflexivity|].
    eexists. split; [reflexivity|]. unfold review_requested, the_task_id. cbn.
    by rewrite Hb, Hr.
Qed.

Lemma run_delegate_case k ev ticket triage w case :
  uuid5 k BILLING_CAPABILITY_ID ≠ uuid5 k RISK_CAPABILITY_ID →
  holds k case w → undelegated ticket triage case →
  ∃ w' case' l, run env (delegate_case k ticket ev) w = (Ok tt, w') ∧ holds k case' w' ∧
    delegated k ticket triage (w_now w + seconds CASE_DEADLINE_SECONDS) case' ∧
    w_log w' = w_log w ++ l ∧ delegation_records k ev ticket l.
Proof.
  intros Hne Hh Hun. unfold delegate_case. rewrite run_bind, run_assign. cbv beta iota.
  pose proof (holds_assign k _ _ (set_status WAITING_FOR_PEER_REVIEWS) (λ _, eq_refl)
                (λ _, eq_refl) Hh) as Hh1.
  rewrite run_bind. cbn [run now reads]. rewrite run_bind, run_assign. cbv beta iota.
  change (w_now (set_store (update_case k (set_status WAITING_FOR_PEER_REVIEWS) (w_store w)) w))
    with (w_now w).
  pose proof (holds_assign k _ _
                (set_deadline_at (Some (w_now w + seconds CASE_DEADLINE_SECONDS)))
                (λ _, eq_refl) (λ _, eq_refl) Hh1) as Hh2.
  rewrite run_bind. destruct (run_save_holds _ _ _ Hh2) as (w3 & -> & Hh3 & Hl3 & _).
  cbv beta iota. rewrite run_catch, run_bind.
  edestruct (run_delegate k ev ticket triage) as (w4 & c4 & l & -> & Hh4 & Hd4 & Hl4 & Hrec);
    [exact Hne|exact Hh3| |reflexivity|reflexivity|].
  { destruct Hun. by constructor. }
  cbv beta iota. destruct (run_save_holds _ _ _ Hh4) as (w5 & -> & Hh5 & Hl5 & _).
  eexists w5, _, l. split; [reflexivity|]. split; [exact Hh5|].
  split; [|split; [by rewrite Hl5, Hl4, Hl3|done]].
  destruct Hd4 as [[] Ht Hdl Hab]. constructor; [by constructor|done|done|exact Hab].
Qed.


Lemma delegation_no_decision k ev ticket l : delegation_records k ev ticket l → decisions k l = 0%nat.
Proof.
  intros (e1 & e2 & e3 & -> & (_ & _ & _ & r1 & P1 & _) & (_ & _ & _ & r2 & P2 & _) &
          (_ & _ & _ & a & P3 & _)).
  unfold decisions, is_decision. cbn. by rewrite P1, P2, P3, !andb_false_r.
Qed.

(** Remark (liveness): the whole workflow on the resolution side: a new ticket with
    refund intent, then the peers' two results, ends with exactly one decision
    for the case, ruled by the decision policy on the ticket's triage and the
    two findings (or the immediate escalation). *)
Theorem workflow_settles e ticket w eb pb er pr :
  let k := env_correlation_id e in
  let b := uuid5 k BILLING_CAPABILITY_ID in
  let r := uuid5 k RISK_CAPABILITY_ID in
  env_payload e = P_Ticket ticket → new_correlation k w → b ≠ r →
  billing_event eb k pb → risk_event er k pr →
  (∀ w0 t, run env (triage_ticket signals llm_enabled ticket (env_correlation_id e) (env_event_id e)) w0 = (Ok t, w0) →
           tri_needs_refund_review t = true) →
  ∃ w1 w2 w3 case triage,
    run env (intake_handler signals llm_enabled e) w = (Ok tt, w1) ∧
    run env (billing_result_handler eb) w1 = (Ok tt, w2) ∧
    run env (risk_result_handler er) w2 = (Ok tt, w3) ∧
    cs_cases (w_store w1) !! k = Some case ∧ rc_triage case = Some triage ∧
    settled k (env_event_id er)
      (billing_first_ruling case (billing_finding pb (Some b)) (risk_finding pr (Some r)))
      w1 w3 ∧
    decisions k (w_log w3) = S (decisions k (w_log w)).
Proof.
  intros k b r Hp Hnew Hne Hb Hr Htri.
  destruct (run_classification e ticket w Hp Hnew)
    as (triage & w0 & case & a & c & _ & [wt Ht] & _ & Hrun & Hh & Hun & Hl0 & (pa & Pa & _) &
        pc & _ & Pc & _).
  rewrite (Htri _ _ Ht) in Hrun. cbn [negb] in Hrun.
  destruct (run_delegate_case k (env_event_id e) ticket triage w0 case Hne Hh Hun)
    as (w1 & case1 & l & Hr1 & Hh1 & Hd1 & Hl1 & Hrec).
  destruct (billing_first_settles env Hacks k w1 case1 b r eb er pb pr Hh1
              (dg_awaiting _ _ _ _ _ Hd1) Hb Hr) as (w2 & w3 & H2 & H3 & Hset).
  exists w1, w2, w3, case1, triage. split; [by rewrite Hrun|].
  split_and!; try done; [apply (h_slot _ _ _ Hh1)|apply (dg_triage _ _ _ _ _ Hd1)|].
  rewrite (settled_decisions _ _ _ _ _ Hset), Hl1, Hl0, !decisions_app.
  rewrite (delegation_no_decision _ _ _ _ Hrec). unfold decisions at 2, is_decision. cbn.
  rewrite Pa, Pc, !andb_false_r. cbn. lia.
Qed.
End Intake.
