(* ===== verification/Workflow.v ===== *)
(** * The three agents together

    One ticket through the whole system, on one shared log: the resolution agent's
    intake sends its two requests, each peer's endpoint answers the request it
    finds in the log, and the resolution agent rules on the two domain results. *)

From Stdlib Require Import ZArith Bool Ascii String List Lia.
From stdpp Require Import base list strings gmap.
From S2P Require Import Prelude.
From S2P Require Import PyFloat.
From S2P Require Import Contracts.
From S2P Require Import Uuid.
From S2P Require Import Idempotency.
From S2P Require Import Llm.
From S2P Require Import A2A.
From S2P Require Import RiskModels.
From S2P Require Import RiskStore.
From S2P Require Import RiskScoring.
From S2P Require Import RiskService.
From S2P Require Import RiskScoringFacts.
From S2P Require Import RiskServiceFacts.
From S2P Require Import BillingModels.
From S2P Require Import BillingRules.
From S2P Require Import BillingStore.
From S2P Require Import BillingService.
From S2P Require Import BillingFacts.
From S2P Require Import CaseModels.
From S2P Require Import Drafter.
From S2P Require Import Classifier.
From S2P Require Import DecisionEngine.
From S2P Require Import DecisionFacts.
From S2P Require Import StateStore.
From S2P Require Import Envelope.
From S2P Require Import Async.
From S2P Require Import LlmConfig.
From S2P Require Import LlmRuntime.
From S2P Require Import Consumer.
From S2P Require Import Normalize.
From S2P Require Import Handlers.
From S2P Require Import Execution.
From S2P Require Import DecisionSafety.
From S2P Require Import DecisionBudget.
From S2P Require Import LlmFacts.
From S2P Require Import Transport.
From S2P Require Import Runtime.
From S2P Require Import RuntimeFacts.
From S2P Require Import Peers.
From S2P Require Import PeerFacts.
From S2P Require Import Choreography.
From S2P Require Import Intake.

Open Scope string_scope.
Open Scope list_scope.
Open Scope Z_scope.
Open Scope prog_scope.

#[local] Set Default Proof Using "Type*".

Section Workflow.
Context `{Uuids} `{!Assistant} `{!Schema RiskNarrative} `{!Schema BillingNarrative}.
Context (env : Environment).
(** The resolution agent. *)
Context (signals : list string) (llm_enabled : bool).
Context (scan : CardScan (result EventEnvelope)) (Hcards : ∀ w, env _ ReadCards w = scan).
(** The peers: validation of a request's data, what they own, their LLM settings. *)
Context (validate_risk : list (string * pyval) → result RiskAssessmentRequest).
Context (validate_billing : list (string * pyval) → result RefundEligibilityRequest).
Context {SR : Type} `{!RiskSignalStore SR} (risk_store : SR).
Context {SB : Type} `{!BillingFactStore SB} (billing_store : SB).
Context (risk_llm billing_llm : bool) (risk_profile billing_profile : ModelProfile).
(** The wire and the trackers of the endpoints. *)
Context {Bytes : Type} (parse_envelope : Bytes → result EventEnvelope).
Context (validation_error : EventPayload → exn).
Context {T : Type} `{!Dedup T}.

(** An endpoint's handling of one record. *)
Abbreviation serves rt raw t w := (run env (_handle_message parse_envelope validation_error rt raw t) w).

(** The four records of a peer hold no decision. *)
Lemma peer_records_no_decision rt e ea ev er eb out req k :
  is_audit ea e accepted (Some (tr_task_id req)) None →
  (∀ d, env_payload (snd ev) ≠ P_Decision d) →
  is_result rt er (result_for rt req (Ok out)) e →
  is_audit eb e aud_completed (Some (tr_task_id req)) None →
  decisions k [ea; ev; er; eb] = 0%nat.
Proof.
  intros (_ & a & Ha & _) Hev (_ & Hr & _) (_ & a' & Hb & _).
  unfold decisions, is_decision. cbn. rewrite Ha, Hr, Hb, !andb_false_r.
  destruct (env_payload (snd ev)) eqn:E; rewrite ?andb_false_r; try done. by destruct (Hev _ eq_refl).
Qed.

Context (Hacks : acks env).

(** The intake leaves the two requests in the log, and no decision. *)
Lemma intake_requests e ticket w :
  let k := env_correlation_id e in
  let b := uuid5 k BILLING_CAPABILITY_ID in
  let r := uuid5 k RISK_CAPABILITY_ID in
  discoverable scan BILLING_CAPABILITY_ID BILLING_PEER_AGENT_ID →
  discoverable scan RISK_CAPABILITY_ID RISK_PEER_AGENT_ID →
  env_payload e = P_Ticket ticket → new_correlation k w → b ≠ r →
  (∀ t, triaged signals llm_enabled env ticket k (env_event_id e) (registered k ticket w) t →
        tri_needs_refund_review t = true) →
  ∃ w1 case qb qr,
    run env (intake_handler signals llm_enabled e) w = (Ok tt, w1) ∧ holds k case w1 ∧ awaiting case b r ∧
    qb ∈ w_log w1 ∧ qr ∈ w_log w1 ∧
    request_sent k b BILLING_CAPABILITY_ID BILLING_PEER_AGENT_ID (env_event_id e)
      (billing_input_data (billing_question k ticket)) qb ∧
    request_sent k r RISK_CAPABILITY_ID RISK_PEER_AGENT_ID (env_event_id e)
      (risk_input_data (risk_question k ticket)) qr ∧
    decisions k (w_log w1) = decisions k (w_log w).
Proof using Hacks Hcards.
  intros k b r Hdb Hdr Hp Hnew Hne Htri.
  destruct (run_classification signals llm_enabled env Hacks e ticket w Hp Hnew)
    as (triage & w0 & case & a & c & Ht & _ & _ & Hrun & Hh & Hun & Hl0 & (pa & Pa & _) &
        pc & _ & Pc & _).
  rewrite (Htri _ Ht) in Hrun. cbn [negb] in Hrun.
  destruct (run_delegate_case env Hacks scan Hcards Hdb Hdr k (env_event_id e) ticket triage
              w0 case Hne Hh Hun) as (w1 & case1 & l & Hr1 & Hh1 & Hd1 & Hl1 & Hrec).
  pose proof (delegation_no_decision _ _ _ _ Hrec) as Hnd.
  destruct Hrec as (qb & qr & e3 & El & Hqb & Hqr & _).
  exists w1, case1, qb, qr. split; [by rewrite Hrun|].
  split_and!; try done; [by apply (dg_awaiting _ _ _ _ _ Hd1)|rewrite Hl1, El; set_solver..|].
  rewrite Hl1, Hl0, !decisions_app, Hnd.
  unfold decisions at 2, is_decision. cbn. rewrite Pa, Pc, !andb_false_r. cbn. lia.
Qed.

(** The billing agent can analyse every request it accepts for this purchase: a payment
    it has on record has an amount that can be refunded. *)
Definition amounts_known (breq : RefundEligibilityRequest) : Prop :=
  ∀ facts p,
    store_load_facts billing_store (rer_purchase_reference breq) (rer_customer_id breq) = Some facts →
    bf_payment facts = Some p → is_ok (refundable p).

Lemma analysis_succeeds parts data breq now :
  first_data parts = Some data → validate_billing data = Ok breq → amounts_known breq →
  ∃ rec facts, analyze validate_billing billing_store now parts = Ok (breq, rec, facts).
Proof.
  intros Hd Hv Hk. destruct (analyze validate_billing billing_store now parts)
    as [[[breq' rec] facts]|e] eqn:Ha.
  - exists rec, facts. do 3 f_equal. unfold analyze, validate_billing_input in Ha.
    rewrite Hd, Hv in Ha. cbn [mbind result_bind] in Ha.
    destruct (store_load_facts _ _ _); [|by injection Ha].
    destruct (evaluate _ _ _ _); [|discriminate]. by injection Ha.
  - exfalso. apply analyze_fails_iff in Ha. rewrite Hd in Ha.
    destruct Ha as [Ha|(req & facts & i & p & Hreq & Hf & _ & Hp & _ & Hr)]; [congruence|].
    assert (req = breq) as -> by congruence. destruct (Hk _ _ Hf Hp) as [a Ha]. congruence.
Qed.

(** C1 (liveness): one ticket through the three agents.  The conditions: the broker writes
    every record; the card topic shows both peers; the ticket opens a new case (its
    correlation id is not in the store) and its triage asks for a refund review; the two task
    ids minted for it differ and neither peer has performed them; both peers' models accept
    the data they are sent, keeping the case id (a negative amount, which the ticket's model
    allows, is refused by the billing agent's), and a payment the billing agent has on record
    for the purchase has a finite refundable amount.  Then the intake leaves the two requests
    in the log; whichever bytes the broker hands the peers for them, each endpoint answers
    with its domain result, the billing one with the rules' recommendation and the risk one
    with the scoring engine's verdict; and when the resolution agent has received both, the
    case has exactly one decision more, ruled by the decision policy on the two findings (or
    the immediate escalation). *)
Theorem refund_workflow_delivers e ticket w rtb rtr breq rreq tb tr :
  let k := env_correlation_id e in
  let b := uuid5 k BILLING_CAPABILITY_ID in
  let r := uuid5 k RISK_CAPABILITY_ID in
  let billing_parts := [data_part (billing_input_data (billing_question k ticket))] in
  discoverable scan BILLING_CAPABILITY_ID BILLING_PEER_AGENT_ID →
  discoverable scan RISK_CAPABILITY_ID RISK_PEER_AGENT_ID →
  env_payload e = P_Ticket ticket → new_correlation k w → b ≠ r →
  (∀ t, triaged signals llm_enabled env ticket k (env_event_id e) (registered k ticket w) t →
        tri_needs_refund_review t = true) →
  validate_risk (risk_input_data (risk_question k ticket)) = Ok rreq → rar_case_id rreq = k →
  validate_billing (billing_input_data (billing_question k ticket)) = Ok breq → rer_case_id breq = k →
  amounts_known breq →
  billing_runtime validate_billing billing_store billing_llm billing_profile = Ok rtb →
  risk_runtime validate_risk risk_store risk_llm risk_profile = Ok rtr →
  fst (dd_is_duplicate b tb) = false → fst (dd_is_duplicate r tr) = false →
  ∃ w1 case qb qr,
    run env (intake_handler signals llm_enabled e) w = (Ok tt, w1) ∧ holds k case w1 ∧
    (endpoint_topic BILLING_PEER_AGENT_ID, qb) ∈ w_log w1 ∧
    (endpoint_topic RISK_PEER_AGENT_ID, qr) ∈ w_log w1 ∧
    ∀ rawb rawr, parse_envelope rawb = Ok qb → parse_envelope rawr = Ok qr →
    ∃ tb' tr' w2 w3 w4 w5 vb vr pb pr now rec facts,
      serves rtb rawb tb w1 = (Ok tb', w2) ∧ serves rtr rawr tr w2 = (Ok tr', w3) ∧
      (TOPIC_BILLING_RESULT, vb) ∈ w_log w2 ∧ (TOPIC_RISK_RESULT, vr) ∈ w_log w3 ∧
      billing_event vb k pb ∧ risk_event vr k pr ∧
      analyze validate_billing billing_store now billing_parts = Ok (breq, rec, facts) ∧
      billing_payload_wire pb = recommendation_wire rec ∧
      payload_wire pr = expected_wire (store_load_signals risk_store (rar_customer_id rreq)) rreq ∧
      run env (billing_result_handler vb) w3 = (Ok tt, w4) ∧
      run env (risk_result_handler vr) w4 = (Ok tt, w5) ∧
      settled k (env_event_id vr)
        (billing_first_ruling case (billing_finding pb (Some b)) (risk_finding pr (Some r)))
        w3 w5 ∧
      decisions k (w_log w5) = S (decisions k (w_log w)).
Proof.
  intros k b r billing_parts Hdb Hdr Hp Hnew Hne Htri Hvr Hkr Hvb Hkb Hamounts Hrtb Hrtr Hnb Hnr.
  destruct (intake_requests e ticket w Hdb Hdr Hp Hnew Hne Htri)
    as (w1 & case1 & [t1 qb] & [t2 qr] & Hrun & Hh1 & Haw & Inb & Inr &
        (T1 & _ & _ & rb & Pb & Ib & Cb & Gb & Db) & (T2 & _ & _ & rr & Pr & Ir & Cr & Gr & Dr) & Hnd).
  cbn in T1, T2, Pb, Pr. subst t1 t2.
  exists w1, case1, qb, qr. split_and!; [exact Hrun|exact Hh1|exact Inb|exact Inr|].
  intros rawb rawr Hqb Hqr.
  fold k in Ib, Ir, Db, Dr, Hnd. unfold b in Hnb. unfold r in Hnr. rewrite <- Ib in Hnb. rewrite <- Ir in Hnr. subst billing_parts.
  destruct (billing_agent_delivers validate_billing billing_store billing_llm billing_profile env
              Hacks parse_envelope validation_error rtb rawb qb rb tb w1)
    as (tb' & w2 & out & ea & vb & er & eb & now & breq0 & rec & facts & pb & data & Hs2 & Hx2 &
        Han & Hea & Hc & _ & Hpb & Hwb & Her & _ & _ & Heb); try done.
  { intros now. rewrite Db. destruct (analysis_succeeds [data_part (billing_input_data (billing_question k ticket))] _
               breq now eq_refl Hvb Hamounts)
      as (rec & facts & Ha). rewrite Ha. by eexists. }
  destruct (risk_agent_delivers validate_risk risk_store risk_llm risk_profile env Hacks
              parse_envelope validation_error rtr rawr qr rr (risk_input_data (risk_question k ticket))
              rreq tr w2)
    as (tr' & w3 & out' & ea' & vr & er' & eb' & pr & data' & Hs3 & Hx3 &
        Hea' & Hc' & _ & Hpr & Hwr & Her' & _ & _ & Heb'); try done.
  { by rewrite Dr. }
  rewrite Db in Han.
  destruct (analysis_succeeds [data_part (billing_input_data (billing_question k ticket))] _
               breq now eq_refl Hvb Hamounts) as (rec0 & facts0 & Han0).
  assert (breq0 = breq) as -> by congruence.
  assert (Hbe : billing_event vb k pb) by (split; [by rewrite Hc|done]).
  assert (Hre : risk_event vr k pr) by (split; [by rewrite Hc'|done]).
  assert (Hh3 : holds k case1 w3).
  { eapply holds_same, holds_same, Hh1; [apply (ext_store _ _ _ Hx3)|apply (ext_store _ _ _ Hx2)]. }
  destruct (billing_first_settles env Hacks k w3 case1 b r vb vr pb pr Hh3
              Haw Hbe Hre) as (w4 & w5 & H4 & H5 & Hset).
  exists tb', tr', w2, w3, w4, w5, vb, vr, pb, pr, now, rec, facts.
  split_and!; try done.
  - rewrite (ext_log _ _ _ Hx2). set_solver.
  - rewrite (ext_log _ _ _ Hx3). set_solver.
  - rewrite (settled_decisions _ _ _ _ _ Hset), (ext_log _ _ _ Hx3), (ext_log _ _ _ Hx2),
      !decisions_app, Hnd.
    rewrite (peer_records_no_decision rtr qr ea' (TOPIC_RISK_RESULT, vr) er' eb' out' rr k)
      by (done || (intros d; cbn; congruence)).
    rewrite (peer_records_no_decision rtb qb ea (TOPIC_BILLING_RESULT, vb) er eb out rb k)
      by (done || (intros d; cbn; congruence)). lia.
Qed.
End Workflow.
