(* ===== verification/Trace.v ===== *)
(** * The causal trace of a case, and the operator's views

    [apps/agents/customer_resolution/trace.py] ([trace_case]), the audit queries of
    [audit/store.py], and the read side of [apps/demo_ui]: the case timeline, the
    live stream and the roster.  All of it is a function of the records read. *)

From Stdlib Require Import ZArith Bool Ascii String List Lia Sorted.
From stdpp Require Import base list strings gmap sets.
From S2P Require Import Prelude.
From S2P Require Import PyFloat.
From S2P Require Import Contracts.
From S2P Require Import Uuid.
From S2P Require Import A2A.
From S2P Require Import Envelope.
From S2P Require Import Async.
From S2P Require Import Runtime.

Open Scope string_scope.
Open Scope list_scope.
Open Scope Z_scope.

(** ** One step of a trace *)

Record TraceStep := {
  ts_seq : Z;
  ts_actor : string;
  ts_correlation_id : UUID;
  ts_event_type : string;
  ts_outcome : option string;
  ts_task_id : option UUID;
  ts_timestamp : datetime;
  ts_caused_by : option UUID;
  ts_parent_event_id : option UUID;
}.

Definition AuditOutcome_str (o : AuditOutcome) : string :=
  match o with
  | accepted => "accepted" | aud_rejected => "rejected"
  | duplicate_skipped => "duplicate_skipped" | aud_completed => "completed"
  | aud_failed => "failed"
  end.

(** [payload["outcome"]] of the dumped payload, as text. *)
Definition _extract_outcome (e : EventEnvelope) : option string :=
  match env_payload e with
  | P_Audit a => Some (AuditOutcome_str (aud_outcome a))
  | P_Decision d => Some (ResolutionOutcome_value (crd_outcome d))
  | P_Drafted d => Some (ResolutionOutcome_value (drf_outcome d))
  | P_Other (VDict d) =>
      match dict_get "outcome" d with
      | None | Some VNone => None
      | Some v => Some (py_str v)
      end
  | _ => None
  end.

Definition _extract_task_id (e : EventEnvelope) : option UUID :=
  match payload_task_id (env_payload e) with
  | VNone => None
  | v => match uuid_of_value v with Ok u => Some u | Err _ => None end
  end.

(** ** [trace_case] *)

Section Trace.
Variable correlation_id : UUID.
Variable envelopes : list EventEnvelope.

Definition relevant : list EventEnvelope :=
  List.filter (λ e, env_correlation_id e =? correlation_id) envelopes.

Definition event_ids : gset UUID := list_to_set (map env_event_id relevant).

(** [request_eid_by_task]: the first request of each task. *)
Definition request_eid_by_task : gmap UUID UUID :=
  fold_left (λ m e,
    if py_contains "task_request" (env_event_type e)
    then match _extract_task_id e with
         | Some tid => if m !! tid then m else <[tid := env_event_id e]> m
         | None => m
         end
    else m) relevant ∅.

Definition _resolve_parent (e : EventEnvelope) : option UUID :=
  match env_causation_id e with
  | None => None
  | Some cb => if decide (cb ∈ event_ids) then Some cb else request_eid_by_task !! cb
  end.

Definition is_root (e : EventEnvelope) : bool := negb (bool_of_option (env_causation_id e)).

(** The roots, or the earliest event, in order of time. *)
Definition roots : list EventEnvelope :=
  sort_by env_timestamp
    (match List.filter is_root relevant with
     | [] => match relevant with [] => [] | e :: l => [min_by env_timestamp e l] end
     | l => l
     end).

Definition parent_by_eid : gmap UUID (option UUID) :=
  fold_left (λ m e, <[env_event_id e := _resolve_parent e]> m) relevant ∅.

Definition add_child (m : gmap UUID (list EventEnvelope)) (e : EventEnvelope) :
    gmap UUID (list EventEnvelope) :=
  match _resolve_parent e with
  | Some p => <[p := default [] (m !! p) ++ [e]]> m
  | None => m
  end.

Definition children : gmap UUID (list EventEnvelope) :=
  sort_by env_timestamp <$> fold_left add_child relevant ∅.

(** The breadth-first search; [None] when the fuel does not suffice. *)
Fixpoint bfs (fuel : nat) (visited : gset UUID) (ordered queue : list EventEnvelope) :
    option (gset UUID * list EventEnvelope) :=
  match queue with
  | [] => Some (visited, ordered)
  | e :: queue =>
      match fuel with
      | O => None
      | S fuel =>
          if decide (env_event_id e ∈ visited) then bfs fuel visited ordered queue
          else
            let visited := {[ env_event_id e ]} ∪ visited in
            bfs fuel visited (ordered ++ [e])
              (queue ++ List.filter (λ c, negb (bool_decide (env_event_id c ∈ visited)))
                          (default [] (children !! env_event_id e)))
      end
  end.

(** The events in trace order. *)
Definition trace_order : option (list EventEnvelope) :=
  '(visited, ordered) ← bfs (2 * length relevant) ∅ [] roots;
  Some (ordered ++ sort_by env_timestamp
                     (List.filter (λ e, negb (bool_decide (env_event_id e ∈ visited))) relevant)).

Definition trace_step (seq : Z) (e : EventEnvelope) : TraceStep := {|
  ts_seq := seq;
  ts_actor := env_agent_id e;
  ts_correlation_id := env_correlation_id e;
  ts_event_type := env_event_type e;
  ts_outcome := _extract_outcome e;
  ts_task_id := _extract_task_id e;
  ts_timestamp := env_timestamp e;
  ts_caused_by := env_causation_id e;
  ts_parent_event_id := mjoin (parent_by_eid !! env_event_id e);
|}.

Fixpoint enumerate_steps (seq : Z) (l : list EventEnvelope) : list TraceStep :=
  match l with
  | [] => []
  | e :: l => trace_step seq e :: enumerate_steps (seq + 1) l
  end.

Definition trace_case : option (list TraceStep) := enumerate_steps 1 <$> trace_order.
End Trace.

(** ** The audit queries, over the records read from the audit topic *)

Abbreviation AuditRecord := (AuditPayload EventPayload).

Definition query_by_task_id (task_id : UUID) (records : list AuditRecord) : list AuditRecord :=
  List.filter (λ r, bool_decide (aud_task_id r = Some task_id)) records.

Definition query_by_correlation (correlation_id : UUID) (records : list AuditRecord) :
    list AuditRecord :=
  List.filter (λ r, env_correlation_id (aud_original_envelope r) =? correlation_id) records.

Definition query_by_window (start_dt end_dt : datetime) (records : list AuditRecord) :
    list AuditRecord :=
  List.filter (λ r, (start_dt <=? aud_recorded_at r) && (aud_recorded_at r <=? end_dt)) records.

(** [consume_all_audit_records]: the audits among the messages of the topic, up to
    the first error of the consumer; [parse_envelope] is
    [EventEnvelope.model_validate_json]. *)
Definition consume_all_audit_records {Bytes} (parse_envelope : Bytes → result EventEnvelope)
    (messages : list Bytes) : list AuditRecord :=
  omap (λ raw, match parse_envelope raw with
               | Ok e => match env_payload e with P_Audit a => Some a | _ => None end
               | Err _ => None
               end) messages.
