(* ===== verification/TraceFacts.v ===== *)
(** * What the trace and the views show

    The breadth-first search of [trace_case] terminates and lists the events in
    causal order; the timeline, the stream and the roster show each event or agent
    once, under the record their code means to show. *)

From Stdlib Require Import ZArith Bool Ascii String List Lia Sorted.
From stdpp Require Import base list strings gmap sets.
From S2P Require Import Prelude.
From S2P Require Import PyFloat.
From S2P Require Import Contracts.
From S2P Require Import Uuid.
From S2P Require Import A2A.
From S2P Require Import Envelope.
From S2P Require Import Async.
From S2P Require Import Runtime.
From S2P Require Import Trace.

Open Scope string_scope.
Open Scope list_scope.
Open Scope Z_scope.

Section Order.
Context (k : UUID) (envs : list EventEnvelope).

Abbreviation rel := (relevant k envs).
Abbreviation parent := (_resolve_parent k envs).
Abbreviation search := (bfs k envs).

(** ** The children of an event *)

Definition child_of (p : UUID) (e : EventEnvelope) : bool := bool_decide (parent e = Some p).

Lemma add_children_get l m p :
  default [] (fold_left (add_child k envs) l m !! p) =
  default [] (m !! p) ++ List.filter (child_of p) l.
Proof.
  revert m. induction l as [|e l IH]; intros m; cbn [fold_left List.filter]; [by rewrite app_nil_r|].
  rewrite IH. unfold add_child, child_of. destruct (parent e) as [q|].
  - destruct (decide (q = p)) as [->|Hne].
    + rewrite bool_decide_eq_true_2 by done. rewrite lookup_insert_eq. cbn. by rewrite <- app_assoc.
    + rewrite bool_decide_eq_false_2 by congruence. by rewrite lookup_insert_ne.
  - by rewrite bool_decide_eq_false_2.
Qed.

Lemma children_get p :
  default [] (children k envs !! p) = sort_by env_timestamp (List.filter (child_of p) rel).
Proof.
  unfold children. rewrite lookup_fmap.
  pose proof (add_children_get rel ∅ p) as H. rewrite lookup_empty in H. cbn in H. rewrite <- H.
  by destruct (fold_left (add_child k envs) rel ∅ !! p).
Qed.

Lemma elem_of_children c p :
  c ∈ default [] (children k envs !! p) ↔ c ∈ rel ∧ parent c = Some p.
Proof.
  rewrite children_get, sort_by_perm, !list_elem_of_In, filter_In. unfold child_of.
  by rewrite bool_decide_eq_true.
Qed.

(** ** Termination *)

(** The events still to be enqueued: those whose parent is not visited. *)
Definition waits_on (visited : gset UUID) (e : EventEnvelope) : bool :=
  match parent e with Some p => negb (bool_decide (p ∈ visited)) | None => false end.

Definition pending (visited : gset UUID) : nat := length (List.filter (waits_on visited) rel).

Lemma waits_on_visit p visited e :
  p ∉ visited →
  waits_on visited e = child_of p e || waits_on ({[p]} ∪ visited) e ∧
  child_of p e && waits_on ({[p]} ∪ visited) e = false.
Proof.
  intros Hp. unfold waits_on, child_of. destruct (parent e) as [q|]; [|by rewrite bool_decide_eq_false_2].
  repeat case_bool_decide; try done; set_solver.
Qed.

Lemma pending_visit p visited :
  p ∉ visited →
  pending visited = (length (List.filter (child_of p) rel) + pending ({[p]} ∪ visited))%nat.
Proof.
  intros Hp. unfold pending. induction rel as [|e l IH]; cbn [List.filter]; [done|].
  destruct (waits_on_visit p visited e Hp) as [-> Hand].
  destruct (child_of p e), (waits_on ({[p]} ∪ visited) e); cbn; try done; lia.
Qed.

Lemma sort_by_length {A} (key : A → Z) l : length (sort_by key l) = length l.
Proof. by rewrite sort_by_perm. Qed.

Lemma bfs_enough fuel visited ordered queue :
  (length queue + pending visited <= fuel)%nat → ∃ r, search fuel visited ordered queue = Some r.
Proof.
  revert visited ordered queue. induction fuel as [|fuel IH]; intros visited ordered [|e queue] Hf;
    cbn [bfs length] in *; try (by eexists); [lia|].
  destruct (decide _) as [Hin|Hin]; [apply IH; lia|]. apply IH.
  rewrite (pending_visit _ _ Hin) in Hf. rewrite length_app.
  pose proof (filter_length_le (λ c, negb (bool_decide (env_event_id c ∈ {[env_event_id e]} ∪ visited)))
                (default [] (children k envs !! env_event_id e))) as Hl.
  rewrite children_get, sort_by_length in Hl. rewrite children_get. lia.
Qed.

Lemma roots_in e : e ∈ roots k envs → e ∈ rel.
Proof.
  unfold roots. rewrite sort_by_perm.
  destruct (List.filter is_root rel) as [|r l] eqn:E.
  - destruct rel as [|x l']; [done|]. intros ->%list_elem_of_singleton. apply min_by_in.
  - intros Hin. rewrite <- E, list_elem_of_In, filter_In in Hin. by apply list_elem_of_In, Hin.
Qed.

Lemma roots_length : (length (roots k envs) <= length rel)%nat.
Proof.
  unfold roots. rewrite sort_by_length. pose proof (filter_length_le is_root rel) as H.
  destruct (List.filter is_root rel); [|exact H]. destruct rel; cbn; lia.
Qed.

Lemma trace_search : ∃ r, search (2 * length rel) ∅ [] (roots k envs) = Some r.
Proof.
  apply bfs_enough. pose proof roots_length. unfold pending.
  pose proof (filter_length_le (waits_on ∅) rel). lia.
Qed.

(** ** The order *)

(** [e] descends from a root along resolved parents. *)
Inductive descends : EventEnvelope → Prop :=
| descends_root e : e ∈ roots k envs → descends e
| descends_child e c : descends e → c ∈ rel → parent c = Some (env_event_id e) → descends c.

(** Every event is a root or stands after its parent. *)
Inductive causal : list EventEnvelope → Prop :=
| causal_nil : causal []
| causal_snoc l e :
    causal l → e ∈ roots k envs ∨ (∃ p, p ∈ l ∧ parent e = Some (env_event_id p)) →
    causal (l ++ [e]).

Abbreviation ids l := (map env_event_id l).

(** The state of the search. *)
Record searching (visited : gset UUID) (ordered queue : list EventEnvelope) : Prop := {
  s_visited : ∀ u, u ∈ visited ↔ u ∈ ids ordered;
  s_nodup : NoDup (ids ordered);
  s_causal : causal ordered;
  s_ordered : ∀ e, e ∈ ordered → e ∈ rel ∧ descends e;
  s_queue : ∀ e, e ∈ queue →
    e ∈ rel ∧ (e ∈ roots k envs ∨ ∃ p, p ∈ ordered ∧ parent e = Some (env_event_id p));
  s_roots : ∀ e, e ∈ roots k envs → env_event_id e ∈ visited ∨ e ∈ queue;
  s_closed : ∀ c u, c ∈ rel → parent c = Some u → u ∈ visited →
    env_event_id c ∈ visited ∨ c ∈ queue;
}.

Lemma searching_queue_descends visited ordered e queue :
  searching visited ordered (e :: queue) → descends e.
Proof.
  intros Hs. destruct (s_queue _ _ _ Hs e ltac:(left)) as [Hr [?|(p & Hp & He)]];
    [by apply descends_root|].
  eapply descends_child; [|done|exact He]. by apply (s_ordered _ _ _ Hs).
Qed.

Lemma searching_skip visited ordered e queue :
  searching visited ordered (e :: queue) → env_event_id e ∈ visited →
  searching visited ordered queue.
Proof.
  intros [H1 H2 H3 H4 H5 H6 H7] Hin. constructor; try done.
  - intros e' He'. apply H5. by right.
  - intros e' He'. destruct (H6 e' He') as [?|[->|?]%elem_of_cons]; auto.
  - intros c u Hc Hp Hu. destruct (H7 c u Hc Hp Hu) as [?|[->|?]%elem_of_cons]; auto.
Qed.

Lemma searching_visit visited ordered e queue :
  let visited' := {[ env_event_id e ]} ∪ visited in
  searching visited ordered (e :: queue) → env_event_id e ∉ visited →
  searching visited' (ordered ++ [e])
    (queue ++ List.filter (λ c, negb (bool_decide (env_event_id c ∈ visited')))
                (default [] (children k envs !! env_event_id e))).
Proof.
  cbv zeta. intros Hs Hnot. pose proof (searching_queue_descends _ _ _ _ Hs) as Hd.
  destruct Hs as [H1 H2 H3 H4 H5 H6 H7].
  assert (Hkids : ∀ c, c ∈ List.filter (λ c, negb (bool_decide
             (env_event_id c ∈ {[ env_event_id e ]} ∪ visited)))
             (default [] (children k envs !! env_event_id e)) ↔
          (c ∈ rel ∧ parent c = Some (env_event_id e)) ∧
          env_event_id c ∉ ({[ env_event_id e ]} ∪ visited : gset UUID)).
  { intros c. rewrite list_elem_of_In, filter_In, <- list_elem_of_In, elem_of_children,
      negb_true_iff, bool_decide_eq_false. done. }
  destruct (H5 e ltac:(left)) as [Her Hep].
  constructor.
  - intros u. rewrite map_app. cbn [map].
    rewrite elem_of_union, elem_of_singleton, H1, elem_of_app, list_elem_of_singleton. tauto.
  - rewrite map_app. cbn [map]. apply list.NoDup_app. split; [done|]. split; [|apply NoDup_singleton].
    intros u Hu ->%list_elem_of_singleton. by apply Hnot, H1.
  - by constructor.
  - intros e' [He'| ->%list_elem_of_singleton]%elem_of_app; [by apply H4|done].
  - intros e' [He'|He']%elem_of_app.
    + destruct (H5 e' ltac:(by right)) as [? [?|(p & ? & ?)]]; split; auto.
      right. exists p. split; [|done]. apply elem_of_app. by left.
    + apply Hkids in He' as [[? ?] _]. split; [done|]. right. exists e. split; [|done].
      apply elem_of_app. right. by apply list_elem_of_singleton.
  - intros e' He'. destruct (H6 e' He') as [?|[->|?]%elem_of_cons].
    + left. set_solver.
    + left. set_solver.
    + right. apply elem_of_app. by left.
  - intros c u Hc Hp Hu.
    destruct (decide (env_event_id c ∈ ({[ env_event_id e ]} ∪ visited : gset UUID)))
      as [|Hcv]; [by left|].
    right. apply elem_of_app. apply elem_of_union in Hu as [->%elem_of_singleton|Hu].
    + right. by apply Hkids.
    + left. destruct (H7 c u Hc Hp Hu) as [?|[->|?]%elem_of_cons]; [set_solver|set_solver|done].
Qed.

Lemma bfs_searching fuel visited ordered queue visited' ordered' :
  searching visited ordered queue → search fuel visited ordered queue = Some (visited', ordered') →
  searching visited' ordered' [].
Proof.
  revert visited ordered queue. induction fuel as [|fuel IH]; intros visited ordered [|e queue] Hs;
    cbn [bfs]; try (by intros [= <- <-]).
  destruct (decide _) as [Hin|Hin]; intros Hb.
  - eapply IH, Hb. by eapply searching_skip.
  - eapply IH, Hb. by apply searching_visit.
Qed.

Lemma searching_start : searching ∅ [] (roots k envs).
Proof.
  constructor; [set_solver|constructor|constructor|set_solver| |by right|set_solver].
  intros e He. split; [by apply roots_in|by left].
Qed.

Lemma searched_descends visited ordered e :
  searching visited ordered [] → descends e → e ∈ rel → env_event_id e ∈ visited.
Proof.
  intros Hs Hd. induction Hd as [e He|e c Hd IH Hc Hp]; intros Hrel.
  - destruct (s_roots _ _ _ Hs e He) as [?|?%not_elem_of_nil]; done.
  - assert (He : e ∈ rel) by (destruct Hd; [by apply roots_in|done]).
    destruct (s_closed _ _ _ Hs c _ Hrel Hp (IH He)) as [?|?%not_elem_of_nil]; done.
Qed.

(** The part of the trace the search reaches, and the rest in order of time. *)
Lemma trace_order_spec :
  ∃ reached orphans,
    trace_order k envs = Some (reached ++ orphans) ∧
    NoDup (ids reached) ∧ causal reached ∧
    (∀ e, e ∈ reached → e ∈ rel ∧ descends e) ∧
    (∀ e, e ∈ rel → descends e → env_event_id e ∈ ids reached) ∧
    orphans ≡ₚ List.filter (λ e, negb (bool_decide (env_event_id e ∈ ids reached))) rel ∧
    StronglySorted (λ a b, env_timestamp a <= env_timestamp b) orphans.
Proof.
  destruct trace_search as [[visited reached] Hb].
  pose proof (bfs_searching _ _ _ _ _ _ searching_start Hb) as Hs.
  exists reached, (sort_by env_timestamp
    (List.filter (λ e, negb (bool_decide (env_event_id e ∈ visited))) rel)).
  split; [unfold trace_order; by rewrite Hb|].
  split; [apply (s_nodup _ _ _ Hs)|]. split; [apply (s_causal _ _ _ Hs)|].
  split; [apply (s_ordered _ _ _ Hs)|].
  split; [intros e He Hd; apply (s_visited _ _ _ Hs); by eapply searched_descends|].
  split; [|apply sort_by_sorted]. rewrite sort_by_perm.
  apply reflexive_eq, filter_ext. intros e. f_equal. apply bool_decide_ext, (s_visited _ _ _ Hs).
Qed.

(** With distinct ids every event of the case is in the trace exactly once. *)
Lemma spec_perm reached orphans :
  NoDup (ids reached) → (∀ e, e ∈ reached → e ∈ rel ∧ descends e) →
  orphans ≡ₚ List.filter (λ e, negb (bool_decide (env_event_id e ∈ ids reached))) rel →
  NoDup (ids rel) → reached ++ orphans ≡ₚ rel.
Proof.
  intros Hn Hin Ho Hnd. rewrite Ho. apply NoDup_Permutation.
  - apply list.NoDup_app. split; [by eapply NoDup_fmap_1|]. split.
    + intros e He1 He2%elem_of_filter_bool. destruct He2 as [_ He2%negb_true_iff%bool_decide_eq_false].
      apply He2. by apply (list_elem_of_fmap_2 env_event_id).
    + apply NoDup_filter_bool. by eapply NoDup_fmap_1.
  - by eapply NoDup_fmap_1.
  - intros e. rewrite elem_of_app, elem_of_filter_bool, negb_true_iff, bool_decide_eq_false.
    split; [intros [He|[He _]]; [by apply Hin|done]|]. intros He.
    destruct (decide (env_event_id e ∈ map env_event_id reached)) as [Hid|]; [left|by right].
    apply list_elem_of_fmap_1 in Hid as (e' & Heq & He').
    by rewrite (nodup_map_inj env_event_id _ _ _ Hnd He (proj1 (Hin _ He')) Heq).
Qed.

Lemma enumerate_steps_events n l :
  map (λ s, (ts_event_type s, ts_timestamp s, ts_actor s, ts_caused_by s)) (enumerate_steps k envs n l) =
  map (λ e, (env_event_type e, env_timestamp e, env_agent_id e, env_causation_id e)) l.
Proof. revert n. induction l as [|e l IH]; intros n; cbn; [done|]. by rewrite IH. Qed.

Lemma trace_order_perm l :
  NoDup (ids rel) → trace_order k envs = Some l → l ≡ₚ rel.
Proof.
  destruct trace_order_spec as (reached & orphans & -> & Hn & _ & Hin & _ & Ho & _).
  intros Hnd [= <-]. by apply spec_perm.
Qed.

Lemma enumerate_steps_seq n l : map ts_seq (enumerate_steps k envs n l) = seqZ n (Z.of_nat (length l)).
Proof.
  revert n. induction l as [|e l IH]; intros n; cbn [enumerate_steps map length]; [done|].
  rewrite IH, (seqZ_cons n (Z.of_nat (S (length l)))) by lia. cbn. f_equal. f_equal; lia.
Qed.

Lemma enumerate_steps_length n l : length (enumerate_steps k envs n l) = length l.
Proof. revert n. induction l as [|e l IH]; intros n; cbn; [done|]. by rewrite IH. Qed.
End Order.

(** C25 (termination): the trace always comes out: on every list of envelopes,
    whatever cycles or duplicates their causes form, the breadth-first search ends
    within twice as many steps as there are events in the case. *)
Theorem trace_terminates k envs : ∃ steps, trace_case k envs = Some steps.
Proof.
  destruct (trace_order_spec k envs) as (reached & orphans & H & _). unfold trace_case.
  rewrite H. by eexists.
Qed.

(** C24 (refinement): the trace is the causal order of the case.  Its events are
    numbered from 1; first come, each id once and each after its parent, exactly
    the events that descend from the roots along the resolved causes; then the
    orphans by time; and when no two envelopes share an id, every event of the
    case is there exactly once. *)
Theorem trace_is_causal_order k envs steps :
  trace_case k envs = Some steps →
  ∃ reached orphans,
    steps = enumerate_steps k envs 1 (reached ++ orphans) ∧
    map ts_seq steps = seqZ 1 (Z.of_nat (length steps)) ∧
    NoDup (map env_event_id reached) ∧ causal k envs reached ∧
    (∀ e, e ∈ reached → descends k envs e) ∧
    (∀ e, e ∈ relevant k envs → descends k envs e →
          env_event_id e ∈ map env_event_id reached) ∧
    StronglySorted (λ a b, env_timestamp a <= env_timestamp b) orphans ∧
    (NoDup (map env_event_id (relevant k envs)) → reached ++ orphans ≡ₚ relevant k envs).
Proof.
  destruct (trace_order_spec k envs) as (reached & orphans & H & Hn & Hc & Hin & Hcomp & Ho & Hs).
  unfold trace_case. rewrite H. intros [= <-]. exists reached, orphans.
  split; [done|]. split.
  { by rewrite enumerate_steps_seq, enumerate_steps_length. }
  split_and!; try done; [intros e He; by apply Hin|].
  intros Hnd. by apply spec_perm.
Qed.
