(* ===== verification/PollCache.v ===== *)
(** * The demo UI's read cache

    [cached_call], [_spawn_refresh] and [clear_cache] of [apps/demo_ui/config.py]: a cache of
    the last reads with a time to live, which may serve a stale value while a daemon thread
    reads again.  Several script runs and refresh threads share the cache and the set of
    keys in flight; the set is only touched under its lock, and a read (the factory) takes
    time, during which the others go on.  The state machine below has one step per piece of
    code between two factory calls. *)

From Stdlib Require Import ZArith Bool Ascii String List Lia.
From stdpp Require Import base list strings gmap relations.
From S2P Require Import Prelude.
From S2P Require Import PyFloat.

Open Scope string_scope.
Open Scope list_scope.
Open Scope Z_scope.

#[local] Set Default Proof Using "Type".

(** [REFRESH_SECONDS] by default. *)
Definition REFRESH_SECONDS : float := float_of_Z 5.

Section Cache.
Context {V : Type}.

(** What is running a factory, or is about to leave the set of keys in flight. *)
Inductive Reader :=
| Computing (key : string) (now : float)
| Refreshing (key : string)
| Discarding (key : string).

(** [_cache], [_inflight] and the readers. *)
Record PollState := mk_poll {
  _cache : gmap string (float * V);
  _inflight : gset string;
  readers : list Reader;
}.

Definition no_polls : PollState := mk_poll ∅ ∅ [].

(** ** The operations *)

(** [now - hit[0] < window] *)
Definition fresh_enough (now stored window : float) : bool := (now - stored <? window)%pf.

(** [_spawn_refresh]: nothing when the key is in flight. *)
Definition _spawn_refresh (key : string) (s : PollState) : PollState :=
  if decide (key ∈ _inflight s) then s
  else mk_poll (_cache s) ({[key]} ∪ _inflight s) (readers s ++ [Refreshing key]).

(** [cached_call] up to its factory: a value, or the reader that calls the factory. *)
Definition cached_call (key : string) (ttl : option float) (stale_while_revalidate : bool)
    (now : float) (s : PollState) : option V * PollState :=
  let window := default REFRESH_SECONDS ttl in
  match _cache s !! key with
  | Some (stored, value) =>
      if fresh_enough now stored window then (Some value, s)
      else if stale_while_revalidate then (Some value, _spawn_refresh key s)
      else (None, mk_poll (_cache s) (_inflight s) (readers s ++ [Computing key now]))
  | None => (None, mk_poll (_cache s) (_inflight s) (readers s ++ [Computing key now]))
  end.

(** The end of a factory, its value or [None] when it raised, at the clock's reading: a
    call stores the value with the time it started at and returns; a refresh stores it with
    the time it ended at and goes on to its [finally]. *)
Definition stored_at (r : Reader) (clock : float) : option (string * float) :=
  match r with
  | Computing key now => Some (key, now)
  | Refreshing key => Some (key, clock)
  | Discarding _ => None
  end.

Definition after_factory (r : Reader) : list Reader :=
  match r with Refreshing key => [Discarding key] | _ => [] end.

Definition remember (r : Reader) (clock : float) (value : option V) (s : PollState) :
    gmap string (float * V) :=
  match stored_at r clock, value with
  | Some (key, t), Some v => <[key := (t, v)]> (_cache s)
  | _, _ => _cache s
  end.

Definition clear_cache (s : PollState) : PollState := mk_poll ∅ (_inflight s) (readers s).

(** ** The steps *)

Inductive Label :=
| Call (key : string) (served : option V)
| Finished (key : string) (value : option V)
| Left (key : string)
| Cleared.

Inductive poll_step : PollState → Label → PollState → Prop :=
| poll_call s key ttl swr now :
    poll_step s (Call key (fst (cached_call key ttl swr now s))) (snd (cached_call key ttl swr now s))
| poll_factory s before r after key t clock value :
    readers s = before ++ r :: after →
    stored_at r clock = Some (key, t) →
    poll_step s (Finished key value)
      (mk_poll (remember r clock value s) (_inflight s) (before ++ after_factory r ++ after))
| poll_discard s before key after :
    readers s = before ++ Discarding key :: after →
    poll_step s (Left key) (mk_poll (_cache s) (_inflight s ∖ {[key]}) (before ++ after))
| poll_clear s : poll_step s Cleared (clear_cache s).

(** A run with its labels, latest first. *)
Inductive poll_run (s0 : PollState) : list Label → PollState → Prop :=
| poll_nil : poll_run s0 [] s0
| poll_cons s ls l s' : poll_run s0 ls s → poll_step s l s' → poll_run s0 (l :: ls) s'.

(** ** At most one refresh per key *)

(** The keys the refresh threads hold. *)
Definition held (r : Reader) : option string :=
  match r with Computing _ _ => None | Refreshing key | Discarding key => Some key end.

Definition keys_held (rs : list Reader) : list string := omap held rs.

(** The set in flight is exactly what the refresh threads hold, each key once. *)
Record polls_ok (s : PollState) : Prop := {
  po_inflight : ∀ key, key ∈ _inflight s ↔ key ∈ keys_held (readers s);
  po_once : NoDup (keys_held (readers s));
}.

Lemma keys_held_app l1 l2 : keys_held (l1 ++ l2) = keys_held l1 ++ keys_held l2.
Proof. apply omap_app. Qed.

Lemma keys_held_mid before r after :
  keys_held (before ++ r :: after) ≡ₚ keys_held [r] ++ keys_held (before ++ after).
Proof.
  rewrite !keys_held_app. cbn. destruct (held r); cbn; [|done]. by rewrite <- Permutation_middle.
Qed.

Lemma spawn_ok key s : polls_ok s → polls_ok (_spawn_refresh key s).
Proof.
  intros [H1 H2]. unfold _spawn_refresh. destruct (decide _) as [Hin|Hin]; [done|].
  constructor; cbn [_inflight readers]; rewrite keys_held_app; cbn.
  - intros k. rewrite elem_of_union, elem_of_singleton, elem_of_app, H1, elem_of_cons, elem_of_nil. tauto.
  - apply list.NoDup_app. split; [done|]. split; [|apply NoDup_singleton].
    intros k Hk ->%list_elem_of_singleton. by apply Hin, H1.
Qed.

Lemma computing_ok key now s :
  polls_ok s → polls_ok (mk_poll (_cache s) (_inflight s) (readers s ++ [Computing key now])).
Proof.
  intros [H1 H2]. constructor; cbn [_inflight readers]; rewrite keys_held_app; cbn;
    by rewrite app_nil_r.
Qed.

Lemma step_ok s l s' : poll_step s l s' → polls_ok s → polls_ok s'.
Proof.
  intros Hstep Hok. destruct Hstep as [s key ttl swr now|s before r after key t clock value Hr Ht|
    s before key after Hr|s].
  - unfold cached_call. destruct (_cache s !! key) as [[stored value]|]; cbn; [|by apply computing_ok].
    destruct (fresh_enough _ _ _); cbn; [done|]. destruct swr; cbn; [by apply spawn_ok|by apply computing_ok].
  - destruct Hok as [H1 H2]. rewrite Hr in H1, H2.
    assert (Hk : keys_held (before ++ after_factory r ++ after) ≡ₚ keys_held (before ++ r :: after)).
    { rewrite keys_held_mid, !keys_held_app. destruct r; cbn; [done| |done]. by rewrite <- Permutation_middle. }
    constructor; cbn [_inflight readers]; [intros k|]; by rewrite Hk.
  - destruct Hok as [H1 H2]. rewrite Hr in H2. rewrite keys_held_mid in H2. cbn in H2.
    apply list.NoDup_cons in H2 as [Hnot H2]. constructor; cbn [_inflight readers]; [|done].
    intros k. rewrite elem_of_difference, elem_of_singleton, H1, Hr, keys_held_mid. cbn.
    rewrite elem_of_cons. split; [tauto|]. intros Hk. split; [by right|]. by intros ->.
  - destruct Hok as [H1 H2]. by constructor.
Qed.

Lemma run_ok s0 ls s : poll_run s0 ls s → polls_ok s0 → polls_ok s.
Proof. induction 1 as [|s ls l s' _ IH Hs]; [done|]. intros H0. eapply step_ok; [exact Hs|auto]. Qed.

Lemma no_polls_ok : polls_ok no_polls.
Proof. constructor; cbn; [set_solver|constructor]. Qed.

(** Remark (invariant): at most one refresh per key.  However calls, refreshes and clears
    interleave, each key has at most one refresh thread, and the keys in flight are exactly
    those of the refresh threads: a refresh that raised leaves no key behind. *)
Theorem one_refresh_per_key ls s :
  poll_run no_polls ls s →
  NoDup (keys_held (readers s)) ∧ ∀ key, key ∈ _inflight s ↔ key ∈ keys_held (readers s).
Proof. intros Hr. destruct (run_ok _ _ _ Hr no_polls_ok) as [H1 H2]. by split. Qed.

(** ** What is served *)

(** The last good value of a key in a run, since the cache was last cleared. *)
Fixpoint last_good (key : string) (ls : list Label) : option V :=
  match ls with
  | [] => None
  | Cleared :: _ => None
  | Finished k (Some v) :: ls => if decide (k = key) then Some v else last_good key ls
  | _ :: ls => last_good key ls
  end.

Lemma spawn_cache key s : _cache (_spawn_refresh key s) = _cache s.
Proof. unfold _spawn_refresh. by destruct (decide _). Qed.

Lemma call_cache key ttl swr now s : _cache (snd (cached_call key ttl swr now s)) = _cache s.
Proof.
  unfold cached_call. destruct (_cache s !! key) as [[stored value]|]; [|done].
  destruct (fresh_enough _ _ _); [done|]. destruct swr; [apply spawn_cache|done].
Qed.

Lemma cache_last_good ls s key :
  poll_run no_polls ls s → snd <$> _cache s !! key = last_good key ls.
Proof.
  induction 1 as [|s ls l s' _ IH Hs]; [by cbn; rewrite lookup_empty|].
  destruct Hs as [s k ttl swr now|s before r after k t clock value Hr Ht|s before k after Hr|s]; cbn.
  - by rewrite call_cache.
  - unfold remember. rewrite Ht. destruct value as [v|]; [|done].
    destruct (decide (k = key)) as [->|Hne]; [by rewrite lookup_insert_eq|by rewrite lookup_insert_ne].
  - done.
  - by rewrite lookup_empty.
Qed.

(** Remark (functional): what [cached_call] serves.  Without a factory call of its own it
    serves the value of the last factory that succeeded for the key since the cache was
    cleared, and only while that value is fresh, or stale but asked for; then a refresh of
    the key is in flight when it returns.  A failed read never replaces a value: the last
    good one stays. *)
Theorem served_is_last_good ls s key ttl swr now v s' :
  poll_run no_polls ls s → cached_call key ttl swr now s = (Some v, s') →
  last_good key ls = Some v ∧ last_good key (Finished key None :: ls) = Some v ∧
  ∃ stored, _cache s !! key = Some (stored, v) ∧
    (fresh_enough now stored (default REFRESH_SECONDS ttl) = true ∧ s' = s ∨
     swr = true ∧ key ∈ _inflight s').
Proof.
  intros Hr Hcall. pose proof (cache_last_good ls s key Hr) as Hl. unfold cached_call in Hcall.
  destruct (_cache s !! key) as [[stored value]|]; [|done]. cbn in Hl.
  destruct (fresh_enough now stored (default REFRESH_SECONDS ttl)) eqn:Hf; [|destruct swr; [|done]];
    injection Hcall as <- <-; (split; [done|]); (split; [done|]); exists stored; (split; [done|]).
  - by left.
  - right. split; [done|]. unfold _spawn_refresh. destruct (decide _); [done|]. cbn. set_solver.
Qed.

(** A stale key whose refresh has ended is refreshed again by the next call. *)
Lemma stale_call_refreshes key ttl now s stored value :
  _cache s !! key = Some (stored, value) →
  fresh_enough now stored (default REFRESH_SECONDS ttl) = false → key ∉ _inflight s →
  cached_call key ttl true now s =
  (Some value, mk_poll (_cache s) ({[key]} ∪ _inflight s) (readers s ++ [Refreshing key])).
Proof.
  intros Hc Hf Hin. unfold cached_call. rewrite Hc, Hf. unfold _spawn_refresh. by rewrite decide_False.
Qed.
End Cache.
Arguments PollState : clear implicits.
Arguments Label : clear implicits.

(** ** A cleared cache can show an old read *)

(** Remark (functional): clearing does not reach a read in flight.  A refresh that started
    before [clear_cache] stores its value after it, and the next call serves that value as
    fresh. *)
Theorem clear_misses_inflight (v : nat) :
  ∃ s, poll_run no_polls
         [Finished "roster" (Some v); Cleared; Call "roster" (Some 0%nat);
          Finished "roster" (Some 0%nat); Call "roster" None] s ∧
       fst (cached_call "roster" None true (float_of_Z 21) s) = Some v.
Proof.
  set (t0 := float_of_Z 0). set (s1 := snd (cached_call (V:=nat) "roster" None true t0 no_polls)).
  set (s2 := mk_poll {["roster" := (t0, 0%nat)]} ∅ ([] : list Reader)).
  set (s3 := mk_poll {["roster" := (t0, 0%nat)]} {["roster"]} [Refreshing "roster"]).
  set (s4 := mk_poll (V:=nat) ∅ {["roster"]} [Refreshing "roster"]).
  set (t1 := float_of_Z 20).
  exists (mk_poll {["roster" := (t1, v)]} {["roster"]} [Discarding "roster"]). split.
  - eapply poll_cons with (s := s4); [eapply poll_cons with (s := s3);
      [eapply poll_cons with (s := s2); [eapply poll_cons with (s := s1);
        [eapply poll_cons with (s := no_polls); [constructor|exact (poll_call no_polls "roster" None true t0)]|]|]|]|].
    + exact (poll_factory s1 [] (Computing "roster" t0) [] "roster" t0 t0 (Some 0%nat) eq_refl eq_refl).
    + exact (poll_call s2 "roster" None true (float_of_Z 10)).
    + exact (poll_clear s3).
    + exact (poll_factory s4 [] (Refreshing "roster") [] "roster" t1 t1 (Some v) eq_refl eq_refl).
  - reflexivity.
Qed.
