(* ===== verification/Views.v ===== *)
(** * The operator's views

    The read side of [apps/demo_ui]: the case timeline ([timeline.py]), the live
    stream ([event_stream.py]), the roster ([agent_cards.py]); and its only write,
    the demo trigger ([ticket_form.py]).  A failed read shows as an empty view. *)

From Stdlib Require Import ZArith Bool Ascii String List Lia Sorted.
From stdpp Require Import base list strings gmap sets.
From S2P Require Import Prelude.
From S2P Require Import PyFloat.
From S2P Require Import Contracts.
From S2P Require Import Uuid.
From S2P Require Import A2A.
From S2P Require Import Envelope.
From S2P Require Import Async.
From S2P Require Import Runtime.
From S2P Require Import Trace.

Open Scope string_scope.
Open Scope list_scope.
Open Scope Z_scope.
Open Scope prog_scope.

(** ** Dictionaries filled in a loop: the last record of a key wins *)

Section Folds.
Context {K : Type} `{Countable K} {A V : Type} (f : A → K) (g : A → V).

Definition last_of (u : K) (l : list A) : option A := List.find (λ r, bool_decide (f r = u)) (rev l).

Lemma last_of_snoc u l r :
  last_of u (l ++ [r]) = if decide (f r = u) then Some r else last_of u l.
Proof. unfold last_of. rewrite rev_app_distr. cbn. case_bool_decide; by case_decide. Qed.

Lemma last_of_some u l r : last_of u l = Some r → r ∈ l ∧ f r = u.
Proof.
  unfold last_of. intros [Hin Hu]%find_some. apply bool_decide_eq_true in Hu.
  split; [|done]. apply list_elem_of_In. by apply in_rev.
Qed.

Lemma last_of_is_some u l : is_Some (last_of u l) ↔ u ∈ map f l.
Proof.
  split.
  - intros [r [Hr <-]%last_of_some]. by apply list_elem_of_fmap_2.
  - intros (r & -> & Hr)%list_elem_of_fmap_1. unfold last_of.
    destruct (List.find _ (rev l)) eqn:E; [by eexists|exfalso].
    pose proof (find_none _ _ E r ltac:(by rewrite <- in_rev; apply list_elem_of_In)) as Hn.
    by apply bool_decide_eq_false in Hn.
Qed.

Lemma lookup_fold_insert l u :
  fold_left (λ m r, <[f r := g r]> m) l (∅ : gmap K V) !! u = g <$> last_of u l.
Proof.
  induction l as [|r l IH] using rev_ind; [done|]. rewrite fold_left_app, last_of_snoc. cbn [fold_left].
  destruct (decide (f r = u)) as [<-|Hne]; [by rewrite lookup_insert_eq|].
  by rewrite lookup_insert_ne, IH.
Qed.

Lemma items_get_fold l u :
  items_get u (fold_left (λ d r, items_put (f r) (g r) d) l []) = g <$> last_of u l.
Proof.
  induction l as [|r l IH] using rev_ind; [done|]. rewrite fold_left_app, last_of_snoc. cbn [fold_left].
  rewrite items_get_put, IH. by case_decide.
Qed.

Lemma items_fold_nodup l : NoDup (fold_left (λ d r, items_put (f r) (g r) d) l []).*1.
Proof.
  induction l as [|r l IH] using rev_ind; [constructor|]. rewrite fold_left_app.
  by apply items_put_nodup.
Qed.
End Folds.

(** ** The case timeline *)

Record TimelineEntry := {
  tl_seq : Z;
  tl_actor : string;
  tl_event_type : string;
  tl_outcome : option string;
  tl_reason : option string;
  tl_timestamp : datetime;
  tl_caused_by : option UUID;
  tl_task_id : option UUID;
  tl_is_orphan : bool;
}.

Record TimelineView := {
  tv_correlation_id : UUID;
  tv_entries : list TimelineEntry;
  tv_found : bool;
}.

Definition StepKey : Type := string * datetime * string * option UUID.

Definition _step_key (event_type : string) (timestamp : datetime) (actor : string)
    (caused_by : option UUID) : StepKey := (event_type, timestamp, actor, caused_by).

Section Timeline.
Variable correlation_id : UUID.
Variable records : list AuditRecord.

Definition record_event (r : AuditRecord) : UUID := env_event_id (aud_original_envelope r).

Definition env_by_id : list (UUID * EventEnvelope) :=
  fold_left (λ d r, items_put (record_event r) (aud_original_envelope r) d) records [].

Definition audit_by_id : gmap UUID AuditRecord :=
  fold_left (λ m r, <[record_event r := r]> m) records ∅.

Definition timeline_envelopes : list EventEnvelope := env_by_id.*2.

Definition envelope_key (e : EventEnvelope) : StepKey :=
  _step_key (env_event_type e) (env_timestamp e) (env_agent_id e) (env_causation_id e).

Definition id_by_key : gmap StepKey UUID :=
  fold_left (λ m e, <[envelope_key e := env_event_id e]> m) timeline_envelopes ∅.

Definition timeline_entry (step : TraceStep) : TimelineEntry :=
  let event_id := id_by_key !! _step_key (ts_event_type step) (ts_timestamp step)
                                 (ts_actor step) (ts_caused_by step) in
  let audit := u ← event_id; audit_by_id !! u in
  {| tl_seq := ts_seq step;
     tl_actor := ts_actor step;
     tl_event_type := ts_event_type step;
     tl_outcome := match audit with
                   | Some a => Some (AuditOutcome_str (aud_outcome a))
                   | None => ts_outcome step
                   end;
     tl_reason := a ← audit; aud_reason a;
     tl_timestamp := ts_timestamp step;
     tl_caused_by := ts_caused_by step;
     tl_task_id := ts_task_id step;
     tl_is_orphan := bool_of_option (ts_caused_by step) &&
                     negb (bool_of_option (ts_parent_event_id step)) |}.

Definition build_timeline_from_records : option TimelineView :=
  match records with
  | [] => Some {| tv_correlation_id := correlation_id; tv_entries := []; tv_found := false |}
  | _ =>
      steps ← trace_case correlation_id timeline_envelopes;
      Some {| tv_correlation_id := correlation_id;
              tv_entries := map timeline_entry steps; tv_found := true |}
  end.
End Timeline.

(** [build_timeline]: [read] is the outcome of reading the audit topic in time. *)
Definition build_timeline (correlation_id : UUID) (read : result (list AuditRecord)) :
    option TimelineView :=
  let records := match read with
                 | Ok records => query_by_correlation correlation_id records
                 | Err _ => []
                 end in
  build_timeline_from_records correlation_id records.

(** ** The live stream *)

Record StreamEvent := {
  se_event_id : UUID;
  se_correlation_id : UUID;
  se_agent_id : string;
  se_event_type : string;
  se_outcome : option string;
  se_reason : option string;
  se_timestamp : datetime;
}.

Record StreamView := {
  sv_events : list StreamEvent;
  sv_filter_agent : option string;
  sv_filter_event_type : option string;
  sv_filter_correlation_id : option UUID;
}.

Definition stream_event (rec : AuditRecord) : StreamEvent :=
  let env := aud_original_envelope rec in
  {| se_event_id := env_event_id env; se_correlation_id := env_correlation_id env;
     se_agent_id := env_agent_id env; se_event_type := env_event_type env;
     se_outcome := Some (AuditOutcome_str (aud_outcome rec)); se_reason := aud_reason rec;
     se_timestamp := env_timestamp env |}.

(** The loop over the records: the first one of an event wins. *)
Fixpoint first_seen (seen : gset UUID) (records : list AuditRecord) : list StreamEvent :=
  match records with
  | [] => []
  | rec :: records =>
      let id := record_event rec in
      if decide (id ∈ seen) then first_seen seen records
      else stream_event rec :: first_seen ({[id]} ∪ seen) records
  end.

(** [if filter: events = [e for e in events if ...]]: no text is no filter. *)
Definition text_filter (filter : option string) (field : StreamEvent → string)
    (events : list StreamEvent) : list StreamEvent :=
  match filter with
  | Some f => if str_truthy f then List.filter (λ e, String.eqb (field e) f) events else events
  | None => events
  end.

Definition correlation_filter (filter : option UUID) (events : list StreamEvent) :
    list StreamEvent :=
  match filter with
  | Some u => List.filter (λ e, se_correlation_id e =? u) events
  | None => events
  end.

Definition build_stream_from_records (records : list AuditRecord)
    (filter_agent filter_event_type : option string) (filter_correlation_id : option UUID) :
    StreamView :=
  let events := sort_by (λ e, - se_timestamp e) (first_seen ∅ records) in
  let events := text_filter filter_agent se_agent_id events in
  let events := text_filter filter_event_type se_event_type events in
  let events := correlation_filter filter_correlation_id events in
  {| sv_events := events; sv_filter_agent := filter_agent;
     sv_filter_event_type := filter_event_type;
     sv_filter_correlation_id := filter_correlation_id |}.

Definition build_stream (read : result (list AuditRecord))
    (filter_agent filter_event_type : option string) (filter_correlation_id : option UUID) :
    StreamView :=
  build_stream_from_records (match read with Ok records => records | Err _ => [] end)
    filter_agent filter_event_type filter_correlation_id.

(** ** The roster *)

Inductive Liveness := live | unknown | not_announced.

#[export] Instance Liveness_eq_dec : EqDecision Liveness.
Proof. solve_decision. Defined.

Record RosterEntry := {
  re_agent_id : string;
  re_name : option string;
  re_description : option string;
  re_version : option string;
  re_endpoint_topic : option string;
  re_capabilities : list Capability;
  re_announced : bool;
  re_last_announced : option datetime;
  re_liveness : Liveness;
}.

Definition EXPECTED_AGENT_IDS : list string :=
  ["customer-resolution-agent"; "billing-entitlement-agent"; "risk-fraud-agent"].

Definition latest_cards (cards : list AgentCard) : gmap string AgentCard :=
  fold_left (λ m c, <[card_agent_id c := c]> m) cards ∅.

Definition missing_entry (agent_id : string) : RosterEntry := {|
  re_agent_id := agent_id; re_name := None; re_description := None; re_version := None;
  re_endpoint_topic := None; re_capabilities := []; re_announced := false;
  re_last_announced := None; re_liveness := not_announced |}.

Definition roster_entry (announce_times : gmap string datetime)
    (liveness : gmap string Liveness) (latest : gmap string AgentCard) (agent_id : string) :
    RosterEntry :=
  match latest !! agent_id with
  | None => missing_entry agent_id
  | Some card => {|
      re_agent_id := card_agent_id card; re_name := Some (card_name card);
      re_description := Some (card_description card); re_version := Some (card_version card);
      re_endpoint_topic := Some (card_endpoint_topic card);
      re_capabilities := card_capabilities card; re_announced := true;
      re_last_announced := announce_times !! agent_id;
      re_liveness := default unknown (liveness !! agent_id) |}
  end.

Definition build_roster_entries (cards : list AgentCard) (announce_times : gmap string datetime)
    (liveness : gmap string Liveness) (expected_agent_ids : list string) : list RosterEntry :=
  map (roster_entry announce_times liveness (latest_cards cards)) expected_agent_ids.

(** [_read_cards_and_times]: the card events among the messages of the topic. *)
Definition card_events {Bytes} (parse_envelope : Bytes → result EventEnvelope)
    (messages : list Bytes) : list (EventEnvelope * AgentCard) :=
  omap (λ raw, match parse_envelope raw with
               | Ok e => match env_payload e with P_Card c => Some (e, c) | _ => None end
               | Err _ => None
               end) messages.

Definition _read_cards_and_times {Bytes} (parse_envelope : Bytes → result EventEnvelope)
    (messages : list Bytes) : list AgentCard * gmap string datetime :=
  let events := card_events parse_envelope messages in
  ((fold_left (λ d ec, items_put (card_agent_id ec.2) ec.2 d) events []).*2,
   fold_left (λ m ec, <[env_agent_id ec.1 := env_timestamp ec.1]> m) events ∅).

(** [_probe_liveness]; [ping] is the HTTP request: was it answered with a 2xx? *)
Definition _probe_liveness (ping : string → result bool) (url : option string) : Liveness :=
  match url with
  | Some u =>
      if str_truthy u then match ping u with Ok true => live | _ => unknown end else unknown
  | None => unknown
  end.

(** [build_roster]: [read] is the outcome of reading the cards in time. *)
Definition build_roster (ping : string → result bool)
    (endpoints : list (string * option string))
    (read : result (list AgentCard * gmap string datetime)) : list RosterEntry :=
  let '(cards, announce_times) := match read with Ok r => r | Err _ => ([], ∅) end in
  let announced_ids := map card_agent_id cards in
  let liveness := fold_left (λ m ep,
    if str_in ep.1 announced_ids then <[ep.1 := _probe_liveness ping ep.2]> m else m)
    endpoints (∅ : gmap string Liveness) in
  build_roster_entries cards announce_times liveness EXPECTED_AGENT_IDS.

(** ** The demo trigger *)

Record DemoTriggerRequest := {
  dt_amount : float;
  dt_currency : string;
  dt_reason : string;
  dt_ticket_id : option string;
  dt_customer_id : option string;
}.

(** The constraints of the fields: [gt=0], three characters, not empty. *)
Definition mk_trigger (r : DemoTriggerRequest) : result DemoTriggerRequest :=
  if negb (lit 0 1 <? dt_amount r)%pf then Err (ValidationError "amount")
  else if negb (Nat.eqb (py_len (dt_currency r)) 3) then Err (ValidationError "currency")
  else if Nat.eqb (py_len (dt_reason r)) 0 then Err (ValidationError "reason")
  else Ok r.

Definition _DEMO_IDENTITY : AgentIdentity := {|
  id_agent_id := "demo-ui.ticket-producer"; id_display_name := "Demo UI Ticket Producer";
  id_tenant_id := "local" |}.

(** [uuid.hex[:8]] *)
Definition hex8 (u : UUID) : string := py_take 8 (hex_digits 32 u).

Section Trigger.
Context `{Uuids}.

(** [self.ticket_id or f"TKT-{uuid4().hex[:8]}"] *)
Definition id_or_minted (given : option string) (prefix : string) : prog string :=
  match given with
  | Some s => if str_truthy s then Ret s
              else let! u := fresh_uuid in Ret (prefix +:+ hex8 u)
  | None => let! u := fresh_uuid in Ret (prefix +:+ hex8 u)
  end.

Definition to_payload (r : DemoTriggerRequest) : prog SupportTicketCreatedPayload :=
  let! ticket_id := id_or_minted (dt_ticket_id r) "TKT-" in
  let! customer_id := id_or_minted (dt_customer_id r) "CUST-" in
  let! created_at := now in
  Ret {| stc_ticket_id := ticket_id; stc_customer_id := customer_id;
         stc_amount := dt_amount r; stc_currency := dt_currency r; stc_reason := dt_reason r;
         stc_created_at := created_at |}.

(** [_publish_async]: the identifiers of the one event. *)
Definition publish_demo_ticket (r : DemoTriggerRequest) : prog (UUID * UUID * string) :=
  let! payload := to_payload r in
  let! correlation_id := fresh_uuid in
  let! envelope := publish _DEMO_IDENTITY (P_Ticket payload) TICKET_CREATED correlation_id
                     None None in
  Ret (env_correlation_id envelope, env_event_id envelope, TICKET_CREATED).
End Trigger.

Example demo_identity_valid :
  _AGENT_ID_RE (id_agent_id _DEMO_IDENTITY) = true ∧ _TENANT_ID_RE (id_tenant_id _DEMO_IDENTITY) = true.
Proof. split; vm_compute; reflexivity. Qed.
