(* ===== verification/ViewFacts.v ===== *)
(** * What the operator's views show

    Each event of a case once in the timeline, under its latest audit; each event
    once in the stream, under its first; each expected agent once in the roster,
    under its latest card; and the trigger's one root event. *)

From Stdlib Require Import ZArith Bool Ascii String List Lia Sorted.
From stdpp Require Import base list strings gmap sets.
From S2P Require Import Prelude.
From S2P Require Import PyFloat.
From S2P Require Import Contracts.
From S2P Require Import Uuid.
From S2P Require Import A2A.
From S2P Require Import Envelope.
From S2P Require Import Async.
From S2P Require Import Execution.
From S2P Require Import Transport.
From S2P Require Import Runtime.
From S2P Require Import Trace.
From S2P Require Import TraceFacts.
From S2P Require Import Views.

Open Scope string_scope.
Open Scope list_scope.
Open Scope Z_scope.

(** ** The timeline *)

Section Timeline.
Context (k : UUID) (records : list AuditRecord).

Abbreviation latest u := (last_of record_event u records).

Lemma timeline_elem e :
  e ∈ timeline_envelopes records ↔
  ∃ r, latest (env_event_id e) = Some r ∧ aud_original_envelope r = e.
Proof.
  unfold timeline_envelopes, env_by_id.
  pose proof (items_fold_nodup record_event aud_original_envelope records) as Hnd.
  split.
  - intros ([u e'] & -> & Hin)%list_elem_of_fmap_1. cbn.
    apply items_get_elem in Hin; [|done]. rewrite items_get_fold in Hin.
    apply fmap_Some in Hin as (r & Hr & ->). exists r. split; [|done].
    destruct (last_of_some _ _ _ _ Hr) as [_ Hu]. unfold record_event in Hu. by rewrite Hu.
  - intros (r & Hr & He). apply (list_elem_of_fmap_2' snd _ (env_event_id e, e)); [|done].
    apply items_get_elem; [done|]. rewrite items_get_fold, Hr. cbn. by rewrite He.
Qed.

Lemma timeline_ids : map env_event_id (timeline_envelopes records) = (env_by_id records).*1.
Proof.
  unfold timeline_envelopes, env_by_id.
  set (d := fold_left _ _ _).
  assert (H : ∀ u e, (u, e) ∈ d → env_event_id e = u).
  { intros u e Hin. apply items_get_elem in Hin; [|apply items_fold_nodup].
    unfold d in Hin. rewrite items_get_fold in Hin. apply fmap_Some in Hin as (r & Hr & ->).
    by apply last_of_some in Hr as [_ Hr]. }
  clearbody d. induction d as [|[u e] d IH]; [done|]. cbn. f_equal.
  - apply H. by left.
  - apply IH. intros u' e' Hin. apply H. by right.
Qed.

Hypothesis Hkeys : ∀ e e', e ∈ timeline_envelopes records → e' ∈ timeline_envelopes records →
  envelope_key e = envelope_key e' → env_event_id e = env_event_id e'.

Lemma id_of_key e :
  e ∈ timeline_envelopes records → id_by_key records !! envelope_key e = Some (env_event_id e).
Proof using Hkeys.
  intros He. unfold id_by_key. rewrite lookup_fold_insert.
  assert (Hs : is_Some (last_of envelope_key (envelope_key e) (timeline_envelopes records))).
  { apply last_of_is_some. by apply list_elem_of_fmap_2. }
  destruct Hs as [e' He']. rewrite He'. cbn. f_equal.
  apply last_of_some in He' as [Hin Hk]. by apply Hkeys.
Qed.

(** The entry of an event shows its latest record. *)
Lemma timeline_entry_latest seq e :
  e ∈ timeline_envelopes records →
  ∃ r, latest (env_event_id e) = Some r ∧ aud_original_envelope r = e ∧
    tl_outcome (timeline_entry records (trace_step k (timeline_envelopes records) seq e)) =
      Some (AuditOutcome_str (aud_outcome r)) ∧
    tl_reason (timeline_entry records (trace_step k (timeline_envelopes records) seq e)) =
      aud_reason r.
Proof using Hkeys.
  intros He. pose proof (proj1 (timeline_elem e) He) as (r & Hr & Hre).
  exists r. split; [done|]. split; [done|]. unfold timeline_entry. cbn [trace_step ts_event_type
    ts_timestamp ts_actor ts_caused_by tl_outcome tl_reason].
  change (_step_key _ _ _ _) with (envelope_key e). rewrite id_of_key by done. cbn.
  unfold audit_by_id. by rewrite lookup_fold_insert, Hr.
Qed.
End Timeline.

(** What an entry shows of a record: the event and the audit's verdict. *)
Definition entry_view (t : TimelineEntry) : StepKey * option string * option string :=
  (_step_key (tl_event_type t) (tl_timestamp t) (tl_actor t) (tl_caused_by t),
   tl_outcome t, tl_reason t).

Definition record_view (r : AuditRecord) : StepKey * option string * option string :=
  (envelope_key (aud_original_envelope r), Some (AuditOutcome_str (aud_outcome r)), aud_reason r).

Lemma entries_view k records seq l :
  (∀ e e', e ∈ timeline_envelopes records → e' ∈ timeline_envelopes records →
     envelope_key e = envelope_key e' → env_event_id e = env_event_id e') →
  (∀ e, e ∈ l → e ∈ timeline_envelopes records) →
  ∃ rs, map aud_original_envelope rs = l ∧
    (∀ r, r ∈ rs → last_of record_event (record_event r) records = Some r) ∧
    map entry_view (map (timeline_entry records)
      (enumerate_steps k (timeline_envelopes records) seq l)) = map record_view rs.
Proof.
  intros Hkeys. revert seq. induction l as [|e l IH]; intros seq Hl; [exists []; set_solver|].
  destruct (IH (seq + 1) ltac:(set_solver)) as (rs & Hm & Hin & Hv).
  destruct (timeline_entry_latest k records Hkeys seq e ltac:(set_solver))
    as (r & Hr & He & Ho & Hre).
  exists (r :: rs). split; [cbn; by rewrite He, Hm|]. split.
  - intros r' [->|Hr']%elem_of_cons; [|by apply Hin]. unfold record_event. by rewrite He.
  - cbn [enumerate_steps map]. rewrite Hv. f_equal. unfold entry_view, record_view.
    by rewrite Ho, Hre, He.
Qed.

(** Every event of the timeline is an event of the case. *)
Lemma timeline_relevant k records :
  relevant k (timeline_envelopes (query_by_correlation k records)) =
  timeline_envelopes (query_by_correlation k records).
Proof.
  unfold relevant. apply filter_all. intros e (r & Hr & <-)%timeline_elem.
  apply last_of_some in Hr as [Hin _]. unfold query_by_correlation in Hin.
  by apply elem_of_filter_bool in Hin as [_ Hin].
Qed.

(** C26 (functional): the timeline of a case.  When two events never share type,
    time, agent and cause, the timeline read from the case's audit records shows
    every audited event exactly once, numbered from 1, with the outcome and the
    reason of its latest record; and it is empty only without records. *)
Theorem timeline_shows_latest k records v :
  build_timeline k (Ok records) = Some v →
  let case := query_by_correlation k records in
  (∀ e e', e ∈ timeline_envelopes case → e' ∈ timeline_envelopes case →
     envelope_key e = envelope_key e' → env_event_id e = env_event_id e') →
  tv_found v = negb (bool_decide (case = [])) ∧
  map tl_seq (tv_entries v) = seqZ 1 (Z.of_nat (length (tv_entries v))) ∧
  ∃ rs, map entry_view (tv_entries v) = map record_view rs ∧
    NoDup (map record_event rs) ∧
    (∀ u, u ∈ map record_event rs ↔ u ∈ map record_event case) ∧
    (∀ r, r ∈ rs → last_of record_event (record_event r) case = Some r).
Proof.
  intros Hb case Hkeys. unfold build_timeline, build_timeline_from_records in Hb. fold case in Hb.
  destruct (decide (case = [])) as [Hc|Hc].
  { rewrite Hc in Hb |- *. injection Hb as <-. cbn. do 2 (split; [done|]). exists [].
    split; [done|]. split; [constructor|]. split; [done|]. by intros r ?%not_elem_of_nil. }
  assert (Hb' : (steps ← trace_case k (timeline_envelopes case);
            Some {| tv_correlation_id := k; tv_entries := map (timeline_entry case) steps;
                    tv_found := true |}) = Some v) by (by destruct case).
  clear Hb. unfold trace_case in Hb'.
  pose proof (trace_order_perm k (timeline_envelopes case)) as Hperm.
  pose proof (timeline_relevant k records) as Hrel. fold case in Hrel. rewrite Hrel in Hperm.
  destruct (trace_order k (timeline_envelopes case)) as [l|]; [|done].
  specialize (Hperm l). rewrite timeline_ids in Hperm.
  specialize (Hperm (items_fold_nodup _ _ _) eq_refl). injection Hb' as <-.
  cbn [tv_found tv_entries]. rewrite bool_decide_eq_false_2 by done. split; [done|]. split.
  { rewrite length_map, enumerate_steps_length, map_map. apply enumerate_steps_seq. }
  destruct (entries_view k case 1 l Hkeys) as (rs & Hm & Hlast & Hv).
  { intros e. by rewrite Hperm. }
  assert (Hids : map record_event rs = map env_event_id l).
  { rewrite <- Hm, map_map. done. }
  exists rs. split; [exact Hv|]. rewrite Hids, Hperm, timeline_ids. split_and!; [|intros u|exact Hlast].
  - apply items_fold_nodup.
  - rewrite Hperm. split.
    + intros (e & -> & (r & Hr & <-)%timeline_elem)%list_elem_of_fmap_1.
      apply last_of_some in Hr as [Hin _]. by apply (list_elem_of_fmap_2 record_event).
    + intros Hu. apply last_of_is_some in Hu as [r Hr].
      destruct (last_of_some _ _ _ _ Hr) as [_ <-].
      apply (list_elem_of_fmap_2' env_event_id _ (aud_original_envelope r)); [|done].
      apply timeline_elem. by exists r.
Qed.

(** ** The stream *)

Definition first_of (u : UUID) (records : list AuditRecord) : option AuditRecord :=
  List.find (λ r, record_event r =? u) records.

Lemma elem_of_first_seen s seen records :
  s ∈ first_seen seen records ↔
  ∃ r, first_of (record_event r) records = Some r ∧ record_event r ∉ seen ∧ s = stream_event r.
Proof.
  revert seen. induction records as [|r records IH]; intros seen; cbn [first_seen].
  { split; [by intros ?%not_elem_of_nil|by intros (? & ? & _)]. }
  assert (Hcons : ∀ u, first_of u (r :: records) =
                       if decide (record_event r = u) then Some r else first_of u records).
  { intros u. unfold first_of. cbn. destruct (Z.eqb_spec (record_event r) u); by case_decide. }
  case_decide as Hr; rewrite ?elem_of_cons, IH; setoid_rewrite Hcons; split.
  - intros (r' & Hf & Hn & ->). exists r'. rewrite decide_False by congruence. done.
  - intros (r' & Hf & Hn & ->). exists r'. rewrite decide_False in Hf by congruence. done.
  - intros [->|(r' & Hf & Hn & ->)]; [exists r; by rewrite decide_True|].
    exists r'. rewrite decide_False by set_solver. set_solver.
  - intros (r' & Hf & Hn & ->). case_decide as He; [left; congruence|right].
    exists r'. split; [done|]. split; [set_solver|done].
Qed.

Lemma first_seen_ids seen records u :
  u ∈ map se_event_id (first_seen seen records) → u ∉ seen.
Proof. by intros (s & -> & (r & _ & Hn & ->)%elem_of_first_seen)%list_elem_of_fmap_1. Qed.

Lemma first_seen_nodup seen records : NoDup (map se_event_id (first_seen seen records)).
Proof.
  revert seen. induction records as [|r records IH]; intros seen; cbn [first_seen]; [constructor|].
  case_decide; [done|]. cbn. constructor; [|done]. intros Hin%first_seen_ids. set_solver.
Qed.

Lemma sorted_filter {A} (R : A → A → Prop) (f : A → bool) l :
  StronglySorted R l → StronglySorted R (List.filter f l).
Proof.
  induction 1 as [|x l Hs IH Hall]; cbn; [constructor|]. destruct (f x); [|done].
  constructor; [done|]. rewrite list.Forall_forall in Hall |- *. intros y [Hy _]%elem_of_filter_bool.
  by apply Hall.
Qed.

Lemma sorted_impl {A} (R R' : A → A → Prop) l :
  (∀ x y, R x y → R' x y) → StronglySorted R l → StronglySorted R' l.
Proof.
  intros H. induction 1 as [|x l Hs IH Hall]; constructor; [done|].
  revert Hall. apply List.Forall_impl, H.
Qed.

Lemma nodup_map_filter {A B} (g : A → B) (f : A → bool) l :
  NoDup (map g l) → NoDup (map g (List.filter f l)).
Proof.
  induction l as [|x l IH]; cbn; [done|]. intros [Hx Hl]%list.NoDup_cons.
  destruct (f x); cbn; [|by apply IH]. constructor; [|by apply IH].
  intros (y & Hy & [Hin _]%elem_of_filter_bool)%list_elem_of_fmap_1. apply Hx.
  by apply (list_elem_of_fmap_2' g _ y).
Qed.

(** The filters as one boolean. *)
Definition text_passes (filter : option string) (s : string) : bool :=
  match filter with Some f => negb (str_truthy f) || String.eqb s f | None => true end.

Definition passes (agent event_type : option string) (case : option UUID) (s : StreamEvent) : bool :=
  text_passes agent (se_agent_id s) && text_passes event_type (se_event_type s) &&
  match case with Some u => se_correlation_id s =? u | None => true end.

Lemma text_filter_bool filter field l :
  text_filter filter field l = List.filter (λ s, text_passes filter (field s)) l.
Proof.
  unfold text_filter, text_passes. destruct filter as [f|]; [|by rewrite filter_all].
  destruct (str_truthy f); [done|by rewrite filter_all].
Qed.

Lemma filter_filter {A} (f g : A → bool) l :
  List.filter f (List.filter g l) = List.filter (λ x, g x && f x) l.
Proof.
  induction l as [|x l IH]; cbn; [done|]. destruct (g x); cbn; [|done].
  destruct (f x); by rewrite IH.
Qed.

Lemma stream_events records agent event_type case :
  sv_events (build_stream_from_records records agent event_type case) =
  List.filter (passes agent event_type case)
    (sort_by (λ e, - se_timestamp e) (first_seen ∅ records)).
Proof.
  cbn [sv_events build_stream_from_records]. rewrite !text_filter_bool.
  unfold correlation_filter. destruct case as [u|]; rewrite ?filter_filter; apply filter_ext;
    intros s; unfold passes; by destruct (text_passes agent _), (text_passes event_type _);
      rewrite ?andb_true_r.
Qed.

(** Remark (functional): the live stream.  Over the records read, the stream shows,
    newest first, exactly the events whose first record passes every filter set,
    each once and with the outcome of that first record; clearing the filters
    shows them all, and a failed read shows none. *)
Theorem stream_shows_first read agent event_type case :
  let records := match read with Ok records => records | Err _ => [] end in
  let events := sv_events (build_stream read agent event_type case) in
  NoDup (map se_event_id events) ∧
  StronglySorted (λ a b, se_timestamp b <= se_timestamp a) events ∧
  ∀ s, s ∈ events ↔
    passes agent event_type case s = true ∧
    ∃ r, r ∈ records ∧ first_of (record_event r) records = Some r ∧ s = stream_event r.
Proof.
  cbv zeta. unfold build_stream. set (records := match read with Ok _ => _ | Err _ => _ end).
  rewrite stream_events. split; [|split].
  - apply nodup_map_filter. rewrite sort_by_perm. apply first_seen_nodup.
  - apply sorted_filter. pose proof (sort_by_sorted (λ e, - se_timestamp e) (first_seen ∅ records)).
    eapply sorted_impl; [|done]. cbn. lia.
  - intros s. rewrite elem_of_filter_bool, sort_by_perm, elem_of_first_seen. split.
    + intros [(r & Hf & _ & ->) Hp]. split; [done|]. exists r. split_and!; [|done..].
      apply find_some in Hf as [Hin _]. by apply list_elem_of_In.
    + intros [Hp (r & _ & Hf & ->)]. split; [|done]. exists r. split_and!; [done|set_solver|done].
Qed.

(** ** The roster *)

Lemma last_of_none {K A} `{Countable K} (f : A → K) u l : last_of f u l = None → u ∉ map f l.
Proof. intros Hn Hin%last_of_is_some. rewrite Hn in Hin. by destruct Hin. Qed.

(** A dictionary filled under a condition on the key. *)
Lemma lookup_fold_insert_if {K A V} `{Countable K} (f : A → K) (g : A → V) (p : K → bool) l u :
  p u = true →
  fold_left (λ m r, if p (f r) then <[f r := g r]> m else m) l (∅ : gmap K V) !! u =
  g <$> last_of f u l.
Proof.
  intros Hp. induction l as [|r l IH] using rev_ind; [done|].
  rewrite fold_left_app, last_of_snoc. cbn [fold_left].
  destruct (decide (f r = u)) as [<-|Hne]; [by rewrite Hp, lookup_insert_eq|].
  destruct (p (f r)); [by rewrite lookup_insert_ne|done].
Qed.

(** Remark (functional): the roster.  It has one entry per expected agent, in order,
    whatever was read: an agent without a card is there as not announced, any
    other one under its latest card; and it is live exactly when its endpoint
    answers the ping. *)
Theorem roster_complete ping endpoints read :
  let cards := match read with Ok r => r.1 | Err _ => [] end in
  let roster := build_roster ping endpoints read in
  map re_agent_id roster = EXPECTED_AGENT_IDS ∧
  ∀ entry, entry ∈ roster →
    match last_of card_agent_id (re_agent_id entry) cards with
    | None => entry = missing_entry (re_agent_id entry)
    | Some c =>
        re_announced entry = true ∧ re_name entry = Some (card_name c) ∧
        re_capabilities entry = card_capabilities c ∧
        re_endpoint_topic entry = Some (card_endpoint_topic c) ∧
        re_liveness entry =
          match last_of fst (re_agent_id entry) endpoints with
          | Some ep => _probe_liveness ping ep.2
          | None => unknown
          end
    end.
Proof.
  cbv zeta. unfold build_roster.
  set (cards := match read with Ok r => r.1 | Err _ => [] end).
  replace (match read with Ok r => r | Err _ => ([], ∅) end)
    with (cards, match read with Ok r => r.2 | Err _ => ∅ end) by (by destruct read as [[]|]).
  set (times := match read with Ok r => r.2 | Err _ => ∅ end).
  set (alive := fold_left _ endpoints ∅).
  assert (Hid : ∀ id, re_agent_id (roster_entry times alive (latest_cards cards) id) = id).
  { intros id. unfold roster_entry, latest_cards. rewrite lookup_fold_insert.
    destruct (last_of card_agent_id id cards) as [c|] eqn:E; cbn; [|done].
    by apply last_of_some in E as [_ E]. }
  split.
  { unfold build_roster_entries. rewrite map_map. etrans; [|apply map_id]. by apply map_ext. }
  intros entry (id & -> & _)%list_elem_of_fmap_1. rewrite Hid.
  unfold roster_entry, latest_cards. rewrite lookup_fold_insert.
  destruct (last_of card_agent_id id cards) as [c|] eqn:E; cbn; [|done].
  split_and!; try done. apply last_of_some in E as [Hin <-].
  assert (Hin' : str_in (card_agent_id c) (map card_agent_id cards) = true)
    by (apply str_in_spec; by apply list_elem_of_fmap_2).
  assert (Hl : alive !! card_agent_id c =
               (λ ep, _probe_liveness ping ep.2) <$> last_of fst (card_agent_id c) endpoints)
    by exact (lookup_fold_insert_if fst _ (λ id, str_in id (map card_agent_id cards)) endpoints
                (card_agent_id c) Hin').
  rewrite Hl. by destruct (last_of fst (card_agent_id c) endpoints).
Qed.

(** ** The trigger *)

Section Trigger.
Context `{Uuids} (env : Environment).

Lemma run_id_or_minted given prefix w :
  ∃ id w', run env (id_or_minted given prefix) w = (Ok id, w') ∧ extends w w' [].
Proof.
  unfold id_or_minted. destruct given as [s|]; [destruct (str_truthy s)|];
    cbn [run bind fresh_uuid]; (eexists _, _; split; [reflexivity|]); constructor; cbn;
    by rewrite ?app_nil_r.
Qed.

(** Remark (safety): the trigger is the interface's only write, and a bounded one:
    whatever the operator enters, when the broker acknowledges it adds exactly one
    record, a root event of type [support.ticket.created] carrying a ticket with
    the operator's amount, currency and reason, and returns that event's ids. *)
Theorem trigger_publishes_one_root r w :
  acks env →
  ∃ e t w', run env (publish_demo_ticket r) w =
      (Ok (env_correlation_id e, env_event_id e, TICKET_CREATED), w') ∧
    extends w w' [(TICKET_CREATED, e)] ∧
    env_event_type e = TICKET_CREATED ∧ env_causation_id e = None ∧
    env_agent_id e = id_agent_id _DEMO_IDENTITY ∧ env_payload e = P_Ticket t ∧
    stc_amount t = dt_amount r ∧ stc_currency t = dt_currency r ∧ stc_reason t = dt_reason r.
Proof.
  intros Ha. unfold publish_demo_ticket, to_payload.
  rewrite run_bind, run_bind.
  destruct (run_id_or_minted (dt_ticket_id r) "TKT-" w) as (ticket & w1 & -> & H1).
  rewrite run_bind.
  destruct (run_id_or_minted (dt_customer_id r) "CUST-" w1) as (customer & w2 & -> & H2).
  rewrite run_bind. cbn [run now reads]. rewrite run_bind. cbn [run fresh_uuid].
  rewrite run_bind, (run_publish_valid _ _ _ _ _ _ None _ M_Ticket TICKET_CREATED)
    by (done || (vm_compute; reflexivity)).
  eexists _, _, _. split; [reflexivity|]. split; [|split_and!; reflexivity].
  constructor; cbn; rewrite ?(ext_store _ _ _ H2), ?(ext_now _ _ _ H2), ?(ext_log _ _ _ H2),
    ?(ext_store _ _ _ H1), ?(ext_now _ _ _ H1), ?(ext_log _ _ _ H1), ?app_nil_r; done.
Qed.
End Trigger.

(** ** Two requests in the same microsecond *)

Section Twins.

(** The two task requests of a delegation share type, agent and cause; here they
    also share the clock reading.  One was rejected, the other completed. *)
Definition twin_request (id task : UUID) : EventEnvelope := {|
  env_event_id := id; env_correlation_id := 5; env_causation_id := Some 100;
  env_agent_id := "customer-resolution-agent"; env_tenant_id := "poc"; env_timestamp := 7;
  env_event_type := "agent.task_request.v1"; env_schema_version := "1.0.0";
  env_payload := P_Other (VDict [("task_id", VStr (uuid_str task))]) |}.

Definition twin_record (id task : UUID) (o : AuditOutcome) (reason : option string) : AuditRecord := {|
  aud_original_envelope := twin_request id task; aud_outcome := o; aud_reason := reason;
  aud_recorded_at := 8; aud_task_id := Some task |}.

Definition twin_records : list AuditRecord :=
  [twin_record 1 51 aud_rejected (Some "wrong_target"); twin_record 2 52 aud_completed None].

(** Remark (error): the timeline identifies a step by type, time, agent and cause: when
    the two requests of a delegation share a clock reading, both rows show the
    audit of the second, and the rejection of the first is not shown. *)
Theorem timeline_confuses_twins :
  (λ v, map (λ t, (tl_task_id t, tl_outcome t, tl_reason t)) (tv_entries v)) <$>
    build_timeline 5 (Ok twin_records) =
  Some [(Some 51, Some "completed", None); (Some 52, Some "completed", None)].
Proof. vm_compute. reflexivity. Qed.
End Twins.
