(* ===== verification/Pages.v ===== *)
(** * The demo UI's pages

    [apps/demo_ui/app.py], [views/*.py] and [reasoning_summary.py], the display rows of the
    reasoning audit records: what a run of each page shows, as a list of
    widgets, and what it does to the query parameters of the URL.  Streamlit itself is not
    modelled: a page is a function of what was read (through the cache of [PollCache]), of
    the values of its input widgets and of the parameters. *)

From Stdlib Require Import ZArith Bool Ascii String List Lia.
From stdpp Require Import base list strings gmap sets sorting.
From S2P Require Import Prelude.
From S2P Require Import PyFloat.
From S2P Require Import Contracts.
From S2P Require Import Uuid.
From S2P Require Import A2A.
From S2P Require Import Envelope.
From S2P Require Import LlmConfig.
From S2P Require Import LlmTools.
From S2P Require Import Redaction.
From S2P Require Import Async.
From S2P Require Import Execution.
From S2P Require Import Runtime.
From S2P Require Import Trace.
From S2P Require Import Views.
From S2P Require Import ViewFacts.

Open Scope string_scope.
Open Scope list_scope.
Open Scope Z_scope.

#[local] Set Default Proof Using "Type".

(** ** The reasoning steps of the case view

    A record is the dict found in an envelope's payload. *)

(** ["—"] *)
Definition dash : string := "—".

(** One [key=value] of a compact summary; a long value is cut. *)
Definition compact_pair (kv : string * pyval) : string :=
  let sv := py_str (snd kv) in
  fst kv +:+ "=" +:+ (if (60 <? py_len sv)%nat then py_take 57 sv +:+ "..." else sv).

(** [_compact_summary] *)
Definition _compact_summary (summary : pyval) : string :=
  match summary with
  | VStr s => py_take 200 s
  | VDict d =>
      match items_get "text" d with
      | Some text => py_take 200 (py_str text)
      | None =>
          match d with
          | [] => dash
          | _ => py_join ", " (map compact_pair (take 4 d))
          end
      end
  | v => py_take 200 (py_str v)
  end.

(** [format_usage] *)
Definition format_usage (usage : pyval) : result string :=
  if negb (py_truthy usage) then Ok dash
  else
    input_t ← py_get usage "input_tokens" VNone;
    output_t ← py_get usage "output_tokens" VNone;
    cache_read ← py_get usage "cache_read_tokens" VNone;
    let given label v := match v with VNone => [] | _ => [label +:+ py_str v] end in
    let parts := given "in:" input_t ++ given "out:" output_t ++
                 (if py_truthy cache_read then ["cache:" +:+ py_str cache_read] else []) in
    Ok (match parts with [] => dash | _ => py_join " " parts end).

(** [format_reasoning_step] *)
Definition format_reasoning_step (record : items) : result items :=
  let get key dflt := default dflt (items_get key record) in
  let model_id := get "model_id" VNone in
  let failure_reason := get "failure_reason" VNone in
  let summary_text := redact_text (_compact_summary (get "result_summary" (VDict []))) in
  usage_display ← format_usage (get "token_usage" VNone);
  Ok ([ ("agent", get "agent_id" (VStr "unknown")); ("task", get "task_kind" (VStr "unknown"));
        ("path", get "reasoning_path" (VStr "--")); ("outcome", get "outcome" (VStr "--"));
        ("model", if py_truthy model_id then model_id else VStr "stub");
        ("latency_ms", get "latency_ms" (VInt 0));
        ("cache", VStr (if py_truthy (get "cache_hit" (VBool false)) then "yes" else "no"));
        ("tokens", VStr usage_display); ("summary", VStr summary_text) ] ++
      if py_truthy failure_reason then [("failure", VStr (py_str failure_reason))] else []).

(** ** What a row shows *)

(** Remark (safety): the summary of a row is redacted.  Whatever the record holds, even one
    written without redaction, the row's summary has no free-standing number of eight
    digits or more; and a row is made of the record's other fields alone: two records that
    differ in nothing but their prompts and grounding have the same row. *)
Theorem row_summary_redacted record row :
  format_reasoning_step record = Ok row →
  (∃ s, items_get "summary" row = Some (VStr s) ∧ no_long_number s) ∧
  ∀ other, (∀ key, key ∈ ["agent_id"; "task_kind"; "reasoning_path"; "outcome"; "latency_ms"; "model_id";
                          "cache_hit"; "failure_reason"; "result_summary"; "token_usage"] →
            items_get key other = items_get key record) →
    format_reasoning_step other = Ok row.
Proof.
  intros Hrow. split.
  - revert Hrow. unfold format_reasoning_step. destruct (format_usage _) as [u|]; [|done].
    cbn [mbind result_bind]. intros [= <-]. eexists. split; [reflexivity|]. apply redact_text_free.
  - intros other Hsame. rewrite <- Hrow. unfold format_reasoning_step. by rewrite !Hsame by set_solver.
Qed.

Example row_example :
  format_usage (VDict [("input_tokens", VInt 12); ("output_tokens", VInt 0); ("cache_read_tokens", VInt 0)]) =
  Ok "in:12 out:0".
Proof. vm_compute. reflexivity. Qed.

(** ** What a page shows *)

#[local] Open Scope prog_scope.


(** What a page shows. *)
Inductive Widget :=
| Header (text : string)
| Subheader (text : string)
| Caption (text : string)
| Markdown (text : string)
| Info (text : string)
| Warn (text : string)
| Alert (text : string)
| Success (text : string)
| Code (text : string)
| Dataframe (rows : list items)
| Expander (label : string) (body : list Widget)
| Button (label key : string).

(** [st.query_params] *)
Abbreviation Params := (gmap string string).

(** [text or "—"] *)
Definition or_dash (text : option string) : string :=
  match text with Some s => str_or s dash | None => dash end.

(** ** The case timeline *)

Definition _FAILURE_OUTCOMES : list string := ["failed"; "rejected"].
Definition _REASONING_EVENT_TYPE : string := "agent.llm.reasoning.v1".

(** [e.outcome in _FAILURE_OUTCOMES] *)
Definition is_failed_step (e : TimelineEntry) : bool :=
  match tl_outcome e with Some o => str_in o _FAILURE_OUTCOMES | None => false end.

(** The record built for one reasoning step. *)
Definition reasoning_record (e : TimelineEntry) : items :=
  [ ("agent_id", VStr (tl_actor e));
    ("task_kind", VStr (str_or (default "" (tl_outcome e)) "unknown"));
    ("reasoning_path", VStr dash); ("outcome", VStr (or_dash (tl_outcome e)));
    ("latency_ms", VInt 0); ("model_id", VStr dash); ("cache_hit", VBool false);
    ("token_usage", VNone); ("result_summary", VDict []) ].

Definition _extract_reasoning_records (view : TimelineView) : list items :=
  if negb (tv_found view) then []
  else map reasoning_record
         (List.filter (λ e, String.eqb (tl_event_type e) _REASONING_EVENT_TYPE) (tv_entries view)).

Definition timeline_row (e : TimelineEntry) : items :=
  [ ("#", VInt (tl_seq e)); ("actor", VStr (tl_actor e));
    ("event", VStr (tl_event_type e +:+
                    (if tl_is_orphan e then "  orphan (parent not found)" else "")));
    ("outcome", VStr (or_dash (tl_outcome e)));
    ("reason", if is_failed_step e
               then match tl_reason e with Some r => VStr r | None => VNone end else VStr "");
    ("timestamp", VStr (isoformat (tl_timestamp e)));
    ("caused_by", VStr (match tl_caused_by e with Some u => uuid_str u | None => dash end)) ].

Definition failure_line (e : TimelineEntry) : Widget :=
  Alert ("Step " +:+ str_of_Z (tl_seq e) +:+ " `" +:+ tl_event_type e +:+ "` " +:+
         default "None" (tl_outcome e) +:+ ": " +:+
         str_or (default "" (tl_reason e)) "(no reason given)").

Definition _render_timeline (view : TimelineView) : result (list Widget) :=
  if negb (tv_found view) || match tv_entries view with [] => true | _ => false end
  then Ok [Info "No events found for this case yet."]
  else
    let table := Dataframe (map timeline_row (tv_entries view)) in
    let failures := map failure_line (List.filter is_failed_step (tv_entries view)) in
    match _extract_reasoning_records view with
    | [] => Ok (table :: failures)
    | records =>
        reasoning_rows ← mapM format_reasoning_step records;
        Ok (table :: failures ++
            [Expander ("LLM reasoning steps (" +:+ str_of_Z (Z.of_nat (length records)) +:+ ")")
               [Caption ("Assistive LLM summaries only -- binding decisions come from " +:+
                         "deterministic engines. PII is redacted before display.");
                Dataframe reasoning_rows]])
    end.

(** [UUID(raw.strip())], when something is typed: the warning, and the case resolved. *)
Definition resolve_case (raw : string) : list Widget * option UUID :=
  if str_truthy (py_strip raw)
  then match parse_uuid (py_strip raw) with
       | Ok u => ([], Some u)
       | Err _ => ([Warn "That is not a valid UUID."], None)
       end
  else ([], None).

(** [case_view.render]: [typed] is the text of the input, if the operator changed it, and
    [timeline] the cached read of a case. *)
Definition case_page (timeline : UUID → TimelineView) (correlation_id : option UUID)
    (typed : option string) (params : Params) : result (list Widget) * Params :=
  let raw := default (match correlation_id with Some u => uuid_str u | None => "" end) typed in
  let '(warnings, resolved) := resolve_case raw in
  match resolved with
  | None =>
      (Ok (Header "Case timeline" :: warnings ++
           [Info "Enter a correlation id (or open a case from the audit stream) to trace it."]), params)
  | Some u =>
      let params := if bool_decide (params !! "case" = Some (uuid_str u)) then params
                    else <["case" := uuid_str u]> params in
      ((body ← _render_timeline (timeline u);
        Ok ([Header "Case timeline";
             Caption ("Causal order (matches `trace_case` CLI) for `" +:+ uuid_str u +:+ "`")] ++ body)),
       params)
  end.

(** ** The audit stream *)

(** The line of one event, and its button. *)
Definition stream_line (e : StreamEvent) : list Widget :=
  [ Markdown ("`" +:+ se_agent_id e +:+ "`"); Markdown ("`" +:+ se_event_type e +:+ "`");
    Markdown (or_dash (se_outcome e));
    Caption (isoformat (se_timestamp e) +:+ " · case `" +:+
             py_take 8 (uuid_str (se_correlation_id e)) +:+ "…`");
    Button "open" ("open-" +:+ uuid_str (se_event_id e)) ].

Definition _render_stream (view : StreamView) : list Widget :=
  match sv_events view with
  | [] => [Info "No audit events match the current filters."]
  | events => flat_map stream_line events
  end.

(** The click on the button of an event. *)
Definition open_case (u : UUID) (params : Params) : Params :=
  <["view" := "case"]> (<["case" := uuid_str u]> params).

(** [filter_case], when it is the text of a UUID. *)
Definition case_filter (filter_case : option string) : list Widget * option UUID :=
  match filter_case with
  | Some s =>
      if str_truthy s
      then match parse_uuid s with
           | Ok u => ([], Some u)
           | Err _ => ([Warn "Case filter is not a valid UUID — ignoring it."], None)
           end
      else ([], None)
  | None => ([], None)
  end.

(** [not filter or field == filter] *)
Definition matches (filter : option string) (field : string) : bool :=
  match filter with Some f => negb (str_truthy f) || String.eqb field f | None => true end.

(** [_live_stream]: the filters applied to the cached full stream. *)
Definition _live_stream (view : StreamView) (filter_agent filter_event_type filter_case : option string) :
    list Widget * StreamView :=
  let '(warnings, cid) := case_filter filter_case in
  let filtered := {|
    sv_events := List.filter (λ e,
      matches filter_agent (se_agent_id e) && matches filter_event_type (se_event_type e) &&
      match cid with Some u => Z.eqb (se_correlation_id e) u | None => true end) (sv_events view);
    sv_filter_agent := filter_agent; sv_filter_event_type := filter_event_type;
    sv_filter_correlation_id := cid |} in
  (warnings ++ _render_stream filtered, filtered).

(** [sorted({...})] *)
Definition sorted_set (l : list string) : list string := merge_sort String.le (remove_dups l).

Definition agent_options (view : StreamView) : list string :=
  "(all)" :: sorted_set (map se_agent_id (sv_events view)).
Definition type_options (view : StreamView) : list string :=
  "(all)" :: sorted_set (map se_event_type (sv_events view)).

(** The choice of a select box; none is ["(all)"]. *)
Definition chosen (choice : option string) : option string :=
  let c := match choice with Some s => str_or s "(all)" | None => "(all)" end in
  if String.eqb c "(all)" then None else Some c.

(** [filter_case.strip() or None] *)
Definition stripped_or_none (s : string) : option string :=
  if str_truthy (py_strip s) then Some (py_strip s) else None.

Definition stream_page (view : StreamView) (agent type : option string) (case : string) :
    list Widget * StreamView :=
  let '(body, filtered) := _live_stream view (chosen agent) (chosen type) (stripped_or_none case) in
  ([Header "Live audit stream";
    Caption "Every audited event across all cases, newest first, deduped by event id."] ++ body, filtered).

(** ** The roster *)

Definition _LIVENESS_BADGE (l : Liveness) : string :=
  match l with live => "🟢 live" | unknown => "⚪ unknown" | not_announced => "⚫ not announced" end.

(** [if text: widget] *)
Definition when_text (text : option string) (w : string → Widget) : list Widget :=
  match text with Some s => if str_truthy s then [w s] else [] | None => [] end.

Definition capability_line (c : Capability) : Widget :=
  Markdown ("- **" +:+ cap_name c +:+ "** (`" +:+ cap_id c +:+ "`) — " +:+ cap_description c +:+ " " +:+
            py_join " " (map (λ t, "`" +:+ t +:+ "`") (cap_tags c))).

Definition _render_entry (e : RosterEntry) : list Widget :=
  [ Subheader (str_or (default "" (re_name e)) (re_agent_id e));
    Markdown ("`" +:+ re_agent_id e +:+ "`"); Markdown ("**version** " +:+ or_dash (re_version e));
    Markdown (_LIVENESS_BADGE (re_liveness e)) ] ++
  if negb (re_announced e)
  then [Info "Not announced yet — no Agent Card on the discovery topic."]
  else when_text (re_description e) Markdown ++
       when_text (re_endpoint_topic e) (λ t, Markdown ("**Accepts work on** `" +:+ t +:+ "`")) ++
       match re_last_announced e with
       | Some t => [Caption ("Last announced: " +:+ isoformat t)]
       | None => []
       end ++
       match re_capabilities e with
       | [] => []
       | caps => Markdown "**Capabilities**" :: map capability_line caps
       end.

Definition roster_page (entries : list RosterEntry) : list Widget :=
  [Header "Agent roster & capabilities";
   Caption "The three peer agents as they advertise themselves over the discovery topic."] ++
  (if existsb re_announced entries then [] else [Warn "Waiting for agents to announce their cards…"]) ++
  flat_map _render_entry entries.

(** ** The demo trigger *)

(** The labels of the scenarios and the fields each one presets. *)
Definition _SCENARIOS : list (string * list (string * string)) := [
  ("Custom (random ids — short-circuits before rules engine)", []);
  ("Approve — in window, paid, light usage",
   [("ticket_id", "PR-APPROVE"); ("customer_id", "CUS-APPROVE")]);
  ("Approve — borderline (exactly 30 days)",
   [("ticket_id", "PR-BORDERLINE"); ("customer_id", "CUS-BORDERLINE")]);
  ("Deny — outside 30-day window (RP-001)", [("ticket_id", "PR-WINDOW-EXPIRED")]);
  ("Deny — invoice not paid (RP-002)", [("ticket_id", "PR-UNPAID")]);
  ("Deny — already fully refunded (RP-002)", [("ticket_id", "PR-ALREADY-REFUNDED")]);
  ("Deny — heavy usage (RP-004)", [("ticket_id", "PR-HEAVY-USAGE")]);
  ("Manual review — contradiction gate", [("ticket_id", "PR-CONTRADICTION")]) ].

(** The values of the form's fields. *)
Record TriggerForm := {
  tf_amount : float;
  tf_currency : string;
  tf_reason : string;
  tf_ticket_id : string;
  tf_customer_id : string;
}.

(** The form as it opens on a scenario. *)
Definition default_form (preset : list (string * string)) : TriggerForm := {|
  tf_amount := lit 2999 100; tf_currency := "USD";
  tf_reason := "Charged twice for monthly subscription";
  tf_ticket_id := default "" (items_get "ticket_id" preset);
  tf_customer_id := default "" (items_get "customer_id" preset) |}.

(** [s.upper()], on ASCII letters. *)
Definition upper_ascii (c : ascii) : ascii :=
  let n := N_of_ascii c in
  if (N.leb 97 n && N.leb n 122)%bool then ascii_of_N (n - 32) else c.

Fixpoint py_upper (s : string) : string :=
  match s with
  | EmptyString => EmptyString
  | String c s' => String (upper_ascii c) (py_upper s')
  end.

Definition form_request (f : TriggerForm) : result DemoTriggerRequest :=
  mk_trigger {|
    dt_amount := tf_amount f; dt_currency := py_upper (py_strip (tf_currency f));
    dt_reason := py_strip (tf_reason f); dt_ticket_id := stripped_or_none (tf_ticket_id f);
    dt_customer_id := stripped_or_none (tf_customer_id f) |}.

(** The submission of the form: what it shows, and the case of its button. *)
Definition submit_trigger `{Uuids} (f : TriggerForm) : prog (list Widget * option UUID) :=
  match form_request f with
  | Err exc => Ret ([Alert ("Invalid input: " +:+ exn_str exc)], None)
  | Ok req =>
      catch
        (let! published := publish_demo_ticket req in
         let '(correlation_id, event_id, event_type) := published in
         Ret ([Success "Published one root ticket event.";
               Code ("correlation_id = " +:+ uuid_str correlation_id +:+ newline +:+
                     "event_id       = " +:+ uuid_str event_id +:+ newline +:+
                     "event_type     = " +:+ event_type);
               Button "Open this case's timeline" ""], Some correlation_id))
        (λ exc, Ret ([Alert ("Could not publish to the broker: " +:+ exn_str exc)], None))
  end.

(** ** The shell *)

Definition _NAV : list (string * string) :=
  [("Roster", "roster"); ("Case timeline", "case"); ("Audit stream", "stream"); ("Demo trigger", "trigger")].

Definition _selected_view (params : Params) : string :=
  match params !! "case" with
  | Some c => if str_truthy c then "case"
              else default "roster" (v ← params !! "view"; if str_in v _NAV.*2 then Some v else None)
  | None => default "roster" (v ← params !! "view"; if str_in v _NAV.*2 then Some v else None)
  end.

(** [main], up to the page: the target chosen in the sidebar goes into the URL. *)
Definition sync_url (target : string) (params : Params) : Params :=
  if negb (String.eqb target "case") && negb (bool_decide (params !! "view" = Some target))
  then delete "case" (<["view" := target]> params)
  else params.

(** The case of the URL: a warning when it is no UUID. *)
Definition case_of_url (params : Params) : list Widget * option UUID :=
  match params !! "case" with
  | Some s =>
      if str_truthy s
      then match parse_uuid s with
           | Ok u => ([], Some u)
           | Err _ => ([Warn ("`" +:+ s +:+ "` is not a valid correlation id.")], None)
           end
      else ([], None)
  | None => ([], None)
  end.

(** ** What the pages show *)

(** A reasoning step shows its agent and its outcome; everything else is a placeholder. *)
Definition placeholder_row (e : TimelineEntry) : items :=
  [ ("agent", VStr (tl_actor e)); ("task", VStr (str_or (default "" (tl_outcome e)) "unknown"));
    ("path", VStr dash); ("outcome", VStr (or_dash (tl_outcome e))); ("model", VStr dash);
    ("latency_ms", VInt 0); ("cache", VStr "no"); ("tokens", VStr dash); ("summary", VStr dash) ].

Lemma reasoning_row e : format_reasoning_step (reasoning_record e) = Ok (placeholder_row e).
Proof. reflexivity. Qed.

(** The steps of a view that are reasoning steps. *)
Definition reasoning_steps (view : TimelineView) : list TimelineEntry :=
  List.filter (λ e, String.eqb (tl_event_type e) _REASONING_EVENT_TYPE) (tv_entries view).

Lemma reasoning_rows entries :
  mapM format_reasoning_step (map reasoning_record entries) = Ok (map placeholder_row entries).
Proof.
  induction entries as [|e entries IH]; [reflexivity|].
  cbn [map mapM mbind result_bind]. rewrite reasoning_row. cbn [mbind result_bind]. by rewrite IH.
Qed.

(** Remark (error): the case page never fails, and its failed and rejected steps are all
    reported; its reasoning steps, which are meant to show redacted summaries of the LLM's
    reasoning, show nothing of the records: the path, the model, the tokens and the summary
    are the dash and the latency is zero, whatever the step. *)
Theorem reasoning_summaries_are_blank view :
  tv_found view = true → tv_entries view ≠ [] →
  ∃ rest, _render_timeline view =
    Ok (Dataframe (map timeline_row (tv_entries view)) ::
        map failure_line (List.filter is_failed_step (tv_entries view)) ++ rest) ∧
    (rest = [] ↔ reasoning_steps view = []) ∧
    ∀ w, w ∈ rest → ∃ label caption, w = Expander label [caption; Dataframe (map placeholder_row (reasoning_steps view))].
Proof.
  intros Hf He. unfold _render_timeline. rewrite Hf.
  destruct (tv_entries view) as [|e0 es] eqn:Ees; [done|]. cbn [negb orb].
  unfold _extract_reasoning_records. rewrite Hf. cbn [negb]. unfold reasoning_steps. rewrite Ees.
  set (rs := List.filter (λ e, String.eqb (tl_event_type e) _REASONING_EVENT_TYPE) (e0 :: es)).
  pose proof (reasoning_rows rs) as Hrows.
  destruct rs as [|r rs]; cbn [map] in *.
  - exists []. rewrite app_nil_r. split; [done|]. split; [done|]. set_solver.
  - rewrite Hrows. cbn [mbind result_bind].
    eexists [_]. split; [reflexivity|]. split; [done|].
    intros w ->%list_elem_of_singleton. by eexists _, _.
Qed.

(** Remark (equivalence): the stream page reads the stream once, without filters, and
    filters it in memory; whatever the three filters, it shows what reading the topic with
    those filters would show, an unreadable case filter standing for none. *)
Theorem page_filters_agree read agent event_type case :
  snd (_live_stream (build_stream read None None None) agent event_type case) =
  build_stream read agent event_type (snd (case_filter case)).
Proof.
  unfold _live_stream, build_stream. destruct (case_filter case) as [warnings cid]. cbn [snd].
  set (records := match read with Ok _ => _ | Err _ => _ end).
  rewrite stream_events.
  transitivity {| sv_events := sv_events (build_stream_from_records records agent event_type cid);
                  sv_filter_agent := agent; sv_filter_event_type := event_type;
                  sv_filter_correlation_id := cid |}; [|done].
  rewrite stream_events, filter_filter. done.
Qed.

Lemma uuid_str_truthy u : str_truthy (uuid_str u) = true.
Proof. reflexivity. Qed.

Lemma py_strip_class s : py_strip s = strip_class is_space s.
Proof.
  assert (Hr : ∀ s, py_rstrip s = rstrip_class is_space s).
  { clear. induction s as [|c s IH]; cbn; [done|]. rewrite IH. by destruct (rstrip_class is_space s). }
  assert (Hl : ∀ s, py_lstrip s = lstrip_class is_space s).
  { clear. induction s as [|c s IH]; cbn; [done|]. by rewrite IH. }
  unfold py_strip, strip_class. by rewrite Hr, Hl.
Qed.

Lemma uuid_str_stripped u : py_strip (uuid_str u) = uuid_str u.
Proof.
  rewrite py_strip_class. apply strip_none, uuid_text_chars; [|done].
  intros c. by destruct c as [[] [] [] [] [] [] [] []].
Qed.

(** Remark (roundtrip): the deep link.  The button of an event leads to the case page, on
    the case of that event; and leaving for another page of the sidebar removes the case
    from the URL, unless the URL already names that page. *)
Theorem deep_link_roundtrip u params :
  0 <= u < 2 ^ 128 →
  _selected_view (open_case u params) = "case" ∧ case_of_url (open_case u params) = ([], Some u) ∧
  ∀ target, target ∈ _NAV.*2 → target ≠ "case" →
    let params' := sync_url target (open_case u params) in
    _selected_view params' = target ∧ case_of_url params' = ([], None).
Proof.
  intros Hu. unfold open_case.
  assert (Hcase : (<["view":="case"]> (<["case":=uuid_str u]> params) : Params) !! "case" = Some (uuid_str u)).
  { by rewrite lookup_insert_ne, lookup_insert_eq. }
  pose proof (uuid_str_truthy u) as Ht.
  split_and!.
  - unfold _selected_view. by rewrite Hcase, Ht.
  - unfold case_of_url. by rewrite Hcase, Ht, parse_uuid_str.
  - intros target Hin Hne. unfold sync_url.
    destruct (String.eqb_spec target "case") as [->|_]; [done|].
    rewrite lookup_insert_eq, bool_decide_eq_false_2 by congruence. cbn [negb andb].
    unfold _selected_view, case_of_url. rewrite lookup_delete_eq. split; [|done].
    rewrite lookup_delete_ne, lookup_insert_eq by done. cbn [mbind option_bind].
    assert (Hs : str_in target _NAV.*2 = true) by by apply str_in_spec. by rewrite Hs.
Qed.

(** Remark (error): the sidebar and the URL can disagree.  From the roster, the operator
    opens the case page by the sidebar and types a case; going back to the roster leaves
    the case in the URL, which still leads to the case page. *)
Theorem sidebar_and_url_disagree timeline u :
  let at_roster : Params := {["view" := "roster"]} in
  let typed := snd (case_page timeline None (Some (uuid_str u)) (sync_url "case" at_roster)) in
  0 <= u < 2 ^ 128 →
  sync_url "roster" typed = typed ∧ _selected_view typed = "case".
Proof.
  intros at_roster typed Hu.
  assert (Ht : typed = <["case" := uuid_str u]> at_roster).
  { unfold typed, case_page, resolve_case. cbn [default id]. rewrite uuid_str_stripped, parse_uuid_str by done.
    rewrite uuid_str_truthy. change (sync_url "case" at_roster) with at_roster.
    assert (Hn : at_roster !! "case" = None) by reflexivity.
    by rewrite bool_decide_eq_false_2 by (rewrite Hn; congruence). }
  rewrite Ht. split.
  - unfold sync_url. rewrite lookup_insert_ne by done.
    by change (at_roster !! "view") with (Some "roster").
  - unfold _selected_view. by rewrite lookup_insert_eq.
Qed.
