(* ===== verification/DemoScenarios.v ===== *)
(** * What becomes of the demo's scenarios

    The presets of the demo trigger ([Pages._SCENARIOS]), submitted as the form opens them:
    the ticket published, what the billing agent's seeded purchases and the risk agent's
    seeded customers answer about it, and the ruling of the case. *)

From Stdlib Require Import ZArith Bool Ascii String List Lia.
From stdpp Require Import base list strings gmap.
From S2P Require Import Prelude.
From S2P Require Import PyFloat.
From S2P Require Import Contracts.
From S2P Require Import A2A.
From S2P Require Import RiskModels.
From S2P Require Import RiskStore.
From S2P Require Import RiskScoring.
From S2P Require Import RiskService.
From S2P Require Import RiskScoringFacts.
From S2P Require Import BillingModels.
From S2P Require Import BillingRules.
From S2P Require Import BillingStore.
From S2P Require Import BillingService.
From S2P Require Import BillingFacts.
From S2P Require Import Envelope.
From S2P Require Import CaseModels.
From S2P Require Import Classifier.
From S2P Require Import DecisionEngine.
From S2P Require Import DecisionFacts.
From S2P Require Import Normalize.
From S2P Require Import Async.
From S2P Require Import Handlers.
From S2P Require Import Execution.
From S2P Require Import DecisionBudget.
From S2P Require Import Choreography.
From S2P Require Import EndToEnd.
From S2P Require Import Intake.
From S2P Require Import Views.
From S2P Require Import Pages.

Open Scope string_scope.
Open Scope list_scope.
Open Scope Z_scope.
Open Scope prog_scope.

#[local] Set Default Proof Using "Type".

(** The risk agent's dataset is looked up, never computed, below. *)
#[local] Opaque load_signals default_store.

(** ** The owned data, looked up by any text *)

Lemma dict_display_keys {A} (rows : list (string * result A)) m k :
  dict_display rows = Ok m → k ∉ rows.*1 → m !! k = None.
Proof.
  revert m. induction rows as [|[k0 [v|e]] rows IH]; cbn [dict_display fmap list_fmap mbind result_bind];
    intros m Hm Hk.
  - injection Hm as <-. apply lookup_empty.
  - destruct (dict_display rows) as [m0|] eqn:E; [|done]. injection Hm as <-.
    apply not_elem_of_cons in Hk as [Hne Hk]. specialize (IH m0 eq_refl Hk).
    destruct (m0 !! k0); [done|]. by rewrite lookup_insert_ne.
  - done.
Qed.

Lemma store_of_rows (rows : list (string * result RiskSignals)) c :
  c ∉ rows.*1 →
  ims_records {| ims_records := match dict_display rows with Ok m => m | Err _ => ∅ end |} !! c = None.
Proof.
  intros Hc. cbn. destruct (dict_display rows) as [m|] eqn:E; [by eapply dict_display_keys|apply lookup_empty].
Qed.

Lemma load_signals_lookup c : load_signals c = ims_records default_store !! c.
Proof. reflexivity. Qed.

Lemma unknown_customer c : c ∉ dataset_rows.*1 → load_signals c = None.
Proof. intros Hc. rewrite load_signals_lookup. exact (store_of_rows dataset_rows c Hc). Qed.

Lemma unknown_purchase NOW ref c :
  ref ∉ seeded_refs → c ∉ ["CUS-APPROVE"; "CUS-BORDERLINE"] → load_facts NOW ref c = None.
Proof.
  intros Hr Hc. unfold load_facts, facts_dataset, _CUSTOMER_INDEX.
  rewrite (not_elem_of_list_to_map_1 _ ref), (not_elem_of_list_to_map_1 _ c); [done|done|].
  intros H. apply Hr. revert H. clear. unfold seeded_refs. cbn. set_solver.
Qed.

Lemma known_purchase NOW ref c f : load_facts NOW ref "" = Some f → load_facts NOW ref c = Some f.
Proof.
  unfold load_facts. destruct (facts_dataset NOW !! ref); [done|].
  by change (_CUSTOMER_INDEX !! "") with (None : option string).
Qed.

(** ** The ticket of a scenario *)

(** The ids of a scenario's ticket: its preset, else minted ones. *)
Definition ticket_of (preset : list (string * string)) (t : SupportTicketCreatedPayload) : Prop :=
  let ident key prefix id := match items_get key preset with
                             | Some i => id = i
                             | None => ∃ rest, id = prefix +:+ rest
                             end in
  ident "ticket_id" "TKT-" (stc_ticket_id t) ∧ ident "customer_id" "CUST-" (stc_customer_id t) ∧
  stc_amount t = lit 2999 100 ∧ stc_reason t = "Charged twice for monthly subscription".

Lemma run_minted_id `{Uuids} env given prefix w id w' :
  run env (id_or_minted given prefix) w = (Ok id, w') →
  match given with
  | Some s => if str_truthy s then id = s else ∃ rest, id = prefix +:+ rest
  | None => ∃ rest, id = prefix +:+ rest
  end.
Proof.
  unfold id_or_minted. destruct given as [s|]; [destruct (str_truthy s)|].
  1: { cbn. by intros [= <- _]. }
  all: rewrite run_bind; cbn -[hex8]; intros [= <- _]; by eexists.
Qed.

Lemma scenario_ticket `{Uuids} env label preset req w t w' :
  (label, preset) ∈ _SCENARIOS → form_request (default_form preset) = Ok req →
  run env (to_payload req) w = (Ok t, w') → ticket_of preset t.
Proof.
  intros Hin Hreq Hrun.
  assert (Hform : dt_amount req = lit 2999 100 ∧ dt_reason req = "Charged twice for monthly subscription" ∧
                  dt_ticket_id req = items_get "ticket_id" preset ∧
                  dt_customer_id req = items_get "customer_id" preset ∧
                  (∀ s, items_get "ticket_id" preset = Some s → str_truthy s = true) ∧
                  (∀ s, items_get "customer_id" preset = Some s → str_truthy s = true)).
  { apply list_elem_of_In in Hin. cbn in Hin.
    repeat (destruct Hin as [[= <- <-]|Hin]; [vm_compute in Hreq; injection Hreq as <-;
      split_and!; try reflexivity; intros s Hs; vm_compute in Hs; by simplify_eq|]). done. }
  destruct Hform as (Ha & Hr & Ht & Hc & Htt & Hct). unfold to_payload in Hrun.
  rewrite run_bind in Hrun. destruct (run env (id_or_minted (dt_ticket_id req) _) w) as [[tid|] w1] eqn:E1; [|done].
  rewrite run_bind in Hrun. destruct (run env (id_or_minted (dt_customer_id req) _) w1) as [[cid|] w2] eqn:E2; [|done].
  cbn in Hrun. injection Hrun as <- <-. apply run_minted_id in E1, E2.
  rewrite Ht in E1. rewrite Hc in E2. unfold ticket_of. cbn. split_and!; [| |done..].
  - destruct (items_get "ticket_id" preset) as [s|]; [by rewrite Htt in E1 by done|done].
  - destruct (items_get "customer_id" preset) as [s|]; [by rewrite Hct in E2 by done|done].
Qed.

(** ** What the billing agent recommends *)

(** The label of a scenario announces a recommendation, and its rule in parentheses. *)
Definition announced (label : string) : Recommendation :=
  if String.prefix "Approve" label then APPROVE_FULL_REFUND
  else if String.prefix "Deny" label then DENY_REFUND_
  else if String.prefix "Manual review" label then MANUAL_REVIEW_
  else REQUEST_MORE_INFO.

Definition announced_rules (label : string) : list string :=
  List.filter (λ r, py_contains ("(" +:+ r +:+ ")") label) rule_ids.

(** The recommendation and rules of an outcome of the seeded table. *)
Definition outcome_says (o : BillingGate * result (billing_verdict * Decimal)) (r : Recommendation)
    (rules : list string) : bool :=
  match snd o with
  | Ok ((rec, _, refs, _), _) => bool_decide (rec = r) && forallb (λ x, str_in x refs) rules
  | Err _ => false
  end.

Definition borderline : string := "Approve — borderline (exactly 30 days)".

(** The label holds [d] days after the dataset was built. *)
Definition label_holds (d : Z) (s : string * list (string * string)) : bool :=
  match items_get "ticket_id" (snd s) with
  | Some ref =>
      str_in ref seeded_refs &&
      outcome_says (expected_outcome (days d) ref)
        (if String.eqb (fst s) borderline && (1 <=? d) then DENY_REFUND_ else announced (fst s))
        (announced_rules (fst s))
  | None => bool_decide (announced (fst s) = REQUEST_MORE_INFO) &&
            match announced_rules (fst s) with [] => true | _ => false end
  end.

Lemma labels_hold : Forall (λ d, Forall (λ s, label_holds d s = true) _SCENARIOS) (seqZ 0 25).
Proof. repeat (apply Forall_cons_2 || apply Forall_nil_2); vm_compute; reflexivity. Qed.

Lemma seeded_evaluation NOW later ref c request :
  0 <= later < days 25 → ref ∈ seeded_refs →
  ∃ f, load_facts NOW ref c = Some f ∧
    binding_of <$> evaluate (NOW + later) f request REFUND_POLICY = snd (expected_outcome later ref).
Proof.
  intros Hl Hr. pose proof (seeded_purchases NOW later ref Hl Hr) as H. unfold seeded_outcome in H.
  destruct (load_facts NOW ref "") as [f|] eqn:Hf; [|done]. cbn [mbind option_bind] in H.
  exists f. split; [by apply known_purchase|].
  rewrite evaluate_policy. rewrite evaluate_policy in H. by injection H as <-.
Qed.

Lemma scenario_label later label preset :
  0 <= later < days 25 → (label, preset) ∈ _SCENARIOS →
  label_holds (timedelta_days later) (label, preset) = true.
Proof.
  intros Hl Hin. pose proof labels_hold as H. rewrite Forall_forall in H.
  specialize (H _ (elapsed_days later 25 Hl)). cbv beta in H. rewrite Forall_forall in H. exact (H _ Hin).
Qed.

Lemma outcome_of_evaluation (e : result EligibilityRecommendation) o r rules :
  binding_of <$> e = snd o → outcome_says o r rules = true →
  ∃ rec, e = Ok rec ∧ er_recommendation rec = r ∧ ∀ rule, rule ∈ rules → rule ∈ er_policy_references rec.
Proof.
  unfold outcome_says. intros <-. destruct e as [rec|]; [|done]. cbn [fmap result_fmap].
  unfold binding_of, verdict_of. intros [Hr%bool_decide_eq_true Hrules]%andb_true_iff.
  exists rec. split; [done|]. split; [done|]. intros rule Hin.
  rewrite forallb_forall in Hrules. apply str_in_spec, Hrules. by apply list_elem_of_In.
Qed.

Lemma custom_scenario label preset :
  (label, preset) ∈ _SCENARIOS → items_get "ticket_id" preset = None →
  preset = [] ∧ String.eqb label borderline = false.
Proof.
  intros Hin Hp. apply list_elem_of_In in Hin. cbn in Hin.
  repeat (destruct Hin as [[= <- <-]|Hin]; [done || by vm_compute in Hp|]). done.
Qed.

(** ** What the risk agent answers *)

(** A risk analysis that asks for a human escalates the case, whatever billing says. *)
Lemma review_escalates case fb fr :
  tri_needs_refund_review (triage_or_default case) = true → rfi_requires_human_review fr = true →
  fst (billing_first_ruling case fb fr) = ESCALATE_HUMAN ∧
  fst (risk_first_ruling case fb fr) = ESCALATE_HUMAN.
Proof.
  intros Hn Hr. unfold billing_first_ruling, risk_first_ruling, alarming. rewrite Hr, orb_true_r.
  split; [|done]. destruct (negb (is_ineligible fb)); [done|]. cbn [andb].
  unfold policy_ruling, truth_table, first_match, analysis_rows. cbn [List.find fst].
  by rewrite Hn, Hr, orb_true_r.
Qed.

(** The seeded customer of the borderline purchase has a chargeback. *)
Definition borderline_customer : RiskSignals :=
  match load_signals "CUS-BORDERLINE" with Some s => s | None => missing_history_signals end.

Lemma borderline_known : load_signals "CUS-BORDERLINE" = Some borderline_customer.
Proof. vm_compute. reflexivity. Qed.

Lemma borderline_reviewed r d :
  rar_requested_refund_amount r = Some d → float_of_decimal d = lit 2999 100 →
  ∃ a, assess_signals borderline_customer r FRAUD_POLICY = Ok a ∧ ra_requires_human_review a = true.
Proof.
  intros Hd Hf. destruct (assess_signals_refines borderline_customer r FRAUD_POLICY) as (a & Ha & Hv).
  exists a. split; [done|].
  apply (f_equal snd) in Hv. unfold verdict in Hv. cbn [snd] in Hv. rewrite Hv.
  assert (Hu : unusual_amount borderline_customer r = false).
  { unfold unusual_amount. rewrite Hd, Hf. vm_compute. reflexivity. }
  unfold engine_verdict, verdict_at, exact_tenths. rewrite Hu. vm_compute. reflexivity.
Qed.

Lemma scenario_customers preset t label :
  (label, preset) ∈ _SCENARIOS → ticket_of preset t →
  if String.eqb label borderline then stc_customer_id t = "CUS-BORDERLINE"
  else load_signals (stc_customer_id t) = None.
Proof.
  intros Hin (_ & Hc & _). apply list_elem_of_In in Hin. cbn in Hin.
  repeat (destruct Hin as [[= <- <-]|Hin];
    [cbn in Hc; vm_compute (String.eqb _ _); first [exact Hc|apply unknown_customer;
       first [rewrite Hc|destruct Hc as [rest ->]]; vm_compute (dataset_rows.*1); set_solver]|]).
  done.
Qed.

Lemma scenario_triage signals t triage :
  "charged" ∈ signals → stc_reason t = "Charged twice for monthly subscription" →
  classify signals t = Ok triage → tri_needs_refund_review triage = true.
Proof.
  intros Hs Hr. unfold classify. rewrite Hr.
  assert (Hm : "charged" ∈ matched_signals signals (py_lower "Charged twice for monthly subscription")).
  { unfold matched_signals. apply list_elem_of_In, filter_In. split; [by apply list_elem_of_In|by vm_compute]. }
  destruct (matched_signals _ _) as [|m ms]; [by apply elem_of_nil in Hm|].
  unfold mk_triage. cbn [tri_confidence]. destruct (in_unit _); [|done]. by intros [= <-].
Qed.

(** The decision record the case got, one more than it had: an escalation to a human,
    audited and drafted. *)
Definition escalated `{Uuids} (k : UUID) (w w' : World) : Prop :=
  (∃ pre d cause, only_audits pre ∧ decision_chain d k cause (w_log w ++ pre) (w_log w') ∧
     crd_outcome d = ESCALATE_HUMAN) ∧
  decisions k (w_log w') = S (decisions k (w_log w)).

Lemma settled_escalated `{Uuids} k cause r w wd w' :
  settled k cause r w wd → w_log wd = w_log w' → fst r = ESCALATE_HUMAN →
  decisions k (w_log w') = S (decisions k (w_log w)) → escalated k w w'.
Proof.
  intros (pre & d & c & Hpre & Hc & Hr & _) Hl Ho Hn. split; [|done]. exists pre, d, cause.
  rewrite Hl in Hc. split; [done|]. split; [done|]. by rewrite <- Hr in Ho.
Qed.

(** Both orders of the two results, through the handlers. *)
Lemma review_escalated `{Uuids} env k w case b r eb er pb pr :
  acks env → holds k case w → awaiting case b r → billing_event eb k pb → risk_event er k pr →
  tri_needs_refund_review (triage_or_default case) = true → rrc_requires_human_review pr = true →
  (∃ w1 w2, run env (billing_result_handler eb) w = (Ok tt, w1) ∧
     run env (risk_result_handler er) w1 = (Ok tt, w2) ∧ escalated k w w2) ∧
  (∃ w1 w2, run env (risk_result_handler er) w = (Ok tt, w1) ∧
     run env (billing_result_handler eb) w1 = (Ok tt, w2) ∧ escalated k w w2).
Proof.
  intros Hacks Hh Haw Hb Hr Htri Hrev.
  destruct (review_escalates case (billing_finding pb (Some b)) (risk_finding pr (Some r)) Htri)
    as [E1 E2]; [exact Hrev|]. split.
  - destruct (billing_first_settles env Hacks k w case b r eb er pb pr Hh Haw Hb Hr)
      as (w1 & w2 & H1 & H2 & H3). exists w1, w2. split_and!; [done..|].
    eapply settled_escalated; [exact H3|done|exact E1|by eapply settled_decisions].
  - destruct (risk_first_settles env Hacks k w case b r eb er pb pr Hh Haw Hb Hr)
      as (w1 & w2 & H1 & H2 & H3). exists w1, w2. split; [done|]. split; [done|].
    unfold risk_first_ruling in E2. destruct (alarming _).
    + destruct H3 as [H3 Hl].
      eapply settled_escalated; [exact H3|done|exact E2|rewrite Hl; by eapply settled_decisions].
    + eapply settled_escalated; [exact H3|done|exact E2|by eapply settled_decisions].
Qed.

Section Scenario.
Context `{Uuids} (env : Environment) (w w' : World).
Context (label : string) (preset : list (string * string)) (req : DemoTriggerRequest).
Context (ticket : SupportTicketCreatedPayload).
Context (Hscenario : (label, preset) ∈ _SCENARIOS).
Context (Hreq : form_request (default_form preset) = Ok req).
Context (Hticket : run env (to_payload req) w = (Ok ticket, w')).

(** Remark (functional): a scenario's label is what the billing agent answers.  The ticket
    of a scenario, submitted as the form opens, is analysed within 25 days of the dataset's
    construction into the recommendation its label announces, with the rule the label
    names among its references; the exception is the borderline purchase, which is approved
    on the first day only and denied from the next.  The custom scenario, with minted ids,
    finds no purchase and asks for more information. *)
Theorem scenario_labels_hold validate NOW later k breq :
  0 <= later < days 25 →
  validate (billing_input_data (billing_question k ticket)) = Ok breq →
  rer_purchase_reference breq = stc_ticket_id ticket → rer_customer_id breq = stc_customer_id ticket →
  ∃ rec facts,
    analyze validate {| seeded_at := NOW |} (NOW + later)
      [data_part (billing_input_data (billing_question k ticket))] = Ok (breq, rec, facts) ∧
    er_recommendation rec =
      (if String.eqb label borderline && (days 1 <=? later) then DENY_REFUND_ else announced label) ∧
    (∀ rule, rule ∈ announced_rules label → rule ∈ er_policy_references rec) ∧
    (facts = None ↔ preset = []).
Proof using Hscenario Hreq Hticket.
  intros Hl Hv Href Hcust.
  destruct (scenario_ticket env label preset req w ticket w' Hscenario Hreq Hticket) as (Htid & Hcid & _).
  pose proof (scenario_label later label preset Hl Hscenario) as Hlab. unfold label_holds in Hlab. cbn [fst snd] in Hlab.
  rewrite day_reached. unfold analyze, validate_billing_input.
  change (first_data [data_part ?d]) with (Some d). cbn [mbind result_bind]. rewrite Hv. cbn [mbind result_bind].
  cbn [store_load_facts SeededFacts_store seeded_at]. rewrite Href, Hcust.
  destruct (items_get "ticket_id" preset) as [ref|] eqn:Hp; cbv zeta in Htid.
  - apply andb_true_iff in Hlab as [Hr%str_in_spec Hsays].
    destruct (seeded_evaluation NOW later ref (stc_customer_id ticket) breq Hl Hr) as (f & Hf & Hev).
    rewrite Htid, Hf. rewrite expected_outcome_day in Hsays.
    destruct (outcome_of_evaluation _ _ _ _ Hev Hsays) as (rec & Hrec & Hwhat & Hrules).
    rewrite Hrec. exists rec, (Some f). split; [done|]. split; [done|]. split; [done|].
    split; [done|]. intros ->. by vm_compute in Hp.
  - destruct Htid as [rest Htid]. destruct (custom_scenario label preset Hscenario Hp) as [-> Hlabel].
    cbn in Hcid. destruct Hcid as [crest Hcid].
    rewrite unknown_purchase by (rewrite ?Htid, ?Hcid; unfold seeded_refs; clear; set_solver).
    apply andb_true_iff in Hlab as [Hrec%bool_decide_eq_true Hrules].
    eexists _, None. split; [reflexivity|]. split; [by rewrite Hlabel, Hrec|]. split; [|done].
    intros rule Hin. by destruct (announced_rules label).
Qed.

(** C35 (error): no scenario of the demo is decided automatically.  Take the ticket of a
    scenario, submitted as the form opens, and a case with its triage that waits for the two
    analyses.  The risk agent, on its seeded data, answers with an assessment; and when the
    broker acknowledges and the risk result of that assessment and any result of
    the billing agent are handled, in either order, the handlers raise nothing and publish
    one decision, an escalation to a human.  This includes the two scenarios whose label
    announces an approval: the risk agent knows the customer of the borderline purchase only,
    who has a chargeback to review, and asks for a human review of a customer it does not
    know. *)
Theorem no_scenario_decided_automatically signals validate k rreq d triage :
  validate (risk_input_data (risk_question k ticket)) = Ok rreq →
  rar_customer_id rreq = stc_customer_id ticket →
  rar_requested_refund_amount rreq = Some d → float_of_decimal d = stc_amount ticket →
  "charged" ∈ signals → classify signals ticket = Ok triage →
  (load_signals (stc_customer_id ticket) = None ↔ label ≠ borderline) ∧
  ∃ a, assess validate default_store [data_part (risk_input_data (risk_question k ticket))] = Ok (a, rreq) ∧
  ∀ narrative pr env' w0 case b r eb er pb,
    to_result_payload a rreq narrative = Ok pr → acks env' →
    holds k case w0 → awaiting case b r → rc_triage case = Some triage →
    billing_event eb k pb → risk_event er k pr →
    (∃ w1 w2, run env' (billing_result_handler eb) w0 = (Ok tt, w1) ∧
       run env' (risk_result_handler er) w1 = (Ok tt, w2) ∧ escalated k w0 w2) ∧
    (∃ w1 w2, run env' (risk_result_handler er) w0 = (Ok tt, w1) ∧
       run env' (billing_result_handler eb) w1 = (Ok tt, w2) ∧ escalated k w0 w2).
Proof using Hscenario Hreq Hticket.
  intros Hv Hc Hd Hf Hs Hcl.
  pose proof (scenario_ticket env label preset req w ticket w' Hscenario Hreq Hticket) as Ht.
  pose proof (scenario_customers preset ticket label Hscenario Ht) as Hcust.
  destruct Ht as (_ & _ & Hamount & Hreason). rewrite Hamount in Hf.
  pose proof (scenario_triage signals ticket triage Hs Hreason Hcl) as Hneed.
  assert (Ha : ∃ a, assess validate default_store [data_part (risk_input_data (risk_question k ticket))] = Ok (a, rreq) ∧
                    ra_requires_human_review a = true).
  { unfold assess, validate_input. change (first_data [data_part ?x]) with (Some x).
    cbn [mbind result_bind]. rewrite Hv. cbn [mbind result_bind].
    cbn [store_load_signals InMemoryRiskSignalStore_store]. rewrite <- load_signals_lookup, Hc.
    destruct (String.eqb label borderline).
    - rewrite Hcust, borderline_known. destruct (borderline_reviewed rreq d Hd Hf) as (a & Ha & Hr).
      exists a. rewrite Ha. split; [reflexivity|exact Hr].
    - rewrite Hcust. exists (_missing_data_assessment (stc_customer_id ticket)). split; reflexivity. }
  destruct Ha as (a & Ha & Hr). split.
  - destruct (String.eqb_spec label borderline) as [Heq|Hne].
    + rewrite Hcust, borderline_known. split; [discriminate|intros Hne; by destruct (Hne Heq)].
    + split; intros _; [exact Hne|exact Hcust].
  - exists a. split; [done|]. intros narrative pr env' w0 case b r eb er pb Hpr Hacks Hh Haw Htri Hb He.
    destruct (risk_payload_inv _ _ _ _ Hpr) as (_ & _ & Hh').
    apply (review_escalated env' k w0 case b r eb er pb pr); try done;
      [unfold triage_or_default; by rewrite Htri|by rewrite Hh'].
Qed.
End Scenario.
