(* ===== verification/Topics.v ===== *)
(** * Topics

    [src/agent_foundation/transport/topics.py] and the publishing half of
    [runtime/discovery.py]: the topics the foundation creates, with their retention, and
    the keys of the records on the compacted ones.  The broker's admin client is a
    parameter.  The theorems say what log compaction can take away: nothing of the audit
    trail, whose records are keyed by their own ids; and of the cards only those that a later
    record of their agent, which is no card, shadows. *)

From Stdlib Require Import ZArith Bool Ascii String List Lia.
From stdpp Require Import base list strings gmap.
From S2P Require Import Prelude.
From S2P Require Import PyFloat.
From S2P Require Import Contracts.
From S2P Require Import Uuid.
From S2P Require Import Idempotency.
From S2P Require Import A2A.
From S2P Require Import Envelope.
From S2P Require Import Async.
From S2P Require Import Transport.
From S2P Require Import Runtime.
From S2P Require Import Trace.
From S2P Require Import Views.

Open Scope string_scope.
Open Scope list_scope.
Open Scope Z_scope.

#[local] Set Default Proof Using "Type".

(** ** The topics *)

Record NewTopic := {
  nt_name : string;
  nt_num_partitions : Z;
  nt_replication_factor : Z;
  nt_topic_configs : list (string * string);
}.

#[export] Instance NewTopic_eq_dec : EqDecision NewTopic.
Proof. solve_decision. Defined.

Definition _ONE_DAY_MS : Z := 86400000.
Definition _SEVEN_DAYS_MS : Z := 7 * _ONE_DAY_MS.

Definition one_partition (name key value : string) : NewTopic := {|
  nt_name := name; nt_num_partitions := 1; nt_replication_factor := 1;
  nt_topic_configs := [(key, value)] |}.

Definition retained (ms : Z) (name : string) : NewTopic := one_partition name "retention.ms" (str_of_Z ms).
Definition compacted (name : string) : NewTopic := one_partition name "cleanup.policy" "compact".

Definition _CANONICAL_TOPICS : list NewTopic :=
  [ retained _SEVEN_DAYS_MS TOPIC_MESSAGE;
    compacted TOPIC_AUDIT;
    retained _ONE_DAY_MS TOPIC_SAMPLE;
    compacted TOPIC_AGENT_CARD;
    retained _SEVEN_DAYS_MS TOPIC_TASK_RESULT;
    retained _SEVEN_DAYS_MS TOPIC_RESOLUTION_DECIDED;
    retained _SEVEN_DAYS_MS TOPIC_ISSUE_CLASSIFIED;
    retained _SEVEN_DAYS_MS TOPIC_REFUND_REVIEW_REQUESTED;
    retained _SEVEN_DAYS_MS TOPIC_BILLING_RESULT;
    retained _SEVEN_DAYS_MS TOPIC_RISK_RESULT;
    retained _SEVEN_DAYS_MS TOPIC_RESPONSE_DRAFTED;
    compacted TOPIC_LLM_INVOCATION_COMPLETED;
    compacted TOPIC_LLM_INVOCATION_FAILED ].

Definition processed_id_new_topic (consumer_name : string) : NewTopic :=
  compacted (processed_id_topic consumer_name).

Definition endpoint_topic_new_topic (agent_id : string) : NewTopic :=
  retained _SEVEN_DAYS_MS (endpoint_topic agent_id).

(** [create_topics]: starting and closing the admin client may raise; an error of the
    creation itself is swallowed. *)
Record Admin := {
  admin_start : result unit;
  admin_create_topics : list NewTopic → result unit;
  admin_close : result unit;
}.

Definition create_topics (admin : Admin) (extra_topics : list NewTopic) : result unit :=
  match admin_start admin with
  | Err e => Err e
  | Ok _ =>
      let _ := admin_create_topics admin (_CANONICAL_TOPICS ++ extra_topics) in
      admin_close admin
  end.

(** ** [publish_card] of the discovery module *)

Section Publishing.
Context `{Uuids}.
Open Scope prog_scope.

(** Unlike the runtime's, an error of the send propagates. *)
Definition publish_card (admin : Admin) (card : AgentCard) : prog unit :=
  let! _ := lift (create_topics admin []) in
  let! event_id := fresh_uuid in
  let! correlation_id := fresh_uuid in
  let! timestamp := now in
  let! card_envelope := lift (mk_envelope {|
    env_event_id := event_id;
    env_correlation_id := correlation_id;
    env_causation_id := None;
    env_agent_id := card_agent_id card;
    env_tenant_id := "poc";
    env_timestamp := timestamp;
    env_event_type := "agent.agent_card.v1";
    env_schema_version := "1.0.0";
    env_payload := P_Card card |}) in
  publish_raw card_envelope TOPIC_AGENT_CARD (Some (card_agent_id card)).
End Publishing.

(** ** Keys *)

(** Audits are not keyed by their caller. *)
Definition audit_key (e : EventEnvelope) : string := message_key None e.

(** The key the documentation gives for the audit topic. *)
Definition documented_audit_key (e : EventEnvelope) : string :=
  match env_payload e with
  | P_Audit a => uuid_str (env_event_id (aud_original_envelope a))
  | _ => ""
  end.

(** ** What is created *)

(** Remark (functional): what [create_topics] prepares.  The canonical topics are different
    from each other; every topic the publisher resolves an event type to is among them
    except the one the intake reads, and neither is the heartbeat's. *)
Theorem canonical_topics_cover :
  NoDup (map nt_name _CANONICAL_TOPICS) ∧
  List.filter (λ t, negb (str_in t (map nt_name _CANONICAL_TOPICS))) (map snd TOPIC_NAMES) =
    [TICKET_CREATED] ∧
  TOPIC_HEARTBEAT ∉ map nt_name _CANONICAL_TOPICS.
Proof.
  split; [|split].
  - apply (bool_decide_eq_true_1 (NoDup (map nt_name _CANONICAL_TOPICS))). vm_compute. reflexivity.
  - vm_compute. reflexivity.
  - apply (bool_decide_eq_true_1 (TOPIC_HEARTBEAT ∉ map nt_name _CANONICAL_TOPICS)). vm_compute. reflexivity.
Qed.

(** Remark (error): [create_topics] raises only when the admin client cannot connect or
    close; that the creation failed, its caller cannot tell. *)
Theorem create_topics_hides_failure start close r1 r2 extra :
  create_topics {| admin_start := start; admin_create_topics := r1; admin_close := close |} extra =
  create_topics {| admin_start := start; admin_create_topics := r2; admin_close := close |} extra ∧
  (is_ok (create_topics {| admin_start := start; admin_create_topics := r1; admin_close := close |} extra) ↔
   is_ok start ∧ is_ok close).
Proof.
  split; [done|]. unfold create_topics, is_ok. cbn. destruct start as [[]|e]; [|by split; [intros []|intros [[] _]]].
  split; [intros H; split; [by exists tt|done]|by intros [_ H]].
Qed.

(** ** Compaction *)

Section Cards.

Context {Bytes : Type} (parse_envelope : Bytes → result EventEnvelope).

(** The dictionary of a scan: the ids once each, every id with its last card. *)
Lemma card_insert_ids c l :
  map card_agent_id (card_insert c l) =
  if decide (card_agent_id c ∈ map card_agent_id l) then map card_agent_id l
  else map card_agent_id l ++ [card_agent_id c].
Proof.
  induction l as [|d l IH]; cbn; [done|]. destruct (String.eqb_spec (card_agent_id d) (card_agent_id c)) as [->|Hne].
  - rewrite decide_True by set_solver. done.
  - cbn. rewrite IH. destruct (decide (card_agent_id c ∈ map card_agent_id l));
      [rewrite decide_True by set_solver|rewrite decide_False by set_solver]; done.
Qed.

Lemma card_insert_nodup c l : NoDup (map card_agent_id l) → NoDup (map card_agent_id (card_insert c l)).
Proof.
  intros Hl. rewrite card_insert_ids. case_decide; [done|]. apply list.NoDup_app.
  split; [done|]. split; [set_solver|]. apply NoDup_singleton.
Qed.

Lemma elem_of_card_insert x c l :
  NoDup (map card_agent_id l) →
  x ∈ card_insert c l ↔ x = c ∨ (x ∈ l ∧ card_agent_id x ≠ card_agent_id c).
Proof.
  induction l as [|d l IH]; cbn; [set_solver|]. intros [Hd Hl]%list.NoDup_cons.
  destruct (String.eqb_spec (card_agent_id d) (card_agent_id c)) as [He|Hne].
  - rewrite !elem_of_cons. split; [|set_solver].
    intros [->|Hx]; [by left|]. right. split; [by right|]. intros Hxc. apply Hd.
    rewrite He, <- Hxc. by apply list_elem_of_fmap_2.
  - rewrite !elem_of_cons, (IH Hl). split; [|set_solver]. intros [->|[->|[Hx Hxc]]]; auto.
Qed.

(** The cards that validate among the records, in order; and their dictionary. *)
Definition cards_of (records : list (CardRecord Bytes)) : list AgentCard :=
  omap (λ msg, match card_of parse_envelope msg with Ok card => Some card | Err _ => None end) records.

Definition latest_cards (cards : list AgentCard) : list AgentCard :=
  fold_left (λ latest c, card_insert c latest) cards [].

Lemma read_records_cards records latest :
  read_records parse_envelope records latest =
  fold_left (λ latest c, card_insert c latest) (cards_of records) latest.
Proof.
  revert latest. induction records as [|msg records IH]; intros latest; [done|].
  unfold read_records in *. cbn [fold_left]. rewrite IH. unfold read_record, cards_of. cbn [omap list_omap].
  by destruct (card_of parse_envelope msg).
Qed.

Lemma latest_snoc l c : latest_cards (l ++ [c]) = card_insert c (latest_cards l).
Proof. unfold latest_cards. by rewrite fold_left_app. Qed.

Lemma latest_nodup l : NoDup (map card_agent_id (latest_cards l)).
Proof.
  induction l as [|c l IH] using rev_ind; [constructor|]. rewrite latest_snoc. by apply card_insert_nodup.
Qed.

Lemma elem_of_latest x l : x ∈ latest_cards l ↔ last_of card_agent_id (card_agent_id x) l = Some x.
Proof.
  induction l as [|c l IH] using rev_ind; [split; [by intros ?%elem_of_nil|done]|].
  rewrite latest_snoc, elem_of_card_insert, last_of_snoc, IH by apply latest_nodup.
  case_decide as He.
  - rewrite He. split; [intros [->|[_ []]]; done|intros [= ->]; by left].
  - split; [intros [->|[]]; done|]. intros Hx. right. split; [done|]. by intros Hxc.
Qed.

(** The last record of a key survives, and is still the last. *)
Lemma last_of_cons {A K} `{EqDecision K} (f : A → K) u r l :
  last_of f u (r :: l) =
  match last_of f u l with Some x => Some x | None => if decide (f r = u) then Some r else None end.
Proof.
  induction l as [|x l IH] using rev_ind.
  - change [r] with ([] ++ [r]). by rewrite last_of_snoc.
  - rewrite app_comm_cons, !last_of_snoc, IH. by destruct (decide (f x = u)).
Qed.

Lemma compacts_last {A K} `{EqDecision K} (f : A → K) u l l' :
  compacts f l l' → last_of f u l' = last_of f u l.
Proof.
  induction 1 as [|r l l' Hc IH|r r' l l' Hin Hk Hc IH]; [done|by rewrite !last_of_cons, IH|].
  rewrite last_of_cons, IH. destruct (last_of f u l) eqn:E; [done|]. case_decide as Hu; [|done].
  assert (Hs : is_Some (last_of f u l)).
  { apply last_of_is_some. rewrite <- Hu, <- Hk. by apply list_elem_of_fmap_2. }
  rewrite E in Hs. by destruct Hs.
Qed.

(** *** Scans *)

(** The broker serves the scan these records, in non-empty polls, up to its end. *)
Definition delivers (scan : CardScan Bytes) (records : list (CardRecord Bytes)) : Prop :=
  scan_start scan = Ok tt ∧ scan_stop scan = Ok tt ∧
  ∃ batches rest, scan_polls scan = map Ok batches ++ rest ∧ Forall (λ b, b ≠ []) batches ∧
    match rest with [] | Ok [] :: _ => True | _ => False end ∧
    concat (map (@concat _) batches) = records.

Lemma read_polls_app batches rest latest :
  Forall (λ b, b ≠ []) batches → match rest with [] | Ok [] :: _ => True | _ => False end →
  read_polls parse_envelope (map Ok batches ++ rest) latest =
  read_records parse_envelope (concat (map (@concat _) batches)) latest.
Proof.
  intros Hb Hrest. revert latest. induction Hb as [|b batches Hb _ IH]; intros latest; cbn [map app concat].
  - by destruct rest as [|[[]|] ?].
  - destruct b as [|x b]; [done|]. cbn [read_polls]. rewrite IH.
    unfold read_records. by rewrite fold_left_app.
Qed.

(** What a scan finds: of each agent, its latest valid card. *)
Lemma discover_delivered scan records :
  delivers scan records →
  discover_agents parse_envelope scan = Ok (latest_cards (cards_of records)).
Proof.
  intros (Hs & He & batches & rest & Hp & Hb & Hr & <-). unfold discover_agents.
  rewrite Hs, He, Hp, read_polls_app, read_records_cards by done. done.
Qed.

(** Every card is keyed by the agent it describes. *)
Definition well_keyed (records : list (CardRecord Bytes)) : Prop :=
  ∀ msg card, msg ∈ records → card_of parse_envelope msg = Ok card → rec_key msg = card_agent_id card.

(** The agent's last record is a card, if it has any record. *)
Definition announced (agent : string) (records : list (CardRecord Bytes)) : Prop :=
  ∀ msg, last_of rec_key agent records = Some msg → is_ok (card_of parse_envelope msg).

Lemma cards_of_snoc records msg :
  cards_of (records ++ [msg]) =
  cards_of records ++ match card_of parse_envelope msg with Ok card => [card] | Err _ => [] end.
Proof. unfold cards_of. rewrite omap_app. cbn. by destruct (card_of parse_envelope msg). Qed.

Lemma last_card agent records :
  well_keyed records →
  match last_of rec_key agent records with
  | None => last_of card_agent_id agent (cards_of records) = None
  | Some msg =>
      ∀ card, card_of parse_envelope msg = Ok card →
        card_agent_id card = agent ∧ last_of card_agent_id agent (cards_of records) = Some card
  end.
Proof.
  induction records as [|msg records IH] using rev_ind; intros Hk; [done|].
  assert (Hk' : well_keyed records) by (intros m c Hm; apply Hk; set_solver).
  specialize (IH Hk'). rewrite cards_of_snoc, last_of_snoc. case_decide as Hu.
  - intros card Hc. rewrite Hc, last_of_snoc. rewrite (Hk msg card) in Hu by (done || set_solver).
    rewrite decide_True by done. by split.
  - destruct (card_of parse_envelope msg) as [c|] eqn:Hc; [|by rewrite app_nil_r].
    rewrite last_of_snoc, decide_False; [exact IH|]. rewrite <- (Hk msg c); [done|set_solver|done].
Qed.

Lemma announced_card agent records card :
  well_keyed records → announced agent records →
  last_of card_agent_id agent (cards_of records) = Some card ↔
  ∃ msg, last_of rec_key agent records = Some msg ∧ card_of parse_envelope msg = Ok card.
Proof.
  intros Hk Ha. pose proof (last_card agent records Hk) as Hl. unfold announced in Ha.
  destruct (last_of rec_key agent records) as [msg|].
  - destruct (Ha msg eq_refl) as [c Hc]. destruct (Hl c Hc) as [_ ->]. split.
    + intros [= <-]. by exists msg.
    + intros (m & [= <-] & Hm). congruence.
  - rewrite Hl. split; [done|]. by intros (m & ? & _).
Qed.

Lemma compacted_keyed records compacted_records :
  compacts rec_key records compacted_records → well_keyed records → well_keyed compacted_records.
Proof. intros Hc Hk msg card Hm. apply Hk. by eapply compacts_incl. Qed.

Lemma cards_of_inv card records :
  card ∈ cards_of records → ∃ msg, msg ∈ records ∧ card_of parse_envelope msg = Ok card.
Proof.
  unfold cards_of. rewrite list_elem_of_omap. intros (msg & Hin & Hm). exists msg. split; [done|].
  destruct (card_of parse_envelope msg); [by injection Hm as ->|done].
Qed.

(** A record whose key no other has is the last of its key. *)
Lemma last_of_unique records (msg : CardRecord Bytes) :
  NoDup (map rec_key records) → msg ∈ records → last_of rec_key (rec_key msg) records = Some msg.
Proof.
  intros Hnd Hin. destruct (last_of rec_key (rec_key msg) records) as [m|] eqn:E.
  - apply last_of_some in E as [Hm Hkey]. f_equal.
    apply list_elem_of_lookup in Hm as [i Hi]. apply list_elem_of_lookup in Hin as [j Hj].
    assert (i = j) as ->; [|congruence].
    eapply (NoDup_lookup _ _ _ (rec_key msg) Hnd).
    + change (map rec_key records) with (rec_key <$> records). by rewrite list_lookup_fmap, Hi, <- Hkey.
    + change (map rec_key records) with (rec_key <$> records). by rewrite list_lookup_fmap, Hj.
  - assert (Hs : is_Some (last_of rec_key (rec_key msg) records)).
    { apply last_of_is_some. by apply list_elem_of_fmap_2. }
    rewrite E in Hs. by destruct Hs.
Qed.

(** C40 (refinement): what discovery sees of a compacted topic.  The records of the card topic
    are any bytes under any key, except that a record which is a card is keyed by the agent
    it describes; the broker serves a scan all of them, and another scan what compaction left.
    Both scans succeed and find each agent at most once.  An agent whose last record is a card
    is found by both, with that card; so if that holds of every agent with a record, both
    find the same cards, and the same peers for every capability.  Once a single record per
    key is left, exactly those agents are found: one whose last record is a tombstone or
    malformed, which the first scan still finds by an older card, is gone. *)
Theorem discovery_stable_under_compaction scan records scan' compacted_records capability :
  well_keyed records → compacts rec_key records compacted_records →
  delivers scan records → delivers scan' compacted_records →
  ∃ cards cards',
    discover_agents parse_envelope scan = Ok cards ∧ discover_agents parse_envelope scan' = Ok cards' ∧
    NoDup (map card_agent_id cards) ∧ NoDup (map card_agent_id cards') ∧
    (∀ card msg, last_of rec_key (card_agent_id card) records = Some msg →
       card_of parse_envelope msg = Ok card → card ∈ cards ∧ card ∈ cards') ∧
    ((∀ agent, announced agent records) →
       cards' ≡ₚ cards ∧
       ∀ card, (∃ l, find_capable parse_envelope capability scan' = Ok l ∧ card ∈ l) ↔
               (∃ l, find_capable parse_envelope capability scan = Ok l ∧ card ∈ l)) ∧
    (NoDup (map rec_key compacted_records) →
       ∀ card, card ∈ cards' ↔
         ∃ msg, last_of rec_key (card_agent_id card) records = Some msg ∧
                card_of parse_envelope msg = Ok card).
Proof.
  intros Hk Hc Hs Hs'. pose proof (compacted_keyed _ _ Hc Hk) as Hk'.
  pose proof (discover_delivered _ _ Hs) as Hd. pose proof (discover_delivered _ _ Hs') as Hd'.
  pose proof (λ a, compacts_last rec_key a _ _ Hc) as Hlast.
  exists (latest_cards (cards_of records)), (latest_cards (cards_of compacted_records)).
  split; [done|]. split; [done|]. split; [apply latest_nodup|]. split; [apply latest_nodup|].
  split; [|split].
  - intros card msg Hm Hcard. rewrite !elem_of_latest.
    pose proof (last_card (card_agent_id card) _ Hk) as H1. rewrite Hm in H1.
    pose proof (last_card (card_agent_id card) _ Hk') as H2. rewrite Hlast, Hm in H2.
    split; [by apply H1|by apply H2].
  - intros Ha. assert (Ha' : ∀ agent, announced agent compacted_records).
    { intros agent msg. rewrite Hlast. apply Ha. }
    assert (Hin : ∀ x, x ∈ latest_cards (cards_of compacted_records) ↔ x ∈ latest_cards (cards_of records)).
    { intros x. rewrite !elem_of_latest, !announced_card by done. by rewrite Hlast. }
    split; [apply NoDup_Permutation; [..|exact Hin]; apply (NoDup_fmap_1 card_agent_id); apply latest_nodup|].
    intros card. unfold find_capable. rewrite Hd, Hd'. cbn [mbind result_bind].
    split; intros (l & [= <-] & Hl); eexists; (split; [reflexivity|]);
      rewrite elem_of_filter_bool in *; by rewrite Hin in *.
  - intros Hnd card. rewrite elem_of_latest. split.
    + intros Hl. apply last_of_some in Hl as [Hl _]. apply cards_of_inv in Hl as (msg & Hm & Hcard).
      exists msg. split; [|done]. rewrite <- Hlast, <- (Hk' msg card) by done. by apply last_of_unique.
    + intros (msg & Hm & Hcard). pose proof (last_card (card_agent_id card) _ Hk') as H2.
      rewrite Hlast, Hm in H2. by apply H2.
Qed.
End Cards.

(** Remark (functional): under which key a card is published.  The runtime's first await is the
    record of its card under its own identity's id; [publish_card], once the topics exist,
    sends the card under the id the card itself gives.  So the runtime's card is keyed by the
    agent it describes exactly when the card and the identity it was built with agree, which
    nothing checks. *)
Theorem card_keys `{Uuids} rt admin card w :
  valid_identity (rt_identity rt) → _AGENT_ID_RE (card_agent_id card) = true →
  create_topics admin [] = Ok tt →
  (∃ e k w', advance (_publish_card rt) w =
       (Await (Send TOPIC_AGENT_CARD (id_agent_id (rt_identity rt)) e) k, w') ∧
     env_payload e = P_Card (rt_card rt)) ∧
  ∃ e k w', advance (publish_card admin card) w =
       (Await (Send TOPIC_AGENT_CARD (card_agent_id card) e) k, w') ∧
     env_payload e = P_Card card.
Proof.
  intros [Ha Ht] Hc Htopics. split.
  - unfold _publish_card. cbn. unfold mk_envelope. cbn [env_agent_id env_tenant_id env_event_type
      env_schema_version env_causation_id]. rewrite Ha, Ht. cbn. by do 3 eexists.
  - unfold publish_card. rewrite Htopics. cbn. unfold mk_envelope. cbn [env_agent_id env_tenant_id
      env_event_type env_schema_version env_causation_id]. rewrite Hc. cbn. by do 3 eexists.
Qed.

Lemma audit_keys_distinct log :
  NoDup (map env_event_id log) → Forall (λ e, uuid_range (env_event_id e)) log →
  NoDup (map audit_key log).
Proof.
  induction log as [|e log IH]; [constructor|]. cbn [map].
  intros [Hnot Hnd]%list.NoDup_cons [He Hrange]%Forall_cons. constructor; [|by apply IH].
  intros (e' & Hk & Hin)%list_elem_of_fmap_1. apply Hnot.
  rewrite list.Forall_forall in Hrange.
  rewrite (processed_key_inj _ _ He (Hrange _ Hin) Hk). by apply list_elem_of_fmap_2.
Qed.

(** Remark (safety): the audit trail survives compaction.  The audit topic is compacted, but
    its records are keyed by their own event ids: as long as those are all different,
    the topic still holds every record, for every query.  Keyed by the original event, as
    the documentation has it, the broker could drop the acceptance of a task once its
    completion is there. *)
Theorem audit_trail_survives_compaction (log compacted_log : list EventEnvelope) :
  NoDup (map env_event_id log) → Forall (λ e, uuid_range (env_event_id e)) log →
  (compacts audit_key log compacted_log →
   consume_all_audit_records Ok compacted_log = consume_all_audit_records Ok log) ∧
  ∀ before a1 a2 after,
    log = before ++ a1 :: a2 :: after → documented_audit_key a1 = documented_audit_key a2 →
    compacts documented_audit_key log (before ++ a2 :: after).
Proof.
  intros Hnd Hrange. split.
  - intros Hc. by rewrite (compacts_distinct _ _ _ (audit_keys_distinct _ Hnd Hrange) Hc).
  - intros before a1 a2 after -> Hk. clear Hnd Hrange.
    assert (Hrefl : ∀ l : list EventEnvelope, compacts documented_audit_key l l)
      by (induction l; by constructor).
    induction before as [|e before IH]; cbn; [|by constructor].
    apply (compact_drop _ a1 a2); [by left|done|apply Hrefl].
Qed.
