(* ===== verification/Cli.v ===== *)
(** * The command line

    [src/agent_foundation/cli.py] and [apps/api/trace_case.py]: the commands over the
    modelled operations, with what they print and their exit codes.  A printed JSON object
    is kept as its value.  Typer, argparse and the broker's admin client are parameters;
    signals and logging are left out. *)

From Stdlib Require Import ZArith Bool Ascii String List Lia Sorted.
From stdpp Require Import base list strings gmap sorting.
From S2P Require Import Prelude.
From S2P Require Import PyFloat.
From S2P Require Import Contracts.
From S2P Require Import Uuid.
From S2P Require Import PyNumber.
From S2P Require Import Idempotency.
From S2P Require Import A2A.
From S2P Require Import Envelope.
From S2P Require Import LlmConfig.
From S2P Require Import Async.
From S2P Require Import Consumer.
From S2P Require Import Execution.
From S2P Require Import Transport.
From S2P Require Import Trace.
From S2P Require Import TraceFacts.
From S2P Require Import Views.
From S2P Require Import Topics.

Open Scope string_scope.
Open Scope list_scope.
Open Scope Z_scope.
Open Scope prog_scope.

#[local] Set Default Proof Using "Type".

(** ** Commands *)

(** A line of the standard output or of the error output, a JSON object by its value. *)
Inductive Line :=
| Out (text : string)
| OutJson (value : pyval)
| ErrOut (text : string).

(** What a command leaves: its lines and its exit code.  An exception that leaves it is the
    program's. *)
Definition Exit : Type := list Line * Z.

Definition _default_identity : AgentIdentity := {|
  id_agent_id := "cli.agent"; id_display_name := "CLI Agent"; id_tenant_id := "poc" |}.

(** [SamplePayload(message=...)] *)
Definition mk_sample (message : string) : result EventPayload :=
  if Nat.eqb (py_len message) 0 then Err (ValidationError "String should have at least 1 character")
  else if Nat.ltb 200 (py_len message) then Err (ValidationError "String should have at most 200 characters")
  else Ok (P_Sample message).

(** [str(u) if u else None]; a UUID is always true. *)
Definition opt_uuid (u : option UUID) : pyval := vopt (λ u, VStr (uuid_str u)) u.

(** [str(u)] of an optional UUID. *)
Definition str_opt_uuid (u : option UUID) : string :=
  match u with Some u => uuid_str u | None => "None" end.

(** ** [health] *)

(** The first admin client starts and describes the cluster; [create_topics] is called, its
    errors suppressed; the second client lists the topics. *)
Record Broker := {
  bk_describe : result unit;
  bk_create : result unit;
  bk_list_topics : result (list string);
}.

Definition health (b : Broker) : Z :=
  match bk_describe b with
  | Err _ => 1
  | Ok _ =>
      let _ := bk_create b in
      match bk_list_topics b with
      | Ok existing =>
          if forallb (λ t, str_in t existing) [TOPIC_MESSAGE; TOPIC_AUDIT; TOPIC_SAMPLE] then 0 else 1
      | Err _ => 1
      end
  end.

Section Commands.
Context `{Uuids}.

(** ** [publish-sample] *)

Definition publish_sample (message : string) (omit_causation non_root : bool)
    (correlation : option string) : prog Exit :=
  let! corr_id := match correlation with
                  | Some s => if str_truthy s then lift (parse_uuid s) else fresh_uuid
                  | None => fresh_uuid
                  end in
  let! caus_id := if omit_causation then Ret None else let! u := fresh_uuid in Ret (Some u) in
  match mk_sample message with
  | Err exc => Ret ([ErrOut ("Payload validation failed: " +:+ exn_str exc)], 1)
  | Ok payload =>
      if non_root && omit_causation then
        let! event_id := fresh_uuid in
        let! timestamp := now in
        write_audit _default_identity {|
          env_event_id := event_id; env_correlation_id := corr_id; env_causation_id := None;
          env_agent_id := id_agent_id _default_identity;
          env_tenant_id := id_tenant_id _default_identity;
          env_timestamp := timestamp; env_event_type := "agent.sample.v1";
          env_schema_version := "1.0.0"; env_payload := payload |}
          aud_rejected (Some "missing_causation") ;!
        Ret ([ErrOut "Rejected: missing_causation — audit record written to audit topic"], 1)
      else
        catch
          (let! envelope := publish _default_identity payload "agent.sample.v1" corr_id caus_id None in
           Ret ([Out ("Published event_id=" +:+ uuid_str (env_event_id envelope))], 0))
          (λ exc, Ret ([ErrOut ("Publish failed: " +:+ exn_str exc)], 1))
  end.

(** ** [publish-chain] *)

(** The loop: events [i] to [length], [n] of them, the last published before given. *)
Fixpoint chain_loop (length : Z) (corr_id : UUID) (i : Z) (prev_id : option UUID) (n : nat) : prog unit :=
  match n with
  | O => Ret tt
  | S n =>
      let! payload := lift (mk_sample ("chain event " +:+ str_of_Z i +:+ " of " +:+ str_of_Z length)) in
      let! envelope := publish _default_identity payload "agent.sample.v1" corr_id prev_id None in
      chain_loop length corr_id (i + 1) (Some (env_event_id envelope)) n
  end.

Definition publish_chain (length : Z) : prog Exit :=
  let! corr_id := fresh_uuid in
  chain_loop length corr_id 1 None (Z.to_nat length) ;!
  Ret ([Out (uuid_str corr_id)], 0).
End Commands.

(** ** The queries *)

(** [json.dumps] of one audit record, as each query prints it. *)
Definition audit_line (r : AuditRecord) : Line :=
  OutJson (VDict
    [ ("event_id", VStr (uuid_str (env_event_id (aud_original_envelope r))));
      ("causation_id", VStr (str_opt_uuid (env_causation_id (aud_original_envelope r))));
      ("outcome", VStr (AuditOutcome_str (aud_outcome r)));
      ("recorded_at", VStr (isoformat (aud_recorded_at r))) ]).

Definition rejection_line (r : AuditRecord) : Line :=
  OutJson (VDict
    [ ("event_id", VStr (uuid_str (env_event_id (aud_original_envelope r))));
      ("reason", vopt VStr (aud_reason r));
      ("recorded_at", VStr (isoformat (aud_recorded_at r))) ]).

Definition task_line (r : AuditRecord) : Line :=
  OutJson (VDict
    [ ("event_id", VStr (uuid_str (env_event_id (aud_original_envelope r))));
      ("agent_id", VStr (env_agent_id (aud_original_envelope r)));
      ("outcome", VStr (AuditOutcome_str (aud_outcome r)));
      ("task_id", opt_uuid (aud_task_id r));
      ("reason", vopt VStr (aud_reason r));
      ("recorded_at", VStr (isoformat (aud_recorded_at r))) ]).

(** [records] are those [consume_all_audit_records] reads. *)
Definition query_audit (correlation : string) (records : list AuditRecord) : result Exit :=
  corr_id ← parse_uuid correlation;
  Ok (map audit_line (query_by_correlation corr_id records), 0).

Definition query_rejections (records : list AuditRecord) : Exit :=
  (map rejection_line (List.filter (λ r, bool_decide (aud_outcome r = aud_rejected)) records), 0).

Definition query_task_audit (task_id : string) (records : list AuditRecord) : result Exit :=
  tid ← parse_uuid task_id;
  match query_by_task_id tid records with
  | [] => Ok ([ErrOut ("No audit records found for task_id=" +:+ task_id)], 1)
  | found => Ok (map task_line found, 0)
  end.

(** [sorted(cards, key=lambda c: c.agent_id)]; the ids are different. *)
Definition by_agent_id (a b : AgentCard) : Prop := String.le (card_agent_id a) (card_agent_id b).

#[export] Instance by_agent_id_dec : RelDecision by_agent_id.
Proof. intros a b. unfold by_agent_id. apply _. Defined.

(** The card's [security] is the literal ["none"]. *)
Definition card_line (card : AgentCard) : Line :=
  OutJson (VDict
    [ ("agent_id", VStr (card_agent_id card)); ("name", VStr (card_name card));
      ("version", VStr (card_version card));
      ("capabilities", VList (map (λ c, VStr (cap_id c)) (card_capabilities card)));
      ("security", VStr "none") ]).

(** A broker that refuses the scan raises. *)
Definition discover {Bytes : Type} (parse_envelope : Bytes → result EventEnvelope)
    (capability : option string) (scan : CardScan Bytes) : result Exit :=
  cards ← match capability with
          | Some c => if str_truthy c then find_capable parse_envelope c scan
                      else discover_agents parse_envelope scan
          | None => discover_agents parse_envelope scan
          end;
  Ok match cards with
     | [] => ([Out "No agent cards found."], 0)
     | _ => (map card_line (merge_sort by_agent_id cards), 0)
     end.

(** ** [consume-sample] and [replay] *)

(** Where [replay] starts reading. *)
Definition replay_seek (from_offset : string) : result Seek :=
  if String.eqb from_offset "earliest" then Ok (seek_to_beginning no_seek)
  else if String.eqb from_offset "latest" then Ok no_seek
  else offset ← int_of_env from_offset; Ok (seek_to_offset offset no_seek).

(** Both commands run an idempotent consumer without a publisher; the printing handler, over
    the lines printed so far, cannot raise. *)
Definition printing_consumer `{Uuids} {Bytes} (parse : Bytes → result EventEnvelope)
    (consumer_group : string) (messages : list Bytes) :
    prog (option IdempotencyTracker * list Disposition) :=
  let! tracker := tracker_initialize (new_tracker consumer_group []) in
  consume_loop parse None (λ _, Ret tt) messages (Some tracker).

(** The envelopes printed: those of the messages handled. *)
Definition printed {Bytes} (parse : Bytes → result EventEnvelope) (messages : list Bytes)
    (ds : list Disposition) : list EventEnvelope :=
  omap (λ md, match md.2, parse md.1 with Handled, Ok e => Some e | _, _ => None end)
    (zip messages ds).

(** ** [trace_case] *)

Definition _step_to_dict (step : TraceStep) : pyval :=
  VDict [ ("seq", VInt (ts_seq step)); ("actor", VStr (ts_actor step));
          ("case_id", VStr (uuid_str (ts_correlation_id step)));
          ("event_type", VStr (ts_event_type step)); ("outcome", vopt VStr (ts_outcome step));
          ("task_id", opt_uuid (ts_task_id step));
          ("timestamp", VStr (isoformat (ts_timestamp step)));
          ("caused_by", opt_uuid (ts_caused_by step)) ].

Definition step_text (step : TraceStep) : string :=
  str_of_Z (ts_seq step) +:+ ". [" +:+ ts_actor step +:+ "] -> " +:+ ts_event_type step +:+
  match ts_outcome step with Some o => if str_truthy o then " [" +:+ o +:+ "]" else "" | None => "" end +:+
  match ts_task_id step with Some t => " task=" +:+ uuid_str t | None => "" end +:+
  " (causation: " +:+ match ts_caused_by step with Some c => uuid_str c | None => "root" end +:+ ")".

Definition _print_text (steps : list TraceStep) : list Line :=
  match steps with
  | [] => [Out "No trace steps found for the given correlation_id."]
  | _ => map (λ s, Out (step_text s)) steps
  end.

Definition _print_json (steps : list TraceStep) : list Line := [OutJson (VList (map _step_to_dict steps))].

(** [_run]; [None] would be a trace that runs out of fuel ([trace_terminates]). *)
Definition _run (correlation_id : UUID) (as_json : bool) (records : list AuditRecord) : option Exit :=
  match query_by_correlation correlation_id records with
  | [] =>
      let msg := "No audit records found for correlation_id=" +:+ uuid_str correlation_id in
      Some ([if as_json then OutJson (VDict [("error", VStr msg); ("correlation_id", VStr (uuid_str correlation_id))])
             else ErrOut msg], 1)
  | audit_records =>
      steps ← trace_case correlation_id (map aud_original_envelope audit_records);
      Some (if as_json then _print_json steps else _print_text steps, 0)
  end.

Definition main (correlation_id : string) (as_json : bool) (records : list AuditRecord) : option Exit :=
  match parse_uuid correlation_id with
  | Err _ => Some ([ErrOut ("Error: " +:+ py_repr_str correlation_id +:+ " is not a valid UUID.")], 1)
  | Ok u => _run u as_json records
  end.
