(* ===== verification/CliFacts.v ===== *)
(** * What the commands do

    [publish-chain] publishes the causal chain it promises, and the trace of its events is
    the chain; the exit code and the lines of [trace_case]; what the audit queries print
    and in which order. *)

From Stdlib Require Import ZArith Bool Ascii String List Lia Sorted.
From stdpp Require Import base list strings gmap sorting.
From S2P Require Import Prelude.
From S2P Require Import PyFloat.
From S2P Require Import Contracts.
From S2P Require Import Uuid.
From S2P Require Import PyNumber.
From S2P Require Import Idempotency.
From S2P Require Import A2A.
From S2P Require Import Envelope.
From S2P Require Import LlmConfig.
From S2P Require Import Async.
From S2P Require Import Consumer.
From S2P Require Import Execution.
From S2P Require Import Transport.
From S2P Require Import Trace.
From S2P Require Import TraceFacts.
From S2P Require Import Views.
From S2P Require Import Topics.
From S2P Require Import Cli.

Open Scope string_scope.
Open Scope list_scope.
Open Scope Z_scope.
Open Scope prog_scope.

#[local] Set Default Proof Using "Type".

(** ** The chain *)

(** Each event is caused by the one before it, the first by [prev]. *)
Fixpoint linked (prev : option UUID) (es : list EventEnvelope) : Prop :=
  match es with
  | [] => True
  | e :: es => env_causation_id e = prev ∧ linked (Some (env_event_id e)) es
  end.

Section Chain.
Context `{Uuids}.
Context (env : Environment) (Hacks : acks env).

(** The event [publish] builds. *)
Definition chain_event (message : string) (corr_id : UUID) (prev_id : option UUID) (w : World) :
    EventEnvelope := {|
  env_event_id := uuid4 (w_uuids w); env_correlation_id := corr_id; env_causation_id := prev_id;
  env_agent_id := "cli.agent"; env_tenant_id := "poc"; env_timestamp := w_now w;
  env_event_type := "agent.sample.v1"; env_schema_version := "1.0.0";
  env_payload := P_Sample message |}.

Lemma run_publish_chain_event message corr_id prev_id w :
  run env (publish _default_identity (P_Sample message) "agent.sample.v1" corr_id prev_id None) w =
  (Ok (chain_event message corr_id prev_id w),
   mk_world (w_store w) (w_now w) (S (w_uuids w))
     (w_log w ++ [(TOPIC_SAMPLE, chain_event message corr_id prev_id w)])).
Proof using Hacks.
  unfold publish. rewrite run_bind. cbn [run fresh_uuid]. rewrite run_bind. cbn [run now reads].
  rewrite run_bind, run_lift.
  assert (Hb : _build_envelope _default_identity (P_Sample message) "agent.sample.v1" corr_id prev_id
                 (uuid4 (w_uuids w)) (w_now w) = Ok (chain_event message corr_id prev_id w)).
  { unfold _build_envelope, mk_envelope. destruct prev_id; reflexivity. }
  cbn [w_now w_uuids]. rewrite Hb, run_bind, run_lift.
  change (_resolve_topic "agent.sample.v1") with (Ok TOPIC_SAMPLE). cbn [run].
  rewrite Hacks. reflexivity.
Qed.

(** The message of an event of the chain is short enough for the payload's validator. *)
Definition chain_message_ok (length : Z) (i : Z) : Prop :=
  ∃ m, mk_sample ("chain event " +:+ str_of_Z i +:+ " of " +:+ str_of_Z length) = Ok (P_Sample m).

Lemma run_chain length corr_id n i prev_id w :
  (∀ j, i <= j < i + Z.of_nat n → chain_message_ok length j) →
  ∃ es w', run env (chain_loop length corr_id i prev_id n) w = (Ok tt, w') ∧
    w_log w' = w_log w ++ map (pair TOPIC_SAMPLE) es ∧ List.length es = n ∧ linked prev_id es ∧
    Forall (λ e, env_correlation_id e = corr_id) es ∧
    map env_event_id es = map uuid4 (seq (w_uuids w) n).
Proof using Hacks.
  revert i prev_id w. induction n as [|n IH]; intros i prev_id w Hm.
  { exists [], w. cbn. by rewrite app_nil_r. }
  destruct (Hm i) as [m Hi]; [lia|]. cbn [chain_loop]. rewrite run_bind, run_lift, Hi.
  cbv beta iota. rewrite run_bind, run_publish_chain_event. cbv beta iota.
  set (e := chain_event m corr_id prev_id w). set (w1 := mk_world _ _ _ _).
  destruct (IH (i + 1) (Some (env_event_id e)) w1) as (es & w' & Hr & Hl & Hlen & Hlink & Hc & Hids).
  { intros j Hj. apply Hm. lia. }
  exists (e :: es), w'. split; [exact Hr|]. rewrite Hl. cbn. split; [by rewrite <- app_assoc|].
  split; [by rewrite Hlen|]. split; [done|]. split; [by constructor|]. by rewrite Hids.
Qed.
End Chain.

(** ** A chain is traced in its own order *)

Section ChainTrace.
Variable corr_id : UUID.
Variable es : list EventEnvelope.
Hypothesis Hcorr : Forall (λ e, env_correlation_id e = corr_id) es.
Hypothesis Hlinked : linked None es.
Hypothesis Hids : NoDup (map env_event_id es).

Lemma linked_lookup prev l i e :
  linked prev l → l !! i = Some e →
  env_causation_id e = match i with O => prev | S j => env_event_id <$> l !! j end.
Proof.
  revert prev i. induction l as [|x l IH]; intros prev i Hlk Hi; [done|].
  destruct Hlk as [Hx Hl]. destruct i as [|i]; cbn in Hi; [by injection Hi as <-|].
  rewrite (IH _ _ Hl Hi). by destruct i.
Qed.

Lemma chain_relevant : relevant corr_id es = es.
Proof using Hcorr.
  unfold relevant. apply filter_all. intros e He. rewrite list.Forall_forall in Hcorr.
  apply Z.eqb_eq. auto.
Qed.

Lemma chain_id_inj i j a b :
  es !! i = Some a → es !! j = Some b → env_event_id a = env_event_id b → i = j.
Proof using Hids.
  intros Hi Hj Hab. apply (NoDup_lookup (map env_event_id es) i j (env_event_id a)); [done|..].
  - rewrite list_lookup_fmap. by rewrite Hi.
  - rewrite list_lookup_fmap, Hj. cbn. by rewrite Hab.
Qed.

Lemma chain_parent i e :
  es !! S i = Some e → ∃ p, es !! i = Some p ∧ _resolve_parent corr_id es e = Some (env_event_id p).
Proof using Hcorr Hlinked.
  intros Hi. assert (Hlt : (i < length es)%nat) by (apply lookup_lt_Some in Hi; lia).
  destruct (lookup_lt_is_Some_2 es i Hlt) as [p Hp]. exists p. split; [done|].
  pose proof (linked_lookup _ _ _ _ Hlinked Hi) as Hc. cbv beta iota in Hc. rewrite Hp in Hc. cbn in Hc.
  unfold _resolve_parent. rewrite Hc, decide_True; [done|].
  unfold event_ids. rewrite elem_of_list_to_set, chain_relevant.
  apply list_elem_of_fmap_2. by eapply list_elem_of_lookup_2.
Qed.

Lemma linked_not_root l p : linked (Some p) l → List.filter is_root l = [].
Proof.
  revert p. induction l as [|x l IH]; [done|]. intros p [Hx Hl]. cbn. unfold is_root at 1.
  rewrite Hx. cbn. eauto.
Qed.

Lemma chain_roots : roots corr_id es = take 1 es.
Proof using Hcorr Hlinked.
  unfold roots. rewrite chain_relevant. pose proof Hlinked as Hl. revert Hl.
  generalize es. intros [|e l]; [done|]. intros [He Hl].
  cbn [List.filter]. unfold is_root at 1. rewrite He. cbn [bool_of_option negb].
  by rewrite (linked_not_root _ _ Hl).
Qed.

Lemma causal_prefix l :
  causal corr_id es l → (∀ e, e ∈ l → e ∈ es) → NoDup (map env_event_id l) → l = take (length l) es.
Proof using Hcorr Hlinked Hids.
  induction 1 as [|l e Hl IH He]; [done|]. intros Hin Hnd.
  rewrite map_app in Hnd. apply list.NoDup_app in Hnd as (Hnd & Hnew & _).
  assert (Hpre : l = take (length l) es) by (apply IH; [intros; apply Hin; set_solver|done]).
  assert (He' : e ∈ es) by (apply Hin; set_solver).
  apply list_elem_of_lookup_1 in He' as [j Hj].
  assert (Hge : (length l <= j)%nat).
  { destruct (decide (j < length l)%nat) as [Hlt|]; [|lia]. exfalso.
    apply (Hnew (env_event_id e)); [|by left]. apply list_elem_of_fmap_2.
    rewrite Hpre. apply (list_elem_of_lookup_2 _ j). by rewrite lookup_take_lt. }
  assert (Hle : (j <= length l)%nat).
  { destruct He as [Hr|(p & Hp & Hpar)].
    - rewrite chain_roots in Hr. apply list_elem_of_lookup_1 in Hr as [i Hi].
      apply lookup_take_Some in Hi as [Hi Hlt]. assert (j = i) by (by eapply (chain_id_inj j i)). lia.
    - destruct j as [|j]; [lia|]. destruct (chain_parent j e Hj) as (q & Hq & Hq').
      rewrite Hq' in Hpar. injection Hpar as Hpq.
      rewrite Hpre in Hp. apply list_elem_of_lookup_1 in Hp as [i Hi].
      apply lookup_take_Some in Hi as [Hi Hlt].
      assert (j = i) by (by eapply (chain_id_inj j i)). lia. }
  assert (j = length l) as -> by lia. rewrite length_app. cbn [length].
  rewrite Nat.add_1_r, (take_S_r _ _ e) by done. by rewrite <- Hpre.
Qed.

Lemma chain_descends i e : es !! i = Some e → descends corr_id es e.
Proof using Hcorr Hlinked.
  revert e. induction i as [|i IH]; intros e Hi.
  - apply descends_root. rewrite chain_roots. apply (list_elem_of_lookup_2 _ 0).
    by rewrite lookup_take_lt by lia.
  - destruct (chain_parent i e Hi) as (p & Hp & Hpar). apply (descends_child _ _ p); [auto| |done].
    rewrite chain_relevant. by eapply list_elem_of_lookup_2.
Qed.

Lemma chain_order : trace_order corr_id es = Some es.
Proof using Hcorr Hlinked Hids.
  destruct (trace_order_spec corr_id es) as (reached & orphans & -> & Hn & Hc & Hin & Hcomp & Hor & _).
  assert (Hpre : reached = take (length reached) es).
  { apply causal_prefix; [done| |done]. intros e He. rewrite <- chain_relevant. by apply Hin. }
  assert (Hall : ∀ e, e ∈ es → env_event_id e ∈ map env_event_id reached).
  { intros e He. apply Hcomp; [by rewrite chain_relevant|].
    apply list_elem_of_lookup_1 in He as [i Hi]. by eapply chain_descends. }
  assert (Hlen : (length es <= length reached)%nat).
  { rewrite <- (length_map env_event_id es), <- (length_map env_event_id reached).
    apply submseteq_length, NoDup_submseteq; [done|].
    intros u (e & -> & He)%list_elem_of_fmap_1. by apply Hall. }
  assert (Hr : reached = es) by (rewrite Hpre; by apply take_ge).
  assert (Hnil : orphans = []).
  { apply Permutation_nil. symmetry. rewrite Hor, chain_relevant.
    replace (List.filter _ es) with (@nil EventEnvelope); [done|]. symmetry.
    apply filter_none. intros e He. rewrite bool_decide_eq_true_2 by (by apply Hall). done. }
  by rewrite Hr, Hnil, app_nil_r.
Qed.
End ChainTrace.

(** Remark (functional): [publish-chain] publishes what it prints.  With a broker that
    acknowledges, the command publishes the asked number of events under one fresh
    correlation id, which it prints, each caused by the one before it; and the trace of
    the case they form is these events, numbered in the order of their publication. *)
Theorem chain_is_traced `{Uuids} env (n : Z) w :
  acks env → (∀ a b, uuid4 a = uuid4 b → a = b) → (∀ i, 1 <= i <= n → chain_message_ok n i) →
  ∃ corr_id es w',
    run env (publish_chain n) w = (Ok ([Out (uuid_str corr_id)], 0), w') ∧
    w_log w' = w_log w ++ map (pair TOPIC_SAMPLE) es ∧
    length es = Z.to_nat n ∧ linked None es ∧
    trace_case corr_id es = Some (enumerate_steps corr_id es 1 es).
Proof.
  intros Hacks Hinj Hm. unfold publish_chain. rewrite run_bind. cbn [run fresh_uuid].
  set (corr_id := uuid4 (w_uuids w)). set (w1 := mk_world _ _ _ _).
  destruct (run_chain env Hacks n corr_id (Z.to_nat n) 1 None w1) as (es & w' & Hr & Hl & Hlen & Hlk & Hc & Hids).
  { intros j Hj. apply Hm. lia. }
  exists corr_id, es, w'. rewrite run_bind, Hr. split; [done|]. split; [exact Hl|]. split; [exact Hlen|].
  split; [exact Hlk|]. unfold trace_case. rewrite chain_order; [done|exact Hc|exact Hlk|].
  rewrite Hids. apply (NoDup_fmap_2_strong uuid4); [by intros ? ? _ _ ?%Hinj|apply NoDup_seq].
Qed.

(** ** The trace command *)

Lemma print_text_length s steps : length (_print_text (s :: steps)) = S (length steps).
Proof. unfold _print_text. by rewrite length_map. Qed.

(** Remark (functional): the trace command.  It always ends: with code 0 exactly when the
    argument is a UUID some audited event is correlated with, and then it prints the trace
    of the audited events, one line a step, or one JSON list; otherwise it prints one
    message and ends with 1. *)
Theorem trace_command correlation_id as_json records :
  ∃ lines code, main correlation_id as_json records = Some (lines, code) ∧
  match parse_uuid correlation_id with
  | Ok u =>
      match map aud_original_envelope (query_by_correlation u records) with
      | [] => code = 1 ∧ length lines = 1%nat
      | envs => code = 0 ∧ ∃ steps, trace_case u envs = Some steps ∧
          lines = if as_json then _print_json steps else _print_text steps
      end
  | Err _ => code = 1 ∧ length lines = 1%nat
  end.
Proof.
  unfold main. destruct (parse_uuid correlation_id) as [u|e]; [|by eexists _, _].
  unfold _run. destruct (query_by_correlation u records) as [|r rs]; cbn [map]; [by eexists _, _|].
  destruct (trace_terminates u (aud_original_envelope r :: map aud_original_envelope rs)) as [steps Hs].
  rewrite Hs. cbn [mbind option_bind]. eexists _, _. split; [reflexivity|]. split; [done|]. by exists steps.
Qed.

(** ** The queries *)

(** Remark (functional): [query-audit] prints in the order of the topic.  Its help says
    causal order, but a record of an effect that was written before the record of its cause
    is printed before it. *)
Theorem audit_printed_in_topic_order correlation u r1 r2 :
  parse_uuid correlation = Ok u →
  env_correlation_id (aud_original_envelope r1) = u →
  env_correlation_id (aud_original_envelope r2) = u →
  env_causation_id (aud_original_envelope r1) = Some (env_event_id (aud_original_envelope r2)) →
  query_audit correlation [r1; r2] = Ok ([audit_line r1; audit_line r2], 0).
Proof.
  intros Hu H1 H2 _. unfold query_audit. rewrite Hu. cbn [mbind result_bind].
  unfold query_by_correlation. cbn [List.filter]. by rewrite H1, H2, !Z.eqb_refl.
Qed.

(** Remark (error): a missing cause is refused.  [publish-sample --omit-causation --non-root]
    publishes no sample: with a broker that acknowledges, and a correlation that is a UUID
    when one is given, it writes the rejection of the event to the audit topic, with
    reason [missing_causation], and ends with code 1. *)
Theorem missing_causation_audited `{Uuids} env message correlation w :
  is_ok (mk_sample message) → acks env →
  (∀ s, correlation = Some s → str_truthy s = true → is_ok (parse_uuid s)) →
  ∃ a p w', run env (publish_sample message true true correlation) w =
    (Ok ([ErrOut "Rejected: missing_causation — audit record written to audit topic"], 1), w') ∧
    w_log w' = w_log w ++ [(TOPIC_AUDIT, a)] ∧
    env_payload a = P_Audit p ∧ aud_outcome p = aud_rejected ∧
    aud_reason p = Some "missing_causation" ∧ env_causation_id (aud_original_envelope p) = None.
Proof.
  intros [payload Hp] Hacks Hc. unfold publish_sample. rewrite run_bind.
  set (first := match correlation with Some s => _ | None => _ end).
  assert (Hfirst : ∃ u n, run env first w = (Ok u, mk_world (w_store w) (w_now w) n (w_log w))).
  { unfold first. destruct correlation as [s|]; [|by eexists _, _].
    destruct (str_truthy s) eqn:Es; [|by eexists _, _]. destruct (Hc s eq_refl Es) as [u Hu].
    rewrite Hu. exists u, (w_uuids w). by destruct w. }
  destruct Hfirst as (u & n & ->). cbv beta iota. rewrite run_bind. cbn [run].
  rewrite Hp. cbn [andb]. rewrite run_bind. cbn [run fresh_uuid]. rewrite run_bind. cbn [run now reads].
  rewrite run_bind. unfold write_audit.
  rewrite run_task_audit; [|split; vm_compute; reflexivity|by intros _].
  cbv beta iota. cbn [run]. unfold sent_as. rewrite Hacks.
  eexists _, _, _. split; [reflexivity|]. cbn. split; [reflexivity|]. by repeat split.
Qed.

(** Remark (functional): what [health] verifies.  It ends with 0 exactly when the cluster
    answers and three topics exist; ten of the thirteen canonical topics, those of the
    domain events among them, may be missing. *)
Theorem health_checks_three b :
  (health b = 0 ↔ is_ok (bk_describe b) ∧
     ∃ existing, bk_list_topics b = Ok existing ∧
       TOPIC_MESSAGE ∈ existing ∧ TOPIC_AUDIT ∈ existing ∧ TOPIC_SAMPLE ∈ existing) ∧
  health {| bk_describe := Ok tt; bk_create := Err (IOError "create_topics");
            bk_list_topics := Ok [TOPIC_MESSAGE; TOPIC_AUDIT; TOPIC_SAMPLE] |} = 0.
Proof.
  split; [|by vm_compute]. unfold health, is_ok. destruct (bk_describe b) as [[]|e].
  2: { split; [done|]. by intros [[] _]. }
  destruct (bk_list_topics b) as [l|e].
  2: { split; [done|]. by intros (_ & ? & ? & _). }
  cbn [forallb]. split.
  - intros H. split; [by eexists|]. exists l. split; [done|]. rewrite <- !str_in_spec.
    destruct (str_in TOPIC_MESSAGE l), (str_in TOPIC_AUDIT l), (str_in TOPIC_SAMPLE l); done.
  - intros (_ & ? & [= <-] & H1 & H2 & H3). apply str_in_spec in H1, H2, H3. by rewrite H1, H2, H3.
Qed.
