(* ===== verification/Client.v ===== *)
(** * The A2A client

    [src/agent_foundation/runtime/client.py]: [A2AClient.submit] publishes a task
    request on the target's endpoint topic and awaits the result that carries its
    task id.  Clock readings are integers (microseconds).  What the consumer's
    polls yield is given: for each turn of the loop the clock at its top, the
    message received or none within the poll, and the clock afterwards. *)

From Stdlib Require Import ZArith Bool Ascii String List Lia.
From stdpp Require Import base list strings gmap.
From S2P Require Import Prelude.
From S2P Require Import PyFloat.
From S2P Require Import Contracts.
From S2P Require Import Uuid.
From S2P Require Import A2A.
From S2P Require Import Envelope.
From S2P Require Import Async.
From S2P Require Import Execution.
From S2P Require Import DecisionBudget.
From S2P Require Import Transport.

Open Scope string_scope.
Open Scope list_scope.
Open Scope Z_scope.
Open Scope prog_scope.

Record Poll (Bytes : Type) := {
  poll_top : Z;
  poll_message : option Bytes;
  poll_after : Z;
}.
Arguments Build_Poll {Bytes}.
Arguments poll_top {Bytes} _.
Arguments poll_message {Bytes} _.
Arguments poll_after {Bytes} _.

Section Client.
Context `{Uuids}.
Context {Bytes : Type} (parse_envelope : Bytes → result EventEnvelope).

(** The task result in a message, if it is one. *)
Definition result_in (raw : Bytes) : option TaskResult :=
  match parse_envelope raw with
  | Ok e => match env_payload e with P_TaskResult r => Some r | _ => None end
  | Err _ => None
  end.

(** [str(timeout_s)] *)
Variable timeout_text : string.

(** The [TimeoutError]. *)
Definition timeout_error (task_id : UUID) : exn :=
  IOError ("No result for task_id=" +:+ uuid_str task_id +:+ " within " +:+ timeout_text +:+ "s").

(** [_await_result]; [None] while neither a result nor the deadline has come. *)
Fixpoint _await_result (task_id : UUID) (deadline : Z) (polls : list (Poll Bytes)) :
    option (result TaskResult) :=
  match polls with
  | [] => None
  | p :: polls =>
      if deadline - poll_top p <=? 0 then Some (Err (timeout_error task_id))
      else
        match poll_message p with
        | None =>
            if deadline <=? poll_after p then Some (Err (timeout_error task_id))
            else _await_result task_id deadline polls
        | Some raw =>
            match result_in raw with
            | Some r => if tres_task_id r =? task_id then Some (Ok r)
                        else _await_result task_id deadline polls
            | None => _await_result task_id deadline polls
            end
        end
  end.

(** The polls of the [n]-th attempt, and its start on the loop's clock. *)
Variable polls : nat → list (Poll Bytes).
Variable start : nat → Z.
Variable identity : AgentIdentity.
Variable timeout : Z.

(** [_do_submit]: publish, then wait. *)
Definition _do_submit (attempt : nat) (req : TaskRequest) (correlation_id causation_id : UUID)
    (target_topic : string) : prog (option TaskResult) :=
  let! _ := publish identity (P_TaskRequest req) "agent.task_request.v1" correlation_id
              (Some causation_id) (Some target_topic) in
  match _await_result (tr_task_id req) (start attempt + timeout) (polls attempt) with
  | Some (Ok r) => Ret (Some r)
  | Some (Err e) => Raise e
  | None => Ret None
  end.

Definition id_or_fresh (given : option UUID) : prog UUID :=
  match given with Some u => Ret u | None => fresh_uuid end.

(** [submit]; [spans]: could the tracing span be built? *)
Definition submit (spans : bool) (target_agent_id capability : string) (input : A2AMessage)
    (correlation_id causation_id task_id : option UUID) : prog (option TaskResult) :=
  let! resolved_task_id := id_or_fresh task_id in
  let! resolved_correlation_id := id_or_fresh correlation_id in
  let resolved_causation_id := default resolved_correlation_id causation_id in
  let target_topic := endpoint_topic target_agent_id in
  let req := {|
    tr_task_id := resolved_task_id; tr_capability := capability;
    tr_requester_agent_id := id_agent_id identity; tr_target_agent_id := target_agent_id;
    tr_input := input |} in
  let attempt n := _do_submit n req resolved_correlation_id resolved_causation_id target_topic in
  if spans then catch (attempt 0%nat) (λ _, attempt 1%nat) else attempt 0%nat.

(** ** Waiting *)

(** The message that ends the wait: the first result with the task's id that comes
    before a turn of the loop finds the deadline passed. *)
Lemma await_result_sound task_id deadline ps r :
  _await_result task_id deadline ps = Some (Ok r) →
  tres_task_id r = task_id ∧
  ∃ before p after raw, ps = before ++ p :: after ∧ poll_message p = Some raw ∧
    result_in raw = Some r ∧ poll_top p < deadline ∧
    ∀ q, q ∈ before → poll_top q < deadline ∧
      ∀ raw' r', poll_message q = Some raw' → result_in raw' = Some r' → tres_task_id r' ≠ task_id.
Proof.
  induction ps as [|p ps IH]; cbn [_await_result]; [done|].
  destruct (Z.leb_spec (deadline - poll_top p) 0) as [|Htop]; [done|].
  assert (Hskip : _await_result task_id deadline ps = Some (Ok r) →
    (∀ raw' r', poll_message p = Some raw' → result_in raw' = Some r' → tres_task_id r' ≠ task_id) →
    tres_task_id r = task_id ∧
    ∃ before p0 after raw, p :: ps = before ++ p0 :: after ∧ poll_message p0 = Some raw ∧
      result_in raw = Some r ∧ poll_top p0 < deadline ∧
      ∀ q, q ∈ before → poll_top q < deadline ∧
        ∀ raw' r', poll_message q = Some raw' → result_in raw' = Some r' → tres_task_id r' ≠ task_id).
  { intros Hr Hno. destruct (IH Hr) as (Ht & b & p0 & a & raw & -> & H1 & H2 & H3 & H4).
    split; [done|]. exists (p :: b), p0, a, raw. split; [done|]. do 3 (split; [done|]).
    intros q [->|Hq]%elem_of_cons; [by split; [lia|]|by apply H4]. }
  destruct (poll_message p) as [raw|] eqn:Hm.
  - destruct (result_in raw) as [r'|] eqn:Hr'.
    + destruct (Z.eqb_spec (tres_task_id r') task_id) as [Heq|Hne].
      * intros [= ->]. split; [done|]. exists [], p, ps, raw.
        split_and!; [done..|lia|by intros q ?%not_elem_of_nil].
      * intros Hr. apply Hskip; [done|]. intros ? ? [= <-] Hx. congruence.
    + intros Hr. apply Hskip; [done|]. intros ? ? [= <-] Hx. congruence.
  - destruct (deadline <=? poll_after p); [done|]. intros Hr. apply Hskip; done.
Qed.

(** The wait ends: some turn of the loop starts after the deadline. *)
Lemma await_result_ends task_id deadline ps p :
  p ∈ ps → deadline <= poll_top p → is_Some (_await_result task_id deadline ps).
Proof.
  intros Hin Hp. induction ps as [|q ps IH]; [by apply not_elem_of_nil in Hin|]. cbn.
  destruct (Z.leb_spec (deadline - poll_top q) 0); [by eexists|].
  apply elem_of_cons in Hin as [->|Hin]; [lia|].
  destruct (poll_message q) as [raw|].
  - destruct (result_in raw) as [r|]; [|by apply IH]. destruct (_ =? _); [by eexists|by apply IH].
  - destruct (_ <=? _); [by eexists|by apply IH].
Qed.

(** ** Submitting *)

Context (env : Environment) (Hacks : acks env) (Hid : valid_identity identity).

Abbreviation request_topic target := (endpoint_topic target).

(** The request a submission puts on the target's topic, at world [w]. *)
Definition request_event (req : TaskRequest) (k c : UUID) (w : World) : EventEnvelope :=
  event_by identity (P_TaskRequest req) "agent.task_request.v1" k (Some c) w.

Lemma run_do_submit n req k c topic w :
  run env (_do_submit n req k c topic) w =
  (match _await_result (tr_task_id req) (start n + timeout) (polls n) with
   | Some (Ok r) => Ok (Some r) | Some (Err e) => Err e | None => Ok None end,
   delivered topic (request_event req k c w) w).
Proof using Hacks Hid.
  unfold _do_submit. destruct Hid as [Ha Ht].
  assert (Hp : run env (publish identity (P_TaskRequest req) "agent.task_request.v1" k (Some c)
                          (Some topic)) w =
               (Ok (request_event req k c w), delivered topic (request_event req k c w) w)).
  { apply (run_publish_valid env _ _ _ _ _ (Some topic) _ M_TaskRequest topic Hacks);
      [reflexivity..|]. by apply mk_envelope_ok. }
  rewrite run_bind, Hp. by destruct (_await_result _ _ _) as [[r|e]|].
Qed.

(** Remark (error): a submission is not idempotent on the wire.  With tracing on, the
    request is published once when the wait of the first attempt yields a result;
    when it fails, with a timeout like with any other error, the request is
    published a second time under the same task id and the wait starts over, and
    it is the second wait that the caller sees. *)
Theorem failed_submission_is_repeated target capability input k c t w :
  let req := {| tr_task_id := t; tr_capability := capability;
                tr_requester_agent_id := id_agent_id identity;
                tr_target_agent_id := target; tr_input := input |} in
  let wait n := _await_result t (start n + timeout) (polls n) in
  let submission := run env (submit true target capability input (Some k) (Some c) (Some t)) w in
  let sent := λ w, (request_topic target, request_event req k c w) in
  match wait 0%nat with
  | Some (Ok r) => fst submission = Ok (Some r) ∧ w_log (snd submission) = w_log w ++ [sent w]
  | None => fst submission = Ok None ∧ w_log (snd submission) = w_log w ++ [sent w]
  | Some (Err _) =>
      w_log (snd submission) = w_log w ++ [sent w; sent (delivered (request_topic target) (request_event req k c w) w)] ∧
      fst submission = match wait 1%nat with
                       | Some (Ok r) => Ok (Some r)
                       | Some (Err e) => Err e
                       | None => Ok None
                       end
  end.
Proof using Hacks Hid.
  cbv zeta. unfold submit. cbn [id_or_fresh bind default]. cbv zeta. rewrite run_catch, run_do_submit.
  cbn [tr_task_id]. destruct (_await_result t (start 0%nat + timeout) (polls 0%nat)) as [[r|e]|];
    [done| |done].
  rewrite run_do_submit. cbn [fst snd delivered w_log]. split; [by rewrite <- app_assoc|].
  by destruct (_await_result _ _ _) as [[]|].
Qed.
End Client.
