(* ===== verification/StoreFacts.v ===== *)
(** * Customer-Resolution agent: properties of the case store

    The store's methods as a step relation, with the structural invariant they
    keep, the lifecycle order they respect, the exclusive claim, the attachment of
    results and optimistic concurrency. *)

From Stdlib Require Import ZArith Bool Ascii String List Lia.
From stdpp Require Import base list strings gmap relations.
From S2P Require Import Prelude.
From S2P Require Import PyFloat.
From S2P Require Import Contracts.
From S2P Require Import CaseModels.
From S2P Require Import StateStore.

Open Scope string_scope.
Open Scope list_scope.
Open Scope Z_scope.

(** ** The methods as steps *)

(** A method that raises leaves the store as it was. *)
Definition after (st : CaseStore) (r : result CaseStore) : CaseStore :=
  match r with Ok st' => st' | Err _ => st end.

(** Every mutating method but [transition], which no handler calls. *)
Inductive store_step : CaseStore → CaseStore → Prop :=
| step_create st k ticket customer amount currency reason t :
    store_step st (snd (get_or_create st k ticket customer k amount currency reason t))
| step_save st k v t : store_step st (after st (save st k v t))
| step_add st k task : store_step st (after st (add_pending_task st k task))
| step_apply st k task f t : store_step st (snd (apply_result st k task f t))
| step_claim st k t : store_step st (snd (claim_decision st k t))
| step_fail st k task b reason t : store_step st (mark_slot_failed st k task b reason t)
| step_park_billing st q p : store_step st (park_billing_result st q p)
| step_park_risk st q p : store_step st (park_risk_result st q p)
| step_deadline st k t : store_step st (set_deadline st k t).

Record store_wf (st : CaseStore) : Prop := {
  wf_slot : ∀ k c, cs_cases st !! k = Some c → rc_case_id c = k ∧ rc_correlation_id c = k;
  wf_order : NoDup (cs_order st) ∧ ∀ k, k ∈ cs_order st ↔ is_Some (cs_cases st !! k);
  wf_index : ∀ q k, cs_by_correlation st !! q = Some k ↔ k = q ∧ is_Some (cs_cases st !! k);
  wf_tasks : ∀ task k, cs_by_task_id st !! task = Some k → is_Some (cs_cases st !! k);
  wf_parked : (length (cs_parked_billing st) <= _PARKED_BUFFER_MAX)%nat ∧
    (length (cs_parked_risk st) <= _PARKED_BUFFER_MAX)%nat;
}.

Lemma is_some_alter {A} (f : A → A) k i (m : gmap UUID A) :
  is_Some (alter f k m !! i) ↔ is_Some (m !! i).
Proof. rewrite lookup_alter_is_Some. done. Qed.

Lemma wf_update k f st :
  (∀ c, rc_case_id (f c) = rc_case_id c) → (∀ c, rc_correlation_id (f c) = rc_correlation_id c) →
  store_wf st → store_wf (update_case k f st).
Proof.
  intros H1 H2 [Hs [Hn Ho] Hi Ht Hp]. constructor; cbn; try done.
  - intros i c. rewrite lookup_alter_Some. intros [(-> & c' & Hc & ->)|[_ Hc]]; [|by apply Hs].
    rewrite H1, H2. by apply Hs.
  - split; [done|]. intros i. by rewrite is_some_alter.
  - intros q i. by rewrite is_some_alter.
  - intros task i. rewrite is_some_alter. apply Ht.
Qed.

Lemma wf_put k case st :
  rc_case_id case = k → rc_correlation_id case = k → store_wf st → store_wf (put_case k case st).
Proof.
  intros H1 H2 [Hs [Hn Ho] Hi Ht Hp]. constructor; cbn; try done.
  - intros i c. rewrite lookup_insert_Some. intros [[<- <-]|[_ H]]; [done|by apply Hs].
  - case_bool_decide as Hk.
    + split; [done|]. intros i. rewrite lookup_insert_is_Some, Ho.
      destruct (decide (k = i)) as [->|]; tauto.
    + split.
      * apply NoDup_app. split; [done|]. split; [|apply NoDup_singleton].
        intros i Hin Hi'%list_elem_of_In. destruct Hi' as [<-|[]]. by apply Hk, Ho.
      * intros i. rewrite elem_of_app, lookup_insert_is_Some, Ho, (list_elem_of_In [k]); cbn [In].
        destruct (decide (k = i)) as [->|]; naive_solver.
  - intros q i. rewrite H2, lookup_insert_Some, lookup_insert_is_Some, Hi.
    destruct (decide (k = q)) as [->|Hq]; naive_solver.
  - intros task i Hti. rewrite lookup_insert_is_Some. destruct (decide (k = i)); [by left|].
    right. split; [done|by apply (Ht task)].
Qed.

Lemma deque_append_bound {A} (l : list A) x :
  (length (deque_append l x) <= _PARKED_BUFFER_MAX)%nat.
Proof. unfold deque_append. rewrite length_drop. lia. Qed.

Lemma touch_ids t c : rc_case_id (touch t c) = rc_case_id c ∧
  rc_correlation_id (touch t c) = rc_correlation_id c.
Proof. done. Qed.

Lemma apply_ids task f t c : rc_case_id (apply_to_case task f t c) = rc_case_id c ∧
  rc_correlation_id (apply_to_case task f t c) = rc_correlation_id c.
Proof. unfold apply_to_case. by destruct f, (_ && _). Qed.

Lemma fail_ids task b reason t c : rc_case_id (fail_slot task b reason t c) = rc_case_id c ∧
  rc_correlation_id (fail_slot task b reason t c) = rc_correlation_id c.
Proof. unfold fail_slot. by destruct b, (can_transition_to_ready _). Qed.

Lemma step_wf st st' : store_step st st' → store_wf st → store_wf st'.
Proof.
  intros Hstep Hw. destruct Hstep; unfold after.
  - unfold get_or_create. set (create := if bool_decide _ then _ else _).
    assert (Hc : store_wf (snd create)).
    { unfold create. case_bool_decide; [done|by apply wf_put]. }
    destruct (cs_by_correlation st !! k); [|done]. by case_bool_decide.
  - unfold save. destruct (cs_cases st !! k) as [c|] eqn:E; [|done].
    destruct (wf_slot _ Hw _ _ E) as [H1 H2]. rewrite H1, E.
    destruct v as [v|]; [destruct (negb _); [done|]|]; by apply wf_put.
  - unfold add_pending_task. destruct (cs_cases st !! k) as [c|] eqn:E; [|done].
    destruct (wf_update k (λ c, set_pending_tasks ({[task]} ∪ rc_pending_tasks c) c) st
                (λ _, eq_refl) (λ _, eq_refl) Hw) as [Hs Ho Hi Ht Hp].
    constructor; try done. cbn in *. intros task' i. rewrite lookup_insert_Some.
    intros [[<- <-]|[_ H]]; [rewrite is_some_alter; by eexists|by apply (Ht task')].
  - unfold apply_result. destruct (cs_cases st !! k); [|done]. destruct (closed_status _); [done|].
    destruct (negb _); [done|]. apply wf_update; [..|done]; intros; apply apply_ids.
  - unfold claim_decision. destruct (cs_cases st !! k); [|done].
    destruct (closed_status _); [done|]. by apply wf_update.
  - unfold mark_slot_failed. destruct (cs_cases st !! k); [|done].
    destruct (is_terminal _); [done|]. apply wf_update; [..|done]; intros; apply fail_ids.
  - destruct Hw as [Hs Ho Hi Ht Hp]. constructor; try done. cbn.
    split; [apply deque_append_bound|apply Hp].
  - destruct Hw as [Hs Ho Hi Ht Hp]. constructor; try done. cbn.
    split; [apply Hp|apply deque_append_bound].
  - by apply wf_update.
Qed.

Lemma empty_wf : store_wf empty_store.
Proof.
  constructor; cbn.
  - intros k c. by rewrite lookup_empty.
  - split; [constructor|]. intros k. rewrite lookup_empty, is_Some_alt. split; [|done].
    intros H. by apply elem_of_nil in H.
  - intros q k. rewrite !lookup_empty. split; [done|]. by intros [_ [? ?]].
  - intros task k. by rewrite lookup_empty.
  - unfold _PARKED_BUFFER_MAX. lia.
Qed.

Lemma steps_wf st : rtc store_step empty_store st → store_wf st.
Proof.
  intros Hr. pose proof empty_wf as Hw. revert Hw.
  induction Hr as [|x y z Hxy _ IH]; [done|]. intros Hw. apply IH. by eapply step_wf.
Qed.

(** Remark (invariant): every sequence of the store's methods from the empty store
    keeps it well formed: cases in their own slots, the dict's order listing each
    slot once, the correlation index total and exact, every indexed task in an
    existing case, and both parking buffers within 200 entries. *)
Theorem store_methods_wf st : rtc store_step empty_store st → store_wf st.
Proof. apply steps_wf. Qed.

(** ** The exclusive claim *)

(** What one step does to the case of a slot. *)
Inductive case_step (c c' : ResolutionCase) : Prop :=
| same_status : rc_status c' = rc_status c → rc_version c <= rc_version c' → case_step c c'
| moved : closed_status (rc_status c) = false →
    rc_status c' = READY_FOR_DECISION ∨ rc_status c' = DECIDED →
    can_transition_to_ready (rc_status c) = true ∨ rc_status c' = DECIDED →
    rc_version c < rc_version c' → case_step c c'.

Lemma case_step_refl c : case_step c c.
Proof. apply same_status; [done|lia]. Qed.

Lemma apply_case_step task f t c :
  closed_status (rc_status c) = false → case_step c (apply_to_case task f t c).
Proof.
  intros Hc. unfold apply_to_case.
  destruct f; destruct (bool_decide _); cbn -[can_transition_to_ready];
    try (apply same_status; cbn; [done|lia]);
    destruct (can_transition_to_ready (rc_status c)) eqn:E;
    solve [apply same_status; cbn; [done|lia] | apply moved; cbn; auto; lia].
Qed.

Lemma ready_not_closed s : can_transition_to_ready s = true → closed_status s = false.
Proof. by destruct s. Qed.

Lemma fail_case_step task b reason t c : case_step c (fail_slot task b reason t c).
Proof.
  unfold fail_slot.
  destruct b; cbn -[can_transition_to_ready]; destruct (can_transition_to_ready _) eqn:E;
    solve [apply same_status; cbn; [done|lia]
          | apply moved; cbn; auto using ready_not_closed; lia].
Qed.

Lemma update_slot st k f i c :
  cs_cases st !! i = Some c → (k = i → case_step c (f c)) →
  ∃ c', cs_cases (update_case k f st) !! i = Some c' ∧ case_step c c'.
Proof.
  intros Hc Hf. cbn. destruct (decide (k = i)) as [->|Hk].
  - exists (f c). rewrite lookup_alter_eq, Hc. auto.
  - exists c. rewrite lookup_alter_ne by done. auto using case_step_refl.
Qed.

Lemma put_slot st k case i c :
  cs_cases st !! i = Some c → (k = i → case_step c case) →
  ∃ c', cs_cases (put_case k case st) !! i = Some c' ∧ case_step c c'.
Proof.
  intros Hc Hf. cbn. destruct (decide (k = i)) as [->|Hk].
  - exists case. rewrite lookup_insert_eq. auto.
  - exists c. rewrite lookup_insert_ne by done. auto using case_step_refl.
Qed.

(** Every step keeps every slot filled and moves its case by a [case_step]. *)
Lemma step_slot st st' i c :
  store_step st st' → store_wf st → cs_cases st !! i = Some c →
  ∃ c', cs_cases st' !! i = Some c' ∧ case_step c c'.
Proof.
  intros Hstep Hw Hc. pose proof (case_step_refl c) as Hrefl.
  destruct Hstep; unfold after.
  - unfold get_or_create. set (create := if bool_decide _ then _ else _).
    assert (Hn : ∃ c', cs_cases (snd create) !! i = Some c' ∧ case_step c c').
    { unfold create. case_bool_decide as Hk; [by eauto|]. apply put_slot; [done|].
      intros ->. destruct Hk. by eexists. }
    destruct (cs_by_correlation st !! k); [|done]. case_bool_decide; [by eauto|done].
  - unfold save. destruct (cs_cases st !! k) as [c0|] eqn:E; [|by eauto].
    destruct (wf_slot _ Hw _ _ E) as [H1 _]. rewrite H1, E.
    assert (Hp : k = i → case_step c (set_updated_at t (set_version (rc_version c0 + 1) c0))).
    { intros ->. rewrite Hc in E. injection E as <-. apply same_status; cbn; [done|lia]. }
    destruct v as [v|]; [destruct (negb _); [by eauto|]|]; by apply put_slot.
  - unfold add_pending_task. destruct (cs_cases st !! k) as [c0|] eqn:E; [|by eauto].
    apply (update_slot st k (λ c, set_pending_tasks ({[task]} ∪ rc_pending_tasks c) c)); [done|].
    intros _. apply same_status; [done|cbn; lia].
  - unfold apply_result. destruct (cs_cases st !! k) as [c0|] eqn:E; [|by eauto].
    destruct (closed_status _) eqn:Ecl; [by eauto|].
    destruct (negb _); [by eauto|]. apply update_slot; [done|]. intros ->.
    rewrite Hc in E. injection E as <-. by apply apply_case_step.
  - unfold claim_decision. destruct (cs_cases st !! k) as [c0|] eqn:E; [|by eauto].
    destruct (closed_status _) eqn:Ecl; [by eauto|]. apply update_slot; [done|]. intros ->.
    rewrite Hc in E. injection E as <-. apply moved; cbn; auto; lia.
  - unfold mark_slot_failed. destruct (cs_cases st !! k) as [c0|] eqn:E; [|by eauto].
    destruct (is_terminal _); [by eauto|]. apply update_slot; [done|]. intros _.
    apply fail_case_step.
  - by eauto.
  - by eauto.
  - apply update_slot; [done|]. intros _. apply same_status; [done|cbn; lia].
Qed.

Lemma steps_slot st st' i c :
  rtc store_step st st' → store_wf st → cs_cases st !! i = Some c →
  ∃ c', cs_cases st' !! i = Some c' ∧ rc_version c <= rc_version c' ∧
    (closed_status (rc_status c) = true → rc_status c' = rc_status c) ∧
    store_wf st'.
Proof.
  intros Hr. revert c. induction Hr as [st|st st1 st2 Hs _ IH]; intros c Hw Hc.
  { exists c. split; [done|]. split; [lia|]. done. }
  destruct (step_slot _ _ _ _ Hs Hw Hc) as (c1 & Hc1 & Hcs).
  destruct (IH c1 (step_wf _ _ Hs Hw) Hc1) as (c2 & Hc2 & Hv & Hcl & Hw2).
  exists c2. destruct Hcs as [He Hle|Ho Ht Hf Hlt].
  - split; [done|]. split; [lia|]. split; [|done]. intros Hx. rewrite <- He. apply Hcl.
    by rewrite He.
  - split; [done|]. split; [lia|]. split; [|done]. congruence.
Qed.

Lemma claim_opens st k t st' :
  claim_decision st k t = (true, st') →
  ∃ c, cs_cases st' !! k = Some c ∧ rc_status c = DECIDED.
Proof.
  unfold claim_decision. destruct (cs_cases st !! k) as [c|] eqn:E; [|discriminate].
  destruct (closed_status _); [discriminate|]. intros [= <-]. cbn.
  rewrite lookup_alter_eq, E. by eexists.
Qed.

(** Every mutating method of the store, [transition] included. *)
Definition any_method (st st' : CaseStore) : Prop :=
  store_step st st' ∨ ∃ k to t, st' = after st (transition st k to t).

(** Every mutating method, [transition] only on cases other than [k]. *)
Definition method_but (k : UUID) (st st' : CaseStore) : Prop :=
  store_step st st' ∨ ∃ k' to t, k' ≠ k ∧ st' = after st (transition st k' to t).

Lemma transition_result st k to t :
  after st (transition st k to t) = st ∨
  after st (transition st k to t) = update_case k (λ c, touch t (set_status to c)) st.
Proof.
  unfold transition. destruct (cs_cases st !! k) as [c|]; [|by left].
  destruct (assert_transition _ _); [by right|by left].
Qed.

Lemma transition_wf st k to t : store_wf st → store_wf (after st (transition st k to t)).
Proof. intros Hw. destruct (transition_result st k to t) as [-> | ->]; [done|by apply wf_update]. Qed.

Lemma methods_wf st : rtc any_method empty_store st → store_wf st.
Proof.
  intros Hr. pose proof empty_wf as Hw. revert Hw.
  induction Hr as [|x y z Hxy _ IH]; [done|]. intros Hw. apply IH.
  destruct Hxy as [Hs|(k & to & t & ->)]; [by eapply step_wf|by apply transition_wf].
Qed.

(** A decided case stays decided under every method but its own [transition]. *)
Lemma decided_stays k st st' :
  rtc (method_but k) st st' → store_wf st →
  (∃ c, cs_cases st !! k = Some c ∧ rc_status c = DECIDED) →
  ∃ c, cs_cases st' !! k = Some c ∧ rc_status c = DECIDED.
Proof.
  induction 1 as [|st st1 st2 [Hs|(k' & to & t & Hk & ->)] _ IH]; [done|intros Hw (c & Hc & Hd)..].
  - apply IH; [by eapply step_wf|]. destruct (step_slot _ _ _ _ Hs Hw Hc) as (c1 & Hc1 & Hcs).
    exists c1. split; [done|]. destruct Hcs as [He _|Ho _ _ _]; [by rewrite He|by rewrite Hd in Ho].
  - apply IH; [by apply transition_wf|]. exists c. split; [|done].
    destruct (transition_result st k' to t) as [-> | ->]; [done|]. cbn. by rewrite lookup_alter_ne.
Qed.

(** C9 (safety): the claim is exclusive.  From the empty store, after any sequence of
    the store's mutating methods ([transition] included), let a handler win the claim
    of a case, and let any further mutating methods run, on this case or on others,
    [transition] of this same case being the only one left out (no handler calls it;
    [transition_reopens_the_claim] shows what it would do).  Then the case is still
    DECIDED, and every further claim of it fails and changes nothing. *)
Theorem claim_is_exclusive st k t st1 st2 t' :
  rtc any_method empty_store st → claim_decision st k t = (true, st1) →
  rtc (method_but k) st1 st2 →
  claim_decision st2 k t' = (false, st2) ∧
  ∃ c, cs_cases st2 !! k = Some c ∧ rc_status c = DECIDED.
Proof.
  intros H0 Hclaim Hr. assert (Hs : store_step st st1).
  { replace st1 with (snd (claim_decision st k t)) by by rewrite Hclaim. constructor. }
  destruct (decided_stays k st1 st2 Hr (step_wf _ _ Hs (methods_wf _ H0)) (claim_opens _ _ _ _ Hclaim))
    as (c2 & Hc2 & Hd2).
  split; [|by eexists]. unfold claim_decision. by rewrite Hc2, Hd2.
Qed.

(** A handler that asks for the claim of case [k] gets it. *)
Definition claimable (st : CaseStore) (k : UUID) : Prop :=
  ∀ t, fst (claim_decision st k t) = true.

(** Remark (safety): [transition] of the claimed case, the one step outside that
    sequence, undoes the claim.  The lifecycle's own next step of a decided case, to RESPONSE_DRAFTED,
    makes it claimable a second time. *)
Theorem transition_reopens_the_claim st k c t :
  cs_cases st !! k = Some c → rc_status c = DECIDED →
  ¬ claimable st k ∧ ∃ st', transition st k RESPONSE_DRAFTED t = Ok st' ∧ claimable st' k.
Proof.
  intros Hc Hd. split.
  - intros H. specialize (H t). unfold claim_decision in H. by rewrite Hc, Hd in H.
  - unfold transition. rewrite Hc, Hd. cbn [assert_transition can_transition].
    eexists. split; [reflexivity|]. intros t'. unfold claim_decision. cbn.
    by rewrite lookup_alter_eq, Hc.
Qed.

(** ** Optimistic concurrency *)

(** Remark (safety): optimistic concurrency loses no update.  When a writer that read
    version [v] has saved, every later save that still expects [v] raises
    [CaseSaveConflict], whatever happened to the store in between. *)
Theorem stale_save_conflicts st k v t st1 st2 t' :
  rtc store_step empty_store st → save st k (Some v) t = Ok st1 → rtc store_step st1 st2 →
  ∃ msg, save st2 k (Some v) t' = Err (CaseSaveConflict msg).
Proof.
  intros H0 Hsave Hr. pose proof (steps_wf _ H0) as Hw.
  assert (Hs : store_step st st1).
  { replace st1 with (after st (save st k (Some v) t)) by by rewrite Hsave. constructor. }
  unfold save in Hsave. destruct (cs_cases st !! k) as [c|] eqn:E; [|discriminate].
  destruct (wf_slot _ Hw _ _ E) as [H1 _]. rewrite H1, E in Hsave.
  destruct (negb _) eqn:Ev; [discriminate|]. injection Hsave as <-.
  apply negb_false_iff, Z.eqb_eq in Ev.
  destruct (steps_slot _ st2 k (set_updated_at t (set_version (rc_version c + 1) c)) Hr)
    as (c2 & Hc2 & Hv & _ & Hw2).
  - by eapply step_wf.
  - cbn. apply lookup_insert_eq.
  - destruct (wf_slot _ Hw2 _ _ Hc2) as [H2 _]. cbn in Hv.
    unfold save. rewrite Hc2, H2, Hc2.
    destruct (rc_version c2 =? v) eqn:E2; [apply Z.eqb_eq in E2; lia|]. by eexists.
Qed.

(** ** Attaching results *)

Definition open_case (st : CaseStore) (k : UUID) (c : ResolutionCase) : Prop :=
  cs_cases st !! k = Some c ∧ closed_status (rc_status c) = false.

Lemma apply_open st k task f t c :
  open_case st k c → task ∈ rc_pending_tasks c →
  apply_result st k task f t = (ATTACHED, update_case k (apply_to_case task f t) st).
Proof.
  intros [Hc Ho] Hp. unfold apply_result. rewrite Hc, Ho, bool_decide_eq_true_2 by done.
  reflexivity.
Qed.

Lemma apply_pending task f t c :
  rc_pending_tasks (apply_to_case task f t c) = rc_pending_tasks c ∖ {[task]}.
Proof. unfold apply_to_case. by destruct f, (_ && _). Qed.

(** The answer of [apply_result], read off the case of the slot. *)
Definition attach_answer (slot : option ResolutionCase) (task : UUID) : AttachOutcome :=
  match slot with
  | None => UNKNOWN_CASE
  | Some c =>
      if closed_status (rc_status c) then DUPLICATE
      else if bool_decide (task ∈ rc_pending_tasks c) then ATTACHED else DUPLICATE
  end.

Lemma apply_answer st k task f t :
  fst (apply_result st k task f t) = attach_answer (cs_cases st !! k) task.
Proof.
  unfold apply_result, attach_answer. destruct (cs_cases st !! k); [|done].
  destruct (closed_status _); [done|]. by destruct (bool_decide _).
Qed.

Lemma attach_answer_attached st k task :
  attach_answer (cs_cases st !! k) task = ATTACHED →
  ∃ c, open_case st k c ∧ task ∈ rc_pending_tasks c.
Proof.
  unfold attach_answer. destruct (cs_cases st !! k) as [c|] eqn:E; [|discriminate].
  destruct (closed_status _) eqn:Ec; [discriminate|].
  case_bool_decide as Hp; [|discriminate]. by exists c.
Qed.

Lemma apply_others st k task f t i :
  i ≠ k → cs_cases (snd (apply_result st k task f t)) !! i = cs_cases st !! i.
Proof.
  intros Hi. unfold apply_result. destruct (cs_cases st !! k); [|done].
  destruct (closed_status _); [done|]. destruct (negb _); [done|]. cbn.
  by rewrite lookup_alter_ne.
Qed.

Lemma apply_finding task f t c :
  match f with
  | inl b => rc_billing_result (apply_to_case task f t c) = Some b ∧
      rc_risk_result (apply_to_case task f t c) = rc_risk_result c
  | inr r => rc_risk_result (apply_to_case task f t c) = Some r ∧
      rc_billing_result (apply_to_case task f t c) = rc_billing_result c
  end.
Proof. unfold apply_to_case. by destruct f, (_ && _). Qed.

Lemma apply_status task f t c :
  rc_status (apply_to_case task f t c) =
  if bool_decide (rc_pending_tasks c ∖ {[task]} = ∅) && can_transition_to_ready (rc_status c)
  then READY_FOR_DECISION else rc_status c.
Proof.
  unfold apply_to_case. destruct f; cbn -[can_transition_to_ready]; by destruct (_ && _).
Qed.

(** What attaching [f] as the answer to [task] makes of a case: the finding recorded,
    the other peer's kept, the task off the pending set, and the case ready for its
    decision when that was the last task and the lifecycle allows it. *)
Definition attached_to (task : UUID) (f : BillingFinding + RiskFinding)
    (c c' : ResolutionCase) : Prop :=
  rc_pending_tasks c' = rc_pending_tasks c ∖ {[task]} ∧
  match f with
  | inl b => rc_billing_result c' = Some b ∧ rc_risk_result c' = rc_risk_result c
  | inr r => rc_risk_result c' = Some r ∧ rc_billing_result c' = rc_billing_result c
  end ∧
  rc_status c' =
    if bool_decide (rc_pending_tasks c ∖ {[task]} = ∅) && can_transition_to_ready (rc_status c)
    then READY_FOR_DECISION else rc_status c.

(** C31 (functional): a result is attached at most once.  [apply_result] answers
    UNKNOWN_CASE exactly when there is no such case, ATTACHED exactly for a pending
    task of a case that is neither decided nor terminal, and DUPLICATE otherwise.
    Unless it answers ATTACHED the store is unchanged.  When it does, no other case
    changes; in this one the finding is recorded, the other peer's finding kept, the
    task taken off the pending set and the case made ready for its decision when that
    was the last task; and a second delivery for the task, with any finding, is a
    DUPLICATE that leaves the store alone. *)
Theorem apply_result_at_most_once st k task f t :
  let outcome := fst (apply_result st k task f t) in
  let st' := snd (apply_result st k task f t) in
  outcome = attach_answer (cs_cases st !! k) task ∧
  (outcome ≠ ATTACHED → st' = st) ∧
  (outcome = ATTACHED →
     (∀ i, i ≠ k → cs_cases st' !! i = cs_cases st !! i) ∧
     (∃ c c', cs_cases st !! k = Some c ∧ cs_cases st' !! k = Some c' ∧ attached_to task f c c') ∧
     ∀ f' t', apply_result st' k task f' t' = (DUPLICATE, st')).
Proof.
  cbn zeta. split; [apply apply_answer|]. split.
  - unfold apply_result. by destruct (cs_cases st !! k); [|done]; destruct (closed_status _);
      [|destruct (negb _)].
  - rewrite apply_answer. intros (c & Ho & Hp)%attach_answer_attached.
    split; [apply apply_others|]. rewrite (apply_open _ _ _ _ _ _ Ho Hp). cbn [snd].
    assert (Hc : cs_cases (update_case k (apply_to_case task f t) st) !! k =
              Some (apply_to_case task f t c)).
    { cbn. rewrite lookup_alter_eq. destruct Ho as [-> _]. done. }
    split.
    + exists c, (apply_to_case task f t c). split; [apply Ho|]. split; [done|].
      split; [apply apply_pending|]. split; [apply apply_finding|apply apply_status].
    + intros f' t'. unfold apply_result. rewrite Hc. destruct (closed_status _); [done|].
      rewrite bool_decide_eq_false_2; [done|]. rewrite apply_pending. set_solver.
Qed.

Lemma apply_closed task f t c :
  closed_status (rc_status (apply_to_case task f t c)) = closed_status (rc_status c).
Proof.
  unfold apply_to_case.
  destruct f; destruct (bool_decide _); cbn -[can_transition_to_ready]; try done;
    destruct (can_transition_to_ready _) eqn:E; try done; by rewrite (ready_not_closed _ E).
Qed.

(** Remark (equivalence): the two peers' results commute.  Applied to an open case
    in which both tasks are pending, the billing and the risk result give the same
    store in either order (at the same two clock readings). *)
Theorem results_commute st k c tb tr b r t1 t2 :
  open_case st k c → tb ≠ tr → tb ∈ rc_pending_tasks c → tr ∈ rc_pending_tasks c →
  snd (apply_result (snd (apply_result st k tb (inl b) t1)) k tr (inr r) t2) =
  snd (apply_result (snd (apply_result st k tr (inr r) t1)) k tb (inl b) t2).
Proof.
  intros Ho Hne Hb Hr. pose proof Ho as [Hc Hcl].
  rewrite (apply_open _ _ _ _ _ _ Ho Hb), (apply_open _ _ _ _ _ _ Ho Hr). cbn [snd].
  assert (Hst : ∀ task f, open_case (update_case k (apply_to_case task f t1) st) k
                            (apply_to_case task f t1 c)).
  { intros task f. split; [cbn; by rewrite lookup_alter_eq, Hc|by rewrite apply_closed]. }
  rewrite (apply_open _ _ _ _ _ _ (Hst tb (inl b))) by (rewrite apply_pending; set_solver).
  rewrite (apply_open _ _ _ _ _ _ (Hst tr (inr r))) by (rewrite apply_pending; set_solver).
  cbn [snd]. unfold update_case, with_cases. cbn. f_equal.
  apply map_eq. intros i. destruct (decide (k = i)) as [<-|Hi];
    [|by rewrite !lookup_alter_ne by done].
  rewrite !lookup_alter_eq, Hc. cbn. f_equal.
  unfold apply_to_case. cbn.
  assert (E : rc_pending_tasks c ∖ {[tb]} ∖ {[tr]} = rc_pending_tasks c ∖ {[tr]} ∖ {[tb]})
    by set_solver.
  rewrite !(bool_decide_eq_false_2 (rc_pending_tasks c ∖ {[_]} = ∅)) by set_solver.
  cbn. rewrite E. by destruct (bool_decide _), (can_transition_to_ready _).
Qed.

(** ** The lifecycle *)

(** The depth of a status in the lifecycle diagram. *)
Definition rank (s : CaseStatus) : Z :=
  match s with
  | RECEIVED => 0 | CLASSIFIED => 1 | WAITING_FOR_PEER_REVIEWS => 2 | READY_FOR_DECISION => 3
  | DECIDED => 4 | RESPONSE_DRAFTED => 5 | CLOSED => 6 | ESCALATED => 6 | FAILED => 6
  end.

(** Remark (invariant): the lifecycle has no cycle and the store's methods never move
    a case backwards.  Every transition of the table climbs strictly, so a case
    makes at most six; the statuses without a successor are the terminal ones; and a
    method keeps every case, lowers neither its version nor its rank (a case
    that was moved to RESPONSE_DRAFTED apart), and changes its status only with a
    larger version. *)
Theorem lifecycle_climbs :
  (∀ s s', can_transition s s' = true → rank s < rank s' ≤ 6) ∧
  (∀ s, _ALLOWED_TRANSITIONS s = [] ↔ is_terminal s = true) ∧
  ∀ st st' k c, store_wf st → store_step st st' → cs_cases st !! k = Some c →
    ∃ c', cs_cases st' !! k = Some c' ∧
      (rc_status c ≠ RESPONSE_DRAFTED → rank (rc_status c) ≤ rank (rc_status c')) ∧
      rc_version c ≤ rc_version c' ∧
      (rc_status c' ≠ rc_status c → rc_version c < rc_version c').
Proof.
  split; [intros [] [] H; try discriminate H; cbn [rank]; lia|]. split; [intros []; split; done|].
  intros st st' k c Hw Hs Hc. destruct (step_slot _ _ _ _ Hs Hw Hc) as (c' & Hc' & Hcs).
  exists c'. split; [done|]. destruct Hcs as [He Hle|Ho Ht Hf Hlt].
  - rewrite He. split; [lia|]. split; [done|]. congruence.
  - split; [|split; [lia|done]]. intros Hrd. destruct Ht as [E|E].
    + destruct Hf as [Hf|]; [|congruence]. rewrite E.
      destruct (rc_status c); try discriminate Hf; cbn [rank]; lia.
    + rewrite E. destruct (rc_status c); try discriminate Ho; try done; cbn [rank]; lia.
Qed.

(** ** The deadline sweep's query *)

(** Remark (functional): [list_timed_out_cases] lists, once each, exactly the open
    cases whose deadline has passed with a peer task still pending; a case leaves
    the list when it is claimed and when its last pending task is settled. *)
Theorem timed_out_listing st now k :
  rtc store_step empty_store st →
  NoDup (list_timed_out_cases st now) ∧
  (k ∈ list_timed_out_cases st now ↔
     ∃ c d, open_case st k c ∧ rc_deadline_at c = Some d ∧ d < now ∧ rc_pending_tasks c ≠ ∅) ∧
  k ∉ list_timed_out_cases (snd (claim_decision st k now)) now.
Proof.
  intros Hr. pose proof (steps_wf _ Hr) as Hw.
  assert (Hin : ∀ st k, store_wf st → k ∈ list_timed_out_cases st now ↔
            ∃ c d, open_case st k c ∧ rc_deadline_at c = Some d ∧ d < now ∧
                   rc_pending_tasks c ≠ ∅).
  { clear. intros st k Hw. unfold list_timed_out_cases.
    rewrite list_elem_of_In, List.filter_In, <- list_elem_of_In.
    pose proof (proj2 (wf_order _ Hw) k) as Hk.
    unfold open_case, closed_status, timed_out. split.
    - intros [_ H]. destruct (cs_cases st !! k) as [c|]; [|done]. exists c.
      rewrite !andb_true_iff, !negb_true_iff, !bool_decide_eq_false in H.
      destruct H as [[[Ht Hd] Hdl] Hp]. destruct (rc_deadline_at c) as [d|]; [|done].
      exists d. rewrite Ht, bool_decide_eq_false_2 by done. by apply Z.ltb_lt in Hdl.
    - intros (c & d & [Hc Ho] & Hd & Hlt & Hp). split; [apply Hk; by eexists|].
      rewrite Hc, Hd.
      apply orb_false_iff in Ho as [-> ->]. cbn. apply Z.ltb_lt in Hlt as ->. cbn.
      by rewrite bool_decide_eq_false_2. }
  split; [|split; [by apply Hin|]].
  - apply NoDup_ListNoDup, List.NoDup_filter, NoDup_ListNoDup, (wf_order _ Hw).
  - rewrite Hin by (eapply step_wf; [apply step_claim|done]).
    intros (c & d & [Hc Ho] & _). destruct (fst (claim_decision st k now)) eqn:E.
    + destruct (claim_opens st k now (snd (claim_decision st k now))) as (c2 & Hc2 & Hd).
      { rewrite <- E. apply surjective_pairing. }
      rewrite Hc2 in Hc. injection Hc as <-. by rewrite Hd in Ho.
    + revert E Hc. unfold claim_decision. destruct (cs_cases st !! k) as [c0|] eqn:E0.
      * destruct (closed_status (rc_status c0)) eqn:Ecl; [|discriminate].
        cbn. congruence.
      * cbn. congruence.
Qed.

(** Remark (functional): [get_or_create] is idempotent.  Called twice for the same
    ticket (the intake uses the correlation id as the case id) it answers the same
    slot and changes the store only the first time, so a re-delivered ticket
    overwrites no progress, whatever happened in between. *)
Theorem get_or_create_idempotent st st' k ticket customer amount currency reason t
    ticket' customer' amount' currency' reason' t' :
  rtc store_step empty_store st →
  rtc store_step (snd (get_or_create st k ticket customer k amount currency reason t)) st' →
  fst (get_or_create st k ticket customer k amount currency reason t) = k ∧
  get_or_create st' k ticket' customer' k amount' currency' reason' t' = (k, st').
Proof.
  intros H0 Hr. pose proof (steps_wf _ H0) as Hw.
  assert (H1 : fst (get_or_create st k ticket customer k amount currency reason t) = k ∧
    is_Some (cs_cases (snd (get_or_create st k ticket customer k amount currency reason t)) !! k)).
  { unfold get_or_create. destruct (cs_by_correlation st !! k) as [k'|] eqn:E.
    - apply (wf_index _ Hw) in E as [-> Hs]. by rewrite bool_decide_eq_true_2.
    - case_bool_decide as Hk; [by split|]. split; [done|]. cbn. by rewrite lookup_insert_eq. }
  destruct H1 as [H1 [c Hc]]. split; [done|].
  assert (Hw1 : store_wf (snd (get_or_create st k ticket customer k amount currency reason t)))
    by (eapply step_wf; [apply step_create|done]).
  destruct (steps_slot _ _ _ _ Hr Hw1 Hc) as (c2 & Hc2 & _ & _ & Hw2).
  unfold get_or_create.
  assert (Hi : cs_by_correlation st' !! k = Some k)
    by (apply (wf_index _ Hw2); split; [done|by eexists]).
  rewrite Hi, bool_decide_eq_true_2; [done|by eexists].
Qed.

(** ** Witnesses: one case with two pending peer tasks *)

Definition demo_created : CaseStore :=
  snd (get_or_create empty_store 7 "T-1" "CUS-1" 7 (lit 25 1) "USD" "refund please" 100).
Definition demo_delegated : CaseStore :=
  after demo_created (add_pending_task demo_created 7 1).
Definition demo_store : CaseStore := after demo_delegated (add_pending_task demo_delegated 7 2).
Definition demo_due : CaseStore := set_deadline demo_store 7 115.

Definition demo_case : ResolutionCase :=
  set_pending_tasks ({[2]} ∪ ({[1]} ∪ ∅))
    (new_case 7 "T-1" "CUS-1" 7 (lit 25 1) "USD" "refund please" 100).

Definition demo_billing : BillingFinding :=
  {| bfi_eligibility := eligible; bfi_requires_human_review := false;
     bfi_confidence := Some (lit 9 10); bfi_summary := "ok"; bfi_performer_agent_id := "b";
     bfi_task_id := Some 1 |}.
Definition demo_risk : RiskFinding :=
  {| rfi_level := level_low; rfi_requires_human_review := false; rfi_score := Some (lit 1 10);
     rfi_summary := "ok"; rfi_performer_agent_id := "r"; rfi_task_id := Some 2 |}.

Definition demo_claimed : CaseStore := snd (claim_decision demo_store 7 120).

Lemma demo_reach : rtc store_step empty_store demo_store.
Proof.
  eapply rtc_l; [apply step_create|]. eapply rtc_l; [apply step_add|].
  eapply rtc_l; [apply step_add|]. apply rtc_refl.
Qed.

Lemma demo_open : open_case demo_store 7 demo_case.
Proof. split; vm_compute; reflexivity. Qed.

Lemma store_methods_wf_witness :
  rtc store_step empty_store demo_store ∧ store_wf demo_store ∧
  cs_cases demo_store !! 7 = Some demo_case.
Proof.
  split; [apply demo_reach|]. split; [apply (store_methods_wf _ demo_reach)|].
  vm_compute. reflexivity.
Defined.

(** A second case, moved by [transition] while case 7 is decided. *)
Definition demo_neighbour : CaseStore :=
  snd (get_or_create demo_claimed 8 "T-2" "CUS-2" 8 (lit 5 1) "USD" "refund" 121).
Definition demo_moved : CaseStore := after demo_neighbour (transition demo_neighbour 8 CLASSIFIED 122).
Definition demo_late : CaseStore := snd (apply_result demo_moved 7 2 (inr demo_risk) 125).

Lemma claim_is_exclusive_witness :
  fst (claim_decision demo_store 7 120) = true ∧
  option_map rc_status (cs_cases demo_late !! 8) = Some CLASSIFIED ∧
  claim_decision demo_late 7 130 = (false, demo_late) ∧
  ∃ c, cs_cases demo_late !! 7 = Some c ∧ rc_status c = DECIDED.
Proof.
  split; [vm_compute; reflexivity|]. split; [vm_compute; reflexivity|].
  apply (claim_is_exclusive demo_store 7 120 demo_claimed _ 130).
  - eapply rtc_l; [left; apply step_create|]. eapply rtc_l; [left; apply step_add|].
    eapply rtc_l; [left; apply step_add|]. apply rtc_refl.
  - unfold demo_claimed. rewrite (surjective_pairing (claim_decision _ _ _)) at 1.
    f_equal.
  - eapply rtc_l; [left; apply step_create|].
    eapply rtc_l; [right; exists 8, CLASSIFIED, 122; split; [done|reflexivity]|].
    eapply rtc_l; [left; apply step_apply|]. apply rtc_refl.
Defined.

Lemma transition_reopens_the_claim_witness :
  ¬ claimable demo_claimed 7 ∧
  ∃ st', transition demo_claimed 7 RESPONSE_DRAFTED 130 = Ok st' ∧ claimable st' 7.
Proof.
  apply (transition_reopens_the_claim demo_claimed 7 (touch 120 (set_status DECIDED demo_case)));
    vm_compute; reflexivity.
Defined.

Lemma stale_save_conflicts_witness :
  is_ok (save demo_store 7 (Some 0) 120) ∧
  ∃ msg, save (after demo_store (save demo_store 7 (Some 0) 120)) 7 (Some 0) 121 =
         Err (CaseSaveConflict msg).
Proof.
  split; [eexists; reflexivity|].
  apply (stale_save_conflicts demo_store 7 0 120 (after demo_store (save demo_store 7 (Some 0) 120))).
  - apply demo_reach.
  - reflexivity.
  - apply rtc_refl.
Defined.

Lemma results_commute_witness :
  open_case demo_store 7 demo_case ∧
  snd (apply_result (snd (apply_result demo_store 7 1 (inl demo_billing) 103)) 7 2
         (inr demo_risk) 104) =
  snd (apply_result (snd (apply_result demo_store 7 2 (inr demo_risk) 103)) 7 1
         (inl demo_billing) 104).
Proof.
  split; [apply demo_open|].
  apply (results_commute demo_store 7 demo_case); [apply demo_open|done|..];
    by apply (bool_decide_unpack _).
Defined.

Lemma timed_out_listing_witness :
  list_timed_out_cases demo_due 116 = [7] ∧ list_timed_out_cases demo_due 115 = [] ∧
  7 ∉ list_timed_out_cases (snd (claim_decision demo_due 7 116)) 116.
Proof.
  split; [vm_compute; reflexivity|]. split; [vm_compute; reflexivity|].
  apply (timed_out_listing demo_due 116 7).
  eapply rtc_r; [apply demo_reach|apply step_deadline].
Defined.

Lemma get_or_create_idempotent_witness :
  fst (get_or_create empty_store 7 "T-1" "CUS-1" 7 (lit 25 1) "USD" "refund please" 100) = 7 ∧
  get_or_create demo_store 7 "T-1" "CUS-2" 7 (lit 30 1) "EUR" "again" 140 = (7, demo_store).
Proof.
  apply (get_or_create_idempotent empty_store demo_store); [apply rtc_refl|].
  eapply rtc_l; [apply step_add|]. eapply rtc_l; [apply step_add|]. apply rtc_refl.
Defined.
