(* ===== verification/Reaper.v ===== *)
(** * The reaper

    [run_reaper] of [apps/agents/customer_resolution/reaper.py] as a run of its loop,
    and what a sweep does: every timed-out case gets its decision. *)

From Stdlib Require Import ZArith Bool Ascii String List Lia.
From stdpp Require Import base list strings gmap.
From S2P Require Import Prelude.
From S2P Require Import PyFloat.
From S2P Require Import Contracts.
From S2P Require Import Envelope.
From S2P Require Import CaseModels.
From S2P Require Import DecisionEngine.
From S2P Require Import DecisionFacts.
From S2P Require Import StateStore.
From S2P Require Import StoreFacts.
From S2P Require Import Async.
From S2P Require Import Handlers.
From S2P Require Import Execution.

Open Scope string_scope.
Open Scope list_scope.
Open Scope Z_scope.
Open Scope prog_scope.

#[local] Set Default Proof Using "Type".

(** ** The loop *)

(** [REAPER_TICK_SECONDS] for an unset environment. *)
Definition REAPER_TICK_SECONDS : float := lit 1 1.

(** [stop_event is not None and stop_event.is_set()] *)
Definition stop_requested (has_stop : bool) : prog bool :=
  if has_stop then Await StopSet Ret else Ret false.

(** The interruptible sleep, [pauses] sleeps at most: [while elapsed < _tick]. *)
Fixpoint pause (has_stop : bool) (interval tick elapsed : float) (pauses : nat) : prog unit :=
  match pauses with
  | O => Ret tt
  | S pauses =>
      if (elapsed <? tick)%pf then
        let! stop := stop_requested has_stop in
        if stop : bool then Ret tt
        else Await (Sleep interval) (λ _,
               pause has_stop interval tick (elapsed + interval)%pf pauses)
      else Ret tt
  end.

(** [run_reaper], the first [turns] turns of its loop: sweep, look at the stop event,
    sleep.  The module's clock is the world's. *)
Fixpoint run_reaper `{Uuids} (has_stop : bool) (tick : float) (pauses turns : nat) : prog unit :=
  match turns with
  | O => Ret tt
  | S turns =>
      let! current_time := now in
      reaper_sweep current_time ;!
      let! stop := stop_requested has_stop in
      if stop : bool then Ret tt
      else
        pause has_stop (fmin (lit 1 1) tick) tick (lit 0 1) pauses ;!
        run_reaper has_stop tick pauses turns
  end.

(** At the default tick one sleep of a second ends the pause: the bound on the sleeps does
    not cut it. *)
Lemma default_pause has_stop pauses :
  pause has_stop (fmin (lit 1 1) REAPER_TICK_SECONDS) REAPER_TICK_SECONDS (lit 0 1) (S pauses) =
  (let! stop := stop_requested has_stop in
   if stop : bool then Ret tt else Await (Sleep (lit 1 1)) (λ _, Ret tt)).
Proof. destruct has_stop, pauses; vm_compute; reflexivity. Qed.

(** With a tick that is not positive the loop never sleeps. *)
Lemma no_pause has_stop tick pauses :
  (lit 0 1 <? tick)%pf = false →
  pause has_stop (fmin (lit 1 1) tick) tick (lit 0 1) pauses = Ret tt.
Proof. intros Ht. destruct pauses; [done|]. cbn [pause]. by rewrite Ht. Qed.

(** ** A sweep decides every timed-out case *)

Section Sweep.
Context `{Uuids}.
Context (env : Environment) (Hacks : acks env).

(** The slots hold the cases that are filed under them. *)
Definition slots_ok (w : World) : Prop :=
  ∀ k case, cs_cases (w_store w) !! k = Some case → rc_case_id case = k ∧ rc_correlation_id case = k.

(** Case [k] is decided as the truth table rules, and its decision, the audit and the draft
    are in the log one after the other. *)
Definition reaped (w : World) (k : UUID) (w' : World) : Prop :=
  ∃ case case' d cause log log' rest,
    cs_cases (w_store w) !! k = Some case ∧ cs_cases (w_store w') !! k = Some case' ∧
    rc_status case' = DECIDED ∧ ruling_of d = case_ruling case (w_now w) ∧
    ids_of d = case_ids case ∧
    decision_chain d k cause log log' ∧ w_log w' = log' ++ rest.

Lemma run_reap_case k w case :
  slots_ok w → cs_cases (w_store w) !! k = Some case → closed_status (rc_status case) = false →
  ∃ w' cause, run env (reap_case k) w = (Ok tt, w') ∧ only_slot k w w' ∧
    decided_by k cause (case_ruling case (w_now w)) DECIDED case w w'.
Proof using Hacks.
  intros Hok Hk Hopen. destruct (Hok k case Hk) as [Hid Hq]. unfold reap_case.
  rewrite run_bind. cbn [run reads]. unfold get. rewrite Hk, Hopen. rewrite run_bind.
  cbn [run fresh_uuid]. set (w1 := mk_world _ _ _ _). rewrite run_catch.
  destruct (run_apply_decision_framed env Hacks k (uuid4 (w_uuids w)) w1 case Hk Hid Hq Hopen)
    as (w' & -> & Hd & Hf).
  exists w', (uuid4 (w_uuids w)). split; [reflexivity|]. split; [exact Hf|exact Hd].
Qed.

Lemma only_slot_ok k w w' case' :
  slots_ok w → only_slot k w w' → cs_cases (w_store w') !! k = Some case' →
  rc_case_id case' = k → rc_correlation_id case' = k → slots_ok w'.
Proof.
  intros Hok (_ & _ & Hf) Hk' Hid Hq j case Hj. destruct (decide (j = k)) as [->|Hne].
  - by assert (case = case') as -> by congruence.
  - rewrite Hf in Hj by done. by apply Hok.
Qed.

(** What a sweep over [ks] did to [w]. *)
Definition swept (ks : list UUID) (w w' : World) : Prop :=
  w_now w' = w_now w ∧ cs_order (w_store w') = cs_order (w_store w) ∧
  (∀ j, j ∉ ks → cs_cases (w_store w') !! j = cs_cases (w_store w) !! j) ∧
  (∃ new, w_log w' = w_log w ++ new ∧ length new = (3 * length ks)%nat) ∧
  ∀ k, k ∈ ks → reaped w k w'.

Lemma run_reap_all ks w :
  slots_ok w → NoDup ks →
  (∀ k, k ∈ ks → ∃ case, cs_cases (w_store w) !! k = Some case ∧ closed_status (rc_status case) = false) →
  ∃ w', run env (reap_all ks) w = (Ok tt, w') ∧ slots_ok w' ∧ swept ks w w'.
Proof using Hacks.
  revert w. induction ks as [|k ks IH]; intros w Hok Hnd Hdue.
  { exists w. split; [done|]. split; [done|]. split; [done|]. split; [done|]. split; [done|].
    split; [exists []; by rewrite app_nil_r|]. by intros k ?%not_elem_of_nil. }
  apply list.NoDup_cons in Hnd as [Hnot Hnd]. cbn [reap_all]. rewrite run_bind.
  destruct (Hdue k) as (case & Hk & Hopen); [by left|].
  destruct (run_reap_case k w case Hok Hk Hopen) as (w1 & cause & -> & Hf & d & case' & Hc & Hrul & Hids & Hsame & Hst).
  destruct Hsame as (Hk1 & _ & Hid1 & Hq1 & _). destruct (Hf) as (Hnow & Hord & Hother).
  assert (Hok1 : slots_ok w1) by (by eapply only_slot_ok).
  destruct (IH w1 Hok1 Hnd) as (w' & -> & Hok' & Hnow' & Hord' & Hrest & (new & Hlog & Hlen) & Hreap).
  { intros j Hj. destruct (Hdue j) as (c & Hjc & Hjo); [by right|]. exists c. split; [|done].
    rewrite Hother; [done|]. by intros ->. }
  destruct (Hc) as (e1 & e2 & e3 & a & dr & Hl1 & _).
  exists w'. split; [done|]. split; [done|]. split; [congruence|]. split; [congruence|].
  split; [|split].
  - intros j Hj. rewrite Hrest by set_solver. apply Hother. set_solver.
  - eexists. rewrite Hlog, Hl1, <- app_assoc. split; [reflexivity|]. cbn. rewrite Hlen. lia.
  - intros j [->|Hj]%elem_of_cons.
    + exists case, case', d, cause, (w_log w), (w_log w1), new. by rewrite Hrest.
    + destruct (Hreap j Hj) as (c & c' & d' & cause' & log & log' & rest & H1 & H2 & H3 & H4 & H5).
      exists c, c', d', cause', log, log', rest. rewrite <- Hother by (by intros ->).
      by rewrite <- Hnow.
Qed.

Lemma due_open st t k :
  k ∈ list_timed_out_cases st t →
  ∃ case, cs_cases st !! k = Some case ∧ closed_status (rc_status case) = false.
Proof.
  unfold list_timed_out_cases. rewrite list_elem_of_In, List.filter_In. intros [_ Ht].
  destruct (cs_cases st !! k) as [c|]; [|done]. exists c. split; [done|].
  unfold timed_out in Ht. unfold closed_status. destruct (is_terminal (rc_status c)); [done|].
  by destruct (bool_decide (rc_status c = DECIDED)).
Qed.

Lemma run_sweep t w :
  slots_ok w → NoDup (cs_order (w_store w)) →
  ∃ w', run env (reaper_sweep t) w = (Ok tt, w') ∧ slots_ok w' ∧
    swept (list_timed_out_cases (w_store w) t) w w'.
Proof using Hacks.
  intros Hok Hnd. unfold reaper_sweep. rewrite run_bind. cbn [run reads].
  apply run_reap_all; [done| |intros k; apply due_open].
  by apply NoDup_ListNoDup, List.NoDup_filter, NoDup_ListNoDup.
Qed.

(** C13 (liveness): no timed-out case is left waiting.  With a broker that acknowledges, a
    sweep over a consistent store publishes, for every case that is timed out at the
    reaper's clock, the decision the truth table gives for the case with its audit
    record and draft, and leaves it DECIDED; it publishes nothing else, and no other
    case is touched. *)
Theorem sweep_decides_timed_out t w :
  store_wf (w_store w) →
  ∃ w', run env (reaper_sweep t) w = (Ok tt, w') ∧
    swept (list_timed_out_cases (w_store w) t) w w'.
Proof using Hacks.
  intros Hwf.
  destruct (run_sweep t w) as (w' & Hr & _ & Hs); [|apply (wf_order _ Hwf)|by exists w'].
  intros k case Hk. by apply (wf_slot _ Hwf).
Qed.

Lemma run_stop has_stop w : ∃ b, run env (stop_requested has_stop) w = (Ok b, w).
Proof. destruct has_stop; eexists; reflexivity. Qed.

Lemma run_pause has_stop interval tick elapsed pauses w :
  run env (pause has_stop interval tick elapsed pauses) w = (Ok tt, w).
Proof.
  revert elapsed. induction pauses as [|pauses IH]; intros elapsed; [done|]. cbn [pause].
  destruct (elapsed <? tick)%pf; [|done]. rewrite run_bind.
  destruct (run_stop has_stop w) as [[] ->]; [done|]. apply IH.
Qed.

(** Remark (liveness): the reaper's loop goes on.  With a broker that acknowledges, the loop
    raises nothing, for any tick and any number of turns, stopped or not. *)
Theorem reaper_goes_on has_stop tick pauses turns w :
  store_wf (w_store w) → ∃ w', run env (run_reaper has_stop tick pauses turns) w = (Ok tt, w').
Proof using Hacks.
  intros Hwf. assert (Hok : slots_ok w) by (intros k case; apply (wf_slot _ Hwf)).
  assert (Hnd : NoDup (cs_order (w_store w))) by apply (wf_order _ Hwf). clear Hwf.
  revert w Hok Hnd. induction turns as [|turns IH]; intros w Hok Hnd; [by exists w|].
  cbn [run_reaper]. rewrite run_bind. cbn [run now reads]. rewrite run_bind.
  destruct (run_sweep (w_now w) w Hok Hnd) as (w1 & -> & Hok1 & _ & Hord & _).
  rewrite run_bind. destruct (run_stop has_stop w1) as [[] ->]; [by exists w1|].
  rewrite run_bind, run_pause. apply IH; [done|by rewrite Hord].
Qed.
End Sweep.
