(* ===== verification/Service.v ===== *)
(** * The resolution service

    [ResolutionService] of [apps/agents/customer_resolution/agent.py]: the coroutines that
    [serve] gathers on one event loop over one store - the agent's endpoint, the intake
    and the three result consumers with their handlers, the reaper - and the background
    tasks of the endpoint.  What the broker delivers to each consumer is arbitrary.

    The theorems compose the consumers, the handlers, the reaper and the endpoint: under
    every interleaving and every failure of the broker the decisions of a case are bounded
    by its tickets' deliveries, and what takes the service down is a message to its endpoint
    or a broker that refuses a consumer's start, seek or stop. *)

From Stdlib Require Import ZArith Bool Ascii String List Lia.
From stdpp Require Import base list strings gmap relations.
From S2P Require Import Prelude.
From S2P Require Import PyFloat.
From S2P Require Import Contracts.
From S2P Require Import Uuid.
From S2P Require Import Idempotency.
From S2P Require Import A2A.
From S2P Require Import Envelope.
From S2P Require Import CaseModels.
From S2P Require Import Classifier.
From S2P Require Import DecisionEngine.
From S2P Require Import StateStore.
From S2P Require Import Llm.
From S2P Require Import Async.
From S2P Require Import LlmRuntime.
From S2P Require Import Consumer.
From S2P Require Import Handlers.
From S2P Require Import ProgLogic.
From S2P Require Import DecisionBudget.
From S2P Require Import DecisionSafety.
From S2P Require Import Costs.
From S2P Require Import Transport.
From S2P Require Import ObsConfig.
From S2P Require Import Runtime.
From S2P Require Import RuntimeFacts.
From S2P Require Import Reaper.

Open Scope string_scope.
Open Scope list_scope.
Open Scope Z_scope.
Open Scope prog_scope.

#[local] Set Default Proof Using "Type*".

(** ** Start-up *)

(** [build_agent_card] *)
Definition build_agent_card : AgentCard := {|
  card_agent_id := CaseModels.AGENT_ID;
  card_name := "Customer Resolution Agent";
  card_description :=
    "Resolves customer support tickets by triaging refund requests, " +:+
    "delegating billing and risk analyses, and emitting final decisions.";
  card_version := "1.0.0";
  card_endpoint_topic := endpoint_topic CaseModels.AGENT_ID;
  card_capabilities := [{|
    cap_id := "resolve_customer_case";
    cap_name := "Resolve Customer Case";
    cap_description :=
      "Resolves a customer case by coordinating billing and risk analyses.";
    cap_tags := ["resolution"; "refund"] |}] |}.

(** The runtime of [serve]: no handler is registered on it. *)
Definition service_runtime : AgentRuntime := new_runtime IDENTITY build_agent_card.

(** Remark (error): the advertised capability is not served.  The card declares
    [resolve_customer_case], but every request the agent accepts for it ends in "No
    handler registered for this capability". *)
Theorem advertised_capability_unserved req :
  tr_target_agent_id req = CaseModels.AGENT_ID →
  tr_capability req ∈ map cap_id (card_capabilities build_agent_card) →
  verdict service_runtime req false = NoHandler.
Proof.
  intros Ht Hc. apply list_elem_of_singleton in Hc.
  unfold verdict. rewrite Ht, Hc. vm_compute. reflexivity.
Qed.

(** What the broker delivers while the service runs, the turns its periodic loops make,
    and the sleeps of one pause of the reaper. *)
Record Deliveries (Bytes : Type) := {
  d_endpoint : list Bytes;
  d_tickets : list Bytes;
  d_task_results : list Bytes;
  d_billing : list Bytes;
  d_risk : list Bytes;
  d_turns : nat;
  d_pauses : nat;
}.
Arguments d_endpoint {Bytes}.
Arguments d_tickets {Bytes}.
Arguments d_task_results {Bytes}.
Arguments d_billing {Bytes}.
Arguments d_risk {Bytes}.
Arguments d_turns {Bytes}.
Arguments d_pauses {Bytes}.

(** [asyncio.create_task(coro)], as [gather] does: it starts when the loop gets to it. *)
Definition create_task (p : prog unit) : prog unit := Await (Sleep (lit 0 1)) (λ _, p).

Section Service.
Context `{Uuids} `{Assistant}.
Variable signals : list string.
Variable llm_enabled : bool.
Variable float_field : pyval → option (option float).
Variable float_of_str : string → option float.
Context {Bytes : Type} (parse_envelope : Bytes → result EventEnvelope).
Variable validation_error : EventPayload → exn.
Variable environ : string → option string.
(** A stop event is given, and [REAPER_TICK_SECONDS]. *)
Variable has_stop : bool.
Variable tick : float.

(** An idempotent consumer of the group [AGENT_ID.suffix], that audits. *)
Definition service_consumer (suffix : string) (handler : EventEnvelope → prog unit)
    (messages : list Bytes) : prog unit :=
  run_consumer parse_envelope (Some IDENTITY) handler no_seek
    (Some (new_tracker (CaseModels.AGENT_ID +:+ suffix) [])) messages.

(** The coroutines [serve] gathers, in order. *)
Definition serve (d : Deliveries Bytes) : list (prog unit) :=
  [ Runtime.serve parse_envelope validation_error service_runtime
      (new_tracker (CaseModels.AGENT_ID +:+ ".tasks") []) (d_endpoint d);
    service_consumer ".intake" (intake_handler signals llm_enabled) (d_tickets d);
    service_consumer ".results" (result_handler float_field float_of_str) (d_task_results d);
    service_consumer ".billing-results" billing_result_handler (d_billing d);
    service_consumer ".risk-results" risk_result_handler (d_risk d);
    run_reaper has_stop tick (d_pauses d) (d_turns d) ].

(** The event loop of the service: the gathered coroutines and the endpoint's background
    tasks. *)
Definition service_loop (d : Deliveries Bytes) (w : World) : Loop :=
  mk_loop (map create_task (serve d ++ _start_background_tasks environ service_runtime (d_turns d))) w.

(** No further coroutine is started from outside. *)
Definition nothing_else : prog unit → Prop := λ _, False.

(** ** The endpoint and the periodic loops are harmless *)

Section Harmless.
Context (L : ∀ A : Type, (A → Prop) → prog A → Prop) `{!ProgLogic L}.
Abbreviation any := (λ _, True).

Lemma harmless_quietly (e : EventEnvelope) topic key :
  silent_payload (env_payload e) →
  L _ any (let! e := lift (mk_envelope e) in publish_raw_quietly e topic key).
Proof.
  intros He. apply (pl_bind (λ e', env_payload e' = env_payload e)).
  { apply (harmless_lift L). intros e' He'. by apply envelope_payload. }
  intros e' He'. unfold publish_raw_quietly, publish_raw. apply pl_catch; [|intros; by apply pl_ret].
  apply pl_await; [cbn; by rewrite He'|]. intros []; first [by apply pl_ret|apply pl_raise].
Qed.

Lemma harmless_publish_card rt : L _ any (_publish_card rt).
Proof.
  unfold _publish_card. do 2 (apply (pl_bind any); [apply (harmless_fresh L)|]; intros ? _).
  apply (pl_bind any); [apply (harmless_now L)|]. intros t _. by apply harmless_quietly.
Qed.

Lemma harmless_publish_result rt r e : L _ any (_publish_result rt r e).
Proof.
  unfold _publish_result. apply (pl_bind any); [apply (harmless_fresh L)|]. intros u _.
  apply (pl_bind any); [apply (harmless_now L)|]. intros t _. by apply harmless_quietly.
Qed.

Hint Resolve harmless_publish_card harmless_publish_result : harmless.

Lemma harmless_refuse rt e task st cat msg o audit_task reason :
  L _ any (refuse rt e task st cat msg o audit_task reason).
Proof. unfold refuse. harmless_tac. Qed.

Hint Resolve harmless_refuse : harmless.

Lemma harmless_message raw tracker :
  L _ any (_handle_message (T:=IdempotencyTracker) parse_envelope validation_error
             service_runtime raw tracker).
Proof.
  unfold _handle_message. destruct (parse_envelope raw) as [e|]; [|by apply pl_ret].
  destruct (validate_request validation_error (env_payload e)) as [req|exc].
  - destruct (negb _); [harmless_tac|]. destruct (negb _); [harmless_tac|].
    unfold accept_request, skip_duplicate. apply (pl_bind any).
    { destruct (dd_is_duplicate _ _) as [[] tr]; harmless_tac. }
    intros [skipped tr] _. destruct skipped; [by apply pl_ret|].
    apply (pl_bind any); [apply (harmless_task_audit L)|]. intros _ _.
    change (assoc_get (tr_capability req) (rt_handlers service_runtime)) with (@None TaskHandler).
    cbv iota. harmless_tac.
  - unfold reject_payload. harmless_tac.
Qed.

Lemma harmless_endpoint tracker messages :
  L _ any (Runtime.serve (T:=IdempotencyTracker) parse_envelope validation_error
             service_runtime tracker messages).
Proof.
  unfold Runtime.serve. apply (pl_bind any); [apply (harmless_wire L)|]. intros _ _.
  apply pl_finally; [|apply (harmless_wire L)].
  apply (pl_bind any); [apply (harmless_wire L)|]. intros _ _.
  apply (pl_bind any); [apply harmless_publish_card|]. intros _ _.
  apply (pl_bind any); [unfold tracker_initialize; harmless_tac|]. intros tr _.
  apply (pl_bind any); [apply (harmless_wire L)|]. intros _ _.
  apply pl_finally; [|apply (harmless_wire L)].
  apply (pl_bind any); [|intros; by apply pl_ret]. revert tr.
  induction messages as [|raw messages IH]; intros tr; [by apply pl_ret|]. cbn [serve_loop].
  apply (pl_bind any); [apply harmless_message|]. intros tr' _. apply IH.
Qed.

Lemma harmless_stop : L _ any (stop_requested has_stop).
Proof. unfold stop_requested. harmless_tac. Qed.

Lemma harmless_pause interval t elapsed pauses :
  L _ any (pause has_stop interval t elapsed pauses).
Proof.
  revert elapsed. induction pauses as [|pauses IH]; intros elapsed; [by apply pl_ret|].
  cbn [pause]. destruct (elapsed <? t)%pf; [|by apply pl_ret].
  apply (pl_bind any); [apply harmless_stop|]. intros [] _; [by apply pl_ret|].
  apply pl_await; [done|]. intros _. apply IH.
Qed.

(** The reaper is as harmless as its sweep. *)
Lemma harmless_reaper pauses turns :
  (∀ t, L _ any (reaper_sweep t)) → L _ any (run_reaper has_stop tick pauses turns).
Proof.
  intros Hsweep. induction turns as [|turns IH]; [by apply pl_ret|]. cbn [run_reaper].
  apply (pl_bind any); [apply (harmless_now L)|]. intros t _.
  apply (pl_bind any); [apply Hsweep|]. intros _ _.
  apply (pl_bind any); [apply harmless_stop|]. intros [] _; [by apply pl_ret|].
  apply (pl_bind any); [apply harmless_pause|]. intros _ _. apply IH.
Qed.

Lemma harmless_emit_once identity interval : L _ any (emit_once identity interval).
Proof.
  unfold emit_once. destruct (negb _); [by apply pl_ret|].
  apply pl_catch; [|intros; by apply pl_ret].
  apply (pl_bind any); [apply (harmless_now L)|]. intros t _.
  do 2 (apply (pl_bind any); [apply (harmless_fresh L)|]; intros ? _).
  apply (pl_bind (λ e, silent_payload (env_payload e))).
  { apply (harmless_lift L). intros e He. unfold heartbeat_envelope in He.
    apply envelope_payload in He. by rewrite He. }
  intros e He. apply pl_await; [exact He|]. intros []; first [by apply pl_ret|apply pl_raise].
Qed.

Lemma harmless_background p turns :
  p ∈ _start_background_tasks environ service_runtime turns → L _ any p.
Proof.
  unfold _start_background_tasks. cbv zeta. rewrite elem_of_app. intros [Hp|Hp].
  - destruct (heartbeat_enabled _); [|by apply elem_of_nil in Hp].
    apply list_elem_of_singleton in Hp as ->. unfold heartbeat_run. destruct (negb _); [by apply pl_ret|].
    induction turns as [|turns IH]; [by apply pl_ret|]. cbn [heartbeat_loop].
    apply (pl_bind any); [apply harmless_emit_once|]. intros _ _.
    apply pl_await; [done|]. intros []; [by apply pl_ret|apply IH].
  - destruct (_ <? _)%pf; [|by apply elem_of_nil in Hp].
    apply list_elem_of_singleton in Hp as ->. unfold _republish_card_loop. destruct (_ <=? _)%pf; [by apply pl_ret|].
    induction turns as [|turns IH]; [by apply pl_ret|]. cbn [card_loop].
    apply pl_await; [done|]. intros []; [by apply pl_ret|].
    apply (pl_bind any); [apply harmless_publish_card|]. intros _ _. apply IH.
Qed.

Lemma harmless_spawn p : L _ any p → L _ any (create_task p).
Proof. intros Hp. apply pl_await; [done|]. intros _. exact Hp. Qed.
End Harmless.

(** ** What the coroutines cost *)

Section Case.
Variable c : UUID.

(** ** The decisions of a case *)

(** The tickets of case [c] among the messages delivered to the intake. *)
Definition is_ticket_of (raw : Bytes) : bool :=
  match parse_envelope raw with
  | Ok e => match env_payload e with P_Ticket _ => Z.eqb (env_correlation_id e) c | _ => false end
  | Err _ => false
  end.

Definition ticket_deliveries (d : Deliveries Bytes) : nat := length (List.filter is_ticket_of (d_tickets d)).

Lemma tickets_cost messages :
  messages_cost parse_envelope (intake_cost c) messages = (3 * length (List.filter is_ticket_of messages))%nat.
Proof.
  induction messages as [|raw messages IH]; [done|]. cbn [messages_cost foldr List.filter].
  unfold messages_cost in IH. rewrite IH. unfold message_cost, intake_cost, is_ticket_of.
  destruct (parse_envelope raw) as [e|]; [|cbn; lia].
  destruct (env_payload e); try (cbn; lia). destruct (Z.eqb _ _); cbn [length]; lia.
Qed.

(** The tokens the service is started with: those of its intake. *)
Definition grants (d : Deliveries Bytes) : list nat :=
  [0; 3 * ticket_deliveries d; 0; 0; 0; 0]%nat ++
  map (λ _, 0%nat) (_start_background_tasks environ service_runtime (d_turns d)).

Lemma spawn_safe n p : costs c n p → spec c n (create_task p) (λ _ _, True) (λ _, True).
Proof.
  intros Hp. cbn. split; [lia|]. intros _. rewrite Nat.sub_0_r. by apply costs_safe.
Qed.

Lemma consumer_free_costs suffix h messages :
  (∀ e, free c (λ _, True) (h e)) → costs c 0 (service_consumer suffix h messages).
Proof. intros Hh. eapply costs_free, (harmless_consumer (@free c)). auto. Qed.

Lemma service_safe d :
  Forall2 (λ n p, spec c n p (λ _ _, True) (λ _, True)) (grants d)
    (map create_task (serve d ++ _start_background_tasks environ service_runtime (d_turns d))).
Proof.
  unfold grants, serve. rewrite map_app. apply Forall2_app.
  - cbn [map]. repeat apply Forall2_cons_2; [apply spawn_safe..|constructor].
    + eapply costs_free, (harmless_endpoint (@free c)).
    + unfold ticket_deliveries. rewrite <- tickets_cost. apply consumer_costs. intros e. apply intake_costs.
    + apply consumer_free_costs. intros e. apply result_handler_free.
    + apply consumer_free_costs. intros e. apply billing_handler_free.
    + apply consumer_free_costs. intros e. apply risk_handler_free.
    + eapply costs_free, (harmless_reaper (@free c)), reaper_free.
  - pose proof (λ p, harmless_background (@free c) p (d_turns d)) as Hb. revert Hb. generalize (d_turns d). intros n Hb.
    induction (_start_background_tasks environ service_runtime n) as [|p ps IH]; cbn; constructor.
    + apply spawn_safe. eapply costs_free, Hb. by left.
    + apply IH. intros q Hq. apply Hb. by right.
Qed.

Lemma grants_sum d : tok_sum (grants d) = (3 * ticket_deliveries d)%nat.
Proof.
  unfold grants. cbn [app]. cbn [tok_sum fold_right].
  assert (Hz : ∀ l : list (prog unit), fold_right Nat.add 0%nat (map (λ _, 0%nat) l) = 0%nat).
  { induction l; cbn; lia. }
  rewrite Hz. lia.
Qed.

Lemma service_covered d w l :
  world_ok w → rtc (loop_step nothing_else) (service_loop d w) l →
  covered c (3 * ticket_deliveries d) w l.
Proof.
  intros Hw Hr. eapply covered_steps; [|exact Hr|]; [done|]. split; [exact Hw|].
  exists (grants d). split; [apply service_safe|]. rewrite grants_sum. cbn [l_world service_loop]. lia.
Qed.

(** C37 (safety): the decisions of the composed service.  Start the whole service on a
    consistent store and let the broker deliver anything to its consumers and its
    endpoint: under every interleaving of the six coroutines and the background tasks,
    every lost or unacknowledged record and every answer of the LLM, the store stays
    consistent; and the decisions the service publishes for a case are at most one more
    than three for each delivery of its ticket - none when the case was already closed
    and its ticket is not delivered again, one when it was open. *)
Theorem service_decisions_bounded d w l :
  world_ok w → rtc (loop_step nothing_else) (service_loop d w) l →
  store_ok (w_store (l_world l)) ∧
  (decisions c (w_log (l_world l)) + closed c w <=
   decisions c (w_log w) + closed c (l_world l) + 3 * ticket_deliveries d)%nat.
Proof.
  intros Hw Hr. destruct (service_covered d w l Hw Hr) as (Hok & toks & _ & Hsum).
  split; [exact Hok|]. lia.
Qed.
End Case.

(** ** What can take the service down *)

(** An answer the broker may give when it may refuse life-cycle calls with [W]. *)
Definition admits (W : exn → Prop) {R} (q : Query R) : R → Prop :=
  match q with
  | Wire _ => λ r, match r with Err e => W e | Ok _ => True end
  | _ => λ _, True
  end.

(** One step of a loop that starts nothing: coroutine [i] resumes with an answer the broker
    may give it, or time passes. *)
Inductive served_step (refused : nat → exn → Prop) : Loop → Loop → Prop :=
| served_resume ts w i R (q : Query R) (k : R → prog unit) (r : R) p' w' :
    ts !! i = Some (Await q k) → admits (refused i) q r →
    advance (k r) (effect q r w) = (p', w') →
    served_step refused (mk_loop ts w) (mk_loop (<[i := p']> ts) w')
| served_time ts w t :
    w_now w <= t →
    served_step refused (mk_loop ts w)
      (mk_loop ts (mk_world (w_store w) t (w_uuids w) (w_log w))).

(** A broker that may refuse anything gives every run. *)
Lemma served_by_any l l' : loop_step nothing_else l l' ↔ served_step (λ _ _, True) l l'.
Proof.
  split.
  - intros [ts w i R q k r p' w' Hi Ha|ts w p p' w' []|ts w t Ht].
    + eapply served_resume; [exact Hi| |exact Ha]. destruct q; try done. by destruct r.
    + by apply served_time.
  - intros [ts w i R q k r p' w' Hi _ Ha|ts w t Ht]; [by eapply step_resume|by apply step_time].
Qed.

(** Whatever its actions read and the awaits answer, the program raises only [P], when its
    life-cycle calls are refused only with [W]. *)
Fixpoint raises_only (W P : exn → Prop) {A} (p : prog A) : Prop :=
  match p with
  | Ret _ => True
  | Raise e => P e
  | Do _ k => ∀ b, raises_only W P (k b)
  | Await q k => ∀ r, admits W q r → raises_only W P (k r)
  end.

Section Raising.
Variable W : exn → Prop.

Lemma raises_bind (P : exn → Prop) {A B} (p : prog A) (g : A → prog B) :
  raises_only W P p → (∀ a, raises_only W P (g a)) → raises_only W P (bind p g).
Proof. intros Hp Hg. induction p; cbn in *; auto. Qed.

Lemma raises_catch (P : exn → Prop) {A} (p : prog A) h :
  (∀ e, raises_only W P (h e)) → raises_only W P (catch p h).
Proof. intros Hh. induction p; cbn in *; auto. Qed.

Lemma raises_wire call : raises_only W W (wire call).
Proof. cbn. by intros [[]|e]. Qed.

(** The body's own exceptions pass a [finally]. *)
Lemma raises_finally (P : exn → Prop) {A} (p : prog A) f :
  raises_only W P p → raises_only W P f → raises_only W P (try_finally p f).
Proof.
  intros Hp Hf. unfold try_finally. induction p as [a|e|B h k IH|R q k IH]; cbn in *.
  - by apply raises_bind.
  - by apply raises_bind.
  - auto.
  - auto.
Qed.

(** No exception leaves the program. *)
Abbreviation quiet := (raises_only W (λ _, False)).

Lemma quiet_raises (P : exn → Prop) {A} (p : prog A) : quiet p → raises_only W P p.
Proof. intros Hp. induction p; cbn in *; by auto. Qed.

Lemma stays_quiet_bind {A B} (p : prog A) (g : A → prog B) :
  quiet p → (∀ a, quiet (g a)) → quiet (bind p g).
Proof. apply raises_bind. Qed.

Lemma quiet_catch {A} (p : prog A) h : (∀ e, quiet (h e)) → quiet (catch p h).
Proof. apply raises_catch. Qed.

Lemma quiet_reads {A} (f : World → A) : quiet (reads f).
Proof. done. Qed.

Lemma raises_advance (P : exn → Prop) {A} (p : prog A) w :
  raises_only W P p → raises_only W P (fst (advance p w)).
Proof.
  revert w. induction p as [a|e|B f k IH|R q k IH]; intros w Hp; try done.
  cbn. destruct (f w) as [b w']. apply IH, Hp.
Qed.

Lemma identity_valid : valid_identity IDENTITY.
Proof. split; vm_compute; reflexivity. Qed.

Lemma quiet_audit e o reason :
  reason_ok o reason → quiet (audit (Some IDENTITY) e o reason).
Proof.
  intros Hr. unfold audit, write_audit, write_task_audit. cbn. intros t.
  rewrite mk_audit_ok by done. cbn. intros u.
  destruct identity_valid as [H1 H2]. rewrite mk_envelope_ok by (done || (vm_compute; reflexivity)).
  cbn. done.
Qed.

Lemma quiet_message h raw tr :
  quiet (consume_message (T:=IdempotencyTracker) parse_envelope (Some IDENTITY) h raw tr).
Proof.
  unfold consume_message. destruct (parse_envelope raw) as [e|err] eqn:Ep.
  2: { apply stays_quiet_bind; [by apply quiet_catch|done]. }
  apply stays_quiet_bind.
  { unfold check_duplicate. destruct tr as [t|]; [|done].
    destruct (dd_is_duplicate _ t) as [[] t']; [by apply quiet_catch|done]. }
  intros [[] tr']; [done|]. destruct (payload_rejection e) as [reason|].
  { apply stays_quiet_bind; [|done]. by apply quiet_audit. }
  unfold handle_event. apply stays_quiet_bind; [by apply quiet_catch|]. intros []; [done|].
  apply stays_quiet_bind; [by destruct tr' as [t|]|]. intros tr2. apply stays_quiet_bind; [by apply quiet_catch|done].
Qed.

(** A consumer lets out only what the broker refused it with. *)
Lemma consumer_raises suffix h messages : raises_only W W (service_consumer suffix h messages).
Proof.
  unfold service_consumer, run_consumer. apply raises_bind; [by apply quiet_raises|]. intros tr.
  apply raises_bind; [apply raises_wire|]. intros _. apply raises_bind; [done|]. intros _.
  apply raises_finally; [|apply raises_wire]. apply quiet_raises, stays_quiet_bind; [|done].
  revert tr. induction messages as [|raw messages IH]; intros tr; [done|].
  cbn [consume_loop]. apply stays_quiet_bind; [apply quiet_message|]. intros [tr' d'].
  apply stays_quiet_bind; [apply IH|]. by intros [].
Qed.

Lemma quiet_stop : quiet (stop_requested has_stop).
Proof. by destruct has_stop. Qed.

Lemma quiet_pause interval t elapsed pauses : quiet (pause has_stop interval t elapsed pauses).
Proof.
  revert elapsed. induction pauses as [|pauses IH]; intros elapsed; [done|]. cbn [pause].
  destruct (elapsed <? t)%pf; [|done]. apply stays_quiet_bind; [apply quiet_stop|].
  intros []; [done|]. intros r _. apply IH.
Qed.

Lemma quiet_reap_all ks : quiet (reap_all ks).
Proof.
  induction ks as [|k ks IH]; [done|]. cbn [reap_all]. apply stays_quiet_bind; [|auto].
  unfold reap_case. apply stays_quiet_bind; [done|]. intros [case|]; [|done].
  destruct (closed_status _); [done|]. apply stays_quiet_bind; [done|]. intros u. by apply quiet_catch.
Qed.

Lemma quiet_reaper pauses turns : quiet (run_reaper has_stop tick pauses turns).
Proof.
  induction turns as [|turns IH]; [done|]. cbn [run_reaper]. apply stays_quiet_bind; [done|]. intros t.
  apply stays_quiet_bind; [apply stays_quiet_bind; [done|intros ks; apply quiet_reap_all]|]. intros _.
  apply stays_quiet_bind; [apply quiet_stop|]. intros []; [done|].
  apply stays_quiet_bind; [apply quiet_pause|auto].
Qed.

Lemma quiet_publish_card : quiet (_publish_card service_runtime).
Proof.
  unfold _publish_card. do 2 (apply stays_quiet_bind; [done|]; intros ?). apply stays_quiet_bind; [done|].
  intros t. by apply quiet_catch.
Qed.

Lemma quiet_background n p :
  p ∈ _start_background_tasks environ service_runtime n → quiet p.
Proof.
  unfold _start_background_tasks. cbv zeta. rewrite elem_of_app. intros [Hp|Hp].
  - destruct (heartbeat_enabled _); [|by apply elem_of_nil in Hp].
    apply list_elem_of_singleton in Hp as ->. unfold heartbeat_run. destruct (negb _); [done|].
    induction n as [|n IH]; [done|]. cbn [heartbeat_loop]. apply stays_quiet_bind.
    { unfold emit_once. destruct (negb _); [done|]. by apply quiet_catch. }
    intros _. apply stays_quiet_bind; [done|]. by intros [].
  - destruct (_ <? _)%pf; [|by apply elem_of_nil in Hp].
    apply list_elem_of_singleton in Hp as ->. unfold _republish_card_loop. destruct (_ <=? _)%pf; [done|].
    induction n as [|n IH]; [done|]. cbn [card_loop]. apply stays_quiet_bind; [done|].
    intros []; [done|]. apply stays_quiet_bind; [apply quiet_publish_card|auto].
Qed.

End Raising.

(** What coroutine [i] of the service may raise, the endpoint ([0]) aside. *)
Definition may_raise (refused : nat → exn → Prop) (i : nat) (e : exn) : Prop :=
  i = 0%nat ∨ (i <= 4)%nat ∧ refused i e.

Definition attributed (refused : nat → exn → Prop) (l : Loop) : Prop :=
  ∀ i p, l_threads l !! i = Some p → raises_only (refused i) (may_raise refused i) p.

Lemma raises_mono W (P Q : exn → Prop) {A} (p : prog A) :
  (∀ e, P e → Q e) → raises_only W P p → raises_only W Q p.
Proof. intros HPQ Hp. induction p; cbn in *; auto. Qed.

Lemma raises_anything W {A} (p : prog A) : raises_only W (λ _, True) p.
Proof. induction p; cbn; auto. Qed.

Lemma attributed_step refused l l' :
  served_step refused l l' → attributed refused l → attributed refused l'.
Proof.
  intros Hstep Hq. destruct Hstep as [ts w j R q k r p' w' Hj Hr Ha|ts w t Ht]; [|exact Hq].
  intros i p Hi. cbn in *. destruct (decide (j = i)) as [->|Hne].
  - rewrite list_lookup_insert_eq in Hi by (by eapply lookup_lt_Some). injection Hi as <-.
    pose proof (Hq i _ Hj r Hr) as Hk.
    pose proof (raises_advance _ _ (k r) (effect q r w) Hk) as H1. by rewrite Ha in H1.
  - rewrite list_lookup_insert_ne in Hi by done. by apply (Hq i).
Qed.

Lemma service_attributed refused d w : attributed refused (service_loop d w).
Proof.
  assert (Ht : ∀ W P p, raises_only W P p → raises_only W P (create_task p)) by (intros W P p Hp r _; exact Hp).
  intros i p Hi. cbn [l_threads service_loop] in Hi. rewrite list_lookup_fmap in Hi.
  destruct ((serve d ++ _) !! i) as [q|] eqn:Hq; [|done]. cbn in Hi. injection Hi as <-.
  apply Ht. unfold serve in Hq.
  assert (Hc : ∀ suffix h messages, (1 <= i <= 4)%nat →
    raises_only (refused i) (may_raise refused i) (service_consumer suffix h messages)).
  { intros suffix h messages Hin. eapply raises_mono; [|apply consumer_raises].
    intros e He. right. by split; [lia|]. }
  destruct i as [|[|[|[|[|[|i]]]]]]; cbn in Hq; try (injection Hq as <-); try (apply Hc; lia).
  - eapply raises_mono; [|apply raises_anything]. intros e _. by left.
  - apply quiet_raises, quiet_reaper.
  - apply quiet_raises. apply list_elem_of_lookup_2 in Hq. by eapply quiet_background.
Qed.

(** C38 (error): what can take the service down.  An exception that leaves one of the gathered
    coroutines ends [gather], and with it every consumer of the process.  Under every
    interleaving, message and broker failure, such an exception is the endpoint's; or it
    leaves one of the four consumers, and then it is one with which the broker refused that
    consumer's own start, seek or stop - whatever [refused] allows it - and nothing the
    consumer was delivered.  It never leaves the reaper or a background task; and when no
    consumer is refused, only the endpoint can raise. *)
Theorem service_failures_attributed refused d w l i e :
  rtc (served_step refused) (service_loop d w) l →
  l_threads l !! i = Some (Raise e) →
  (i = 0%nat ∨ (1 <= i <= 4)%nat ∧ refused i e) ∧ ((∀ j e, ¬ refused j e) → i = 0%nat).
Proof.
  intros Hr Hi. assert (Hq : attributed refused l).
  { pose proof (service_attributed refused d w) as H1. revert H1.
    induction Hr as [|x y z Hxy _ IH]; [done|]. intros Hx. by apply IH, (attributed_step _ _ _ Hxy). }
  destruct (Hq i _ Hi) as [->|[Hle He]]; [split; [by left|done]|].
  split; [|intros Hn; by destruct (Hn i e)]. destruct i; [by left|right; by split; [lia|]].
Qed.
End Service.
