(* ===== verification/Provenance.v ===== *)
(** * Where a decision comes from

    Every decision the resolution service publishes, other than an escalation or a direct
    response, rests on a billing result and a risk result that the broker delivered to it
    for the same case, and is what the decision policy rules on them.

    The proof is a logic over programs ([vows]) that carries the last store a coroutine
    saw: the store only evolves ([ext]: a case stays, and keeps its task ids), so what was
    read of a case's task ids still holds after any interleaving.  [honest] is the part of
    it that needs no such knowledge, an instance of [ProgLogic]. *)

From Stdlib Require Import ZArith Bool Ascii String List Lia.
From stdpp Require Import base list strings gmap relations.
From S2P Require Import Prelude.
From S2P Require Import PyFloat.
From S2P Require Import Contracts.
From S2P Require Import Uuid.
From S2P Require Import Idempotency.
From S2P Require Import A2A.
From S2P Require Import RiskModels.
From S2P Require Import RiskStore.
From S2P Require Import RiskScoring.
From S2P Require Import RiskService.
From S2P Require Import BillingModels.
From S2P Require Import BillingRules.
From S2P Require Import BillingStore.
From S2P Require Import BillingService.
From S2P Require Import BillingFacts.
From S2P Require Import Envelope.
From S2P Require Import CaseModels.
From S2P Require Import Drafter.
From S2P Require Import Classifier.
From S2P Require Import DecisionEngine.
From S2P Require Import DecisionFacts.
From S2P Require Import Normalize.
From S2P Require Import StateStore.
From S2P Require Import Llm.
From S2P Require Import Async.
From S2P Require Import LlmRuntime.
From S2P Require Import Consumer.
From S2P Require Import Handlers.
From S2P Require Import ProgLogic.
From S2P Require Import Runtime.
From S2P Require Import Reaper.
From S2P Require Import EndToEnd.
From S2P Require Import Service.

Open Scope string_scope.
Open Scope list_scope.
Open Scope Z_scope.
Open Scope prog_scope.

#[local] Set Default Proof Using "Type*".

(** ** What a case knows, and where from *)

Section Grounds.
(** The envelopes delivered to the billing-results and to the risk-results consumer. *)
Variable from_billing from_risk : EventEnvelope → Prop.

Definition billing_grounds (q : UUID) (b : BillingFinding) : Prop :=
  ∃ e p t, from_billing e ∧ env_correlation_id e = q ∧ env_payload e = P_BillingResult p ∧
    b = billing_finding p t.

Definition risk_grounds (q : UUID) (r : RiskFinding) : Prop :=
  ∃ e p t, from_risk e ∧ env_correlation_id e = q ∧ env_payload e = P_RiskResult p ∧
    r = risk_finding p t.

(** An outcome that needs no analysis, or the policy's ruling on two delivered ones. *)
Definition backed_outcome (q : UUID) (o : ResolutionOutcome) : Prop :=
  o = DIRECT_RESPONSE ∨ o = ESCALATE_HUMAN ∨
  ∃ triage b r, billing_grounds q b ∧ risk_grounds q r ∧
    fst (truth_table triage (Some b) (Some r) None) = o.

(** A decision, or its draft, of the case it is published for.  A draft asks for human
    approval when its outcome does. *)
Definition backed (e : EventEnvelope) : Prop :=
  match env_payload e with
  | P_Decision p =>
      crd_case_id p = env_correlation_id e ∧ backed_outcome (env_correlation_id e) (crd_outcome p)
  | P_Drafted p =>
      drf_case_id p = env_correlation_id e ∧ backed_outcome (env_correlation_id e) (drf_outcome p) ∧
      drf_requires_human_approval p = requires_human_approval (drf_outcome p)
  | _ => True
  end.

(** ** The store's invariant and its evolution *)

Record case_grounded (k : UUID) (c : ResolutionCase) : Prop := {
  cg_id : rc_case_id c = k;
  cg_correlation : rc_correlation_id c = k;
  cg_billing : ∀ b, rc_billing_result c = Some b → billing_grounds k b;
  cg_risk : ∀ r, rc_risk_result c = Some r → risk_grounds k r;
}.

Definition has_task (t : UUID) (c : ResolutionCase) : Prop :=
  rc_billing_task_id c = Some t ∨ rc_risk_task_id c = Some t.

Record grounded (st : CaseStore) : Prop := {
  gr_case : ∀ k c, cs_cases st !! k = Some c → case_grounded k c;
  gr_index : ∀ q k, cs_by_correlation st !! q = Some k → k = q;
  gr_task : ∀ t k, cs_by_task_id st !! t = Some k →
    ∃ c, cs_cases st !! k = Some c ∧ has_task t c;
}.

Definition keeps_tasks (c c' : ResolutionCase) : Prop :=
  (∀ t, rc_billing_task_id c = Some t → rc_billing_task_id c' = Some t) ∧
  (∀ t, rc_risk_task_id c = Some t → rc_risk_task_id c' = Some t).

Definition ext (st st' : CaseStore) : Prop :=
  ∀ k c, cs_cases st !! k = Some c → ∃ c', cs_cases st' !! k = Some c' ∧ keeps_tasks c c'.

#[export] Instance keeps_tasks_preorder : PreOrder keeps_tasks.
Proof. unfold keeps_tasks. split; [done|]. intros c1 c2 c3 [] []. split; eauto. Qed.

#[export] Instance ext_preorder : PreOrder ext.
Proof.
  split; [intros st k c; eauto using keeps_tasks_preorder|].
  - exists c. split; [done|reflexivity].
  - intros s1 s2 s3 H1 H2 k c Hc. destruct (H1 k c Hc) as (c2 & Hc2 & K1).
    destruct (H2 k c2 Hc2) as (c3 & Hc3 & K2). exists c3. split; [done|by etrans].
Qed.

Lemma has_task_kept t c c' : keeps_tasks c c' → has_task t c → has_task t c'.
Proof. intros [Hb Hr] [H|H]; [left|right]; auto. Qed.

Definition evolves (st st' : CaseStore) : Prop := grounded st' ∧ ext st st'.

Lemma evolves_refl st : grounded st → evolves st st.
Proof. by split. Qed.

(** A case's slot is rewritten. *)
Definition rewrites (k : UUID) (f : ResolutionCase → ResolutionCase) : Prop :=
  ∀ c, case_grounded k c → case_grounded k (f c) ∧ keeps_tasks c (f c).

Lemma evolves_update k f st : rewrites k f → grounded st → evolves st (update_case k f st).
Proof.
  intros Hf [Hc Hi Ht].
  assert (He : ext st (update_case k f st)).
  { intros k' c Hk. cbn. destruct (decide (k = k')) as [->|Hn].
    - rewrite lookup_alter_eq, Hk. exists (f c). split; [done|]. by apply Hf, Hc.
    - rewrite lookup_alter_ne by done. exists c. split; [done|reflexivity]. }
  split; [|exact He]. constructor.
  - intros k' c'. cbn. destruct (decide (k = k')) as [->|Hn].
    + rewrite lookup_alter_eq. destruct (cs_cases st !! k') as [c|] eqn:E; [|done].
      intros [= <-]. by apply Hf, Hc.
    + rewrite lookup_alter_ne by done. apply Hc.
  - exact Hi.
  - intros t k' Hk. destruct (Ht t k' Hk) as (c & Hcc & Htc).
    destruct (He k' c Hcc) as (c' & Hc' & Hkeep). exists c'. split; [done|by eapply has_task_kept].
Qed.

Lemma evolves_put k c' st :
  case_grounded k c' → (∀ c, cs_cases st !! k = Some c → keeps_tasks c c') →
  grounded st → evolves st (put_case k c' st).
Proof.
  intros Hc' Hkeep [Hc Hi Ht].
  assert (He : ext st (put_case k c' st)).
  { intros k' c Hk. cbn. destruct (decide (k = k')) as [->|Hn].
    - rewrite lookup_insert_eq. exists c'. split; [done|by apply Hkeep].
    - rewrite lookup_insert_ne by done. exists c. split; [done|reflexivity]. }
  split; [|exact He]. constructor; cbn.
  - intros k' c. rewrite lookup_insert_Some. intros [[<- <-]|[_ H]]; auto.
  - intros q k'. rewrite lookup_insert_Some. intros [[<- <-]|[_ H]]; [|auto].
    symmetry. apply (cg_correlation _ _ Hc').
  - intros t k' Hk. destruct (Ht t k' Hk) as (c & Hcc & Htc).
    destruct (He k' c Hcc) as (c2 & Hc2 & K). exists c2. split; [done|by eapply has_task_kept].
Qed.

(** An update that touches neither identity, results nor task ids. *)
Definition mild (f : ResolutionCase → ResolutionCase) : Prop :=
  ∀ c, rc_case_id (f c) = rc_case_id c ∧ rc_correlation_id (f c) = rc_correlation_id c ∧
    rc_billing_result (f c) = rc_billing_result c ∧ rc_risk_result (f c) = rc_risk_result c ∧
    keeps_tasks c (f c).

Lemma mild_grounded k c c' :
  rc_case_id c' = rc_case_id c → rc_correlation_id c' = rc_correlation_id c →
  rc_billing_result c' = rc_billing_result c → rc_risk_result c' = rc_risk_result c →
  case_grounded k c → case_grounded k c'.
Proof. intros H1 H2 H3 H4 []. constructor; rewrite ?H1, ?H2, ?H3, ?H4; auto. Qed.

Lemma mild_rewrites k f : mild f → rewrites k f.
Proof.
  intros Hf c Hc. destruct (Hf c) as (H1 & H2 & H3 & H4 & H5).
  split; [by apply (mild_grounded k c)|done].
Qed.
End Grounds.

(** Closes [mild] for assignments to other attributes. *)
Ltac mild_tac := intros ?; cbn; repeat case_match; cbn; split_and!; done.

(** ** The logic *)

Section Logic.
Variable from_billing from_risk : EventEnvelope → Prop.
Abbreviation grounded := (grounded from_billing from_risk).
Abbreviation evolves := (evolves from_billing from_risk).
Abbreviation backed := (backed from_billing from_risk).
Abbreviation case_grounded := (case_grounded from_billing from_risk).

Definition backed_query {R} (q : Query R) : Prop :=
  match q with Send _ _ e => backed e | _ => True end.

(** [vows s p Q]: run from any world whose store evolved from [s], whatever other
    coroutines do at its awaits, [p] keeps the invariant, evolves the store and sends
    nothing that is not backed; it ends with a value that satisfies [Q] at the last store
    it saw. *)
Fixpoint vows {A} (s : CaseStore) (p : prog A) (Q : CaseStore → A → Prop) : Prop :=
  match p with
  | Ret a => Q s a
  | Raise _ => True
  | Do f k => ∀ w, grounded (w_store w) → ext s (w_store w) →
      evolves (w_store w) (w_store (snd (f w))) ∧ w_log (snd (f w)) = w_log w ∧
      vows (w_store (snd (f w))) (k (fst (f w))) Q
  | Await q k => backed_query q ∧ ∀ r, vows s (k r) Q
  end.

Lemma vows_mono {A} s (p : prog A) (Q Q' : CaseStore → A → Prop) :
  (∀ s' a, ext s s' → Q s' a → Q' s' a) → vows s p Q → vows s p Q'.
Proof.
  revert s. induction p as [a|e|B f k IH|R q k IH]; intros s HQ; cbn; auto.
  - apply HQ. reflexivity.
  - intros H w Hw He. destruct (H w Hw He) as ([Hg Hext] & Hl & Hk).
    split; [done|]. split; [done|]. eapply IH; [|exact Hk]. intros s' a Hs'. apply HQ.
    etrans; [exact He|]. by etrans.
  - intros [H1 H2]. split; [done|]. intros r. eapply IH; [|apply H2]. auto.
Qed.

Lemma vows_bind {A B} s (p : prog A) (g : A → prog B) Q :
  vows s p (λ s' a, vows s' (g a) Q) → vows s (bind p g) Q.
Proof.
  revert s. induction p as [a|e|T f k IH|R q k IH]; intros s; cbn; auto.
  - intros H w Hw He. destruct (H w Hw He) as (H1 & H2 & H3). auto.
  - intros [H1 H2]. auto.
Qed.

Lemma vows_catch {A} s (p : prog A) h (Q : CaseStore → A → Prop) :
  vows s p Q → (∀ s' e, ext s s' → vows s' (h e) Q) → vows s (catch p h) Q.
Proof.
  revert s. induction p as [a|e|T f k IH|R q k IH]; intros s; cbn; auto.
  - intros _ Hh. apply Hh. reflexivity.
  - intros H Hh w Hw He. destruct (H w Hw He) as ([Hg Hext] & H2 & H3).
    split; [done|]. split; [done|]. apply IH; [done|]. intros s' e Hs'. apply Hh.
    etrans; [exact He|]. by etrans.
  - intros [H1 H2] Hh. auto.
Qed.

(** Programs that need to know nothing of the store. *)
Definition honest {A} (P : A → Prop) (p : prog A) : Prop := ∀ s, vows s p (λ _ a, P a).

(** The rest of a program, at a store that evolved from the one known. *)
Lemma vows_after {A B} s (P : A → Prop) (p : prog A) (g : A → prog B) Q :
  honest P p → (∀ s' a, ext s s' → P a → vows s' (g a) Q) → vows s (bind p g) Q.
Proof.
  intros Hp Hg. apply vows_bind. eapply vows_mono; [|apply Hp]. intros s' a Hs' Ha. by apply Hg.
Qed.

Lemma honest_vows {A} (P : A → Prop) (p : prog A) s : honest P p → vows s p (λ _ _, True).
Proof. intros Hp. eapply vows_mono; [|apply Hp]. done. Qed.

Lemma silent_backed {R} (q : Query R) : silent_query q → backed_query q.
Proof. destruct q; cbn; try done. unfold Provenance.backed. by destruct (env_payload env). Qed.

#[export] Instance honest_logic : ProgLogic (@honest).
Proof.
  constructor.
  - by intros A P a Ha s.
  - by intros A P e s.
  - intros A B P Q p g Hp Hg s. eapply vows_after; [exact Hp|]. intros s' a _ Ha. by apply Hg.
  - intros A P p h Hp Hh s. apply vows_catch; [apply Hp|]. intros s' e _. apply Hh.
  - intros A B P f k Hf Hk s w Hw He. destruct (Hf w) as [Hs Hl]. rewrite Hs.
    split; [by apply evolves_refl|]. split; [done|apply Hk].
  - intros A R P q k Hq Hk s. split; [by apply silent_backed|]. intros r. apply Hk.
Qed.

(** *** Rules for the store *)

Lemma vows_store_op {A} s (f : CaseStore → datetime → A * CaseStore) Q :
  (∀ st t, grounded st → ext s st → evolves st (snd (f st t)) ∧ Q (snd (f st t)) (fst (f st t))) →
  vows s (store_op f) Q.
Proof.
  intros Hf w Hw He. specialize (Hf _ (w_now w) Hw He).
  destruct (f (w_store w) (w_now w)) as [a st]. cbn in *. destruct Hf. by split_and!.
Qed.

Lemma vows_update s (f : CaseStore → datetime → CaseStore) (Q : CaseStore → unit → Prop) :
  (∀ st t, grounded st → ext s st → evolves st (f st t) ∧ Q (f st t) tt) →
  vows s (store_update f) Q.
Proof. intros Hf. apply vows_store_op. exact Hf. Qed.

Lemma vows_try s (f : CaseStore → datetime → result CaseStore) (Q : CaseStore → unit → Prop) :
  (∀ st t st', grounded st → ext s st → f st t = Ok st' → evolves st st' ∧ Q st' tt) →
  vows s (store_try f) Q.
Proof.
  intros Hf w Hw He. specialize (Hf (w_store w) (w_now w)).
  destruct (f (w_store w) (w_now w)) as [st'|e]; cbn; [|split_and!; [by apply evolves_refl|done|done]].
  destruct (Hf st' Hw He eq_refl). by split_and!.
Qed.

Lemma vows_deref s k (Q : CaseStore → ResolutionCase → Prop) :
  (∀ st case, ext s st → cs_cases st !! k = Some case → case_grounded k case → Q st case) →
  vows s (deref k) Q.
Proof.
  intros HQ. apply vows_bind. intros w Hw He. cbn. split; [by apply evolves_refl|]. split; [done|].
  unfold get. destruct (cs_cases (w_store w) !! k) as [case|] eqn:E; [|exact I].
  apply HQ; [done..|]. by apply (gr_case _ _ _ Hw).
Qed.

Lemma honest_deref k : honest (case_grounded k) (deref k).
Proof. intros s. by apply vows_deref. Qed.

Lemma honest_update (f : CaseStore → datetime → CaseStore) :
  (∀ st t, grounded st → evolves st (f st t)) → honest (λ _, True) (store_update f).
Proof. intros Hf s. apply vows_update. auto. Qed.

Lemma honest_rewrite k f :
  rewrites from_billing from_risk k f → honest (λ _, True) (assign k f).
Proof. intros Hf. apply honest_update. intros st t Hst. by apply evolves_update. Qed.

Lemma honest_assign k f : mild f → honest (λ _, True) (assign k f).
Proof. intros Hf. by apply honest_rewrite, mild_rewrites. Qed.

Lemma honest_save k v : honest (λ _, True) (store_try (λ st t, save st k v t)).
Proof.
  intros s. apply vows_try. intros st t st' Hst _ Hs. split; [|done]. unfold save in Hs.
  destruct (cs_cases st !! k) as [case|] eqn:E; [|discriminate].
  pose proof (gr_case _ _ _ Hst _ _ E) as Hc. rewrite (cg_id _ _ _ _ Hc), E in Hs.
  destruct v as [v|]; [destruct (negb _); [discriminate|]|]; injection Hs as <-;
    (apply evolves_put; [by apply (mild_grounded _ _ k case)| |done]; intros c Hcc; simplify_eq; done).
Qed.

Lemma honest_claim k : honest (λ _, True) (store_op (λ st t, claim_decision st k t)).
Proof.
  intros s. apply vows_store_op. intros st t Hst _. split; [|done]. unfold claim_decision.
  destruct (cs_cases st !! k) as [case|]; [|by apply evolves_refl].
  destruct (closed_status _); [by apply evolves_refl|].
  apply evolves_update; [|done]. apply mild_rewrites. mild_tac.
Qed.

Lemma honest_mark_failed k task b reason :
  honest (λ _, True) (store_update (λ st t, mark_slot_failed st k task b reason t)).
Proof.
  apply honest_update. intros st t Hst. unfold mark_slot_failed.
  destruct (cs_cases st !! k) as [case|]; [|by apply evolves_refl].
  destruct (is_terminal _); [by apply evolves_refl|].
  apply evolves_update; [|done]. apply mild_rewrites. unfold fail_slot.
  intros c. destruct b; cbn; destruct (can_transition_to_ready _); cbn; split_and!; done.
Qed.

(** Attaching a finding that has grounds. *)
Definition finding_grounds (k : UUID) (finding : BillingFinding + RiskFinding) : Prop :=
  match finding with
  | inl b => billing_grounds from_billing k b
  | inr r => risk_grounds from_risk k r
  end.

Lemma set_finding_rewrites k finding :
  finding_grounds k finding → rewrites from_billing from_risk k (set_finding finding).
Proof.
  intros Hf c [H1 H2 H3 H4]. split; [|by destruct finding].
  destruct finding; constructor; cbn; auto; by intros ? [= <-].
Qed.

Lemma honest_apply_result k task finding :
  finding_grounds k finding →
  honest (λ _, True) (store_op (λ st t, apply_result st k task finding t)).
Proof.
  intros Hf s. apply vows_store_op. intros st t Hst _. split; [|done]. unfold apply_result.
  destruct (cs_cases st !! k) as [case|]; [|by apply evolves_refl].
  destruct (closed_status _); [by apply evolves_refl|].
  destruct (negb _); [by apply evolves_refl|].
  apply evolves_update; [|done]. intros c Hc.
  destruct (set_finding_rewrites k finding Hf c Hc) as [Hg Hk].
  unfold apply_to_case. destruct (_ && _); (split; [by apply (mild_grounded _ _ k (set_finding finding c))|exact Hk]).
Qed.
End Logic.

(** ** The handlers *)

Section Handlers.
Context `{Uuids} `{Assistant}.
Variable from_billing from_risk : EventEnvelope → Prop.
Abbreviation grounded := (grounded from_billing from_risk).
Abbreviation evolves := (evolves from_billing from_risk).
Abbreviation backed := (backed from_billing from_risk).
Abbreviation backed_outcome := (backed_outcome from_billing from_risk).
Abbreviation case_grounded := (case_grounded from_billing from_risk).
Abbreviation vows := (vows from_billing from_risk).
Abbreviation honest := (honest from_billing from_risk).
Abbreviation any := (λ _, True).

(** *** Emission *)

Lemma honest_publish identity p et q cause topic :
  (∀ e, env_correlation_id e = q → env_payload e = p → backed e) →
  honest any (publish identity p et q cause topic).
Proof.
  intros Hp. unfold publish. apply (pl_bind any); [apply (harmless_fresh (@Provenance.honest from_billing from_risk))|]. intros id _.
  apply (pl_bind any); [apply (harmless_now (@Provenance.honest from_billing from_risk))|]. intros t _.
  apply (pl_bind (λ e, env_correlation_id e = q ∧ env_payload e = p)).
  { apply (harmless_lift (@Provenance.honest from_billing from_risk)). intros e He. by apply build_envelope_inv in He. }
  intros e [Hq He]. apply (pl_bind any).
  { destruct topic; [by apply pl_ret|apply (harmless_lift_any (@Provenance.honest from_billing from_risk))]. }
  intros tp _ s. split; [by apply Hp|]. by intros [].
Qed.

Lemma mk_drafted_inv p p' : mk_drafted p = Ok p' → p' = p.
Proof. unfold mk_drafted. destruct (validate_draft_payload p); congruence. Qed.

Hint Extern 1 (honest _ (deref _)) => apply honest_deref : harmless.
Hint Extern 1 (honest _ (assign _ _)) => apply honest_assign; mild_tac : harmless.
Hint Extern 1 (honest _ (store_try (λ st t, save st _ None t))) => apply honest_save : harmless.

(** The decision of the case in slot [k]. *)
Definition decides (k : UUID) (d : CustomerResponseDecisionPayload) : Prop :=
  crd_case_id d = k ∧ backed_outcome k (crd_outcome d).

Lemma honest_emit k d cause :
  decides k d → honest any (_emit_decision_and_draft k d cause).
Proof.
  intros [Hid Ho]. unfold _emit_decision_and_draft.
  eapply pl_bind; [apply honest_deref|]. intros case Hc. pose proof (cg_correlation _ _ _ _ Hc) as Hk.
  apply (pl_bind any).
  { apply honest_publish. intros e Hq He. unfold Provenance.backed. rewrite He, Hq, Hk. done. }
  intros decided _. apply (pl_bind any); [apply honest_assign; mild_tac|]. intros _ _.
  apply (pl_bind any); [harmless_tac|]. intros _ _.
  apply (pl_bind any); [apply (harmless_now (@Provenance.honest from_billing from_risk))|]. intros t _.
  eapply pl_bind; [apply (harmless_lift (@Provenance.honest from_billing from_risk)); intros p Hp; exact (mk_drafted_inv _ _ Hp)|].
  intros draft ->. apply (pl_bind any).
  { apply honest_publish. intros e Hq He. unfold Provenance.backed. rewrite He, Hq, Hk. done. }
  intros drafted _. apply (pl_bind any); [apply honest_assign; mild_tac|]. intros. by apply pl_ret.
Qed.

(** The end of a decision: emit, set the status, save. *)
Lemma honest_close k d cause status :
  decides k d →
  honest any (let! _ := _emit_decision_and_draft k d cause in
              assign k (set_status status) ;! store_try (λ st t, save st k None t)).
Proof.
  intros Hd. apply (pl_bind any); [by apply honest_emit|]. intros _ _.
  apply (pl_bind any); [apply honest_assign; mild_tac|]. intros _ _. apply honest_save.
Qed.

Lemma decision_row_inv ids o reason bs rs rationale d :
  decision_row ids o reason bs rs rationale = Ok d → crd_case_id d = di_case_id ids ∧ crd_outcome d = o.
Proof.
  unfold decision_row. destruct (draft_customer_response o); cbn; [|discriminate].
  intros Hd. apply mk_decision_inv in Hd as ->. done.
Qed.

(** A handler's own decision needs no analysis. *)
Lemma honest_handler_decision k case o reason rs rationale ticket customer :
  case_grounded k case → o = DIRECT_RESPONSE ∨ o = ESCALATE_HUMAN →
  honest (decides k)
    (handler_decision (rc_correlation_id case) ticket customer o reason rs rationale).
Proof.
  intros Hc Ho. apply (harmless_lift (@Provenance.honest from_billing from_risk)). intros d Hd.
  apply decision_row_inv in Hd as [Hid Hout]. cbn in Hid. split.
  - rewrite Hid. apply (cg_correlation _ _ _ _ Hc).
  - rewrite Hout. destruct Ho as [->| ->]; [by left|by right; left].
Qed.

(** The engine's decision on what the case knows. *)
Lemma table_needs_both triage b r ts :
  let o := fst (truth_table triage b r ts) in
  o = DIRECT_RESPONSE ∨ o = ESCALATE_HUMAN ∨
  ∃ b' r', b = Some b' ∧ r = Some r' ∧ fst (truth_table triage (Some b') (Some r') None) = o.
Proof.
  unfold truth_table, first_match. cbn [List.find fst].
  destruct (negb (tri_needs_refund_review triage)) eqn:Hn; [by left|].
  destruct (_ && _); [by right; left|]. destruct (match ts with Some _ => _ | None => _ end); [by right; left|].
  destruct b as [b|], r as [r|]; [|by right; left..]. right; right. exists b, r. by split_and!.
Qed.

Lemma decide_case_backed k case triage ts d :
  case_grounded k case →
  decide_case triage (rc_billing_result case) (rc_risk_result case) ts
    {| di_case_id := rc_correlation_id case; di_ticket_id := rc_ticket_id case;
       di_customer_id := rc_customer_id case |} = Ok d →
  decides k d.
Proof.
  intros [H1 H2 Hb Hr] Hd.
  destruct (decide_ruling triage (rc_billing_result case) (rc_risk_result case) ts
    {| di_case_id := rc_correlation_id case; di_ticket_id := rc_ticket_id case;
       di_customer_id := rc_customer_id case |}) as (p & Hp & Hrul & Hids & _).
  rewrite Hd in Hp. injection Hp as <-. unfold ids_of in Hids. injection Hids as Hid _ _.
  split; [congruence|]. assert (Ho : crd_outcome d = fst (ruling_of d)) by done. rewrite Ho, Hrul.
  destruct (table_needs_both triage (rc_billing_result case) (rc_risk_result case) ts)
    as [Hdir|[Hesc|(b & r & Eb & Er & Ht)]]; [by left|by right; left|].
  right; right. exists triage, b, r. auto.
Qed.

Lemma honest_apply_decision k cause : honest any (_apply_decision k cause).
Proof.
  unfold _apply_decision. apply (pl_bind any); [apply honest_claim|]. intros claimed _.
  destruct claimed; [|by apply pl_ret]. cbn [negb].
  apply (pl_bind any). { destruct cause; [by apply pl_ret|apply (harmless_fresh (@Provenance.honest from_billing from_risk))]. }
  intros u _. eapply pl_bind; [apply honest_deref|]. intros case Hc.
  apply (pl_bind any); [apply (harmless_now (@Provenance.honest from_billing from_risk))|]. intros t _.
  apply (pl_bind (decides k)); [|intros d Hd; by apply honest_close].
  apply (harmless_lift (@Provenance.honest from_billing from_risk)). intros d Hd. by eapply decide_case_backed.
Qed.

Lemma honest_decide_if_ready k b cause : honest any (decide_if_ready k b cause).
Proof.
  unfold decide_if_ready. eapply pl_bind; [apply honest_deref|]. intros case _. cbv beta.
  destruct (is_ready_to_decide case && _); [apply honest_apply_decision|by apply pl_ret].
Qed.

(** *** Results *)

Lemma honest_attach k task finding e :
  finding_grounds from_billing from_risk k finding → honest any (attach k task finding e).
Proof.
  intros Hf. unfold attach. apply (pl_bind any); [by apply honest_apply_result|]. intros o _.
  destruct (bool_decide _); [apply (harmless_task_audit (@Provenance.honest from_billing from_risk))|by apply pl_ret].
Qed.

(** A case found by its correlation id is that id's. *)
Lemma found_by_correlation st q case :
  grounded st → get_by_correlation_id st q = Some case → case_grounded q case.
Proof.
  intros Hst. unfold get_by_correlation_id. destruct (cs_by_correlation st !! q) as [k|] eqn:E; [|done].
  cbn. apply (gr_index _ _ _ Hst) in E as ->. apply (gr_case _ _ _ Hst).
Qed.

Lemma honest_found {A B} (f : World → A) (P : A → Prop) (g : A → prog B) :
  (∀ w, grounded (w_store w) → P (f w)) → (∀ a, P a → honest any (g a)) →
  honest any (let! a := reads f in g a).
Proof.
  intros Hf Hg s. apply vows_bind. intros w Hw _. cbn.
  split; [by apply evolves_refl|]. split; [done|]. by apply Hg, Hf.
Qed.

Lemma honest_park (f : CaseStore → CaseStore) :
  (∀ st, cs_cases (f st) = cs_cases st) → (∀ st, cs_by_correlation (f st) = cs_by_correlation st) →
  (∀ st, cs_by_task_id (f st) = cs_by_task_id st) →
  honest any (store_update (λ st _, f st)).
Proof.
  intros H1 H2 H3. apply honest_update. intros st _ [Hc Hi Ht]. split.
  - constructor; [intros k c|intros q k|intros t k]; rewrite ?H1, ?H2, ?H3; auto.
  - intros k c Hk. rewrite H1. exists c. split; [done|reflexivity].
Qed.

Lemma billing_event_grounds e p t :
  from_billing e → env_payload e = P_BillingResult p →
  billing_grounds from_billing (env_correlation_id e) (billing_finding p t).
Proof. intros He Hp. by exists e, p, t. Qed.

Lemma risk_event_grounds e p t :
  from_risk e → env_payload e = P_RiskResult p →
  risk_grounds from_risk (env_correlation_id e) (risk_finding p t).
Proof. intros He Hp. by exists e, p, t. Qed.

Lemma honest_billing e : from_billing e → honest any (billing_result_handler e).
Proof.
  intros He. unfold billing_result_handler. destruct (env_payload e) eqn:Ep; try by apply pl_ret.
  apply (honest_found _ (λ found, ∀ case, found = Some case → case_grounded (env_correlation_id e) case)).
  { intros w Hw case. by apply found_by_correlation. }
  intros [case|] Hcase; [|by apply honest_park]. pose proof (Hcase case eq_refl) as [H1 _ _ _].
  cbv zeta. rewrite H1. destruct (rc_billing_task_id case) as [task|]; [|by apply pl_ret].
  apply (pl_bind any); [apply honest_assign; mild_tac|]. intros _ _.
  apply (pl_bind any); [|intros; apply honest_decide_if_ready].
  by apply honest_attach, billing_event_grounds.
Qed.

Lemma honest_escalation k finding event :
  risk_grounds from_risk k finding → honest any (risk_escalation k finding event).
Proof.
  intros Hf. unfold risk_escalation. apply (pl_bind any); [apply honest_claim|]. intros [] _; [|by apply pl_ret].
  cbn [negb]. eapply pl_bind; [apply honest_deref|]. intros case Hc. cbv zeta.
  eapply pl_bind; [by apply honest_handler_decision; auto|]. intros d Hd.
  apply (pl_bind any); [apply honest_assign; mild_tac|]. intros _ _.
  apply (pl_bind any); [|intros; by apply honest_close].
  apply (honest_rewrite _ _ _ (set_finding (inr finding))). by apply set_finding_rewrites.
Qed.

Lemma honest_risk e : from_risk e → honest any (risk_result_handler e).
Proof.
  intros He. unfold risk_result_handler. destruct (env_payload e) eqn:Ep; try by apply pl_ret.
  apply (honest_found _ (λ found, ∀ case, found = Some case → case_grounded (env_correlation_id e) case)).
  { intros w Hw case. by apply found_by_correlation. }
  intros [case|] Hcase; [|by apply honest_park]. pose proof (Hcase case eq_refl) as [H1 _ _ _].
  cbv zeta. rewrite H1. destruct (rc_risk_task_id case) as [task|]; [|by apply pl_ret].
  pose proof (risk_event_grounds e _ (Some task) He Ep) as Hg.
  destruct (forces_escalation _ case); [by apply honest_escalation|].
  apply (pl_bind any); [apply honest_assign; mild_tac|]. intros _ _.
  apply (pl_bind any); [by apply honest_attach|]. intros; apply honest_decide_if_ready.
Qed.
(** *** Task results

    A task id in the index is one of its case's task ids, so the result handler's
    "dual path" test catches every completed result: a task result never attaches a
    finding. *)

Lemma found_by_task st task case :
  grounded st → get_by_task_id st task = Some case →
  case_grounded (rc_case_id case) case ∧ has_task task case.
Proof.
  intros Hst. unfold get_by_task_id. destruct (cs_by_task_id st !! task) as [k|] eqn:E; [|done].
  cbn. intros Hk. destruct (gr_task _ _ _ Hst _ _ E) as (c & Hc & Ht). simplify_eq.
  pose proof (gr_case _ _ _ Hst _ _ Hk) as Hg. by rewrite (cg_id _ _ _ _ Hg).
Qed.

Lemma honest_attach_failed k b result e : honest any (attach_failed k b result e).
Proof.
  unfold attach_failed. apply (pl_bind any); [apply honest_mark_failed|]. intros _ _.
  apply (harmless_task_audit (@Provenance.honest from_billing from_risk)).
Qed.

Lemma honest_result float_field float_of_str e :
  honest any (result_handler float_field float_of_str e).
Proof.
  unfold result_handler. destruct (env_payload e) as [| | | |result| | | | | | | | |]; try by apply pl_ret.
  apply (honest_found _ (λ found, ∀ case, found = Some case → has_task (tres_task_id result) case)).
  { intros w Hw case Hf. by apply (found_by_task _ _ _ Hw) in Hf as [_ Ht]. }
  intros [case|] Hcase; [|by apply pl_ret]. specialize (Hcase case eq_refl). cbv zeta.
  destruct (closed_status _); [apply (harmless_task_audit (@Provenance.honest from_billing from_risk))|].
  assert (Hb : bool_decide (rc_billing_task_id case = Some (tres_task_id result)) ||
               bool_decide (rc_risk_task_id case = Some (tres_task_id result)) = true).
  { apply orb_true_iff. by rewrite !bool_decide_eq_true. }
  rewrite Hb. destruct (bool_decide (tres_status result = completed)) eqn:Hdone; cbn [andb].
  { apply (harmless_task_audit (@Provenance.honest from_billing from_risk)). }
  apply (pl_bind any); [|intros; apply honest_decide_if_ready].
  destruct (tres_output result) as [[? []]|]; apply honest_attach_failed.
Qed.

(** *** The reaper *)

Lemma honest_reap_all ks : honest any (reap_all ks).
Proof.
  induction ks as [|k ks IH]; [by apply pl_ret|]. cbn [reap_all].
  apply (pl_bind any); [|intros; apply IH]. unfold reap_case.
  apply (pl_bind any); [apply (harmless_reads (@Provenance.honest from_billing from_risk))|].
  intros [case|] _; [|by apply pl_ret]. destruct (closed_status _); [by apply pl_ret|].
  apply (pl_bind any); [apply (harmless_fresh (@Provenance.honest from_billing from_risk))|].
  intros u _. apply pl_catch; [apply honest_apply_decision|intros; by apply pl_ret].
Qed.

Lemma honest_sweep t : honest any (reaper_sweep t).
Proof.
  unfold reaper_sweep. apply (pl_bind any); [|intros; apply honest_reap_all].
  apply (harmless_reads (@Provenance.honest from_billing from_risk)).
Qed.
(** *** Intake and delegation *)

(** The case in slot [k] has a task id in [field]. *)
Definition tasked (k : UUID) (field : ResolutionCase → option UUID) (s : CaseStore) : Prop :=
  ∃ c t, cs_cases s !! k = Some c ∧ field c = Some t.

Definition filled (k : UUID) (s : CaseStore) : Prop := is_Some (cs_cases s !! k).

Lemma filled_ext k s s' : ext s s' → filled k s → filled k s'.
Proof. intros He [c Hc]. destruct (He k c Hc) as (c' & Hc' & _). by exists c'. Qed.

(** The two task id attributes. *)
Definition task_field (field : ResolutionCase → option UUID)
    (set : option UUID → ResolutionCase → ResolutionCase) : Prop :=
  (field = rc_billing_task_id ∧ set = set_billing_task_id) ∨
  (field = rc_risk_task_id ∧ set = set_risk_task_id).

Lemma tasked_ext k field set s s' :
  task_field field set → ext s s' → tasked k field s → tasked k field s'.
Proof.
  intros Hf He (c & t & Hc & Ht). destruct (He k c Hc) as (c' & Hc' & Hb & Hr). exists c', t.
  split; [done|]. destruct Hf as [[-> _]|[-> _]]; auto.
Qed.

Definition preset (field : ResolutionCase → option UUID)
    (set : option UUID → ResolutionCase → ResolutionCase) (capability_id : string)
    (c : ResolutionCase) : ResolutionCase :=
  match field c with
  | Some _ => c
  | None => set (Some (uuid5 (rc_correlation_id c) capability_id)) c
  end.

Lemma preset_mild field set capability : task_field field set → mild (preset field set capability).
Proof.
  intros Hf c. unfold preset. destruct (field c) as [t|] eqn:E; [by repeat split|].
  destruct Hf as [[-> ->]|[-> ->]]; cbn; split_and!; try done; split; cbn; congruence.
Qed.

Lemma preset_some field set capability c :
  task_field field set → is_Some (field (preset field set capability c)).
Proof.
  intros Hf. unfold preset. destruct (field c) eqn:E; [by eauto|].
  destruct Hf as [[-> ->]|[-> ->]]; cbn; eauto.
Qed.

Lemma vows_preset s k field set capability :
  task_field field set → filled k s →
  vows s (preset_task_id k field set capability) (λ s' _, tasked k field s').
Proof.
  intros Hf Hk. apply vows_update. intros st _ Hst He. split.
  { apply evolves_update; [|done]. by apply mild_rewrites, (preset_mild _ _ capability). }
  destruct (filled_ext _ _ _ He Hk) as [c Hc].
  destruct (preset_some field set capability c Hf) as [t Ht]. exists (preset field set capability c), t.
  split; [|exact Ht]. cbn. by rewrite lookup_alter_eq, Hc.
Qed.

Lemma honest_preset k field set capability :
  task_field field set → honest any (preset_task_id k field set capability).
Proof. intros Hf. apply honest_assign. by apply (preset_mild _ _ capability). Qed.

(** Registering a task id that the case has. *)
Lemma vows_add_pending s k field set c :
  task_field field set → cs_cases s !! k = Some c → is_Some (field c) →
  vows s (store_try (λ st _, add_pending_task st k (the_task_id field c))) (λ _ _, True).
Proof.
  intros Hf Hc [t Ht]. apply vows_try. intros st _ st' Hst He Hadd. split; [|done].
  assert (Htask : the_task_id field c = t) by (unfold the_task_id; by rewrite Ht).
  rewrite Htask in Hadd. clear Htask.
  destruct (He k c Hc) as (c1 & Hc1 & Hkeep). unfold add_pending_task in Hadd. rewrite Hc1 in Hadd.
  injection Hadd as <-.
  set (f := λ c, set_pending_tasks ({[t]} ∪ rc_pending_tasks c) c).
  destruct (evolves_update from_billing from_risk k f st) as [[Hg Hi Htk] Hext];
    [apply mild_rewrites; mild_tac|done|].
  split; [|exact Hext]. constructor; [exact Hg|exact Hi|]. intros t' k'. cbn.
  rewrite lookup_insert_Some. intros [[<- <-]|[_ Hk']]; [|by apply Htk].
  exists (f c1). split; [by rewrite lookup_alter_eq, Hc1|].
  destruct Hkeep as [Hb Hr], Hf as [[-> _]|[-> _]]; [left|right]; cbn; auto.
Qed.

Lemma request_honest k ev capability peer text field set (data : ResolutionCase → list (string * pyval)) :
  task_field field set →
  honest any (let! _ := validate_capability capability peer text in
              preset_task_id k field set capability ;!
              let! case := deref k in
              send_task_request k ev (the_task_id field case) capability peer (data case)).
Proof.
  intros Hf. apply (pl_bind any); [apply (harmless_validate (@Provenance.honest from_billing from_risk))|].
  intros _ _. apply (pl_bind any); [by apply honest_preset|]. intros _ _.
  eapply pl_bind; [apply honest_deref|]. intros case _.
  apply (harmless_send_request (@Provenance.honest from_billing from_risk)).
Qed.

Lemma billing_field : task_field rc_billing_task_id set_billing_task_id.
Proof. by left. Qed.

Lemma risk_field : task_field rc_risk_task_id set_risk_task_id.
Proof. by right. Qed.

(** The end of the delegation: the requests and their announcement. *)
Lemma vows_delegate s k ev : filled k s → vows s (delegate k ev) (λ _ _, True).
Proof.
  intros Hk. unfold delegate. apply vows_bind.
  eapply vows_mono; [|apply (vows_preset s k _ _ _ billing_field Hk)].
  intros s1 ? He1 Hb. apply vows_bind.
  eapply vows_mono; [|apply (vows_preset s1 k _ _ _ risk_field); by eapply filled_ext].
  intros s2 ? He2 Hr. pose proof (tasked_ext _ _ _ _ _ billing_field He2 Hb) as Hb2.
  apply vows_bind, vows_deref. intros st case He Hc Hg. rewrite (cg_id _ _ _ _ Hg).
  destruct (tasked_ext _ _ _ _ _ billing_field He Hb2) as (c1 & b & Hc1 & Hb1).
  destruct (tasked_ext _ _ _ _ _ risk_field He Hr) as (c2 & r & Hc2 & Hr2). simplify_eq.
  apply vows_bind. eapply vows_mono; [|by apply (vows_add_pending st k _ _ case billing_field Hc)].
  intros s3 _ He3 _. destruct (He3 k case Hc) as (c3 & Hc3 & Hkeep).
  apply vows_bind. eapply vows_mono; [|].
  2: { replace (the_task_id rc_risk_task_id case) with (the_task_id rc_risk_task_id c3).
       - apply (vows_add_pending s3 k _ _ c3 risk_field Hc3). exists r. by apply Hkeep.
       - unfold the_task_id. by rewrite (proj2 Hkeep _ Hr2), Hr2. }
  intros s4 _ _ _. apply (honest_vows _ _ any).
  apply (pl_bind any); [by apply request_honest, billing_field|]. intros _ _.
  apply (pl_bind any); [by apply request_honest, risk_field|]. intros _ _.
  harmless_tac.
Qed.
Lemma honest_own_decision k ticket customer o reason rationale ev status :
  o = DIRECT_RESPONSE ∨ o = ESCALATE_HUMAN →
  honest any (let! case := deref k in
    let! decision := handler_decision (rc_correlation_id case) ticket customer o reason None rationale in
    let! _ := _emit_decision_and_draft k decision ev in
    assign k (set_status status) ;! store_try (λ st t, save st k None t)).
Proof.
  intros Ho. eapply pl_bind; [apply honest_deref|]. intros case Hc.
  eapply pl_bind; [by apply honest_handler_decision|]. intros d Hd. by apply honest_close.
Qed.

(** A step of a handler whose case's slot is filled. *)
Lemma vows_next {A B} s k (P : A → Prop) (p : prog A) (g : A → prog B) Q :
  filled k s → honest P p → (∀ s' a, filled k s' → P a → vows s' (g a) Q) → vows s (bind p g) Q.
Proof.
  intros Hk Hp Hg. eapply vows_after; [exact Hp|]. intros s' a He. apply Hg. by eapply filled_ext.
Qed.

(** One such step, by a proof that it is honest; [Hk] follows the store. *)
Ltac next_step Hk tac := eapply vows_next; [exact Hk|solve [tac]|]; clear Hk.

Lemma vows_delegate_case s k ticket ev :
  filled k s → vows s (delegate_case k ticket ev) (λ _ _, True).
Proof.
  intros Hk. unfold delegate_case.
  next_step Hk ltac:(apply honest_assign; mild_tac). intros s1 [] Hk _.
  next_step Hk ltac:(apply (harmless_now (@Provenance.honest from_billing from_risk))). intros s2 t Hk _.
  next_step Hk ltac:(apply honest_assign; mild_tac). intros s3 [] Hk _.
  next_step Hk ltac:(apply honest_save). intros s4 [] Hk _. apply vows_catch.
  - apply vows_bind. eapply vows_mono; [|by apply vows_delegate].
    intros s5 [] _ _. apply (honest_vows _ _ any), honest_save.
  - intros s5 e _. apply (honest_vows _ _ any). apply honest_own_decision. by right.
Qed.

Lemma get_or_create_evolves st (e : EventEnvelope) ticket customer amount currency reason t :
  grounded st →
  let r := get_or_create st (env_correlation_id e) ticket customer (env_correlation_id e) amount
             currency reason t in
  evolves st (snd r) ∧ filled (fst r) (snd r).
Proof.
  intros Hst. unfold get_or_create. set (q := env_correlation_id e).
  set (create := if bool_decide (is_Some (cs_cases st !! q)) then _ else _).
  assert (Hc : evolves st (snd create) ∧ filled (fst create) (snd create)).
  { unfold create. case_bool_decide as E; [by split; [apply evolves_refl|]|]. cbn. split.
    - apply evolves_put; [by constructor| |done]. intros c Hc. destruct E. by rewrite Hc.
    - unfold filled. cbn. by rewrite lookup_insert_eq. }
  destruct (cs_by_correlation st !! q) as [k|]; [|exact Hc].
  case_bool_decide as E; [|exact Hc]. by split; [apply evolves_refl|].
Qed.

Lemma honest_intake signals llm_enabled e : honest any (intake_handler signals llm_enabled e).
Proof.
  unfold intake_handler. destruct (env_payload e) as [| | | | | |ticket| | | | | | |]; try by apply pl_ret.
  intros s. apply vows_bind, vows_store_op. intros st t Hst _.
  destruct (get_or_create_evolves st e (stc_ticket_id ticket) (stc_customer_id ticket)
    (stc_amount ticket) (stc_currency ticket) (stc_reason ticket) t Hst) as [Hev Hk].
  split; [exact Hev|]. revert Hk. generalize (get_or_create st (env_correlation_id e)
    (stc_ticket_id ticket) (stc_customer_id ticket) (env_correlation_id e) (stc_amount ticket)
    (stc_currency ticket) (stc_reason ticket) t). intros [k s1] Hk. cbn [fst snd] in *.
  next_step Hk ltac:(apply honest_deref). intros s2 case Hk _.
  destruct (negb _); [apply (harmless_task_audit (@Provenance.honest from_billing from_risk))|].
  next_step Hk ltac:(apply (harmless_triage (@Provenance.honest from_billing from_risk))). intros s3 triage Hk _. 
  next_step Hk ltac:(apply honest_assign; mild_tac). intros s4 [] Hk _.
  next_step Hk ltac:(apply honest_assign; mild_tac). intros s5 [] Hk _.
  next_step Hk ltac:(apply honest_save). intros s6 [] Hk _.
  next_step Hk ltac:(harmless_tac). intros s7 [] Hk _.
  next_step Hk ltac:(harmless_tac). intros s8 classified Hk _.
  next_step Hk ltac:(by apply (harmless_publish (@Provenance.honest from_billing from_risk))). intros s9 sent Hk _. destruct (negb (tri_needs_refund_review triage)).
  - apply (honest_vows _ _ any), honest_own_decision. by left.
  - by apply vows_delegate_case.
Qed.
End Handlers.

(** ** The service *)

Section Service.
Context `{Uuids} `{Assistant}.
Variable signals : list string.
Variable llm_enabled : bool.
Variable float_field : pyval → option (option float).
Variable float_of_str : string → option float.
Context {Bytes : Type} (parse_envelope : Bytes → result EventEnvelope).
Variable validation_error : EventPayload → exn.
Variable environ : string → option string.
Variable has_stop : bool.
Variable tick : float.

(** The envelopes among the messages delivered to a consumer. *)
Definition delivered_in (messages : list Bytes) (e : EventEnvelope) : Prop :=
  ∃ raw, raw ∈ messages ∧ parse_envelope raw = Ok e.

Section Run.
Variable d : Deliveries Bytes.
Abbreviation from_billing := (delivered_in (d_billing d)).
Abbreviation from_risk := (delivered_in (d_risk d)).
Abbreviation thread_vows p := (∃ s, vows from_billing from_risk s p (λ _ _, True)).

Lemma service_vows p :
  p ∈ serve signals llm_enabled float_field float_of_str parse_envelope validation_error has_stop tick d ++
      _start_background_tasks environ service_runtime (d_turns d) →
  honest from_billing from_risk (λ _, True) p.
Proof.
  rewrite elem_of_app. intros [Hp|Hp].
  2: { by apply (harmless_background environ (@honest from_billing from_risk) p (d_turns d)). }
  unfold serve in Hp.
  repeat (apply elem_of_cons in Hp as [->|Hp]); [..|by apply elem_of_nil in Hp].
  - apply (harmless_endpoint parse_envelope validation_error (@honest from_billing from_risk)).
  - apply (harmless_consumer (@honest from_billing from_risk)). intros. apply honest_intake.
  - apply (harmless_consumer (@honest from_billing from_risk)). intros. apply honest_result.
  - apply (harmless_consumer (@honest from_billing from_risk)). intros raw e Hin He.
    apply honest_billing. by exists raw.
  - apply (harmless_consumer (@honest from_billing from_risk)). intros raw e Hin He.
    apply honest_risk. by exists raw.
  - apply (harmless_reaper has_stop tick (@honest from_billing from_risk)). apply honest_sweep.
Qed.
(** The loop's invariant: the store is grounded, every record is backed, and every thread
    vows, from a store that evolved into the present one, to keep it so. *)
Record vouched (l : Loop) : Prop := {
  vo_store : grounded from_billing from_risk (w_store (l_world l));
  vo_log : Forall (λ te, backed from_billing from_risk (snd te)) (w_log (l_world l));
  vo_threads : Forall (λ p, ∃ s, ext s (w_store (l_world l)) ∧
                 vows from_billing from_risk s p (λ _ _, True)) (l_threads l);
}.

Lemma advance_vows {A} s (p : prog A) w Q :
  vows from_billing from_risk s p Q → grounded from_billing from_risk (w_store w) →
  ext s (w_store w) →
  let '(p', w') := advance p w in
  evolves from_billing from_risk (w_store w) (w_store w') ∧ w_log w' = w_log w ∧
  ∃ s', ext s' (w_store w') ∧ vows from_billing from_risk s' p' Q.
Proof.
  revert s w. induction p as [a|e|B f k IH|R q k IH]; intros s w Hv Hg He; cbn.
  - split; [by apply evolves_refl|]. eauto.
  - split; [by apply evolves_refl|]. eauto.
  - destruct (Hv w Hg He) as ([Hg1 He1] & Hl & Hk). destruct (f w) as [b w1]. cbn in *.
    specialize (IH b (w_store w1) w1 Hk Hg1 (reflexivity _)).
    destruct (advance (k b) w1) as [p' w']. destruct IH as ([Hg2 He2] & Hl2 & Hs).
    split; [split; [done|by etrans]|]. split; [congruence|done].
  - split; [by apply evolves_refl|]. eauto.
Qed.

(** An answered await: what it sends is backed, and the store is as before. *)
Lemma effect_vows {R} (q : Query R) r w :
  backed_query from_billing from_risk q →
  Forall (λ te, backed from_billing from_risk (snd te)) (w_log w) →
  w_store (effect q r w) = w_store w ∧
  Forall (λ te, backed from_billing from_risk (snd te)) (w_log (effect q r w)).
Proof.
  intros Hq Hl. destruct q; cbn; try done. destruct r; cbn; (split; [done|]); try done;
    (apply Forall_app; split; [done|by constructor]).
Qed.

Lemma vouched_step l l' : loop_step nothing_else l l' → vouched l → vouched l'.
Proof.
  intros Hstep [Hg Hl Ht]. destruct Hstep as
    [ts w i R q k r p' w' Hi Ha|ts w p p' w' []|ts w t _]; cbn in *; [|by constructor].
  destruct (Forall_lookup_1 _ _ _ _ Ht Hi) as (s & He & Hq & Hk).
  destruct (effect_vows q r w Hq Hl) as [E1 E2].
  pose proof (advance_vows s (k r) (effect q r w) _ (Hk r)) as Hadv. rewrite Ha, E1 in Hadv.
  destruct Hadv as ([Hg' He'] & Hlog & Hs'); [done..|]. constructor; cbn; [done|by rewrite Hlog|].
  apply Forall_insert; [|exact Hs'].
  eapply Forall_impl; [exact Ht|]. intros p0 (s0 & He0 & Hv). exists s0. split; [by etrans|done].
Qed.

Abbreviation service w :=
  (service_loop signals llm_enabled float_field float_of_str parse_envelope validation_error
     environ has_stop tick d w).

Lemma service_vouched w l :
  grounded from_billing from_risk (w_store w) → w_log w = [] →
  rtc (loop_step nothing_else) (service w) l → vouched l.
Proof.
  intros Hg Hlog Hr. assert (Hinit : vouched (service w)).
  { constructor; [exact Hg|cbn; by rewrite Hlog|]. apply Forall_fmap, Forall_forall. intros p Hp.
    exists (w_store w). split; [reflexivity|]. apply (honest_vows _ _ (λ _, True)).
    by apply (harmless_spawn (@honest from_billing from_risk)), service_vows. }
  revert Hinit. induction Hr as [l|x y z Hxy _ IH]; [done|]. intros Hx. by eapply IH, vouched_step.
Qed.

Lemma empty_grounded fb fr : grounded fb fr empty_store.
Proof. constructor; intros ? ?; cbn; by rewrite lookup_empty. Qed.

(** C3 (safety): every decision rests on results that were delivered for its case.  Start
    the service with an empty store and let the broker deliver anything to its consumers:
    under every interleaving of the consumers, the reaper and the endpoint, every lost
    record and every answer of the LLM, a decision the service publishes names the case it
    is published for, and is a direct response, an escalation, or the policy's ruling on a
    billing result and a risk result that were delivered to the two result consumers for
    this very case.  The drafted response has the same grounds, and asks for human approval
    exactly when its outcome must. *)
Theorem decisions_rest_on_results t n l topic e :
  rtc (loop_step nothing_else) (service (mk_world empty_store t n [])) l →
  (topic, e) ∈ w_log (l_world l) →
  backed from_billing from_risk e.
Proof.
  intros Hr Hin. pose proof (service_vouched (mk_world empty_store t n []) l (empty_grounded _ _) eq_refl Hr)
    as [_ Hl _].
  rewrite Forall_forall in Hl. exact (Hl _ Hin).
Qed.
End Run.
End Service.

(** ** Approvals, from the agents' own facts *)

Section Approvals.
Context `{Uuids} `{Assistant}.
Variable signals : list string.
Variable llm_enabled : bool.
Variable float_field : pyval → option (option float).
Variable float_of_str : string → option float.
Context {Bytes : Type} (parse_envelope : Bytes → result EventEnvelope).
Variable validation_error : EventPayload → exn.
Variable environ : string → option string.
Variable has_stop : bool.
Variable tick : float.
(** The peers' validation of a request and their stores. *)
Variable validate_billing : list (string * pyval) → result RefundEligibilityRequest.
Variable validate_risk : list (string * pyval) → result RiskAssessmentRequest.
Context {BillingSt : Type} `{!BillingFactStore BillingSt} (billing_store : BillingSt).
Context {RiskSt : Type} `{!RiskSignalStore RiskSt} (risk_store : RiskSt).

(** What the billing agent publishes for a case ([PeerFacts.run_handle_eligibility]). *)
Definition billing_publishes (q : UUID) (p : BillingRefundAnalysisCompletedPayload) : Prop :=
  ∃ now parts request rec facts narrative,
    analyze validate_billing billing_store now parts = Ok (request, rec, facts) ∧
    build_result_payload request rec facts narrative = Ok p ∧ rer_case_id request = q.

(** What the risk agent publishes for a case ([PeerFacts.run_handle_risk]). *)
Definition risk_publishes (q : UUID) (p : RiskReviewCompletedPayload) : Prop :=
  ∃ parts assessment request narrative,
    assess validate_risk risk_store parts = Ok (assessment, request) ∧
    to_result_payload assessment request narrative = Ok p ∧ rar_case_id request = q.

(** The result topics carry what the two agents publish. *)
Definition peers_only (d : Deliveries Bytes) : Prop :=
  (∀ e p, delivered_in parse_envelope (d_billing d) e → env_payload e = P_BillingResult p →
     billing_publishes (env_correlation_id e) p) ∧
  (∀ e p, delivered_in parse_envelope (d_risk d) e → env_payload e = P_RiskResult p →
     risk_publishes (env_correlation_id e) p).

(** The refund was owed: for a request that names case [q], the purchase of the billing
    agent's record is approvable, and for another the risk agent's record of the customer
    is low risk without review. *)
Definition refund_owed (q : UUID) : Prop :=
  (∃ now request facts amount, rer_case_id request = q ∧
     store_load_facts billing_store (rer_purchase_reference request) (rer_customer_id request) =
       Some facts ∧ billing_clears now facts amount) ∧
  (∃ request record, rar_case_id request = q ∧
     store_load_signals risk_store (rar_customer_id request) = Some record ∧
     risk_clears record request).

Lemma published_approval q pb pr tb tr triage :
  billing_publishes q pb → risk_publishes q pr →
  fst (truth_table triage (Some (billing_finding pb tb)) (Some (risk_finding pr tr)) None) =
    APPROVE_REFUND →
  refund_owed q.
Proof.
  intros (now & parts & breq & rec & facts & bn & Han & Hpb & Hbq)
    (rparts & a & rreq & rn & Has & Hpr & Hrq) Hrule.
  pose proof (policy_approval _ _ _ Hrule) as (_ & _ & _ & Hbrev & Hrrev & _).
  destruct (billing_payload_inv _ _ _ _ _ Hpb) as (_ & _ & Hbhr & _).
  destruct (risk_payload_inv _ _ _ _ Hpr) as (_ & _ & Hrhr).
  cbn in Hbrev, Hrrev. rewrite Hbhr in Hbrev. rewrite Hrhr in Hrrev.
  unfold analyze in Han. destruct (validate_billing_input validate_billing parts) as [req|]; [|discriminate].
  cbn in Han. destruct (store_load_facts _ _ _) as [f|] eqn:Ef; [|by injection Han as _ <- _].
  destruct (evaluate now f req REFUND_POLICY) as [rec'|] eqn:Ev; [|discriminate].
  cbn in Han. injection Han as -> -> <-.
  unfold assess in Has. destruct (validate_input validate_risk rparts) as [rreq'|]; [|discriminate].
  cbn in Has. destruct (store_load_signals _ _) as [record|] eqn:Es; [|by injection Has as <- _].
  destruct (assess_signals record rreq' FRAUD_POLICY) as [a'|] eqn:Ea; [|discriminate].
  cbn in Has. injection Has as -> ->.
  destruct (approval_facts _ _ _ _ _ _ _ _ _ _ _ _ _ _ Ev Hpb Ea Hpr Hrule) as (Hb & Hr & _).
  split; [by exists now, breq, f, (bra_eligible_refund_amount pb)|by exists rreq, record].
Qed.

(** C2 (safety): no refund is approved that is not owed.  Run the service from an empty
    store on result topics that carry what the two agents publish, whatever else is
    delivered and however its coroutines interleave: when it publishes an approved refund
    for a case, the billing agent's record of the purchase, for a request that names this
    case, was approvable (within the window, paid, captured, not reversed, consistent,
    lightly used, undelivered) with its refundable amount, and the scoring rules find the
    risk agent's record of the customer, for a request that names this case, low without
    human review. *)
Theorem approved_refund_is_owed d t n l topic e p :
  peers_only d →
  rtc (loop_step nothing_else)
    (service_loop signals llm_enabled float_field float_of_str parse_envelope validation_error
       environ has_stop tick d (mk_world empty_store t n [])) l →
  (topic, e) ∈ w_log (l_world l) →
  env_payload e = P_Decision p → crd_outcome p = APPROVE_REFUND →
  refund_owed (env_correlation_id e).
Proof.
  intros [Hbill Hrisk] Hr Hin Hp Ho.
  pose proof (service_vouched _ _ _ _ _ _ _ _ _ _ (mk_world empty_store t n []) l
    (empty_grounded _ _) eq_refl Hr) as [_ Hl _].
  rewrite Forall_forall in Hl. specialize (Hl _ Hin). cbn [snd] in Hl. unfold backed in Hl.
  rewrite Hp, Ho in Hl. destruct Hl as [_ [Hd|[He|(triage & b & r & Hb & Hrg & Hrule)]]]; [done..|].
  destruct Hb as (eb & pb & tb & Hdb & Hqb & Hpb & ->).
  destruct Hrg as (er & pr & tr & Hdr & Hqr & Hpr & ->).
  eapply published_approval; [|..|exact Hrule].
  - rewrite <- Hqb. by apply Hbill.
  - rewrite <- Hqr. by apply Hrisk.
Qed.
End Approvals.
