(* ===== verification/Startup.v ===== *)
(** * Settings and cards a process starts with

    The constants the agents and the demo read from the environment when their modules are
    imported: [apps/agents/customer_resolution/config.py],
    [apps/agents/risk_fraud/config.py], [apps/agents/billing_entitlement/config.py],
    [apps/agents/common.py], [apps/demo_ui/config.py] and [apps/demo_ui/launcher.py].  The
    import of a module raises when a number does not parse.

    The last part is the [CARD] each [apps/agents/*/app/*/main.py] serves next to its
    executor ([Executors]), written by hand apart from the card the agent publishes on the
    broker ([Peers], [Service]).

    The theorems: what an unset environment gives, when an import fails, two ports that
    collide, a reaper that no longer gives the event loop back, and how far the two cards of
    an agent agree. *)

From Stdlib Require Import ZArith Bool Ascii String List Lia.
From stdpp Require Import base list strings gmap.
From S2P Require Import Prelude.
From S2P Require Import PyFloat.
From S2P Require Import PyNumber.
From S2P Require Import Contracts.
From S2P Require Import A2A.
From S2P Require Import LlmConfig.
From S2P Require Import ObsConfig.
From S2P Require Import Envelope.
From S2P Require Import CaseModels.
From S2P Require Import StateStore.
From S2P Require Import Async.
From S2P Require Import Handlers.
From S2P Require Import RiskService.
From S2P Require Import PollCache.
From S2P Require Import Execution.
From S2P Require Import Reaper.
From S2P Require Import Peers.
From S2P Require Import Service.

Open Scope string_scope.
Open Scope list_scope.
Open Scope Z_scope.
Open Scope prog_scope.

#[local] Set Default Proof Using "Type".

Section Environ.
Variable environ : string → option string.

(** [os.environ.get(name, d).lower().strip() in ("true", "1", "yes")] *)
Definition flag (name dflt : string) : bool := _parse_bool (env_or environ name dflt).

(** [apps.agents.common.BROKER_URL] *)
Definition BROKER_URL : string := env_or environ "AGENT_BROKER_URL" "localhost:9092".

(** ** The resolution agent *)

Record ResolutionSettings := {
  rs_llm_enabled : bool;
  rs_case_deadline_seconds : Z;
  rs_reaper_tick_seconds : float;
}.

Definition resolution_settings : result ResolutionSettings :=
  deadline ← int_of_env (env_or environ "AGENT_CASE_DEADLINE_SECONDS" "15");
  tick ← float_of_env (env_or environ "AGENT_REAPER_TICK_SECONDS" "1.0");
  Ok {| rs_llm_enabled := flag "CRA_LLM_ENABLED" "true";
        rs_case_deadline_seconds := deadline; rs_reaper_tick_seconds := tick |}.

(** ** The peers *)

Record RiskSettings := {
  ks_auth_mode : string;
  ks_llm_enabled : bool;
  ks_a2a_port : Z;
  ks_agentcore_port : Z;
  ks_broker_url : string;
  ks_result_topic : string;
  ks_endpoint_topic : string;
}.

(** [int(os.environ.get("A2A_ENDPOINT_PORT", os.environ.get("PORT", "8103")))], also in
    [http_app.run]. *)
Definition a2a_endpoint_port : result Z :=
  int_of_env (env_or environ "A2A_ENDPOINT_PORT" (env_or environ "PORT" "8103")).

Definition risk_settings : result RiskSettings :=
  a2a ← a2a_endpoint_port;
  agentcore ← int_of_env (env_or environ "AGENTCORE_PORT" "8083");
  Ok {| ks_auth_mode := env_or environ "AUTH_MODE" "none";
        ks_llm_enabled := flag "RISK_LLM_SUMMARY_ENABLED" "false";
        ks_a2a_port := a2a; ks_agentcore_port := agentcore;
        ks_broker_url := BROKER_URL;
        ks_result_topic := TOPIC_RISK_RESULT;
        ks_endpoint_topic := endpoint_topic RiskService.AGENT_ID |}.

Definition BILLING_LLM_SUMMARY_ENABLED : bool := flag "BILLING_LLM_SUMMARY_ENABLED" "false".

(** The port of the billing agent's [http_app.run]. *)
Definition billing_http_port : result Z := int_of_env (env_or environ "PORT" "8080").

(** ** The demo *)

Record DemoSettings := {
  ds_broker_url : string;
  ds_ui_port : Z;
  ds_refresh_seconds : Z;
  ds_liveness_endpoints : list (string * option string);
  ds_probe_timeout_seconds : float;
  ds_read_timeout_seconds : float;
}.

Definition LIVENESS_ENDPOINTS : list (string * option string) :=
  [ ("customer-resolution-agent", env_opt environ "CR_PING_URL");
    ("billing-entitlement-agent",
     Some (env_or environ "BILLING_PING_URL" "http://localhost:8101/ping"));
    ("risk-fraud-agent", Some (env_or environ "RISK_PING_URL" "http://localhost:8103/ping")) ].

Definition demo_settings : result DemoSettings :=
  ui_port ← int_of_env (env_or environ "UI_PORT" "8200");
  refresh ← int_of_env (env_or environ "REFRESH_SECONDS" "5");
  probe ← float_of_env (env_or environ "PROBE_TIMEOUT_SECONDS" "1.5");
  read ← float_of_env (env_or environ "READ_TIMEOUT_SECONDS" "6.0");
  Ok {| ds_broker_url := BROKER_URL; ds_ui_port := ui_port; ds_refresh_seconds := refresh;
        ds_liveness_endpoints := LIVENESS_ENDPOINTS;
        ds_probe_timeout_seconds := probe; ds_read_timeout_seconds := read |}.

(** [sys.argv] as [launcher.main] sets it: the port is passed as it is written. *)
Definition launcher_argv (app_path : string) : list string :=
  [ "streamlit"; "run"; app_path; "--server.port"; env_or environ "UI_PORT" "8200";
    "--server.headless"; "true" ].

(** ** When an import fails *)

Lemma int_of_env_fails text : (∃ e, int_of_env text = Err e) ↔ py_int_of_str text = None.
Proof.
  unfold int_of_env. destruct (py_int_of_str text); split; [by intros [e [=]]|done|done|eauto].
Qed.

Lemma float_of_env_fails text : (∃ e, float_of_env text = Err e) ↔ py_float_of_str text = None.
Proof.
  unfold float_of_env. destruct (py_float_of_str text); split; [by intros [e [=]]|done|done|eauto].
Qed.

(** A module that reads one number after another fails when one of them does. *)
Lemma reads_fail {A B} (r : result A) (k : A → result B) :
  (∃ e, (a ← r; k a) = Err e) ↔ (∃ e, r = Err e) ∨ (∃ a e, r = Ok a ∧ k a = Err e).
Proof.
  destruct r as [a|e]; cbn; split.
  - intros [e He]. right. eauto.
  - intros [[e [=]]|(a' & e & [= <-] & He)]. eauto.
  - eauto.
  - intros _. eauto.
Qed.

(** Remark (error): the resolution agent starts exactly when its two numbers parse: the
    deadline as an integer and the tick as a float; nothing else about them is checked. *)
Theorem resolution_import_fails_iff :
  (∃ e, resolution_settings = Err e) ↔
  py_int_of_str (env_or environ "AGENT_CASE_DEADLINE_SECONDS" "15") = None ∨
  py_float_of_str (env_or environ "AGENT_REAPER_TICK_SECONDS" "1.0") = None.
Proof.
  unfold resolution_settings. rewrite reads_fail, int_of_env_fails.
  split; (intros [H|H]; [by left|]).
  - destruct H as (deadline & e & _ & He). right. apply float_of_env_fails.
    destruct (float_of_env _) as [tick|e']; [discriminate|eauto].
  - destruct (int_of_env _) as [deadline|e'] eqn:E.
    + right. exists deadline. apply float_of_env_fails in H as [e He]. rewrite He. by exists e.
    + left. by apply int_of_env_fails; eauto.
Qed.
End Environ.

(** ** The defaults *)

Definition unset : string → option string := λ _, None.

(** Remark (functional): what the unset environment gives.  The deadline, the tick and the
    refresh interval are those the models of the handlers, the reaper and the poll cache
    use; LLM assistance is on in the resolution agent and off in its peers; the ports of
    the agents and of the demo are pairwise different. *)
Theorem default_settings :
  resolution_settings unset =
    Ok {| rs_llm_enabled := true; rs_case_deadline_seconds := CASE_DEADLINE_SECONDS;
          rs_reaper_tick_seconds := REAPER_TICK_SECONDS |} ∧
  (∃ k d b, risk_settings unset = Ok k ∧ demo_settings unset = Ok d ∧
     billing_http_port unset = Ok b ∧
     ks_llm_enabled k = false ∧ BILLING_LLM_SUMMARY_ENABLED unset = false ∧
     float_of_Z (ds_refresh_seconds d) = REFRESH_SECONDS ∧
     NoDup [ks_a2a_port k; ks_agentcore_port k; ds_ui_port d; b]).
Proof.
  split; [vm_compute; reflexivity|]. eexists _, _, _.
  split; [vm_compute; reflexivity|]. split; [vm_compute; reflexivity|].
  split; [vm_compute; reflexivity|]. split; [reflexivity|]. split; [reflexivity|].
  split; [vm_compute; reflexivity|].
  apply (bool_decide_unpack _). vm_compute. exact I.
Qed.

(** ** Two servers on one port *)

(** The environment that the comment on [AGENTCORE_PORT] asks for. *)
Definition agentcore_environ : string → option string :=
  λ name, if String.eqb name "PORT" then Some "8083" else None.

(** Remark (error): the two ports of the risk agent are meant to be distinct, so that the
    AgentCore server and the HTTP surface run side by side.  With [PORT=8083], as the
    comment says to set the AgentCore port, the HTTP surface takes 8083 too, the port the
    AgentCore server has by default. *)
Theorem agentcore_port_collides :
  ∃ k, risk_settings agentcore_environ = Ok k ∧ ks_a2a_port k = ks_agentcore_port k.
Proof. eexists. split; vm_compute; reflexivity. Qed.

(** ** A tick that is not positive *)

(** Whether an await gives the event loop back; reading the stop event does not. *)
Definition suspends {R} (q : Query R) : bool := match q with StopSet => false | _ => true end.

(** How often a coroutine, run alone, gives the event loop back. *)
Fixpoint suspensions {A} (env : Environment) (p : prog A) (w : World) : nat :=
  match p with
  | Ret _ | Raise _ => 0
  | Do f k => let '(b, w') := f w in suspensions env (k b) w'
  | Await q k =>
      let r := env _ q w in
      (if suspends q then 1 else 0) + suspensions env (k r) (effect q r w)
  end.

Lemma suspensions_bind {A B} env (p : prog A) (g : A → prog B) w :
  suspensions env (bind p g) w =
  (suspensions env p w +
   match run env p w with (Ok a, w') => suspensions env (g a) w' | (Err _, _) => 0 end)%nat.
Proof.
  revert w. induction p as [a|e|T f k IH|R q k IH]; intros w; cbn.
  - done.
  - done.
  - destruct (f w) as [b w']. apply IH.
  - rewrite IH. lia.
Qed.

Section BusyReaper.
Context `{Uuids}.

(** The sweep of a store without timed-out cases. *)
Lemma idle_sweep (env : Environment) w t :
  list_timed_out_cases (w_store w) t = [] →
  run env (reaper_sweep t) w = (Ok tt, w) ∧ suspensions env (reaper_sweep t) w = 0%nat.
Proof. intros Ht. unfold reaper_sweep. cbn. by rewrite Ht. Qed.

Lemma stop_synchronous (env : Environment) has_stop w :
  env _ StopSet w = false →
  run env (stop_requested has_stop) w = (Ok false, w) ∧
  suspensions env (stop_requested has_stop) w = 0%nat.
Proof. intros Hs. destruct has_stop; cbn; by rewrite ?Hs. Qed.

(** Remark (liveness): a tick that is not positive freezes the process.  The settings accept
    0, a negative number and not-a-number for [AGENT_REAPER_TICK_SECONDS]; with such a tick
    the reaper's loop, on a store with no timed-out case, goes through any number of turns
    without once giving the event loop back, so that no consumer, handler or endpoint of
    the process runs again, nor whatever would set the stop event. *)
Theorem nonpositive_tick_freezes (env : Environment) text environ s has_stop pauses turns w :
  environ "AGENT_REAPER_TICK_SECONDS" = Some text →
  resolution_settings environ = Ok s →
  (lit 0 1 <? rs_reaper_tick_seconds s)%pf = false →
  list_timed_out_cases (w_store w) (w_now w) = [] →
  env _ StopSet w = false →
  let reaper := run_reaper has_stop (rs_reaper_tick_seconds s) pauses turns in
  py_float_of_str text = Some (rs_reaper_tick_seconds s) ∧
  run env reaper w = (Ok tt, w) ∧ suspensions env reaper w = 0%nat.
Proof.
  intros Henv Hs Htick Hidle Hstop. cbv zeta. split.
  { unfold resolution_settings in Hs. destruct (int_of_env _) as [deadline|]; [|discriminate].
    unfold env_or in Hs. cbn in Hs. rewrite Henv in Hs. cbn in Hs.
    unfold float_of_env in Hs. destruct (py_float_of_str text); [|discriminate].
    cbn in Hs. by injection Hs as <-. }
  clear Hs Henv. induction turns as [|turns [IHr IHs]]; [done|]. cbn [run_reaper].
  destruct (idle_sweep env w (w_now w) Hidle) as [Hr1 Hs1].
  destruct (stop_synchronous env has_stop w Hstop) as [Hr2 Hs2].
  rewrite (no_pause _ _ pauses Htick).
  split; cbn [bind now reads run suspensions].
  - rewrite run_bind, Hr1. cbn [run]. by rewrite run_bind, Hr2.
  - rewrite suspensions_bind, Hs1, Hr1. cbn [Nat.add]. by rewrite suspensions_bind, Hs2, Hr2.
Qed.

(** The three texts, and a positive one for contrast. *)
Example ticks_accepted :
  map (λ text, match py_float_of_str text with
               | Some tick => Some (lit 0 1 <? tick)%pf | None => None end)
    ["0"; "-1"; "nan"; "0.5"; "never"] = [Some false; Some false; Some false; Some true; None].
Proof. vm_compute. reflexivity. Qed.
End BusyReaper.

(** ** The cards of the A2A servers *)

(** The SDK's [AgentCard]; an [AgentSkill] has the fields of a capability. *)
Record StaticCard := {
  sc_name : string;
  sc_description : string;
  sc_url : string;
  sc_version : string;
  sc_streaming : bool;
  sc_skills : list Capability;
  sc_default_input_modes : list string;
  sc_default_output_modes : list string;
}.

Definition risk_CARD : StaticCard := {|
  sc_name := "risk-fraud-agent";
  sc_description := "Assesses fraud risk for refund requests based on owned risk/fraud signals.";
  sc_url := "http://localhost:9001/";
  sc_version := "1.0.0";
  sc_streaming := true;
  sc_skills := [{|
    cap_id := "assess_fraud_risk";
    cap_name := "Assess Fraud Risk";
    cap_description :=
      "Validates the structured refund risk request, loads owned risk/fraud signals, " +:+
      "and returns a deterministic risk assessment (low / elevated / high) with " +:+
      "confidence score, evidence, policy references, and a human-review flag. " +:+
      "Descriptive intent: assess_refund_risk.";
    cap_tags := ["risk"; "fraud"; "refund"] |}];
  sc_default_input_modes := ["data"; "text"];
  sc_default_output_modes := ["data"];
|}.

Definition billing_CARD : StaticCard := {|
  sc_name := "billing-entitlement-agent";
  sc_description := "Analyzes refund eligibility based on owned billing and entitlement data.";
  sc_url := "http://localhost:9000/";
  sc_version := "1.0.0";
  sc_streaming := true;
  sc_skills := [{|
    cap_id := "analyze_refund_eligibility";
    cap_name := "Analyze Refund Eligibility";
    cap_description :=
      "Validates the structured refund request, loads owned billing facts, and " +:+
      "returns a deterministic recommendation (approve_full_refund / " +:+
      "approve_partial_refund / deny_refund / request_more_information / " +:+
      "manual_review) with confidence, evidence, and policy references.";
    cap_tags := ["billing"; "entitlement"; "refund"] |}];
  sc_default_input_modes := ["data"; "text"];
  sc_default_output_modes := ["data"];
|}.

Definition resolution_CARD : StaticCard := {|
  sc_name := "customer-resolution-agent";
  sc_description :=
    "Resolves customer support tickets by triaging refund requests and applying a " +:+
    "deterministic decision engine over billing and risk findings.";
  sc_url := "http://localhost:9002/";
  sc_version := "1.0.0";
  sc_streaming := true;
  sc_skills := [{|
    cap_id := "resolve_customer_case";
    cap_name := "Resolve Customer Case";
    cap_description :=
      "Triages a support ticket (refund-intent classification) and runs the " +:+
      "deterministic decision engine to produce a resolution outcome " +:+
      "(approve_refund / deny_refund / offer_partial_credit / " +:+
      "request_more_information / escalate_human / direct_response) with a " +:+
      "customer-safe response draft. Optional billing_result / risk_result peer " +:+
      "findings can be supplied in the payload; absent them the case escalates " +:+
      "to a human.";
    cap_tags := ["resolution"; "refund"; "triage"] |}];
  sc_default_input_modes := ["data"; "text"];
  sc_default_output_modes := ["data"];
|}.

(** ** The two cards of an agent *)

(** What a peer discovers by, without the descriptions. *)
Definition advert (name version : string) (skills : list Capability) :
    string * string * list (string * string * list string) :=
  (name, version, map (λ c, (cap_id c, cap_name c, cap_tags c)) skills).

Definition static_advert (c : StaticCard) := advert (sc_name c) (sc_version c) (sc_skills c).
Definition broker_advert (c : AgentCard) :=
  advert (card_agent_id c) (card_version c) (card_capabilities c).

(** Remark (equivalence): what the agents advertise over A2A and on the broker.  A peer's
    two cards carry the same id, version, capability ids, names and tags, and the risk
    agent's agree to the letter; the resolution agent's carry the same capability, under
    one more tag.  The skills of the peers would pass the validation of the broker's cards,
    and the resolution agent's would not: its description is longer than the 280 characters
    allowed there.  The three servers have distinct addresses. *)
Theorem static_cards_agree :
  map static_advert [billing_CARD; risk_CARD] =
    map broker_advert [billing_agent_card; risk_agent_card] ∧
  (sc_description risk_CARD, sc_skills risk_CARD) =
    (card_description risk_agent_card, card_capabilities risk_agent_card) ∧
  static_advert resolution_CARD =
    ("customer-resolution-agent", "1.0.0",
     map (λ c, (cap_id c, cap_name c, cap_tags c ++ ["triage"])) (card_capabilities build_agent_card)) ∧
  map (λ c, map mk_capability (sc_skills c)) [billing_CARD; risk_CARD] =
    map (λ c, map Ok (sc_skills c)) [billing_CARD; risk_CARD] ∧
  map mk_capability (sc_skills resolution_CARD) =
    [Err (ValidationError "Capability.description must be 1–280 characters")] ∧
  NoDup (map sc_url [resolution_CARD; billing_CARD; risk_CARD]).
Proof.
  do 5 (split; [vm_compute; reflexivity|]).
  apply (bool_decide_unpack _). vm_compute. exact I.
Qed.
