(* ===== verification/DevScripts.v ===== *)
(** * Developer scripts

    The scripts a developer runs against a local deployment: [apps/agents/discover.py],
    [apps/api/dev_publish_ticket.py], [apps/api/dev_consume_events.py] and the two
    [dev_a2a_client.py], with the card and health endpoints of the peers' [http_app.py] the
    clients read.  A script is the lines it prints; the HTTP connection hands a request to
    the server and its answer back.

    The theorems run the clients against the modelled HTTP endpoints, and hand the sample
    ticket to the resolution agent's classifier. *)

From Stdlib Require Import ZArith Bool Ascii String List Lia.
From stdpp Require Import base list strings gmap sorting.
From S2P Require Import Prelude.
From S2P Require Import PyFloat.
From S2P Require Import Contracts.
From S2P Require Import Uuid.
From S2P Require Import Idempotency.
From S2P Require Import A2A.
From S2P Require Import RiskModels.
From S2P Require Import RiskStore.
From S2P Require Import RiskScoring.
From S2P Require Import RiskService.
From S2P Require Import RiskScoringFacts.
From S2P Require Import RiskServiceFacts.
From S2P Require Import BillingModels.
From S2P Require Import BillingRules.
From S2P Require Import BillingStore.
From S2P Require Import BillingService.
From S2P Require Import Envelope.
From S2P Require Import CaseModels.
From S2P Require Import Classifier.
From S2P Require Import DecisionFacts.
From S2P Require Import Async.
From S2P Require Import Execution.
From S2P Require Import Consumer.
From S2P Require Import Transport.
From S2P Require Import Peers.
From S2P Require Import Views.
From S2P Require Import Topics.
From S2P Require Import Cli.
From S2P Require Import BillingFacts.
From S2P Require Import DemoScenarios.

Open Scope string_scope.
Open Scope list_scope.
Open Scope Z_scope.
Open Scope prog_scope.

#[local] Set Default Proof Using "Type".

(** ** [discover.py] *)

Definition capability_text (cap : Capability) : Line :=
  Out ("    - " +:+ cap_id cap +:+ ": " +:+ cap_description cap +:+
       match cap_tags cap with
       | [] => ""
       | tags => " [" +:+ py_join ", " tags +:+ "]"
       end).

(** A [print] whose text starts with a line break prints an empty line first. *)
Definition card_text (card : AgentCard) : list Line :=
  [ Out ""; Out ("[" +:+ card_agent_id card +:+ "] " +:+ card_name card +:+ " v" +:+ card_version card);
    Out ("  Description: " +:+ card_description card);
    Out ("  Endpoint:    " +:+ card_endpoint_topic card);
    Out "  Security:    none";
    Out "  Capabilities:" ] ++ map capability_text (card_capabilities card).

(** [_run], over what the broker gives the scan. *)
Definition discover_script {Bytes : Type} (parse_envelope : Bytes → result EventEnvelope)
    (scan : CardScan Bytes) : result (list Line) :=
  cards ← discover_agents parse_envelope scan;
  Ok match cards with
     | [] => [Out "No agent cards found on the discovery topic."]
     | _ => concat (map card_text (merge_sort by_agent_id cards))
     end.

(** ** [dev_publish_ticket.py] *)

Definition dev_producer : AgentIdentity := {|
  id_agent_id := "dev.ticket-producer"; id_display_name := "Dev Ticket Producer";
  id_tenant_id := "local" |}.

Definition dev_ticket (created_at : datetime) : SupportTicketCreatedPayload := {|
  stc_ticket_id := "TKT-001"; stc_customer_id := "CUST-42"; stc_amount := lit 2999 100;
  stc_currency := "USD"; stc_reason := "Charged twice for monthly subscription";
  stc_created_at := created_at |}.

Section Publish.
Context `{Uuids}.

Definition dev_publish_ticket : prog (list Line) :=
  let! created_at := now in
  let! corr_id := fresh_uuid in
  let! envelope := publish dev_producer (P_Ticket (dev_ticket created_at)) TICKET_CREATED corr_id
                     None None in
  Ret [ OutJson (VDict
    [ ("event_id", VStr (uuid_str (env_event_id envelope)));
      ("correlation_id", VStr (uuid_str (env_correlation_id envelope)));
      ("topic", VStr TICKET_CREATED) ]) ].

(** Remark (liveness): the sample ticket is a refund case.  With a broker that acknowledges,
    the script adds one record, a root event on the ticket topic, and prints its ids; the
    classifier, in whatever order it reads its vocabulary, sends this ticket to the refund
    review. *)
Theorem dev_ticket_is_reviewed env w :
  acks env →
  ∃ e w', run env dev_publish_ticket w =
      (Ok [ OutJson (VDict [ ("event_id", VStr (uuid_str (env_event_id e)));
              ("correlation_id", VStr (uuid_str (env_correlation_id e)));
              ("topic", VStr TICKET_CREATED) ]) ], w') ∧
    extends w w' [(TICKET_CREATED, e)] ∧ env_causation_id e = None ∧
    env_payload e = P_Ticket (dev_ticket (w_now w)) ∧
    ∀ signals, signals ≡ₚ REFUND_INTENT_SIGNALS →
      ∃ triage, classify signals (dev_ticket (w_now w)) = Ok triage ∧
        tri_needs_refund_review triage = true ∧ tri_ambiguous triage = false.
Proof.
  intros Ha. unfold dev_publish_ticket. rewrite run_bind. cbn [run now reads].
  rewrite run_bind. cbn [run fresh_uuid].
  rewrite run_bind, (run_publish_valid _ _ _ _ _ _ None _ M_Ticket TICKET_CREATED)
    by (done || (vm_compute; reflexivity)).
  eexists _, _. split; [reflexivity|]. split; [by constructor|]. split_and!; [reflexivity..|].
  intros signals Hs. destruct (classify_total signals (dev_ticket (w_now w))) as (t & Ht & _).
  exists t. split; [done|]. pose proof (classify_cases _ _ _ Ht) as Hc.
  assert (Hm : "charged twice" ∈
               matched_signals signals (py_lower (stc_reason (dev_ticket (w_now w))))).
  { apply matched_signals_spec. split; [rewrite Hs; apply list_elem_of_In; cbn; tauto|].
    exists "", " for monthly subscription". reflexivity. }
  destruct (matched_signals _ _); [by apply elem_of_nil in Hm|]. by injection Hc as -> -> _ _.
Qed.
End Publish.

(** ** [dev_consume_events.py] *)

Definition SUBSCRIBED_TOPICS : list string := [TOPIC_MESSAGE; TOPIC_AUDIT; TOPIC_SAMPLE].

(** The consumer is built with [idempotent=False]: it has no tracker.  The printing handler
    does not raise. *)
Definition dev_consumer `{Uuids} {Bytes} (parse : Bytes → result EventEnvelope)
    (messages : list Bytes) : prog (option IdempotencyTracker * list Disposition) :=
  consume_loop parse None (λ _, Ret tt) messages None.

(** Remark (functional): the developer's consumer prints every valid event each time it is
    delivered.  Without a tracker and without a publisher a run asks nothing of the world
    and writes nothing: an event that is delivered twice is handled twice, and what is not
    an envelope, or names no registered payload, is passed over. *)
Theorem dev_consumer_prints_each `{Uuids} {Bytes} (parse : Bytes → result EventEnvelope)
    (messages : list Bytes) env w :
  ∃ ds, run env (dev_consumer parse messages) w = (Ok (None, ds), w) ∧
    printed parse messages ds =
      omap (λ raw, match parse raw with
                   | Ok e => if payload_rejection e then None else Some e
                   | Err _ => None end) messages.
Proof.
  unfold dev_consumer. induction messages as [|raw messages (ds & IH & Hp)]; [by exists []|].
  assert (Hd : ∃ d, run env (consume_message parse None (λ _, Ret tt) raw
                               (None : option IdempotencyTracker)) w = (Ok (None, d), w) ∧
                 match d, parse raw with Handled, Ok e => Some e | _, _ => None end =
                 match parse raw with
                 | Ok e => if payload_rejection e then None else Some e
                 | Err _ => None end).
  { unfold consume_message, reject_bytes, _make_partial_envelope. destruct (parse raw) as [e|exc].
    - destruct (payload_rejection e) as [reason|]; eexists; (split; [reflexivity|done]).
    - eexists. split; reflexivity. }
  destruct Hd as (d & Hd & Hshown). exists (d :: ds). cbn [consume_loop].
  rewrite run_bind, Hd, run_bind, IH. split; [done|].
  unfold printed in *. cbn [zip zip_with omap list_omap fst snd]. rewrite Hshown.
  cbn [omap list_omap]. by rewrite <- Hp.
Qed.

(** ** The console of a client *)

(** What a [print] shows: a text, or the first characters of a value written as JSON. *)
Inductive Shown :=
| Text (text : string)
| Excerpt (value : pyval) (chars : nat).

Inductive Failure :=
| AssertionError (msg : string)
| TypeError (msg : string)
| IndexError (msg : string)
| Raised (exc : exn).

(** A script prints and returns, or raises. *)
Definition script (A : Type) : Type := list Shown * (A + Failure).

#[export] Instance script_ret : MRet script := λ A a, ([], inl a).
#[export] Instance script_bind : MBind script := λ A B f m,
  match m with
  | (out, inl a) => let '(out', r) := f a in (out ++ out', r)
  | (out, inr e) => (out, inr e)
  end.

Definition print (text : string) : script unit := ([Text text], inl tt).
Definition fail {A} (e : Failure) : script A := ([], inr e).
Definition attempt {A} (r : result A) : script A :=
  match r with Ok a => mret a | Err e => fail (Raised e) end.
Definition assert (b : bool) (msg : string) : script unit :=
  if b then mret tt else fail (AssertionError msg).

Fixpoint for_each {A} (f : A → script unit) (l : list A) : script unit :=
  match l with [] => mret tt | a :: l => _ ← f a; for_each f l end.

(** [v.get(k, default)] *)
Definition value_get (v : pyval) (k : string) (default : pyval) : script pyval :=
  attempt (body_get v k default).

(** [for x in v]: a dict yields its keys. *)
Definition iterate (v : pyval) : script (list pyval) :=
  match v with
  | VList l => mret l
  | VDict d => mret (map (λ kv, VStr kv.1) d)
  | VStr s => mret (map VStr (py_chars s))
  | _ => fail (TypeError ("'" +:+ py_type_name v +:+ "' object is not iterable"))
  end.

(** [v[0]] of a value that is true. *)
Definition first_item (v : pyval) : script pyval :=
  match v with
  | VList (x :: _) => mret x
  | VList [] => fail (IndexError "list index out of range")
  | VStr s => mret (VStr (py_take 1 s))
  | VDict _ => fail (Raised (KeyError "0"))
  | _ => fail (TypeError ("'" +:+ py_type_name v +:+ "' object is not subscriptable"))
  end.

Definition is_str (text : string) (v : pyval) : bool :=
  match v with VStr s => String.eqb s text | _ => false end.

(** [[c.get("id") for c in card.get("capabilities", [])]] *)
Fixpoint ids_of (capabilities : list pyval) : script (list pyval) :=
  match capabilities with
  | [] => mret []
  | c :: l => i ← value_get c "id" VNone; ids ← ids_of l; mret (i :: ids)
  end.

Definition capability_ids (card : pyval) : script (list pyval) :=
  listed ← value_get card "capabilities" (VList []); capabilities ← iterate listed; ids_of capabilities.

(** ** The server a client talks to *)

(** The agent card, the answer to a task; a connection that fails raises. *)
Record Server := {
  sv_agent_json : result JSONResponse;
  sv_task : pyval → result JSONResponse;
}.

Definition json (resp : JSONResponse) : pyval := VDict (resp_content resp).

(** [card.model_dump(mode="json")] *)
Definition dump_capability (c : Capability) : pyval :=
  VDict [ ("id", VStr (cap_id c)); ("name", VStr (cap_name c));
          ("description", VStr (cap_description c)); ("tags", VList (map VStr (cap_tags c))) ].

Definition dump_card (card : AgentCard) : list (string * pyval) :=
  [ ("agent_id", VStr (card_agent_id card)); ("name", VStr (card_name card));
    ("description", VStr (card_description card)); ("version", VStr (card_version card));
    ("endpoint_topic", VStr (card_endpoint_topic card));
    ("capabilities", VList (map dump_capability (card_capabilities card)));
    ("security", VStr "none") ].

Definition agent_json (card : AgentCard) : JSONResponse :=
  {| resp_status_code := 200; resp_content := dump_card card |}.

(** The health endpoint. *)
Definition ping (card : AgentCard) : JSONResponse :=
  {| resp_status_code := 200;
     resp_content := [("status", VStr "ok"); ("agent_id", VStr (card_agent_id card))] |}.

Section Clients.
Context `{Uuids}.
(** The exception httpx raises for an answer that is not a success. *)
Variable http_error : JSONResponse → exn.
(** The [uuid4()] drawn, in order. *)
Variable draws : nat → UUID.

Definition raise_for_status (resp : JSONResponse) : script unit :=
  if (200 <=? resp_status_code resp) && (resp_status_code resp <=? 299) then mret tt
  else fail (Raised (http_error resp)).

(** ** [risk_fraud/dev_a2a_client.py] *)

Definition risk_task_data (case_id : UUID) (ticket_id customer_id : string) : list (string * pyval) :=
  [ ("case_id", VStr (uuid_str case_id)); ("ticket_id", VStr ticket_id);
    ("customer_id", VStr customer_id); ("requested_refund_amount", VStr "49.99") ].

Definition _make_task (task_id case_id : UUID) (customer_id : string) : pyval :=
  VDict [ ("task_id", VStr (uuid_str task_id));
          ("capability", VStr "assess_fraud_risk");
          ("input", VDict [ ("parts", VList [ VDict
             [ ("type", VStr "data");
               ("data", VDict (risk_task_data case_id "TKT-001" customer_id)) ] ]) ]) ].

Definition risk_samples : list (string * string) :=
  [ ("CUS-CLEAN", "Clean customer — expected: low");
    ("CUS-BLOCKLIST", "Blocklist customer — expected: high");
    ("CUS-CHARGEBACKS", "Repeat chargebacks — expected: high");
    ("CUS-NEW-ACCOUNT", "New account — expected: elevated") ].

(** The body of the loop; the sample's number fixes the ids drawn. *)
Definition risk_sample (server : Server) (sample : nat * (string * string)) : script unit :=
  let '(i, (customer_id, description)) := sample in
  let task := _make_task (draws (2 * i)) (draws (2 * i + 1)) customer_id in
  _ ← print ("POST /a2a/tasks  [" +:+ description +:+ "]");
  resp ← attempt (sv_task server task);
  _ ← raise_for_status resp;
  status ← value_get (json resp) "status" VNone;
  output ← value_get (json resp) "output" (VDict []);
  output_parts ← value_get output "parts" (VList []);
  data ← (if py_truthy output_parts
          then part ← first_item output_parts; value_get part "data" (VDict [])
          else mret (VDict []));
  recommendation ← value_get data "recommendation" VNone;
  confidence ← value_get data "confidence" VNone;
  requires_human_review ← value_get data "requires_human_review" VNone;
  _ ← print ("  status=" +:+ py_str status +:+ "  recommendation=" +:+ py_str recommendation +:+
             "  confidence=" +:+ py_str confidence +:+
             "  requires_human_review=" +:+ py_str requires_human_review);
  _ ← ([Excerpt data 300], inl tt) : script unit;
  print "".

Definition risk_client (base_url : string) (server : Server) : script unit :=
  _ ← print ("GET " +:+ base_url +:+ "/.well-known/agent.json");
  card_resp ← attempt (sv_agent_json server);
  _ ← raise_for_status card_resp;
  cap_ids ← capability_ids (json card_resp);
  _ ← assert (existsb (is_str "assess_fraud_risk") cap_ids)
        ("Expected assess_fraud_risk in capabilities, got " +:+ py_str (VList cap_ids));
  agent_id ← value_get (json card_resp) "agent_id" VNone;
  _ ← print ("Card: agent_id=" +:+ py_str agent_id +:+ ", capabilities=" +:+
             py_str (VList cap_ids));
  _ ← print "";
  for_each (risk_sample server) (zip (seq 0 (List.length risk_samples)) risk_samples).

(** ** [billing_entitlement/dev_a2a_client.py] *)

Definition billing_task_data (case_id : UUID) (purchase_reference : string) :
    list (string * pyval) :=
  [ ("case_id", VStr (uuid_str case_id)); ("ticket_id", VStr "TKT-DEV-001");
    ("customer_id", VStr "CUS-DEV-001"); ("requested_refund_amount", VFloat (lit 4999 100));
    ("purchase_reference", VStr purchase_reference) ].

Definition billing_task (task_id case_id : UUID) (purchase_reference : string) : pyval :=
  VDict [ ("task_id", VStr (uuid_str task_id));
          ("capability", VStr "analyze_refund_eligibility");
          ("requester_agent_id", VStr "dev-client");
          ("target_agent_id", VStr "billing-entitlement-agent");
          ("input", VDict
             [ ("role", VStr "user");
               ("parts", VList [ VDict
                  [ ("type", VStr "data");
                    ("data", VDict (billing_task_data case_id purchase_reference)) ] ]) ]) ].

(** The recommendation of the last data part. *)
Fixpoint last_recommendation (parts : list pyval) (found : pyval) : script pyval :=
  match parts with
  | [] => mret found
  | part :: parts =>
      type ← value_get part "type" VNone;
      found ← (if is_str "data" type
               then data ← value_get part "data" (VDict []); value_get data "recommendation" VNone
               else mret found);
      last_recommendation parts found
  end.

Definition _post_task (server : Server) (i : nat) (purchase_reference label : string) :
    script unit :=
  let body := billing_task (draws (2 * i)) (draws (2 * i + 1)) purchase_reference in
  _ ← print "";
  _ ← print ("POST /a2a/tasks [" +:+ label +:+ "] purchase_reference=" +:+
             py_repr_str purchase_reference);
  resp ← attempt (sv_task server body);
  status ← value_get (json resp) "status" VNone;
  output ← value_get (json resp) "output" VNone;
  recommendation ← (if py_truthy output
                    then listed ← value_get output "parts" (VList []); parts ← iterate listed;
                         last_recommendation parts VNone
                    else mret VNone);
  _ ← print ("  status=" +:+ py_repr status +:+ "  recommendation=" +:+ py_repr recommendation);
  _ ← assert (is_str "completed" status || is_str "failed" status)
        ("Unexpected status: " +:+ py_repr status);
  print "  ✓".

Definition billing_client (base_url : string) (server : Server) : script unit :=
  _ ← print "";
  _ ← print ("GET " +:+ base_url +:+ "/.well-known/agent.json");
  card_resp ← attempt (sv_agent_json server);
  _ ← raise_for_status card_resp;
  capability_ids ← capability_ids (json card_resp);
  name ← value_get (json card_resp) "name" VNone;
  version ← value_get (json card_resp) "version" VNone;
  _ ← print ("Agent: " +:+ py_str name +:+ " v" +:+ py_str version);
  _ ← print ("Capabilities: " +:+ py_str (VList capability_ids));
  _ ← assert (existsb (is_str "analyze_refund_eligibility") capability_ids)
        ("analyze_refund_eligibility not in card capabilities: " +:+ py_str (VList capability_ids));
  _ ← print "✓ Agent Card lists analyze_refund_eligibility";
  _ ← _post_task server 0 "PR-APPROVE" "approve case";
  _ ← _post_task server 1 "PR-WINDOW-EXPIRED" "deny case (window expired)";
  _ ← _post_task server 2 "PR-UNKNOWN-XYZ" "unknown reference → request_more_information";
  _ ← print "";
  print "✓ All checks passed. Agent is independently callable.".
End Clients.

(** ** The clients against the agents *)

(** What the wire does with a part that carries data: the part is the data's. *)
Definition reads_data_parts (parts_validate : pyval → result (list A2APart)) : Prop :=
  ∀ d, parts_validate (VList [VDict [("type", VStr "data"); ("data", VDict d)]]) = Ok [data_part d].

Section Risk.
Context `{Uuids}.
Context (http_error : JSONResponse → exn) (draws : nat → UUID).
Context (parts_validate : pyval → result (list A2APart)) (Hparts : reads_data_parts parts_validate).
Context (model_validate : list (string * pyval) → result RiskAssessmentRequest).
(** Pydantic reads the client's four fields. *)
Context (Hmodel : ∀ case_id ticket_id customer_id,
  model_validate (risk_task_data case_id ticket_id customer_id) =
  Ok {| rar_case_id := case_id; rar_ticket_id := ticket_id; rar_customer_id := customer_id;
        rar_requested_refund_amount :=
          Some {| dec_sign := false; dec_coef := 4999; dec_exponent := -2 |};
        rar_customer_message_summary := None; rar_account_age_days := None |}).

(** The risk agent's HTTP surface. *)
Definition risk_server {St : Type} `{!RiskSignalStore St} (store : St) (fresh : UUID) : Server := {|
  sv_agent_json := Ok (agent_json risk_agent_card);
  sv_task := λ body, handle_task model_validate parts_validate uuid_str store (Some body) fresh |}.

Lemma risk_task_answer {St : Type} `{!RiskSignalStore St} (store : St) fresh task_id case_id customer
    signals a :
  store_load_signals store customer = Some signals →
  assess_signals signals {|
    rar_case_id := case_id; rar_ticket_id := "TKT-001"; rar_customer_id := customer;
    rar_requested_refund_amount :=
      Some {| dec_sign := false; dec_coef := 4999; dec_exponent := -2 |};
    rar_customer_message_summary := None; rar_account_age_days := None |} FRAUD_POLICY = Ok a →
  sv_task (risk_server store fresh) (_make_task task_id case_id customer) =
  Ok {| resp_status_code := 200;
        resp_content := completed_content RiskService.AGENT_ID (VStr (uuid_str task_id))
          (dump_message uuid_str
             {| msg_role := role_agent; msg_parts := [data_part (a2a_data a None)];
                msg_task_id := None |}) |}.
Proof using Hparts Hmodel.
  intros Hs Ha. unfold risk_server, handle_task, _make_task. cbn -[assess a2a_data].
  rewrite Hparts. cbn -[assess a2a_data]. unfold assess, validate_input.
  cbn [first_data data_part part_type part_data_ risk_task_data].
  fold (risk_task_data case_id "TKT-001" customer). rewrite Hmodel.
  cbn [mbind result_bind rar_customer_id]. by rewrite Hs, Ha.
Qed.

(** What a sample prints, for the assessment it gets. *)
Lemma risk_sample_answered server i customer description task_id a :
  sv_task server (_make_task (draws (2 * i)) (draws (2 * i + 1)) customer) =
  Ok {| resp_status_code := 200;
        resp_content := completed_content RiskService.AGENT_ID task_id
          (dump_message uuid_str
             {| msg_role := role_agent; msg_parts := [data_part (a2a_data a None)];
                msg_task_id := None |}) |} →
  risk_sample http_error draws server (i, (customer, description)) =
  ([ Text ("POST /a2a/tasks  [" +:+ description +:+ "]");
     Text ("  status=completed  recommendation=" +:+ RiskLevel_str (ra_risk_level a) +:+
           "  confidence=" +:+ py_repr_float (ra_confidence a) +:+
           "  requires_human_review=" +:+ py_str_bool (ra_requires_human_review a));
     Excerpt (VDict (a2a_data a None)) 300; Text "" ], inl tt).
Proof. intros Ht. unfold risk_sample. rewrite Ht. reflexivity. Qed.

(** The seeded customers of the samples, with the refund the client asks for. *)
Definition sample_verdict {St : Type} `{!RiskSignalStore St} (store : St) (customer : string)
    (case_id : UUID) : option (RiskLevel * float * bool) :=
  match store_load_signals store customer with
  | Some signals =>
      match assess_signals signals {|
        rar_case_id := case_id; rar_ticket_id := "TKT-001"; rar_customer_id := customer;
        rar_requested_refund_amount :=
          Some {| dec_sign := false; dec_coef := 4999; dec_exponent := -2 |};
        rar_customer_message_summary := None; rar_account_age_days := None |} FRAUD_POLICY with
      | Ok a => Some (ra_risk_level a, ra_confidence a, ra_requires_human_review a)
      | Err _ => None
      end
  | None => None
  end.

Lemma sample_verdicts case_id :
  sample_verdict default_store "CUS-CLEAN" case_id = Some (LOW, lit 90 100, false) ∧
  sample_verdict default_store "CUS-BLOCKLIST" case_id = Some (HIGH, lit 95 100, false) ∧
  sample_verdict default_store "CUS-CHARGEBACKS" case_id = Some (HIGH, lit 60 100, false) ∧
  sample_verdict default_store "CUS-NEW-ACCOUNT" case_id = Some (ELEVATED, lit 90 100, false).
Proof. split; [|split; [|split]]; vm_compute; reflexivity. Qed.

Definition texts (out : list Shown) : list string :=
  omap (λ s, match s with Text t => Some t | Excerpt _ _ => None end) out.

Lemma texts_app o1 o2 : texts (o1 ++ o2) = texts o1 ++ texts o2.
Proof. apply omap_app. Qed.

Lemma risk_sample_shown {St : Type} `{!RiskSignalStore St} (store : St) fresh i customer description level confidence review :
  sample_verdict store customer (draws (2 * i + 1)) = Some (level, confidence, review) →
  ∃ data, risk_sample http_error draws (risk_server store fresh) (i, (customer, description)) =
  ([ Text ("POST /a2a/tasks  [" +:+ description +:+ "]");
     Text ("  status=completed  recommendation=" +:+ RiskLevel_str level +:+
           "  confidence=" +:+ py_repr_float confidence +:+
           "  requires_human_review=" +:+ py_str_bool review);
     Excerpt data 300; Text "" ], inl tt).
Proof using Hparts Hmodel.
  unfold sample_verdict. destruct (store_load_signals store customer) as [signals|] eqn:Hs; [|discriminate].
  destruct (assess_signals _ _ _) as [a|] eqn:Ha; [|discriminate]. intros [= <- <- <-].
  exists (VDict (a2a_data a None)). eapply risk_sample_answered.
  exact (risk_task_answer store fresh _ _ _ signals a Hs Ha).
Qed.

(** Remark (functional): the labels of the risk client hold.  Against the agent's own HTTP
    surface the client raises nothing: it finds the capability on the card, and the four
    sample customers are assessed as their labels announce, low, high, high and elevated,
    none of them sent to a human. *)
Theorem risk_samples_as_labelled base_url fresh :
  let '(out, r) := risk_client http_error draws base_url (risk_server default_store fresh) in
  r = inl tt ∧ texts out =
    [ "GET " +:+ base_url +:+ "/.well-known/agent.json";
      "Card: agent_id=risk-fraud-agent, capabilities=['assess_fraud_risk']"; "";
      "POST /a2a/tasks  [Clean customer — expected: low]";
      "  status=completed  recommendation=low  confidence=0.9  requires_human_review=False"; "";
      "POST /a2a/tasks  [Blocklist customer — expected: high]";
      "  status=completed  recommendation=high  confidence=0.95  requires_human_review=False"; "";
      "POST /a2a/tasks  [Repeat chargebacks — expected: high]";
      "  status=completed  recommendation=high  confidence=0.6  requires_human_review=False"; "";
      "POST /a2a/tasks  [New account — expected: elevated]";
      "  status=completed  recommendation=elevated  confidence=0.9  requires_human_review=False"; "" ].
Proof using Hparts Hmodel.
  unfold risk_client. cbn [zip seq List.length risk_samples zip_with for_each].
  destruct (risk_sample_shown default_store fresh 0 "CUS-CLEAN" "Clean customer — expected: low"
              _ _ _ (proj1 (sample_verdicts _))) as [d0 ->].
  destruct (risk_sample_shown default_store fresh 1 "CUS-BLOCKLIST" "Blocklist customer — expected: high"
              _ _ _ (proj1 (proj2 (sample_verdicts _)))) as [d1 ->].
  destruct (risk_sample_shown default_store fresh 2 "CUS-CHARGEBACKS" "Repeat chargebacks — expected: high"
              _ _ _ (proj1 (proj2 (proj2 (sample_verdicts _))))) as [d2 ->].
  destruct (risk_sample_shown default_store fresh 3 "CUS-NEW-ACCOUNT" "New account — expected: elevated"
              _ _ _ (proj2 (proj2 (proj2 (sample_verdicts _))))) as [d3 ->].
  vm_compute. done.
Qed.
End Risk.

Section Billing.
Context `{Uuids}.
Context (http_error : JSONResponse → exn) (draws : nat → UUID).
Context (parts_validate : pyval → result (list A2APart)) (Hparts : reads_data_parts parts_validate).
Context (model_validate : list (string * pyval) → result RefundEligibilityRequest).
(** Pydantic reads the client's five fields. *)
Context (Hmodel : ∀ case_id purchase_reference,
  ∃ amount, model_validate (billing_task_data case_id purchase_reference) =
  Ok {| rer_case_id := case_id; rer_ticket_id := "TKT-DEV-001"; rer_customer_id := "CUS-DEV-001";
        rer_requested_refund_amount := amount; rer_purchase_reference := purchase_reference;
        rer_customer_message_summary := None; rer_policy_context := None |}).

(** The billing agent's HTTP surface, at clock reading [time]. *)
Definition billing_server {St : Type} `{!BillingFactStore St} (store : St) (time : datetime)
    (fresh : UUID) : Server := {|
  sv_agent_json := Ok (agent_json billing_agent_card);
  sv_task := λ body,
    handle_billing_task model_validate parts_validate uuid_str store time (Some body) fresh |}.

Definition billing_content (task_id : UUID) (rec : EligibilityRecommendation) : JSONResponse :=
  {| resp_status_code := 200;
     resp_content := completed_content BillingService.AGENT_ID (VStr (uuid_str task_id))
       (dump_message uuid_str
          {| msg_role := role_agent; msg_parts := [data_part (billing_a2a_data rec None)];
             msg_task_id := None |}) |}.

(** The recommendation for a purchase, whatever amount is asked for. *)
Definition recommends {St : Type} `{!BillingFactStore St} (store : St) (time : datetime)
    (purchase_reference : string) (r : Recommendation) : Prop :=
  match store_load_facts store purchase_reference "CUS-DEV-001" with
  | None => r = REQUEST_MORE_INFO
  | Some facts => ∀ request, ∃ rec, evaluate time facts request REFUND_POLICY = Ok rec ∧
                                    er_recommendation rec = r
  end.

Lemma billing_task_answer {St : Type} `{!BillingFactStore St} (store : St) time fresh task_id case_id
    reference r :
  recommends store time reference r →
  ∃ rec, sv_task (billing_server store time fresh) (billing_task task_id case_id reference) =
         Ok (billing_content task_id rec) ∧ er_recommendation rec = r.
Proof using Hparts Hmodel.
  unfold recommends. intros Hr. destruct (Hmodel case_id reference) as [amount Hm].
  unfold billing_server, handle_billing_task, billing_task. cbn -[analyze billing_a2a_data].
  rewrite Hparts. cbn -[analyze billing_a2a_data]. unfold analyze, validate_billing_input.
  cbn [first_data data_part part_type part_data_ billing_task_data].
  fold (billing_task_data case_id reference). rewrite Hm.
  cbn [mbind result_bind rer_customer_id rer_purchase_reference].
  destruct (store_load_facts store reference "CUS-DEV-001") as [facts|].
  - destruct (Hr {| rer_case_id := case_id; rer_ticket_id := "TKT-DEV-001";
      rer_customer_id := "CUS-DEV-001"; rer_requested_refund_amount := amount;
      rer_purchase_reference := reference; rer_customer_message_summary := None;
      rer_policy_context := None |}) as (rec & He & Hrec).
    exists rec. by rewrite He.
  - subst r. by eexists.
Qed.

Lemma post_task_answered server i reference label task_id rec :
  sv_task server (billing_task (draws (2 * i)) (draws (2 * i + 1)) reference) =
  Ok (billing_content task_id rec) →
  _post_task draws server i reference label =
  ([ Text ""; Text ("POST /a2a/tasks [" +:+ label +:+ "] purchase_reference=" +:+
                    py_repr_str reference);
     Text ("  status='completed'  recommendation=" +:+
           py_repr_str (Recommendation_str (er_recommendation rec)));
     Text "  ✓" ], inl tt).
Proof. intros Ht. unfold _post_task. rewrite Ht. reflexivity. Qed.

(** The three purchases of the client, for as long as the seeded dataset is fresh. *)
Lemma client_purchases NOW later :
  0 <= later < days 25 →
  recommends {| seeded_at := NOW |} (NOW + later) "PR-APPROVE" APPROVE_FULL_REFUND ∧
  recommends {| seeded_at := NOW |} (NOW + later) "PR-WINDOW-EXPIRED" DENY_REFUND_ ∧
  recommends {| seeded_at := NOW |} (NOW + later) "PR-UNKNOWN-XYZ" REQUEST_MORE_INFO.
Proof using Type.
  intros Hl. unfold recommends. cbn [store_load_facts SeededFacts_store seeded_at].
  assert (Hseeded : ∀ ref r, ref ∈ seeded_refs → outcome_says (expected_outcome later ref) r [] = true →
            match load_facts NOW ref "CUS-DEV-001" with
            | None => r = REQUEST_MORE_INFO
            | Some facts => ∀ request, ∃ rec,
                evaluate (NOW + later) facts request REFUND_POLICY = Ok rec ∧ er_recommendation rec = r
            end).
  { intros ref r Hr Hsays. destruct (load_facts NOW ref "CUS-DEV-001") as [f|] eqn:Hf.
    - intros request.
      destruct (seeded_evaluation NOW later ref "CUS-DEV-001" request Hl Hr) as (f' & Hf' & Hev).
      assert (f' = f) as -> by congruence.
      destruct (outcome_of_evaluation _ _ _ _ Hev Hsays) as (rec & -> & Hrec & _). by exists rec.
    - destruct (seeded_evaluation NOW later ref "CUS-DEV-001" (sample_billing_request ref "") Hl Hr)
        as (f' & Hf' & _). congruence. }
  split; [|split].
  - apply Hseeded; [|reflexivity]. apply list_elem_of_In. cbn. tauto.
  - apply Hseeded; [|reflexivity]. apply list_elem_of_In. cbn. tauto.
  - reflexivity.
Qed.

(** Remark (functional): the labels of the billing client hold for 25 days.  Against the
    agent's own HTTP surface, whose dataset was built at [NOW], the client passes: the three
    purchases are approved in full, denied, and answered with a request for information. *)
Theorem billing_samples_as_labelled base_url NOW later fresh :
  0 <= later < days 25 →
  let '(out, r) := billing_client http_error draws base_url
                     (billing_server {| seeded_at := NOW |} (NOW + later) fresh) in
  r = inl tt ∧ texts out =
    [ ""; "GET " +:+ base_url +:+ "/.well-known/agent.json";
      "Agent: Billing Entitlement Agent v1.0.0"; "Capabilities: ['analyze_refund_eligibility']";
      "✓ Agent Card lists analyze_refund_eligibility";
      ""; "POST /a2a/tasks [approve case] purchase_reference='PR-APPROVE'";
      "  status='completed'  recommendation='approve_full_refund'"; "  ✓";
      ""; "POST /a2a/tasks [deny case (window expired)] purchase_reference='PR-WINDOW-EXPIRED'";
      "  status='completed'  recommendation='deny_refund'"; "  ✓";
      ""; "POST /a2a/tasks [unknown reference → request_more_information] purchase_reference='PR-UNKNOWN-XYZ'";
      "  status='completed'  recommendation='request_more_information'"; "  ✓";
      ""; "✓ All checks passed. Agent is independently callable." ].
Proof using Hparts Hmodel.
  intros (Ha & Hw & Hu)%(client_purchases NOW). unfold billing_client.
  destruct (billing_task_answer _ _ fresh (draws 0) (draws 1) _ _ Ha) as (r0 & H0 & E0).
  destruct (billing_task_answer _ _ fresh (draws 2) (draws 3) _ _ Hw) as (r1 & H1 & E1).
  destruct (billing_task_answer _ _ fresh (draws 4) (draws 5) _ _ Hu) as (r2 & H2 & E2).
  rewrite (post_task_answered _ 0 _ _ _ _ H0), (post_task_answered _ 1 _ _ _ _ H1),
    (post_task_answered _ 2 _ _ _ _ H2), E0, E1, E2.
  vm_compute. done.
Qed.

(** Remark (error): the billing client passes with an agent that analyses nothing.  Whatever
    the server answers to the tasks, with whatever HTTP status, as long as the body says
    [failed], the client accepts it and ends with all checks passed: the announced
    recommendations are printed, never compared. *)
Theorem billing_client_accepts_failures base_url server category message :
  sv_agent_json server = Ok (agent_json billing_agent_card) →
  (∀ body, ∃ code task_id, sv_task server body =
     Ok {| resp_status_code := code;
           resp_content := failed_content BillingService.AGENT_ID task_id category message |}) →
  let '(out, r) := billing_client http_error draws base_url server in
  r = inl tt ∧ last (texts out) = Some "✓ All checks passed. Agent is independently callable.".
Proof using Type.
  intros Hcard Htask.
  assert (Hpost : ∀ i reference label, ∃ out, _post_task draws server i reference label = (out, inl tt)).
  { intros i reference label. unfold _post_task.
    destruct (Htask (billing_task (draws (2 * i)) (draws (2 * i + 1)) reference))
      as (code & task_id & ->). by eexists. }
  unfold billing_client. rewrite Hcard.
  destruct (Hpost 0%nat "PR-APPROVE" "approve case") as [o0 ->].
  destruct (Hpost 1%nat "PR-WINDOW-EXPIRED" "deny case (window expired)") as [o1 ->].
  destruct (Hpost 2%nat "PR-UNKNOWN-XYZ" "unknown reference → request_more_information") as [o2 ->].
  split; [reflexivity|]. cbn -[texts last app]. rewrite !texts_app, !last_app. reflexivity.
Qed.
End Billing.
