(* ===== verification/Witnesses.v ===== *)
(** * The theorems on the choreography at concrete inputs

    One deployment: a broker that acknowledges, both peers published, no LLM.  Each
    witness evaluates the hypotheses of a theorem there and applies it. *)

From Stdlib Require Import ZArith Bool Ascii String List Lia.
From stdpp Require Import base list strings gmap relations.
From S2P Require Import Prelude.
From S2P Require Import PyFloat.
From S2P Require Import Contracts.
From S2P Require Import A2A.
From S2P Require Import RiskModels.
From S2P Require Import RiskStore.
From S2P Require Import RiskScoring.
From S2P Require Import RiskService.
From S2P Require Import RiskScoringFacts.
From S2P Require Import RiskServiceFacts.
From S2P Require Import BillingModels.
From S2P Require Import BillingRules.
From S2P Require Import BillingStore.
From S2P Require Import BillingService.
From S2P Require Import BillingFacts.
From S2P Require Import Envelope.
From S2P Require Import CaseModels.
From S2P Require Import Drafter.
From S2P Require Import Classifier.
From S2P Require Import DecisionEngine.
From S2P Require Import DecisionFacts.
From S2P Require Import Normalize.
From S2P Require Import StateStore.
From S2P Require Import Llm.
From S2P Require Import Async.
From S2P Require Import LlmRuntime.
From S2P Require Import Handlers.
From S2P Require Import DecisionBudget.
From S2P Require Import DecisionSafety.
From S2P Require Import Execution.
From S2P Require Import Choreography.
From S2P Require Import EndToEnd.
From S2P Require Import Scenarios.
From S2P Require Import Intake.

Open Scope string_scope.
Open Scope list_scope.
Open Scope Z_scope.

#[local] Existing Instance demo_uuids.
#[local] Existing Instance demo_assistant.

(** The broker and the agents' cards. *)
Definition demo_env : Environment := λ R q _,
  match q in Query R return R with
  | Send _ _ _ => Acked
  | ReadCards => scan_of [billing_card; risk_card]
  | Wire _ => Ok tt
  | Invoke _ => TimedOut
  | ReadProcessed _ => Ok []
  | Persist _ _ => Acked
  | Sleep _ => tt
  | StopSet | WaitStop _ => true
  end.

Lemma demo_acks : acks demo_env.
Proof. intros topic key e w. reflexivity. Qed.

(** The ticket's intake, and the results of both peers, each delivered twice. *)
Definition intake_moves : list Move :=
  [ Start (demo_intake ticket_event); ack 0; ack 0;
    Reply 0 (ACards (scan_of [billing_card; risk_card])); ack 0;
    Reply 0 (ACards (scan_of [billing_card; risk_card])); ack 0; ack 0 ].

Definition result_moves : list Move :=
  [ Start (billing_result_handler (billing_result_event "approve_full_refund")); ack 0;
    Start (billing_result_handler (billing_result_event "approve_full_refund"));
    Start (risk_result_handler (risk_result_event "low")); ack 2;
    Start (risk_result_handler (risk_result_event "low")); ack 2; ack 2; ack 2 ].

Definition world_after (ms : list Move) (w : World) : World :=
  match moves ms (mk_loop [] w) with Some l => l_world l | None => w end.

Definition delegated_world : World := world_after intake_moves start_world.

Definition delegated_case : ResolutionCase :=
  default (new_case 5 "" "" 5 (lit 0 1) "" "" 0) (cs_cases (w_store delegated_world) !! 5).

Lemma delegated_reach :
  ∃ ts, rtc (loop_step demo_handler) start_loop (mk_loop ts delegated_world).
Proof.
  destruct (moves intake_moves start_loop) as [[ts w]|] eqn:E; [|by vm_compute in E].
  exists ts. replace delegated_world with w.
  - apply (moves_sound demo_handler intake_moves); [|exact E].
    repeat (apply Forall_cons_2; [try exact I; constructor|]). apply Forall_nil_2.
  - unfold delegated_world, world_after, start_loop in *. by rewrite E.
Qed.

Lemma delegated_ok : world_ok delegated_world.
Proof. destruct delegated_reach as [ts H]. apply (loop_consistent _ _ _ _ _ _ H). Qed.

Lemma delegated_holds : holds 5 delegated_case delegated_world.
Proof. constructor; vm_compute; reflexivity. Qed.

Lemma delegated_awaiting : awaiting delegated_case 51 52.
Proof. constructor; vm_compute; try done; by split. Qed.

Lemma at_most_one_decision_witness :
  ∃ l, rtc (loop_step (late_handler 5 REFUND_INTENT_SIGNALS false (λ _, None) (λ _, None)))
         (mk_loop [] delegated_world) l ∧
    decisions 5 (w_log (l_world l)) = 1%nat ∧ closed 5 delegated_world = 0%nat ∧
    (decisions 5 (w_log (l_world l)) + closed 5 delegated_world <=
     decisions 5 (w_log delegated_world) + closed 5 (l_world l))%nat.
Proof.
  destruct (moves result_moves (mk_loop [] delegated_world)) as [l|] eqn:E; [|by vm_compute in E].
  assert (Hr : rtc (loop_step (late_handler 5 REFUND_INTENT_SIGNALS false (λ _, None) (λ _, None)))
                 (mk_loop [] delegated_world) l).
  { apply (moves_sound _ result_moves); [|exact E].
    repeat (apply Forall_cons_2; [try exact I; constructor|]). apply Forall_nil_2. }
  exists l. split; [exact Hr|]. split; [|split].
  - vm_compute in E. injection E as <-. reflexivity.
  - vm_compute. reflexivity.
  - apply (at_most_one_decision 5 REFUND_INTENT_SIGNALS false (λ _, None) (λ _, None)
             delegated_world l delegated_ok Hr).
Defined.

Lemma store_consistent_witness :
  ∃ l, rtc (loop_step demo_handler) start_loop l ∧
    decisions 5 (w_log (l_world l)) = 2%nat ∧ store_ok (w_store (l_world l)).
Proof.
  destruct (moves race start_loop) as [l|] eqn:E; [|by vm_compute in E].
  assert (Hr : rtc (loop_step demo_handler) start_loop l).
  { apply (moves_sound _ race); [|exact E].
    repeat (apply Forall_cons_2; [try exact I; constructor|]). apply Forall_nil_2. }
  exists l. split; [exact Hr|]. split.
  - vm_compute in E. injection E as <-. reflexivity.
  - apply (store_consistent REFUND_INTENT_SIGNALS false (λ _, None) (λ _, None) 0 l Hr).
Defined.

Lemma decision_delivered_witness :
  ∃ w', run demo_env (_apply_decision 5 (Some 101)) delegated_world = (Ok tt, w') ∧
    decided_by 5 101 (case_ruling delegated_case 0) DECIDED delegated_case delegated_world w'.
Proof.
  apply (decision_delivered demo_env demo_acks 5 101 delegated_world delegated_case);
    vm_compute; reflexivity.
Defined.

Lemma analyses_settle_witness :
  ∃ w1 w2,
    run demo_env (billing_result_handler (billing_result_event "approve_full_refund"))
      delegated_world = (Ok tt, w1) ∧
    run demo_env (risk_result_handler (risk_result_event "low")) w1 = (Ok tt, w2) ∧
    settled 5 102 (APPROVE_REFUND, None) delegated_world w2 ∧
    decisions 5 (w_log w2) = 1%nat.
Proof.
  destruct (analyses_settle demo_env demo_acks 5 delegated_world delegated_case 51 52
              (billing_result_event "approve_full_refund") (risk_result_event "low")
              (Scenarios.demo_billing "approve_full_refund") (Scenarios.demo_risk "low"))
    as [(w1 & w2 & H1 & H2 & H3 & H4) _].
  - apply delegated_holds.
  - apply delegated_awaiting.
  - done.
  - done.
  - exists w1, w2. split; [exact H1|]. split; [exact H2|].
    match type of H3 with settled _ _ ?r _ _ => replace r with (APPROVE_REFUND, @None string) in H3 end;
      [|vm_compute; reflexivity].
    split; [exact H3|]. rewrite H4. vm_compute. reflexivity.
Defined.

Lemma approval_rests_on_facts_witness :
  ∃ pb pr,
    build_result_payload (sample_billing_request "PR-APPROVE" "") (recommendation_at 0 "PR-APPROVE")
      (Some (facts_of "PR-APPROVE")) None = Ok pb ∧
    to_result_payload (assessment_of "CUS-CLEAN") (sample_request "CUS-CLEAN" None) None = Ok pr ∧
    billing_clears 0 (facts_of "PR-APPROVE") (bra_eligible_refund_amount pb) ∧
    risk_clears (signals_of "CUS-CLEAN") (sample_request "CUS-CLEAN" None).
Proof.
  destruct (build_result_payload (sample_billing_request "PR-APPROVE" "")
              (recommendation_at 0 "PR-APPROVE") (Some (facts_of "PR-APPROVE")) None)
    as [pb|] eqn:Eb; [|by vm_compute in Eb].
  destruct (to_result_payload (assessment_of "CUS-CLEAN") (sample_request "CUS-CLEAN" None) None)
    as [pr|] eqn:Er; [|by vm_compute in Er].
  destruct (approval_rests_on_facts 0 (facts_of "PR-APPROVE")
              (sample_billing_request "PR-APPROVE" "") (recommendation_at 0 "PR-APPROVE") None pb None
              (signals_of "CUS-CLEAN") (sample_request "CUS-CLEAN" None) (assessment_of "CUS-CLEAN")
              None pr None seeded_case) as (H1 & H2 & _).
  - vm_compute. reflexivity.
  - exact Eb.
  - vm_compute. reflexivity.
  - exact Er.
  - left. vm_compute in Eb, Er. injection Eb as <-. injection Er as <-. vm_compute. reflexivity.
  - exists pb, pr. by split_and!.
Defined.

(** ** The intake *)

Definition demo_cards : CardScan (result EventEnvelope) := scan_of [billing_card; risk_card].

Lemma demo_discovery : ∀ w, demo_env _ ReadCards w = demo_cards.
Proof. done. Qed.

Lemma demo_billing_found : discoverable demo_cards BILLING_CAPABILITY_ID BILLING_PEER_AGENT_ID.
Proof. eexists _, _. split; vm_compute; reflexivity. Qed.

Lemma demo_risk_found : discoverable demo_cards RISK_CAPABILITY_ID RISK_PEER_AGENT_ID.
Proof. eexists _, _. split; vm_compute; reflexivity. Qed.


Lemma workflow_settles_witness :
  ∃ w1 w2 w3,
    run demo_env (demo_intake ticket_event) start_world = (Ok tt, w1) ∧
    run demo_env (billing_result_handler (billing_result_event "deny_refund")) w1 = (Ok tt, w2) ∧
    run demo_env (risk_result_handler (risk_result_event "high")) w2 = (Ok tt, w3) ∧
    decisions 5 (w_log w3) = 1%nat.
Proof.
  destruct (workflow_settles REFUND_INTENT_SIGNALS false demo_env demo_acks demo_cards
              demo_discovery demo_billing_found demo_risk_found ticket_event
              (sample_ticket "please refund me") start_world
              (billing_result_event "deny_refund") (Scenarios.demo_billing "deny_refund")
              (risk_result_event "high") (Scenarios.demo_risk "high"))
    as (w1 & w2 & w3 & case & triage & H1 & H2 & H3 & _ & _ & _ & H4);
    [reflexivity|by split|vm_compute; done|by split|by split| |].
  2: { exists w1, w2, w3. split; [exact H1|]. split; [exact H2|]. split; [exact H3|]. exact H4. }
  intros w0 t. unfold triage_ticket. rewrite run_lift. intros Ht%(f_equal fst).
  vm_compute in Ht. by injection Ht as <-.
Defined.
