(* ===== verification/PlatformWitnesses.v ===== *)
(** * The theorems on the platform at concrete inputs

    The transport, the endpoints, the LLM runtime and the views, with the tracker
    the code uses, bytes that are their own envelopes, and the deployment of
    [Witnesses]. *)

From Stdlib Require Import ZArith Bool Ascii String List Lia.
From stdpp Require Import base list strings gmap.
From S2P Require Import Prelude.
From S2P Require Import PyFloat.
From S2P Require Import Contracts.
From S2P Require Import Uuid.
From S2P Require Import Idempotency.
From S2P Require Import Llm.
From S2P Require Import LlmConfig.
From S2P Require Import A2A.
From S2P Require Import RiskModels.
From S2P Require Import RiskStore.
From S2P Require Import RiskScoring.
From S2P Require Import RiskService.
From S2P Require Import RiskServiceFacts.
From S2P Require Import BillingModels.
From S2P Require Import BillingRules.
From S2P Require Import BillingStore.
From S2P Require Import BillingService.
From S2P Require Import BillingFacts.
From S2P Require Import CaseModels.
From S2P Require Import Classifier.
From S2P Require Import DecisionFacts.
From S2P Require Import StateStore.
From S2P Require Import Envelope.
From S2P Require Import Async.
From S2P Require Import LlmRuntime.
From S2P Require Import Consumer.
From S2P Require Import Handlers.
From S2P Require Import DecisionBudget.
From S2P Require Import Execution.
From S2P Require Import Drafter.
From S2P Require Import LlmFacts.
From S2P Require Import LlmDrafter.
From S2P Require Import Transport.
From S2P Require Import ConsumerFacts.
From S2P Require Import Runtime.
From S2P Require Import RuntimeFacts.
From S2P Require Import Peers.
From S2P Require Import Choreography.
From S2P Require Import Scenarios.
From S2P Require Import Intake.
From S2P Require Import Workflow.
From S2P Require Import Trace.
From S2P Require Import TraceFacts.
From S2P Require Import Views.
From S2P Require Import ViewFacts.
From S2P Require Import Client.
From S2P Require Import Witnesses.
From S2P Require Import StoreFacts.
From S2P Require Import Reaper.

Open Scope string_scope.
Open Scope list_scope.
Open Scope Z_scope.

#[local] Existing Instance demo_uuids.
#[local] Existing Instance demo_assistant.

(** Bytes that are their own envelopes. *)
Definition demo_parse (e : EventEnvelope) : result EventEnvelope := Ok e.

Definition demo_invalid (p : EventPayload) : exn := ValidationError "not a task request".

Definition demo_tracker : IdempotencyTracker := new_tracker "risk-fraud-agent.tasks" [].

Lemma demo_tracker_ok : dd_ok demo_tracker.
Proof. split; [|reflexivity]. constructor; [constructor|cbn; lia]. Qed.

Lemma one_fits : (length [7] <= dd_capacity (T:=IdempotencyTracker))%nat.
Proof. cbn. unfold LRU_MAXSIZE. lia. Qed.

(** An agent that answers a request with its own input. *)
Definition echo_runtime : AgentRuntime := {|
  rt_identity := risk_identity; rt_card := risk_agent_card;
  rt_capability_ids := ["assess_fraud_risk"];
  rt_handlers := [("assess_fraud_risk", λ req, Ret (tr_input req))] |}.

Lemma echo_valid : valid_identity (rt_identity echo_runtime).
Proof. split; vm_compute; reflexivity. Qed.

Definition echo_request : TaskRequest := {|
  tr_task_id := 7; tr_capability := "assess_fraud_risk";
  tr_requester_agent_id := "customer-resolution-agent";
  tr_target_agent_id := RiskService.AGENT_ID;
  tr_input := {| msg_role := role_user; msg_parts := []; msg_task_id := None |} |}.

Definition echo_event : EventEnvelope :=
  envelope_in 200 5 "agent.task_request.v1" (P_TaskRequest echo_request).

(** ** Endpoints *)

Lemma request_answered_witness :
  ∃ t' w' out ea er eb,
    run demo_env (_handle_message demo_parse demo_invalid echo_runtime echo_event demo_tracker)
      start_world = (Ok t', w') ∧
    w_log w' = [ea; er; eb] ∧
    is_result echo_runtime er (result_for echo_runtime echo_request (Ok out)) echo_event ∧
    is_audit eb echo_event aud_completed (Some 7) None.
Proof.
  destruct (request_answered demo_parse demo_invalid echo_runtime echo_valid demo_env echo_event
              echo_event echo_request demo_tracker start_world demo_acks eq_refl eq_refl)
    as (t' & w' & Hrun & Hv).
  destruct Hv as (ea & w1 & Hx1 & _ & er & eb & Hx2 & Her & Heb).
  exists t', w', (tr_input echo_request), ea, er, eb. split; [exact Hrun|].
  split; [|by split]. rewrite (ext_log _ _ _ Hx2), (ext_log _ _ _ Hx1). reflexivity.
Defined.

Lemma echo_leaves_no_mark : leave_no_mark echo_runtime demo_env.
Proof.
  intros c h req u w Hin. apply list_elem_of_singleton in Hin. by injection Hin as -> ->.
Qed.

(** The request is delivered three times; the handler runs once. *)
Lemma task_performed_at_most_once_witness :
  let w' := snd (run demo_env (serve_loop demo_parse demo_invalid (observed echo_runtime)
                    [echo_event; echo_event; echo_event] demo_tracker) start_world) in
  signatures 7 w' = 1%nat ∧ (signatures 7 w' <= signatures 7 start_world + 1)%nat.
Proof.
  split; [vm_compute; reflexivity|].
  apply (task_performed_at_most_once demo_parse demo_invalid echo_runtime echo_valid demo_env
           echo_leaves_no_mark [7] [echo_event; echo_event; echo_event] demo_tracker start_world 7
           demo_tracker_ok).
  split; [exact one_fits|]. split; [by intros u ?%not_elem_of_nil|].
  intros raw e req Hin [= <-] Hp.
  assert (raw = echo_event) as -> by (repeat (apply elem_of_cons in Hin as [->|Hin]; [done|]);
                                      by apply not_elem_of_nil in Hin).
  injection Hp as <-. by left.
Defined.

(** A payload whose task id is no UUID stops the endpoint. *)
Definition poison : EventEnvelope :=
  envelope_in 201 5 "agent.sample.v1" (P_Other (VDict [("task_id", VStr "task-1")])).

Lemma endpoint_survives_iff_witness :
  ¬ is_ok (fst (run demo_env (serve_loop demo_parse demo_invalid echo_runtime [echo_event; poison]
                                demo_tracker) start_world)).
Proof.
  rewrite (endpoint_survives_iff demo_parse demo_invalid echo_runtime echo_valid demo_env
             [echo_event; poison] demo_tracker start_world).
  vm_compute. discriminate.
Defined.

(** ** The consumer *)

Definition demo_publisher : AgentIdentity := risk_identity.

Definition ok_handler (e : EventEnvelope) : prog unit := Ret tt.

Lemma consumer_survives_witness :
  ∃ t' ds w', run demo_env (consume_loop demo_parse (Some demo_publisher) ok_handler
                              [ticket_event; ticket_event] (Some demo_tracker)) start_world =
              (Ok (Some t', ds), w') ∧ length ds = 2%nat.
Proof.
  exact (consumer_survives demo_parse demo_publisher echo_valid ok_handler demo_env
           [ticket_event; ticket_event] demo_tracker start_world).
Defined.

Lemma consumer_survives_run messages :
  ∃ t' ds w', run demo_env (consume_loop demo_parse (Some demo_publisher) ok_handler
                              messages (Some demo_tracker)) start_world = (Ok (Some t', ds), w').
Proof.
  rewrite (run_loop demo_parse demo_publisher echo_valid ok_handler demo_env).
  destruct (steps _ _ _ _ _ _ _) as [[t' ds] w']. by exists t', ds, w'.
Qed.

Lemma handled_at_most_once_witness :
  match fst (run demo_env (consume_loop demo_parse (Some demo_publisher) ok_handler
                             [ticket_event; ticket_event] (Some demo_tracker)) start_world) with
  | Ok (_, ds) => ds !! 0%nat = Some Handled → ∀ d, ds !! 1%nat = Some d → d = Skipped
  | Err _ => False
  end.
Proof.
  destruct (consumer_survives_run [ticket_event; ticket_event]) as (t' & ds & w' & Hrun).
  rewrite Hrun. cbn [fst]. intros H0 d H1.
  destruct (handled_at_most_once demo_parse demo_publisher echo_valid ok_handler demo_env [100]
              [ticket_event; ticket_event] demo_tracker start_world t' ds w' 100 demo_tracker_ok)
    as [_ Hskip]; [|exact Hrun|].
  - split; [exact one_fits|]. split; [by intros u ?%not_elem_of_nil|].
    intros raw e Hin [= <-].
    assert (raw = ticket_event) as -> by (repeat (apply elem_of_cons in Hin as [->|Hin]; [done|]);
                                          by apply not_elem_of_nil in Hin).
    by left.
  - apply (Hskip 0%nat 1%nat ticket_event ticket_event d);
      [lia|reflexivity|reflexivity|exact H0|reflexivity|reflexivity|exact H1].
Defined.

Lemma message_audited_witness :
  ∃ t' w' a, run demo_env (consume_message demo_parse (Some demo_publisher) ok_handler ticket_event
                             (Some demo_tracker)) start_world = (Ok (Some t', Handled), w') ∧
    w_log w' = [(TOPIC_AUDIT, a)] ∧ audits a ticket_event accepted None.
Proof.
  destruct (run demo_env (consume_message demo_parse (Some demo_publisher) ok_handler ticket_event
                            (Some demo_tracker)) start_world) as [o w'] eqn:Hrun.
  assert (Ho : ∃ t', o = Ok (Some t', Handled)).
  { apply (f_equal fst) in Hrun. cbn [fst] in Hrun. subst o. vm_compute. by eexists. }
  destruct Ho as [t' ->].
  pose proof (message_audited demo_parse demo_publisher echo_valid ok_handler demo_env ticket_event
                demo_tracker start_world t' Handled w' demo_acks Hrun) as H.
  destruct H as (_ & _ & a & Hl & Ha). exists t', w', a. split; [done|]. split; [exact Hl|exact Ha].
Defined.

(** ** The LLM runtime *)

#[local] Instance demo_schema : Schema string := {|
  model_json_schema := [("type", VStr "string")];
  model_validate v := match v with VStr s => Ok s | _ => Err (ValidationError "string") end;
  model_dump s := [("text", VStr s)] |}.

Definition demo_assist : AssistiveRequest string := {|
  ar_task_kind := kind_summarize_reasoning; ar_agent_id := "risk-fraud-agent";
  ar_correlation_id := 5; ar_causation_id := 7; ar_instructions := "Summarise.";
  ar_grounding_inputs := [("risk_level", VStr "low")]; ar_examples := None; ar_idempotency_key := "k";
  ar_fallback := Ok "deterministic" |}.

Definition demo_profile : ModelProfile := classify_profile.


Lemma provider_failure_falls_back_witness :
  ∃ r w', run demo_env (reason true true demo_profile demo_assist new_store) start_world =
            (Ok (r, new_store), w') ∧
    res_value r = Instance_ "deterministic" ∧ res_reasoning_path r = path_fallback ∧
    res_failure_reason r = Some timeout.
Proof.
  apply (provider_failure_falls_back true true demo_profile demo_env demo_assist new_store
           start_world "deterministic"); [reflexivity|reflexivity|discriminate].
Defined.

#[local] Instance demo_drafting : Drafting := {|
  drafting_prompting := demo_prompting;
  draft_json_schema := [("title", VStr "ResponseDraft")];
  draft_fields v := match v with
                    | VStr s => Ok {| rd_subject := "Re"; rd_body := s; rd_response_type := "direct_answer";
                                      rd_requires_human_approval := false |}
                    | _ => Err (ValidationError "Field required")
                    end;
  draft_dump _ := [];
  draft_profile := with_max_tokens 512 _DEFAULT_PROFILE |}.


(** ** The trace and the views *)

Lemma trace_is_causal_order_witness :
  ∃ steps reached orphans, trace_case 5 [ticket_event; echo_event; ticket_event] = Some steps ∧
    steps = enumerate_steps 5 [ticket_event; echo_event; ticket_event] 1 (reached ++ orphans) ∧
    NoDup (map env_event_id reached).
Proof.
  destruct (trace_order_spec 5 [ticket_event; echo_event; ticket_event]) as (l1 & l2 & Hl & _).
  assert (Ht : trace_case 5 [ticket_event; echo_event; ticket_event] =
               Some (enumerate_steps 5 [ticket_event; echo_event; ticket_event] 1 (l1 ++ l2)))
    by (unfold trace_case; by rewrite Hl).
  destruct (trace_is_causal_order 5 _ _ Ht) as (reached & orphans & Hs & _ & Hn & _).
  by exists (enumerate_steps 5 [ticket_event; echo_event; ticket_event] 1 (l1 ++ l2)), reached, orphans.
Defined.

Definition demo_audits : list AuditRecord :=
  [ {| aud_original_envelope := echo_event; aud_outcome := accepted; aud_reason := None;
       aud_recorded_at := 1; aud_task_id := Some 7 |};
    {| aud_original_envelope := ticket_event; aud_outcome := accepted; aud_reason := None;
       aud_recorded_at := 2; aud_task_id := None |};
    {| aud_original_envelope := echo_event; aud_outcome := aud_completed; aud_reason := None;
       aud_recorded_at := 3; aud_task_id := Some 7 |} ].

Lemma timeline_shows_latest_witness :
  ∃ v rs, build_timeline 5 (Ok demo_audits) = Some v ∧
    map entry_view (tv_entries v) = map record_view rs ∧ NoDup (map record_event rs).
Proof.
  destruct (build_timeline 5 (Ok demo_audits)) as [v|] eqn:Hb; [|by vm_compute in Hb].
  destruct (timeline_shows_latest 5 demo_audits v Hb) as (_ & _ & rs & Hv & Hn & _).
  - set (l := timeline_envelopes _).
    assert (Hall : Forall (λ e, Forall (λ e', envelope_key e = envelope_key e' →
                                      env_event_id e = env_event_id e') l) l)
      by (vm_compute; repeat constructor; intros; congruence).
    intros e e' He He'. rewrite list.Forall_forall in Hall. specialize (Hall e He).
    rewrite list.Forall_forall in Hall. by apply Hall.
  - by exists v, rs.
Defined.

Lemma trigger_publishes_one_root_witness :
  ∃ e w', run demo_env (publish_demo_ticket {| dt_amount := lit 2999 100; dt_currency := "USD";
            dt_reason := "Charged twice"; dt_ticket_id := None; dt_customer_id := Some "CUST-1" |})
            start_world = (Ok (env_correlation_id e, env_event_id e, TICKET_CREATED), w') ∧
    w_log w' = [(TICKET_CREATED, e)] ∧ env_causation_id e = None.
Proof.
  destruct (trigger_publishes_one_root demo_env {| dt_amount := lit 2999 100; dt_currency := "USD";
    dt_reason := "Charged twice"; dt_ticket_id := None; dt_customer_id := Some "CUST-1" |}
    start_world demo_acks) as (e & t & w' & Hr & Hx & _ & Hc & _).
  exists e, w'. split; [exact Hr|]. split; [exact (ext_log _ _ _ Hx)|exact Hc].
Defined.

(** ** The client *)

(** The first attempt times out; the second finds the answer. *)
Definition demo_polls (n : nat) : list (Poll EventEnvelope) :=
  match n with
  | O => [ {| poll_top := 0; poll_message := None; poll_after := 50 |} ]
  | _ => [ {| poll_top := 60; poll_message := Some billing_rejected_event; poll_after := 61 |} ]
  end.

Lemma failed_submission_is_repeated_witness :
  ∃ e1 e2 w', run demo_env
      (submit demo_parse "0.00005" demo_polls (λ n, match n with O => 0 | _ => 60 end) risk_identity
         50 true BILLING_PEER_AGENT_ID BILLING_CAPABILITY_ID (tr_input echo_request)
         (Some 5) (Some 100) (Some 51)) start_world =
    (match env_payload billing_rejected_event with
     | P_TaskResult r => Ok (Some r) | _ => Ok None end, w') ∧
    w_log w' = [(endpoint_topic BILLING_PEER_AGENT_ID, e1);
                (endpoint_topic BILLING_PEER_AGENT_ID, e2)] ∧
    env_payload e1 = env_payload e2.
Proof.
  pose proof (failed_submission_is_repeated demo_parse "0.00005" demo_polls
    (λ n, match n with O => 0 | _ => 60 end) risk_identity 50 demo_env demo_acks echo_valid
    BILLING_PEER_AGENT_ID BILLING_CAPABILITY_ID (tr_input echo_request) 5 100 51 start_world) as H.
  cbv zeta in H. destruct (run demo_env (submit _ _ _ _ _ _ _ _ _ _ _ _ _) start_world) as [o w'].
  destruct H as [Hl Ho]. cbn [fst snd] in Hl, Ho.
  eexists _, _, w'. split; [by rewrite Ho|]. split; [exact Hl|reflexivity].
Defined.

(** ** The reaper *)

Lemma sweep_decides_timed_out_witness :
  ∃ w', run demo_env (reaper_sweep 116) (mk_world demo_due 116 0 []) = (Ok tt, w') ∧
    length (w_log w') = 3%nat ∧
    (rc_status <$> cs_cases (w_store w') !! (7 : UUID)) = Some DECIDED.
Proof.
  destruct (sweep_decides_timed_out demo_env demo_acks 116 (mk_world demo_due 116 0 []))
    as (w' & Hr & _ & _ & _ & (new & Hlog & Hlen) & Hreap).
  { apply steps_wf. eapply rtc_r; [apply demo_reach|apply step_deadline]. }
  assert (Hdue : list_timed_out_cases demo_due 116 = [7]) by (vm_compute; reflexivity).
  cbn [w_store] in *. rewrite Hdue in Hlen, Hreap.
  exists w'. split; [exact Hr|]. split; [rewrite Hlog; exact Hlen|].
  destruct (Hreap 7) as (case & case' & d & cause & log & log' & rest & _ & Hc & Hs & _); [by left|].
  rewrite Hc. cbn. by rewrite Hs.
Defined.

(** ** The whole workflow *)

#[local] Instance risk_schema : Schema RiskNarrative := {|
  model_json_schema := []; model_validate _ := Err (ValidationError "Field required");
  model_dump _ := [] |}.
#[local] Instance billing_schema : Schema BillingNarrative := {|
  model_json_schema := []; model_validate _ := Err (ValidationError "Field required");
  model_dump _ := [] |}.

(** The requests, as pydantic parses them from the data part. *)
Definition parse_case_id (d : list (string * pyval)) : result UUID :=
  match dict_get "case_id" d with
  | Some (VStr s) => parse_uuid s
  | _ => Err (ValidationError "case_id")
  end.

Definition demo_validate_risk (d : list (string * pyval)) : result RiskAssessmentRequest :=
  u ← parse_case_id d;
  match dict_get "customer_id" d with
  | Some (VStr c) => Ok {|
      rar_case_id := u; rar_ticket_id := "T-1"; rar_customer_id := c;
      rar_requested_refund_amount := None; rar_customer_message_summary := None;
      rar_account_age_days := None |}
  | _ => Err (ValidationError "customer_id")
  end.

Definition demo_validate_billing (d : list (string * pyval)) : result RefundEligibilityRequest :=
  u ← parse_case_id d;
  match dict_get "purchase_reference" d with
  | Some (VStr ref) => Ok {|
      rer_case_id := u; rer_ticket_id := "T-1"; rer_customer_id := "C-1";
      rer_requested_refund_amount := lit 4999 100; rer_purchase_reference := ref;
      rer_customer_message_summary := None; rer_policy_context := None |}
  | _ => Err (ValidationError "purchase_reference")
  end.

Definition demo_facts : SeededFacts := {| seeded_at := 0 |}.

Lemma demo_request_accepted :
  ∃ breq, demo_validate_billing
      (billing_input_data (billing_question 5 (sample_ticket "please refund me"))) = Ok breq ∧
    rer_case_id breq = 5 ∧ amounts_known demo_facts breq.
Proof.
  eexists. split; [vm_compute; reflexivity|]. split; [reflexivity|].
  intros facts p Hf. vm_compute in Hf. discriminate Hf.
Qed.

Lemma demo_registered capability handler identity card :
  str_in capability (rt_capability_ids (new_runtime identity card)) = true →
  ∃ rt, register capability handler (new_runtime identity card) = Ok rt.
Proof. intros H. unfold register. rewrite H. by eexists. Qed.

Lemma refund_workflow_delivers_witness :
  ∃ w1 case qb qr,
    run demo_env (demo_intake ticket_event) start_world = (Ok tt, w1) ∧ holds 5 case w1 ∧
    ∃ rtb rtr tb' tr' w2 w3 w4 w5 vb vr,
      run demo_env (_handle_message demo_parse demo_invalid rtb qb demo_tracker) w1 = (Ok tb', w2) ∧
      run demo_env (_handle_message demo_parse demo_invalid rtr qr demo_tracker) w2 = (Ok tr', w3) ∧
      run demo_env (billing_result_handler vb) w3 = (Ok tt, w4) ∧
      run demo_env (risk_result_handler vr) w4 = (Ok tt, w5) ∧
      decisions 5 (w_log w5) = 1%nat.
Proof.
  destruct (demo_registered "analyze_refund_eligibility"
              (handle_eligibility demo_validate_billing demo_facts false demo_profile)
              billing_identity billing_agent_card eq_refl) as [rtb Hb].
  destruct (demo_registered "assess_fraud_risk"
              (handle_risk demo_validate_risk default_store false demo_profile)
              risk_identity risk_agent_card eq_refl) as [rtr Hr].
  destruct demo_request_accepted as (breq & Hbreq & Hcase & Hamounts).
  destruct (refund_workflow_delivers demo_env REFUND_INTENT_SIGNALS false demo_cards demo_discovery
    demo_validate_risk demo_validate_billing default_store demo_facts false false demo_profile
    demo_profile demo_parse demo_invalid demo_acks ticket_event (sample_ticket "please refund me")
    start_world rtb rtr breq
    {| rar_case_id := 5; rar_ticket_id := "T-1"; rar_customer_id := "C-1";
       rar_requested_refund_amount := None; rar_customer_message_summary := None;
       rar_account_age_days := None |} demo_tracker demo_tracker)
    as (w1 & case & qb & qr & H1 & Hh & _ & _ & Hrest).
  - exact demo_billing_found.
  - exact demo_risk_found.
  - reflexivity.
  - by split.
  - vm_compute. done.
  - intros t [t' _ Ht|? ? ? Hf|? ? ? ? Hf|? ? ? Hf]; [|discriminate Hf..].
    vm_compute in Ht. by injection Ht as <-.
  - vm_compute. reflexivity.
  - reflexivity.
  - exact Hbreq.
  - exact Hcase.
  - exact Hamounts.
  - exact Hb.
  - exact Hr.
  - reflexivity.
  - reflexivity.
  - destruct (Hrest qb qr eq_refl eq_refl) as (tb' & tr' & w2 & w3 & w4 & w5 & vb & vr & pb & pr &
      now & rec & facts & H2 & H3 & _ & _ & _ & _ & _ & _ & _ & H4 & H5 & _ & Hd).
    exists w1, case, qb, qr. split; [exact H1|]. split; [exact Hh|].
    exists rtb, rtr, tb', tr', w2, w3, w4, w5, vb, vr.
    split_and!; [exact H2|exact H3|exact H4|exact H5|]. etrans; [exact Hd|reflexivity].
Defined.
