(* ===== verification/ServiceWitnesses.v ===== *)
(** * The resolution service at concrete inputs

    A scheduler that resumes the threads of a loop in a given order, each await answered by
    an environment, and three runs of the whole service: a ticket decided once, a service
    that one malformed request takes down, and a refund approved on the seeded data. *)

From Stdlib Require Import ZArith Bool Ascii String List Lia.
From stdpp Require Import base list strings gmap relations.
From S2P Require Import Prelude.
From S2P Require Import PyFloat.
From S2P Require Import Contracts.
From S2P Require Import A2A.
From S2P Require Import RiskModels.
From S2P Require Import RiskStore.
From S2P Require Import RiskScoring.
From S2P Require Import RiskService.
From S2P Require Import RiskServiceFacts.
From S2P Require Import BillingModels.
From S2P Require Import BillingRules.
From S2P Require Import BillingStore.
From S2P Require Import BillingService.
From S2P Require Import BillingFacts.
From S2P Require Import Envelope.
From S2P Require Import CaseModels.
From S2P Require Import Classifier.
From S2P Require Import DecisionFacts.
From S2P Require Import StateStore.
From S2P Require Import Async.
From S2P Require Import Handlers.
From S2P Require Import DecisionBudget.
From S2P Require Import Scenarios.
From S2P Require Import Witnesses.
From S2P Require Import PlatformWitnesses.
From S2P Require Import Reaper.
From S2P Require Import Service.
From S2P Require Import Provenance.

Open Scope string_scope.
Open Scope list_scope.
Open Scope Z_scope.

#[local] Existing Instance demo_uuids.
#[local] Existing Instance demo_assistant.

(** ** The scheduler *)

Definition resume (env : Environment) (i : nat) (l : Loop) : option Loop :=
  match l_threads l !! i with
  | Some (Await q k) =>
      let r := env _ q (l_world l) in
      let '(p', w') := advance (k r) (effect q r (l_world l)) in
      Some (mk_loop (<[i := p']> (l_threads l)) w')
  | _ => None
  end.

Fixpoint schedule (env : Environment) (order : list nat) (l : Loop) : option Loop :=
  match order with
  | [] => Some l
  | i :: order => l' ← resume env i l; schedule env order l'
  end.

Lemma resume_sound starts env i l l' : resume env i l = Some l' → loop_step starts l l'.
Proof.
  destruct l as [ts w]. unfold resume. cbn. destruct (ts !! i) as [[| | |R q k]|] eqn:Hi; try discriminate.
  destruct (advance _ _) as [p' w'] eqn:Ha. intros [= <-]. by eapply step_resume.
Qed.

Lemma schedule_sound starts env order l l' :
  schedule env order l = Some l' → rtc (loop_step starts) l l'.
Proof.
  revert l. induction order as [|i order IH]; intros l; cbn; [intros [= ->]; apply rtc_refl|].
  destruct (resume env i l) as [l1|] eqn:E; [|discriminate]. cbn. intros H.
  eapply rtc_l; [by eapply resume_sound|by apply IH].
Qed.

(** ** A ticket through the service *)

Definition no_environ : string → option string := λ _, None.

Definition service_event (id : UUID) (et : string) (p : EventPayload) : EventEnvelope := {|
  env_event_id := id; env_correlation_id := 5; env_causation_id := Some 100;
  env_agent_id := "sender"; env_tenant_id := "poc"; env_timestamp := 0;
  env_event_type := et; env_schema_version := "1.0.0"; env_payload := p |}.

Definition demo_deliveries : Deliveries EventEnvelope := {|
  d_endpoint := []; d_tickets := [ticket_event]; d_task_results := [];
  d_billing := [billing_result_event "approve_full_refund"];
  d_risk := [risk_result_event "low"]; d_turns := 1; d_pauses := 1 |}.

Definition demo_service (d : Deliveries EventEnvelope) : Loop :=
  service_loop REFUND_INTENT_SIGNALS false (λ _, None) (λ _, None) demo_parse demo_invalid
    no_environ true REAPER_TICK_SECONDS d start_world.

(** The intake runs to its end, then the billing and the risk consumer. *)
Definition ticket_order : list nat := replicate 12 1%nat ++ replicate 5 3%nat ++ replicate 9 4%nat.

Definition ticket_run : option Loop := schedule demo_env ticket_order (demo_service demo_deliveries).

Lemma ticket_run_ends :
  (λ l, (decisions 5 (w_log (l_world l)), closed 5 (l_world l))) <$> ticket_run = Some (1, 1)%nat.
Proof. vm_compute. reflexivity. Qed.

Lemma start_world_ok : world_ok start_world.
Proof. constructor; intros ? ?; cbn; by rewrite lookup_empty. Qed.

(** The case is decided once, within the bound of four. *)
Lemma service_decisions_bounded_witness :
  ∃ l, rtc (loop_step nothing_else) (demo_service demo_deliveries) l ∧
    store_ok (w_store (l_world l)) ∧
    decisions 5 (w_log (l_world l)) = 1%nat ∧ (decisions 5 (w_log (l_world l)) <= 4)%nat.
Proof.
  pose proof ticket_run_ends as Hends. destruct ticket_run as [l|] eqn:E; [|discriminate Hends].
  cbn [fmap option_fmap option_map] in Hends. injection Hends as Hd Hc.
  exists l. assert (Hr : rtc (loop_step nothing_else) (demo_service demo_deliveries) l).
  { by eapply schedule_sound. }
  destruct (service_decisions_bounded REFUND_INTENT_SIGNALS false (λ _, None) (λ _, None) demo_parse
    demo_invalid no_environ true REAPER_TICK_SECONDS 5 demo_deliveries start_world l start_world_ok Hr)
    as [Hok Hb].
  split; [exact Hr|]. split; [exact Hok|]. split; [exact Hd|].
  rewrite Hc in Hb. change (decisions 5 (w_log start_world)) with 0%nat in Hb.
  change (ticket_deliveries demo_parse 5 demo_deliveries) with 1%nat in Hb. lia.
Defined.

(** ** One malformed request *)

(** An envelope on the endpoint's topic whose payload is no task request and whose
    [task_id] is no UUID. *)
Definition bad_request : EventEnvelope :=
  service_event 300 "agent.task_request.v1" (P_Other (VDict [("task_id", VStr "nope")])).

Definition poisoned : Deliveries EventEnvelope := {|
  d_endpoint := [bad_request]; d_tickets := [ticket_event]; d_task_results := [];
  d_billing := []; d_risk := []; d_turns := 1; d_pauses := 1 |}.

Definition poisoned_run : option Loop := schedule demo_env (replicate 8 0%nat) (demo_service poisoned).

(** No life-cycle call is refused. *)
Definition no_refusal : nat → exn → Prop := λ _ _, False.

Lemma schedule_served refused (env : Environment) order l l' :
  (∀ call w, env _ (Wire call) w = Ok tt) →
  schedule env order l = Some l' → rtc (served_step refused) l l'.
Proof.
  intros Hwire. revert l. induction order as [|i order IH]; intros l; cbn; [intros [= ->]; apply rtc_refl|].
  destruct (resume env i l) as [l1|] eqn:E; [|discriminate]. cbn. intros H.
  eapply rtc_l; [|by apply IH]. destruct l as [ts w]. unfold resume in E. cbn in E.
  destruct (ts !! i) as [[| | |R q k]|] eqn:Hi; try discriminate.
  destruct (advance _ _) as [p' w'] eqn:Ha. injection E as <-.
  eapply served_resume; [exact Hi| |exact Ha]. destruct q; try done. cbn. by rewrite Hwire.
Qed.

Lemma poisoned_run_ends :
  (λ l, (match l_threads l !! 0%nat with Some (Raise _) => true | _ => false end,
         bool_decide (length (l_threads l) = 8%nat))) <$> poisoned_run = Some (true, true).
Proof. vm_compute. reflexivity. Qed.

(** The request ends the endpoint with an exception, and so the service. *)
Lemma service_failures_attributed_witness :
  ∃ l i e, rtc (served_step no_refusal) (demo_service poisoned) l ∧
    l_threads l !! i = Some (Raise e) ∧ i = 0%nat.
Proof.
  pose proof poisoned_run_ends as Hends. destruct poisoned_run as [l|] eqn:E; [|discriminate Hends].
  cbn [fmap option_fmap option_map] in Hends. injection Hends as Hd _.
  assert (Hr : rtc (served_step no_refusal) (demo_service poisoned) l)
    by exact (schedule_served no_refusal demo_env _ _ _ (λ _ _, eq_refl) E).
  destruct (l_threads l !! 0%nat) as [[| e| |]|] eqn:Hi; try discriminate.
  exists l, 0%nat, e. split; [exact Hr|]. split; [exact Hi|].
  apply (service_failures_attributed REFUND_INTENT_SIGNALS false (λ _, None) (λ _, None) demo_parse
    demo_invalid no_environ true REAPER_TICK_SECONDS no_refusal poisoned start_world l 0 e Hr Hi).
  intros j e' [].
Defined.

(** A broker that refuses the intake's consumer its start. *)
Definition refusing_env : Environment := λ R q w,
  match q in Query R return R → R with
  | Wire ConsumerStart => λ _, Err (IOError "start failed")
  | _ => λ r, r
  end (demo_env R q w).

Definition refused_run : option Loop := schedule refusing_env [1; 1; 1]%nat (demo_service demo_deliveries).

Lemma refused_run_ends :
  (λ l, match l_threads l !! 1%nat with Some (Raise (IOError m)) => Some m | _ => None end) <$> refused_run =
  Some (Some "start failed").
Proof. vm_compute. reflexivity. Qed.

(** Remark (error): a refused start of one consumer takes the whole service down. *)
Theorem refused_start_ends_service :
  ∃ l, rtc (loop_step nothing_else) (demo_service demo_deliveries) l ∧
    l_threads l !! 1%nat = Some (Raise (IOError "start failed")).
Proof.
  pose proof refused_run_ends as Hends. destruct refused_run as [l|] eqn:E; [|discriminate Hends].
  cbn [fmap option_fmap option_map] in Hends. exists l. split; [by eapply schedule_sound|].
  destruct (l_threads l !! 1%nat) as [[|[]| |]|]; try discriminate Hends. by injection Hends as ->.
Qed.

(** ** An approved refund *)

(** A ticket of case 1, and what the two agents publish for the seeded purchase and
    customer. *)
Definition owed_billing : BillingRefundAnalysisCompletedPayload :=
  match build_result_payload (sample_billing_request "PR-APPROVE" "")
          (recommendation_at 0 "PR-APPROVE") (Some (facts_of "PR-APPROVE")) None with
  | Ok p => p
  | Err _ => Scenarios.demo_billing ""
  end.

Definition owed_risk : RiskReviewCompletedPayload :=
  match to_result_payload (assessment_of "CUS-CLEAN") (sample_request "CUS-CLEAN" None) None with
  | Ok p => p
  | Err _ => Scenarios.demo_risk ""
  end.

Definition owed_deliveries : Deliveries EventEnvelope := {|
  d_endpoint := [];
  d_tickets := [envelope_in 100 1 TICKET_CREATED (P_Ticket (sample_ticket "please refund me"))];
  d_task_results := [];
  d_billing := [envelope_in 101 1 TOPIC_BILLING_RESULT (P_BillingResult owed_billing)];
  d_risk := [envelope_in 102 1 TOPIC_RISK_RESULT (P_RiskResult owed_risk)];
  d_turns := 1; d_pauses := 1 |}.

Definition owed_run : option Loop := schedule demo_env ticket_order (demo_service owed_deliveries).

Definition approves (te : string * EventEnvelope) : bool :=
  match env_payload (snd te) with
  | P_Decision p => bool_decide (crd_outcome p = APPROVE_REFUND)
  | _ => false
  end.

Lemma owed_run_approves : existsb approves <$> (w_log ∘ l_world <$> owed_run) = Some true.
Proof. vm_compute. reflexivity. Qed.

(** The run and its approval. *)
Lemma owed_approval :
  ∃ l topic e p, rtc (loop_step nothing_else) (demo_service owed_deliveries) l ∧
    (topic, e) ∈ w_log (l_world l) ∧ env_payload e = P_Decision p ∧ crd_outcome p = APPROVE_REFUND.
Proof.
  pose proof owed_run_approves as Hends. destruct owed_run as [l|] eqn:E; [|discriminate Hends].
  cbn [fmap option_fmap option_map] in Hends. injection Hends as Hex.
  apply existsb_exists in Hex as ([topic e] & Hin & Ha). unfold approves in Ha. cbn [snd] in Ha.
  destruct (env_payload e) as [| | | | | | |p| | | | | |] eqn:Hp; try discriminate Ha.
  apply bool_decide_eq_true in Ha. exists l, topic, e, p. split_and!; [|by apply list_elem_of_In|done..].
  by eapply schedule_sound.
Qed.

Lemma decisions_rest_on_results_witness :
  ∃ l topic e p, rtc (loop_step nothing_else) (demo_service owed_deliveries) l ∧
    (topic, e) ∈ w_log (l_world l) ∧ env_payload e = P_Decision p ∧ crd_outcome p = APPROVE_REFUND ∧
    backed (delivered_in demo_parse (d_billing owed_deliveries))
      (delivered_in demo_parse (d_risk owed_deliveries)) e.
Proof.
  destruct owed_approval as (l & topic & e & p & Hr & Hin & Hp & Ho).
  exists l, topic, e, p. split; [exact Hr|]. split; [exact Hin|]. split; [exact Hp|]. split; [exact Ho|].
  exact (decisions_rest_on_results REFUND_INTENT_SIGNALS false (λ _, None) (λ _, None) demo_parse
    demo_invalid no_environ true REAPER_TICK_SECONDS owed_deliveries 0 0 l topic e Hr Hin).
Defined.

(** The two agents do publish these results. *)
Lemma owed_billing_published : billing_publishes validate_sample_billing {| seeded_at := 0 |} 1 owed_billing.
Proof.
  exists 0, [data_part [("purchase_reference", VStr "PR-APPROVE")]],
    (sample_billing_request "PR-APPROVE" ""), (recommendation_at 0 "PR-APPROVE"),
    (Some (facts_of "PR-APPROVE")), None.
  split_and!; vm_compute; reflexivity.
Qed.

Lemma owed_risk_published : risk_publishes validate_sample default_store 1 owed_risk.
Proof.
  exists [data_part [("customer_id", VStr "CUS-CLEAN")]], (assessment_of "CUS-CLEAN"),
    (sample_request "CUS-CLEAN" None), None.
  split_and!; vm_compute; reflexivity.
Qed.

Lemma only_message (m e : EventEnvelope) : delivered_in demo_parse [m] e → e = m.
Proof. intros (raw & Hraw & He). apply list_elem_of_singleton in Hraw as ->. by injection He. Qed.

Lemma billing_payload_inj a b : P_BillingResult a = P_BillingResult b → a = b.
Proof. congruence. Qed.

Lemma risk_payload_inj a b : P_RiskResult a = P_RiskResult b → a = b.
Proof. congruence. Qed.

Lemma owed_peers_only :
  peers_only demo_parse validate_sample_billing validate_sample {| seeded_at := 0 |} default_store
    owed_deliveries.
Proof.
  split; intros e p He Hp; apply only_message in He as ->.
  - apply billing_payload_inj in Hp as <-. exact owed_billing_published.
  - apply risk_payload_inj in Hp as <-. exact owed_risk_published.
Qed.

Lemma approved_refund_is_owed_witness :
  ∃ l topic e p, rtc (loop_step nothing_else) (demo_service owed_deliveries) l ∧
    (topic, e) ∈ w_log (l_world l) ∧ env_payload e = P_Decision p ∧ crd_outcome p = APPROVE_REFUND ∧
    refund_owed {| seeded_at := 0 |} default_store (env_correlation_id e).
Proof.
  destruct owed_approval as (l & topic & e & p & Hr & Hin & Hp & Ho).
  exists l, topic, e, p. split; [exact Hr|]. split; [exact Hin|]. split; [exact Hp|]. split; [exact Ho|].
  exact (approved_refund_is_owed REFUND_INTENT_SIGNALS false (λ _, None) (λ _, None) demo_parse
    demo_invalid no_environ true REAPER_TICK_SECONDS validate_sample_billing validate_sample
    {| seeded_at := 0 |} default_store owed_deliveries 0 0 l topic e p owed_peers_only Hr Hin Hp Ho).
Defined.
