(* ===== verification/DemoWitnesses.v ===== *)
(** * The demo, the entry points and the card topic at concrete inputs

    The scenarios of the trigger page submitted on a fresh world, one request through the
    risk agent's three entry points, and a compacted card topic. *)

From Stdlib Require Import ZArith Bool Ascii String List Lia.
From stdpp Require Import base list strings gmap.
From S2P Require Import Prelude.
From S2P Require Import PyFloat.
From S2P Require Import Contracts.
From S2P Require Import Uuid.
From S2P Require Import Llm.
From S2P Require Import A2A.
From S2P Require Import RiskModels.
From S2P Require Import RiskStore.
From S2P Require Import RiskService.
From S2P Require Import RiskServiceFacts.
From S2P Require Import BillingModels.
From S2P Require Import BillingStore.
From S2P Require Import BillingService.
From S2P Require Import CaseModels.
From S2P Require Import Classifier.
From S2P Require Import DecisionFacts.
From S2P Require Import Envelope.
From S2P Require Import Async.
From S2P Require Import Handlers.
From S2P Require Import Normalize.
From S2P Require Import StateStore.
From S2P Require Import Choreography.
From S2P Require Import Peers.
From S2P Require Import Executors.
From S2P Require Import Scenarios.
From S2P Require Import Intake.
From S2P Require Import Witnesses.
From S2P Require Import PlatformWitnesses.
From S2P Require Import Views.
From S2P Require Import Pages.
From S2P Require Import DemoScenarios.
From S2P Require Import Topics.

Open Scope string_scope.
Open Scope list_scope.
Open Scope Z_scope.

#[local] Existing Instance demo_uuids.
#[local] Existing Instance demo_prompting.
#[local] Existing Instance risk_schema.

(** ** The scenarios *)

Definition scenario_label : string := "Approve — in window, paid, light usage".
Definition scenario_preset : list (string * string) :=
  [("ticket_id", "PR-APPROVE"); ("customer_id", "CUS-APPROVE")].

Definition scenario_request : DemoTriggerRequest := {|
  dt_amount := lit 2999 100; dt_currency := "USD"; dt_reason := "Charged twice for monthly subscription";
  dt_ticket_id := Some "PR-APPROVE"; dt_customer_id := Some "CUS-APPROVE" |}.

Definition scenario_ticket_payload : SupportTicketCreatedPayload := {|
  stc_ticket_id := "PR-APPROVE"; stc_customer_id := "CUS-APPROVE"; stc_amount := lit 2999 100;
  stc_currency := "USD"; stc_reason := "Charged twice for monthly subscription"; stc_created_at := 0 |}.

Lemma scenario_listed : (scenario_label, scenario_preset) ∈ _SCENARIOS.
Proof. right. left. Qed.

Lemma scenario_submitted : form_request (default_form scenario_preset) = Ok scenario_request.
Proof. vm_compute. reflexivity. Qed.

Lemma scenario_published :
  run demo_env (to_payload scenario_request) start_world = (Ok scenario_ticket_payload, start_world).
Proof. vm_compute. reflexivity. Qed.

Definition scenario_billing_request : RefundEligibilityRequest := {|
  rer_case_id := 5; rer_ticket_id := "PR-APPROVE"; rer_customer_id := "CUS-APPROVE";
  rer_requested_refund_amount := lit 2999 100; rer_purchase_reference := "PR-APPROVE";
  rer_customer_message_summary := None; rer_policy_context := None |}.

Definition scenario_risk_request : RiskAssessmentRequest := {|
  rar_case_id := 5; rar_ticket_id := "PR-APPROVE"; rar_customer_id := "CUS-APPROVE";
  rar_requested_refund_amount := Some {| dec_sign := false; dec_coef := 2999; dec_exponent := -2 |};
  rar_customer_message_summary := None; rar_account_age_days := None |}.

(** The billing agent approves the purchase of the scenario three days later. *)
Lemma scenario_labels_hold_witness :
  ∃ rec facts,
    analyze (λ _, Ok scenario_billing_request) {| seeded_at := 1000 |} (1000 + days 3)
      [data_part (billing_input_data (billing_question 5 scenario_ticket_payload))] =
    Ok (scenario_billing_request, rec, facts) ∧
    er_recommendation rec = APPROVE_FULL_REFUND.
Proof.
  destruct (scenario_labels_hold demo_env start_world start_world scenario_label scenario_preset
              scenario_request scenario_ticket_payload scenario_listed scenario_submitted
              scenario_published (λ _, Ok scenario_billing_request) 1000 (days 3) 5
              scenario_billing_request)
    as (rec & facts & Ha & Hr & _).
  - unfold days, microseconds_per_day. lia.
  - reflexivity.
  - reflexivity.
  - reflexivity.
  - exists rec, facts. split; [exact Ha|]. rewrite Hr. vm_compute. reflexivity.
Defined.

(** The case of that scenario, delegated to both peers. *)
Definition scenario_triage_of : Triage := triage_of "Charged twice for monthly subscription".
Definition scenario_case : ResolutionCase :=
  CaseModels.set_triage (Some scenario_triage_of) delegated_case.
Definition scenario_world : World :=
  set_store (update_case 5 (CaseModels.set_triage (Some scenario_triage_of)) (w_store delegated_world))
    delegated_world.

Lemma scenario_holds : holds 5 scenario_case scenario_world.
Proof. constructor; vm_compute; reflexivity. Qed.

Lemma scenario_awaiting : awaiting scenario_case 51 52.
Proof. constructor; vm_compute; try done; by split. Qed.

Lemma scenario_assessed :
  match assess (λ _, Ok scenario_risk_request) default_store
          [data_part (risk_input_data (risk_question 5 scenario_ticket_payload))] with
  | Ok (a, _) => in_unit (ra_confidence a)
  | Err _ => false
  end = true.
Proof. vm_compute. reflexivity. Qed.

(** And yet that case goes to a human, also with billing's approval. *)
Lemma no_scenario_decided_automatically_witness :
  ∃ a pr w1 w2, assess (λ _, Ok scenario_risk_request) default_store
         [data_part (risk_input_data (risk_question 5 scenario_ticket_payload))] =
       Ok (a, scenario_risk_request) ∧
    to_result_payload a scenario_risk_request None = Ok pr ∧
    run demo_env (billing_result_handler (billing_result_event "approve_full_refund")) scenario_world =
      (Ok tt, w1) ∧
    run demo_env (risk_result_handler (envelope_in 102 5 TOPIC_RISK_RESULT (P_RiskResult pr))) w1 =
      (Ok tt, w2) ∧
    escalated 5 scenario_world w2.
Proof.
  destruct (no_scenario_decided_automatically demo_env start_world start_world scenario_label scenario_preset
              scenario_request scenario_ticket_payload scenario_listed scenario_submitted
              scenario_published REFUND_INTENT_SIGNALS (λ _, Ok scenario_risk_request) 5
              scenario_risk_request {| dec_sign := false; dec_coef := 2999; dec_exponent := -2 |}
              scenario_triage_of)
    as (_ & a & Ha & Hr).
  - reflexivity.
  - reflexivity.
  - reflexivity.
  - vm_compute. reflexivity.
  - apply str_in_spec. reflexivity.
  - vm_compute. reflexivity.
  - destruct (to_result_payload a scenario_risk_request None) as [pr|e] eqn:Hpr.
    + destruct (Hr None pr demo_env scenario_world scenario_case 51 52
                  (billing_result_event "approve_full_refund")
                  (envelope_in 102 5 TOPIC_RISK_RESULT (P_RiskResult pr))
                  (demo_billing "approve_full_refund") Hpr demo_acks scenario_holds scenario_awaiting
                  eq_refl (conj eq_refl eq_refl) (conj eq_refl eq_refl))
        as [(w1 & w2 & H1 & H2 & H3) _].
      exists a, pr, w1, w2. split; [exact Ha|]. split; [exact Hpr|]. split; [exact H1|].
      split; [exact H2|exact H3].
    + exfalso. pose proof scenario_assessed as Hc. rewrite Ha in Hc.
      destruct (payload_delivered a scenario_risk_request None Hc) as (p & Hp & _). congruence.
Defined.

(** ** The entry points *)

Definition demo_parts : list A2APart := [data_part [("customer_id", VStr "CUS-CHARGEBACKS")]].

Definition demo_context : RequestContext := {|
  ctx_message := Some [TextPart "not JSON"; DataPart [("customer_id", VStr "CUS-CHARGEBACKS")]];
  ctx_current_task := false; ctx_new_task := Ok tt |}.

Definition demo_body : pyval :=
  VDict [("task_id", VStr "t-1"); ("input", VDict [("parts", VList [])])].

Definition demo_task : TaskRequest := {|
  tr_task_id := 7; tr_capability := "assess_fraud_risk";
  tr_requester_agent_id := "customer-resolution-agent"; tr_target_agent_id := RiskService.AGENT_ID;
  tr_input := {| msg_role := role_user; msg_parts := demo_parts; msg_task_id := None |} |}.

Definition not_json (s : string) : result pyval := Err (ValueError "Expecting value").

Definition chargeback_request : RiskAssessmentRequest := {|
  rar_case_id := 5; rar_ticket_id := "T-1"; rar_customer_id := "CUS-CHARGEBACKS";
  rar_requested_refund_amount := None; rar_customer_message_summary := None; rar_account_age_days := None |}.

Lemma risk_entry_points_agree_witness :
  ∃ a out w',
    assess (λ _, Ok chargeback_request) default_store demo_parts = Ok (a, chargeback_request) ∧
    run demo_env (handle_risk (λ _, Ok chargeback_request) default_store false demo_profile demo_task) start_world =
      (Ok out, w') ∧
    risk_execute not_json default_store (λ _, Ok chargeback_request) demo_context =
      ([Enqueued; ArtifactAdded (first_part_data out); TaskCompleted], None).
Proof.
  assert (Hp : posts (λ _, Ok demo_parts) demo_body (VStr "t-1") 1 (_input_parts not_json demo_context)).
  { split; [reflexivity|]. exists (VDict [("parts", VList [])]), (VList []). repeat split. }
  pose proof (risk_entry_points_agree (λ _, Ok chargeback_request) default_store demo_profile demo_env demo_acks
                not_json (λ _, Ok demo_parts) demo_context demo_body (VStr "t-1") 1 demo_task start_world
                (or_intror eq_refl) Hp eq_refl) as H.
  change (_input_parts not_json demo_context) with demo_parts in H.
  destruct (assess (λ _, Ok chargeback_request) default_store demo_parts) as [[a req]|e] eqn:Ha;
    [|exfalso; vm_compute in Ha; discriminate].
  assert (Hreq : snd <$> assess (λ _, Ok chargeback_request) default_store demo_parts = Ok chargeback_request)
    by (vm_compute; reflexivity).
  rewrite Ha in Hreq. cbn in Hreq. injection Hreq as ->.
  destruct H as (out & w' & _ & Hrun & _ & Hexec). exists a, out, w'. split_and!; [reflexivity|exact Hrun|exact Hexec].
Defined.

(** ** The card topic *)

Definition old_risk_card : AgentCard := peer_card RISK_PEER_AGENT_ID BILLING_CAPABILITY_ID.

Definition retired_card : AgentCard := peer_card "retired-agent" RISK_CAPABILITY_ID.

Definition retired_tombstone : CardRecord (result EventEnvelope) := {|
  rec_key := "retired-agent"; rec_value := Err (ValidationError "Invalid JSON") |}.

Definition card_log : list (CardRecord (result EventEnvelope)) :=
  map card_record [old_risk_card; retired_card; billing_card; risk_card] ++ [retired_tombstone].

Definition compacted_log : list (CardRecord (result EventEnvelope)) :=
  map card_record [billing_card; risk_card] ++ [retired_tombstone].

Definition scan_log (records : list (CardRecord (result EventEnvelope))) :
    CardScan (result EventEnvelope) := {|
  scan_start := Ok tt; scan_polls := [Ok [records]; Ok []]; scan_stop := Ok tt |}.

Lemma scan_delivers records : delivers (scan_log records) records.
Proof.
  split; [done|]. split; [done|]. exists [[records]], [Ok []]. split; [done|].
  split; [by repeat constructor|]. split; [done|]. cbn. by rewrite !app_nil_r.
Qed.

Lemma card_log_keyed : well_keyed (λ value, value) card_log.
Proof.
  intros msg card Hin. unfold card_log in Hin. cbn in Hin.
  repeat (apply elem_of_cons in Hin as [->|Hin]; [by intros [= <-]|]). by apply elem_of_nil in Hin.
Qed.

(** The risk agent's latest card is found either way; the retired agent's, which a tombstone
    shadows, only before compaction. *)
Lemma discovery_stable_under_compaction_witness :
  ∃ cards cards',
    discover_agents (λ value, value) (scan_log card_log) = Ok cards ∧
    discover_agents (λ value, value) (scan_log compacted_log) = Ok cards' ∧
    risk_card ∈ cards ∧ risk_card ∈ cards' ∧ retired_card ∈ cards ∧ retired_card ∉ cards'.
Proof.
  assert (Hc : compacts rec_key card_log compacted_log).
  { apply (compact_drop _ _ (card_record risk_card)); [set_solver|reflexivity|].
    apply (compact_drop _ _ retired_tombstone); [set_solver|reflexivity|]. repeat constructor. }
  destruct (discovery_stable_under_compaction (λ value, value) (scan_log card_log) card_log
    (scan_log compacted_log) compacted_log RISK_CAPABILITY_ID card_log_keyed Hc (scan_delivers _)
    (scan_delivers _)) as (cards & cards' & H1 & H2 & _ & _ & Hboth & _ & Hexact).
  exists cards, cards'. split; [exact H1|]. split; [exact H2|].
  destruct (Hboth risk_card (card_record risk_card)) as [Hr Hr']; [vm_compute; reflexivity..|].
  split; [exact Hr|]. split; [exact Hr'|]. split.
  - vm_compute in H1. injection H1 as <-. right. left.
  - assert (Hnd : NoDup (map rec_key compacted_log)).
    { apply (bool_decide_eq_true_1 (NoDup (map rec_key compacted_log))). vm_compute. reflexivity. }
    rewrite (Hexact Hnd). intros (msg & Hm & Hcard). vm_compute in Hm. injection Hm as <-.
    discriminate Hcard.
Defined.
